(* ===== verification/_CoqProject ===== *)
-Q . S2P
Prelude.v
Machine.v
Layout.v
Cstring.v
Spinlock.v
Uart.v
Screen.v
Kalloc.v
Idt.v
Gdt.v
Pic.v
Ioapic.v
Acpi.v
Pmem.v
Kbd.v
Paging.v
Proc.v
Syscall.v
Ide.v
Trap.v
Sched.v
Kernel.v
Boot.v
