(* ===== verification/Prelude.v ===== *)
(** * os-dev: a verification library for the kernel of [src/kernel]

    The program is a small 32-bit x86 kernel in C: [main] (kernel.c) brings up
    the console, the segments, the memory map, the interrupt tables, the
    drivers, the page allocator and paging, makes one process from an embedded
    program and enters a round-robin scheduler.  Processes come back through
    interrupts and two system calls.  This library translates its C code into
    executable definitions over one machine state and proves what the parts
    promise and how they fit together.

    ** The model

    - [Prelude]: fixed-width arithmetic, the state-and-error monad [M] (its
      results: [Ok], [Panic] with the message of the [panic] called, [Hang] for
      a loop that never ends, [Undef] where C gives no meaning), loops, and the
      rules and tactics to reason about them.  A [while] loop is [loop k], at
      most [2^k] rounds; [k] is chosen so that the counter or pointer of the
      source cannot take more values, and the theorems prove that the rounds
      suffice where they claim a result.
    - [Machine]: the state, a [Record] per group of C globals (the file that
      owns them is named at each), RAM as a map of bytes, the processor's
      registers the kernel uses, the history of device accesses, and the MMU
      (a two-level page walk).  What is outside of the C code is the class
      [Env]: the answers of devices (any function of the history), the
      addresses of symbols, stack pointers that compiled code and swtch.asm
      determine, and the memory the machine has.  A kernel address behind which
      there is no memory faults; what a fault does depends on the handler
      registered for it.
    - [Layout] (paging.h), [Cstring] (lib/string.c), [Spinlock] (spinlock.c,
      mycpu), [Uart] (drivers/uart.c), [Screen] (drivers/screen.c, vga.h and
      lib/debug.h, debug.c), [Kalloc] (kalloc.c), [Idt] (idt.c without
      its dispatcher), [Gdt] (gdt.c, cpu_init of cpu.c), [Pic] (pic.c,
      drivers/timer.c), [Ioapic] (drivers/ioapic.c and uartinit), [Acpi]
      (drivers/acpi.c), [Pmem] (pmem.c), [Kbd] (drivers/kbd.c, kbdmapus.c),
      [Paging] (paging.c), [Proc] (proc.c), [Syscall] (syscall.c, syshello.c,
      sysproc.c), [Ide] (drivers/ide.c), [Trap] (isr_handler of idt.c),
      [Sched] (the scheduler, the traps and the processes as a transition
      system), [Kernel] (main and the first process) and [Boot] (the run of
      main from the boot loader's machine).

    Definitions keep the names of the C functions.  A part of a function that
    needs a name of its own (a loop body, the code up to a [swtch]) has the
    function's name as a prefix.  Structures that C code only reaches through
    pointers into pages or firmware tables (trap states, page tables, ACPI
    tables, the E820 map) are bytes of RAM at their offsets; structures with
    static storage are records.

    ** What is proved

    - The system: [Boot.main_boots] composes the components.  From a machine as
      the boot loader leaves it ([Boot.bootable]: the memory map and the memory
      it describes, the ACPI tables in it, where the image lies, a drive that
      answers), [main] runs through, the invariant of the running system holds,
      the first process reaches user mode with the embedded program in its
      memory, and later steps of the kernel stop only for the events
      [Sched.fatal] lists.
    - Memory: the allocator never hands out a page twice and loses none
      ([Kalloc.heap_conserved], against its clients' traces), every outcome of
      [kfree] for every address, [kinit2] frees exactly the whole
      pages of a range; [mappages], [setupkvm], [inituvm] and [freevm] build and
      release exactly the translations they should, read through the MMU, and
      the only failures are the listed ones.  [Paging] is proved against the
      class [Kalloc.Allocator], which [Kalloc] implements.
    - Locks: acquire and release are inverse up to debugging data, misuse
      panics, and no lock is held while interrupts are enabled.
    - Processes: [process_alloc] and [initproc_init] on every branch; in
      [Sched], runs of processes, system calls, interrupts on any line wherever
      they are enabled, and exceptions ([step], one event each): every step
      returns or, for an interrupt without a driver or an exception, panics with
      the message [fatal] gives ([kernel_run_safe], by rule induction over the
      runs), the MMU translates with the directory in CR3 as the memory accesses
      of the model do ([direct_map]), processes only move along their life
      cycle, and the scheduler reaches the first runnable process; [Kernel] and
      [Boot] show that the end of [main] establishes the invariant these runs
      start from.
    - Traps and system calls: what the argument fetchers accept for every
      argument and size, the handler never faults for any number or argument,
      devices are served and acknowledged, unregistered vectors print their
      report and panic.
    - Devices and tables: [cprintf] prints exactly the rendered format; numbers
      read back; descriptors and gates decode to what was asked for; the exact
      port accesses of the controllers and the timer; disk requests as an ATA
      drive's task file and redirection tables as the controller's registers
      hold them; every outcome of [ide_init] by how the drive answers; what is
      registered of the ACPI tables; the memory map's outcomes; the keyboard's
      effect for every scancode, and the US layout.

    Each property with hypotheses has a witness, a closed instance on a
    concrete machine ([Spinlock.demo_machine] and its variations; for the whole
    start and for the runs of [Sched], [Boot.boot_ram] with the drive
    [Ide.disk_env]).

    ** Limits of the model

    - One processor ([mycpu] always answers the first one), memory accesses in
      program order, no self-modifying code.  The handlers of interrupts and
      exceptions run with interrupts disabled, as their gates say; the gate of
      system calls leaves them enabled, and there [Sched] has interrupts at the
      entry and at the exit of the call, not inside of its body.
    - The C stack is not RAM of the model: local variables are values, and the
      addresses that [getcallerpcs] walks are parameters.
    - A panic ends a computation with its message; what [panic] then prints
      is [Screen.panic], and [Screen.with_panic] joins the two.
    - [ide_init] polls the disk as long as the disk wants, so it has a fuel
      argument of its own, and so has [main]; any fuel above the number of
      polls for which the drive stays busy is enough ([Ide.drive_answers]).
    - C code reads and writes kernel addresses through the direct map; that the
      directories in CR3 are such maps is proved for the running system
      ([Sched.direct_map]).  Before [paging_init] the 4 MB page of the entry
      code is in use, and the code of that time stays below it.  Lower
      addresses walk the page tables.
    - RAM has its A20 line enabled; the boot loader's page directory is a
      hypothesis of the theorem on [pmem_init].
    - Counters that the source keeps in an [int] and that the locking discipline
      keeps small ([ncli]) are unbounded integers.
    - Drives and controllers take accesses at once: their timing is only what
      status reads answer.

    ** Not modelled

    The boot sector and the assembly files (kernel_entry, isr, swtch, gdt_load:
    not C; their effects enter as parameters and as the entry and exit steps of
    [Sched]), the user programs (init.c runs in user mode: the kernel copies its image,
    and [Sched] lets a process do anything a user program could), and constants
    and prototypes no code uses. *)

From stdpp Require Export base tactics numbers list option strings gmap.
From Stdlib Require Export ZArith Lia Bool.

#[export] Set Default Goal Selector "!".
#[export] Set Warnings "-clear-no-such-hyp".

Declare Scope c_scope.
Delimit Scope c_scope with C.
#[global] Open Scope Z_scope.

(** ** Machine-width integers *)

(** A C unsigned integer of w bits is a [Z] in [0, 2^w); every C operation
    that may leave that range is followed by one of these reductions. *)
Definition wrap8 (x : Z) : Z := x mod 256.
Definition wrap16 (x : Z) : Z := x mod 65536.
Definition wrap32 (x : Z) : Z := x mod 4294967296.
Definition wrap64 (x : Z) : Z := x mod 18446744073709551616.

(** Conversion of an unsigned value to the signed type of the same width
    (two's complement, as the i386 ABI has it). *)
Definition sext8 (x : Z) : Z := let y := wrap8 x in if y <? 128 then y else y - 256.
Definition sext32 (x : Z) : Z :=
  let y := wrap32 x in if y <? 2147483648 then y else y - 4294967296.

Notation "x '+u' y" := (wrap32 (x + y)) (at level 50, left associativity) : c_scope.
Notation "x '-u' y" := (wrap32 (x - y)) (at level 50, left associativity) : c_scope.
Notation "x '&' y" := (Z.land x y) (at level 48, left associativity) : c_scope.
Notation "x '.|' y" := (Z.lor x y) (at level 52, left associativity) : c_scope.
Notation "x '<<' y" := (Z.shiftl x y) (at level 46, left associativity) : c_scope.
Notation "x '>>' y" := (Z.shiftr x y) (at level 46, left associativity) : c_scope.
#[global] Open Scope c_scope.

Ltac Zify.zify_post_hook ::= Z.to_euclidean_division_equations.

(** Unfolds the width reductions, for [lia]. *)
Ltac unwrap := unfold wrap8, wrap16, wrap32, wrap64 in *.
Ltac ulia := unwrap; lia.

Lemma wrap8_range x : 0 <= wrap8 x < 256.
Proof. ulia. Qed.
Lemma wrap16_range x : 0 <= wrap16 x < 65536.
Proof. ulia. Qed.
Lemma wrap32_range x : 0 <= wrap32 x < 4294967296.
Proof. ulia. Qed.
Lemma wrap8_small x : 0 <= x < 256 -> wrap8 x = x.
Proof. ulia. Qed.
Lemma wrap32_small x : 0 <= x < 4294967296 -> wrap32 x = x.
Proof. ulia. Qed.

Lemma sext8_inj x y : 0 <= x < 256 -> 0 <= y < 256 -> sext8 x = sext8 y -> x = y.
Proof.
  intros Hx Hy. unfold sext8. rewrite !wrap8_small by lia.
  destruct (x <? 128) eqn:E1, (y <? 128) eqn:E2; lia.
Qed.

Create Rewrite HintDb wrap.
#[export] Hint Rewrite wrap8_small wrap32_small using lia : wrap.

(** ** Bit arithmetic: masks and shifts as division and remainder *)

Lemma land_ones_mod n x : 0 <= n -> x & Z.ones n = x mod 2 ^ n.
Proof. intros. by apply Z.land_ones. Qed.

Lemma land_0xff x : x & 0xff = x mod 256.
Proof. apply (land_ones_mod 8). lia. Qed.
Lemma land_0x3ff x : x & 0x3ff = x mod 1024.
Proof. apply (land_ones_mod 10). lia. Qed.
Lemma land_0xfff x : x & 0xfff = x mod 4096.
Proof. apply (land_ones_mod 12). lia. Qed.
Lemma land_0xffff x : x & 0xffff = x mod 65536.
Proof. apply (land_ones_mod 16). lia. Qed.

Lemma ldiff_ones_mod n x : 0 <= n -> Z.ldiff x (Z.ones n) = x - x mod 2 ^ n.
Proof.
  intros Hn. rewrite Z.ldiff_ones_r by done. rewrite Z.shiftl_mul_pow2 by done.
  rewrite Z.shiftr_div_pow2 by done.
  pose proof (Z.div_mod x (2 ^ n)) as H. specialize (H ltac:(lia)). lia.
Qed.

(** [x & ~(2^n - 1)] on a w-bit value: what the alignment macros compute. *)
Lemma land_align12 x :
  0 <= x < 4294967296 -> x & (Z.ldiff 0xffffffff 0xfff) = x - x mod 4096.
Proof.
  intros Hx. change 0xfff with (Z.ones 12). rewrite <- (ldiff_ones_mod 12) by lia.
  assert (x & 0xffffffff = x) as E.
  { change 0xffffffff with (Z.ones 32). rewrite Z.land_ones by lia. apply Z.mod_small. lia. }
  rewrite <- E at 2. apply Z.bits_inj'. intros i Hi.
  rewrite ?Z.land_spec, ?Z.ldiff_spec, ?Z.land_spec. by destruct (Z.testbit x i).
Qed.

(** Testing a bit with a mask. *)
Lemma land_pow2_eqb e n : 0 <= n -> ((e & 2 ^ n) =? 0) = negb (Z.testbit e n).
Proof.
  intros Hn. destruct (Z.testbit e n) eqn:E; cbn [negb].
  - apply Z.eqb_neq. intros H. assert (Z.testbit (e & 2 ^ n) n = false) as H' by (rewrite H; apply Z.bits_0).
    rewrite Z.land_spec, E, Z.pow2_bits_true in H' by done. done.
  - apply Z.eqb_eq. apply Z.bits_inj'. intros i Hi. rewrite Z.land_spec, Z.bits_0, Z.pow2_bits_eqb by done.
    destruct (Z.eqb_spec n i) as [<-|]; [by rewrite E|by rewrite andb_false_r].
Qed.

Lemma testbit_small x n : 0 <= n -> 0 <= x < 2 ^ n -> Z.testbit x n = false.
Proof. intros Hn Hx. rewrite <- (Z.mod_small x (2 ^ n)) by done. apply Z.mod_pow2_bits_high. lia. Qed.

(** Disjoint bit fields add up. *)
Lemma lor_disjoint_add a b n :
  0 <= n -> 0 <= b < 2 ^ n -> a mod 2 ^ n = 0 -> a .| b = a + b.
Proof.
  intros Hn Hb Ha.
  assert (Z.land a b = 0) as E.
  { apply Z.bits_inj'. intros i Hi. rewrite Z.land_spec, Z.bits_0.
    destruct (Z.lt_ge_cases i n).
    - assert (Z.testbit a i = false) as ->; [|done].
      rewrite <- (Z.mod_pow2_bits_low a n i) by done. rewrite Ha. apply Z.bits_0.
    - rewrite andb_comm, <- (Z.mod_small b (2 ^ n)) by done.
      by rewrite Z.mod_pow2_bits_high by lia. }
  pose proof (Z.add_lor_land a b). lia.
Qed.

(** ** The kernel monad: state passing with panics and endless loops *)

(** What running a piece of kernel code gives: a value, a call of [panic]
    (which never returns) with its message, a loop that never ends, or an
    access the C standard gives no meaning to (an array index out of range). *)
Inductive result (A : Type) : Type :=
| Ok (a : A)
| Panic (msg : string)
| Hang
| Undef (what : string).
Arguments Ok {A} a.
Arguments Panic {A} msg.
Arguments Hang {A}.
Arguments Undef {A} what.

Definition M (St A : Type) : Type := St -> result A * St.

#[export] Instance M_ret {St} : MRet (M St) := fun A a s => (Ok a, s).
#[export] Instance M_bind {St} : MBind (M St) := fun A B f m s =>
  match m s with
  | (Ok a, s') => f a s'
  | (Panic msg, s') => (Panic msg, s')
  | (Hang, s') => (Hang, s')
  | (Undef w, s') => (Undef w, s')
  end.

Definition gets {St A} (f : St -> A) : M St A := fun s => (Ok (f s), s).
Definition modify {St} (f : St -> St) : M St unit := fun s => (Ok tt, f s).
Definition raise_panic {St A} (msg : string) : M St A := fun s => (Panic msg, s).
Definition hang {St A} : M St A := fun s => (Hang, s).
Definition undef {St A} (what : string) : M St A := fun s => (Undef what, s).
Definition when {St} (b : bool) (m : M St unit) : M St unit := if b then m else mret tt.

Section MonadRules.
Context {St A B : Type}.
Implicit Types (s : St) (m : M St A) (f : A -> M St B).

Lemma bind_ok m f s a s' : m s = (Ok a, s') -> mbind f m s = f a s'.
Proof. intros E. unfold mbind, M_bind. by rewrite E. Qed.
Lemma bind_panic m f s msg s' : m s = (Panic msg, s') -> mbind f m s = (Panic msg, s').
Proof. intros E. unfold mbind, M_bind. by rewrite E. Qed.
Lemma bind_hang m f s s' : m s = (Hang, s') -> mbind f m s = (Hang, s').
Proof. intros E. unfold mbind, M_bind. by rewrite E. Qed.
Lemma bind_gets (g : St -> A) f s : mbind f (gets g) s = f (g s) s.
Proof. done. Qed.
Lemma bind_ret (a : A) f s : mbind f (mret a) s = f a s.
Proof. done. Qed.
Lemma bind_raise f msg s : mbind f (raise_panic msg) s = (Panic msg, s).
Proof. done. Qed.
Lemma bind_inv m f s r s' :
  mbind f m s = (r, s') ->
  (exists a s1, m s = (Ok a, s1) /\ f a s1 = (r, s')) \/
  (exists msg, m s = (Panic msg, s') /\ r = Panic msg) \/
  (m s = (Hang, s') /\ r = Hang) \/
  (exists w, m s = (Undef w, s') /\ r = Undef w).
Proof.
  unfold mbind, M_bind. destruct (m s) as [[a|msg| |w] s1]; intros E; simplify_eq.
  - left. eauto.
  - right; left. eauto.
  - right; right; left. done.
  - do 3 right. eauto.
Qed.
End MonadRules.

Lemma bind_modify {St B} (g : St -> St) (f : unit -> M St B) s :
  mbind f (modify g) s = f tt (g s).
Proof. done. Qed.

(** Runs the first two steps together. *)
Lemma bind_ok_assoc {St A B C} (m : M St A) (f : A -> M St B) (k : B -> M St C) s b s' :
  (a ← m; f a) s = (Ok b, s') -> (a ← m; b ← f a; k b) s = k b s'.
Proof. unfold mbind, M_bind. destruct (m s) as [[a|msg| |w] s1]; intros E; try done. by rewrite E. Qed.

(** Runs the monadic prefix that is plain state access. *)
Ltac mstep :=
  repeat first
    [ rewrite bind_gets | rewrite bind_modify | rewrite bind_ret | rewrite bind_raise ]; cbv beta.

(** [wp m s Q]: [m] run from [s] returns (no panic, no endless loop), and the
    value and the state it returns satisfy [Q]. *)
Definition wp {St A} (m : M St A) (s : St) (Q : A -> St -> Prop) : Prop :=
  match m s with (Ok a, s') => Q a s' | _ => False end.

(** [keeps R m]: however [m] ends, the state it leaves is related by [R] to
    the state it started from. *)
Definition keeps {St A} (R : St -> St -> Prop) (m : M St A) : Prop :=
  forall s, R s (m s).2.

Section WpRules.
Context {St : Type}.

Lemma wp_ok {A} (m : M St A) s Q :
  wp m s Q <-> exists a s', m s = (Ok a, s') /\ Q a s'.
Proof.
  unfold wp. destruct (m s) as [[a|msg| |w] s']; split; intros H; try done.
  - by exists a, s'.
  - destruct H as (? & ? & ? & ?); by simplify_eq.
  - by destruct H as (? & ? & ? & ?).
  - by destruct H as (? & ? & ? & ?).
  - by destruct H as (? & ? & ? & ?).
Qed.
Lemma wp_bind {A B} (m : M St A) (f : A -> M St B) s Q :
  wp m s (fun a s' => wp (f a) s' Q) -> wp (mbind f m) s Q.
Proof. unfold wp, mbind, M_bind. destruct (m s) as [[a|msg| |w] s']; done. Qed.
Lemma wp_mono {A} (m : M St A) s (Q Q' : A -> St -> Prop) :
  wp m s Q -> (forall a s', Q a s' -> Q' a s') -> wp m s Q'.
Proof. unfold wp. destruct (m s) as [[a|msg| |w] s']; naive_solver. Qed.
Lemma wp_ret {A} (a : A) (s : St) (Q : A -> St -> Prop) : Q a s -> wp (mret a) s Q.
Proof. done. Qed.
End WpRules.

Section KeepsRules.
Context {St : Type} (R : St -> St -> Prop) `{!PreOrder R}.

Lemma keeps_ret {A} (a : A) : keeps R (mret a).
Proof. intros s. reflexivity. Qed.
Lemma keeps_gets {A} (g : St -> A) : keeps R (gets g).
Proof. intros s. reflexivity. Qed.
Lemma keeps_raise {A} msg : keeps R (raise_panic (A:=A) msg).
Proof. intros s. reflexivity. Qed.
Lemma keeps_hang {A} : keeps R (hang (A:=A)).
Proof. intros s. reflexivity. Qed.
Lemma keeps_undef {A} w : keeps R (undef (A:=A) w).
Proof. intros s. reflexivity. Qed.
Lemma keeps_modify g : (forall s, R s (g s)) -> keeps R (modify g).
Proof. intros H s. apply H. Qed.
Lemma keeps_bind {A B} (m : M St A) (f : A -> M St B) :
  keeps R m -> (forall a, keeps R (f a)) -> keeps R (mbind f m).
Proof.
  intros Hm Hf s. unfold mbind, M_bind. specialize (Hm s).
  destruct (m s) as [[a|msg| |w] s']; simpl in *; [|done|done|done].
  etrans; [exact Hm | apply Hf].
Qed.
Lemma keeps_when b m : keeps R m -> keeps R (when b m).
Proof. destruct b; [done|]. intros _. apply keeps_ret. Qed.
End KeepsRules.

(** ** Loops *)

(** [iter_until k body a] calls [body] up to 2^k times, until it answers
    [inr]: the bound is written in binary, so that loops over a 32-bit
    counter or over the 2^20 pages of an address space can be run for as
    long as the counter takes to come back to its first value. *)
Fixpoint iter_until {St A B} (k : nat) (body : A -> M St (A + B)) (a : A) : M St (A + B) :=
  match k with
  | O => body a
  | S k' =>
      r ← iter_until k' body a;
      match r with
      | inl a' => iter_until k' body a'
      | inr b => mret (inr b)
      end
  end.

(** A C loop whose 2^k-fold repetition without an exit means it never ends. *)
Definition loop {St A B} (k : nat) (body : A -> M St (A + B)) (a : A) : M St B :=
  r ← iter_until k body a;
  match r with
  | inl _ => hang
  | inr b => mret b
  end.

Section LoopRules.
Context {St A B : Type} (body : A -> M St (A + B)).
Context (I : nat -> A -> St -> Prop) (Q : result B -> St -> Prop).

(** One call of the body from a state with variant [n]. *)
Definition loop_body_ok : Prop := forall n a s, I n a s ->
  match body a s with
  | (Ok (inl a'), s') => exists n', (n' < n)%nat /\ I n' a' s'
  | (Ok (inr b), s') => Q (Ok b) s'
  | (Panic msg, s') => Q (Panic msg) s'
  | (Hang, s') => Q Hang s'
  | (Undef w, s') => Q (Undef w) s'
  end.

Lemma iter_until_inv k n a s :
  loop_body_ok -> I n a s ->
  match iter_until k body a s with
  | (Ok (inl a'), s') => exists n', (n' + 2 ^ k <= n)%nat /\ I n' a' s'
  | (Ok (inr b), s') => Q (Ok b) s'
  | (Panic msg, s') => Q (Panic msg) s'
  | (Hang, s') => Q Hang s'
  | (Undef w, s') => Q (Undef w) s'
  end.
Proof.
  intros Hb. revert n a s. induction k as [|k IH]; intros n a s HI; simpl.
  - specialize (Hb n a s HI). destruct (body a s) as [[[a'|b]|msg| |w] s']; try done.
    destruct Hb as (n' & ? & ?). exists n'. split; [lia|done].
  - pose proof (IH n a s HI) as H1. unfold mbind, M_bind.
    destruct (iter_until k body a s) as [[[a'|b]|msg| |w] s']; try done.
    destruct H1 as (n1 & Hn1 & HI1). pose proof (IH n1 a' s' HI1) as H2.
    destruct (iter_until k body a' s') as [[[a2|b]|msg| |w] s2]; try done.
    destruct H2 as (n2 & ? & ?). exists n2. split; [lia|done].
Qed.

(** Total correctness of a loop: an invariant with a variant below 2^k. *)
Lemma loop_inv k n a s :
  loop_body_ok -> I n a s -> (n < 2 ^ k)%nat ->
  Q (loop k body a s).1 (loop k body a s).2.
Proof.
  intros Hb HI Hn. pose proof (iter_until_inv k n a s Hb HI) as H.
  unfold loop, mbind, M_bind.
  destruct (iter_until k body a s) as [[[a'|b]|msg| |w] s']; simpl; try done.
  destruct H as (n' & ? & ?). lia.
Qed.

(** The same with the bound on the variant stated over [Z]. *)
Lemma loop_inv_Z k n a s :
  loop_body_ok -> I n a s -> Z.of_nat n < 2 ^ Z.of_nat k ->
  Q (loop k body a s).1 (loop k body a s).2.
Proof.
  intros Hb HI Hn. apply (loop_inv k n); [done|done|].
  apply Nat2Z.inj_lt. by rewrite Nat2Z.inj_pow.
Qed.
End LoopRules.

Lemma keeps_iter_until {St A B} (R : St -> St -> Prop) `{!PreOrder R} k
    (body : A -> M St (A + B)) a :
  (forall a, keeps R (body a)) -> keeps R (iter_until k body a).
Proof.
  intros Hb. revert a. induction k as [|k IH]; intros a; simpl; [apply Hb|].
  apply keeps_bind; [done|apply IH|]. intros [a'|b]; [apply IH|]. by apply keeps_ret.
Qed.

Lemma keeps_loop {St A B} (R : St -> St -> Prop) `{!PreOrder R} k
    (body : A -> M St (A + B)) a :
  (forall a, keeps R (body a)) -> keeps R (loop k body a).
Proof.
  intros Hb. apply keeps_bind; [done|by apply keeps_iter_until|].
  intros [a'|b]; [by apply keeps_hang|by apply keeps_ret].
Qed.

(** [runs R m]: [m] always returns, and leaves a state related by [R] to the
    one it started from. *)
Definition runs {St A} (R : St -> St -> Prop) (m : M St A) : Prop :=
  forall s, exists a s', m s = (Ok a, s') /\ R s s'.

Section RunsRules.
Context {St : Type} (R : St -> St -> Prop) `{!PreOrder R}.

Lemma runs_ret {A} (a : A) : runs R (mret a).
Proof. intros s. by exists a, s. Qed.
Lemma runs_gets {A} (g : St -> A) : runs R (gets g).
Proof. intros s. by exists (g s), s. Qed.
Lemma runs_modify g : (forall s, R s (g s)) -> runs R (modify g).
Proof. intros H s. by exists tt, (g s). Qed.
Lemma runs_bind {A B} (m : M St A) (f : A -> M St B) :
  runs R m -> (forall a, runs R (f a)) -> runs R (mbind f m).
Proof.
  intros Hm Hf s. destruct (Hm s) as (a & s1 & E1 & H1). destruct (Hf a s1) as (b & s2 & E2 & H2).
  exists b, s2. split; [by rewrite (bind_ok _ _ _ _ _ E1)|by etrans].
Qed.
Lemma runs_when b m : runs R m -> runs R (when b m).
Proof. destruct b; [done|]. intros _. apply runs_ret. Qed.
End RunsRules.

Create HintDb keeps.
#[export] Hint Resolve keeps_ret keeps_gets keeps_raise keeps_hang keeps_undef keeps_bind keeps_when
  keeps_loop : keeps.

(** ** Strings *)

(** The bytes of a string constant, without its terminating NUL. *)
Fixpoint bytes_of (s : string) : list Z :=
  match s with
  | EmptyString => []
  | String.String c s' => Z.of_nat (Ascii.nat_of_ascii c) :: bytes_of s'
  end.

(** The string with the given bytes. *)
Definition string_of (l : list Z) : string :=
  foldr (fun c str => String.String (Ascii.ascii_of_nat (Z.to_nat c)) str) EmptyString l.
Lemma bytes_of_string_of l : Forall (fun c => 0 <= c < 256) l -> bytes_of (string_of l) = l.
Proof.
  induction 1 as [|c l Hc _ IH]; simpl; [done|]. rewrite IH, Ascii.nat_ascii_embedding by lia. f_equal. lia.
Qed.
