(* ===== verification/Machine.v ===== *)
(** * Machine: the state the kernel runs on

    The records mirror the C structures of the headers ([spinlock.h],
    [cpu.h], [gdt.h], [idt.h], [proc.h], [drivers/acpi.h], [fs/block.h]) and
    group the C globals by the file that owns them.  RAM is a byte map;
    the devices are an oracle that answers port reads from the whole history
    of port accesses. *)

From S2P Require Import Prelude.

(** ** C structures *)

(** [struct spinlock] (spinlock.h).  [lk_cpu] is the pointer to the holding
    cpu: [None] for 0, [Some i] for [&cpus[i]]. *)
Record spinlock : Type := mkSpinlock {
  locked : Z;
  lk_name : string;
  lk_cpu : option nat;
  pcs : list Z;
}.
Definition set_locked (x : Z) (r : spinlock) : spinlock :=
  {| locked := x; lk_name := lk_name r; lk_cpu := lk_cpu r; pcs := pcs r |}.
Definition set_lk_name (x : string) (r : spinlock) : spinlock :=
  {| locked := locked r; lk_name := x; lk_cpu := lk_cpu r; pcs := pcs r |}.
Definition set_lk_cpu (x : option nat) (r : spinlock) : spinlock :=
  {| locked := locked r; lk_name := lk_name r; lk_cpu := x; pcs := pcs r |}.
Definition set_pcs (x : list Z) (r : spinlock) : spinlock :=
  {| locked := locked r; lk_name := lk_name r; lk_cpu := lk_cpu r; pcs := x |}.

(** [struct segdesc] (gdt.h): one 8-byte descriptor. *)
Record segdesc : Type := mkSegdesc {
  limit_lo : Z;
  base_lo : Z;
  base_mi : Z;
  access : Z;
  flags : Z;
  base_hi : Z;
}.

(** [struct taskstate] (cpu.h): the x86 task state segment. *)
Record taskstate : Type := mkTaskstate {
  link : Z;
  esp0 : Z;
  ss0 : Z;
  padding1 : Z;
  esp1 : Z;
  ss1 : Z;
  padding2 : Z;
  esp2 : Z;
  ss2 : Z;
  padding3 : Z;
  ts_cr3 : Z;
  ts_eip : Z;
  ts_eflags : Z;
  ts_eax : Z;
  ts_ecx : Z;
  ts_edx : Z;
  ts_ebx : Z;
  ts_esp : Z;
  ts_ebp : Z;
  ts_esi : Z;
  ts_edi : Z;
  ts_es : Z;
  padding4 : Z;
  ts_cs : Z;
  padding5 : Z;
  ts_ss : Z;
  padding6 : Z;
  ts_ds : Z;
  padding7 : Z;
  ts_fs : Z;
  padding8 : Z;
  ts_gs : Z;
  padding9 : Z;
  ldt : Z;
  padding10 : Z;
  ts_t : Z;
  iomb : Z;
}.
Definition set_esp0 (x : Z) (r : taskstate) : taskstate :=
  {| link := link r; esp0 := x; ss0 := ss0 r; padding1 := padding1 r; esp1 := esp1 r; ss1 :=
     ss1 r; padding2 := padding2 r; esp2 := esp2 r; ss2 := ss2 r; padding3 := padding3 r;
     ts_cr3 := ts_cr3 r; ts_eip := ts_eip r; ts_eflags := ts_eflags r; ts_eax := ts_eax r;
     ts_ecx := ts_ecx r; ts_edx := ts_edx r; ts_ebx := ts_ebx r; ts_esp := ts_esp r; ts_ebp
     := ts_ebp r; ts_esi := ts_esi r; ts_edi := ts_edi r; ts_es := ts_es r; padding4 :=
     padding4 r; ts_cs := ts_cs r; padding5 := padding5 r; ts_ss := ts_ss r; padding6 :=
     padding6 r; ts_ds := ts_ds r; padding7 := padding7 r; ts_fs := ts_fs r; padding8 :=
     padding8 r; ts_gs := ts_gs r; padding9 := padding9 r; ldt := ldt r; padding10 :=
     padding10 r; ts_t := ts_t r; iomb := iomb r |}.
Definition set_ss0 (x : Z) (r : taskstate) : taskstate :=
  {| link := link r; esp0 := esp0 r; ss0 := x; padding1 := padding1 r; esp1 := esp1 r; ss1
     := ss1 r; padding2 := padding2 r; esp2 := esp2 r; ss2 := ss2 r; padding3 := padding3 r;
     ts_cr3 := ts_cr3 r; ts_eip := ts_eip r; ts_eflags := ts_eflags r; ts_eax := ts_eax r;
     ts_ecx := ts_ecx r; ts_edx := ts_edx r; ts_ebx := ts_ebx r; ts_esp := ts_esp r; ts_ebp
     := ts_ebp r; ts_esi := ts_esi r; ts_edi := ts_edi r; ts_es := ts_es r; padding4 :=
     padding4 r; ts_cs := ts_cs r; padding5 := padding5 r; ts_ss := ts_ss r; padding6 :=
     padding6 r; ts_ds := ts_ds r; padding7 := padding7 r; ts_fs := ts_fs r; padding8 :=
     padding8 r; ts_gs := ts_gs r; padding9 := padding9 r; ldt := ldt r; padding10 :=
     padding10 r; ts_t := ts_t r; iomb := iomb r |}.
Definition set_iomb (x : Z) (r : taskstate) : taskstate :=
  {| link := link r; esp0 := esp0 r; ss0 := ss0 r; padding1 := padding1 r; esp1 := esp1 r;
     ss1 := ss1 r; padding2 := padding2 r; esp2 := esp2 r; ss2 := ss2 r; padding3 :=
     padding3 r; ts_cr3 := ts_cr3 r; ts_eip := ts_eip r; ts_eflags := ts_eflags r; ts_eax :=
     ts_eax r; ts_ecx := ts_ecx r; ts_edx := ts_edx r; ts_ebx := ts_ebx r; ts_esp := ts_esp
     r; ts_ebp := ts_ebp r; ts_esi := ts_esi r; ts_edi := ts_edi r; ts_es := ts_es r;
     padding4 := padding4 r; ts_cs := ts_cs r; padding5 := padding5 r; ts_ss := ts_ss r;
     padding6 := padding6 r; ts_ds := ts_ds r; padding7 := padding7 r; ts_fs := ts_fs r;
     padding8 := padding8 r; ts_gs := ts_gs r; padding9 := padding9 r; ldt := ldt r;
     padding10 := padding10 r; ts_t := ts_t r; iomb := x |}.

(** [struct cpu] (cpu.h).  [cpu_scheduler] is the [struct context *];
    [cpu_proc] points into the process table. *)
Record cpu : Type := mkCpu {
  apicid : Z;
  cpu_scheduler : Z;
  cpu_ts : taskstate;
  cpu_gdt : list segdesc;
  ncli : Z;
  intena : Z;
  cpu_proc : option nat;
}.
Definition set_apicid (x : Z) (r : cpu) : cpu :=
  {| apicid := x; cpu_scheduler := cpu_scheduler r; cpu_ts := cpu_ts r; cpu_gdt := cpu_gdt
     r; ncli := ncli r; intena := intena r; cpu_proc := cpu_proc r |}.
Definition set_cpu_scheduler (x : Z) (r : cpu) : cpu :=
  {| apicid := apicid r; cpu_scheduler := x; cpu_ts := cpu_ts r; cpu_gdt := cpu_gdt r; ncli
     := ncli r; intena := intena r; cpu_proc := cpu_proc r |}.
Definition set_cpu_ts (x : taskstate) (r : cpu) : cpu :=
  {| apicid := apicid r; cpu_scheduler := cpu_scheduler r; cpu_ts := x; cpu_gdt := cpu_gdt
     r; ncli := ncli r; intena := intena r; cpu_proc := cpu_proc r |}.
Definition set_cpu_gdt (x : list segdesc) (r : cpu) : cpu :=
  {| apicid := apicid r; cpu_scheduler := cpu_scheduler r; cpu_ts := cpu_ts r; cpu_gdt := x;
     ncli := ncli r; intena := intena r; cpu_proc := cpu_proc r |}.
Definition set_ncli (x : Z) (r : cpu) : cpu :=
  {| apicid := apicid r; cpu_scheduler := cpu_scheduler r; cpu_ts := cpu_ts r; cpu_gdt :=
     cpu_gdt r; ncli := x; intena := intena r; cpu_proc := cpu_proc r |}.
Definition set_intena (x : Z) (r : cpu) : cpu :=
  {| apicid := apicid r; cpu_scheduler := cpu_scheduler r; cpu_ts := cpu_ts r; cpu_gdt :=
     cpu_gdt r; ncli := ncli r; intena := x; cpu_proc := cpu_proc r |}.
Definition set_cpu_proc (x : option nat) (r : cpu) : cpu :=
  {| apicid := apicid r; cpu_scheduler := cpu_scheduler r; cpu_ts := cpu_ts r; cpu_gdt :=
     cpu_gdt r; ncli := ncli r; intena := intena r; cpu_proc := x |}.

(** [enum process_state] (proc.h). *)
Inductive process_state : Type :=
| UNUSED | INITIAL | RUNNABLE | RUNNING | SLEEPING | ZOMBIE.

#[export] Instance process_state_eq_dec : EqDecision process_state.
Proof. solve_decision. Defined.

(** [struct process] (proc.h).  [p_context], [pgdir], [kstack] and [tf] are
    addresses; the trap frame and the context they point to are in RAM. *)
Record process : Type := mkProcess {
  p_name : list Z;
  pid : Z;
  p_context : Z;
  p_state : process_state;
  xstate : Z;
  pgdir : Z;
  kstack : Z;
  sz : Z;
  tf : Z;
}.
Definition set_p_name (x : list Z) (r : process) : process :=
  {| p_name := x; pid := pid r; p_context := p_context r; p_state := p_state r; xstate :=
     xstate r; pgdir := pgdir r; kstack := kstack r; sz := sz r; tf := tf r |}.
Definition set_pid (x : Z) (r : process) : process :=
  {| p_name := p_name r; pid := x; p_context := p_context r; p_state := p_state r; xstate :=
     xstate r; pgdir := pgdir r; kstack := kstack r; sz := sz r; tf := tf r |}.
Definition set_p_context (x : Z) (r : process) : process :=
  {| p_name := p_name r; pid := pid r; p_context := x; p_state := p_state r; xstate :=
     xstate r; pgdir := pgdir r; kstack := kstack r; sz := sz r; tf := tf r |}.
Definition set_p_state (x : process_state) (r : process) : process :=
  {| p_name := p_name r; pid := pid r; p_context := p_context r; p_state := x; xstate :=
     xstate r; pgdir := pgdir r; kstack := kstack r; sz := sz r; tf := tf r |}.
Definition set_xstate (x : Z) (r : process) : process :=
  {| p_name := p_name r; pid := pid r; p_context := p_context r; p_state := p_state r;
     xstate := x; pgdir := pgdir r; kstack := kstack r; sz := sz r; tf := tf r |}.
Definition set_pgdir (x : Z) (r : process) : process :=
  {| p_name := p_name r; pid := pid r; p_context := p_context r; p_state := p_state r;
     xstate := xstate r; pgdir := x; kstack := kstack r; sz := sz r; tf := tf r |}.
Definition set_kstack (x : Z) (r : process) : process :=
  {| p_name := p_name r; pid := pid r; p_context := p_context r; p_state := p_state r;
     xstate := xstate r; pgdir := pgdir r; kstack := x; sz := sz r; tf := tf r |}.
Definition set_sz (x : Z) (r : process) : process :=
  {| p_name := p_name r; pid := pid r; p_context := p_context r; p_state := p_state r;
     xstate := xstate r; pgdir := pgdir r; kstack := kstack r; sz := x; tf := tf r |}.
Definition set_tf (x : Z) (r : process) : process :=
  {| p_name := p_name r; pid := pid r; p_context := p_context r; p_state := p_state r;
     xstate := xstate r; pgdir := pgdir r; kstack := kstack r; sz := sz r; tf := x |}.

(** [struct idt_entry] (idt.h). *)
Record idt_entry : Type := mkIdtEntry {
  idt_base_lo : Z;
  idt_selector : Z;
  idt_zero : Z;
  idt_type_attr : Z;
  idt_base_hi : Z;
}.

(** The C functions that [isr_register] is called with: the values of type
    [isr_fn] (idt.h) of this kernel. *)
Inductive isr_fn : Type :=
| page_fault_handler_fn | protection_fault_handler_fn | syscall_handler_fn
| timer_interrupt_handler_fn | kbd_interrupt_handler_fn | com1_interrupt_handler_fn
| ide_interrupt_handler_fn.

#[export] Instance isr_fn_eq_dec : EqDecision isr_fn.
Proof. solve_decision. Defined.

(** [struct acpi_info] (drivers/acpi.h): [cpu] holds (id, apic) pairs,
    [ioapic] holds (id, addr, base) triples. *)
Record acpi_info_t : Type := mkAcpiInfo {
  num_cpus : Z;
  acpi_cpu : list (Z * Z);
  num_ioapic : Z;
  acpi_ioapic : list (Z * Z * Z);
  int_map : list Z;
}.
Definition set_num_cpus (x : Z) (r : acpi_info_t) : acpi_info_t :=
  {| num_cpus := x; acpi_cpu := acpi_cpu r; num_ioapic := num_ioapic r; acpi_ioapic :=
     acpi_ioapic r; int_map := int_map r |}.
Definition set_acpi_cpu (x : list (Z * Z)) (r : acpi_info_t) : acpi_info_t :=
  {| num_cpus := num_cpus r; acpi_cpu := x; num_ioapic := num_ioapic r; acpi_ioapic :=
     acpi_ioapic r; int_map := int_map r |}.
Definition set_num_ioapic (x : Z) (r : acpi_info_t) : acpi_info_t :=
  {| num_cpus := num_cpus r; acpi_cpu := acpi_cpu r; num_ioapic := x; acpi_ioapic :=
     acpi_ioapic r; int_map := int_map r |}.
Definition set_acpi_ioapic (x : list (Z * Z * Z)) (r : acpi_info_t) : acpi_info_t :=
  {| num_cpus := num_cpus r; acpi_cpu := acpi_cpu r; num_ioapic := num_ioapic r; acpi_ioapic
     := x; int_map := int_map r |}.
Definition set_int_map (x : list Z) (r : acpi_info_t) : acpi_info_t :=
  {| num_cpus := num_cpus r; acpi_cpu := acpi_cpu r; num_ioapic := num_ioapic r; acpi_ioapic
     := acpi_ioapic r; int_map := x |}.

(** ** Devices and registers *)

(** One access to an I/O port or to a memory-mapped device register. *)
Inductive ioev : Type :=
| In8 (port v : Z) | Out8 (port v : Z)
| In16 (port v : Z) | Out16 (port v : Z)
| In32 (port v : Z) | Out32 (port v : Z)
| MmioRead (addr v : Z) | MmioWrite (addr v : Z).

#[export] Instance ioev_eq_dec : EqDecision ioev.
Proof. solve_decision. Defined.

(** Processor registers the C code reads or loads; [gdtr] and [idtr] are
    (limit, base) pairs. *)
Record regs : Type := mkRegs {
  eflags : Z;
  cr2 : Z;
  cr3 : Z;
  tr : Z;
  gdtr : Z * Z;
  idtr : Z * Z;
}.
Definition set_eflags (x : Z) (r : regs) : regs :=
  {| eflags := x; cr2 := cr2 r; cr3 := cr3 r; tr := tr r; gdtr := gdtr r; idtr := idtr r |}.
Definition set_cr2 (x : Z) (r : regs) : regs :=
  {| eflags := eflags r; cr2 := x; cr3 := cr3 r; tr := tr r; gdtr := gdtr r; idtr := idtr r
     |}.
Definition set_cr3 (x : Z) (r : regs) : regs :=
  {| eflags := eflags r; cr2 := cr2 r; cr3 := x; tr := tr r; gdtr := gdtr r; idtr := idtr r
     |}.
Definition set_tr (x : Z) (r : regs) : regs :=
  {| eflags := eflags r; cr2 := cr2 r; cr3 := cr3 r; tr := x; gdtr := gdtr r; idtr := idtr r
     |}.
Definition set_gdtr (x : Z * Z) (r : regs) : regs :=
  {| eflags := eflags r; cr2 := cr2 r; cr3 := cr3 r; tr := tr r; gdtr := x; idtr := idtr r
     |}.
Definition set_idtr (x : Z * Z) (r : regs) : regs :=
  {| eflags := eflags r; cr2 := cr2 r; cr3 := cr3 r; tr := tr r; gdtr := gdtr r; idtr := x
     |}.

(** ** C globals, by owning file *)

(** kalloc.c: [kmem], [kheap_start], [kheap_end]. *)
Record kmem_t : Type := mkKmem {
  kmem_lock : spinlock;
  use_lock : Z;
  freelist : Z;
  kheap_start : Z;
  kheap_end : Z;
}.
Definition set_kmem_lock (x : spinlock) (r : kmem_t) : kmem_t :=
  {| kmem_lock := x; use_lock := use_lock r; freelist := freelist r; kheap_start :=
     kheap_start r; kheap_end := kheap_end r |}.
Definition set_use_lock (x : Z) (r : kmem_t) : kmem_t :=
  {| kmem_lock := kmem_lock r; use_lock := x; freelist := freelist r; kheap_start :=
     kheap_start r; kheap_end := kheap_end r |}.
Definition set_freelist (x : Z) (r : kmem_t) : kmem_t :=
  {| kmem_lock := kmem_lock r; use_lock := use_lock r; freelist := x; kheap_start :=
     kheap_start r; kheap_end := kheap_end r |}.
Definition set_kheap_start (x : Z) (r : kmem_t) : kmem_t :=
  {| kmem_lock := kmem_lock r; use_lock := use_lock r; freelist := freelist r; kheap_start
     := x; kheap_end := kheap_end r |}.
Definition set_kheap_end (x : Z) (r : kmem_t) : kmem_t :=
  {| kmem_lock := kmem_lock r; use_lock := use_lock r; freelist := freelist r; kheap_start
     := kheap_start r; kheap_end := x |}.

(** drivers/screen.c: [cons]. *)
Record cons_t : Type := mkCons {
  cons_lock : spinlock;
  locking : Z;
}.
Definition set_cons_lock (x : spinlock) (r : cons_t) : cons_t :=
  {| cons_lock := x; locking := locking r |}.
Definition set_locking (x : Z) (r : cons_t) : cons_t :=
  {| cons_lock := cons_lock r; locking := x |}.

(** paging.c, pmem.c and drivers/acpi.c: the layout of physical memory. *)
Record vm_t : Type := mkVm {
  kpgdir : Z;
  phys_end : Z;
  acpi : Z;
  acpi_len : Z;
}.
Definition set_kpgdir (x : Z) (r : vm_t) : vm_t :=
  {| kpgdir := x; phys_end := phys_end r; acpi := acpi r; acpi_len := acpi_len r |}.
Definition set_phys_end (x : Z) (r : vm_t) : vm_t :=
  {| kpgdir := kpgdir r; phys_end := x; acpi := acpi r; acpi_len := acpi_len r |}.
Definition set_acpi (x : Z) (r : vm_t) : vm_t :=
  {| kpgdir := kpgdir r; phys_end := phys_end r; acpi := x; acpi_len := acpi_len r |}.
Definition set_acpi_len (x : Z) (r : vm_t) : vm_t :=
  {| kpgdir := kpgdir r; phys_end := phys_end r; acpi := acpi r; acpi_len := x |}.

(** proc.c: [ptable], [initproc], [nextpid]. *)
Record ptable_t : Type := mkPtable {
  pt_lock : spinlock;
  proc : list process;
  initproc : option nat;
  nextpid : Z;
}.
Definition set_pt_lock (x : spinlock) (r : ptable_t) : ptable_t :=
  {| pt_lock := x; proc := proc r; initproc := initproc r; nextpid := nextpid r |}.
Definition set_proc (x : list process) (r : ptable_t) : ptable_t :=
  {| pt_lock := pt_lock r; proc := x; initproc := initproc r; nextpid := nextpid r |}.
Definition set_initproc (x : option nat) (r : ptable_t) : ptable_t :=
  {| pt_lock := pt_lock r; proc := proc r; initproc := x; nextpid := nextpid r |}.
Definition set_nextpid (x : Z) (r : ptable_t) : ptable_t :=
  {| pt_lock := pt_lock r; proc := proc r; initproc := initproc r; nextpid := x |}.

(** idt.c: [idt], [isr_table]. *)
Record irq_t : Type := mkIrq {
  idt : list idt_entry;
  isr_table : list (option isr_fn);
}.
Definition set_idt (x : list idt_entry) (r : irq_t) : irq_t :=
  {| idt := x; isr_table := isr_table r |}.
Definition set_isr_table (x : list (option isr_fn)) (r : irq_t) : irq_t :=
  {| idt := idt r; isr_table := x |}.

(** The drivers' statics: uart.c, timer.c, kbd.c, ide.c, ioapic.c, acpi.c. *)
Record drv_t : Type := mkDrv {
  uart : Z;
  ticks : Z;
  shift : bool;
  alt : bool;
  ctrl : bool;
  ide_lock : spinlock;
  ide_identify_data : list Z;
  ioapic : Z;
  acpi_info : acpi_info_t;
}.
Definition set_uart (x : Z) (r : drv_t) : drv_t :=
  {| uart := x; ticks := ticks r; shift := shift r; alt := alt r; ctrl := ctrl r; ide_lock
     := ide_lock r; ide_identify_data := ide_identify_data r; ioapic := ioapic r; acpi_info
     := acpi_info r |}.
Definition set_ticks (x : Z) (r : drv_t) : drv_t :=
  {| uart := uart r; ticks := x; shift := shift r; alt := alt r; ctrl := ctrl r; ide_lock :=
     ide_lock r; ide_identify_data := ide_identify_data r; ioapic := ioapic r; acpi_info :=
     acpi_info r |}.
Definition set_shift (x : bool) (r : drv_t) : drv_t :=
  {| uart := uart r; ticks := ticks r; shift := x; alt := alt r; ctrl := ctrl r; ide_lock :=
     ide_lock r; ide_identify_data := ide_identify_data r; ioapic := ioapic r; acpi_info :=
     acpi_info r |}.
Definition set_alt (x : bool) (r : drv_t) : drv_t :=
  {| uart := uart r; ticks := ticks r; shift := shift r; alt := x; ctrl := ctrl r; ide_lock
     := ide_lock r; ide_identify_data := ide_identify_data r; ioapic := ioapic r; acpi_info
     := acpi_info r |}.
Definition set_ctrl (x : bool) (r : drv_t) : drv_t :=
  {| uart := uart r; ticks := ticks r; shift := shift r; alt := alt r; ctrl := x; ide_lock
     := ide_lock r; ide_identify_data := ide_identify_data r; ioapic := ioapic r; acpi_info
     := acpi_info r |}.
Definition set_ide_lock (x : spinlock) (r : drv_t) : drv_t :=
  {| uart := uart r; ticks := ticks r; shift := shift r; alt := alt r; ctrl := ctrl r;
     ide_lock := x; ide_identify_data := ide_identify_data r; ioapic := ioapic r; acpi_info
     := acpi_info r |}.
Definition set_ide_identify_data (x : list Z) (r : drv_t) : drv_t :=
  {| uart := uart r; ticks := ticks r; shift := shift r; alt := alt r; ctrl := ctrl r;
     ide_lock := ide_lock r; ide_identify_data := x; ioapic := ioapic r; acpi_info :=
     acpi_info r |}.
Definition set_ioapic (x : Z) (r : drv_t) : drv_t :=
  {| uart := uart r; ticks := ticks r; shift := shift r; alt := alt r; ctrl := ctrl r;
     ide_lock := ide_lock r; ide_identify_data := ide_identify_data r; ioapic := x;
     acpi_info := acpi_info r |}.
Definition set_acpi_info (x : acpi_info_t) (r : drv_t) : drv_t :=
  {| uart := uart r; ticks := ticks r; shift := shift r; alt := alt r; ctrl := ctrl r;
     ide_lock := ide_lock r; ide_identify_data := ide_identify_data r; ioapic := ioapic r;
     acpi_info := x |}.

(** The whole state.  [cpu0] is [cpus[0]], the only cpu [mycpu] returns;
    [cpus_ap] is the rest of [cpus].  [io] is the history of device accesses,
    the latest first. *)
Record machine : Type := mkMachine {
  mem : gmap Z Z;
  cpu_regs : regs;
  io : list ioev;
  cpu0 : cpu;
  cpus_ap : list cpu;
  kmem : kmem_t;
  cons : cons_t;
  vm : vm_t;
  ptable : ptable_t;
  irq : irq_t;
  drv : drv_t;
}.
Definition set_mem (x : gmap Z Z) (r : machine) : machine :=
  {| mem := x; cpu_regs := cpu_regs r; io := io r; cpu0 := cpu0 r; cpus_ap := cpus_ap r;
     kmem := kmem r; cons := cons r; vm := vm r; ptable := ptable r; irq := irq r; drv :=
     drv r |}.
Definition set_cpu_regs (x : regs) (r : machine) : machine :=
  {| mem := mem r; cpu_regs := x; io := io r; cpu0 := cpu0 r; cpus_ap := cpus_ap r; kmem :=
     kmem r; cons := cons r; vm := vm r; ptable := ptable r; irq := irq r; drv := drv r |}.
Definition set_io (x : list ioev) (r : machine) : machine :=
  {| mem := mem r; cpu_regs := cpu_regs r; io := x; cpu0 := cpu0 r; cpus_ap := cpus_ap r;
     kmem := kmem r; cons := cons r; vm := vm r; ptable := ptable r; irq := irq r; drv :=
     drv r |}.
Definition set_cpu0 (x : cpu) (r : machine) : machine :=
  {| mem := mem r; cpu_regs := cpu_regs r; io := io r; cpu0 := x; cpus_ap := cpus_ap r; kmem
     := kmem r; cons := cons r; vm := vm r; ptable := ptable r; irq := irq r; drv := drv r
     |}.
Definition set_cpus_ap (x : list cpu) (r : machine) : machine :=
  {| mem := mem r; cpu_regs := cpu_regs r; io := io r; cpu0 := cpu0 r; cpus_ap := x; kmem :=
     kmem r; cons := cons r; vm := vm r; ptable := ptable r; irq := irq r; drv := drv r |}.
Definition set_kmem (x : kmem_t) (r : machine) : machine :=
  {| mem := mem r; cpu_regs := cpu_regs r; io := io r; cpu0 := cpu0 r; cpus_ap := cpus_ap r;
     kmem := x; cons := cons r; vm := vm r; ptable := ptable r; irq := irq r; drv := drv r
     |}.
Definition set_cons (x : cons_t) (r : machine) : machine :=
  {| mem := mem r; cpu_regs := cpu_regs r; io := io r; cpu0 := cpu0 r; cpus_ap := cpus_ap r;
     kmem := kmem r; cons := x; vm := vm r; ptable := ptable r; irq := irq r; drv := drv r
     |}.
Definition set_vm (x : vm_t) (r : machine) : machine :=
  {| mem := mem r; cpu_regs := cpu_regs r; io := io r; cpu0 := cpu0 r; cpus_ap := cpus_ap r;
     kmem := kmem r; cons := cons r; vm := x; ptable := ptable r; irq := irq r; drv := drv r
     |}.
Definition set_ptable (x : ptable_t) (r : machine) : machine :=
  {| mem := mem r; cpu_regs := cpu_regs r; io := io r; cpu0 := cpu0 r; cpus_ap := cpus_ap r;
     kmem := kmem r; cons := cons r; vm := vm r; ptable := x; irq := irq r; drv := drv r |}.
Definition set_irq (x : irq_t) (r : machine) : machine :=
  {| mem := mem r; cpu_regs := cpu_regs r; io := io r; cpu0 := cpu0 r; cpus_ap := cpus_ap r;
     kmem := kmem r; cons := cons r; vm := vm r; ptable := ptable r; irq := x; drv := drv r
     |}.
Definition set_drv (x : drv_t) (r : machine) : machine :=
  {| mem := mem r; cpu_regs := cpu_regs r; io := io r; cpu0 := cpu0 r; cpus_ap := cpus_ap r;
     kmem := kmem r; cons := cons r; vm := vm r; ptable := ptable r; irq := irq r; drv := x
     |}.

(** ** The environment *)

(** What the C sources do not define: the answers of the devices, the
    addresses the compiler gives to function arguments on the stack, the
    addresses the linker gives to symbols, and the memory the machine has, by
    its addresses in the kernel half: RAM up to [ram_end], at least 4 MB, and
    the area [fw_start] to [fw_end] that the firmware uses for its tables. *)
Class Env : Type := {
  dev_in : list ioev -> Z -> Z;        (** port read, from the I/O history *)
  dev_mmio : list ioev -> Z -> Z;      (** device register read, likewise *)
  arg_addr : machine -> Z;             (** address of a callee's first argument *)
  swtch_esp : machine -> Z;            (** stack pointer [swtch] saves, swtch.asm *)
  sym_kmem_freelist : Z;               (** [&kmem.freelist] *)
  sym_cpus : Z;                        (** [&cpus[0]] *)
  sym_cpu0_ts : Z;                     (** [&cpus[0].ts] *)
  sym_cpu0_gdt : Z;                    (** [&cpus[0].gdt] *)
  sym_idt : Z;                         (** [&idt[0]] *)
  sym_isr_stub_table : Z -> Z;         (** [isr_stub_table[i]], isr.asm *)
  sym_trapret : Z;                     (** [trapret], isr.asm *)
  sym_enter_process : Z;               (** [enter_process], proc.c *)
  sym_k_end : Z;                       (** [__k_end], kernel.lds *)
  sym_init_start : Z;                  (** [_binary_user_init_start] *)
  sym_init_size : Z;                   (** [_binary_user_init_size] *)
  ram_end : Z;
  fw_start : Z;
  fw_end : Z;
  ram_end_range : 0x80400000 <= ram_end <= 4294967296;
}.

(** The monad of kernel code. *)
Abbreviation K := (M machine).

(** ** RAM *)

Definition KERNBASE : Z := 0x80000000.

(** RAM bytes are indexed by their address in the kernel's direct map: the
    byte at physical address [p] is at index [p + KERNBASE].  Addresses are
    taken modulo 2^32. *)
Definition mload8 (m : gmap Z Z) (a : Z) : Z := wrap8 (default 0 (m !! wrap32 a)).
Definition mstore8 (m : gmap Z Z) (a v : Z) : gmap Z Z := <[wrap32 a := wrap8 v]> m.

Definition mload32 (m : gmap Z Z) (a : Z) : Z :=
  mload8 m a + 256 * mload8 m (a + 1) + 65536 * mload8 m (a + 2) + 16777216 * mload8 m (a + 3).
Definition mstore32 (m : gmap Z Z) (a v : Z) : gmap Z Z :=
  mstore8 (mstore8 (mstore8 (mstore8 m a v) (a + 1) (v >> 8)) (a + 2) (v >> 16)) (a + 3) (v >> 24).

(** The two-level page walk of the x86 MMU (with 4 MB pages): the physical
    address, whether the page is writable and whether user code may use it. *)
Definition mmu_walk (m : gmap Z Z) (pdbr va : Z) : option (Z * bool * bool) :=
  let pde := mload32 m ((pdbr & 0xfffff000) + KERNBASE + 4 * ((va >> 22) & 0x3ff)) in
  if Z.testbit pde 0 then
    if Z.testbit pde 7 then
      Some ((pde & 0xffc00000) + (va & 0x3fffff), Z.testbit pde 1, Z.testbit pde 2)
    else
      let pte := mload32 m ((pde & 0xfffff000) + KERNBASE + 4 * ((va >> 12) & 0x3ff)) in
      if Z.testbit pte 0 then
        Some ((pte & 0xfffff000) + (va & 0xfff),
              Z.testbit pde 1 && Z.testbit pte 1, Z.testbit pde 2 && Z.testbit pte 2)
      else None
  else None.

(** ** Kernel-mode accesses *)

Section Access.
Context `{env : Env}.

(** The addresses of the kernel half behind which there is memory. *)
Definition kmapped (va : Z) : bool := (va <? ram_end) || ((fw_start <=? va) && (va <? fw_end)).

(** A kernel-mode access: in the upper half, memory is at its own index and
    the rest is not mapped; the lower half goes through the page directory in
    CR3 (CR0.WP is set, so a write needs a writable page).  That the directories
    the kernel loads into CR3 translate the upper half in this way is proved:
    [direct_map] in [Sched]. *)
Definition xlate (s : machine) (va : Z) (write : bool) : option Z :=
  let va := wrap32 va in
  if KERNBASE <=? va then (if kmapped va then Some va else None)
  else match mmu_walk (mem s) (cr3 (cpu_regs s)) va with
       | Some (pa, w, _) => if write && negb w then None else Some (pa + KERNBASE)
       | None => None
       end.

Definition set_cr2_of (va : Z) (s : machine) : machine :=
  set_cpu_regs (set_cr2 (wrap32 va) (cpu_regs s)) s.

(** A failing access raises exception 14.  The handler [paging_init] registers
    for it panics; before that, the access has no meaning: the dispatcher finds
    no handler, and its own report follows pointers that may fault again. *)
Definition page_fault {A} (va : Z) : K A := fun s =>
  match isr_table (irq s) !! 14%nat with
  | Some (Some page_fault_handler_fn) => (Panic "page fault not handled!", set_cr2_of va s)
  | _ => (Undef "page fault without a handler", set_cr2_of va s)
  end.

Definition load8 (va : Z) : K Z := fun s =>
  match xlate s va false with
  | Some a => (Ok (mload8 (mem s) a), s)
  | None => page_fault va s
  end.
Definition store8 (va v : Z) : K unit := fun s =>
  match xlate s va true with
  | Some a => (Ok tt, set_mem (mstore8 (mem s) a v) s)
  | None => page_fault va s
  end.

Definition load32 (va : Z) : K Z :=
  b0 ← load8 va; b1 ← load8 (va + 1); b2 ← load8 (va + 2); b3 ← load8 (va + 3);
  mret (b0 + 256 * b1 + 65536 * b2 + 16777216 * b3).
Definition store32 (va v : Z) : K unit :=
  _ ← store8 va v; _ ← store8 (va + 1) (v >> 8); _ ← store8 (va + 2) (v >> 16);
  store8 (va + 3) (v >> 24).

End Access.

(** ** Port I/O (low_level.h) *)

Section Ports.
Context `{env : Env}.

Definition push_io (e : ioev) (s : machine) : machine := set_io (e :: io s) s.

Definition inb (port : Z) : K Z := fun s =>
  let v := wrap8 (dev_in (io s) port) in (Ok v, push_io (In8 port v) s).
Definition outb (port v : Z) : K unit := modify (push_io (Out8 port (wrap8 v))).
Definition inw (port : Z) : K Z := fun s =>
  let v := wrap16 (dev_in (io s) port) in (Ok v, push_io (In16 port v) s).
Definition outw (port v : Z) : K unit := modify (push_io (Out16 port (wrap16 v))).

(** [rep insl]: [cnt] dwords from the port into memory. *)
Fixpoint insl (port addr : Z) (cnt : nat) : K unit :=
  match cnt with
  | O => mret tt
  | S n =>
      v ← (fun s => let v := wrap32 (dev_in (io s) port) in (Ok v, push_io (In32 port v) s));
      _ ← store32 addr v;
      insl port (addr + 4) n
  end.
(** [rep outsl]: [cnt] dwords from memory to the port. *)
Fixpoint outsl (port addr : Z) (cnt : nat) : K unit :=
  match cnt with
  | O => mret tt
  | S n =>
      v ← load32 addr;
      _ ← modify (push_io (Out32 port v));
      outsl port (addr + 4) n
  end.
End Ports.

(** ** Laws of RAM *)

(** The [n] bytes at [a] lie in the kernel half, do not wrap around and are
    memory. *)
Definition kspace `{env : Env} (a n : Z) : Prop :=
  KERNBASE <= a /\ a + n <= 4294967296 /\ (a + n <= ram_end \/ fw_start <= a /\ a + n <= fw_end).
(** The first 4 MB are RAM. *)
Lemma kspace_low `{env : Env} a n : KERNBASE <= a -> a + n <= 0x80400000 -> kspace a n.
Proof. pose proof ram_end_range. unfold kspace. lia. Qed.

Lemma mload8_range m a : 0 <= mload8 m a < 256.
Proof. apply wrap8_range. Qed.
Lemma mload32_range m a : 0 <= mload32 m a < 4294967296.
Proof.
  unfold mload32. pose proof (mload8_range m a). pose proof (mload8_range m (a + 1)).
  pose proof (mload8_range m (a + 2)). pose proof (mload8_range m (a + 3)). lia.
Qed.

Lemma mload8_store8 m a b v :
  mload8 (mstore8 m a v) b = if decide (wrap32 a = wrap32 b) then wrap8 v else mload8 m b.
Proof.
  unfold mload8, mstore8. case_decide as E.
  - rewrite E, lookup_insert_eq. simpl. ulia.
  - by rewrite lookup_insert_ne.
Qed.
Lemma mload8_store8_same m a v : mload8 (mstore8 m a v) a = wrap8 v.
Proof. rewrite mload8_store8. by case_decide. Qed.
Lemma mload8_store8_ne m a b v :
  wrap32 a <> wrap32 b -> mload8 (mstore8 m a v) b = mload8 m b.
Proof. intros. rewrite mload8_store8. by case_decide. Qed.

Lemma mload8_store32_ne m a b v :
  (forall i, 0 <= i < 4 -> wrap32 (a + i) <> wrap32 b) ->
  mload8 (mstore32 m a v) b = mload8 m b.
Proof.
  intros H. unfold mstore32.
  rewrite !mload8_store8_ne; [done| |apply H; lia|apply H; lia|apply H; lia].
  rewrite <- (Z.add_0_r a). apply H. lia.
Qed.

Lemma bytes4_combine v :
  wrap8 v + 256 * wrap8 (v >> 8) + 65536 * wrap8 (v >> 16) + 16777216 * wrap8 (v >> 24)
  = wrap32 v.
Proof. rewrite !Z.shiftr_div_pow2 by lia. simpl (2 ^ _). ulia. Qed.

Lemma mload32_store32_same m a v : mload32 (mstore32 m a v) a = wrap32 v.
Proof.
  assert (forall i j, 0 <= i < 4 -> 0 <= j < 4 -> i <> j -> wrap32 (a + i) <> wrap32 (a + j)) as Hd
    by (intros i j ???; ulia).
  unfold mload32, mstore32. rewrite <- bytes4_combine.
  assert (forall m v, mstore8 m a v = mstore8 m (a + 0) v) as -> by (intros; by rewrite Z.add_0_r).
  assert (forall m, mload8 m a = mload8 m (a + 0)) as -> by (intros; by rewrite Z.add_0_r).
  rewrite !mload8_store8_same. rewrite !(mload8_store8_ne _ (a + 3)) by (apply Hd; lia).
  rewrite mload8_store8_same. rewrite !(mload8_store8_ne _ (a + 2)) by (apply Hd; lia).
  rewrite mload8_store8_same. rewrite !(mload8_store8_ne _ (a + 1)) by (apply Hd; lia).
  by rewrite mload8_store8_same.
Qed.

(** Two words that do not overlap. *)
Definition disjoint32 (a b : Z) : Prop :=
  forall i j, 0 <= i < 4 -> 0 <= j < 4 -> wrap32 (a + i) <> wrap32 (b + j).

Lemma disjoint32_sep a b :
  0 <= a -> a + 4 <= 4294967296 -> 0 <= b -> b + 4 <= 4294967296 ->
  a + 4 <= b \/ b + 4 <= a -> disjoint32 a b.
Proof. intros ?????i j ??. ulia. Qed.

Lemma mload32_store32_ne m a b v :
  disjoint32 a b -> mload32 (mstore32 m a v) b = mload32 m b.
Proof.
  intros H. unfold mload32. rewrite !mload8_store32_ne; [done|..]; intros i Hi.
  - apply H; lia.
  - apply H; lia.
  - apply H; lia.
  - rewrite <- (Z.add_0_r b). apply H; lia.
Qed.

(** Accesses to memory in the kernel half succeed, and the others fault. *)
Section Kernel.
Context `{env : Env}.

Lemma xlate_kernel s a w : kspace a 1 -> xlate s a w = Some a.
Proof.
  intros (H1 & H2 & H3). unfold xlate, kmapped, KERNBASE in *. rewrite wrap32_small by lia.
  rewrite (proj2 (Z.leb_le _ _) H1). destruct H3 as [H3|[H3 H4]].
  - by rewrite (proj2 (Z.ltb_lt a ram_end)) by lia.
  - rewrite (proj2 (Z.leb_le fw_start a)), (proj2 (Z.ltb_lt a fw_end)) by lia. by rewrite orb_true_r.
Qed.
Lemma xlate_unmapped s a w : KERNBASE <= a < 4294967296 -> ~ kspace a 1 -> xlate s a w = None.
Proof.
  intros H Hk. unfold xlate, KERNBASE in *. rewrite wrap32_small by lia.
  rewrite (proj2 (Z.leb_le _ _)) by lia. destruct (kmapped a) eqn:E; [|done]. destruct Hk.
  unfold kmapped in E. unfold kspace, KERNBASE. lia.
Qed.
Lemma load8_kernel a s : kspace a 1 -> load8 a s = (Ok (mload8 (mem s) a), s).
Proof. intros H. unfold load8. by rewrite xlate_kernel. Qed.
Lemma store8_kernel a v s :
  kspace a 1 -> store8 a v s = (Ok tt, set_mem (mstore8 (mem s) a v) s).
Proof. intros H. unfold store8. by rewrite xlate_kernel. Qed.

Ltac kspace_tac := unfold kspace, KERNBASE in *; lia.

Lemma load32_kernel a s : kspace a 4 -> load32 a s = (Ok (mload32 (mem s) a), s).
Proof.
  intros H. unfold load32. do 4 (erewrite bind_ok; [|apply load8_kernel; kspace_tac]).
  done.
Qed.
Lemma store32_kernel a v s :
  kspace a 4 -> store32 a v s = (Ok tt, set_mem (mstore32 (mem s) a v) s).
Proof.
  intros H. unfold store32. do 3 (erewrite bind_ok; [|apply store8_kernel; kspace_tac]).
  rewrite store8_kernel by kspace_tac. done.
Qed.
End Kernel.

Ltac kspace_tac := unfold kspace, KERNBASE in *; lia.

Lemma set_mem_mem s : set_mem (mem s) s = s.
Proof. by destruct s. Qed.
Lemma set_mem_set m m' s : set_mem m (set_mem m' s) = set_mem m s.
Proof. done. Qed.

(** ** The state in which [main] starts: every C object with static storage
    is zero, except those with an initialiser; [ram] is what the boot loader
    and the firmware left in memory. *)

Definition zero_lock : spinlock := mkSpinlock 0 "" None (replicate 10 0).
Definition zero_segdesc : segdesc := mkSegdesc 0 0 0 0 0 0.
Definition zero_taskstate : taskstate :=
  mkTaskstate 0 0 0 0 0 0 0 0 0 0 0 0 0 0 0 0 0 0 0 0 0 0 0 0 0 0 0 0 0 0 0 0 0 0 0 0 0.
Definition zero_cpu : cpu := mkCpu 0 0 zero_taskstate (replicate 6 zero_segdesc) 0 0 None.
Definition zero_process : process := mkProcess (replicate 16 0) 0 0 UNUSED 0 0 0 0 0.
Definition zero_idt_entry : idt_entry := mkIdtEntry 0 0 0 0 0.
Definition zero_acpi_info : acpi_info_t :=
  mkAcpiInfo 0 (replicate 16 (0, 0)) 0 (replicate 4 (0, 0, 0)) (replicate 256 0).

Definition boot_machine (ram : gmap Z Z) (regs0 : regs) : machine := {|
  mem := ram;
  cpu_regs := regs0;
  io := [];
  cpu0 := zero_cpu;
  cpus_ap := replicate 15 zero_cpu;
  kmem := mkKmem zero_lock 0 0 0 0x07fe0000;
  cons := mkCons zero_lock 0;
  vm := mkVm 0 0 0 0;
  ptable := mkPtable zero_lock (replicate 64 zero_process) None 1;
  irq := mkIrq (replicate 256 zero_idt_entry) (replicate 256 None);
  drv := mkDrv 0 0 false false false zero_lock (replicate 256 0) 0 zero_acpi_info |}.

Definition zero_regs : regs := mkRegs 2 0 0 0 (0, 0) (0, 0).

(** A closed environment: devices that answer so, or not at all, and made-up link addresses inside the
    kernel image, 128 MB of memory whose last 128 KB the firmware uses. *)
Definition demo_env_with (answer : list ioev -> Z -> Z) : Env := {|
  dev_in := answer; dev_mmio := fun _ _ => 0; arg_addr := fun _ => 0x80105f00;
  swtch_esp := fun _ => 0x80105e00;
  sym_kmem_freelist := 0x80109a38; sym_cpus := 0x80109000; sym_cpu0_ts := 0x80109008;
  sym_cpu0_gdt := 0x80109070; sym_idt := 0x80108000; sym_isr_stub_table := fun i => 0x80104000 + 16 * i;
  sym_trapret := 0x80103f40; sym_enter_process := 0x80101200; sym_k_end := 0x8010b2c0;
  sym_init_start := 0x80107100; sym_init_size := 64;
  ram_end := 0x87fe0000; fw_start := 0x87fe0000; fw_end := 0x88000000; ram_end_range := ltac:(lia) |}.
Definition demo_env : Env := demo_env_with (fun _ _ => 0).

(** A range of the first 4 MB, where the examples have their data. *)
Ltac klow_tac := apply kspace_low; unfold KERNBASE; lia.
