(* ===== verification/Layout.v ===== *)
(** * Layout: the address arithmetic of [paging.h] and [pmem.h]

    Page rounding, the three fields of a virtual address, page table entries
    and the direct map between physical and kernel virtual addresses. *)

From S2P Require Import Prelude Machine.

Definition PDXSHIFT : Z := 22.
Definition PTXSHIFT : Z := 12.
Definition PDX (va : Z) : Z := (va >> PDXSHIFT) & 0x3FF.
Definition PTX (va : Z) : Z := (va >> PTXSHIFT) & 0x3FF.
Definition PGADDR (d t o : Z) : Z := wrap32 ((d << PDXSHIFT) .| (t << PTXSHIFT) .| o).

Definition NPDENTRIES : Z := 1024.
Definition NPTENTRIES : Z := 1024.
Definition PGSIZE : Z := 4096.

(** [~(PGSIZE-1)] and [~0xFFF] as 32-bit masks. *)
Definition PAGE_MASK : Z := Z.ldiff 0xffffffff 0xfff.
Definition PGROUNDUP (sz : Z) : Z := wrap32 (wrap32 sz + PGSIZE - 1) & PAGE_MASK.
Definition PGROUNDDOWN (a : Z) : Z := wrap32 a & PAGE_MASK.

Definition PTE_P : Z := 0x001.
Definition PTE_W : Z := 0x002.
Definition PTE_U : Z := 0x004.
Definition PTE_PS : Z := 0x080.
Definition PTE_ADDR (pte : Z) : Z := wrap32 pte & PAGE_MASK.
Definition PTE_FLAGS (pte : Z) : Z := wrap32 pte & 0xFFF.

Definition DEVSPACE : Z := 0xFE000000.

Definition V2P (a : Z) : Z := wrap32 (a - KERNBASE).
Definition P2V (a : Z) : Z := wrap32 (a + KERNBASE).

(** pmem.h *)
Definition ADDR_PAGE_OFFSET (addr : Z) : Z := addr & 0x0FFF.

(** ** As arithmetic *)

Lemma PGROUNDDOWN_eq a : 0 <= a < 4294967296 -> PGROUNDDOWN a = a - a mod 4096.
Proof.
  intros Ha. unfold PGROUNDDOWN, PAGE_MASK. rewrite wrap32_small by lia. by apply land_align12.
Qed.
Lemma PTE_ADDR_eq a : 0 <= a < 4294967296 -> PTE_ADDR a = a - a mod 4096.
Proof. apply PGROUNDDOWN_eq. Qed.
Lemma PTE_FLAGS_eq a : 0 <= a < 4294967296 -> PTE_FLAGS a = a mod 4096.
Proof. intros Ha. unfold PTE_FLAGS. rewrite wrap32_small by lia. apply land_0xfff. Qed.

Lemma PGROUNDUP_eq a :
  0 <= a <= 0xfffff000 -> PGROUNDUP a = (a + 4095) - (a + 4095) mod 4096.
Proof.
  intros Ha. unfold PGROUNDUP, PAGE_MASK, PGSIZE. rewrite (wrap32_small a) by lia.
  rewrite (wrap32_small (a + 4096 - 1)) by lia. rewrite land_align12 by lia.
  by replace (a + 4096 - 1) with (a + 4095) by lia.
Qed.

Lemma PDX_eq a : 0 <= a < 4294967296 -> PDX a = a / 4194304.
Proof.
  intros Ha. unfold PDX, PDXSHIFT. rewrite land_0x3ff, Z.shiftr_div_pow2 by lia.
  simpl (2 ^ 22). lia.
Qed.
Lemma PTX_eq a : PTX a = (a / 4096) mod 1024.
Proof. unfold PTX, PTXSHIFT. rewrite land_0x3ff, Z.shiftr_div_pow2 by lia. done. Qed.

Lemma PDX_range a : 0 <= PDX a < 1024.
Proof. unfold PDX. rewrite land_0x3ff. lia. Qed.
Lemma PTX_range a : 0 <= PTX a < 1024.
Proof. unfold PTX. rewrite land_0x3ff. lia. Qed.

Lemma PGADDR_eq d t o :
  0 <= d -> 0 <= t < 1024 -> 0 <= o < 4096 ->
  PGADDR d t o = wrap32 (d * 4194304 + t * 4096 + o).
Proof.
  intros Hd Ht Ho. unfold PGADDR, PDXSHIFT, PTXSHIFT. rewrite !Z.shiftl_mul_pow2 by lia.
  change (2 ^ 22) with 4194304. change (2 ^ 12) with 4096.
  rewrite (lor_disjoint_add (d * 4194304) (t * 4096) 22);
    [|lia|change (2 ^ 22) with 4194304; lia|change (2 ^ 22) with 4194304; lia].
  rewrite (lor_disjoint_add _ o 12); [done|lia|change (2 ^ 12) with 4096; lia|].
  change (2 ^ 12) with 4096. lia.
Qed.

Lemma page_number va :
  0 <= va < 4294967296 -> va = PDX va * 4194304 + PTX va * 4096 + va mod 4096.
Proof. intros Hva. rewrite PDX_eq, PTX_eq by done. lia. Qed.

(** Two page-aligned addresses with the same indices are the same. *)
Lemma page_index_inj a b :
  0 <= a < 4294967296 -> 0 <= b < 4294967296 -> a mod 4096 = 0 -> b mod 4096 = 0 ->
  PDX a = PDX b -> PTX a = PTX b -> a = b.
Proof.
  intros Ha Hb Ha0 Hb0 E1 E2. rewrite (page_number a), (page_number b) by done.
  by rewrite E1, E2, Ha0, Hb0.
Qed.

Lemma V2P_P2V a : 0 <= a < 4294967296 -> V2P (P2V a) = a.
Proof. intros Ha. unfold V2P, P2V, KERNBASE. ulia. Qed.
Lemma P2V_V2P a : 0 <= a < 4294967296 -> P2V (V2P a) = a.
Proof. intros Ha. unfold V2P, P2V, KERNBASE. ulia. Qed.
Lemma V2P_kernel a : KERNBASE <= a < 4294967296 -> V2P a = a - KERNBASE.
Proof. unfold V2P, KERNBASE. ulia. Qed.
Lemma P2V_low a : 0 <= a < 0x80000000 -> P2V a = a + KERNBASE.
Proof. unfold P2V, KERNBASE. ulia. Qed.

(** Setting the low flag bits of a page-aligned address. *)
Lemma lor_flags a f : a mod 4096 = 0 -> 0 <= f < 4096 -> a .| f = a + f.
Proof.
  intros Ha Hf. apply (lor_disjoint_add a f 12); [lia| |].
  - change (2 ^ 12) with 4096. lia.
  - by change (2 ^ 12) with 4096.
Qed.
