(* ===== verification/Cstring.v ===== *)
(** * Cstring: the memory and string routines of [lib/string.c]

    Every routine is the loop of the source over RAM.  The first part gives
    the routines; the second gives memory-level descriptions of what a run of
    bytes holds afterwards, and relates the routines to them. *)

From S2P Require Import Prelude Machine.

(** ** The routines *)

Section WithEnv.
Context `{env : Env}.

(** [while (count-- > 0) *dst_copy++ = c;] *)
Fixpoint memset_loop (dst_copy c : Z) (count : nat) : K unit :=
  match count with
  | O => mret tt
  | S n => _ ← store8 dst_copy c; memset_loop (dst_copy + 1) c n
  end.
Definition memset (dst c count : Z) : K Z :=
  _ ← memset_loop dst (wrap8 c) (Z.to_nat count); mret dst.

(** [while (count-- > 0) *dst_copy++ = *src_copy++;] *)
Fixpoint memcpy_loop (dst_copy src_copy : Z) (count : nat) : K unit :=
  match count with
  | O => mret tt
  | S n =>
      b ← load8 src_copy;
      _ ← store8 dst_copy b;
      memcpy_loop (dst_copy + 1) (src_copy + 1) n
  end.
Definition memcpy (dst src count : Z) : K Z :=
  _ ← memcpy_loop dst src (Z.to_nat count); mret dst.

(** [while (count-- > 0) *dst_copy-- = *src_copy--;] *)
Fixpoint memmove_loop (dst_copy src_copy : Z) (count : nat) : K unit :=
  match count with
  | O => mret tt
  | S n =>
      b ← load8 src_copy;
      _ ← store8 dst_copy b;
      memmove_loop (dst_copy - 1) (src_copy - 1) n
  end.
Definition memmove (dst src count : Z) : K Z :=
  if count <=? (dst -u src) then memcpy dst src count
  else _ ← memmove_loop (dst + count) (src + count) (Z.to_nat count); mret dst.

(** The bytes are compared as plain [char], which is signed on i386; [b1] and
    [b2] hold the bytes read last. *)
Fixpoint memcmp_loop (ptr1 ptr2 b1 b2 : Z) (count : nat) : K Z :=
  match count with
  | O => mret (b1 - b2)
  | S n =>
      c1 ← load8 ptr1;
      c2 ← load8 ptr2;
      if sext8 c1 =? sext8 c2 then memcmp_loop (ptr1 + 1) (ptr2 + 1) (sext8 c1) (sext8 c2) n
      else mret (sext8 c1 - sext8 c2)
  end.
Definition memcmp (ptr1 ptr2 count : Z) : K Z :=
  memcmp_loop ptr1 ptr2 0 0 (Z.to_nat count).

(** [while (str[len]) len++;] with [len] a [size_t]: 2^32 rounds without a
    NUL bring [len] back to 0. *)
Definition strlen (str : Z) : K Z :=
  loop 32 (fun len =>
    c ← load8 (str + len);
    if c =? 0 then mret (inr len) else mret (inl (len +u 1))) 0.

(** [while (str[len] && count > 0)]: the character is read before [count] is
    tested. *)
Fixpoint strnlen_loop (str len : Z) (count : nat) : K Z :=
  c ← load8 (str + len);
  match count with
  | O => mret len
  | S n => if c =? 0 then mret len else strnlen_loop str (len + 1) n
  end.
Definition strnlen (str count : Z) : K Z := strnlen_loop str 0 (Z.to_nat count).

Fixpoint strncmp_loop (str1 str2 c1 c2 : Z) (count : nat) : K Z :=
  match count with
  | O => mret (c1 - c2)
  | S n =>
      b1 ← load8 str1;
      b2 ← load8 str2;
      if (sext8 b1 =? 0) || negb (sext8 b1 =? sext8 b2) then mret (sext8 b1 - sext8 b2)
      else strncmp_loop (str1 + 1) (str2 + 1) (sext8 b1) (sext8 b2) n
  end.
Definition strncmp (str1 str2 count : Z) : K Z :=
  strncmp_loop str1 str2 0 0 (Z.to_nat count).

Definition strncpy (dst src count : Z) : K Z :=
  size ← strnlen src count;
  _ ← (if size =? count then mret dst else memset (dst + size) 0 (count - size));
  _ ← store8 (dst + size) 0;
  memcpy dst src size.

Definition strncat (dst src count : Z) : K Z :=
  n ← strlen dst;
  let dst' := dst + n in
  size ← strnlen src count;
  _ ← store8 (dst' + size) 0;
  _ ← memcpy dst' src size;
  mret dst.

End WithEnv.

(** ** Runs of bytes *)

(** [count] bytes from [a] set to [c]. *)
Fixpoint mfill (m : gmap Z Z) (a c : Z) (count : nat) : gmap Z Z :=
  match count with
  | O => m
  | S n => mfill (mstore8 m a c) (a + 1) c n
  end.

(** [count] bytes copied upwards, one by one. *)
Fixpoint mcopy (m : gmap Z Z) (d s : Z) (count : nat) : gmap Z Z :=
  match count with
  | O => m
  | S n => mcopy (mstore8 m d (mload8 m s)) (d + 1) (s + 1) n
  end.

(** [count] bytes copied downwards from [d] and [s]. *)
Fixpoint mcopy_down (m : gmap Z Z) (d s : Z) (count : nat) : gmap Z Z :=
  match count with
  | O => m
  | S n => mcopy_down (mstore8 m d (mload8 m s)) (d - 1) (s - 1) n
  end.

(** The bytes at [a], [a+1], ... *)
Definition mbytes (m : gmap Z Z) (a : Z) (n : nat) : list Z :=
  map (fun i => mload8 m (a + Z.of_nat i)) (seq 0 n).

(** The NUL-terminated string at [a] has exactly the characters [l]. *)
Definition cstr (m : gmap Z Z) (a : Z) (l : list Z) : Prop :=
  (forall i c, l !! i = Some c -> mload8 m (a + Z.of_nat i) = c /\ c <> 0) /\
  mload8 m (a + Z.of_nat (length l)) = 0.

(** ** What the loops do to RAM *)

Lemma mload8_fill m a c n b :
  0 <= a -> a + Z.of_nat n <= 4294967296 -> 0 <= b < 4294967296 ->
  mload8 (mfill m a c n) b =
    if decide (a <= b < a + Z.of_nat n) then wrap8 c else mload8 m b.
Proof.
  revert m a. induction n as [|n IH]; intros m a Ha Hn Hb; simpl.
  - case_decide; [lia|done].
  - rewrite IH by lia. rewrite mload8_store8.
    rewrite !wrap32_small by lia. repeat case_decide; done || lia.
Qed.

Lemma mload8_copy_out m d s n b :
  0 <= d -> d + Z.of_nat n <= 4294967296 -> 0 <= b < 4294967296 ->
  ~ d <= b < d + Z.of_nat n -> mload8 (mcopy m d s n) b = mload8 m b.
Proof.
  revert m d s. induction n as [|n IH]; intros m d s Hd Hn Hb Ho; simpl; [done|].
  rewrite IH by lia. rewrite mload8_store8_ne; [done|ulia].
Qed.

(** Copying upwards is right when the destination starts below the source or
    past its end. *)
Lemma mload8_copy_in m d s n i :
  0 <= d -> d + Z.of_nat n <= 4294967296 -> 0 <= s -> s + Z.of_nat n <= 4294967296 ->
  d <= s \/ s + Z.of_nat n <= d -> 0 <= i < Z.of_nat n ->
  mload8 (mcopy m d s n) (d + i) = mload8 m (s + i).
Proof.
  revert m d s i. induction n as [|n IH]; intros m d s i Hd Hn Hs Hsn Ho Hi; [lia|simpl].
  destruct (decide (i = 0)) as [->|Hi0].
  - rewrite mload8_copy_out by lia. rewrite !Z.add_0_r, mload8_store8_same.
    apply wrap8_small, mload8_range.
  - replace (d + i) with (d + 1 + (i - 1)) by lia. rewrite IH by lia.
    replace (s + 1 + (i - 1)) with (s + i) by lia.
    destruct (decide (s + i = d)) as [E|E].
    + lia.
    + rewrite mload8_store8_ne; [done|ulia].
Qed.

Lemma mload8_copy_down_out m d s n b :
  d < 4294967296 -> 0 <= d - Z.of_nat n + 1 -> 0 <= b < 4294967296 ->
  ~ d - Z.of_nat n < b <= d -> mload8 (mcopy_down m d s n) b = mload8 m b.
Proof.
  revert m d s. induction n as [|n IH]; intros m d s Hd Hn Hb Ho; simpl; [done|].
  destruct n as [|n].
  - simpl. rewrite mload8_store8_ne; [done|ulia].
  - rewrite IH by lia. rewrite mload8_store8_ne; [done|ulia].
Qed.

Lemma mload8_copy_down_in m d s n i :
  d < 4294967296 -> 0 <= d - Z.of_nat n + 1 ->
  s < 4294967296 -> 0 <= s - Z.of_nat n + 1 -> s <= d -> 0 <= i < Z.of_nat n ->
  mload8 (mcopy_down m d s n) (d - i) = mload8 m (s - i).
Proof.
  revert m d s i. induction n as [|n IH]; intros m d s i Hd Hn Hs Hsn Ho Hi; [lia|simpl].
  destruct n as [|n].
  { replace i with 0 by lia. simpl. rewrite !Z.sub_0_r, mload8_store8_same.
    apply wrap8_small, mload8_range. }
  destruct (decide (i = 0)) as [->|Hi0].
  - rewrite mload8_copy_down_out by lia. rewrite !Z.sub_0_r, mload8_store8_same.
    apply wrap8_small, mload8_range.
  - replace (d - i) with (d - 1 - (i - 1)) by lia. rewrite IH by lia.
    replace (s - 1 - (i - 1)) with (s - i) by lia.
    rewrite mload8_store8_ne; [done|ulia].
Qed.

(** ** The routines on the kernel half of the address space *)

Section Kernel.
Context `{env : Env}.

Lemma memset_loop_kernel a c n s :
  kspace a (Z.of_nat n) ->
  memset_loop a c n s = (Ok tt, set_mem (mfill (mem s) a c n) s).
Proof.
  revert a s. induction n as [|n IH]; intros a s Hk; simpl; [by rewrite set_mem_mem|].
  erewrite bind_ok by (apply store8_kernel; kspace_tac). by rewrite IH by kspace_tac.
Qed.

Lemma memset_kernel a c n s :
  0 <= n -> kspace a n ->
  memset a c n s = (Ok a, set_mem (mfill (mem s) a (wrap8 c) (Z.to_nat n)) s).
Proof.
  intros Hn Hk. unfold memset. by erewrite bind_ok by (apply memset_loop_kernel; kspace_tac).
Qed.

Lemma memcpy_loop_kernel d a n s :
  kspace d (Z.of_nat n) -> kspace a (Z.of_nat n) ->
  memcpy_loop d a n s = (Ok tt, set_mem (mcopy (mem s) d a n) s).
Proof.
  revert d a s. induction n as [|n IH]; intros d a s Hd Ha; simpl; [by rewrite set_mem_mem|].
  erewrite bind_ok by (apply load8_kernel; kspace_tac).
  erewrite bind_ok by (apply store8_kernel; kspace_tac). by rewrite IH by kspace_tac.
Qed.

Lemma memcpy_kernel d a n s :
  0 <= n -> kspace d n -> kspace a n ->
  memcpy d a n s = (Ok d, set_mem (mcopy (mem s) d a (Z.to_nat n)) s).
Proof.
  intros Hn Hd Ha. unfold memcpy. by erewrite bind_ok by (apply memcpy_loop_kernel; kspace_tac).
Qed.

Lemma memmove_loop_kernel d a n s :
  kspace (d - Z.of_nat n + 1) (Z.of_nat n) -> kspace (a - Z.of_nat n + 1) (Z.of_nat n) ->
  memmove_loop d a n s = (Ok tt, set_mem (mcopy_down (mem s) d a n) s).
Proof.
  revert d a s. induction n as [|n IH]; intros d a s Hd Ha; simpl; [by rewrite set_mem_mem|].
  erewrite bind_ok by (apply load8_kernel; kspace_tac).
  erewrite bind_ok by (apply store8_kernel; kspace_tac).
  destruct n as [|n]; [done|]. by rewrite IH by kspace_tac.
Qed.

(** Which of its two loops [memmove] runs. *)
Lemma memmove_forward d a n s :
  n <= (d -u a) -> memmove d a n s = memcpy d a n s.
Proof. intros H. unfold memmove. by rewrite (proj2 (Z.leb_le _ _) H). Qed.

Lemma memmove_backward d a n s :
  0 <= n -> a <= d < a + n -> kspace a (n + 1) -> kspace d (n + 1) ->
  memmove d a n s =
    (Ok d, set_mem (mcopy_down (mem s) (d + n) (a + n) (Z.to_nat n)) s).
Proof.
  intros Hn Hd Hka Hkd. unfold memmove.
  assert ((n <=? (d -u a)) = false) as ->.
  { apply Z.leb_gt. rewrite wrap32_small by kspace_tac. lia. }
  by erewrite bind_ok by (apply memmove_loop_kernel; kspace_tac).
Qed.

Lemma memcmp_loop_kernel p q b1 b2 n s :
  kspace p (Z.of_nat n) -> kspace q (Z.of_nat n) ->
  exists r, memcmp_loop p q b1 b2 n s = (Ok r, s) /\
    ((r = b1 - b2 /\ n = O) \/
     (r = 0 /\ (0 < n)%nat /\
        forall i, 0 <= i < Z.of_nat n -> mload8 (mem s) (p + i) = mload8 (mem s) (q + i)) \/
     (exists i, 0 <= i < Z.of_nat n /\
        (forall j, 0 <= j < i -> mload8 (mem s) (p + j) = mload8 (mem s) (q + j)) /\
        mload8 (mem s) (p + i) <> mload8 (mem s) (q + i) /\
        r = sext8 (mload8 (mem s) (p + i)) - sext8 (mload8 (mem s) (q + i)))).
Proof.
  revert p q b1 b2. induction n as [|n IH]; intros p q b1 b2 Hp Hq; simpl.
  { exists (b1 - b2). eauto. }
  erewrite bind_ok by (apply load8_kernel; kspace_tac).
  erewrite bind_ok by (apply load8_kernel; kspace_tac).
  destruct (_ =? _) eqn:E.
  - apply Z.eqb_eq, sext8_inj in E; [|apply mload8_range..].
    destruct (IH (p + 1) (q + 1) (sext8 (mload8 (mem s) p)) (sext8 (mload8 (mem s) q)))
      as (r & -> & H); [kspace_tac..|]. exists r. split; [done|]. right.
    destruct H as [[-> ->]|[(-> & Hn & H)|(i & Hi & Hlt & Hne & ->)]].
    + left. split; [rewrite E; lia|]. split; [lia|]. intros i Hi.
      replace i with 0 by lia. by rewrite !Z.add_0_r.
    + left. split; [done|]. split; [lia|]. intros i Hi.
      destruct (decide (i = 0)) as [->|]; [by rewrite !Z.add_0_r|].
      replace (p + i) with (p + 1 + (i - 1)) by lia.
      replace (q + i) with (q + 1 + (i - 1)) by lia. apply H. lia.
    + right. exists (i + 1). replace (p + (i + 1)) with (p + 1 + i) by lia.
      replace (q + (i + 1)) with (q + 1 + i) by lia. split_and!; [lia|lia| |done|done].
      intros j Hj. destruct (decide (j = 0)) as [->|]; [by rewrite !Z.add_0_r|].
      replace (p + j) with (p + 1 + (j - 1)) by lia.
      replace (q + j) with (q + 1 + (j - 1)) by lia. apply Hlt. lia.
  - eexists. split; [done|]. right. right. exists 0. rewrite !Z.add_0_r.
    split_and!; [lia|lia| | |done].
    + lia.
    + intros E'. rewrite E' in E. by rewrite Z.eqb_refl in E.
Qed.

Lemma strlen_kernel a l s :
  cstr (mem s) a l -> kspace a (Z.of_nat (length l) + 1) ->
  strlen a s = (Ok (Z.of_nat (length l)), s).
Proof.
  intros [Hl H0] Hk. unfold strlen.
  match goal with |- loop _ ?b _ _ = _ => set (body := b) end.
  pose proof (loop_inv_Z body
    (fun n len s' => s' = s /\ 0 <= len /\ len + Z.of_nat n = Z.of_nat (length l))
    (fun r s' => r = Ok (Z.of_nat (length l)) /\ s' = s) 32 (length l) 0 s) as H.
  destruct (loop 32 body 0 s) as [r s']. simpl in H. destruct H as [-> ->]; [| |kspace_tac|done].
  - intros n len s1 (-> & Hlen & Hn). unfold body.
    erewrite bind_ok by (apply load8_kernel; kspace_tac).
    destruct n as [|n].
    + replace len with (Z.of_nat (length l)) by lia. rewrite H0. done.
    + destruct (l !! Z.to_nat len) as [c|] eqn:E; [|apply lookup_ge_None in E; lia].
      apply Hl in E as [Hc Hne]. replace (Z.of_nat (Z.to_nat len)) with len in Hc by lia.
      rewrite Hc, (proj2 (Z.eqb_neq _ _) Hne). simpl. exists n.
      rewrite wrap32_small by kspace_tac. split; [lia|]. split; [done|]. lia.
  - split; [done|]. lia.
Qed.

(** The length [strnlen] returns: the number of characters before the first
    NUL, at most [n]. *)
Fixpoint mstrnlen (m : gmap Z Z) (a : Z) (n : nat) : nat :=
  match n with
  | O => O
  | S n' => if mload8 m a =? 0 then O else S (mstrnlen m (a + 1) n')
  end.

Lemma mstrnlen_le m a n : (mstrnlen m a n <= n)%nat.
Proof.
  revert a. induction n as [|n IH]; intros a; simpl; [lia|].
  destruct (_ =? 0); [lia|]. specialize (IH (a + 1)). lia.
Qed.

Lemma mstrnlen_spec m a n :
  (forall i, 0 <= i < Z.of_nat (mstrnlen m a n) -> mload8 m (a + i) <> 0) /\
  ((mstrnlen m a n < n)%nat -> mload8 m (a + Z.of_nat (mstrnlen m a n)) = 0).
Proof.
  revert a. induction n as [|n IH]; intros a; simpl; [split; intros; lia|].
  destruct (_ =? 0) eqn:E.
  - split; [intros; lia|]. intros _. rewrite Z.add_0_r. by apply Z.eqb_eq.
  - apply Z.eqb_neq in E. destruct (IH (a + 1)) as [IH1 IH2]. split.
    + intros i Hi. destruct (decide (i = 0)) as [->|]; [by rewrite Z.add_0_r|].
      replace (a + i) with (a + 1 + (i - 1)) by lia. apply IH1. lia.
    + intros Hlt. replace (a + _) with (a + 1 + Z.of_nat (mstrnlen m (a + 1) n)) by lia.
      apply IH2. lia.
Qed.

Lemma strnlen_loop_kernel a len n s :
  kspace (a + len) (Z.of_nat n + 1) ->
  strnlen_loop a len n s = (Ok (len + Z.of_nat (mstrnlen (mem s) (a + len) n)), s).
Proof.
  revert len. induction n as [|n IH]; intros len Hk; simpl;
    erewrite bind_ok by (apply load8_kernel; kspace_tac).
  - by rewrite Z.add_0_r.
  - destruct (_ =? 0) eqn:E; [by rewrite Z.add_0_r|].
    rewrite IH by kspace_tac. rewrite Z.add_assoc.
    rewrite Nat2Z.inj_succ, <- Z.add_1_l, Z.add_assoc. done.
Qed.

Lemma strnlen_kernel a n s :
  0 <= n -> kspace a (n + 1) ->
  strnlen a n s = (Ok (Z.of_nat (mstrnlen (mem s) a (Z.to_nat n))), s).
Proof.
  intros Hn Hk. unfold strnlen. rewrite strnlen_loop_kernel by kspace_tac.
  by rewrite Z.add_0_r.
Qed.

(** The RAM that [strncpy] leaves. *)
Definition mstrncpy (m : gmap Z Z) (d a n : Z) : gmap Z Z :=
  let size := Z.of_nat (mstrnlen m a (Z.to_nat n)) in
  let m1 := if size =? n then m else mfill m (d + size) 0 (Z.to_nat (n - size)) in
  mcopy (mstore8 m1 (d + size) 0) d a (Z.to_nat size).

Lemma strncpy_kernel d a n s :
  0 <= n -> kspace d (n + 1) -> kspace a (n + 1) ->
  strncpy d a n s = (Ok d, set_mem (mstrncpy (mem s) d a n) s).
Proof.
  intros Hn Hd Ha. unfold strncpy, mstrncpy.
  pose proof (mstrnlen_le (mem s) a (Z.to_nat n)) as Hle.
  erewrite bind_ok by (apply strnlen_kernel; kspace_tac).
  set (size := Z.of_nat (mstrnlen (mem s) a (Z.to_nat n))) in *.
  destruct (size =? n) eqn:E.
  - mstep. erewrite bind_ok by (apply store8_kernel; kspace_tac).
    rewrite memcpy_kernel by kspace_tac. done.
  - erewrite bind_ok by (apply memset_kernel; kspace_tac).
    erewrite bind_ok by (apply store8_kernel; kspace_tac).
    rewrite memcpy_kernel by kspace_tac. done.
Qed.

Lemma mload8_strncpy_out m d a n b :
  0 <= n -> 0 <= d -> d + n < 4294967296 -> 0 <= b < 4294967296 -> ~ d <= b <= d + n ->
  mload8 (mstrncpy m d a n) b = mload8 m b.
Proof.
  intros Hn Hd Hdn Hb Ho. unfold mstrncpy.
  pose proof (mstrnlen_le m a (Z.to_nat n)) as Hle.
  rewrite mload8_copy_out by lia. rewrite mload8_store8_ne by ulia.
  destruct (_ =? n); [done|]. rewrite mload8_fill by lia. case_decide; [lia|done].
Qed.

(** [strncat] writes past the string already at [dst]. *)
Lemma strncat_kernel d l a n s :
  cstr (mem s) d l -> 0 <= n -> kspace d (Z.of_nat (length l) + n + 1) -> kspace a (n + 1) ->
  let e := d + Z.of_nat (length l) in
  let size := Z.of_nat (mstrnlen (mem s) a (Z.to_nat n)) in
  strncat d a n s =
    (Ok d, set_mem (mcopy (mstore8 (mem s) (e + size) 0) e a (Z.to_nat size)) s).
Proof.
  intros Hl Hn Hd Ha e size. unfold strncat.
  pose proof (mstrnlen_le (mem s) a (Z.to_nat n)) as Hle.
  erewrite bind_ok by (apply strlen_kernel; [done|kspace_tac]).
  erewrite bind_ok by (apply strnlen_kernel; kspace_tac). fold size. fold e.
  erewrite bind_ok by (apply store8_kernel; kspace_tac).
  by erewrite bind_ok by (apply memcpy_kernel; kspace_tac).
Qed.

(** ** Properties *)

Lemma memmove_disjoint d a n s :
  0 <= n -> kspace d n -> kspace a n -> d < a \/ a + n <= d ->
  exists m', memmove d a n s = (Ok d, set_mem m' s) /\
    (forall i, 0 <= i < n -> mload8 m' (d + i) = mload8 (mem s) (a + i)) /\
    (forall b, 0 <= b < 4294967296 -> ~ d <= b < d + n -> mload8 m' b = mload8 (mem s) b).
Proof.
  intros Hn Hd Ha Ho. rewrite memmove_forward by (unfold kspace, KERNBASE in *; ulia).
  rewrite memcpy_kernel by kspace_tac. eexists. split; [done|]. split.
  - intros i Hi. apply mload8_copy_in; kspace_tac.
  - intros b Hb Hout. apply mload8_copy_out; kspace_tac.
Qed.

(** C38: memmove on regions where the destination starts before the source or
    after its end returns [dst] and leaves there the [count] bytes that were
    at [src]; no other byte of RAM changes. *)
Theorem memmove_disjoint_ok d a n s :
  0 <= n -> kspace d n -> kspace a n -> d < a \/ a + n <= d ->
  exists m', memmove d a n s = (Ok d, set_mem m' s) /\
    (forall i, 0 <= i < n -> mload8 m' (d + i) = mload8 (mem s) (a + i)) /\
    (forall b, 0 <= b < 4294967296 -> ~ d <= b < d + n -> mload8 m' b = mload8 (mem s) b).
Proof. apply memmove_disjoint. Qed.

(** When the source overlaps the start of the destination, memmove copies
    [src[1..count]] to [dst[1..count]]: the first byte of the destination keeps
    its old value and the byte just past the destination is overwritten. *)
Theorem memmove_overlap_shifts_by_one d a n s :
  0 < n -> a <= d < a + n -> kspace a (n + 1) -> kspace d (n + 1) ->
  exists m', memmove d a n s = (Ok d, set_mem m' s) /\
    mload8 m' d = mload8 (mem s) d /\
    mload8 m' (d + n) = mload8 (mem s) (a + n) /\
    (forall i, 1 <= i < n -> mload8 m' (d + i) = mload8 (mem s) (a + i)).
Proof.
  intros Hn Hd Hka Hkd. rewrite memmove_backward by (kspace_tac || lia).
  eexists. split; [done|]. split_and!.
  - apply mload8_copy_down_out; kspace_tac.
  - rewrite <- (Z.sub_0_r (d + n)) at 2. rewrite mload8_copy_down_in by kspace_tac.
    f_equal. lia.
  - intros i Hi. replace (d + i) with (d + n - (n - i)) by lia.
    rewrite mload8_copy_down_in by kspace_tac. f_equal. lia.
Qed.

(** C40: memcmp returns 0 exactly when the two regions hold the same bytes;
    otherwise it returns the difference of the first pair that differs, read as
    signed characters (its comment promises the order of unsigned bytes). *)
Theorem memcmp_spec p q n s :
  0 <= n -> kspace p n -> kspace q n ->
  exists r, memcmp p q n s = (Ok r, s) /\
    ((r = 0 /\ mbytes (mem s) p (Z.to_nat n) = mbytes (mem s) q (Z.to_nat n)) \/
     (r <> 0 /\ exists i, 0 <= i < n /\
        mbytes (mem s) p (Z.to_nat i) = mbytes (mem s) q (Z.to_nat i) /\
        mload8 (mem s) (p + i) <> mload8 (mem s) (q + i) /\
        r = sext8 (mload8 (mem s) (p + i)) - sext8 (mload8 (mem s) (q + i)))).
Proof.
  intros Hn Hp Hq. unfold memcmp.
  destruct (memcmp_loop_kernel p q 0 0 (Z.to_nat n) s) as (r & -> & H); [kspace_tac..|].
  assert (forall k, 0 <= k ->
    (forall i, 0 <= i < k -> mload8 (mem s) (p + i) = mload8 (mem s) (q + i)) ->
    mbytes (mem s) p (Z.to_nat k) = mbytes (mem s) q (Z.to_nat k)) as Hb.
  { intros k Hk Heq. apply map_ext_in. intros i Hi%in_seq. apply Heq. lia. }
  exists r. split; [done|]. destruct H as [[-> E]|[(-> & _ & H)|(i & Hi & Hlt & Hne & ->)]].
  - left. split; [lia|]. by rewrite E.
  - left. split; [done|]. apply Hb; [lia|]. intros i Hi. apply H. lia.
  - right. split.
    + intros E. apply Hne, sext8_inj; [apply mload8_range..|lia].
    + exists i. split; [lia|]. split; [|done]. apply Hb; [lia|]. intros j Hj. apply Hlt. lia.
Qed.

(** Strncpy copies the characters before the first NUL (at most [count]),
    pads with NULs up to [count], always stores a NUL after the last copied
    character, so writes [dst[count]] when the source is longer, and leaves the
    rest of RAM alone. *)
Theorem strncpy_spec d a n s :
  0 <= n -> kspace d (n + 1) -> kspace a (n + 1) -> d + n < a \/ a + n < d ->
  let size := Z.of_nat (mstrnlen (mem s) a (Z.to_nat n)) in
  exists m', strncpy d a n s = (Ok d, set_mem m' s) /\
    (forall i, 0 <= i < size -> mload8 m' (d + i) = mload8 (mem s) (a + i)) /\
    (forall i, size <= i < n -> mload8 m' (d + i) = 0) /\
    mload8 m' (d + size) = 0 /\
    (forall b, 0 <= b < 4294967296 -> ~ d <= b <= d + n -> mload8 m' b = mload8 (mem s) b).
Proof.
  intros Hn Hd Ha Ho size. pose proof (mstrnlen_le (mem s) a (Z.to_nat n)) as Hle.
  exists (mstrncpy (mem s) d a n). split; [by apply strncpy_kernel|].
  unfold mstrncpy. fold size. split_and!.
  - intros i Hi. rewrite mload8_copy_in by kspace_tac.
    rewrite mload8_store8_ne by (unfold kspace, KERNBASE in *; ulia).
    destruct (size =? n); [done|]. rewrite mload8_fill by kspace_tac. case_decide; [lia|done].
  - intros i Hi. rewrite mload8_copy_out by kspace_tac. rewrite mload8_store8.
    case_decide; [done|]. destruct (size =? n) eqn:E; [lia|].
    rewrite mload8_fill by kspace_tac. case_decide; [done|lia].
  - rewrite mload8_copy_out by kspace_tac. by rewrite mload8_store8_same.
  - intros b Hb Hout. pose proof (mload8_strncpy_out (mem s) d a n b) as H.
    unfold mstrncpy in H. fold size in H. apply H; kspace_tac.
Qed.

End Kernel.

(** *** Witnesses *)

(** RAM holding the given bytes at [a]. *)
Definition ram_with (a : Z) (l : list Z) : gmap Z Z :=
  list_to_map (imap (fun i v => (a + Z.of_nat i, v)) l).

Definition demo_string : machine :=
  boot_machine (ram_with 0x80200000 [104; 105; 33; 0; 200; 7; 104; 105; 1]) zero_regs.

Lemma memmove_disjoint_ok_witness :
  exists m', memmove (env:=demo_env) 0x80200010 0x80200000 3 demo_string = (Ok 0x80200010, set_mem m' demo_string)
    /\ mload8 m' 0x80200012 = 33.
Proof.
  destruct (memmove_disjoint_ok (env:=demo_env) 0x80200010 0x80200000 3 demo_string) as (m' & E & H & _);
    [lia|klow_tac|klow_tac|lia|].
  exists m'. split; [exact E|]. exact (H 2 ltac:(lia)).
Defined.

Lemma memmove_overlap_shifts_by_one_witness :
  exists m', memmove (env:=demo_env) 0x80200001 0x80200000 3 demo_string = (Ok 0x80200001, set_mem m' demo_string)
    /\ mload8 m' 0x80200001 = 105 /\ mload8 m' 0x80200004 = 0.
Proof.
  destruct (memmove_overlap_shifts_by_one (env:=demo_env) 0x80200001 0x80200000 3 demo_string)
    as (m' & E & H1 & H2 & _); [lia|lia|klow_tac|klow_tac|].
  exists m'. split; [exact E|]. split; [exact H1|exact H2].
Defined.

Lemma memcmp_spec_witness :
  exists r, memcmp (env:=demo_env) 0x80200000 0x80200001 1 demo_string = (Ok r, demo_string) /\ r <> 0 /\
    r = sext8 (mload8 (mem demo_string) 0x80200000) - sext8 (mload8 (mem demo_string) 0x80200001).
Proof.
  destruct (memcmp_spec (env:=demo_env) 0x80200000 0x80200001 1 demo_string) as (r & E & H);
    [lia|klow_tac|klow_tac|].
  exists r. split; [exact E|]. destruct H as [[_ H]|(Hr & i & Hi & _ & _ & H)].
  - exfalso. vm_compute in H. discriminate H.
  - split; [exact Hr|]. rewrite H. replace i with 0 by lia. reflexivity.
Defined.

Lemma strncpy_spec_witness :
  exists m', strncpy (env:=demo_env) 0x80200100 0x80200000 5 demo_string
      = (Ok 0x80200100, set_mem m' demo_string) /\
    mload8 m' 0x80200102 = 33 /\ mload8 m' 0x80200103 = 0.
Proof.
  destruct (strncpy_spec (env:=demo_env) 0x80200100 0x80200000 5 demo_string) as (m' & E & H & _ & H0 & _);
    [lia|klow_tac|klow_tac|lia|].
  exists m'. split; [exact E|]. split; [exact (H 2 ltac:(vm_compute; done))|exact H0].
Defined.
