(* ===== verification/Spinlock.v ===== *)
(** * Spinlock: [spinlock.h], [spinlock.c] and [mycpu] of [cpu.c]

    Interrupt disabling with nesting ([pushcli]/[popcli]) and the spin locks
    built on it.  The kernel runs on one processor ([mycpu] always answers
    [&cpus[0]]), so a lock that is taken while the kernel spins on it is never
    freed: the spin is [Hang]. *)

From S2P Require Import Prelude Machine.

(** The message of [panic("...\n")] ends in a newline. *)
Definition nl : string := String.String (Ascii.ascii_of_nat 10) EmptyString.

(** ** spinlock.h: the interrupt flag *)

Definition FL_IF : Z := 0x00000200.

Definition readeflags : K Z := gets (fun s => eflags (cpu_regs s)).
Definition upd_eflags (f : Z -> Z) (s : machine) : machine :=
  set_cpu_regs (set_eflags (f (eflags (cpu_regs s))) (cpu_regs s)) s.
Definition cli : K unit := modify (upd_eflags (fun e => Z.ldiff e FL_IF)).
Definition sti : K unit := modify (upd_eflags (fun e => e .| FL_IF)).

(** ** cpu.c: the current processor *)

(** The index into [cpus] of the processor that runs: always 0. *)
Definition mycpu : K nat :=
  e ← readeflags;
  if (e & FL_IF) =? 0 then mret 0%nat
  else raise_panic ("mycpu called with interrupts enabled" +:+ nl).

(** ** The lock variables of the kernel *)

Inductive lock_id : Type := KMEM_LOCK | CONS_LOCK | PTABLE_LOCK | IDE_LOCK.

#[export] Instance lock_id_eq_dec : EqDecision lock_id.
Proof. solve_decision. Defined.

Definition get_lock (l : lock_id) (s : machine) : spinlock :=
  match l with
  | KMEM_LOCK => kmem_lock (kmem s)
  | CONS_LOCK => cons_lock (cons s)
  | PTABLE_LOCK => pt_lock (ptable s)
  | IDE_LOCK => ide_lock (drv s)
  end.
Definition put_lock (l : lock_id) (lk : spinlock) (s : machine) : machine :=
  match l with
  | KMEM_LOCK => set_kmem (set_kmem_lock lk (kmem s)) s
  | CONS_LOCK => set_cons (set_cons_lock lk (cons s)) s
  | PTABLE_LOCK => set_ptable (set_pt_lock lk (ptable s)) s
  | IDE_LOCK => set_drv (set_ide_lock lk (drv s)) s
  end.

(** ** spinlock.c *)

Definition initlock (l : lock_id) (name : string) : K unit :=
  modify (fun s =>
    put_lock l (set_lk_cpu None (set_locked 0 (set_lk_name name (get_lock l s)))) s).

(** Writes [c] to [cpus[0]]. *)
Definition upd_cpu0 (f : cpu -> cpu) (s : machine) : machine := set_cpu0 (f (cpu0 s)) s.

Definition pushcli : K unit :=
  e ← readeflags;
  _ ← cli;
  _ ← mycpu;
  n ← gets (fun s => ncli (cpu0 s));
  _ ← when (n =? 0) (_ ← mycpu; modify (upd_cpu0 (set_intena (e & FL_IF))));
  _ ← mycpu;
  modify (upd_cpu0 (fun c => set_ncli (ncli c + 1) c)).

Definition popcli : K unit :=
  e ← readeflags;
  if negb ((e & FL_IF) =? 0) then raise_panic "popcli - interruptible" else
  _ ← mycpu;
  _ ← modify (upd_cpu0 (fun c => set_ncli (ncli c - 1) c));
  n ← gets (fun s => ncli (cpu0 s));
  if n <? 0 then raise_panic "popcli" else
  _ ← mycpu;
  i ← gets (fun s => intena (cpu0 s));
  when ((n =? 0) && negb (i =? 0)) sti.

Definition holding (l : lock_id) : K bool :=
  _ ← pushcli;
  lk ← gets (get_lock l);
  r ← (if locked lk =? 0 then mret false
       else c ← mycpu; mret (bool_decide (lk_cpu lk = Some c)));
  _ ← popcli;
  mret r.

(** The saved program counters, following the chain of saved frame pointers
    from [ebp] for at most [n] frames; the rest is zero.  A frame pointer that
    passes the test is in the kernel half, where reads do not fault. *)
Fixpoint callerpcs (m : gmap Z Z) (ebp : Z) (n : nat) : list Z :=
  match n with
  | O => []
  | S n' =>
      if (ebp =? 0) || (ebp <? KERNBASE) || (ebp =? 0xffffffff) then replicate n 0
      else mload32 m (ebp + 4) :: callerpcs m (mload32 m ebp) n'
  end.
Definition getcallerpcs (m : gmap Z Z) (v : Z) : list Z := callerpcs m (v -u 8) 10.

(** [xchg(&lk->locked, newval)] *)
Definition xchg_locked (l : lock_id) (newval : Z) : K Z :=
  lk ← gets (get_lock l);
  _ ← modify (fun s => put_lock l (set_locked newval (get_lock l s)) s);
  mret (locked lk).

Section WithEnv.
Context `{env : Env}.

Definition acquire (l : lock_id) : K unit :=
  _ ← pushcli;
  h ← holding l;
  if (h : bool) then raise_panic "acquire" else
  old ← xchg_locked l 1;
  if negb (old =? 0) then hang else
  c ← mycpu;
  _ ← modify (fun s => put_lock l (set_lk_cpu (Some c) (get_lock l s)) s);
  modify (fun s => put_lock l (set_pcs (getcallerpcs (mem s) (arg_addr s)) (get_lock l s)) s).

Definition release (l : lock_id) : K unit :=
  h ← holding l;
  if negb h then raise_panic "release" else
  _ ← modify (fun s => put_lock l (set_pcs (<[0%nat := 0]> (pcs (get_lock l s))) (get_lock l s)) s);
  _ ← modify (fun s => put_lock l (set_lk_cpu None (get_lock l s)) s);
  _ ← modify (fun s => put_lock l (set_locked 0 (get_lock l s)) s);
  popcli.

End WithEnv.

(** ** The interrupt flag as a bit *)

Definition IF (s : machine) : bool := Z.testbit (eflags (cpu_regs s)) 9.

Lemma land_FL_IF e : e & FL_IF = if Z.testbit e 9 then FL_IF else 0.
Proof.
  change FL_IF with (2 ^ 9). apply Z.bits_inj'. intros i Hi. rewrite Z.land_spec.
  rewrite Z.pow2_bits_eqb by lia. destruct (Z.eqb_spec 9 i) as [<-|Hne].
  - rewrite andb_true_r. destruct (Z.testbit e 9); [by rewrite Z.pow2_bits_true|by rewrite Z.bits_0].
  - rewrite andb_false_r. destruct (Z.testbit e 9); [|by rewrite Z.bits_0].
    by rewrite Z.pow2_bits_false.
Qed.
Lemma land_FL_IF_eqb e : ((e & FL_IF) =? 0) = negb (Z.testbit e 9).
Proof. rewrite land_FL_IF. by destruct (Z.testbit e 9). Qed.
Lemma testbit_cli e : Z.testbit (Z.ldiff e FL_IF) 9 = false.
Proof. rewrite Z.ldiff_spec. apply andb_false_r. Qed.
Lemma testbit_sti e : Z.testbit (e .| FL_IF) 9 = true.
Proof. rewrite Z.lor_spec. apply orb_true_r. Qed.
Lemma cli_sti e : Z.testbit e 9 = true -> Z.ldiff e FL_IF .| FL_IF = e.
Proof.
  intros He. apply Z.bits_inj'. intros i Hi. rewrite Z.lor_spec, Z.ldiff_spec.
  change FL_IF with (2 ^ 9). rewrite Z.pow2_bits_eqb by lia.
  destruct (Z.eqb_spec 9 i) as [<-|].
  - by rewrite He.
  - cbn [negb]. by rewrite andb_true_r, orb_false_r.
Qed.
Lemma cli_idem e : Z.testbit e 9 = false -> Z.ldiff e FL_IF = e.
Proof.
  intros He. apply Z.bits_inj'. intros i Hi. rewrite Z.ldiff_spec.
  change FL_IF with (2 ^ 9). rewrite Z.pow2_bits_eqb by lia.
  destruct (Z.eqb_spec 9 i) as [<-|]; [by rewrite He|].
  cbn [negb]. by rewrite andb_true_r.
Qed.

(** ** What each routine does to the state *)

Definition pushcli_state (s : machine) : machine :=
  let e := eflags (cpu_regs s) in
  let c := cpu0 s in
  set_cpu0 (set_ncli (ncli c + 1) (if ncli c =? 0 then set_intena (e & FL_IF) c else c))
    (upd_eflags (fun e => Z.ldiff e FL_IF) s).

Definition popcli_state (s : machine) : machine :=
  let c := set_ncli (ncli (cpu0 s) - 1) (cpu0 s) in
  let s1 := set_cpu0 c s in
  if (ncli c =? 0) && negb (intena c =? 0) then upd_eflags (fun e => e .| FL_IF) s1 else s1.

Lemma mycpu_ok s : IF s = false -> mycpu s = (Ok 0%nat, s).
Proof.
  intros HI. unfold mycpu, readeflags. mstep. rewrite land_FL_IF_eqb.
  unfold IF in HI. by rewrite HI.
Qed.
Lemma mycpu_panics s :
  IF s = true -> mycpu s = (Panic ("mycpu called with interrupts enabled" +:+ nl), s).
Proof.
  intros HI. unfold mycpu, readeflags. mstep. rewrite land_FL_IF_eqb.
  unfold IF in HI. by rewrite HI.
Qed.

Lemma IF_cli s : IF (upd_eflags (fun e => Z.ldiff e FL_IF) s) = false.
Proof. apply testbit_cli. Qed.

Lemma pushcli_ok s : pushcli s = (Ok tt, pushcli_state s).
Proof.
  unfold pushcli, readeflags, cli. mstep.
  erewrite bind_ok by apply mycpu_ok, IF_cli. mstep.
  unfold pushcli_state. change (ncli (cpu0 (upd_eflags _ s))) with (ncli (cpu0 s)).
  destruct (ncli (cpu0 s) =? 0) eqn:E; simpl when.
  - erewrite bind_ok by (erewrite bind_ok by apply mycpu_ok, IF_cli; done).
    erewrite bind_ok; [|apply mycpu_ok; apply testbit_cli]. done.
  - mstep. erewrite bind_ok by apply mycpu_ok, IF_cli. done.
Qed.

Lemma popcli_ok s :
  IF s = false -> 0 < ncli (cpu0 s) -> popcli s = (Ok tt, popcli_state s).
Proof.
  intros HI Hn. unfold popcli, readeflags. mstep. rewrite land_FL_IF_eqb.
  unfold IF in HI. rewrite HI. cbn [negb].
  erewrite bind_ok by by apply mycpu_ok. mstep. simpl.
  destruct (Z.ltb_spec (ncli (cpu0 s) - 1) 0); [lia|].
  erewrite bind_ok by by apply mycpu_ok. mstep. unfold popcli_state. simpl.
  by destruct (_ && _).
Qed.

(** [pushcli] followed by [popcli] leaves the state as it was, up to the saved
    flag [intena], which is dead while [ncli] is 0. *)
Lemma pop_push_nested s :
  IF s = false -> 0 < ncli (cpu0 s) -> popcli_state (pushcli_state s) = s.
Proof.
  intros HI Hn. unfold popcli_state, pushcli_state, upd_eflags. simpl.
  destruct (Z.eqb_spec (ncli (cpu0 s)) 0); [lia|]. simpl.
  destruct (Z.eqb_spec (ncli (cpu0 s) + 1 - 1) 0); [lia|]. simpl.
  destruct s as [? r ? c]; simpl in *. unfold IF in HI. simpl in HI.
  destruct r as [e]; simpl in *. rewrite cli_idem by done.
  destruct c; unfold set_ncli; simpl. by rewrite Z.add_simpl_r.
Qed.

Definition holdsb (l : lock_id) (s : machine) : bool :=
  negb (locked (get_lock l s) =? 0) && bool_decide (lk_cpu (get_lock l s) = Some 0%nat).

Lemma get_put_lock l l' lk s :
  get_lock l' (put_lock l lk s) = if decide (l = l') then lk else get_lock l' s.
Proof. by destruct l, l'. Qed.
Lemma get_lock_pushcli l s : get_lock l (pushcli_state s) = get_lock l s.
Proof. by destruct l. Qed.

Lemma IF_pushcli s : IF (pushcli_state s) = false.
Proof. apply testbit_cli. Qed.
Lemma ncli_pushcli s : ncli (cpu0 (pushcli_state s)) = ncli (cpu0 s) + 1.
Proof. done. Qed.

Lemma holding_ok l s :
  0 <= ncli (cpu0 s) ->
  holding l s = (Ok (holdsb l s), popcli_state (pushcli_state s)).
Proof.
  intros Hn. unfold holding. erewrite bind_ok by apply pushcli_ok. mstep.
  rewrite get_lock_pushcli. unfold holdsb.
  erewrite bind_ok with (a := holdsb l s) (s' := pushcli_state s).
  - erewrite bind_ok; [done|]. apply popcli_ok; [apply IF_pushcli|rewrite ncli_pushcli; lia].
  - unfold holdsb. destruct (locked _ =? 0); [done|].
    by erewrite bind_ok by apply mycpu_ok, IF_pushcli.
Qed.

Lemma holding_nested l s :
  IF s = false -> 0 < ncli (cpu0 s) -> holding l s = (Ok (holdsb l s), s).
Proof. intros HI Hn. rewrite holding_ok by lia. by rewrite pop_push_nested. Qed.

Section LockSpecs.
Context `{env : Env}.

(** The state in which [acquire] returns. *)
Definition acquired (l : lock_id) (s : machine) : machine :=
  let s1 := pushcli_state s in
  let lk := set_lk_cpu (Some 0%nat) (set_locked 1 (get_lock l s)) in
  let s2 := put_lock l lk s1 in
  put_lock l (set_pcs (getcallerpcs (mem s) (arg_addr s2)) lk) s2.

(** The state in which [release] returns. *)
Definition released (l : lock_id) (s : machine) : machine :=
  let lk := get_lock l s in
  popcli_state (put_lock l (set_locked 0 (set_lk_cpu None (set_pcs (<[0%nat := 0]> (pcs lk)) lk))) s).

Lemma acquire_ok l s :
  0 <= ncli (cpu0 s) -> locked (get_lock l s) = 0 -> acquire l s = (Ok tt, acquired l s).
Proof.
  intros Hn Hl. unfold acquire. erewrite bind_ok by apply pushcli_ok.
  erewrite bind_ok by (apply holding_nested; [apply IF_pushcli|rewrite ncli_pushcli; lia]).
  unfold holdsb. rewrite get_lock_pushcli, Hl. cbn [Z.eqb negb andb].
  unfold xchg_locked. erewrite bind_ok; [|mstep; done].
  rewrite get_lock_pushcli, Hl. cbn [Z.eqb negb].
  erewrite bind_ok; [|apply mycpu_ok; by destruct l; apply IF_pushcli].
  mstep. unfold acquired. by destruct l.
Qed.

Lemma acquire_panics l s :
  0 <= ncli (cpu0 s) -> holdsb l s = true ->
  acquire l s = (Panic "acquire", pushcli_state s).
Proof.
  intros Hn Hh. unfold acquire. erewrite bind_ok by apply pushcli_ok.
  erewrite bind_ok by (apply holding_nested; [apply IF_pushcli|rewrite ncli_pushcli; lia]).
  unfold holdsb in *. rewrite get_lock_pushcli, Hh. done.
Qed.

Lemma acquire_hangs l s :
  0 <= ncli (cpu0 s) -> locked (get_lock l s) <> 0 -> holdsb l s = false ->
  (acquire l s).1 = Hang.
Proof.
  intros Hn Hl Hh. unfold acquire. erewrite bind_ok by apply pushcli_ok.
  erewrite bind_ok by (apply holding_nested; [apply IF_pushcli|rewrite ncli_pushcli; lia]).
  unfold holdsb in *. rewrite get_lock_pushcli, Hh. cbv iota.
  unfold xchg_locked. erewrite bind_ok; [|mstep; done].
  rewrite get_lock_pushcli. by destruct (Z.eqb_spec (locked (get_lock l s)) 0).
Qed.

Lemma release_ok l s :
  IF s = false -> 0 < ncli (cpu0 s) -> holdsb l s = true ->
  release l s = (Ok tt, released l s).
Proof.
  intros HI Hn Hh. unfold release. erewrite bind_ok by by apply holding_nested.
  rewrite Hh. cbn [negb]. mstep.
  rewrite popcli_ok; [|by destruct l|by destruct l]. by destruct l.
Qed.

Lemma release_panics l s :
  0 <= ncli (cpu0 s) -> holdsb l s = false ->
  release l s = (Panic "release", popcli_state (pushcli_state s)).
Proof.
  intros Hn Hh. unfold release. erewrite bind_ok by by apply holding_ok.
  by rewrite Hh.
Qed.
End LockSpecs.

(** ** States up to debugging data *)

(** The call stacks recorded in locks, and the interrupt flag saved by the
    last outermost [pushcli] once it has been undone, never influence the
    kernel.  [s1 ≡ s2] compares states without them. *)
Definition norm_lock (lk : spinlock) : spinlock := set_pcs [] lk.
Definition norm_cpu (c : cpu) : cpu := if ncli c =? 0 then set_intena 0 c else c.
Definition norm (s : machine) : machine :=
  let nl l s := put_lock l (norm_lock (get_lock l s)) s in
  set_cpu0 (norm_cpu (cpu0 s)) (nl KMEM_LOCK (nl CONS_LOCK (nl PTABLE_LOCK (nl IDE_LOCK s)))).

#[export] Instance machine_equiv : Equiv machine := fun s1 s2 => norm s1 = norm s2.
#[export] Instance machine_equivalence : Equivalence (≡@{machine}).
Proof.
  split; unfold equiv, machine_equiv; [by intros s|by intros s1 s2 ->|by intros s1 s2 s3 -> ->].
Qed.

(** What equivalent states share. *)
Section Shared.
Context (s1 s2 : machine) (E : s1 ≡ s2).

Lemma equiv_mem : mem s1 = mem s2.
Proof. exact (f_equal mem E). Qed.
Lemma equiv_regs : cpu_regs s1 = cpu_regs s2.
Proof. exact (f_equal cpu_regs E). Qed.
Lemma equiv_io : io s1 = io s2.
Proof. exact (f_equal io E). Qed.
Lemma equiv_vm : vm s1 = vm s2.
Proof. exact (f_equal vm E). Qed.
Lemma equiv_irq : irq s1 = irq s2.
Proof. exact (f_equal irq E). Qed.
Lemma equiv_freelist : freelist (kmem s1) = freelist (kmem s2).
Proof. exact (f_equal (fun s => freelist (kmem s)) E). Qed.
Lemma equiv_use_lock : use_lock (kmem s1) = use_lock (kmem s2).
Proof. exact (f_equal (fun s => use_lock (kmem s)) E). Qed.
Lemma equiv_kheap_start : kheap_start (kmem s1) = kheap_start (kmem s2).
Proof. exact (f_equal (fun s => kheap_start (kmem s)) E). Qed.
Lemma equiv_kheap_end : kheap_end (kmem s1) = kheap_end (kmem s2).
Proof. exact (f_equal (fun s => kheap_end (kmem s)) E). Qed.
Lemma equiv_proc : proc (ptable s1) = proc (ptable s2).
Proof. exact (f_equal (fun s => proc (ptable s)) E). Qed.
Lemma equiv_locked l : locked (get_lock l s1) = locked (get_lock l s2).
Proof. by pose proof (f_equal (fun s => locked (get_lock l s)) E) as H; destruct l. Qed.
Lemma equiv_lk_cpu l : lk_cpu (get_lock l s1) = lk_cpu (get_lock l s2).
Proof. by pose proof (f_equal (fun s => lk_cpu (get_lock l s)) E) as H; destruct l. Qed.
Lemma equiv_ncli : ncli (cpu0 s1) = ncli (cpu0 s2).
Proof.
  pose proof (f_equal (fun s => ncli (cpu0 s)) E) as H. simpl in H. unfold norm_cpu in H.
  by destruct (ncli (cpu0 s1) =? 0), (ncli (cpu0 s2) =? 0).
Qed.
Lemma equiv_IF : IF s1 = IF s2.
Proof. unfold IF. by rewrite equiv_regs. Qed.
End Shared.

(** ** The interrupt discipline *)

Definition irq_ok (s : machine) : Prop :=
  0 <= ncli (cpu0 s) /\ (0 < ncli (cpu0 s) -> IF s = false).

Definition lock_free (l : lock_id) (s : machine) : Prop :=
  locked (get_lock l s) = 0 /\ lk_cpu (get_lock l s) = None.
Definition lock_held (l : lock_id) (s : machine) : Prop :=
  locked (get_lock l s) = 1 /\ lk_cpu (get_lock l s) = Some 0%nat.

Definition held_count (s : machine) : Z :=
  locked (get_lock KMEM_LOCK s) + locked (get_lock CONS_LOCK s)
  + locked (get_lock PTABLE_LOCK s) + locked (get_lock IDE_LOCK s).

(** Every lock is free or held by this processor, and each held lock accounts
    for one level of [pushcli]. *)
Definition lock_inv (s : machine) : Prop :=
  irq_ok s /\ (forall l, lock_free l s \/ lock_held l s) /\ held_count s <= ncli (cpu0 s).

(** A state reached inside a critical section that [acquire l] opened at [s]. *)
Section Critical.
Context `{env : Env} (l : lock_id) (s t : machine).
Hypothesis Hfree : lock_free l s.
Hypothesis Hirq : irq_ok s.
Hypothesis Hcpu : cpu0 t = cpu0 (acquired l s).
Hypothesis Hregs : cpu_regs t = cpu_regs (acquired l s).
Hypothesis Hlock : get_lock l t = get_lock l (acquired l s).

Lemma release_inside : release l t = (Ok tt, released l t).
Proof.
  destruct Hirq as [Hn _]. apply release_ok.
  - unfold IF. rewrite Hregs. by destruct l; apply IF_pushcli.
  - rewrite Hcpu. destruct l; simpl; lia.
  - unfold holdsb. rewrite Hlock. unfold acquired. rewrite get_put_lock.
    by rewrite decide_True.
Qed.

(** Leaving the critical section gives back the processor state of [s]. *)
Lemma released_inside :
  released l t ≡ set_cpu0 (cpu0 s) (set_cpu_regs (cpu_regs s) (put_lock l (get_lock l s) t)).
Proof.
  destruct Hfree as [Hl0 Hc0], Hirq as [Hn HI].
  assert (cpu0 t = cpu0 (pushcli_state s)) as Hcpu' by (rewrite Hcpu; by destruct l).
  assert (cpu_regs t = cpu_regs (pushcli_state s)) as Hregs' by (rewrite Hregs; by destruct l).
  assert (get_lock l t = set_pcs (pcs (get_lock l t))
            (set_lk_cpu (Some 0%nat) (set_locked 1 (get_lock l s)))) as Hl'.
  { rewrite Hlock. unfold acquired. rewrite get_put_lock, decide_True by done. done. }
  unfold released. rewrite Hl'. clear Hcpu Hregs Hlock Hl'. set (p := pcs _). clearbody p.
  unfold popcli_state, upd_eflags. unfold IF in HI.
  destruct t as [? r ? c]; simpl in Hcpu', Hregs'; subst r c.
  destruct s as [? r ? c]; simpl in *. destruct c as [? ? ? ? n i pr], r as [e]; simpl in *.
  unfold equiv, machine_equiv, norm, norm_cpu.
  destruct (Z.eqb_spec n 0) as [->|Hn0]; simpl.
  - rewrite land_FL_IF. destruct (Z.testbit e 9) eqn:Ee; simpl; destruct l; simpl in *;
      unfold norm_lock, set_pcs, set_lk_cpu, set_locked in *; simpl in *;
      rewrite ?Hl0, ?Hc0; try (by rewrite cli_sti); by rewrite cli_idem.
  - destruct (Z.eqb_spec (n + 1 - 1) 0); [lia|]. rewrite cli_idem by (apply HI; lia).
    apply Z.eqb_neq in Hn0. cbn [andb]. unfold set_ncli.
    destruct l; simpl in *; rewrite Z.add_simpl_r, !Hn0;
      unfold norm_lock, set_pcs, set_lk_cpu, set_locked; simpl; by rewrite ?Hl0, ?Hc0, ?Hn0.
Qed.
End Critical.

(** ** Runs of the kernel, seen through its locks *)

(** One successful call of the interface, or work that leaves the locks, the
    processor record and the interrupt flag alone.  [popcli] is only called to
    undo a [pushcli] that no held lock accounts for, and [sti] only outside of
    any [pushcli] (the top of the loop of [scheduler]). *)
Inductive lock_step `{env : Env} (s : machine) : machine -> Prop :=
| step_initlock l name s' :
    lock_free l s -> initlock l name s = (Ok tt, s') -> lock_step s s'
| step_acquire l s' : acquire l s = (Ok tt, s') -> lock_step s s'
| step_release l s' : release l s = (Ok tt, s') -> lock_step s s'
| step_pushcli s' : pushcli s = (Ok tt, s') -> lock_step s s'
| step_popcli s' :
    held_count s < ncli (cpu0 s) -> popcli s = (Ok tt, s') -> lock_step s s'
| step_cli s' : cli s = (Ok tt, s') -> lock_step s s'
| step_sti s' : ncli (cpu0 s) = 0 -> sti s = (Ok tt, s') -> lock_step s s'
| step_work s' :
    (forall l, get_lock l s' = get_lock l s) -> cpu0 s' = cpu0 s ->
    eflags (cpu_regs s') = eflags (cpu_regs s) -> lock_step s s'.

Section Invariant.
Context `{env : Env}.

Lemma lock_inv_holdsb s l : lock_inv s -> holdsb l s = negb (locked (get_lock l s) =? 0).
Proof.
  intros (_ & Hl & _). unfold holdsb. destruct (Hl l) as [[-> _]|[-> ->]]; [done|].
  by rewrite bool_decide_true.
Qed.

Lemma held_count_ge l s :
  (forall l, lock_free l s \/ lock_held l s) -> 0 <= locked (get_lock l s) <= held_count s.
Proof.
  intros Hl. unfold held_count.
  destruct (Hl KMEM_LOCK) as [[? _]|[? _]], (Hl CONS_LOCK) as [[? _]|[? _]],
    (Hl PTABLE_LOCK) as [[? _]|[? _]], (Hl IDE_LOCK) as [[? _]|[? _]]; destruct l; simpl in *; lia.
Qed.

(** Reading the invariant off the parts it depends on. *)
Lemma lock_inv_intro s s' :
  lock_inv s -> (forall l, locked (get_lock l s') = locked (get_lock l s)) ->
  (forall l, lk_cpu (get_lock l s') = lk_cpu (get_lock l s)) ->
  held_count s <= ncli (cpu0 s') -> (0 < ncli (cpu0 s') -> IF s' = false) -> lock_inv s'.
Proof.
  intros (_ & Hl & _) E1 E2 Hc HI.
  assert (held_count s' = held_count s) as Eh by (unfold held_count; by rewrite !E1).
  pose proof (held_count_ge KMEM_LOCK s Hl).
  split_and!; [split; [lia|done]| |lia].
  intros l. unfold lock_free, lock_held. rewrite E1, E2. apply Hl.
Qed.

Lemma held_count_put l lk s :
  held_count (put_lock l lk s) = held_count s - locked (get_lock l s) + locked lk.
Proof. unfold held_count. destruct l; simpl; lia. Qed.

(** The parts of [acquired] and [released] the invariant looks at. *)
Lemma acquired_parts l s :
  get_lock l (acquired l s) =
    set_pcs (pcs (get_lock l (acquired l s))) (set_lk_cpu (Some 0%nat) (set_locked 1 (get_lock l s)))
  /\ (forall l', l' <> l -> get_lock l' (acquired l s) = get_lock l' s)
  /\ held_count (acquired l s) = held_count s - locked (get_lock l s) + 1
  /\ ncli (cpu0 (acquired l s)) = ncli (cpu0 s) + 1
  /\ IF (acquired l s) = false.
Proof.
  unfold acquired. split_and!.
  - by rewrite !get_put_lock, !decide_True by done.
  - intros l' Hne. rewrite !get_put_lock, !decide_False by done. apply get_lock_pushcli.
  - rewrite !held_count_put, !get_put_lock, !decide_True by done.
    rewrite get_lock_pushcli. unfold set_pcs, set_lk_cpu, set_locked; simpl locked.
    change (held_count (pushcli_state s)) with (held_count s). lia.
  - by destruct l.
  - destruct l; apply IF_pushcli.
Qed.

Lemma popcli_state_parts s :
  (forall l, get_lock l (popcli_state s) = get_lock l s) /\
  held_count (popcli_state s) = held_count s /\
  ncli (cpu0 (popcli_state s)) = ncli (cpu0 s) - 1 /\
  (ncli (cpu0 s) <> 1 -> IF (popcli_state s) = IF s).
Proof.
  unfold popcli_state, held_count, IF. destruct (_ && _) eqn:E.
  - split_and!; [by intros []|done|done|]. intros Hn. simpl in E.
    destruct (Z.eqb_spec (ncli (cpu0 s) - 1) 0); [lia|done].
  - split_and!; [by intros []|done..].
Qed.

Lemma acquire_cases l s :
  lock_inv s ->
  (lock_free l s /\ acquire l s = (Ok tt, acquired l s)) \/
  (lock_held l s /\ acquire l s = (Panic "acquire", pushcli_state s)).
Proof.
  intros Hinv. pose proof (lock_inv_holdsb s l Hinv) as Hh.
  destruct Hinv as ([Hn _] & Hl & _). destruct (Hl l) as [Hf|Hd]; [left|right]; (split; [done|]).
  - destruct Hf as [Hf _]. by apply acquire_ok.
  - destruct Hd as [Hd _]. apply acquire_panics; [done|]. by rewrite Hh, Hd.
Qed.

Lemma lock_inv_acquired l s : lock_inv s -> lock_free l s -> lock_inv (acquired l s).
Proof.
  intros ([Hn HI] & Hl & Hc) [Hf0 _].
  destruct (acquired_parts l s) as (E1 & E2 & E3 & E4 & E5).
  split_and!; [split; [lia|done]| |lia].
  intros l'. destruct (decide (l' = l)) as [->|Hne].
  - right. unfold lock_held. by rewrite E1.
  - unfold lock_free, lock_held. rewrite E2 by done. apply Hl.
Qed.

Lemma lock_inv_released l s :
  lock_inv s -> lock_held l s -> lock_inv (released l s).
Proof.
  intros ([Hn HI] & Hl & Hc) [Hd1 Hd2]. unfold released.
  match goal with |- lock_inv (popcli_state (put_lock l ?k s)) => set (lk := k) end.
  destruct (popcli_state_parts (put_lock l lk s)) as (E1 & E2 & E3 & E4).
  assert (ncli (cpu0 (put_lock l lk s)) = ncli (cpu0 s)) as En by by destruct l.
  assert (IF (put_lock l lk s) = IF s) as Ei by by destruct l.
  pose proof (held_count_ge l s Hl).
  rewrite held_count_put, Hd1 in E2. change (locked lk) with 0 in E2.
  split_and!; [split|..].
  - rewrite E3, En. lia.
  - rewrite E3, En. intros Hp. rewrite E4 by lia. rewrite Ei. apply HI. lia.
  - intros l'. unfold lock_free, lock_held. rewrite E1, get_put_lock.
    destruct (decide (l = l')) as [->|]; [by left|apply Hl].
  - rewrite E2, E3, En. lia.
Qed.

Lemma lock_step_inv s s' : lock_inv s -> lock_step s s' -> lock_inv s'.
Proof.
  intros Hinv Hst. pose proof Hinv as ([Hn HI] & Hl & Hc). destruct Hst as [
    l name s' [Hf Hf'] E|l s' E|l s' E|s' E|s' Hp E|s' E|s' Hz E|s' Hl' Hcpu He].
  - injection E as <-. apply (lock_inv_intro s); [done|..]; try (by destruct l);
      intros l'; rewrite get_put_lock; destruct (decide (l = l')) as [<-|]; simpl; auto.
  - destruct (acquire_cases l s Hinv) as [[Hf Ea]|[_ Ea]]; rewrite Ea in E; [|done].
    injection E as <-. by apply lock_inv_acquired.
  - destruct (Hl l) as [Hf|Hd].
    + rewrite release_panics in E; [done|done|].
      rewrite lock_inv_holdsb by done. by destruct Hf as [-> _].
    + assert (0 < ncli (cpu0 s)) as Hp.
      { pose proof (held_count_ge l s Hl). destruct Hd as [Hd _]. lia. }
      rewrite release_ok in E; [|by apply HI|done|].
      2:{ rewrite lock_inv_holdsb by done. by destruct Hd as [-> _]. }
      injection E as <-. by apply lock_inv_released.
  - rewrite pushcli_ok in E. injection E as <-.
    apply (lock_inv_intro s); [done|intros l; by rewrite get_lock_pushcli..| |].
    + rewrite ncli_pushcli. lia.
    + intros _. apply IF_pushcli.
  - pose proof (held_count_ge KMEM_LOCK s Hl).
    rewrite popcli_ok in E; [|apply HI; lia|lia]. injection E as <-.
    destruct (popcli_state_parts s) as (E1 & E2 & E3 & E4).
    apply (lock_inv_intro s); [done|intros l; by rewrite E1..|lia|].
    intros Hp'. rewrite E4 by lia. apply HI. lia.
  - injection E as <-. apply (lock_inv_intro s); [done|by intros []..|done|].
    intros _. apply IF_cli.
  - injection E as <-. apply (lock_inv_intro s); [done|by intros []..|done|].
    simpl. lia.
  - apply (lock_inv_intro s); [done|intros l; by rewrite Hl'..|by rewrite Hcpu|].
    rewrite Hcpu. unfold IF. by rewrite He.
Qed.
End Invariant.

(** ** Properties *)

Section Properties.
Context `{env : Env}.

(** C13: taking a free lock and releasing it succeeds and gives back the state
    it started from (interrupt flag, nesting depth and every global), up to
    the recorded call stack and the dead saved flag. *)
Theorem acquire_release_restores l s :
  irq_ok s -> lock_free l s ->
  exists s', (_ ← acquire l; release l) s = (Ok tt, s') /\ s' ≡ s.
Proof.
  intros Hirq Hf. pose proof Hirq as [Hn _]. pose proof Hf as [Hl _].
  erewrite bind_ok by by apply acquire_ok.
  exists (released l (acquired l s)). split; [by apply (release_inside l s)|].
  etrans; [by apply (released_inside l s)|].
  unfold acquired. destruct s as [? r ? c], l; simpl; destruct kmem, cons, ptable, drv;
    reflexivity.
Qed.

(** C12: in every run of the kernel from a state that satisfies the interrupt
    discipline, whenever interrupts are enabled (so that a handler may start)
    no lock is held: a handler that takes any lock gets it, without the panic
    and without spinning. *)
Theorem interruptible_locks_free s0 s l :
  lock_inv s0 -> rtc lock_step s0 s -> IF s = true ->
  acquire l s = (Ok tt, acquired l s) /\ lock_held l (acquired l s).
Proof.
  intros Hinv Hrun HI.
  assert (lock_inv s) as Hs by (induction Hrun; eauto using lock_step_inv).
  pose proof Hs as ([Hn Hcli] & Hl & Hc). pose proof (held_count_ge l s Hl).
  assert (ncli (cpu0 s) = 0) as Hn0.
  { destruct (decide (0 < ncli (cpu0 s))) as [Hp|]; [|lia]. by rewrite Hcli in HI. }
  destruct (acquire_cases l s Hs) as [[_ E]|[[Hd _] _]]; [|lia].
  split; [done|]. destruct (acquired_parts l s) as (E1 & _).
  unfold lock_held. by rewrite E1.
Qed.

(** C28: in a state that satisfies the interrupt discipline, [acquire] of a free
    lock returns holding it and a second [acquire] by the holder panics; it
    never spins forever. [release] of a lock that is not held panics. *)
Theorem lock_misuse_panics l s :
  lock_inv s ->
  (lock_free l s -> acquire l s = (Ok tt, acquired l s) /\
     acquire l (acquired l s) = (Panic "acquire", pushcli_state (acquired l s)) /\
     (release l s).1 = Panic "release") /\
  (acquire l s).1 <> Hang.
Proof.
  intros Hinv. pose proof Hinv as ([Hn _] & _ & _). split.
  - intros Hf. pose proof Hf as [Hf0 _]. split_and!.
    + by apply acquire_ok.
    + destruct (acquire_cases l (acquired l s)) as [[[Hd _] _]|[_ E]]; [| |done].
      * by apply lock_inv_acquired.
      * destruct (acquired_parts l s) as (E1 & _). by rewrite E1 in Hd.
    + rewrite release_panics; [done..|]. rewrite lock_inv_holdsb by done. by rewrite Hf0.
  - destruct (acquire_cases l s Hinv) as [[_ ->]|[_ ->]]; done.
Qed.
End Properties.

(** *** Witnesses *)

Definition demo_machine : machine :=
  boot_machine ∅ (mkRegs (2 .| FL_IF) 0 0 0 (0, 0) (0, 0)).

Lemma demo_lock_inv : lock_inv demo_machine.
Proof. repeat split; try (intros []; left; split; reflexivity); vm_compute; done. Qed.

Lemma acquire_release_restores_witness :
  exists s', (_ ← acquire (env:=demo_env) KMEM_LOCK; release KMEM_LOCK) demo_machine = (Ok tt, s')
    /\ s' ≡ demo_machine.
Proof.
  apply (acquire_release_restores (env:=demo_env)); repeat split; vm_compute; done.
Defined.

Lemma interruptible_locks_free_witness :
  acquire (env:=demo_env) PTABLE_LOCK demo_machine
    = (Ok tt, acquired (env:=demo_env) PTABLE_LOCK demo_machine).
Proof.
  apply (interruptible_locks_free (env:=demo_env) demo_machine);
    [exact demo_lock_inv|apply rtc_refl|vm_compute; done].
Defined.

Lemma lock_misuse_panics_witness :
  (release CONS_LOCK demo_machine).1 = Panic "release".
Proof.
  apply (lock_misuse_panics (env:=demo_env) CONS_LOCK demo_machine);
    [exact demo_lock_inv|split; reflexivity].
Defined.
