(* ===== verification/Uart.v ===== *)
(** * Uart: sending and receiving a byte on the serial port ([drivers/uart.c]) *)

From S2P Require Import Prelude Machine.

Definition COM1 : Z := 0x3f8.

Section WithEnv.
Context `{env : Env}.

(** [for (i = 0; i < 128 && !(inb(COM1+5) & 0x20); i++) microdelay(10);] where
    [microdelay] does nothing: polls the line status at most [n] times. *)
Fixpoint uart_wait (n : nat) : K unit :=
  match n with
  | O => mret tt
  | S n' =>
      st ← inb (COM1 + 5);
      if (st & 0x20) =? 0 then uart_wait n' else mret tt
  end.

Definition uartputc (c : Z) : K unit :=
  u ← gets (fun s => uart (drv s));
  if u =? 0 then mret tt else
  _ ← uart_wait 128;
  outb (COM1 + 0) (wrap8 c).

(** The [-1] of the source is converted to [uint8_t]. *)
Definition uartgetc : K Z :=
  u ← gets (fun s => uart (drv s));
  if u =? 0 then mret 0xff else
  st ← inb (COM1 + 5);
  if (st & 0x01) =? 0 then mret 0xff else
  inb (COM1 + 0).

Definition com1_interrupt_handler : K unit :=
  c ← uartgetc;
  uartputc c.
End WithEnv.

(** ** Device accesses leave everything but the I/O history alone *)

Definition io_only (s s' : machine) : Prop := s' = set_io (io s') s.

#[export] Instance io_only_preorder : PreOrder io_only.
Proof.
  split; [by intros []|]. intros s1 s2 s3 H12 H23. unfold io_only in *. rewrite H23, H12. done.
Qed.

Section Frame.
Context `{env : Env}.

Lemma inb_runs p : runs io_only (inb p).
Proof. intros s. by eexists _, _. Qed.
Lemma outb_runs p v : runs io_only (outb p v).
Proof. apply runs_modify. done. Qed.
Lemma uart_wait_runs n : runs io_only (uart_wait n).
Proof.
  induction n as [|n IH]; simpl; [apply runs_ret, _|].
  apply runs_bind; [apply _|apply inb_runs|]. intros st. destruct (_ =? 0); [done|apply runs_ret, _].
Qed.
Lemma uartputc_runs c : runs io_only (uartputc c).
Proof.
  apply runs_bind; [apply _|apply runs_gets, _|]. intros u. destruct (_ =? 0); [apply runs_ret, _|].
  apply runs_bind; [apply _|apply uart_wait_runs|]. intros _. apply outb_runs.
Qed.

(** With no port detected nothing is sent; with one, the last access of
    [uartputc] is the write of the byte, however long the device was busy. *)
Lemma uartputc_sends c s :
  exists evs, uartputc c s = (Ok tt, set_io (evs ++ io s) s) /\
    if uart (drv s) =? 0 then evs = [] else exists polls, evs = Out8 COM1 (wrap8 c) :: polls /\
      (length polls <= 128)%nat.
Proof.
  assert (forall n s, exists polls, uart_wait n s = (Ok tt, set_io (polls ++ io s) s) /\
    (length polls <= n)%nat) as Hw.
  { induction n as [|n IH]; intros s'; simpl; [exists []; by destruct s'|].
    unfold inb. erewrite bind_ok by done. destruct (_ =? 0).
    - destruct (IH (push_io (In8 (COM1 + 5) (wrap8 (dev_in (io s') (COM1 + 5)))) s'))
        as (polls & -> & Hl). eexists (polls ++ [_]). rewrite <- app_assoc. split; [done|].
      rewrite length_app. simpl. lia.
    - eexists [_]. split; [done|]. simpl. lia. }
  unfold uartputc. mstep. destruct (uart (drv s) =? 0); [exists []; by destruct s|].
  destruct (Hw 128%nat s) as (polls & E & Hl). erewrite bind_ok by done.
  exists (Out8 COM1 (wrap8 c) :: polls). split; [|by eauto].
  unfold outb, modify, push_io. simpl. replace (wrap8 (wrap8 c)) with (wrap8 c) by ulia. done.
Qed.
End Frame.
