(* ===== verification/Screen.v ===== *)
(** * Screen: the console ([drivers/screen.c], [drivers/vga.h])

    Text-mode video memory with its hardware cursor, character output to the
    screen and to the serial port, [cprintf] and [panic]. *)

From S2P Require Import Prelude Machine Cstring Spinlock Uart.

(** ** screen.h, vga.h *)

Definition MAX_ROWS : Z := 25.
Definition MAX_COLS : Z := 80.
Definition REG_SCREEN_CTRL : Z := 0x3d4.
Definition REG_SCREEN_DATA : Z := 0x3d5.
Definition BACKSPACE : Z := 0x100.

(** [enum vga_color], as its values. *)
Definition VGA_COLOR_BLACK : Z := 0.
Definition VGA_COLOR_LIGHT_GREY : Z := 7.
Definition vga_attr (bg fg : Z) : Z := (bg << 4) .| fg.
Definition vga_entry (bg fg c : Z) : Z :=
  wrap16 (wrap8 c .| (wrap16 fg << 8) .| (wrap16 bg << 12)).

Definition TERMINAL_DEFAULT_COLOR_BG : Z := VGA_COLOR_BLACK.
Definition TERMINAL_DEFAULT_COLOR_FG : Z := VGA_COLOR_LIGHT_GREY.
Definition WHITE_ON_BLACK : Z := vga_attr TERMINAL_DEFAULT_COLOR_BG TERMINAL_DEFAULT_COLOR_FG.

(** [vidmem = P2V(0xb8000)] *)
Definition vidmem : Z := 0xb8000 + KERNBASE.

Definition get_screen_offset (col row : Z) : Z := (row * MAX_COLS + col) * 2.

(** [digits[i]] of ["0123456789abcdef"]. *)
Definition digit (i : Z) : Z := if i <? 10 then 48 + i else 87 + i.

(** Words passed to [cprintf]: a 32-bit word, or the address of a string
    constant, given by its bytes. *)
Inductive arg : Type :=
| AW (w : Z)
| AS (s : string).

Section WithEnv.
Context `{env : Env}.

(** ** The cursor *)

Definition get_cursor : K Z :=
  _ ← outb REG_SCREEN_CTRL 14;
  hi ← inb REG_SCREEN_DATA;
  _ ← outb REG_SCREEN_CTRL 15;
  lo ← inb REG_SCREEN_DATA;
  mret (((hi << 8) + lo) * 2).

Definition set_cursor (offset : Z) : K unit :=
  let offset := Z.quot offset 2 in
  _ ← outb REG_SCREEN_CTRL 14;
  _ ← outb REG_SCREEN_DATA ((offset & 0xff00) >> 8);
  _ ← outb REG_SCREEN_CTRL 15;
  outb REG_SCREEN_DATA (offset & 0xff).

(** [for (i = 1; i < MAX_ROWS; i++) memcpy(row i-1, row i, 160)] *)
Fixpoint scroll_rows (i : Z) (n : nat) : K unit :=
  match n with
  | O => mret tt
  | S n' =>
      _ ← memcpy (vidmem + get_screen_offset 0 (i - 1)) (vidmem + get_screen_offset 0 i)
            (MAX_COLS * 2);
      scroll_rows (i + 1) n'
  end.
(** [for (i = 0; i < MAX_COLS * 2; i++) last_line[i] = 0] *)
Fixpoint blank_line (last_line i : Z) (n : nat) : K unit :=
  match n with
  | O => mret tt
  | S n' => _ ← store8 (last_line + i) 0; blank_line last_line (i + 1) n'
  end.

Definition handle_scrolling (cursor_offset : Z) : K Z :=
  if cursor_offset <? MAX_ROWS * MAX_COLS * 2 then mret cursor_offset else
  _ ← scroll_rows 1 (Z.to_nat (MAX_ROWS - 1));
  _ ← blank_line (vidmem + get_screen_offset 0 (MAX_ROWS - 1)) 0 (Z.to_nat (MAX_COLS * 2));
  mret (cursor_offset - 2 * MAX_COLS).

(** ** Characters *)

Definition print_char (character col row attribute_byte : Z) : K unit :=
  let character := wrap8 character in
  let attribute_byte := if wrap8 attribute_byte =? 0 then WHITE_ON_BLACK else attribute_byte in
  offset ← (if (0 <=? col) && (0 <=? row) then mret (get_screen_offset col row) else get_cursor);
  offset ← (if character =? 10 then
              let rows := Z.quot offset (2 * MAX_COLS) in
              mret (get_screen_offset 79 rows)
            else
              _ ← store8 (vidmem + offset) character;
              _ ← store8 (vidmem + offset + 1) attribute_byte;
              mret offset);
  offset ← handle_scrolling (offset + 2);
  set_cursor offset.

(** The message is a string constant, given by its characters. *)
Fixpoint print_at_loop (message : list Z) (col row : Z) : K unit :=
  match message with
  | [] => mret tt
  | c :: rest =>
      if c =? 0 then mret tt else
      _ ← print_char c col row WHITE_ON_BLACK;
      print_at_loop rest col row
  end.
Definition print_at (message : list Z) (col row : Z) : K unit :=
  _ ← when ((0 <=? col) && (0 <=? row)) (set_cursor (get_screen_offset col row));
  print_at_loop message col row.

Fixpoint clear_cols (col row : Z) (n : nat) : K unit :=
  match n with
  | O => mret tt
  | S n' => _ ← print_char 32 col row WHITE_ON_BLACK; clear_cols (col + 1) row n'
  end.
Fixpoint clear_rows (row : Z) (n : nat) : K unit :=
  match n with
  | O => mret tt
  | S n' => _ ← clear_cols 0 row (Z.to_nat MAX_COLS); clear_rows (row + 1) n'
  end.
Definition clear_screen : K unit :=
  _ ← clear_rows 0 (Z.to_nat MAX_ROWS);
  set_cursor (get_screen_offset 0 0).

Fixpoint print_color_loop (data : list Z) (fg : Z) : K unit :=
  match data with
  | [] => mret tt
  | c :: rest =>
      _ ← print_char c (-1) (-1) (vga_attr TERMINAL_DEFAULT_COLOR_BG fg);
      print_color_loop rest fg
  end.
Definition print_color (data : list Z) (size : nat) (fg : Z) : K unit :=
  print_color_loop (take size data) fg.

Definition consputc (c : Z) : K unit :=
  _ ← (if c =? BACKSPACE then
         _ ← uartputc 8; _ ← uartputc 32; uartputc 8
       else uartputc (wrap8 c));
  print_char c (-1) (-1) (vga_attr TERMINAL_DEFAULT_COLOR_BG TERMINAL_DEFAULT_COLOR_FG).

Fixpoint put_all (l : list Z) : K unit :=
  match l with
  | [] => mret tt
  | c :: rest => _ ← consputc c; put_all rest
  end.

(** ** Numbers *)

(** The [do ... while ((x /= base) != 0)] loop: [buf] is [buf[0..i)], the last
    character stored first; [n] is the room left in the 16-character buffer. *)
Fixpoint printint_digits (n : nat) (x base : Z) (buf : list Z) : option (list Z) :=
  match n with
  | O => None
  | S n' =>
      let buf := digit (x mod base) :: buf in
      let x := x / base in
      if x =? 0 then Some buf else printint_digits n' x base buf
  end.

(** The contents of [buf] when it is printed, from [buf[i-1]] down; [None] when
    the 16 characters do not suffice. *)
Definition printint_buf (xx base : Z) (sign : bool) : option (list Z) :=
  let neg := sign && (sext32 xx <? 0) in
  let x := if neg then wrap32 (- sext32 xx) else wrap32 xx in
  match printint_digits 16 x base [] with
  | None => None
  | Some buf =>
      if neg then (if (length buf <? 16)%nat then Some (45 :: buf) else None) else Some buf
  end.

(** [while (--i >= 0) consputc(buf[i]);] *)
Definition printint (xx base : Z) (sign : bool) : K unit :=
  match printint_buf xx base sign with
  | None => undef "printint: buf"
  | Some buf => put_all buf
  end.

(** The [n] hexadecimal digits from the top of a 64-bit value. *)
Fixpoint ptr_digits (n : nat) (x : Z) : list Z :=
  match n with
  | O => []
  | S n' => digit (x >> 60) :: ptr_digits n' (wrap64 (x << 4))
  end.
Definition printptr (x : Z) : K unit :=
  _ ← consputc 48;
  _ ← consputc 120;
  put_all (ptr_digits 16 x).

(** ** cprintf *)

(** [for (; *s; s++) consputc( *s);] from memory. *)
Definition put_mem_string (p : Z) : K unit :=
  loop 32 (fun p =>
    c ← load8 p;
    if c =? 0 then mret (inr tt) else
    _ ← consputc (sext8 c);
    mret (inl (p +u 1))) p.

Definition put_string_arg (a : arg) : K unit :=
  match a with
  | AW p => if p =? 0 then put_all (bytes_of "(null)") else put_mem_string p
  | AS s => put_all (map sext8 (bytes_of s))
  end.

(** The loop over the format.  [args] are the words above [fmt] on the stack;
    a format that consumes more than the caller passed has no meaning. *)
Fixpoint cprintf_loop (fmt : list Z) (args : list arg) {struct fmt} : K unit :=
  match fmt with
  | [] => mret tt
  | c :: fmt1 =>
      if c =? 0 then mret tt else
      if negb (c =? 37) then _ ← consputc c; cprintf_loop fmt1 args else
      match fmt1 with
      | [] => mret tt
      | c :: fmt2 =>
          if c =? 0 then mret tt else
          if c =? 100 then                                         (* 'd' *)
            match args with
            | AW w :: args' => _ ← printint w 10 true; cprintf_loop fmt2 args'
            | _ => undef "cprintf: argument"
            end
          else if (c =? 120) || (c =? 112) then                    (* 'x', 'p' *)
            match args with
            | AW w :: args' => _ ← printint w 16 false; cprintf_loop fmt2 args'
            | _ => undef "cprintf: argument"
            end
          else if c =? 108 then                                    (* 'l' *)
            match args with
            | AW lo :: AW hi :: args' =>
                _ ← printptr (wrap32 lo + 4294967296 * wrap32 hi); cprintf_loop fmt2 args'
            | _ => undef "cprintf: argument"
            end
          else if c =? 115 then                                    (* 's' *)
            match args with
            | a :: args' => _ ← put_string_arg a; cprintf_loop fmt2 args'
            | _ => undef "cprintf: argument"
            end
          else if c =? 37 then _ ← consputc 37; cprintf_loop fmt2 args
          else _ ← consputc 37; _ ← consputc c; cprintf_loop fmt2 args
      end
  end.

(** [fmt] is [None] for a null pointer, else a string constant. *)
Definition cprintf (fmt : option string) (args : list arg) : K unit :=
  lk ← gets (fun s => locking (cons s));
  _ ← when (negb (lk =? 0)) (acquire CONS_LOCK);
  match fmt with
  | None => raise_panic "null fmt"
  | Some f =>
      _ ← cprintf_loop (bytes_of f) args;
      when (negb (lk =? 0)) (release CONS_LOCK)
  end.

Definition print (s : arg) : K unit := cprintf (Some "%s") [s].

(** lib/debug.h: [warn(fmt, args...)] and [info(fmt, args...)]. *)
Definition warn (fmt : string) (args : list arg) : K unit :=
  cprintf (Some ("WARN: " +:+ fmt +:+ nl)) args.
Definition info (fmt : string) (args : list arg) : K unit :=
  cprintf (Some ("INFO: " +:+ fmt +:+ nl)) args.

(** lib/debug.h: [assert(condition)] in function [fn] of [file], line [line]. *)
Definition kassert (condition : bool) (fn file : string) (line : Z) : K unit :=
  if condition then mret tt else
  _ ← cprintf (Some ("function '%s', file '%s': line %d" +:+ nl)) [AS fn; AS file; AW line];
  raise_panic "assertion failed".

(** ** panic *)

Fixpoint panic_pcs (l : list Z) : K unit :=
  match l with
  | [] => mret tt
  | pc :: rest => _ ← cprintf (Some " %p") [AW pc]; panic_pcs rest
  end.

(** What [panic(s)] does: code that panics stops with [Panic s] in this model,
    and [panic s] is what then runs, to the endless loop at its end. *)
Definition panic (s : string) : K unit :=
  _ ← cli;
  _ ← modify (fun st => set_cons (set_locking 0 (cons st)) st);
  _ ← cprintf (Some "panic: ") [];
  _ ← cprintf (Some s) [];
  _ ← cprintf (Some nl) [];
  pcs ← gets (fun st => getcallerpcs (mem st) (arg_addr st));
  _ ← panic_pcs pcs;
  hang.

(** lib/debug.c: the canary of compiled functions, and what they call when they
    find it overwritten. *)
Definition STACK_CHK_GUARD : Z := 0xCF10A8CB.
Definition stack_chk_fail : K unit := raise_panic "stack smashing detected".

(** Kernel code together with the panics it calls. *)
Definition with_panic {A} (m : K A) : K A := fun s =>
  match m s with
  | (Panic msg, s') => (_ ← panic msg; hang) s'
  | r => r
  end.

Definition consoleinit : K unit :=
  _ ← initlock CONS_LOCK "console";
  modify (fun s => set_cons (set_locking 1 (cons s)) s).

End WithEnv.

(** ** Output touches only the video window *)

(** The bytes the console may write: 2^16 character cells from [vidmem], all
    that the two cursor registers can address. *)
Definition in_video (b : Z) : Prop := vidmem <= b < vidmem + 0x20000.

(** [s'] differs from [s] only in video memory and in the I/O history. *)
Definition con_frame (s s' : machine) : Prop :=
  s' = set_io (io s') (set_mem (mem s') s) /\
  forall b, 0 <= b < 4294967296 -> ~ in_video b -> mload8 (mem s') b = mload8 (mem s) b.

#[export] Instance con_frame_preorder : PreOrder con_frame.
Proof.
  split; [by intros []|]. intros s1 s2 s3 [E12 H12] [E23 H23]. split.
  - rewrite E23, E12. done.
  - intros b Hb Hv. by rewrite H23, H12.
Qed.

Lemma io_only_con_frame s s' : io_only s s' -> con_frame s s'.
Proof. intros ->. by destruct s. Qed.
Lemma runs_io {A} (m : K A) : runs io_only m -> runs con_frame m.
Proof. intros H s. destruct (H s) as (a & s' & E & Hr). eauto using io_only_con_frame. Qed.

Lemma con_frame_mem m' s :
  (forall b, 0 <= b < 4294967296 -> ~ in_video b -> mload8 m' b = mload8 (mem s) b) ->
  con_frame s (set_mem m' s).
Proof. intros H. split; [by destruct s|done]. Qed.

Ltac video_tac := pose proof ram_end_range; unfold in_video, vidmem, kspace, get_screen_offset, MAX_COLS, MAX_ROWS, KERNBASE in *; lia.

Section Frame.
Context `{env : Env}.

Lemma store8_video a v : in_video a -> runs con_frame (store8 a v).
Proof.
  intros Ha s. rewrite store8_kernel by video_tac. eexists _, _. split; [done|].
  apply con_frame_mem. intros b Hb Hv. apply mload8_store8_ne.
  unfold in_video, vidmem, KERNBASE in *. ulia.
Qed.

Lemma memcpy_video d a n :
  0 < n -> in_video d -> in_video (d + n - 1) -> in_video a -> in_video (a + n - 1) ->
  runs con_frame (memcpy d a n).
Proof.
  intros Hn Hd Hd' Ha Ha' s. rewrite memcpy_kernel by video_tac. eexists _, _. split; [done|].
  apply con_frame_mem. intros b Hb Hv. apply mload8_copy_out; video_tac.
Qed.

Lemma scroll_rows_runs i n :
  1 <= i -> i + Z.of_nat n <= MAX_ROWS -> runs con_frame (scroll_rows i n).
Proof.
  revert i. induction n as [|n IH]; intros i Hi Hn; simpl; [apply runs_ret, _|].
  apply runs_bind; [apply _|apply memcpy_video; video_tac|]. intros _. apply IH; lia.
Qed.
Lemma blank_line_runs a i n :
  0 <= i -> in_video a -> in_video (a + i + Z.of_nat n - 1) -> runs con_frame (blank_line a i n).
Proof.
  revert i. induction n as [|n IH]; intros i Hi Ha Hn; simpl; [apply runs_ret, _|].
  apply runs_bind; [apply _|apply store8_video; video_tac|]. intros _. apply IH; video_tac.
Qed.

Lemma handle_scrolling_runs off : runs con_frame (handle_scrolling off).
Proof.
  unfold handle_scrolling. destruct (off <? _); [apply runs_ret, _|].
  apply runs_bind; [apply _|apply scroll_rows_runs; unfold MAX_ROWS; lia|]. intros _.
  apply runs_bind; [apply _|apply blank_line_runs; video_tac|]. intros _. apply runs_ret, _.
Qed.

Lemma set_cursor_runs off : runs io_only (set_cursor off).
Proof.
  repeat (apply runs_bind; [apply _|apply outb_runs|intros _]). apply outb_runs.
Qed.

Lemma get_cursor_ok s :
  exists off s', get_cursor s = (Ok off, s') /\ io_only s s' /\ 0 <= off <= 131070.
Proof.
  unfold get_cursor, outb, inb. mstep. erewrite bind_ok by done. mstep. erewrite bind_ok by done.
  eexists _, _. split; [done|]. split; [done|].
  match goal with |- context [wrap8 ?x << 8] => pose proof (wrap8_range x) end.
  match goal with |- context [_ + wrap8 ?x] => pose proof (wrap8_range x) end.
  rewrite Z.shiftl_mul_pow2 by lia. lia.
Qed.

(** A character cell given by its coordinates, or the one under the cursor. *)
Lemma print_char_runs c col row attr :
  (0 <= col -> 0 <= row -> in_video (vidmem + get_screen_offset col row + 1)) ->
  runs con_frame (print_char c col row attr).
Proof.
  intros Hpos s. unfold print_char. set (at' := if wrap8 attr =? 0 then _ else _).
  assert (exists off s1, (if (0 <=? col) && (0 <=? row) then mret (get_screen_offset col row)
    else get_cursor) s = (Ok off, s1) /\ con_frame s s1 /\ 0 <= off <= 131070) as (off & s1 & E1 & F1 & Ho).
  { destruct ((0 <=? col) && (0 <=? row)) eqn:Epos.
    - specialize (Hpos ltac:(lia) ltac:(lia)).
      exists (get_screen_offset col row), s. split; [done|]. split; [done|]. video_tac.
    - destruct (get_cursor_ok s) as (off & s1 & ? & ? & ?).
      exists off, s1. split; [done|]. split; [by apply io_only_con_frame|done]. }
  erewrite bind_ok by done.
  match goal with |- exists a s', mbind ?f ?m s1 = _ /\ _ =>
    assert (runs con_frame (mbind f m)) as Hr end.
  2:{ destruct (Hr s1) as (a & s2 & ? & ?). exists a, s2. split; [done|]. by etrans. }
  apply runs_bind; [apply _| |].
  - destruct (_ =? 10); [apply runs_ret, _|].
    apply runs_bind; [apply _|apply store8_video; video_tac|]. intros _.
    apply runs_bind; [apply _|apply store8_video; video_tac|]. intros _. apply runs_ret, _.
  - intros off'. apply runs_bind; [apply _|apply handle_scrolling_runs|]. intros off2.
    apply runs_io, set_cursor_runs.
Qed.

Lemma consputc_runs c : runs con_frame (consputc c).
Proof.
  apply runs_bind; [apply _| |].
  - apply runs_io. destruct (_ =? _); [|apply uartputc_runs].
    repeat (apply runs_bind; [apply _|apply uartputc_runs|intros _]). apply uartputc_runs.
  - intros _. apply print_char_runs. lia.
Qed.

Lemma put_all_runs l : runs con_frame (put_all l).
Proof.
  induction l as [|c l IH]; simpl; [apply runs_ret, _|].
  apply runs_bind; [apply _|apply consputc_runs|]. by intros _.
Qed.
End Frame.

(** ** What a format prints *)

(** The characters [cprintf] sends to the console, for a format whose [%s]
    arguments are string constants or null; [None] when the arguments do not
    fit the format. *)
Fixpoint render (fmt : list Z) (args : list arg) {struct fmt} : option (list Z) :=
  match fmt with
  | [] => Some []
  | c :: fmt1 =>
      if c =? 0 then Some [] else
      if negb (c =? 37) then l ← render fmt1 args; Some (c :: l) else
      match fmt1 with
      | [] => Some []
      | c :: fmt2 =>
          if c =? 0 then Some [] else
          if c =? 100 then
            match args with
            | AW w :: args' => b ← printint_buf w 10 true; l ← render fmt2 args'; Some (b ++ l)
            | _ => None
            end
          else if (c =? 120) || (c =? 112) then
            match args with
            | AW w :: args' => b ← printint_buf w 16 false; l ← render fmt2 args'; Some (b ++ l)
            | _ => None
            end
          else if c =? 108 then
            match args with
            | AW lo :: AW hi :: args' =>
                l ← render fmt2 args';
                Some ([48; 120] ++ ptr_digits 16 (wrap32 lo + 4294967296 * wrap32 hi) ++ l)
            | _ => None
            end
          else if c =? 115 then
            match args with
            | AW p :: args' =>
                if p =? 0 then l ← render fmt2 args'; Some (bytes_of "(null)" ++ l) else None
            | AS s :: args' => l ← render fmt2 args'; Some (map sext8 (bytes_of s) ++ l)
            | _ => None
            end
          else if c =? 37 then l ← render fmt2 args; Some (37 :: l)
          else l ← render fmt2 args; Some (37 :: c :: l)
      end
  end.

Section Render.
Context `{env : Env}.

Lemma put_all_app l1 l2 s : put_all (l1 ++ l2) s = (_ ← put_all l1; put_all l2) s.
Proof.
  revert s. induction l1 as [|c l1 IH]; intros s; simpl; [done|].
  destruct (consputc_runs c s) as ([] & s1 & E & _). rewrite !(bind_ok _ _ _ _ _ E).
  unfold mbind at 1, M_bind at 1. rewrite (bind_ok _ _ _ _ _ E). apply IH.
Qed.

Lemma consputc_put c s : consputc c s = put_all [c] s.
Proof.
  simpl. destruct (consputc_runs c s) as ([] & s1 & E & _). by rewrite (bind_ok _ _ _ _ _ E).
Qed.

Lemma printptr_put x s : printptr x s = put_all ([48; 120] ++ ptr_digits 16 x) s.
Proof. done. Qed.

Lemma bind_Some_inv {A B} (o : option A) (f : A -> option B) b :
  (a ← o; f a) = Some b -> exists a, o = Some a /\ f a = Some b.
Proof. destruct o; simpl; [eauto|done]. Qed.

(** RAM outside of the video window and the address space are the same: what
    the bytes of a string in memory depend on. *)
Definition same_memory (s s' : machine) : Prop :=
  cr3 (cpu_regs s') = cr3 (cpu_regs s) /\
  forall b, 0 <= b < 4294967296 -> ~ in_video b -> mload8 (mem s') b = mload8 (mem s) b.

(** The argument [a] prints as [a']: it is the same, or the address of a
    string whose bytes are those of the constant [a']. *)
Definition arg_denotes (s : machine) (a a' : arg) : Prop :=
  a = a' \/ exists p str, a = AW p /\ a' = AS str /\ p <> 0 /\
    forall s', same_memory s s' -> put_mem_string p s' = put_all (map sext8 (bytes_of str)) s'.

Lemma same_memory_trans s1 s2 s3 : same_memory s1 s2 -> same_memory s2 s3 -> same_memory s1 s3.
Proof. intros [E1 H1] [E2 H2]. split; [congruence|]. intros b Hb Hv. by rewrite H2, H1. Qed.
Lemma con_frame_memory s s' : con_frame s s' -> same_memory s s'.
Proof. intros [E H]. split; [by rewrite E|done]. Qed.
Lemma arg_denotes_stable s s' a a' : same_memory s s' -> arg_denotes s a a' -> arg_denotes s' a a'.
Proof.
  intros Hs [->|(p & str & -> & -> & Hp & H)]; [by left|right]. exists p, str. split_and!; [done..|].
  intros s2 H2. apply H. by eapply same_memory_trans.
Qed.
Lemma args_denote_stable s s' args args' :
  same_memory s s' -> Forall2 (arg_denotes s) args args' -> Forall2 (arg_denotes s') args args'.
Proof. intros Hs H. eapply Forall2_impl; [exact H|]. intros a a'. by apply arg_denotes_stable. Qed.

(** Runs what a conversion prints, then the rest of the format, whose arguments
    still denote the same strings. *)
Lemma put_then l1 l2 (m1 k : K unit) s :
  m1 s = put_all l1 s -> (forall s', same_memory s s' -> k s' = put_all l2 s') ->
  (_ ← m1; k) s = put_all (l1 ++ l2) s.
Proof.
  intros H1 H2. rewrite put_all_app. destruct (put_all_runs l1 s) as ([] & s' & E & F).
  rewrite E in H1. rewrite (bind_ok _ _ _ _ _ H1), (bind_ok _ _ _ _ _ E). by apply H2, con_frame_memory.
Qed.

(** A word argument denotes only itself where a number is printed. *)
Lemma denotes_word s args w args' :
  Forall2 (arg_denotes s) args (AW w :: args') ->
  exists rest, args = AW w :: rest /\ Forall2 (arg_denotes s) rest args'.
Proof.
  intros H. inversion H as [|a a' l l' Ha Hl]; subst.
  destruct Ha as [->|(p & str & -> & [=] & _)]. eauto.
Qed.
Lemma denotes_string s args a args' l :
  Forall2 (arg_denotes s) args (a :: args') ->
  match a with AW p => p = 0 /\ l = bytes_of "(null)" | AS str => l = map sext8 (bytes_of str) end ->
  exists a0 rest, args = a0 :: rest /\ put_string_arg a0 s = put_all l s /\
    Forall2 (arg_denotes s) rest args'.
Proof.
  intros H Hl. inversion H as [|a0 a1 r r' Ha Hr]; subst. exists a0, r. split; [done|]. split; [|done].
  destruct Ha as [->|(p & str & -> & -> & Hp & Hs)].
  - destruct a; [destruct Hl as [-> ->]|subst l]; done.
  - subst l. simpl. destruct (Z.eqb_spec p 0); [done|]. by apply Hs.
Qed.

Lemma cprintf_loop_denotes fmt args args' l s :
  Forall2 (arg_denotes s) args args' -> render fmt args' = Some l ->
  cprintf_loop fmt args s = put_all l s.
Proof.
  remember (length fmt) as n eqn:Hn. revert fmt args args' l s Hn.
  induction (lt_wf n) as [n _ IH]. intros [|c fmt1] args args' l s Hn Ha Hr; simpl in Hr |- *.
  { by injection Hr as <-. }
  destruct (c =? 0); [by injection Hr as <-|]. destruct (negb (c =? 37)).
  { apply bind_Some_inv in Hr as (l' & Hl' & [= <-]). apply (put_then [c] l'); [apply consputc_put|].
    intros s' Hs'. eapply IH; [|done|by eapply args_denote_stable|done]. simpl in Hn. lia. }
  destruct fmt1 as [|c1 fmt2]; [by injection Hr as <-|].
  assert (forall args args' l s', same_memory s s' -> Forall2 (arg_denotes s) args args' ->
    render fmt2 args' = Some l -> cprintf_loop fmt2 args s' = put_all l s') as IH2.
  { intros. eapply IH; [|done|by eapply args_denote_stable|done]. simpl in Hn. lia. }
  clear IH Hn.
  destruct (c1 =? 0); [by injection Hr as <-|]. destruct (c1 =? 100).
  { destruct args' as [|[w|] args']; try done. apply denotes_word in Ha as (r & -> & Ha).
    apply bind_Some_inv in Hr as (b & Hb & (l' & Hl' & [= <-])%bind_Some_inv).
    unfold printint. rewrite Hb. apply put_then; [done|]. eauto. }
  destruct (_ || _).
  { destruct args' as [|[w|] args']; try done. apply denotes_word in Ha as (r & -> & Ha).
    apply bind_Some_inv in Hr as (b & Hb & (l' & Hl' & [= <-])%bind_Some_inv).
    unfold printint. rewrite Hb. apply put_then; [done|]. eauto. }
  destruct (c1 =? 108).
  { destruct args' as [|[lo|] [|[hi|] args']]; try done.
    apply denotes_word in Ha as (r & -> & (r' & -> & Ha)%denotes_word).
    apply bind_Some_inv in Hr as (l' & Hl' & [= <-]).
    apply (put_then ([48; 120] ++ ptr_digits 16 (wrap32 lo + 4294967296 * wrap32 hi)) l');
      [apply printptr_put|]. eauto. }
  destruct (c1 =? 115).
  { destruct args' as [|[p|str] args']; try done.
    - destruct (Z.eqb_spec p 0); [|done]. apply bind_Some_inv in Hr as (l' & Hl' & [= <-]).
      eapply (denotes_string _ _ _ _ (bytes_of "(null)")) in Ha as (a0 & r & -> & E & Ha); [|done].
      apply (put_then (bytes_of "(null)") l'); [done|]. eauto.
    - apply bind_Some_inv in Hr as (l' & Hl' & [= <-]).
      eapply denotes_string in Ha as (a0 & r & -> & E & Ha); [|reflexivity]. apply put_then; [done|]. eauto. }
  destruct (c1 =? 37).
  - apply bind_Some_inv in Hr as (l' & Hl' & [= <-]). apply (put_then [37] l'); [apply consputc_put|]. eauto.
  - apply bind_Some_inv in Hr as (l' & Hl' & [= <-]). apply (put_then [37] (c1 :: l')); [apply consputc_put|].
    intros s' Hs'. apply (put_then [c1] l'); [apply consputc_put|].
    intros s2 H2. eapply IH2; [|done|done]. by eapply same_memory_trans.
Qed.

Lemma args_denote_self s args : Forall2 (arg_denotes s) args args.
Proof. induction args; constructor; [by left|done]. Qed.
Lemma cprintf_loop_render fmt args l s :
  render fmt args = Some l -> cprintf_loop fmt args s = put_all l s.
Proof. apply cprintf_loop_denotes, args_denote_self. Qed.
End Render.

(** ** Numbers are printed right *)

(** The value of a character as a digit, and of a string of digits. *)
Definition digit_val (c : Z) : Z := if c <? 97 then c - 48 else c - 87.
Definition digits_val (base : Z) (l : list Z) : Z := fold_left (fun v c => v * base + digit_val c) l 0.

Lemma digit_val_digit i : 0 <= i < 16 -> digit_val (digit i) = i.
Proof. intros Hi. unfold digit_val, digit. destruct (i <? 10) eqn:E, (_ <? 97) eqn:E2; lia. Qed.

Lemma fold_digits base l v :
  fold_left (fun v c => v * base + digit_val c) l v
  = v * base ^ Z.of_nat (length l) + digits_val base l.
Proof.
  unfold digits_val. revert v. induction l as [|c l IH]; intros v; simpl fold_left; [simpl; lia|].
  rewrite IH, (IH (0 * base + digit_val c)). cbn [length]. rewrite Nat2Z.inj_succ, Z.pow_succ_r by lia.
  lia.
Qed.

(** The loop needs [n] characters for values below [base^n], and stores the
    digits of the value before what was in the buffer. *)
Lemma printint_digits_ok k n x base buf :
  2 <= base <= 16 -> 0 <= x < base ^ Z.of_nat (S n) ->
  exists ds, printint_digits (S n + k) x base buf = Some (ds ++ buf) /\
    digits_val base ds = x /\ (0 < length ds <= S n)%nat.
Proof.
  intros Hb. revert x buf. induction n as [|n IH]; intros x buf Hx.
  - rewrite Z.pow_1_r in Hx. simpl. rewrite Z.div_small, Z.mod_small by lia. simpl.
    exists [digit x]. split; [done|]. split; [|simpl; lia].
    unfold digits_val. simpl. rewrite digit_val_digit by lia. lia.
  - simpl. destruct (Z.eqb_spec (x / base) 0) as [E|E].
    + exists [digit (x mod base)]. split; [done|]. split; [|simpl; lia].
      unfold digits_val. simpl. apply Z.div_small_iff in E; [|lia].
      rewrite Z.mod_small, digit_val_digit by lia. lia.
    + destruct (IH (x / base) (digit (x mod base) :: buf)) as (ds & Hd & Hv & Hl).
      { rewrite Nat2Z.inj_succ, Z.pow_succ_r in Hx by lia. split.
        - apply Z.div_pos; lia.
        - apply Z.div_lt_upper_bound; lia. }
      exists (ds ++ [digit (x mod base)]). split; [by rewrite <- app_assoc|].
      rewrite length_app. split; [|simpl; lia].
      unfold digits_val. rewrite fold_left_app. fold (digits_val base ds). rewrite Hv. simpl.
      pose proof (Z.mod_pos_bound x base ltac:(lia)). rewrite digit_val_digit by lia.
      pose proof (Z.div_mod x base ltac:(lia)). lia.
Qed.

(** The 16-character buffer suffices for 32-bit values in the bases used. *)
Lemma printint_digits_16 x base :
  base = 10 \/ base = 16 -> 0 <= x < 4294967296 ->
  exists ds, printint_digits 16 x base [] = Some ds /\
    digits_val base ds = x /\ (0 < length ds <= 10)%nat.
Proof.
  intros Hb Hx. assert (4294967296 <= base ^ Z.of_nat 10) as Hp
    by (destruct Hb as [-> | ->]; vm_compute; done).
  destruct (printint_digits_ok 6 9 x base []) as (ds & Hd & Hv & Hl); [lia|lia|].
  rewrite app_nil_r in Hd. eauto.
Qed.

(** ** A whole call of cprintf *)

(** [s'] differs from [s] only in video memory, in the I/O history and in
    debugging data. *)
Definition quiet (s s' : machine) : Prop :=
  set_io [] (set_mem ∅ s') ≡ set_io [] (set_mem ∅ s) /\
  forall b, 0 <= b < 4294967296 -> ~ in_video b -> mload8 (mem s') b = mload8 (mem s) b.

#[export] Instance quiet_preorder : PreOrder quiet.
Proof.
  split; [done|]. intros s1 s2 s3 [E12 H12] [E23 H23]. split.
  - by etrans.
  - intros b Hb Hv. by rewrite H23, H12.
Qed.

Lemma con_frame_quiet s s' : con_frame s s' -> quiet s s'.
Proof. intros [E H]. split; [rewrite E; reflexivity|done]. Qed.

(** What a quiet run preserves. *)
Section Quiet.
Context (s s' : machine) (Q : quiet s s').

Lemma quiet_irq_ok : irq_ok s -> irq_ok s'.
Proof.
  destruct Q as [E _]. unfold irq_ok. pose proof (equiv_ncli _ _ E) as En.
  pose proof (equiv_IF _ _ E) as Ei. cbn in En. intros [H1 H2]. rewrite En. split; [done|].
  intros Hp. specialize (H2 Hp). rewrite <- H2. exact Ei.
Qed.
Lemma quiet_lock_free l : lock_free l s -> lock_free l s'.
Proof.
  destruct Q as [E _]. pose proof (equiv_locked _ _ E l) as E1. pose proof (equiv_lk_cpu _ _ E l) as E2.
  unfold lock_free. intros [H1 H2].
  by split; [rewrite <- H1; destruct l|rewrite <- H2; destruct l].
Qed.
Lemma quiet_vm : vm s' = vm s.
Proof. exact (equiv_vm _ _ (proj1 Q)). Qed.
Lemma quiet_proc : proc (ptable s') = proc (ptable s).
Proof. exact (equiv_proc _ _ (proj1 Q)). Qed.
Lemma quiet_irq : irq s' = irq s.
Proof. exact (equiv_irq _ _ (proj1 Q)). Qed.
Lemma quiet_regs : cpu_regs s' = cpu_regs s.
Proof. exact (equiv_regs _ _ (proj1 Q)). Qed.
Lemma quiet_freelist : freelist (kmem s') = freelist (kmem s).
Proof. exact (equiv_freelist _ _ (proj1 Q)). Qed.
Lemma quiet_use_lock : use_lock (kmem s') = use_lock (kmem s).
Proof. exact (equiv_use_lock _ _ (proj1 Q)). Qed.
Lemma quiet_kheap_start : kheap_start (kmem s') = kheap_start (kmem s).
Proof. exact (equiv_kheap_start _ _ (proj1 Q)). Qed.
Lemma quiet_kheap_end : kheap_end (kmem s') = kheap_end (kmem s).
Proof. exact (equiv_kheap_end _ _ (proj1 Q)). Qed.
Lemma quiet_load8 b :
  0 <= b < 4294967296 -> ~ in_video b -> mload8 (mem s') b = mload8 (mem s) b.
Proof. apply Q. Qed.
Lemma quiet_load32 a :
  0 <= a -> a + 4 <= 4294967296 -> a + 4 <= vidmem \/ vidmem + 0x20000 <= a ->
  mload32 (mem s') a = mload32 (mem s) a.
Proof.
  intros Ha Ha' Hv. unfold mload32. by rewrite !quiet_load8 by (unfold in_video; lia).
Qed.
End Quiet.

(** The console can be used: its lock is not in use, or is free. *)
Definition cons_ready (s : machine) : Prop :=
  irq_ok s /\ (locking (cons s) = 0 \/ lock_free CONS_LOCK s).

Section Cprintf.
Context `{env : Env}.

Lemma cprintf_denotes f args args' l s :
  cons_ready s -> Forall2 (arg_denotes s) args args' -> render (bytes_of f) args' = Some l ->
  exists s', cprintf (Some f) args s = (Ok tt, s') /\ quiet s s'.
Proof.
  intros [Hirq Hlk] Ha Hr. unfold cprintf. mstep.
  destruct (Z.eqb_spec (locking (cons s)) 0) as [E0|E0]; cbn [negb when].
  { mstep. unfold mbind, M_bind. rewrite (cprintf_loop_denotes _ _ _ _ _ Ha Hr).
    destruct (put_all_runs l s) as ([] & s' & -> & Hf). eexists. split; [done|].
    by apply con_frame_quiet. }
  destruct Hlk as [|Hlk]; [done|].
  erewrite bind_ok by (apply acquire_ok; [apply Hirq|apply Hlk]).
  apply (args_denote_stable _ (acquired CONS_LOCK s)) in Ha; [|done].
  unfold mbind, M_bind. rewrite (cprintf_loop_denotes _ _ _ _ _ Ha Hr).
  destruct (put_all_runs l (acquired CONS_LOCK s)) as ([] & t & -> & [Et Hm]).
  assert (cpu0 t = cpu0 (acquired CONS_LOCK s) /\ cpu_regs t = cpu_regs (acquired CONS_LOCK s) /\
    get_lock CONS_LOCK t = get_lock CONS_LOCK (acquired CONS_LOCK s)) as (Hc & Hg & Hk)
    by (rewrite Et; done).
  rewrite (release_inside CONS_LOCK s t) by done. eexists. split; [done|].
  pose proof (released_inside CONS_LOCK s t Hlk Hirq Hc Hg Hk) as He. split.
  - pose proof (f_equal (fun x => set_io [] (set_mem ∅ x)) He) as He'.
    unfold equiv, machine_equiv in *. etrans; [exact He'|].
    rewrite Et. unfold acquired. destruct s as [? ? ? ? ? ? cn]; destruct cn as [[] lk]. reflexivity.
  - intros b Hb Hv. rewrite (equiv_mem _ _ He). simpl. rewrite Hm by done. done.
Qed.
Lemma cprintf_quiet f args l s :
  cons_ready s -> render (bytes_of f) args = Some l ->
  exists s', cprintf (Some f) args s = (Ok tt, s') /\ quiet s s'.
Proof. intros Hc. apply cprintf_denotes; [done|apply args_denote_self]. Qed.

(** A quiet run leaves the console usable. *)
Lemma quiet_cons_ready s s' : quiet s s' -> cons_ready s -> cons_ready s'.
Proof.
  intros Q [H1 H2]. split; [by apply (quiet_irq_ok s)|].
  destruct H2 as [H2|H2]; [left|right; by apply (quiet_lock_free s)].
  rewrite <- H2. exact (f_equal (fun x => locking (cons x)) (proj1 Q)).
Qed.
End Cprintf.

(** ** Scrolling *)

Section Scroll.
Context `{env : Env}.

(** One row copied up. *)
Lemma row_copied i s :
  1 <= i < MAX_ROWS ->
  exists m1, memcpy (vidmem + get_screen_offset 0 (i - 1)) (vidmem + get_screen_offset 0 i)
      (MAX_COLS * 2) s = (Ok (vidmem + get_screen_offset 0 (i - 1)), set_mem m1 s) /\
    (forall j, 160 * (i - 1) <= j < 160 * i ->
      mload8 m1 (vidmem + j) = mload8 (mem s) (vidmem + (j + 160))) /\
    (forall j, 0 <= vidmem + j < 4294967296 -> ~ 160 * (i - 1) <= j < 160 * i ->
      mload8 m1 (vidmem + j) = mload8 (mem s) (vidmem + j)).
Proof.
  intros Hi. rewrite memcpy_kernel by video_tac. generalize (mem s) as m. intros m.
  assert (Z.of_nat (Z.to_nat (MAX_COLS * 2)) = 160) as E160 by done.
  revert E160. generalize (Z.to_nat (MAX_COLS * 2)) as n160. intros n160 E160.
  exists (mcopy m (vidmem + get_screen_offset 0 (i - 1)) (vidmem + get_screen_offset 0 i) n160).
  split; [done|]. split.
  - intros j Hj.
    replace (vidmem + j) with (vidmem + get_screen_offset 0 (i - 1) + (j - 160 * (i - 1))) by video_tac.
    rewrite mload8_copy_in by video_tac. f_equal. video_tac.
  - intros j Hj Ho. apply mload8_copy_out; video_tac.
Qed.

(** After rows [i .. i+n-1] were each copied one row up. *)
Lemma scroll_rows_ok i n s :
  1 <= i -> i + Z.of_nat n <= MAX_ROWS ->
  exists m', scroll_rows i n s = (Ok tt, set_mem m' s) /\
    (forall j, 160 * (i - 1) <= j < 160 * (i - 1 + Z.of_nat n) ->
       mload8 m' (vidmem + j) = mload8 (mem s) (vidmem + (j + 160))) /\
    (forall j, 0 <= vidmem + j < 4294967296 -> ~ 160 * (i - 1) <= j < 160 * (i - 1 + Z.of_nat n) ->
       mload8 m' (vidmem + j) = mload8 (mem s) (vidmem + j)).
Proof.
  revert i s. induction n as [|n IH]; intros i s Hi Hn.
  - exists (mem s). split_and!; [|intros; lia|done]. cbn [scroll_rows]. by rewrite set_mem_mem.
  - cbn [scroll_rows]. destruct (row_copied i s) as (m1 & E1 & Hin & Hout); [lia|].
    rewrite (bind_ok _ _ _ _ _ E1).
    destruct (IH (i + 1) (set_mem m1 s)) as (m' & -> & H1 & H2); [lia|lia|].
    change (mem (set_mem m1 s)) with m1 in *. exists m'. split_and!; [done|..].
    + intros j Hj. destruct (decide (j < 160 * i)) as [Hlt|Hge].
      * rewrite H2 by video_tac. apply Hin. lia.
      * rewrite H1 by lia. apply Hout; video_tac.
    + intros j Hj Ho. rewrite H2 by lia. apply Hout; video_tac.
Qed.

Lemma blank_line_ok a i n s :
  0 <= i -> kspace a (i + Z.of_nat n) ->
  blank_line a i n s = (Ok tt, set_mem (mfill (mem s) (a + i) 0 n) s).
Proof.
  revert i s. induction n as [|n IH]; intros i s Hi Hk; simpl; [by rewrite set_mem_mem|].
  erewrite bind_ok by (apply store8_kernel; kspace_tac). rewrite IH by kspace_tac.
  by rewrite <- Z.add_assoc.
Qed.
End Scroll.

(** ** Properties *)

Section Properties.
Context `{env : Env}.

(** [s'] is [s] after printing [l], up to debugging data; the lock of the
    console, when in use, is taken around the output. *)
Definition printed (l : list Z) (s s' : machine) : Prop :=
  exists t, put_all l (if locking (cons s) =? 0 then s else acquired CONS_LOCK s) = (Ok tt, t) /\
    mem s' = mem t /\ io s' = io t /\ quiet s s' /\ cons_ready s'.

Lemma cprintf_printed f args l s :
  cons_ready s -> render (bytes_of f) args = Some l ->
  exists s', cprintf (Some f) args s = (Ok tt, s') /\ printed l s s'.
Proof.
  intros Hrdy Hr. set (s0 := if locking (cons s) =? 0 then s else acquired CONS_LOCK s). destruct (put_all_runs l s0) as ([] & t & Et & Ft).
  destruct (cprintf_quiet f args l s Hrdy Hr) as (s' & Es & Q).
  exists s'. split; [done|]. exists t. assert (mem s' = mem t /\ io s' = io t) as [Hm Hi].
  { unfold cprintf in Es. rewrite bind_gets in Es. unfold s0 in Et.
    destruct (Z.eqb_spec (locking (cons s)) 0) as [E0|E0]; cbn [negb when] in Es.
    - rewrite bind_ret in Es. unfold mbind, M_bind in Es.
      rewrite (cprintf_loop_render _ _ _ _ Hr), Et in Es. by injection Es as <-.
    - destruct Hrdy as [Hirq [?|Hlk]]; [done|].
      rewrite (bind_ok _ _ _ tt (acquired CONS_LOCK s)) in Es
        by (apply acquire_ok; [apply Hirq|apply Hlk]).
      unfold mbind, M_bind in Es. rewrite (cprintf_loop_render _ _ _ _ Hr), Et in Es.
      unfold s0 in Ft. destruct Ft as [Ft _].
      rewrite (release_inside CONS_LOCK s t) in Es by (done || by rewrite Ft).
      injection Es as <-.
      pose proof (released_inside CONS_LOCK s t Hlk Hirq) as He.
      rewrite (equiv_mem _ _ (He ltac:(by rewrite Ft) ltac:(by rewrite Ft) ltac:(by rewrite Ft))).
      by rewrite (equiv_io _ _ (He ltac:(by rewrite Ft) ltac:(by rewrite Ft) ltac:(by rewrite Ft))). }
  split_and!; [done..|]. by apply (quiet_cons_ready s).
Qed.

(** C19: cprintf with a format its arguments fit sends to the console exactly
    the characters of the rendered format, in order, and returns; apart from
    video memory, the I/O history and debugging data it changes nothing, and
    the console lock is free again. *)
Theorem cprintf_prints_rendering f args l s :
  cons_ready s -> render (bytes_of f) args = Some l ->
  exists s', cprintf (Some f) args s = (Ok tt, s') /\ printed l s s'.
Proof. apply cprintf_printed. Qed.

Lemma printint_buf_value w :
  (exists ds, printint_buf w 10 true = Some (if sext32 w <? 0 then 45 :: ds else ds) /\
     digits_val 10 ds = Z.abs (sext32 w)) /\
  (exists ds, printint_buf w 16 false = Some ds /\ digits_val 16 ds = wrap32 w).
Proof.
  assert (-2147483648 <= sext32 w < 2147483648) as Hs
    by (unfold sext32; pose proof (wrap32_range w); destruct (_ <? _) eqn:?; lia).
  pose proof (wrap32_range w) as Hw. unfold printint_buf. cbn [andb]. split.
  - assert (Z.abs (sext32 w) = if sext32 w <? 0 then wrap32 (- sext32 w) else wrap32 w) as ->.
    { unfold sext32 in *. destruct (Z.ltb_spec (wrap32 w) 2147483648).
      - destruct (Z.ltb_spec (wrap32 w) 0); ulia.
      - destruct (Z.ltb_spec (wrap32 w - 4294967296) 0); ulia. }
    destruct (sext32 w <? 0).
    + destruct (printint_digits_16 (wrap32 (- sext32 w)) 10) as (ds & -> & Hv & Hl);
        [by left|apply wrap32_range|].
      exists ds. destruct (Nat.ltb_spec (length ds) 16); [|lia]. done.
    + destruct (printint_digits_16 (wrap32 w) 10) as (ds & -> & Hv & Hl); [by left|done|]. by exists ds.
  - destruct (printint_digits_16 (wrap32 w) 16) as (ds & -> & Hv & Hl); [by right|done|]. by exists ds.
Qed.

(** C20: %d and %x never overflow printint's 16-character buffer, and the
    characters they print read back as the value: the signed value in base 10
    (with a leading minus sign when negative), the unsigned one in base 16. *)
Theorem printint_roundtrip w :
  (exists ds, printint_buf w 10 true = Some (if sext32 w <? 0 then 45 :: ds else ds) /\
     digits_val 10 ds = Z.abs (sext32 w)) /\
  (exists ds, printint_buf w 16 false = Some ds /\ digits_val 16 ds = wrap32 w).
Proof. apply printint_buf_value. Qed.

(** The arguments fit the format: none is missing, and the strings are
    constants or null. *)
Fixpoint fits (fmt : list Z) (args : list arg) {struct fmt} : bool :=
  match fmt with
  | [] => true
  | c :: fmt1 =>
      if c =? 0 then true else
      if negb (c =? 37) then fits fmt1 args else
      match fmt1 with
      | [] => true
      | c :: fmt2 =>
          if c =? 0 then true else
          if (c =? 100) || (c =? 120) || (c =? 112) then
            match args with AW _ :: args' => fits fmt2 args' | _ => false end
          else if c =? 108 then
            match args with AW _ :: AW _ :: args' => fits fmt2 args' | _ => false end
          else if c =? 115 then
            match args with
            | AS _ :: args' => fits fmt2 args'
            | AW p :: args' => (p =? 0) && fits fmt2 args'
            | _ => false
            end
          else fits fmt2 args
      end
  end.

Lemma fits_render fmt args : fits fmt args = true -> exists l, render fmt args = Some l.
Proof.
  remember (length fmt) as n eqn:En. revert fmt args En.
  induction n as [n IH] using lt_wf_ind; intros [|c fmt1] args -> Hf; [by exists []|].
  assert (forall fmt2 args', (length fmt2 < length (c :: fmt1))%nat -> fits fmt2 args' = true ->
    exists l, render fmt2 args' = Some l) as IH' by (intros; by eapply IH).
  simpl in Hf |- *. destruct (c =? 0); [by exists []|]. destruct (negb (c =? 37)).
  { destruct (IH' fmt1 args) as [l ->]; [simpl; lia|done|]. by eexists. }
  destruct fmt1 as [|d fmt2]; [by exists []|]. destruct (d =? 0); [by exists []|].
  assert (length fmt2 < length (c :: d :: fmt2))%nat as Hlt by (simpl; lia).
  destruct (d =? 100); simpl in Hf |- *.
  { destruct args as [|[w|w] args]; [done| |done]. destruct (proj1 (printint_buf_value w)) as (ds & -> & _).
    destruct (IH' _ _ Hlt Hf) as [l E]. simpl. rewrite E. by eexists. }
  destruct ((d =? 120) || (d =? 112)).
  { destruct args as [|[w|w] args]; [done| |done]. destruct (proj2 (printint_buf_value w)) as (ds & -> & _).
    destruct (IH' _ _ Hlt Hf) as [l E]. simpl. rewrite E. by eexists. }
  destruct (d =? 108).
  { destruct args as [|[w|w] [|[w'|w'] args]]; try done.
    destruct (IH' _ _ Hlt Hf) as [l E]. simpl. rewrite E. by eexists. }
  destruct (d =? 115).
  { destruct args as [|[w|w] args]; [done|apply andb_true_iff in Hf as [-> Hf]|];
      destruct (IH' _ _ Hlt Hf) as [l E]; simpl; rewrite E; by eexists. }
  destruct (IH' _ _ Hlt Hf) as [l ->]. destruct (d =? 37); by eexists.
Qed.

(** [cprintf] with fitting arguments returns and only prints. *)
Lemma cprintf_fits f args s :
  cons_ready s -> fits (bytes_of f) args = true ->
  exists s', cprintf (Some f) args s = (Ok tt, s') /\ quiet s s'.
Proof. intros Hc [l Hr]%fits_render. by eapply cprintf_quiet. Qed.

Lemma cprintf_unlocked f args l s :
  locking (cons s) = 0 -> render (bytes_of f) args = Some l ->
  cprintf (Some f) args s = put_all l s.
Proof.
  intros E0 Hr. unfold cprintf. rewrite bind_gets, E0. cbn [Z.eqb negb when]. rewrite bind_ret.
  unfold mbind, M_bind. rewrite (cprintf_loop_render _ _ _ _ Hr).
  by destruct (put_all_runs l s) as ([] & s' & -> & _).
Qed.
Lemma cprintf_unlocked_frame f args l s :
  locking (cons s) = 0 -> render (bytes_of f) args = Some l ->
  exists s', cprintf (Some f) args s = (Ok tt, s') /\ con_frame s s'.
Proof.
  intros E0 Hr. rewrite (cprintf_unlocked f args l) by done.
  destruct (put_all_runs l s) as ([] & s' & E & F). eauto.
Qed.
(** What [panic] prints of one return address. *)
Definition pc_text (pc : Z) : list Z := default [] (render (bytes_of " %p") [AW pc]).
Lemma panic_pcs_put l s :
  locking (cons s) = 0 -> panic_pcs l s = put_all (concat (map pc_text l)) s.
Proof.
  revert s. induction l as [|pc l IH]; intros s E0; [done|]. cbn [panic_pcs map concat].
  rewrite put_all_app. destruct (fits_render (bytes_of " %p") [AW pc] eq_refl) as [t Ht].
  assert (pc_text pc = t) as Et by (unfold pc_text; by rewrite Ht).
  destruct (put_all_runs t s) as ([] & s1 & E & F).
  rewrite (bind_ok _ _ s tt s1) by (by rewrite (cprintf_unlocked " %p" [AW pc] t)).
  rewrite Et, (bind_ok _ _ _ _ _ E). apply IH. by destruct F as [-> _].
Qed.


(** C31: when the cursor runs off the bottom of the screen, every row moves up
    one line, the last row is blank and the cursor comes back one row; nothing
    outside the screen's 4000 bytes is written. *)
Theorem handle_scrolling_scrolls off s :
  MAX_ROWS * MAX_COLS * 2 <= off ->
  exists m', handle_scrolling off s = (Ok (off - 160), set_mem m' s) /\
    (forall j, 0 <= j < 3840 -> mload8 m' (vidmem + j) = mload8 (mem s) (vidmem + (j + 160))) /\
    (forall j, 3840 <= j < 4000 -> mload8 m' (vidmem + j) = 0) /\
    (forall b, 0 <= b < 4294967296 -> ~ vidmem <= b < vidmem + 4000 -> mload8 m' b = mload8 (mem s) b).
Proof.
  intros Hoff. unfold handle_scrolling. destruct (Z.ltb_spec off (MAX_ROWS * MAX_COLS * 2)); [lia|].
  destruct (scroll_rows_ok 1 (Z.to_nat (MAX_ROWS - 1)) s) as (m1 & E1 & H1 & H2); [lia|video_tac|].
  rewrite (bind_ok _ _ _ _ _ E1).
  erewrite bind_ok by (apply blank_line_ok; video_tac). eexists. split; [done|]. simpl mem.
  split_and!; [| |intros b Hb Ho; rewrite mload8_fill by video_tac; case_decide as Hd; [exfalso; video_tac|];
    replace b with (vidmem + (b - vidmem)) by lia; apply H2; video_tac];
    intros j Hj; rewrite mload8_fill by video_tac; case_decide as Hd.
  - exfalso. video_tac.
  - apply H1. video_tac.
  - done.
  - exfalso. video_tac.
Qed.
End Properties.

(** *** Witnesses *)

Lemma demo_cons_ready : cons_ready demo_machine.
Proof. split; [apply demo_lock_inv|]. left. reflexivity. Qed.

Lemma cprintf_prints_rendering_witness :
  exists t s', put_all (env:=demo_env) (bytes_of "i=-42 p=ff%") demo_machine = (Ok tt, t) /\
    cprintf (env:=demo_env) (Some "i=%d p=%x%%") [AW 4294967254; AW 255] demo_machine = (Ok tt, s') /\
    mem s' = mem t.
Proof.
  destruct (cprintf_prints_rendering (env:=demo_env) "i=%d p=%x%%" [AW 4294967254; AW 255]
    (bytes_of "i=-42 p=ff%") demo_machine) as (s' & H2 & t & H1 & H3 & _);
    [exact demo_cons_ready|vm_compute; reflexivity|].
  exists t, s'. split; [exact H1|]. split; [exact H2|exact H3].
Defined.


Lemma handle_scrolling_scrolls_witness :
  exists m', handle_scrolling (env:=demo_env) 4000 (boot_machine (ram_with (vidmem + 160) [65; 7]) zero_regs)
      = (Ok 3840, set_mem m' (boot_machine (ram_with (vidmem + 160) [65; 7]) zero_regs)) /\
    mload8 m' (vidmem + 0) = 65.
Proof.
  destruct (handle_scrolling_scrolls (env:=demo_env) 4000 (boot_machine (ram_with (vidmem + 160) [65; 7]) zero_regs))
    as (m' & H1 & H2 & _); [vm_compute; discriminate|].
  exists m'. split; [exact H1|]. exact (H2 0 ltac:(lia)).
Defined.
