(* ===== verification/Kalloc.v ===== *)
(** * Kalloc: the page allocator ([kalloc.c])

    Free pages are threaded into a list through their first word; the list
    ends in the address of its own head.  The second half relates the list in
    RAM to the abstract sequence of free pages, and states what the allocator
    promises its clients as the class [Allocator]. *)

From S2P Require Import Prelude Machine Layout Cstring Spinlock Uart Screen.

Section WithEnv.
Context `{env : Env}.

(** [KMEM_SENTINEL]: the address of [kmem.freelist], as a frame. *)
Definition KMEM_SENTINEL : Z := sym_kmem_freelist.

Definition upd_kmem (f : kmem_t -> kmem_t) (s : machine) : machine := set_kmem (f (kmem s)) s.

(** [r->next]: a word of RAM, except that the word at the sentinel's address
    is the variable [kmem.freelist] itself. *)
Definition frame_next (r : Z) : K Z :=
  if r =? KMEM_SENTINEL then gets (fun s => freelist (kmem s)) else load32 r.

Definition kfree (v : Z) : K unit :=
  k ← gets kmem;
  if negb (v mod PGSIZE =? 0) || (v <? kheap_start k) || (kheap_end k <=? V2P v)
  then raise_panic "kfree" else
  _ ← memset v 1 PGSIZE;
  ul ← gets (fun s => use_lock (kmem s));
  _ ← when (negb (ul =? 0)) (acquire KMEM_LOCK);
  head ← gets (fun s => freelist (kmem s));
  _ ← store32 v head;
  _ ← modify (upd_kmem (set_freelist v));
  ul ← gets (fun s => use_lock (kmem s));
  when (negb (ul =? 0)) (release KMEM_LOCK).

Definition kalloc : K Z :=
  ul ← gets (fun s => use_lock (kmem s));
  _ ← when (negb (ul =? 0)) (acquire KMEM_LOCK);
  r ← gets (fun s => freelist (kmem s));
  r ← (if r =? KMEM_SENTINEL then mret 0
       else next ← load32 r;
            _ ← modify (upd_kmem (set_freelist next));
            mret r);
  ul ← gets (fun s => use_lock (kmem s));
  _ ← when (negb (ul =? 0)) (release KMEM_LOCK);
  mret r.

(** [for (; p + PGSIZE <= vend; p += PGSIZE) kfree(p);] over at most the 2^20
    pages of the address space. *)
Definition freerange (vstart vend : Z) : K unit :=
  loop 20 (fun p =>
    if (p +u PGSIZE) <=? vend then
      _ ← kfree p;
      mret (inl (p +u PGSIZE))
    else mret (inr tt)) (PGROUNDUP vstart).

Definition kinit1 (vstart vend : Z) : K unit :=
  _ ← modify (upd_kmem (set_kheap_start (wrap32 vstart)));
  _ ← modify (upd_kmem (set_freelist KMEM_SENTINEL));
  _ ← initlock KMEM_LOCK "kmem";
  _ ← modify (upd_kmem (set_use_lock 0));
  freerange vstart vend.

(** Walks the list while [p->next != KMEM_SENTINEL], counting. *)
Definition dump_walk (p : Z) : K (Z * Z) :=
  loop 32 (fun '(p, nframes) =>
    next ← frame_next p;
    if next =? KMEM_SENTINEL then mret (inr (p, nframes))
    else next ← frame_next p; mret (inl (next, nframes + 1))) (p, 0).

Definition dump_freelist : K unit :=
  p ← gets (fun s => freelist (kmem s));
  _ ← cprintf (Some "kernel heap: start=0x%p") [AW p];
  '(p, nframes) ← dump_walk p;
  cprintf (Some (" end=0x%p, number of free frames: %d" +:+ nl)) [AW p; AW nframes].

Definition kinit2 (vstart vend : Z) : K unit :=
  _ ← modify (upd_kmem (set_kheap_end (wrap32 vend)));
  _ ← freerange vstart vend;
  _ ← modify (upd_kmem (set_use_lock 1));
  dump_freelist.

(** ** The free list as a sequence of pages *)

(** Following [next] from [p] visits exactly [l], then the sentinel. *)
Fixpoint chain (m : gmap Z Z) (p : Z) (l : list Z) : Prop :=
  match l with
  | [] => p = KMEM_SENTINEL
  | x :: l' => p = x /\ chain m (mload32 m x) l'
  end.

(** What [kfree] accepts. *)
Definition accepts (s : machine) (x : Z) : Prop :=
  x mod PGSIZE = 0 /\ kheap_start (kmem s) <= x < 4294967296 /\ V2P x < kheap_end (kmem s).
(** A page of the heap: accepted, and in RAM. *)
Definition heap_page (s : machine) (x : Z) : Prop :=
  x mod PGSIZE = 0 /\ kheap_start (kmem s) <= x < 4294967296 /\ V2P x < kheap_end (kmem s) /\ x + PGSIZE <= ram_end.

(** The heap lies above the kernel image, which starts at 1 MB in the direct
    map and holds the allocator's variables. *)
Definition heap_above_kernel (s : machine) : Prop :=
  KERNBASE + 0x100000 <= KMEM_SENTINEL < kheap_start (kmem s) /\
  kheap_start (kmem s) < 4294967296.

Definition kmem_inv (s : machine) (l : list Z) : Prop :=
  chain (mem s) (freelist (kmem s)) l /\ NoDup l /\ Forall (heap_page s) l /\
  heap_above_kernel s.

(** The allocator's lock can be taken when it is in use. *)
Definition kmem_ready (s : machine) : Prop :=
  irq_ok s /\ (use_lock (kmem s) = 0 \/ lock_free KMEM_LOCK s).

(** RAM becomes [m], the head of the list [h]. *)
Definition kmem_update (m : gmap Z Z) (h : Z) (s : machine) : machine :=
  set_mem m (upd_kmem (set_freelist h) s).

(** [s'] differs from [s] only in the head of the list and in RAM. *)
Definition alloc_frame (s s' : machine) : Prop := exists m h, s' ≡ kmem_update m h s.

Lemma chain_ext m m' p l :
  (forall x, x ∈ l -> mload32 m' x = mload32 m x) -> chain m p l -> chain m' p l.
Proof.
  revert p. induction l as [|x l IH]; intros p Hm; [done|]. simpl. intros [-> Hc].
  split; [done|]. rewrite Hm by set_solver. apply IH; [set_solver|done].
Qed.

Lemma heap_page_space s x :
  heap_above_kernel s -> heap_page s x -> kspace x PGSIZE /\ KERNBASE + 0x100000 < x.
Proof.
  pose proof ram_end_range. unfold heap_above_kernel, heap_page, kspace, PGSIZE, KERNBASE. intros. lia.
Qed.

(** Distinct pages are a page apart. *)
Lemma heap_page_apart s x y :
  heap_page s x -> heap_page s y -> x <> y -> x + PGSIZE <= y \/ y + PGSIZE <= x.
Proof. unfold heap_page, PGSIZE. intros. lia. Qed.

(** The invariant only looks at RAM and at three variables. *)
Lemma kmem_inv_transfer s s' l :
  kmem_inv s l -> freelist (kmem s') = freelist (kmem s) ->
  kheap_start (kmem s') = kheap_start (kmem s) -> kheap_end (kmem s') = kheap_end (kmem s) ->
  (forall x, x ∈ l -> mload32 (mem s') x = mload32 (mem s) x) -> kmem_inv s' l.
Proof.
  intros (Hc & Hn & Hp & Ha) E1 E2 E3 Hm. unfold kmem_inv, heap_above_kernel, heap_page in *.
  rewrite E1, E2, E3. split; [by eapply chain_ext|done].
Qed.

End WithEnv.

#[export] Instance kmem_inv_proper `{env : Env} : Proper ((≡) ==> (=) ==> iff) kmem_inv.
Proof.
  assert (forall s s' l, s ≡ s' -> kmem_inv s l -> kmem_inv s' l) as H.
  { intros s s' l E Hi. apply (kmem_inv_transfer s); [done|symmetry..|].
    - by apply equiv_freelist.
    - by apply equiv_kheap_start.
    - by apply equiv_kheap_end.
    - intros x _. by rewrite (equiv_mem _ _ E). }
  intros s s' E l ? <-. split; apply H; [done|by symmetry].
Qed.
#[export] Instance kmem_update_proper : Proper ((=) ==> (=) ==> (≡) ==> (≡)) kmem_update.
Proof.
  intros m ? <- h ? <- s s' E. pose proof (f_equal (kmem_update m h) E) as E'.
  destruct s as [? ? ? c ? k], s' as [? ? ? c' ? k']; destruct k, k'; exact E'.
Qed.
#[export] Instance alloc_frame_preorder : PreOrder alloc_frame.
Proof.
  split.
  - intros s. exists (mem s), (freelist (kmem s)). destruct s as [? ? ? ? ? k]. by destruct k.
  - intros s1 s2 s3 (m & h & E1) (m' & h' & E2). exists m', h'. by rewrite E2, E1.
Qed.
Lemma alloc_frame_set_mem m s : alloc_frame s (set_mem m s).
Proof. exists m, (freelist (kmem s)). destruct s as [? ? ? ? ? k]. by destruct k. Qed.
#[export] Instance kmem_ready_proper : Proper ((≡) ==> iff) kmem_ready.
Proof.
  assert (forall s s', s ≡ s' -> kmem_ready s -> kmem_ready s') as H.
  { intros s s' E [[H1 H2] H3]. unfold kmem_ready, irq_ok, lock_free.
    rewrite <- (equiv_ncli _ _ E), <- (equiv_IF _ _ E), <- (equiv_use_lock _ _ E).
    rewrite <- (equiv_locked _ _ E), <- (equiv_lk_cpu _ _ E). done. }
  intros s s' E. split; apply H; [done|by symmetry].
Qed.

(** ** The critical sections *)

Section Critical.
Context `{env : Env}.

(** The state after [if (kmem.use_lock) acquire(&kmem.lock)]. *)
Definition kmem_entered (s : machine) : machine :=
  if use_lock (kmem s) =? 0 then s else acquired KMEM_LOCK s.

Lemma kmem_enter s :
  kmem_ready s ->
  when (negb (use_lock (kmem s) =? 0)) (acquire KMEM_LOCK) s = (Ok tt, kmem_entered s).
Proof.
  intros [[Hn _] Hl]. unfold kmem_entered. destruct (Z.eqb_spec (use_lock (kmem s)) 0); [done|].
  destruct Hl as [|[Hl _]]; [done|]. by apply acquire_ok.
Qed.

Lemma kmem_entered_parts s :
  mem (kmem_entered s) = mem s /\ freelist (kmem (kmem_entered s)) = freelist (kmem s) /\
  use_lock (kmem (kmem_entered s)) = use_lock (kmem s).
Proof. unfold kmem_entered. by destruct (_ =? 0). Qed.

Lemma kmem_leave m h s :
  kmem_ready s ->
  let t := kmem_update m h (kmem_entered s) in
  exists s', when (negb (use_lock (kmem t) =? 0)) (release KMEM_LOCK) t = (Ok tt, s') /\
    s' ≡ kmem_update m h s.
Proof.
  intros [Hirq Hl] t. assert (use_lock (kmem t) = use_lock (kmem s)) as ->
    by (subst t; unfold kmem_entered; by destruct (_ =? 0)).
  subst t. unfold kmem_entered. destruct (Z.eqb_spec (use_lock (kmem s)) 0) as [|Hne]; cbn [negb when].
  { by eexists. }
  destruct Hl as [|Hl]; [done|].
  exists (released KMEM_LOCK (kmem_update m h (acquired KMEM_LOCK s))).
  split; [by apply (release_inside KMEM_LOCK s)|].
  etrans; [by apply (released_inside KMEM_LOCK s)|].
  destruct s as [? ? ? ? ? k]; destruct k as [[] ? ? ?]; reflexivity.
Qed.
End Critical.

(** ** kalloc and kfree on the abstract list *)

Section Specs.
Context `{env : Env}.

Lemma kalloc_empty s :
  kmem_ready s -> kmem_inv s [] -> exists s', kalloc s = (Ok 0, s') /\ s' ≡ s.
Proof.
  intros Hr (Hc & _). simpl in Hc. unfold kalloc. mstep.
  rewrite (bind_ok _ _ _ _ _ (kmem_enter s Hr)). mstep.
  destruct (kmem_entered_parts s) as (Em & Ef & Eu). rewrite Ef, Hc, Z.eqb_refl. mstep.
  destruct (kmem_leave (mem s) (freelist (kmem s)) s Hr) as (s' & E & Hs).
  assert (kmem_update (mem s) (freelist (kmem s)) (kmem_entered s) = kmem_entered s) as Eid.
  { unfold kmem_update. rewrite <- Em, <- Ef. destruct (kmem_entered s) as [? ? ? ? ? k]. by destruct k. }
  rewrite Eid in E. rewrite (bind_ok _ _ _ _ _ E). exists s'. split; [done|].
  rewrite Hs. unfold kmem_update. destruct s as [? ? ? ? ? k]. by destruct k.
Qed.

Lemma kalloc_cons s x l :
  kmem_ready s -> kmem_inv s (x :: l) ->
  exists s', kalloc s = (Ok x, s') /\ s' ≡ kmem_update (mem s) (mload32 (mem s) x) s /\
    kmem_inv s' l.
Proof.
  intros Hr Hinv. pose proof Hinv as ([Hx Hc] & Hn & Hp & Ha).
  apply NoDup_cons in Hn as [Hxl Hn]. apply Forall_cons in Hp as [Hpx Hpl].
  unfold kalloc. mstep. rewrite (bind_ok _ _ _ _ _ (kmem_enter s Hr)). mstep.
  destruct (kmem_entered_parts s) as (Em & Ef & Eu). rewrite Ef, Hx.
  destruct (heap_page_space s x Ha Hpx) as [Hk Hlow].
  destruct (Z.eqb_spec x KMEM_SENTINEL) as [E|_].
  { exfalso. destruct Hpx as (_ & Hpx & _), Ha as [Ha _]. lia. }
  erewrite bind_ok; [|erewrite bind_ok by (apply load32_kernel; unfold PGSIZE in *; kspace_tac);
                       mstep; done].
  mstep. rewrite Em.
  destruct (kmem_leave (mem s) (mload32 (mem s) x) s Hr) as (s' & E & Hs).
  assert (kmem_update (mem s) (mload32 (mem s) x) (kmem_entered s)
    = upd_kmem (set_freelist (mload32 (mem s) x)) (kmem_entered s)) as Eid.
  { unfold kmem_update. rewrite <- Em at 1. by destruct (kmem_entered s). }
  rewrite Eid in E. rewrite (bind_ok _ _ _ _ _ E). exists s'. split; [done|]. split; [done|].
  rewrite Hs. split; [exact Hc|]. split; [done|]. split; [exact Hpl|exact Ha].
Qed.

(** RAM after [kfree(v)]: the page is filled with 1s but for its first word. *)
Definition mfree (m : gmap Z Z) (v head : Z) : gmap Z Z :=
  mstore32 (mfill m v 1 (Z.to_nat PGSIZE)) v head.

Lemma mload8_free_out m v head b :
  0 <= v -> v + PGSIZE <= 4294967296 -> 0 <= b < 4294967296 -> ~ v <= b < v + PGSIZE ->
  mload8 (mfree m v head) b = mload8 m b.
Proof.
  intros Hv Hv' Hb Ho. unfold mfree, PGSIZE in *. rewrite mload8_store32_ne by (intros; ulia).
  rewrite mload8_fill by lia. case_decide; [lia|done].
Qed.
Lemma mload32_free_out m v head a :
  0 <= v -> v + PGSIZE <= 4294967296 -> 0 <= a -> a + 4 <= 4294967296 ->
  a + 4 <= v \/ v + PGSIZE <= a -> mload32 (mfree m v head) a = mload32 m a.
Proof. intros. unfold mload32. rewrite !mload8_free_out by lia. done. Qed.

Lemma kfree_guard s v :
  accepts s v ->
  negb (v mod PGSIZE =? 0) || (v <? kheap_start (kmem s)) || (kheap_end (kmem s) <=? V2P v) = false.
Proof. unfold accepts. intros. destruct (Z.eqb_spec (v mod PGSIZE) 0); simpl; lia. Qed.
Lemma heap_page_accepts s v : heap_page s v <-> accepts s v /\ v + PGSIZE <= ram_end.
Proof. unfold heap_page, accepts. tauto. Qed.

Lemma chain_head s l : kmem_inv s l -> 0 <= freelist (kmem s) < 4294967296.
Proof.
  intros (Hc & _ & Hp & [Ha Ha']). unfold KERNBASE in *. destruct l as [|x l]; simpl in Hc; [lia|].
  destruct Hc as [-> _]. apply Forall_cons in Hp as [(_ & Hx & _) _]. lia.
Qed.

(** Putting a page in front of the list. *)
Lemma kmem_inv_push m s v l :
  kmem_inv s l -> heap_page s v -> v ∉ l -> mload32 m v = freelist (kmem s) ->
  (forall x, x ∈ l -> mload32 m x = mload32 (mem s) x) ->
  kmem_inv (kmem_update m v s) (v :: l).
Proof.
  intros (Hc & Hn & Hp & Ha) Hv Hnl Em Ex. split_and!.
  - simpl. split; [done|]. rewrite Em. by eapply chain_ext.
  - by apply NoDup_cons.
  - apply Forall_cons. split; [exact Hv|exact Hp].
  - exact Ha.
Qed.

Lemma mfree_chain s v l :
  kmem_inv s l -> heap_page s v -> v ∉ l -> let m := mfree (mem s) v (freelist (kmem s)) in
  mload32 m v = freelist (kmem s) /\ (forall x, x ∈ l -> mload32 m x = mload32 (mem s) x).
Proof.
  intros Hinv Hv Hnl m. pose proof Hinv as (_ & _ & Hp & Ha). split.
  - subst m. unfold mfree. rewrite mload32_store32_same. apply wrap32_small. by eapply chain_head.
  - intros x Hx. eapply Forall_forall in Hp; [|exact Hx].
    destruct (heap_page_space s v Ha Hv) as [Hk1 _], (heap_page_space s x Ha Hp) as [Hk2 _].
    destruct (heap_page_apart s x v Hp Hv) as [|]; [by intros ->|..];
      apply mload32_free_out; unfold PGSIZE, kspace, KERNBASE in *; lia.
Qed.

Lemma kfree_ok s v l :
  kmem_ready s -> kmem_inv s l -> heap_page s v -> v ∉ l ->
  exists s', kfree v s = (Ok tt, s') /\ s' ≡ kmem_update (mfree (mem s) v (freelist (kmem s))) v s /\
    kmem_inv s' (v :: l).
Proof.
  intros Hr Hinv Hv Hnl. destruct (mfree_chain s v l Hinv Hv Hnl) as [Em1 Em2].
  destruct (heap_page_space s v (proj2 (proj2 (proj2 Hinv))) Hv) as [Hk Hlow].
  unfold kfree. mstep. rewrite kfree_guard by (by apply heap_page_accepts).
  erewrite bind_ok by (apply memset_kernel; [done|exact Hk]). mstep.
  change (wrap8 1) with 1. unfold mfree in *.
  set (m1 := mfill _ _ _ _) in *. clearbody m1. set (s1 := set_mem m1 s).
  rewrite (bind_ok _ _ _ _ _ (kmem_enter s1 Hr)). mstep.
  destruct (kmem_entered_parts s1) as (Em & Ef & Eu). rewrite Ef.
  erewrite bind_ok by (apply store32_kernel; unfold PGSIZE in *; kspace_tac). mstep. rewrite Em.
  destruct (kmem_leave (mstore32 m1 v (freelist (kmem s))) v s1 Hr) as (s' & E & Hs).
  exists s'. split; [exact E|]. split; [exact Hs|]. rewrite Hs. by apply (kmem_inv_push _ s).
Qed.

Lemma kfree_panics s v :
  0 <= v < 4294967296 -> ~ accepts s v -> kfree v s = (Panic "kfree", s).
Proof.
  intros Hv H. unfold kfree. mstep.
  destruct (_ || _) eqn:E; [done|]. exfalso. apply H. unfold accepts.
  destruct (Z.eqb_spec (v mod PGSIZE) 0); simpl in E; [|done]. lia.
Qed.
(** Where there is no memory, the first byte [memset] writes faults. *)
Lemma kfree_faults s v :
  KERNBASE <= v < 4294967296 -> accepts s v -> ~ kspace v 1 -> kfree v s = page_fault v s.
Proof.
  intros Hv Ha Hk. unfold kfree. mstep. rewrite kfree_guard by done.
  assert (store8 v (wrap8 1) s = page_fault v s) as E by (unfold store8; by rewrite xlate_unmapped).
  assert (exists n, Z.to_nat PGSIZE = S n) as [n En] by (exists (Z.to_nat 4095); unfold PGSIZE; lia).
  unfold memset. rewrite En. cbn [memset_loop].
  unfold mbind, M_bind. rewrite E. unfold page_fault.
  destruct (isr_table (irq s) !! 14%nat) as [[[]|]|]; done.
Qed.
End Specs.

(** ** Initialisation *)

(** The [n] pages from [p] on. *)
Definition page_range (p : Z) (n : nat) : list Z := (fun i => p + PGSIZE * Z.of_nat i) <$> seq 0 n.

Lemma page_range_S p n : page_range p (S n) = page_range p n ++ [p + PGSIZE * Z.of_nat n].
Proof. unfold page_range. by rewrite seq_S, fmap_app. Qed.
Lemma elem_of_page_range p n x :
  x ∈ page_range p n <-> exists i, x = p + PGSIZE * Z.of_nat i /\ (i < n)%nat.
Proof.
  unfold page_range. rewrite list_elem_of_fmap. setoid_rewrite elem_of_seq.
  split; intros (i & -> & ?); exists i; (split; [done|lia]).
Qed.
Lemma page_range_new p n : p + PGSIZE * Z.of_nat n ∉ page_range p n.
Proof. rewrite elem_of_page_range. unfold PGSIZE. intros (i & ? & ?). lia. Qed.

(** [s'] differs from [s] only in the allocator's variables, in RAM from [lo] to
    [hi] and in what printing changes. *)
Definition heap_frame (lo hi : Z) (s s' : machine) : Prop :=
  (exists m o k, s' ≡ set_io o (set_mem m (set_kmem k s))) /\
  forall b, 0 <= b < 4294967296 -> ~ in_video b -> ~ lo <= b < hi -> mload8 (mem s') b = mload8 (mem s) b.

Lemma alloc_frame_heap lo hi s s' :
  alloc_frame s s' ->
  (forall b, 0 <= b < 4294967296 -> ~ lo <= b < hi -> mload8 (mem s') b = mload8 (mem s) b) -> heap_frame lo hi s s'.
Proof.
  intros (m & h & E) Hm. split; [|intros b Hb _; by apply Hm]. exists m, (io s), (set_freelist h (kmem s)).
  etrans; [exact E|]. by destruct s.
Qed.

Section Init.
Context `{env : Env}.

(** What [alloc_frame] keeps. *)
Lemma alloc_frame_ready s s' : alloc_frame s s' -> kmem_ready s -> kmem_ready s'.
Proof. intros (m & h & E) H. rewrite E. exact H. Qed.
Lemma alloc_frame_heap_page s s' x : alloc_frame s s' -> heap_page s x -> heap_page s' x.
Proof.
  intros (m & h & E) H. unfold heap_page.
  rewrite (equiv_kheap_start _ _ E), (equiv_kheap_end _ _ E). exact H.
Qed.

Lemma kfree_frame s v l :
  kmem_ready s -> kmem_inv s l -> heap_page s v -> v ∉ l ->
  exists s', kfree v s = (Ok tt, s') /\ alloc_frame s s' /\ kmem_inv s' (v :: l) /\
    mem s' = mfree (mem s) v (freelist (kmem s)).
Proof.
  intros Hr Hi Hv Hn. destruct (kfree_ok s v l Hr Hi Hv Hn) as (s' & E & Hs & Hi').
  exists s'. split_and!; [done|by eexists _, _|done|]. exact (equiv_mem _ _ Hs).
Qed.

(** How many whole pages [freerange] finds. *)
Definition npages (vstart vend : Z) : nat := Z.to_nat ((vend - PGROUNDUP vstart) / PGSIZE).

Lemma npages_lt vstart vend i :
  PGROUNDUP vstart <= vend -> (i < npages vstart vend)%nat ->
  PGROUNDUP vstart + PGSIZE * Z.of_nat i + PGSIZE <= vend.
Proof. unfold npages, PGSIZE. lia. Qed.

Lemma freerange_ok s vstart vend l :
  0 <= PGROUNDUP vstart <= vend -> vend < 0xfffff000 ->
  let ps := page_range (PGROUNDUP vstart) (npages vstart vend) in
  kmem_ready s -> kmem_inv s l -> Forall (heap_page s) ps -> (forall x, x ∈ ps -> x ∉ l) ->
  exists s', freerange vstart vend s = (Ok tt, s') /\ alloc_frame s s' /\
    kmem_inv s' (rev ps ++ l) /\ heap_frame (PGROUNDUP vstart) vend s s'.
Proof.
  intros Hp0 Hv ps Hr Hi Hps Hl. set (P0 := PGROUNDUP vstart) in *. set (N := npages vstart vend) in *.
  assert (4096 * Z.of_nat N <= vend - P0 < 4096 * Z.of_nat N + 4096) as HN
    by (subst N; unfold npages, PGSIZE; fold P0; lia).
  set (same := fun s' => forall b, 0 <= b < 4294967296 -> ~ P0 <= b < vend -> mload8 (mem s') b = mload8 (mem s) b).
  set (J := fun n p s' => (n <= N)%nat /\ p = P0 + PGSIZE * Z.of_nat (N - n) /\ alloc_frame s s' /\
              kmem_inv s' (rev (page_range P0 (N - n)) ++ l) /\ same s').
  set (Q := fun (r : result unit) s' => r = Ok tt /\ alloc_frame s s' /\ kmem_inv s' (rev ps ++ l) /\ same s').
  pose proof (loop_inv_Z (fun p => if (p +u PGSIZE) <=? vend then _ ← kfree p; mret (inl (p +u PGSIZE))
    else mret (inr tt)) J Q 20 N P0 s) as H.
  assert (Q (freerange vstart vend s).1 (freerange vstart vend s).2) as (E & Hf & Hi' & Hsm).
  { apply H; clear H.
    - intros n p s' (Hn & -> & Hf & Hi' & Hsm). clearbody N P0.
      destruct (Z.leb_spec ((P0 + PGSIZE * Z.of_nat (N - n)) +u PGSIZE) vend) as [Hle|Hgt].
      + assert (0 < n)%nat as Hpos.
        { destruct n; [|lia]. exfalso. revert Hle. unfold PGSIZE. ulia. }
        assert (P0 + PGSIZE * Z.of_nat (N - n) ∈ ps) as Hin
          by (apply elem_of_page_range; exists (N - n)%nat; split; [done|lia]).
        destruct (kfree_frame s' (P0 + PGSIZE * Z.of_nat (N - n))
          (rev (page_range P0 (N - n)) ++ l)) as (s2 & E2 & Hf2 & Hi2 & Em2).
        * by eapply alloc_frame_ready.
        * done.
        * eapply alloc_frame_heap_page; [done|]. by eapply Forall_forall in Hps.
        * rewrite elem_of_app, list_elem_of_In, <- in_rev, <- list_elem_of_In.
          intros [?|?]; [by eapply page_range_new|by eapply Hl].
        * rewrite (bind_ok _ _ _ _ _ E2). exists (n - 1)%nat. split; [lia|]. split_and!; [lia| |by etrans| |].
          -- rewrite wrap32_small; [unfold PGSIZE; lia|]. unfold PGSIZE in *. lia.
          -- replace (N - (n - 1))%nat with (S (N - n)) by lia.
             by rewrite page_range_S, rev_app_distr.
          -- intros b Hb Ho. rewrite Em2, mload8_free_out, Hsm by (unfold PGSIZE in *; lia). done.
      + assert (n = 0)%nat as ->.
        { destruct n; [done|]. exfalso. revert Hgt. unfold PGSIZE in *. ulia. }
        split_and!; [done|done| |done]. by rewrite Nat.sub_0_r in Hi'.
    - split_and!; [lia|unfold PGSIZE; lia|done| |done]. by rewrite Nat.sub_diag.
    - simpl (2 ^ _). lia. }
  destruct (freerange vstart vend s) as [r s']. simpl in *. subst r. exists s'.
  split_and!; [done..|by apply alloc_frame_heap].
Qed.

Lemma kinit1_ok s vstart vend :
  irq_ok s -> KERNBASE + 0x100000 <= KMEM_SENTINEL < vstart ->
  vstart <= PGROUNDUP vstart <= vend -> vend < 0xfffff000 -> vend <= ram_end -> V2P vend <= kheap_end (kmem s) ->
  exists s', kinit1 vstart vend s = (Ok tt, s') /\ use_lock (kmem s') = 0 /\ irq_ok s' /\
    kheap_end (kmem s') = kheap_end (kmem s) /\ kheap_start (kmem s') = vstart /\ lock_free KMEM_LOCK s' /\
    kmem_inv s' (rev (page_range (PGROUNDUP vstart) (npages vstart vend))) /\
    heap_frame (PGROUNDUP vstart) vend s s'.
Proof.
  intros Hirq Hs Hp Hv Hram He. unfold kinit1, initlock. mstep. rewrite wrap32_small by (unfold KERNBASE in *; lia).
  match goal with |- context [freerange _ _ ?t] => set (s1 := t) end.
  assert (kmem_ready s1) as Hr by (split; [exact Hirq|by left]).
  assert (PGROUNDUP vstart mod 4096 = 0) as Hal
    by (rewrite PGROUNDUP_eq by (unfold KERNBASE in *; lia); lia).
  destruct (freerange_ok s1 vstart vend []) as (s' & E & (m & h & Hf) & Hi & [_ Hm]).
  - unfold KERNBASE in *. lia.
  - lia.
  - done.
  - split_and!; [done|apply NoDup_nil_2|done|]. unfold heap_above_kernel. simpl.
    unfold KERNBASE in *. lia.
  - apply Forall_forall. intros x (i & -> & Hi)%elem_of_page_range.
    apply npages_lt in Hi; [|lia]. unfold heap_page. simpl.
    rewrite V2P_kernel in He by (unfold KERNBASE in *; lia).
    rewrite V2P_kernel by (unfold PGSIZE, KERNBASE in *; lia). unfold PGSIZE, KERNBASE in *. lia.
  - intros x _. apply not_elem_of_nil.
  - rewrite app_nil_r in Hi. exists s'. split; [done|].
    rewrite (equiv_use_lock _ _ Hf), (equiv_kheap_end _ _ Hf), (equiv_kheap_start _ _ Hf). unfold irq_ok, lock_free.
    rewrite (equiv_locked _ _ Hf), (equiv_lk_cpu _ _ Hf), (equiv_ncli _ _ Hf), (equiv_IF _ _ Hf).
    split_and!; [done|apply Hirq..|done|done|done|done|done|split].
    + exists m, (io s), (kmem (kmem_update m h s1)). etrans; [exact Hf|]. by destruct s.
    + exact Hm.
Qed.

(** The list has at most the 2^20 pages of the address space. *)
Lemma kmem_inv_length_le s l N :
  Z.of_nat N = 1048576 -> kmem_inv s l -> Z.of_nat (length l) <= 1048576.
Proof.
  intros HN (_ & Hn & Hp & Ha). assert (l ⊆+ page_range 0 N) as Hsub.
  { apply NoDup_submseteq; [done|]. intros x Hx. eapply Forall_forall in Hp; [|exact Hx].
    destruct (heap_page_space s x Ha Hp) as [Hk _], Hp as (Hx0 & _). apply elem_of_page_range.
    exists (Z.to_nat (x / 4096)). unfold PGSIZE, kspace, KERNBASE in *. lia. }
  apply submseteq_length in Hsub. unfold page_range in Hsub.
  rewrite length_fmap, length_seq in Hsub. lia.
Qed.
Lemma kmem_inv_length s l : kmem_inv s l -> Z.of_nat (length l) <= 1048576.
Proof. apply (kmem_inv_length_le s l (Z.to_nat 1048576)). by rewrite Z2Nat.id. Qed.

(** The walk visits the list; it stops on the last frame without counting it. *)
Lemma dump_walk_ok s l :
  kmem_inv s l -> dump_walk (freelist (kmem s)) s
    = (Ok (default KMEM_SENTINEL (last l), Z.of_nat (pred (length l))), s).
Proof.
  intros Hinv. pose proof (kmem_inv_length s l Hinv) as Hlen. pose proof Hinv as (Hc & _ & Hp & Ha).
  assert (forall x, x ∈ l -> frame_next x s = (Ok (mload32 (mem s) x), s)) as Hnext.
  { intros x Hx. eapply Forall_forall in Hp; [|exact Hx]. unfold frame_next.
    destruct (heap_page_space s x Ha Hp) as [Hk _], Hp as (_ & Hx1 & _), Ha as [Ha _].
    destruct (Z.eqb_spec x KMEM_SENTINEL); [lia|]. apply load32_kernel. unfold PGSIZE in *. kspace_tac. }
  set (J := fun n '(p, k) s' => s' = s /\
     (l = [] /\ p = KMEM_SENTINEL /\ k = 0 \/
      exists pre suf, l = pre ++ p :: suf /\ chain (mem s) (mload32 (mem s) p) suf /\
        k = Z.of_nat (length pre) /\ n = length suf)).
  set (Q := fun (r : result (Z * Z)) s' =>
     (r, s') = (Ok (default KMEM_SENTINEL (last l), Z.of_nat (pred (length l))), s)).
  match goal with |- dump_walk ?p s = _ => assert (Q (dump_walk p s).1 (dump_walk p s).2) as HQ end.
  { unfold dump_walk. apply (loop_inv_Z _ J Q 32 (pred (length l))).
    - intros n [p k] s' [-> [(El & -> & ->)|(pre & suf & El & Hsuf & -> & ->)]].
      + unfold frame_next. rewrite Z.eqb_refl, bind_gets. rewrite El in Hc. simpl in Hc.
        rewrite Hc, Z.eqb_refl. unfold Q. by rewrite El.
      + assert (p ∈ l) as Hin by (rewrite El; apply elem_of_app; right; apply list_elem_of_here).
        rewrite (bind_ok _ _ _ _ _ (Hnext p Hin)). destruct suf as [|y suf]; simpl in Hsuf.
        * rewrite Hsuf, Z.eqb_refl. unfold Q. rewrite El, last_snoc, length_app. simpl.
          repeat f_equal. lia.
        * destruct Hsuf as [Ey Hsuf]. rewrite Ey.
          assert (heap_page s y) as (_ & Hy & _)
            by (eapply Forall_forall in Hp; [exact Hp|]; rewrite El; apply elem_of_app; right;
                apply list_elem_of_further, list_elem_of_here).
          destruct Ha as [Ha _]. destruct (Z.eqb_spec y KMEM_SENTINEL); [lia|].
          rewrite (bind_ok _ _ _ _ _ (Hnext p Hin)), Ey. exists (length suf). split; [simpl; lia|].
          split; [done|]. right. exists (pre ++ [p]), suf. rewrite <- app_assoc, length_app.
          split_and!; [done|done|simpl; lia|done].
    - split; [done|]. destruct l as [|x l]; [by left|]. right. destruct Hc as [-> Hc].
      by exists [], l.
    - simpl (2 ^ _). lia. }
  unfold Q in HQ. rewrite <- HQ. by destruct (dump_walk _ s).
Qed.
End Init.

(** ** Printing the list *)

Section Dump.
Context `{env : Env}.

Lemma kmem_inv_quiet s s' l : quiet s s' -> kmem_inv s l -> kmem_inv s' l.
Proof.
  intros Hq Hinv. apply (kmem_inv_transfer s); [done|..].
  - by apply quiet_freelist.
  - by apply quiet_kheap_start.
  - by apply quiet_kheap_end.
  - intros x Hx. destruct Hinv as (_ & _ & Hp & Ha). eapply Forall_forall in Hp; [|exact Hx].
    destruct (heap_page_space s x Ha Hp) as [Hk Hlow]. unfold kspace, PGSIZE, KERNBASE in *.
    apply (quiet_load32 s); [done|lia|lia|unfold vidmem, KERNBASE; lia].
Qed.
Lemma kmem_ready_quiet s s' : quiet s s' -> kmem_ready s -> kmem_ready s'.
Proof.
  intros Hq [H1 H2]. split; [by apply (quiet_irq_ok s)|]. rewrite (quiet_use_lock s s' Hq).
  destruct H2; [by left|right; by apply (quiet_lock_free s)].
Qed.

Lemma dump_freelist_ok s l :
  cons_ready s -> kmem_inv s l -> exists s', dump_freelist s = (Ok tt, s') /\ quiet s s'.
Proof.
  intros Hc Hi. unfold dump_freelist. mstep. set (p := freelist (kmem s)).
  destruct (cprintf_fits "kernel heap: start=0x%p" [AW p] s Hc eq_refl) as (s1 & E1 & Q1).
  rewrite (bind_ok _ _ _ _ _ E1). unfold p. rewrite <- (quiet_freelist s s1 Q1).
  rewrite (bind_ok _ _ _ _ _ (dump_walk_ok s1 l (kmem_inv_quiet _ _ _ Q1 Hi))).
  set (e := default _ _). set (n := Z.of_nat _).
  destruct (cprintf_fits (" end=0x%p, number of free frames: %d" +:+ nl) [AW e; AW n] s1
    (quiet_cons_ready _ _ Q1 Hc) eq_refl) as (s2 & E2 & Q2).
  exists s2. split; [exact E2|by etrans].
Qed.
End Dump.

(** ** The interface the allocator offers *)

(** Pages as a client sees them: aligned, in RAM, above the first megabyte. *)
Definition is_page `{env : Env} (x : Z) : Prop :=
  x mod PGSIZE = 0 /\ KERNBASE + 0x100000 < x /\ x + PGSIZE <= 4294967296 /\ x + PGSIZE <= ram_end.

(** RAM outside of the page [v] is the same. *)
Definition same_outside (v : Z) (m m' : gmap Z Z) : Prop :=
  forall b, 0 <= b < 4294967296 -> ~ v <= b < v + PGSIZE -> mload8 m' b = mload8 m b.

(** [pool s l]: in [s], [l] are the free pages, the next one to hand out
    first, and the allocator may be called.  [freeable s v]: [v] is a page
    the allocator takes back. *)
Class Allocator `{env : Env} : Type := {
  pool : machine -> list Z -> Prop;
  freeable : machine -> Z -> Prop;
  pool_pages s l : pool s l -> NoDup l /\ forall x, x ∈ l -> is_page x /\ freeable s x;
  pool_frame s s' l : pool s l -> kmem s' = kmem s -> cpu0 s' = cpu0 s ->
    eflags (cpu_regs s') = eflags (cpu_regs s) ->
    (forall x b, x ∈ l -> x <= b < x + PGSIZE -> mload8 (mem s') b = mload8 (mem s) b) -> pool s' l;
  pool_equiv s s' l : s ≡ s' -> pool s l -> pool s' l;
  freeable_frame s s' v : kmem s' = kmem s -> freeable s v -> freeable s' v;
  freeable_alloc s s' v : alloc_frame s s' -> freeable s v -> freeable s' v;
  alloc_nil s : pool s [] -> exists s', kalloc s = (Ok 0, s') /\ s' ≡ s /\ pool s' [];
  alloc_cons s x l : pool s (x :: l) ->
    exists s', kalloc s = (Ok x, s') /\ alloc_frame s s' /\ mem s' = mem s /\ pool s' l;
  free_ok s v l : pool s l -> freeable s v -> v ∉ l ->
    exists s', kfree v s = (Ok tt, s') /\ alloc_frame s s' /\ same_outside v (mem s) (mem s') /\
      pool s' (v :: l);
}.

Section Implements.
Context `{env : Env}.

Lemma kmem_inv_frame s s' l :
  kmem_inv s l -> kmem s' = kmem s ->
  (forall x b, x ∈ l -> x <= b < x + PGSIZE -> mload8 (mem s') b = mload8 (mem s) b) ->
  kmem_inv s' l.
Proof.
  intros Hi Ek Hm. apply (kmem_inv_transfer s); [done|by rewrite Ek..|].
  intros x Hx. unfold mload32. by rewrite !(Hm x) by (done || unfold PGSIZE; lia).
Qed.

#[export] Instance kalloc_allocator : Allocator.
Proof.
  unshelve econstructor.
  - exact (fun s l => kmem_ready s /\ kmem_inv s l).
  - exact (fun s v => heap_page s v /\ heap_above_kernel s).
  - intros s l [_ (_ & Hn & Hp & Ha)]. split; [done|]. intros x Hx.
    eapply Forall_forall in Hp; [|exact Hx]. destruct (heap_page_space s x Ha Hp) as [Hk Hlow].
    destruct Hp as (? & ? & ?) eqn:E. split; [|done]. unfold is_page, kspace in *. lia.
  - intros s s' l [[Hi Hl] Hinv] Ek Ec Er Hm. split; [|by eapply kmem_inv_frame].
    unfold kmem_ready, irq_ok, lock_free, IF, get_lock. by rewrite Ek, Ec, Er.
  - intros s s' l E [Hr Hi]. split; [by apply (kmem_ready_proper _ _ E)|by apply (kmem_inv_proper _ _ E _ _ eq_refl)].
  - intros s s' v Ek. unfold heap_page, heap_above_kernel. by rewrite Ek.
  - intros s s' v Hf [Hp Ha]. split; [by eapply alloc_frame_heap_page|].
    destruct Hf as (m & h & Hf). unfold heap_above_kernel.
    rewrite (equiv_kheap_start _ _ Hf). exact Ha.
  - intros s [Hr Hi]. destruct (kalloc_empty s Hr Hi) as (s' & E & Hs). exists s'.
    split_and!; [done|done|by apply (kmem_ready_proper _ _ Hs)|by apply (kmem_inv_proper _ _ Hs _ _ eq_refl)].
  - intros s x l [Hr Hi]. destruct (kalloc_cons s x l Hr Hi) as (s' & E & Hs & Hi').
    assert (alloc_frame s s') as Hf by (by eexists _, _).
    exists s'. split_and!; [done|done| |by eapply alloc_frame_ready|done]. exact (equiv_mem _ _ Hs).
  - intros s v l [Hr Hi] [Hv Ha] Hn. destruct (heap_page_space s v Ha Hv) as [Hk _].
    destruct (kfree_frame s v l Hr Hi Hv Hn) as (s' & E & Hf & Hi' & Em).
    exists s'. split_and!; [done|done| |by eapply alloc_frame_ready|done].
    intros b Hb Ho. rewrite Em. unfold kspace, KERNBASE in *. apply mload8_free_out; lia || done.
Defined.
End Implements.

(** ** Clients of the allocator *)

(** A client that owns the pages [own]: it may ask for a page, give back a
    page it owns, and write anywhere in RAM but the part of the heap it does
    not own. *)
Inductive client_step `{env : Env} : machine * list Z -> machine * list Z -> Prop :=
| client_kalloc s s' own x :
    kalloc s = (Ok x, s') -> client_step (s, own) (s', if x =? 0 then own else x :: own)
| client_kfree s s' own1 v own2 :
    kfree v s = (Ok tt, s') -> client_step (s, own1 ++ v :: own2) (s', own1 ++ own2)
| client_write s s' own :
    kmem s' = kmem s -> cpu0 s' = cpu0 s -> cpu_regs s' = cpu_regs s ->
    (forall b, kheap_start (kmem s) <= b < 4294967296 ->
       (forall v, v ∈ own -> ~ v <= b < v + PGSIZE) -> mload8 (mem s') b = mload8 (mem s) b) ->
    client_step (s, own) (s', own).

(** The pages of the heap [ps] are those the client owns and those in the pool. *)
Definition client_inv `{env : Env} (ps : list Z) (c : machine * list Z) : Prop :=
  exists l, kmem_ready c.1 /\ kmem_inv c.1 l /\ c.2 ++ l ≡ₚ ps /\ Forall (heap_page c.1) c.2.

Section Clients.
Context `{env : Env}.

Lemma heap_page_pos s x : heap_above_kernel s -> heap_page s x -> x <> 0.
Proof.
  intros Ha Hx. destruct (heap_page_space s x Ha Hx) as [[Hk _] _].
  unfold KERNBASE in Hk. intros ->. lia.
Qed.

Lemma client_inv_step ps c c' :
  NoDup ps -> client_inv ps c -> client_step c c' -> client_inv ps c'.
Proof.
  intros Hnd (l & Hr & Hi & Hps & Hown) Hst.
  assert (NoDup (c.2 ++ l)) as Hnd' by by rewrite Hps.
  apply NoDup_app in Hnd' as (_ & Hdis & _). pose proof Hi as (_ & _ & Hp & Ha).
  destruct Hst as [s s' own x E|s s' own1 v own2 E|s s' own Ek Ec Eg Hm]; cbn [fst snd] in *.
  - destruct l as [|y l].
    + destruct (kalloc_empty s Hr Hi) as (s1 & E1 & Hs). rewrite E1 in E. injection E as <- <-.
      exists []. simpl.
      split_and!; [by apply (kmem_ready_proper _ _ Hs)|by apply (kmem_inv_proper _ _ Hs _ _ eq_refl)|done|].
      eapply Forall_impl; [exact Hown|]. intros z. apply alloc_frame_heap_page.
      exists (mem s), (freelist (kmem s)). etrans; [exact Hs|]. destruct s as [? ? ? ? ? k]. by destruct k.
    + destruct (kalloc_cons s y l Hr Hi) as (s1 & E1 & Hs & Hi1). rewrite E1 in E.
      injection E as <- <-. apply Forall_cons in Hp as [Hy Hp].
      destruct (Z.eqb_spec y 0) as [E0|_]; [by apply heap_page_pos in Hy|].
      assert (alloc_frame s s1) as Hf by (by eexists _, _).
      exists l. split_and!; [by eapply alloc_frame_ready|done| |].
      * simpl. rewrite <- Hps. apply Permutation_middle.
      * apply Forall_cons. split; [by eapply alloc_frame_heap_page|].
        eapply Forall_impl; [exact Hown|]. intros z. by apply alloc_frame_heap_page.
  - apply Forall_app in Hown as [Ho1 [Hv Ho2]%Forall_cons].
    destruct (kfree_frame s v l Hr Hi Hv) as (s1 & E1 & Hf & Hi1 & _).
    { apply Hdis. set_solver. }
    rewrite E1 in E. injection E as <-. exists (v :: l).
    split_and!; [by eapply alloc_frame_ready|done| |].
    + simpl. rewrite <- Hps. solve_Permutation.
    + apply Forall_app. split; (eapply Forall_impl; [eassumption|]; intros z; by apply alloc_frame_heap_page).
  - exists l. simpl. split_and!; [| |done|].
    + unfold kmem_ready, irq_ok, lock_free, IF, get_lock in *. by rewrite Ek, Ec, Eg.
    + apply (kmem_inv_frame s); [done..|]. intros x b Hx Hb.
      assert (heap_page s x) as Hpx by (by eapply Forall_forall in Hp).
      destruct (heap_page_space s x Ha Hpx) as [Hk _].
      apply Hm; [destruct Hpx as (_ & ? & _); unfold kspace in *; lia|].
      intros v Hv Hbv. assert (heap_page s v) as Hpv by (by eapply Forall_forall in Hown).
      destruct (heap_page_apart s x v Hpx Hpv); [|lia|lia]. intros ->. by apply (Hdis v).
    + unfold heap_page. by rewrite Ek.
Qed.

(** What the steps of [kinit2] add up to. *)
Lemma kinit2_frame m h e lo hi s s2 s4 vend :
  s2 ≡ kmem_update m h (upd_kmem (set_kheap_end vend) s) -> quiet (upd_kmem (set_use_lock e) s2) s4 ->
  (forall b, 0 <= b < 4294967296 -> ~ in_video b -> ~ lo <= b < hi -> mload8 (mem s2) b = mload8 (mem s) b) ->
  heap_frame lo hi s s4.
Proof.
  intros Hf [Hq Hv] Hm. split; [|intros b Hb Hn Ho; rewrite Hv by done; by apply Hm].
  exists (mem s4), (io s4), (set_use_lock e (set_freelist h (set_kheap_end vend (kmem s)))).
  pose proof (f_equal (fun x => set_io (io s4) (set_mem (mem s4) x)) Hq) as E1.
  pose proof (f_equal (fun x => set_io (io s4) (set_mem (mem s4) (upd_kmem (set_use_lock e) x))) Hf) as E2.
  transitivity (set_io (io s4) (set_mem (mem s4) (upd_kmem (set_use_lock e) s2))).
  - destruct s2 as [? ? ? ? ? k2], s4 as [? ? ? ? ? k4]. destruct k2, k4. exact E1.
  - destruct s as [? ? ? ? ? k], s2 as [? ? ? ? ? k2]. destruct k, k2. exact E2.
Qed.

Lemma kinit2_ok s vstart vend l :
  kmem_ready s -> lock_free KMEM_LOCK s -> cons_ready s -> kmem_inv s l ->
  kheap_start (kmem s) <= vstart -> vstart <= PGROUNDUP vstart <= vend -> vend < 0xfffff000 -> vend <= ram_end ->
  Forall (fun x => x < vstart) l ->
  let ps := page_range (PGROUNDUP vstart) (npages vstart vend) in
  exists s', kinit2 vstart vend s = (Ok tt, s') /\ kmem_ready s' /\ cons_ready s' /\
    kmem_inv s' (rev ps ++ l) /\ use_lock (kmem s') = 1 /\ kheap_end (kmem s') = vend /\
    kheap_start (kmem s') = kheap_start (kmem s) /\ lock_free KMEM_LOCK s' /\
    heap_frame (PGROUNDUP vstart) vend s s'.
Proof.
  intros Hr Hlk Hcr Hi Hst Hp Hv Hram Hl ps. unfold kinit2. mstep.
  pose proof Hi as (_ & _ & _ & [Ha _]). unfold KERNBASE in Ha.
  rewrite wrap32_small by (unfold KERNBASE in *; lia).
  match goal with |- context [(freerange _ _ ≫= _) ?t] => set (s1 := t) end.
  assert (PGROUNDUP vstart mod 4096 = 0) as Hal by (rewrite PGROUNDUP_eq by lia; lia).
  destruct (freerange_ok s1 vstart vend l) as (s2 & E & (m & h & Hf) & Hi2 & [_ Hm2]); [lia|lia|exact Hr|..].
  - destruct Hi as (Hc & Hn & Hpg & Ha'). split_and!; [done|done| |exact Ha'].
    eapply Forall_impl; [exact Hpg|]. intros x Hx.
    destruct (heap_page_space s x Ha' Hx) as [Hk _], Hx as (? & ? & ?). unfold kspace, PGSIZE, KERNBASE in *.
    unfold heap_page. simpl. rewrite V2P_kernel by (unfold KERNBASE; lia).
    unfold KERNBASE, PGSIZE. lia.
  - apply Forall_forall. intros x (i & -> & Hi')%elem_of_page_range. apply npages_lt in Hi'; [|lia].
    unfold heap_page. simpl. unfold PGSIZE in *. rewrite V2P_kernel by (unfold KERNBASE; lia).
    unfold KERNBASE. lia.
  - intros x (i & -> & Hi')%elem_of_page_range Hin. eapply Forall_forall in Hl; [|exact Hin].
    simpl in Hl. unfold PGSIZE in Hl. lia.
  - rewrite (bind_ok _ _ _ _ _ E). mstep. set (s3 := upd_kmem _ s2).
    assert (kmem_inv s3 (rev ps ++ l)) as Hi3 by exact Hi2.
    assert (irq_ok s3 /\ lock_free KMEM_LOCK s3 /\ cons_ready s3 /\ kheap_end (kmem s3) = vend)
      as (Hq3 & Hl3 & Hc3 & He3).
    { unfold cons_ready, irq_ok, lock_free, IF. subst s3. simpl.
      pose proof (f_equal (fun s => locking (cons s)) Hf) as Eloc. simpl in Eloc.
      pose proof (equiv_locked _ _ Hf KMEM_LOCK) as El1. pose proof (equiv_lk_cpu _ _ Hf KMEM_LOCK) as El2.
      pose proof (equiv_locked _ _ Hf CONS_LOCK) as El3. pose proof (equiv_lk_cpu _ _ Hf CONS_LOCK) as El4.
      simpl in *. rewrite Eloc, El1, El2, El3, El4, (equiv_ncli _ _ Hf), (equiv_regs _ _ Hf).
      rewrite (equiv_kheap_end _ _ Hf). split; [apply Hr|]. split; [apply Hlk|]. done. }
    destruct (dump_freelist_ok s3 (rev ps ++ l) Hc3 Hi3) as (s4 & E4 & Q4).
    exists s4. split; [exact E4|]. split_and!.
    + apply (kmem_ready_quiet s3 s4 Q4). split; [done|by right].
    + by apply (quiet_cons_ready s3).
    + by apply (kmem_inv_quiet s3).
    + by rewrite (quiet_use_lock s3 s4 Q4).
    + by rewrite (quiet_kheap_end s3 s4 Q4).
    + rewrite (quiet_kheap_start s3 s4 Q4). exact (equiv_kheap_start _ _ Hf).
    + by apply (quiet_lock_free s3).
    + by apply (kinit2_frame m h 1 _ _ s s2 s4 vend).
Qed.
End Clients.

(** ** Properties *)

Section Properties.
Context `{env : Env}.

(** C1: in every run of a client that asks for pages, gives back pages it
    owns and writes outside of the heap pages it does not own, no page is lost
    or handed out twice: the owned pages and the free list together are always
    the pages of the heap.  kalloc always returns, with a page the client does
    not own or with 0 exactly when the client owns the whole heap; kfree of an
    owned page always succeeds. *)
Theorem heap_conserved s0 l0 s own :
  kmem_ready s0 -> kmem_inv s0 l0 -> rtc client_step (s0, []) (s, own) ->
  (exists l, kmem_inv s l /\ (own ++ l) ≡ₚ l0) /\
  (exists x s', kalloc s = (Ok x, s') /\ (x ∉ own) /\ (x = 0 <-> (own ≡ₚ l0)) /\ (x <> 0 -> x ∈ l0)) /\
  (forall v, v ∈ own -> exists s', kfree v s = (Ok tt, s')).
Proof.
  intros Hr0 Hi0 Hrun.
  assert (client_inv l0 (s, own)) as (l & Hr & Hi & Hp & Ho); cbn [fst snd] in *.
  { assert (client_inv l0 (s0, [])) as Hc by (exists l0; done). pose proof Hi0 as (_ & Hnd & _).
    revert Hc Hrun. generalize (s0, @nil Z), (s, own). intros c c' Hc Hrun.
    induction Hrun; eauto using client_inv_step. }
  assert (NoDup (own ++ l)) as Hn by (rewrite Hp; apply Hi0).
  pose proof Hi as (_ & _ & Hpl & Ha). apply NoDup_app in Hn as (_ & Hdis & _). split_and!.
  - by exists l.
  - destruct l as [|x l].
    + destruct (kalloc_empty s Hr Hi) as (s' & E & _). exists 0, s'. rewrite app_nil_r in Hp.
      split_and!; [done| |done|done]. intros H0. eapply Forall_forall in Ho; [|exact H0].
      by apply heap_page_pos in Ho.
    + destruct (kalloc_cons s x l Hr Hi) as (s' & E & _). apply Forall_cons in Hpl as [Hx _].
      exists x, s'. split_and!; [done| | |].
      * intros Hin. apply (Hdis x Hin). set_solver.
      * split; [intros ->; by apply heap_page_pos in Hx|]. intros Hp'.
        rewrite <- Hp in Hp'. apply Permutation_length in Hp'. rewrite length_app in Hp'. simpl in Hp'. lia.
      * intros _. rewrite <- Hp. set_solver.
  - intros v Hv. destruct (kfree_frame s v l Hr Hi) as (s' & E & _); [|by apply Hdis|by exists s'].
    by eapply Forall_forall in Ho.
Qed.

(** Kinit1(vstart, vend), called with the heap start above the kernel
    image, returns, and the free list then holds exactly the whole pages
    between them, the highest first. *)
Theorem kinit1_frees s vstart vend :
  irq_ok s -> KERNBASE + 0x100000 <= KMEM_SENTINEL < vstart ->
  vstart <= PGROUNDUP vstart <= vend -> vend < 0xfffff000 -> vend <= ram_end -> V2P vend <= kheap_end (kmem s) ->
  exists s', kinit1 vstart vend s = (Ok tt, s') /\ kmem_ready s' /\
    kmem_inv s' (rev (page_range (PGROUNDUP vstart) (npages vstart vend))).
Proof.
  intros H1 H2 H3 H4 Hram H5. destruct (kinit1_ok s vstart vend H1 H2 H3 H4 Hram H5) as (s' & E & Hu & Hq & _ & _ & _ & Hi & _).
  exists s'. split_and!; [done|split; [done|by left]|done].
Qed.

(** [kinit2 vstart vend] returns, adds the whole pages between them in
    front of the free list, turns locking on and leaves both the allocator and
    the console ready for use. *)
Theorem kinit2_frees s vstart vend l :
  kmem_ready s -> lock_free KMEM_LOCK s -> cons_ready s -> kmem_inv s l ->
  kheap_start (kmem s) <= vstart -> vstart <= PGROUNDUP vstart <= vend -> vend < 0xfffff000 -> vend <= ram_end ->
  Forall (fun x => x < vstart) l ->
  exists s', kinit2 vstart vend s = (Ok tt, s') /\ kmem_ready s' /\ cons_ready s' /\
    use_lock (kmem s') = 1 /\
    kmem_inv s' (rev (page_range (PGROUNDUP vstart) (npages vstart vend)) ++ l).
Proof.
  intros H1 H2 H3 H4 H5 H6 H7 Hram H8.
  destruct (kinit2_ok s vstart vend l H1 H2 H3 H4 H5 H6 H7 Hram H8) as (s' & E & Hr & Hc & Hi & Hu & _).
  by exists s'.
Qed.

(** C21: kfree of an address that is not page aligned, below the heap or not
    below the stored bound panics and changes nothing.  An address it accepts
    that is a page of RAM and not free becomes the head of the list, and RAM
    outside of that page is unchanged; where the stored bound also lets an
    address pass behind which there is no memory, kfree ends in the page fault
    of its first write. *)
Theorem kfree_spec s v l :
  kmem_ready s -> kmem_inv s l -> 0 <= v < 4294967296 -> v ∉ l ->
  (~ accepts s v -> kfree v s = (Panic "kfree", s)) /\
  (accepts s v -> v + PGSIZE <= ram_end ->
     exists s', kfree v s = (Ok tt, s') /\ kmem_inv s' (v :: l) /\ alloc_frame s s' /\
       same_outside v (mem s) (mem s')) /\
  (accepts s v -> ~ kspace v 1 -> kfree v s = page_fault v s).
Proof.
  intros Hr Hi Hv Hn. pose proof Hi as (_ & _ & _ & Hab). split_and!.
  - by apply kfree_panics.
  - intros Ha Hram. assert (heap_page s v) as Hp by by apply heap_page_accepts.
    destruct (kfree_frame s v l Hr Hi Hp Hn) as (s' & E & Hf & Hi' & Em).
    exists s'. split_and!; [done..|]. intros b Hb Ho. rewrite Em.
    destruct (heap_page_space s v Hab Hp) as [Hk _].
    unfold kspace, KERNBASE in *. apply mload8_free_out; lia || done.
  - intros Ha Hk. apply kfree_faults; [|done|done]. destruct Hab as [Hab _], Ha as (_ & Ha & _).
    unfold KERNBASE in *. lia.
Qed.

(** Dump_freelist returns and only prints; the number of free frames it
    reports is one less than the length of the list (and 0 for the empty
    list), because its walk stops on the last frame without counting it. *)
Theorem dump_freelist_undercounts s l :
  cons_ready s -> kmem_inv s l ->
  dump_walk (freelist (kmem s)) s
    = (Ok (default KMEM_SENTINEL (last l), Z.of_nat (pred (length l))), s) /\
  exists s', dump_freelist s = (Ok tt, s') /\ quiet s s' /\ kmem_inv s' l.
Proof.
  intros Hc Hi. split; [by apply dump_walk_ok|].
  destruct (dump_freelist_ok s l Hc Hi) as (s' & E & Q). exists s'.
  split_and!; [done|done|by apply (kmem_inv_quiet s)].
Qed.

(** Kinit2 stores the virtual address [vend] in kheap_end, which kfree
    compares with a physical address: afterwards kfree refuses no aligned
    kernel address from the heap start on, and one past the end of memory
    faults instead of being reported. *)
Theorem kfree_upper_bound_void s vstart vend l v :
  kmem_ready s -> lock_free KMEM_LOCK s -> cons_ready s -> kmem_inv s l ->
  kheap_start (kmem s) <= vstart -> vstart <= PGROUNDUP vstart <= vend -> vend < 0xfffff000 -> vend <= ram_end ->
  Forall (fun x => x < vstart) l -> vend <= v < 4294967296 -> v mod PGSIZE = 0 -> ~ kspace v 1 ->
  exists s', kinit2 vstart vend s = (Ok tt, s') /\ kfree v s' = page_fault v s'.
Proof.
  intros H1 H2 H3 H4 H5 H6 H7 Hram H8 Hv Hal Hk. pose proof H4 as (_ & _ & _ & Ha & _).
  destruct (kinit2_ok s vstart vend l H1 H2 H3 H4 H5 H6 H7 Hram H8) as (s' & E & _ & _ & _ & _ & He & Hs & _).
  exists s'. split; [done|]. apply kfree_faults; [unfold KERNBASE in *; lia| |done].
  unfold accepts. rewrite Hs, He, V2P_kernel; unfold KERNBASE in *; lia.
Qed.
End Properties.

(** *** Witnesses *)

(** Two free pages, 0x80201000 and 0x80200000. *)
Definition demo_heap : machine :=
  let m := mstore32 (mstore32 ∅ 0x80201000 0x80200000) 0x80200000 0x80109a38 in
  set_mem m (set_kmem (mkKmem zero_lock 0 0x80201000 0x8010b2c0 0x07fe0000) demo_machine).
Definition demo_pages : list Z := [0x80201000; 0x80200000].

Lemma demo_kmem_inv : kmem_inv (env:=demo_env) demo_heap demo_pages.
Proof.
  split_and!.
  - vm_compute. done.
  - apply (bool_decide_unpack _). vm_compute. done.
  - repeat (apply Forall_cons; split); [| |done]; vm_compute; done.
  - vm_compute. done.
Qed.
Lemma demo_kmem_ready : kmem_ready demo_heap.
Proof. split; [split; vm_compute; done|by left]. Qed.

Lemma heap_conserved_witness :
  exists l, kmem_inv (env:=demo_env) demo_heap l /\ [] ++ l ≡ₚ demo_pages.
Proof.
  apply (heap_conserved (env:=demo_env) demo_heap demo_pages demo_heap []);
    [exact demo_kmem_ready|exact demo_kmem_inv|apply rtc_refl].
Defined.

Lemma kinit1_frees_witness :
  exists s', kinit1 (env:=demo_env) 0x8010b2c0 0x80400000 demo_machine = (Ok tt, s') /\ kmem_ready s' /\
    kmem_inv (env:=demo_env) s' (rev (page_range 0x8010c000 (npages 0x8010b2c0 0x80400000))).
Proof.
  apply (kinit1_frees (env:=demo_env) demo_machine 0x8010b2c0 0x80400000); vm_compute; done.
Defined.

Lemma kinit2_frees_witness :
  exists s', kinit2 (env:=demo_env) 0x80400000 0x87fe0000 demo_heap = (Ok tt, s') /\ kmem_ready s' /\
    cons_ready s' /\ use_lock (kmem s') = 1 /\
    kmem_inv (env:=demo_env) s' (rev (page_range 0x80400000 (npages 0x80400000 0x87fe0000)) ++ demo_pages).
Proof.
  apply (kinit2_frees (env:=demo_env) demo_heap 0x80400000 0x87fe0000 demo_pages);
    [exact demo_kmem_ready|done|exact demo_cons_ready|exact demo_kmem_inv|vm_compute; done..|].
  repeat (apply Forall_cons; split); [| |done]; vm_compute; done.
Defined.

Lemma kfree_spec_witness :
  kfree (env:=demo_env) 0x80100000 demo_heap = (Panic "kfree", demo_heap) /\
  exists s', kfree (env:=demo_env) 0x80300000 demo_heap = (Ok tt, s') /\
    kmem_inv (env:=demo_env) s' [0x80300000; 0x80201000; 0x80200000].
Proof.
  split.
  - apply (kfree_spec (env:=demo_env) demo_heap 0x80100000 demo_pages demo_kmem_ready demo_kmem_inv);
      [lia|apply (bool_decide_unpack _); vm_compute; done|].
    intros (_ & [Hp _] & _). vm_compute in Hp. by apply Hp.
  - destruct (kfree_spec (env:=demo_env) demo_heap 0x80300000 demo_pages demo_kmem_ready demo_kmem_inv)
      as (_ & H & _); [lia|apply (bool_decide_unpack _); vm_compute; done|].
    destruct H as (s' & E & Hi & _); [vm_compute; done..|]. exists s'. split; [exact E|exact Hi].
Defined.

Lemma dump_freelist_undercounts_witness :
  dump_walk (env:=demo_env) (freelist (kmem demo_heap)) demo_heap = (Ok (0x80200000, 1), demo_heap).
Proof.
  apply (dump_freelist_undercounts (env:=demo_env) demo_heap demo_pages);
    [exact demo_cons_ready|exact demo_kmem_inv].
Defined.

Lemma kfree_upper_bound_void_witness :
  exists s', kinit2 (env:=demo_env) 0x80400000 0x87fe0000 demo_heap = (Ok tt, s') /\
    kfree (env:=demo_env) 0xC0000000 s' = page_fault 0xC0000000 s'.
Proof.
  apply (kfree_upper_bound_void (env:=demo_env) demo_heap 0x80400000 0x87fe0000 demo_pages);
    [exact demo_kmem_ready|done|exact demo_cons_ready|exact demo_kmem_inv|vm_compute; done..| |lia|done|].
  - repeat (apply Forall_cons; split); [| |done]; vm_compute; done.
  - intros (_ & _ & [H|[_ H]]); vm_compute in H; by apply H.
Defined.
