(* ===== verification/Idt.v ===== *)
(** * Idt: the interrupt descriptor table and the handler table ([idt.c], [idt.h])

    Setting up the gates, registering handlers, and the layout of the
    interrupt state the stubs push.  The dispatcher [isr_handler] calls the
    handlers of the other components and is in [Trap]. *)

From S2P Require Import Prelude Machine Layout Spinlock Screen.

(** ** idt.h *)

Definition IDT_SIZE_MAX : Z := 256.
Definition IDT_INT_GPFLT : Z := 13.
Definition IDT_INT_PGFLT : Z := 14.
Definition IDT_IRQ_BASE : Z := 32.
Definition IDT_IRQ_TIMER : Z := 0.
Definition IDT_IRQ_KEYBOARD : Z := 1.
Definition IDT_IRQ_COM1 : Z := 4.
Definition IDT_IRQ_IDE1 : Z := 14.
Definition IDT_IRQ_SIZE_MAX : Z := 48.
Definition IDT_TRAP_SYSCALL : Z := 64.

Definition IDT_DESCRIPTOR_X32_INTERRUPT : Z := 0x0E.
Definition IDT_DESCRIPTOR_X32_TRAP : Z := 0x0F.
Definition IDT_DESCRIPTOR_RING3 : Z := 0x60.
Definition IDT_DESCRIPTOR_PRESENT : Z := 0x80.
Definition IDT_DESCRIPTOR_EXCEPTION : Z := IDT_DESCRIPTOR_X32_INTERRUPT .| IDT_DESCRIPTOR_PRESENT.
Definition IDT_DESCRIPTOR_EXTERNAL : Z := IDT_DESCRIPTOR_X32_INTERRUPT .| IDT_DESCRIPTOR_PRESENT.
Definition IDT_DESCRIPTOR_CALL : Z :=
  IDT_DESCRIPTOR_X32_TRAP .| IDT_DESCRIPTOR_PRESENT .| IDT_DESCRIPTOR_RING3.

(** gdt.h: the index of the kernel code segment. *)
Definition SEG_KCODE : Z := 1.

(** [struct interrupt_state] lives on a kernel stack: the byte offsets of its
    fields. *)
Definition st_ds : Z := 0.
Definition st_edi : Z := 4.
Definition st_esi : Z := 8.
Definition st_ebp : Z := 12.
Definition st_useless : Z := 16.
Definition st_ebx : Z := 20.
Definition st_edx : Z := 24.
Definition st_ecx : Z := 28.
Definition st_eax : Z := 32.
Definition st_int_no : Z := 36.
Definition st_err_code : Z := 40.
Definition st_eip : Z := 44.
Definition st_cs : Z := 48.
Definition st_eflags : Z := 52.
Definition st_esp : Z := 56.
Definition st_ss : Z := 60.
Definition sizeof_interrupt_state : Z := 64.

(** ** idt.c *)

Definition upd_irq (f : irq_t -> irq_t) (s : machine) : machine := set_irq (f (irq s)) s.

Definition idt_set_descriptor (idx base selector flags : Z) : K unit :=
  modify (upd_irq (fun q =>
    set_idt (<[Z.to_nat idx := mkIdtEntry (wrap16 (base & 0xffff)) (wrap16 selector) 0 (wrap8 flags)
                                (wrap16 ((base >> 16) & 0xFFFF))]> (idt q)) q)).

(** [for (uint8_t vector = v; vector < v + n; vector++) idt_set_descriptor(...)] *)
Fixpoint idt_set_range `{env : Env} (v : Z) (n : nat) (flags : Z) : K unit :=
  match n with
  | O => mret tt
  | S n' =>
      _ ← idt_set_descriptor v (sym_isr_stub_table v) (SEG_KCODE << 3) flags;
      idt_set_range (v + 1) n' flags
  end.

Section WithEnv.
Context `{env : Env}.

Definition isr_register (int_no : Z) (handler : isr_fn) : K unit :=
  let int_no := wrap8 int_no in
  t ← gets (fun s => isr_table (irq s));
  match t !! Z.to_nat int_no with
  | Some (Some _) =>
      cprintf (Some "isr: handler already registered for interrupt # %d") [AW int_no]
  | _ => modify (upd_irq (fun q => set_isr_table (<[Z.to_nat int_no := Some handler]> (isr_table q)) q))
  end.

Definition idt_init : K unit :=
  _ ← idt_set_range 0 (Z.to_nat IDT_IRQ_BASE) IDT_DESCRIPTOR_EXCEPTION;
  _ ← idt_set_range IDT_IRQ_BASE (Z.to_nat (IDT_IRQ_SIZE_MAX - IDT_IRQ_BASE)) IDT_DESCRIPTOR_EXTERNAL;
  _ ← idt_set_descriptor IDT_TRAP_SYSCALL (sym_isr_stub_table IDT_TRAP_SYSCALL) (SEG_KCODE << 3)
        IDT_DESCRIPTOR_CALL;
  modify (fun s => set_cpu_regs (set_idtr (wrap16 (8 * IDT_SIZE_MAX - 1), sym_idt) (cpu_regs s)) s).

End WithEnv.

(** ** What the gates say *)

(** The processor's reading of a gate. *)
Definition gate_base (e : idt_entry) : Z := idt_base_lo e + 65536 * idt_base_hi e.
Definition gate_present (e : idt_entry) : bool := Z.testbit (idt_type_attr e) 7.
Definition gate_dpl (e : idt_entry) : Z := (idt_type_attr e >> 5) & 3.

(** Vectors 0 to 47 are interrupt gates of the kernel, vector 64 is a trap gate
    user code may call, the others are not present. *)
Definition gate_spec `{env : Env} (v : nat) : idt_entry :=
  let base := sym_isr_stub_table (Z.of_nat v) in
  let mk attr := mkIdtEntry (wrap16 (base & 0xffff)) 8 0 attr (wrap16 ((base >> 16) & 0xFFFF)) in
  if (v <? 48)%nat then mk 0x8E else if (v =? 64)%nat then mk 0xEF else zero_idt_entry.

Lemma gate_base_split b :
  0 <= b < 4294967296 -> wrap16 (b & 0xffff) + 65536 * wrap16 ((b >> 16) & 0xFFFF) = b.
Proof.
  intros Hb. rewrite !land_0xffff, Z.shiftr_div_pow2 by lia. change (2 ^ 16) with 65536. ulia.
Qed.

Section Props.
Context `{env : Env}.

Lemma idt_set_range_ok v n flags s :
  0 <= v ->
  idt_set_range v n flags s =
    (Ok tt, upd_irq (set_idt (foldl (fun t i =>
       <[i := mkIdtEntry (wrap16 (sym_isr_stub_table (Z.of_nat i) & 0xffff)) 8 0 (wrap8 flags)
               (wrap16 ((sym_isr_stub_table (Z.of_nat i) >> 16) & 0xFFFF))]> t)
       (idt (irq s)) (seq (Z.to_nat v) n))) s).
Proof.
  revert v s. induction n as [|n IH]; intros v s Hv; simpl.
  - unfold mret, M_ret. destruct s as [? ? ? ? ? ? ? ? ? q]. by destruct q.
  - unfold idt_set_descriptor. mstep. rewrite IH by lia.
    replace (Z.to_nat (v + 1)) with (S (Z.to_nat v)) by lia. simpl.
    rewrite !Z2Nat.id by lia. done.
Qed.

(** The handler table has an entry per vector. *)
Definition isr_table_wf (s : machine) : Prop := length (isr_table (irq s)) = 256%nat.

Lemma isr_register_new s n h :
  isr_table (irq s) !! Z.to_nat (wrap8 n) = Some None ->
  isr_register n h s =
    (Ok tt, upd_irq (set_isr_table (<[Z.to_nat (wrap8 n) := Some h]> (isr_table (irq s)))) s).
Proof. intros H. unfold isr_register. mstep. by rewrite H. Qed.

(** C25: idt_init makes exactly the vectors 0 to 47 and 64 present.  Each of
    them leads to its stub through the kernel code segment; only the system
    call gate may be called from user mode and leaves interrupts enabled
    (trap gate), all others disable them (interrupt gate). *)
Theorem idt_init_gates s :
  idt (irq s) = replicate 256 zero_idt_entry ->
  (forall v, 0 <= v < 256 -> 0 <= sym_isr_stub_table v < 4294967296) ->
  exists s', idt_init s = (Ok tt, s') /\ idtr (cpu_regs s') = (2047, sym_idt) /\
    forall v, (v < 256)%nat -> exists e, idt (irq s') !! v = Some e /\
      gate_present e = bool_decide ((v < 48)%nat \/ v = 64%nat) /\
      (gate_present e = true ->
         gate_base e = sym_isr_stub_table (Z.of_nat v) /\ idt_selector e = 8 /\
         (gate_dpl e = 3 <-> v = 64%nat) /\ (idt_type_attr e & 0xF = 0xF <-> v = 64%nat)).
Proof.
  intros Hz Hstub. unfold idt_init, idt_set_descriptor.
  eexists. split.
  { erewrite bind_ok by by apply idt_set_range_ok. erewrite bind_ok by by apply idt_set_range_ok.
    reflexivity. }
  split; [reflexivity|]. intros v Hv.
  exists (gate_spec v). split.
  - cbn [irq set_cpu_regs set_irq upd_irq idt set_idt]. rewrite Hz.
    transitivity ((gate_spec <$> seq 0 256) !! v); [|by rewrite list_lookup_fmap, lookup_seq_lt].
    reflexivity.
  - unfold gate_spec, gate_present, gate_base, gate_dpl.
    destruct (Nat.ltb_spec v 48) as [H|H]; [|destruct (Nat.eqb_spec v 64) as [H'|H']].
    + split; [by rewrite bool_decide_true by lia|]. intros _. simpl.
      split_and!; [apply gate_base_split, Hstub; lia|done|split; [done|lia]..].
    + split; [by rewrite bool_decide_true by lia|]. intros _. simpl.
      split_and!; [apply gate_base_split, Hstub; lia|done..].
    + split; [by rewrite bool_decide_false by lia|]. done.
Qed.

(** Isr_register sets the handler of a vector that has none and leaves
    every other vector alone; for a vector that has one it prints a message
    and keeps the first handler. *)
Theorem isr_register_once s n h :
  isr_table_wf s -> cons_ready s -> 0 <= n < 256 ->
  exists s', isr_register n h s = (Ok tt, s') /\ isr_table_wf s' /\
    match isr_table (irq s) !! Z.to_nat n with
    | Some (Some _) => isr_table (irq s') = isr_table (irq s) /\ quiet s s'
    | _ => isr_table (irq s') !! Z.to_nat n = Some (Some h) /\
           forall i, i <> Z.to_nat n -> isr_table (irq s') !! i = isr_table (irq s) !! i
    end.
Proof.
  intros Hwf Hc Hn. unfold isr_table_wf in *.
  destruct (lookup_lt_is_Some_2 (isr_table (irq s)) (Z.to_nat n)) as [[h0|] E]; [lia| |].
  - unfold isr_register. mstep. rewrite wrap8_small, E by lia.
    destruct (cprintf_fits "isr: handler already registered for interrupt # %d" [AW n] s Hc eq_refl)
      as (s' & E' & Q). exists s'. split; [exact E'|]. by rewrite (quiet_irq s s' Q).
  - eexists. split; [apply isr_register_new; by rewrite wrap8_small by lia|].
    rewrite E, wrap8_small by lia. simpl. split; [by rewrite length_insert|].
    split; [apply list_lookup_insert_eq; lia|]. intros i Hi. by apply list_lookup_insert_ne.
Qed.
End Props.

(** *** Witnesses *)

Lemma idt_init_gates_witness :
  exists s', idt_init (env:=demo_env) demo_machine = (Ok tt, s') /\
    forall v, (v < 256)%nat -> exists e, idt (irq s') !! v = Some e /\
      gate_present e = bool_decide ((v < 48)%nat \/ v = 64%nat).
Proof.
  destruct (idt_init_gates (env:=demo_env) demo_machine) as (s' & E & _ & H); [reflexivity|simpl; lia|].
  exists s'. split; [exact E|]. intros v Hv. destruct (H v Hv) as (e & He & Hp & _). by exists e.
Defined.

Lemma isr_register_once_witness :
  exists s', isr_register (env:=demo_env) 14 page_fault_handler_fn demo_machine = (Ok tt, s') /\
    isr_table (irq s') !! 14%nat = Some (Some page_fault_handler_fn).
Proof.
  destruct (isr_register_once (env:=demo_env) demo_machine 14 page_fault_handler_fn)
    as (s' & E & _ & H & _); [reflexivity|exact demo_cons_ready|lia|].
  by exists s'.
Defined.
