(* ===== verification/Gdt.v ===== *)
(** * Gdt: segment descriptors and per-processor data ([gdt.c], [gdt.h], [cpu.c])

    Encoding of segment descriptors, the flat segments of the kernel, and the
    table of processors filled from the ACPI data. *)

From S2P Require Import Prelude Machine Layout Spinlock Uart Screen Idt.

(** ** gdt.h *)

Definition SEG_KDATA : Z := 2.
Definition SEG_UCODE : Z := 3.
Definition SEG_UDATA : Z := 4.
Definition SEG_TSS : Z := 5.
Definition SEG_PRESENT : Z := 0x80.
Definition SEG_RING0 : Z := 0.
Definition SEG_RING3 : Z := 0x60.
Definition SEG_APP : Z := 0x10.
Definition SEG_CODE : Z := 0x08.
Definition SEG_RW : Z := 0x02.
Definition SEG_TSS32_AVAIL : Z := 0x09.
Definition DPL_USER : Z := 3.
Definition SEG_32BIT : Z := 0x40.
Definition SEG_4K : Z := 0x80.
Definition NSEGS : Z := 6.
Definition sizeof_segdesc : Z := 8.

(** ** gdt.c *)

(** The descriptor [gdt_set_entry] writes; [access] and [flags] are bytes. *)
Definition make_segdesc (base limit access flags : Z) : segdesc :=
  let g := negb ((flags & SEG_4K) =? 0) in
  mkSegdesc (wrap16 ((if g then limit >> 12 else limit) & 0xffff))
            (wrap16 (base & 0xffff))
            (wrap8 ((base >> 16) & 0xff))
            (wrap8 access)
            (wrap8 ((if g then limit >> 28 else limit >> 16) .| (flags & 0xf0)))
            (wrap8 (base >> 24)).

(** [gdt_set_entry(&cpus[0].gdt[i], ...)] *)
Definition gdt_set_entry (i base limit access flags : Z) : K unit :=
  modify (upd_cpu0 (fun c =>
    set_cpu_gdt (<[Z.to_nat i := make_segdesc base limit access flags]> (cpu_gdt c)) c)).

Section WithEnv.
Context `{env : Env}.

Definition protection_fault_handler (state : Z) : K unit :=
  selector ← load32 (state + st_err_code);
  eip ← load32 (state + st_eip);
  _ ← warn ("Caught protection fault {" +:+ nl +:+
            "  eip = 0x%x" +:+ nl +:+
            "  external: %d" +:+ nl +:+
            "  table:    %d" +:+ nl +:+
            "  index:    %d" +:+ nl +:+
            "}") [AW eip; AW (selector & 1); AW ((selector >> 1) & 0x3); AW ((selector >> 3) & 0x1FFF)];
  raise_panic "protection fault not handled!".

Definition gdt_init : K unit :=
  _ ← isr_register IDT_INT_GPFLT protection_fault_handler_fn;
  _ ← gdt_set_entry SEG_KCODE 0 0xffffffff (SEG_APP .| SEG_CODE .| SEG_RING0 .| SEG_RW .| SEG_PRESENT)
        (SEG_32BIT .| SEG_4K);
  _ ← gdt_set_entry SEG_KDATA 0 0xffffffff (SEG_APP .| SEG_RING0 .| SEG_RW .| SEG_PRESENT)
        (SEG_32BIT .| SEG_4K);
  _ ← gdt_set_entry SEG_UCODE 0 0xffffffff (SEG_APP .| SEG_CODE .| SEG_RING3 .| SEG_RW .| SEG_PRESENT)
        (SEG_32BIT .| SEG_4K);
  _ ← gdt_set_entry SEG_UDATA 0 0xffffffff (SEG_APP .| SEG_RING3 .| SEG_RW .| SEG_PRESENT)
        (SEG_32BIT .| SEG_4K);
  modify (fun s => set_cpu_regs (set_gdtr (wrap16 (sizeof_segdesc * NSEGS), sym_cpu0_gdt) (cpu_regs s)) s).

(** ** cpu.c *)

(** Writes the APIC id of processor [i]; [cpus] has MAX_CPUS = 16 elements. *)
Definition set_cpu_apicid (i : Z) (a : Z) : K unit :=
  if (0 <=? i) && (i <? 16) then
    modify (fun s =>
      if i =? 0 then upd_cpu0 (set_apicid a) s
      else set_cpus_ap (alter (set_apicid a) (Z.to_nat (i - 1)) (cpus_ap s)) s)
  else undef "cpus[i]".

(** [for (int i = 0; i < acpi_info.num_cpus; ++i) cpus[i].apicid = ...], [n]
    rounds from [i] on. *)
Fixpoint cpu_init_loop (i : Z) (n : nat) : K unit :=
  match n with
  | O => mret tt
  | S n' =>
      cpu ← gets (fun s => acpi_cpu (acpi_info (drv s)));
      match cpu !! Z.to_nat i with
      | Some (_, apic) => _ ← set_cpu_apicid i apic; cpu_init_loop (i + 1) n'
      | None => undef "acpi_info.cpu[i]"
      end
  end.

Definition cpu_init : K unit :=
  n ← gets (fun s => num_cpus (acpi_info (drv s)));
  _ ← cprintf (Some ("CPUS: %d" +:+ nl)) [AW n];
  cpu_init_loop 0 (Z.to_nat n).

End WithEnv.

(** ** What a descriptor says *)

(** The processor's reading of a descriptor (Intel SDM 3.4.5). *)
Definition seg_base (d : segdesc) : Z := base_lo d + 65536 * base_mi d + 16777216 * base_hi d.
Definition seg_limit (d : segdesc) : Z :=
  let l := limit_lo d + 65536 * (flags d mod 16) in
  if Z.testbit (flags d) 7 then l * 4096 + 4095 else l.
Definition seg_present (d : segdesc) : bool := Z.testbit (access d) 7.
Definition seg_dpl (d : segdesc) : Z := (access d >> 5) & 3.
Definition seg_code (d : segdesc) : bool := Z.testbit (access d) 3.
Definition seg_system (d : segdesc) : bool := negb (Z.testbit (access d) 4).

Lemma lor_nibble h f :
  0 <= h < 16 -> 0 <= f < 256 -> wrap8 (h .| (f & 0xf0)) = h + (f - f mod 16) /\
  Z.testbit (h + (f - f mod 16)) 7 = Z.testbit f 7.
Proof.
  intros Hh Hf. assert (f & 0xf0 = f - f mod 16) as E.
  { assert (f & 0xff = f) as Ef by (rewrite land_0xff; lia). rewrite <- Ef at 1.
    rewrite <- Z.land_assoc. change (0xff & 0xf0) with (Z.ldiff 0xff 0xf).
    change 0xf with (Z.ones 4). rewrite <- (ldiff_ones_mod 4) by lia.
    rewrite <- Ef at 2. apply Z.bits_inj'. intros i Hi. rewrite ?Z.land_spec, ?Z.ldiff_spec, ?Z.land_spec.
    by destruct (Z.testbit f i), (Z.testbit 0xff i). }
  assert (h .| (f - f mod 16) = h + (f - f mod 16)) as El.
  { rewrite Z.lor_comm, (lor_disjoint_add _ h 4); change (2 ^ 4) with 16; lia. }
  split; [rewrite E, El; ulia|].
  rewrite <- El, <- E, Z.lor_spec, Z.land_spec. change (Z.testbit 0xf0 7) with true.
  rewrite andb_true_r. by rewrite (testbit_small h 7) by (simpl; lia).
Qed.

(** The descriptor gives back the base, and the limit up to the granularity. *)
Lemma make_segdesc_ok base limit access flags :
  0 <= base < 4294967296 -> 0 <= limit < 4294967296 -> 0 <= access < 256 -> 0 <= flags < 256 ->
  (Z.testbit flags 7 = false -> limit < 0x100000) ->
  let d := make_segdesc base limit access flags in
  seg_base d = base /\ Machine.access d = access /\
  seg_limit d = if Z.testbit flags 7 then limit - limit mod 4096 + 4095 else limit.
Proof.
  intros Hb Hl Ha Hf Hg d. subst d. unfold seg_base, seg_limit, make_segdesc; cbn [base_lo base_mi base_hi
    Machine.access limit_lo Machine.flags]. unfold SEG_4K. change 0x80 with (2 ^ 7).
  rewrite land_pow2_eqb, negb_involutive, !land_0xffff, land_0xff by lia. rewrite !Z.shiftr_div_pow2 by lia.
  change (2 ^ 16) with 65536. change (2 ^ 24) with 16777216. change (2 ^ 12) with 4096.
  change (2 ^ 28) with 268435456.
  split_and!; [ulia|ulia|]. destruct (Z.testbit flags 7) eqn:E.
  - destruct (lor_nibble (limit / 268435456) flags) as [-> ->]; [lia|done|]. rewrite E.
    unfold wrap16. lia.
  - specialize (Hg eq_refl). destruct (lor_nibble (limit / 65536) flags) as [-> ->]; [lia|done|].
    rewrite E. unfold wrap16. lia.
Qed.

Section Props.
Context `{env : Env}.

(** C35: the descriptors gdt_set_entry writes decode, the way the processor
    reads them, to the base it was given and to the limit it was given (rounded
    up to the granularity when SEG_4K is set), with its access byte unchanged;
    the other descriptors are untouched. *)
Theorem gdt_set_entry_decodes i base limit access flags s :
  0 <= i < NSEGS -> length (cpu_gdt (cpu0 s)) = 6%nat ->
  0 <= base < 4294967296 -> 0 <= limit < 4294967296 -> 0 <= access < 256 -> 0 <= flags < 256 ->
  (Z.testbit flags 7 = false -> limit < 0x100000) ->
  exists s' d, gdt_set_entry i base limit access flags s = (Ok tt, s') /\
    cpu_gdt (cpu0 s') !! Z.to_nat i = Some d /\
    seg_base d = base /\ Machine.access d = access /\
    seg_limit d = (if Z.testbit flags 7 then limit - limit mod 4096 + 4095 else limit) /\
    forall j, j <> Z.to_nat i -> cpu_gdt (cpu0 s') !! j = cpu_gdt (cpu0 s) !! j.
Proof.
  intros Hi Hlen Hb Hl Ha Hf Hg. destruct (make_segdesc_ok base limit access flags Hb Hl Ha Hf Hg) as (H1 & H2 & H3).
  eexists _, (make_segdesc base limit access flags). split; [reflexivity|]. split_and!; try done; simpl.
  - apply list_lookup_insert_eq. unfold NSEGS in Hi. lia.
  - intros j Hj. by apply list_lookup_insert_ne.
Qed.

(** C34: gdt_init gives flat 4 GB code and data segments to the kernel
    (privilege 0) and to user code (privilege 3), registers the protection
    fault handler, and points the processor at the table; the limit it loads is
    the size of the table, one more than the last valid offset. *)
Theorem gdt_init_flat s :
  length (cpu_gdt (cpu0 s)) = 6%nat -> isr_table (irq s) !! 13%nat = Some None ->
  exists s', gdt_init s = (Ok tt, s') /\
    isr_table (irq s') !! 13%nat = Some (Some protection_fault_handler_fn) /\
    gdtr (cpu_regs s') = (48, sym_cpu0_gdt) /\
    forall i, (1 <= i <= 4)%nat -> exists d, cpu_gdt (cpu0 s') !! i = Some d /\
      seg_base d = 0 /\ seg_limit d = 0xffffffff /\ seg_present d = true /\ seg_system d = false /\
      seg_code d = Nat.odd i /\ seg_dpl d = (if decide (i <= 2)%nat then 0 else 3).
Proof.
  intros Hlen Hisr. unfold gdt_init. eexists. split.
  { erewrite bind_ok by (apply isr_register_new; exact Hisr). reflexivity. }
  cbn. split; [apply list_lookup_insert_eq; by eapply lookup_lt_Some|]. split; [done|].
  destruct (cpu_gdt (cpu0 s)) as [|d0 [|d1 [|d2 [|d3 [|d4 [|d5 [|]]]]]]]; try done.
  intros i Hi. assert (i = 1 \/ i = 2 \/ i = 3 \/ i = 4)%nat as [->|[->|[->| ->]]] by lia;
    (eexists; split; [reflexivity|]; vm_compute; done).
Qed.
End Props.

(** *** Witnesses *)

Lemma gdt_set_entry_decodes_witness :
  exists s' d, gdt_set_entry SEG_TSS 0x80109008 103 0x89 0 demo_machine = (Ok tt, s') /\
    cpu_gdt (cpu0 s') !! 5%nat = Some d /\ seg_base d = 0x80109008 /\ seg_limit d = 103.
Proof.
  destruct (gdt_set_entry_decodes SEG_TSS 0x80109008 103 0x89 0 demo_machine)
    as (s' & d & E & H1 & H2 & _ & H3 & _); [by vm_compute|reflexivity|lia..|by intros|].
  exists s', d. by split_and!.
Defined.

Lemma gdt_init_flat_witness :
  exists s', gdt_init (env:=demo_env) demo_machine = (Ok tt, s') /\
    gdtr (cpu_regs s') = (48, 0x80109070).
Proof.
  destruct (gdt_init_flat (env:=demo_env) demo_machine) as (s' & E & _ & H & _); [reflexivity|reflexivity|].
  exists s'. split; [exact E|exact H].
Defined.
