(* ===== verification/Pic.v ===== *)
(** * Pic: the interrupt controllers and the timer ([pic.c], [drivers/timer.c])

    Both are driven by port writes only; the theorems give the exact sequence
    of port accesses. *)

From S2P Require Import Prelude Machine Layout Spinlock Uart Screen Idt.

(** ** pic.h *)

Definition IO_PORT_PIC1_COMMAND : Z := 0x20.
Definition IO_PORT_PIC1_DATA : Z := 0x21.
Definition IO_PORT_PIC2_COMMAND : Z := 0xA0.
Definition IO_PORT_PIC2_DATA : Z := 0xA1.
Definition PIC_EOI : Z := 0x20.
Definition ICW1_ICW4 : Z := 0x01.
Definition ICW1_INIT : Z := 0x10.
Definition ICW4_8086 : Z := 0x01.
Definition PIC1_INTERRUPT_START : Z := 0x20.
Definition PIC2_INTERRUPT_START : Z := 0x28.
Definition PIC_INT_TIMER : Z := 0.
Definition PIC_INT_KEYBOARD : Z := 1.

(** drivers/timer.h and drivers/timer.c *)
Definition TIMER_FREQ_BASE_HZ : Z := 1193182.
Definition TIMER_FREQ_HZ : Z := 100.
Definition IO_PORT_TIMER_DATA0 : Z := 0x40.
Definition IO_PORT_TIMER_CMD : Z := 0x43.

Definition upd_drv (f : drv_t -> drv_t) (s : machine) : machine := set_drv (f (drv s)) s.

Section WithEnv.
Context `{env : Env}.

(** ** pic.c *)

Definition pic_send_eoi (irq : Z) : K unit :=
  _ ← when (8 <=? irq) (outb IO_PORT_PIC2_COMMAND PIC_EOI);
  outb IO_PORT_PIC1_COMMAND PIC_EOI.

Definition pic_enable_irq_line (numirq : Z) : K unit :=
  let port := if numirq <? 8 then IO_PORT_PIC1_DATA else IO_PORT_PIC2_DATA in
  let numirq := if numirq <? 8 then numirq else numirq - 8 in
  mask ← inb port;
  outb port (Z.ldiff mask (1 << numirq)).

Definition pic_disable_irq_line (numirq : Z) : K unit :=
  let port := if numirq <? 8 then IO_PORT_PIC1_DATA else IO_PORT_PIC2_DATA in
  let numirq := if numirq <? 8 then numirq else numirq - 8 in
  mask ← inb port;
  outb port (mask .| (1 << numirq)).

Definition pic_init : K unit :=
  mask1 ← inb IO_PORT_PIC1_DATA;
  mask2 ← inb IO_PORT_PIC2_DATA;
  _ ← outb IO_PORT_PIC1_COMMAND (ICW1_INIT .| ICW1_ICW4);
  _ ← outb IO_PORT_PIC2_COMMAND (ICW1_INIT .| ICW1_ICW4);
  _ ← outb IO_PORT_PIC1_DATA PIC1_INTERRUPT_START;
  _ ← outb IO_PORT_PIC2_DATA PIC2_INTERRUPT_START;
  _ ← outb IO_PORT_PIC1_DATA 4;
  _ ← outb IO_PORT_PIC2_DATA 2;
  _ ← outb IO_PORT_PIC1_DATA ICW4_8086;
  _ ← outb IO_PORT_PIC2_DATA ICW4_8086;
  _ ← outb IO_PORT_PIC1_DATA mask1;
  _ ← outb IO_PORT_PIC2_DATA mask2;
  pic_disable_irq_line PIC_INT_TIMER.

(** ** drivers/timer.c *)

Definition timer_interrupt_handler (state : Z) : K unit :=
  modify (upd_drv (fun d => set_ticks (wrap64 (ticks d + 1)) d)).

Definition timer_init : K unit :=
  _ ← isr_register (IDT_IRQ_BASE + IDT_IRQ_TIMER) timer_interrupt_handler_fn;
  let divisor := wrap16 (TIMER_FREQ_BASE_HZ / TIMER_FREQ_HZ) in
  _ ← outb IO_PORT_TIMER_CMD 0x34;
  _ ← outb IO_PORT_TIMER_DATA0 (wrap8 (divisor & 0xFF));
  _ ← outb IO_PORT_TIMER_DATA0 (wrap8 ((divisor >> 8) & 0xFF));
  pic_enable_irq_line PIC_INT_TIMER.

(** ** The lines of the two controllers *)

(** The data port and the bit of an interrupt line. *)
Definition line_port (n : Z) : Z := if n <? 8 then 0x21 else 0xA1.
Definition line_bit (n : Z) : Z := if n <? 8 then n else n - 8.

Lemma ldiff_bit_byte m k : 0 <= k < 8 -> 0 <= m < 256 -> wrap8 (Z.ldiff m (1 << k)) = Z.ldiff m (1 << k).
Proof.
  intros Hk Hm. apply Z.mod_small.
  assert (Z.ldiff m (1 << k) = Z.ldiff m (1 << k) & 0xff) as ->; [|rewrite land_0xff; lia].
  assert (m = m & 0xff) as Em by (rewrite land_0xff; lia).
  apply Z.bits_inj'. intros i Hi. rewrite Z.land_spec, Z.ldiff_spec. rewrite Em, Z.land_spec.
  by destruct (Z.testbit m i), (Z.testbit 0xff i), (Z.testbit (1 << k) i).
Qed.
Lemma lor_bit_byte m k : 0 <= k < 8 -> 0 <= m < 256 -> wrap8 (m .| (1 << k)) = m .| (1 << k).
Proof.
  intros Hk Hm. apply Z.mod_small. rewrite Z.shiftl_1_l.
  split; [apply Z.lor_nonneg; lia|]. change 256 with (2 ^ 8).
  assert (2 ^ k < 2 ^ 8) by (apply Z.pow_lt_mono_r; lia).
  destruct (decide (m .| 2 ^ k = 0)) as [->|Hne]; [lia|].
  apply Z.log2_lt_pow2; [pose proof (Z.lor_nonneg m (2 ^ k)); lia|].
  rewrite Z.log2_lor by lia. destruct (decide (m = 0)) as [->|]; [simpl; rewrite Z.log2_pow2; lia|].
  apply Z.max_lub_lt; apply Z.log2_lt_pow2; simpl in *; lia.
Qed.

Lemma pic_line_ok n s :
  0 <= n < 16 ->
  let m := wrap8 (dev_in (io s) (line_port n)) in
  pic_enable_irq_line n s
    = (Ok tt, set_io (Out8 (line_port n) (Z.clearbit m (line_bit n)) :: In8 (line_port n) m :: io s) s) /\
  pic_disable_irq_line n s
    = (Ok tt, set_io (Out8 (line_port n) (Z.setbit m (line_bit n)) :: In8 (line_port n) m :: io s) s).
Proof.
  intros Hn m. assert (0 <= line_bit n < 8) as Hb by (unfold line_bit; destruct (Z.ltb_spec n 8); lia).
  pose proof (wrap8_range (dev_in (io s) (line_port n))) as Hm. fold m in Hm.
  unfold pic_enable_irq_line, pic_disable_irq_line. fold (line_port n) (line_bit n).
  unfold inb, outb. unfold mbind, M_bind, modify. fold m. cbv zeta.
  split; (f_equal; unfold push_io, set_io; cbn [io]; repeat f_equal);
    rewrite ?ldiff_bit_byte, ?lor_bit_byte by done; done.
Qed.

(** Enabling (disabling) an interrupt line reads the mask register of the
    controller the line belongs to and writes it back with exactly that line's
    bit cleared (set); nothing else in the machine changes. *)
Theorem pic_line_masks n s :
  0 <= n < 16 ->
  let m := wrap8 (dev_in (io s) (line_port n)) in
  pic_enable_irq_line n s
    = (Ok tt, set_io (Out8 (line_port n) (Z.clearbit m (line_bit n)) :: In8 (line_port n) m :: io s) s) /\
  pic_disable_irq_line n s
    = (Ok tt, set_io (Out8 (line_port n) (Z.setbit m (line_bit n)) :: In8 (line_port n) m :: io s) s).
Proof. apply pic_line_ok. Qed.

(** C37: pic_init reads both masks, then sends the four initialisation words to
    both controllers in order (vectors 32 to 39 for the first, 40 to 47 for the
    second, cascade on line 2, 8086 mode), restores the masks and masks the
    timer line; timer_init then programs counter 0 with the command byte 0x34 -
    mode 2, the rate generator, low byte first, as the comment at that line of
    timer.c says (not mode 3 and 0x36, as the comment of the function and
    doc/6.4.2 say) - and the divisor 1193182 / 100 = 11931, and unmasks the
    line. *)
Theorem pic_timer_init_trace s :
  isr_table (irq s) !! 32%nat = Some None ->
  exists m1 m2 m3 m4 s', (_ ← pic_init; timer_init) s = (Ok tt, s') /\
    isr_table (irq s') !! 32%nat = Some (Some timer_interrupt_handler_fn) /\
    io s' = rev [In8 0x21 m1; In8 0xA1 m2;
                 Out8 0x20 0x11; Out8 0xA0 0x11; Out8 0x21 0x20; Out8 0xA1 0x28;
                 Out8 0x21 4; Out8 0xA1 2; Out8 0x21 1; Out8 0xA1 1;
                 Out8 0x21 m1; Out8 0xA1 m2; In8 0x21 m3; Out8 0x21 (Z.setbit m3 0);
                 Out8 0x43 0x34; Out8 0x40 (11931 mod 256); Out8 0x40 (11931 / 256);
                 In8 0x21 m4; Out8 0x21 (Z.clearbit m4 0)] ++ io s.
Proof.
  intros Hisr. unfold pic_init. eexists _, _, _, _, _. split.
  { unfold mbind at 1, M_bind at 1. unfold inb at 1. unfold mbind at 1, M_bind at 1. unfold inb at 1.
    unfold mbind at 1, M_bind at 1. unfold outb. rewrite !bind_modify.
    rewrite (proj2 (pic_line_ok PIC_INT_TIMER _ ltac:(done))). unfold timer_init, outb.
    erewrite bind_ok by (apply isr_register_new; exact Hisr). rewrite !bind_modify.
    rewrite (proj1 (pic_line_ok PIC_INT_TIMER _ ltac:(done))). reflexivity. }
  split; [apply list_lookup_insert_eq; by eapply lookup_lt_Some|].
  cbn [io set_io push_io upd_irq set_irq]. rewrite !(wrap8_small (wrap8 _)) by apply wrap8_range. reflexivity.
Qed.

End WithEnv.

(** *** Witnesses *)

Lemma pic_line_masks_witness :
  pic_enable_irq_line (env:=demo_env) 14 demo_machine
    = (Ok tt, set_io [Out8 0xA1 0; In8 0xA1 0] demo_machine).
Proof. exact (proj1 (pic_line_masks (env:=demo_env) 14 demo_machine ltac:(lia))). Defined.

Lemma pic_timer_init_trace_witness :
  exists s', (_ ← pic_init (env:=demo_env); timer_init (env:=demo_env)) demo_machine = (Ok tt, s') /\
    isr_table (irq s') !! 32%nat = Some (Some timer_interrupt_handler_fn).
Proof.
  destruct (pic_timer_init_trace (env:=demo_env) demo_machine) as (m1 & m2 & m3 & m4 & s' & E & H & _);
    [reflexivity|]. exists s'. split; [exact E|exact H].
Defined.
