(* ===== verification/Ioapic.v ===== *)
(** * Ioapic: the I/O interrupt controller and the set-up of the serial port
    ([drivers/ioapic.c], [uartinit] of [drivers/uart.c])

    The registers of the controller are memory-mapped in the device space, and
    accesses to them are device accesses, not RAM accesses.  The specification
    half reads the accesses back the way the controller does. *)

From S2P Require Import Prelude Machine Layout Cstring Spinlock Uart Screen Kalloc Idt Pic.

Definition REG_ID : Z := 0x00.
Definition REG_VER : Z := 0x01.
Definition REG_TABLE : Z := 0x10.
Definition INT_DISABLED : Z := 0x00010000.

(** [struct ioapic]: the offsets of [reg] and [data]. *)
Definition ioapic_reg : Z := 0.
Definition ioapic_data : Z := 16.

Section WithEnv.
Context `{env : Env}.

(** Reads and writes of a device register. *)
Definition mmio_read (a : Z) : K Z := fun s =>
  let v := wrap32 (dev_mmio (io s) a) in (Ok v, push_io (MmioRead a v) s).
Definition mmio_write (a v : Z) : K unit := modify (push_io (MmioWrite a (wrap32 v))).

Definition ioapicread (reg : Z) : K Z :=
  p ← gets (fun s => ioapic (drv s));
  _ ← mmio_write (p + ioapic_reg) reg;
  mmio_read (p + ioapic_data).

Definition ioapicwrite (reg data : Z) : K unit :=
  p ← gets (fun s => ioapic (drv s));
  _ ← mmio_write (p + ioapic_reg) reg;
  mmio_write (p + ioapic_data) data.

(** The loop of [ioapicinit] from entry [i] on, [n] rounds left. *)
Fixpoint ioapicinit_loop (i : Z) (n : nat) : K unit :=
  match n with
  | O => mret tt
  | S n' =>
      _ ← ioapicwrite (REG_TABLE + 2 * i) (INT_DISABLED .| (IDT_IRQ_BASE + i));
      _ ← ioapicwrite (REG_TABLE + 2 * i + 1) 0;
      ioapicinit_loop (i + 1) n'
  end.

Definition ioapicinit : K unit :=
  info ← gets (fun s => acpi_info (drv s));
  _ ← kassert (num_ioapic info =? 1) "ioapicinit" "kernel/drivers/ioapic.c" 54;
  match acpi_ioapic info with
  | [] => undef "acpi_info.ioapic[0]"
  | (acpi_id, addr, _) :: _ =>
      _ ← modify (upd_drv (set_ioapic addr));
      v ← ioapicread REG_VER;
      let maxintr := (v >> 16) & 0xFF in
      v ← ioapicread REG_ID;
      let id := v >> 24 in
      _ ← cprintf (Some ("IOAPIC: ioapic_id=%d, acpi_ioapicid=%d, address=0x%p, maxintr=%d" +:+ nl))
            [AW id; AW acpi_id; AW addr; AW maxintr];
      _ ← when (negb (id =? acpi_id)) (cprintf (Some ("ioapicinit: id isn't equal to ioapicid; not a MP" +:+ nl)) []);
      ioapicinit_loop 0 (S (Z.to_nat maxintr))
  end.

Definition ioapicenable (irq cpunum : Z) : K unit :=
  _ ← ioapicwrite (REG_TABLE + 2 * irq) (IDT_IRQ_BASE + irq);
  ioapicwrite (REG_TABLE + 2 * irq + 1) (cpunum << 24).

(** [for (p = "xv6...\n"; *p; p++) uartputc( *p);] *)
Fixpoint uart_puts (l : list Z) : K unit :=
  match l with
  | [] => mret tt
  | c :: l' => _ ← uartputc c; uart_puts l'
  end.

Definition uartinit : K unit :=
  _ ← isr_register (IDT_IRQ_BASE + IDT_IRQ_COM1) com1_interrupt_handler_fn;
  _ ← outb (COM1 + 2) 0;
  _ ← outb (COM1 + 3) 0x80;
  _ ← outb (COM1 + 0) (115200 / 9600);
  _ ← outb (COM1 + 1) 0;
  _ ← outb (COM1 + 3) 0x03;
  _ ← outb (COM1 + 4) 0;
  _ ← outb (COM1 + 1) 0x01;
  st ← inb (COM1 + 5);
  if st =? 0xFF then mret tt else
  _ ← modify (upd_drv (set_uart 1));
  _ ← inb (COM1 + 2);
  _ ← inb (COM1 + 0);
  _ ← ioapicenable IDT_IRQ_COM1 0;
  uart_puts (bytes_of ("xv6..." +:+ nl)).

End WithEnv.

(** ** The controller's side *)

(** The selected register and the contents of the registers written so far. *)
Definition apic_step (base : Z) (c : Z * gmap Z Z) (e : ioev) : Z * gmap Z Z :=
  match e with
  | MmioWrite a v =>
      if a =? base then (v, c.2) else if a =? base + 16 then (c.1, <[c.1 := v]> c.2) else c
  | _ => c
  end.
Definition apic_run (base : Z) (c : Z * gmap Z Z) (h : list ioev) : Z * gmap Z Z := foldl (apic_step base) c (rev h).

Lemma apic_run_app base c h1 h2 : apic_run base c (h1 ++ h2) = apic_run base (apic_run base c h2) h1.
Proof. unfold apic_run. by rewrite rev_app_distr, foldl_app. Qed.

(** Port accesses say nothing to the controller. *)
Definition not_mmio (e : ioev) : Prop := match e with MmioWrite _ _ => False | _ => True end.
Lemma apic_run_quiet base c h : Forall not_mmio h -> apic_run base c h = c.
Proof.
  intros H. apply Forall_rev in H. unfold apic_run. revert H. generalize (rev h) as l. intros l. revert c.
  induction l as [|e l IH]; intros c Hl; [done|]. apply Forall_cons in Hl as [He Hl]. simpl.
  rewrite IH by done. by destruct e.
Qed.

Section Spec.
Context `{env : Env}.

(** One register write, seen from the controller. *)
Lemma ioapicwrite_ok reg data s :
  let p := ioapic (drv s) in
  0 <= reg < 4294967296 -> 0 <= data < 4294967296 ->
  ioapicwrite reg data s = (Ok tt, set_io ([MmioWrite (p + 16) data; MmioWrite p reg] ++ io s) s) /\
  forall c, (apic_run p c [MmioWrite (p + 16) data; MmioWrite p reg]).2 = <[reg := data]> c.2.
Proof.
  intros p Hr Hd. split.
  - unfold ioapicwrite, mmio_write, ioapic_reg, ioapic_data. mstep. fold p. rewrite Z.add_0_r, !wrap32_small by lia. done.
  - intros c. unfold apic_run. cbn. rewrite Z.eqb_refl. destruct (Z.eqb_spec (p + 16) p); [lia|].
    by rewrite Z.eqb_refl.
Qed.

Lemma ioapicenable_ok irq cpunum s :
  0 <= irq < 256 -> 0 <= cpunum < 256 -> let p := ioapic (drv s) in
  exists h, ioapicenable irq cpunum s = (Ok tt, set_io (h ++ io s) s) /\
    forall c, (apic_run p c h).2 = <[17 + 2 * irq := cpunum * 16777216]> (<[16 + 2 * irq := 32 + irq]> c.2).
Proof.
  intros Hi Hc p. unfold ioapicenable, REG_TABLE, IDT_IRQ_BASE. rewrite Z.shiftl_mul_pow2 by lia. change (2 ^ 24) with 16777216.
  destruct (ioapicwrite_ok (16 + 2 * irq) (32 + irq) s) as [E1 A1]; [lia|lia|].
  rewrite (bind_ok _ _ _ _ _ E1). set (s1 := set_io _ s).
  destruct (ioapicwrite_ok (16 + 2 * irq + 1) (cpunum * 16777216) s1) as [E2 A2]; [lia|lia|]. rewrite E2.
  exists ([MmioWrite (p + 16) (cpunum * 16777216); MmioWrite p (16 + 2 * irq + 1)] ++
    [MmioWrite (p + 16) (32 + irq); MmioWrite p (16 + 2 * irq)]).
  split; [done|]. intros c. rewrite apic_run_app.
  change (ioapic (drv s1)) with p in A2. fold p in A1. rewrite A2, A1. by replace (16 + 2 * irq + 1) with (17 + 2 * irq) by lia.
Qed.

(** The redirection entries [i], ..., [i + n - 1] disabled and not routed. *)
Fixpoint disabled_entries (i : Z) (n : nat) (m : gmap Z Z) : gmap Z Z :=
  match n with
  | O => m
  | S n' => disabled_entries (i + 1) n' (<[17 + 2 * i := 0]> (<[16 + 2 * i := INT_DISABLED .| (32 + i)]> m))
  end.

Lemma disabled_lookup i n m r :
  0 <= i -> disabled_entries i n m !! r =
    if decide (16 + 2 * i <= r < 16 + 2 * (i + Z.of_nat n)) then
      Some (if Z.even r then INT_DISABLED .| (32 + (r - 16) / 2) else 0)
    else m !! r.
Proof.
  revert i m. induction n as [|n IH]; intros i m Hi; cbn [disabled_entries]; [by rewrite decide_False by lia|].
  rewrite IH by lia. destruct (decide (r = 16 + 2 * i)) as [->|H0].
  - rewrite decide_False, decide_True, lookup_insert_ne, lookup_insert_eq by lia.
    replace (Z.even (16 + 2 * i)) with true by (symmetry; apply Z.even_spec; exists (8 + i); lia).
    do 3 f_equal. lia.
  - destruct (decide (r = 17 + 2 * i)) as [->|H1].
    + rewrite decide_False, decide_True, lookup_insert_eq by lia.
      assert (Z.even (17 + 2 * i) = false) as ->; [|done].
      rewrite <- Z.negb_odd. replace (Z.odd (17 + 2 * i)) with true; [done|]. symmetry. apply Z.odd_spec. exists (8 + i). lia.
    + rewrite !lookup_insert_ne by lia. repeat case_decide; try done; lia.
Qed.

Lemma ioapicinit_loop_ok i n s :
  0 <= i -> i + Z.of_nat n <= 256 -> let p := ioapic (drv s) in
  exists h, ioapicinit_loop i n s = (Ok tt, set_io (h ++ io s) s) /\
    forall c, (apic_run p c h).2 = disabled_entries i n c.2.
Proof.
  revert i s. induction n as [|n IH]; intros i s Hi Hn p; [exists []; split; [by destruct s|done]|].
  cbn [ioapicinit_loop]. unfold REG_TABLE, IDT_IRQ_BASE.
  assert (0 <= INT_DISABLED .| (32 + i) < 4294967296) as Hb.
  { assert (0 <= INT_DISABLED .| (32 + i)) as H0 by (apply Z.lor_nonneg; split; [done|lia]). split; [done|].
    assert (INT_DISABLED .| (32 + i) <> 0) as H1 by (intros [H _]%Z.lor_eq_0_iff; done).
    change 4294967296 with (2 ^ 32). apply Z.log2_lt_pow2; [lia|].
    rewrite Z.log2_lor by (done || lia). apply Z.max_lub_lt; [done|]. apply Z.log2_lt_pow2; lia. }
  destruct (ioapicwrite_ok (16 + 2 * i) (INT_DISABLED .| (32 + i)) s) as [E1 A1]; [lia|done|].
  rewrite (bind_ok _ _ _ _ _ E1). set (s1 := set_io _ s).
  destruct (ioapicwrite_ok (16 + 2 * i + 1) 0 s1) as [E2 A2]; [lia|lia|]. rewrite (bind_ok _ _ _ _ _ E2).
  set (s2 := set_io _ s1). destruct (IH (i + 1) s2) as (h & E3 & A3); [lia|lia|]. rewrite E3.
  exists (h ++ [MmioWrite (p + 16) 0; MmioWrite p (16 + 2 * i + 1)] ++
    [MmioWrite (p + 16) (INT_DISABLED .| (32 + i)); MmioWrite p (16 + 2 * i)]).
  split; [by rewrite <- app_assoc|]. intros c. rewrite !apic_run_app.
  change (ioapic (drv s2)) with p in A3. change (ioapic (drv s1)) with p in A2. fold p in A1.
  rewrite A3, A2, A1. cbn [disabled_entries]. by replace (16 + 2 * i + 1) with (17 + 2 * i) by lia.
Qed.
End Spec.

(** ** Printing makes port accesses only *)

Definition ports_only (s s' : machine) : Prop := exists h, io s' = h ++ io s /\ Forall not_mmio h.

#[export] Instance ports_only_preorder : PreOrder ports_only.
Proof.
  split; [intros s; by exists []|]. intros s1 s2 s3 (h1 & E1 & H1) (h2 & E2 & H2). exists (h2 ++ h1).
  rewrite E2, E1, <- app_assoc. split; [done|]. by apply Forall_app.
Qed.

Create HintDb ports.

Section Ports.
Context `{env : Env}.

Lemma inb_ports p : keeps ports_only (inb p).
Proof. intros s. eexists [_]. split; [reflexivity|]. by repeat constructor. Qed.
Lemma outb_ports p v : keeps ports_only (outb p v).
Proof. intros s. eexists [_]. split; [reflexivity|]. by repeat constructor. Qed.
Lemma page_fault_ports {A} a : keeps ports_only (page_fault (A:=A) a).
Proof. intros s. unfold page_fault. destruct (_ !! 14%nat) as [[[]|]|]; by exists []. Qed.
Lemma load8_ports a : keeps ports_only (load8 a).
Proof. intros s. unfold load8. destruct (xlate s a false); [by exists []|apply page_fault_ports]. Qed.
Lemma store8_ports a v : keeps ports_only (store8 a v).
Proof. intros s. unfold store8. destruct (xlate s a true); [by exists []|apply page_fault_ports]. Qed.
#[local] Hint Resolve inb_ports outb_ports load8_ports store8_ports : ports.

Ltac ports := repeat (intros; lazymatch goal with
  | |- keeps _ (mbind _ _) => apply keeps_bind; [apply _|..]
  | |- keeps _ (mret _) => apply keeps_ret, _
  | |- keeps _ (gets _) => apply keeps_gets, _
  | |- keeps _ (if ?b then _ else _) => destruct b
  | |- _ => solve [auto with ports nocore]
  end).

Lemma uart_wait_ports n : keeps ports_only (uart_wait n).
Proof. induction n; simpl; ports. Qed.
#[local] Hint Resolve uart_wait_ports : ports.
Lemma uartputc_ports c : keeps ports_only (uartputc c).
Proof. unfold uartputc. ports. Qed.
Lemma memcpy_loop_ports d a n : keeps ports_only (memcpy_loop d a n).
Proof. revert d a. induction n; intros; simpl; ports. Qed.
#[local] Hint Resolve uartputc_ports memcpy_loop_ports : ports.
Lemma memcpy_ports d a n : keeps ports_only (memcpy d a n).
Proof. unfold memcpy. ports. Qed.
#[local] Hint Resolve memcpy_ports : ports.
Lemma scroll_rows_ports i n : keeps ports_only (scroll_rows i n).
Proof. revert i. induction n; intros; cbn [scroll_rows]; ports. Qed.
Lemma blank_line_ports a i n : keeps ports_only (blank_line a i n).
Proof. revert i. induction n; intros; cbn [blank_line]; ports. Qed.
#[local] Hint Resolve scroll_rows_ports blank_line_ports : ports.
Lemma handle_scrolling_ports o : keeps ports_only (handle_scrolling o).
Proof. unfold handle_scrolling. ports. Qed.
#[local] Hint Resolve handle_scrolling_ports : ports.
Lemma print_char_ports c col row a : keeps ports_only (print_char c col row a).
Proof. unfold print_char, get_cursor, set_cursor. cbv zeta. ports. Qed.
#[local] Hint Resolve print_char_ports : ports.
Lemma consputc_ports c : keeps ports_only (consputc c).
Proof. unfold consputc. ports. Qed.
#[local] Hint Resolve consputc_ports : ports.
Lemma put_all_ports l : keeps ports_only (put_all l).
Proof. induction l; cbn [put_all]; ports. Qed.

Lemma cprintf_ports f args s :
  cons_ready s -> fits (bytes_of f) args = true ->
  exists s', cprintf (Some f) args s = (Ok tt, s') /\ quiet s s' /\ ports_only s s'.
Proof.
  intros Hc [l Hr]%fits_render. destruct (cprintf_printed f args l s Hc Hr) as (s' & E & t & Et & _ & Ei & Q & _).
  exists s'. split; [done|]. split; [done|].
  pose proof (put_all_ports l (if locking (cons s) =? 0 then s else acquired CONS_LOCK s)) as H. rewrite Et in H.
  destruct H as (h & E' & Hh). exists h. split; [|done]. rewrite Ei. simpl in E'. rewrite E'.
  by destruct (locking (cons s) =? 0).
Qed.
End Ports.

Section Properties.
Context `{env : Env}.

Lemma ioapicread_ok reg s :
  let p := ioapic (drv s) in let v := wrap32 (dev_mmio (MmioWrite p reg :: io s) (p + 16)) in
  0 <= reg < 4294967296 ->
  ioapicread reg s = (Ok v, set_io ([MmioRead (p + 16) v; MmioWrite p reg] ++ io s) s).
Proof.
  intros p v Hr. unfold ioapicread, mmio_write, mmio_read, ioapic_reg, ioapic_data. mstep. fold p.
  rewrite Z.add_0_r, (wrap32_small reg) by lia. done.
Qed.

(** The messages of [ioapicinit]. *)
Lemma ioapic_messages s id acpi_id addr maxintr :
  cons_ready s -> exists s1 s',
  cprintf (Some ("IOAPIC: ioapic_id=%d, acpi_ioapicid=%d, address=0x%p, maxintr=%d" +:+ nl))
    [AW id; AW acpi_id; AW addr; AW maxintr] s = (Ok tt, s1) /\
  when (negb (id =? acpi_id)) (cprintf (Some ("ioapicinit: id isn't equal to ioapicid; not a MP" +:+ nl)) []) s1
  = (Ok tt, s') /\ quiet s s' /\ ports_only s s'.
Proof.
  intros Hc. destruct (cprintf_ports ("IOAPIC: ioapic_id=%d, acpi_ioapicid=%d, address=0x%p, maxintr=%d" +:+ nl)
    [AW id; AW acpi_id; AW addr; AW maxintr] s Hc eq_refl) as (s1 & E1 & Q1 & P1). exists s1.
  destruct (negb _); simpl when; [|by exists s1].
  destruct (cprintf_ports ("ioapicinit: id isn't equal to ioapicid; not a MP" +:+ nl) [] s1
    (quiet_cons_ready _ _ Q1 Hc) eq_refl) as (s2 & E2 & Q2 & P2). exists s2. split; [done|]. split; [done|]. split; by etrans.
Qed.

(** C36: with the one controller the ACPI tables list, ioapicinit returns, and
    from then on every redirection entry the controller has is disabled, carries
    the vector 32 plus its number and is routed to no processor; ioapicenable
    then makes exactly one entry enabled and routed to the given processor. *)
Theorem ioapic_programs s id addr base rest :
  cons_ready s -> num_ioapic (acpi_info (drv s)) = 1 ->
  acpi_ioapic (acpi_info (drv s)) = (id, addr, base) :: rest ->
  let maxintr := (wrap32 (dev_mmio (MmioWrite addr 1 :: io s) (addr + 16)) >> 16) & 0xff in
  exists h s', ioapicinit s = (Ok tt, s') /\ io s' = h ++ io s /\ ioapic (drv s') = addr /\
    (forall i, 0 <= i <= maxintr -> let t := (apic_run addr (0, ∅) h).2 in
      t !! (16 + 2 * i) = Some (INT_DISABLED .| (32 + i)) /\ t !! (17 + 2 * i) = Some 0) /\
    forall irq cpunum, 0 <= irq < 256 -> 0 <= cpunum < 256 ->
      exists h' s'', ioapicenable irq cpunum s' = (Ok tt, s'') /\ io s'' = h' ++ io s' /\
        (apic_run addr (0, ∅) (h' ++ h)).2 = <[17 + 2 * irq := cpunum * 16777216]>
          (<[16 + 2 * irq := 32 + irq]> (apic_run addr (0, ∅) h).2).
Proof.
  intros Hc Hn Ha maxintr. unfold ioapicinit, REG_VER, REG_ID. mstep. rewrite Hn, Ha. unfold kassert. cbn [Z.eqb Pos.eqb]. mstep.
  set (s1 := upd_drv (set_ioapic addr) s).
  rewrite (bind_ok _ _ _ _ _ (ioapicread_ok 1 s1 ltac:(done))). cbv zeta.
  change (ioapic (drv s1)) with addr. change (io s1) with (io s). fold maxintr. set (s2 := set_io _ s1).
  rewrite (bind_ok _ _ _ _ _ (ioapicread_ok 0 s2 ltac:(done))). cbv zeta.
  change (ioapic (drv s2)) with addr. set (v2 := wrap32 (dev_mmio (MmioWrite addr 0 :: io s2) (addr + 16))). set (s3 := set_io _ s2).
  destruct (ioapic_messages s3 (v2 >> 24) id addr maxintr Hc) as (s3' & s4 & E3 & E4 & Q4 & hm & Ei & Hm).
  rewrite (bind_ok _ _ _ _ _ E3), (bind_ok _ _ _ _ _ E4).
  assert (0 <= maxintr < 256) as Hmax.
  { subst maxintr. change 0xff with (Z.ones 8). rewrite Z.land_ones by lia. apply Z.mod_pos_bound. lia. }
  assert (ioapic (drv s4) = addr) as Hd by exact (f_equal (fun s => ioapic (drv s)) (proj1 Q4)).
  destruct (ioapicinit_loop_ok 0 (S (Z.to_nat maxintr)) s4) as (hl & El & Al); [lia|lia|]. rewrite Hd in Al.
  set (h := hl ++ hm ++ [MmioRead (addr + 16) v2; MmioWrite addr 0;
    MmioRead (addr + 16) (wrap32 (dev_mmio (MmioWrite addr 1 :: io s) (addr + 16))); MmioWrite addr 1]).
  exists h, (set_io (hl ++ io s4) s4). split; [exact El|]. split.
  { cbn [io set_io]. rewrite Ei. subst h. by rewrite <- !app_assoc. }
  split; [exact Hd|]. split.
  - intros i Hi. subst h. cbv zeta. rewrite apic_run_app, Al, !disabled_lookup, !decide_True by lia.
    replace (Z.even (16 + 2 * i)) with true by (symmetry; apply Z.even_spec; exists (8 + i); lia).
    replace (Z.even (17 + 2 * i)) with false
      by (symmetry; rewrite <- Z.negb_odd; apply negb_false_iff, Z.odd_spec; exists (8 + i); lia).
    split; [|done]. do 3 f_equal. lia.
  - intros irq cpunum Hirq Hcpu. destruct (ioapicenable_ok irq cpunum (set_io (hl ++ io s4) s4)) as (h' & E' & A');
      [done|done|]. exists h', (set_io (h' ++ hl ++ io s4) (set_io (hl ++ io s4) s4)). split; [exact E'|]. split; [done|].
    cbn [drv set_io] in A'. rewrite Hd in A'. rewrite apic_run_app. apply A'.
Qed.
End Properties.

(** *** Witnesses *)

(** A machine with one controller, at the usual address. *)
Definition demo_apic : machine :=
  upd_drv (set_acpi_info (mkAcpiInfo 1 [(1, 0)] 1 [(0, 0xfec00000, 0)] (replicate 256 0))) demo_machine.

Lemma ioapic_programs_witness :
  exists s', ioapicinit (env:=demo_env) demo_apic = (Ok tt, s') /\ ioapic (drv s') = 0xfec00000.
Proof.
  destruct (ioapic_programs (env:=demo_env) demo_apic 0 0xfec00000 0 []) as (h & s' & E & _ & H & _).
  - exact demo_cons_ready.
  - reflexivity.
  - reflexivity.
  - exists s'. split; [exact E|exact H].
Defined.
