(* ===== verification/Acpi.v ===== *)
(** * Acpi: the ACPI tables ([drivers/acpi.c], [drivers/acpi.h])

    The tables are bytes of RAM left by the firmware; the structures of the
    source are their offsets.  The specification half gives a table as the list
    of its entries and relates it to its bytes. *)

From S2P Require Import Prelude Machine Layout Cstring Spinlock Uart Screen Kalloc Idt Pic.

Definition MAX_CPUS : Z := 16.
Definition MAX_IOAPIC : Z := 4.
Definition ACPI_RSDP_CHECKSUM_LENGTH : Z := 20.
Definition MADT_CPU : Z := 0.
Definition MADT_IOAPIC : Z := 1.
Definition MADT_INT : Z := 2.
Definition RSDP_SIGNATURE : string := "RSD PTR ".
Definition MADT_SIGNATURE : string := "APIC".

(** [struct rsdp] *)
Definition rsdp_revision : Z := 15.
Definition rsdp_rsdt : Z := 16.
Definition rsdp_xsdt : Z := 24.
(** [struct sdt] *)
Definition sdt_len : Z := 4.
Definition sdt_data : Z := 36.
Definition sizeof_sdt : Z := 36.
(** [struct madt] *)
Definition madt_lic_address : Z := 0.
Definition madt_data : Z := 8.
(** [struct madt_entry] *)
Definition me_type : Z := 0.
Definition me_len : Z := 1.
Definition lapic_id : Z := 2.
Definition lapic_apic : Z := 3.
Definition me_ioapic_id : Z := 2.
Definition me_ioapic_addr : Z := 4.
Definition me_ioapic_base : Z := 8.
Definition interrupt_source : Z := 3.
Definition interrupt_target : Z := 4.

Definition incptr (p n : Z) : Z := wrap32 (p + n).

Definition upd_info (f : acpi_info_t -> acpi_info_t) (s : machine) : machine :=
  upd_drv (fun d => set_acpi_info (f (acpi_info d)) d) s.

Section WithEnv.
Context `{env : Env}.

Definition load16 (a : Z) : K Z := lo ← load8 a; hi ← load8 (a + 1); mret (lo + 256 * hi).
Definition load64 (a : Z) : K Z := lo ← load32 a; hi ← load32 (a + 4); mret (lo + 4294967296 * hi).

(** [memcmp] (lib/string.c) of the memory at [p] with a string constant, of
    which [l] are the bytes left; [b1] and [b2] hold the bytes read last. *)
Fixpoint memcmp_const (p b1 b2 : Z) (l : list Z) : K Z :=
  match l with
  | [] => mret (b1 - b2)
  | c2 :: l' =>
      c1 ← load8 p;
      if sext8 c1 =? sext8 c2 then memcmp_const (p + 1) (sext8 c1) (sext8 c2) l'
      else mret (sext8 c1 - sext8 c2)
  end.

(** 0 is the null pointer. *)
Definition scan_rsdp (start end_ : Z) : K Z :=
  loop 28 (fun p =>
    if negb (p <? P2V end_) then mret (inr 0) else
    r ← memcmp_const p 0 0 (bytes_of RSDP_SIGNATURE);
    if r =? 0 then mret (inr p) else
    mret (inl (incptr p 16))) (P2V start).

Definition find_rsdp : K Z :=
  w ← load16 (P2V 0x40e);
  let ebda := w << 4 in
  p ← scan_rsdp ebda (ebda + 1024);
  if negb (p =? 0) then mret p else
  p ← scan_rsdp 0xE0000 0xFFFFF;
  if negb (p =? 0) then mret p else
  mret 0.

(** The switch of [parse_madt] on the entry at [e].  A processor or controller
    past the end of its array has no meaning. *)
Definition parse_madt_entry (e : Z) : K unit :=
  type ← load8 (e + me_type);
  if type =? MADT_CPU then
    id ← load8 (e + lapic_id);
    if (id & 1) =? 0 then mret tt else
    i ← gets (fun s => num_cpus (acpi_info (drv s)));
    if (i <? 0) || (MAX_CPUS <=? i) then undef "acpi_info.cpu[i]" else
    apic ← load8 (e + lapic_apic);
    _ ← modify (upd_info (fun a => set_acpi_cpu (<[Z.to_nat i := (id, apic)]> (acpi_cpu a)) a));
    modify (upd_info (fun a => set_num_cpus (num_cpus a + 1) a))
  else if type =? MADT_IOAPIC then
    i ← gets (fun s => num_ioapic (acpi_info (drv s)));
    if (i <? 0) || (MAX_IOAPIC <=? i) then undef "acpi_info.ioapic[i]" else
    id ← load8 (e + me_ioapic_id);
    addr ← load32 (e + me_ioapic_addr);
    base ← load32 (e + me_ioapic_base);
    _ ← modify (upd_info (fun a => set_acpi_ioapic (<[Z.to_nat i := (id, addr, base)]> (acpi_ioapic a)) a));
    modify (upd_info (fun a => set_num_ioapic (num_ioapic a + 1) a))
  else if type =? MADT_INT then
    source ← load8 (e + interrupt_source);
    target ← load32 (e + interrupt_target);
    modify (upd_info (fun a => set_int_map (<[Z.to_nat source := target]> (int_map a)) a))
  else mret tt.

(** One round of the loop of [parse_madt]. *)
Definition parse_madt_step (end_ : Z) (e : Z) : K (Z + unit) :=
  if negb (e <? end_) then mret (inr tt) else
  len ← load8 (e + me_len);
  if len =? 0 then mret (inr tt) else
  _ ← parse_madt_entry e;
  len ← load8 (e + me_len);
  mret (inl (incptr e len)).

Definition parse_madt (madt len : Z) : K unit :=
  let end_ := madt +u len in
  lic ← load32 (madt + madt_lic_address);
  _ ← cprintf (Some ("Local Interrupt Controller: 0x%x" +:+ nl)) [AW lic];
  loop 32 (parse_madt_step end_) (madt + madt_data).

(** The loop of [parse_sdt] from entry [i] on, [n] rounds left. *)
Fixpoint parse_sdt_loop (sdt revision i : Z) (n : nat) : K unit :=
  match n with
  | O => mret tt
  | S n' =>
      v ← (if negb (revision =? 0) then load64 (sdt + sdt_data + 8 * i) else load32 (sdt + sdt_data + 4 * i));
      let table := P2V (wrap32 v) in
      r ← memcmp_const table 0 0 (bytes_of MADT_SIGNATURE);
      _ ← (if r =? 0 then
             len ← load32 (table + sdt_len);
             parse_madt (table + sdt_data) len
           else mret tt);
      parse_sdt_loop sdt revision (i + 1) n'
  end.

Definition parse_sdt (sdt revision : Z) : K unit :=
  len ← load32 (sdt + sdt_len);
  let entries := wrap32 (len - sizeof_sdt) / (if negb (revision =? 0) then 8 else 4) in
  parse_sdt_loop sdt revision 0 (Z.to_nat entries).

Definition compute_checksum (buffer length : Z) : K Z :=
  let end_ := buffer +u length in
  loop 32 (fun '(b, sum) =>
    if negb (b <? end_) then mret (inr sum) else
    v ← load8 b;
    mret (inl (b +u 1, wrap8 (sum + v)))) (buffer, 0).

Definition acpi_init : K unit :=
  rsdp ← find_rsdp;
  rev ← load8 (rsdp + rsdp_revision);
  v ← (if negb (rev =? 0) then load64 (rsdp + rsdp_xsdt) else load32 (rsdp + rsdp_rsdt));
  let s := P2V (wrap32 v) in
  sum ← compute_checksum rsdp ACPI_RSDP_CHECKSUM_LENGTH;
  if negb (sum =? 0) then warn "Invalid RSDP checksum" [] else
  rev ← load8 (rsdp + rsdp_revision);
  parse_sdt s rev.

End WithEnv.

(** ** Finding the root pointer *)

(** The signature is at [p]. *)
Definition signed_at (m : gmap Z Z) (p : Z) (l : list Z) : Prop :=
  forall i c, l !! i = Some c -> mload8 m (p + Z.of_nat i) = c.

Section Find.
Context `{env : Env}.

Lemma memcmp_const_ok p b1 b2 l s :
  kspace p (Z.of_nat (length l)) -> Forall (fun c => 0 <= c < 256) l -> b1 = b2 ->
  exists r, memcmp_const p b1 b2 l s = (Ok r, s) /\ (r = 0 <-> signed_at (mem s) p l).
Proof.
  revert p b1 b2. induction l as [|c l IH]; intros p b1 b2 Hk Hl ->; cbn [memcmp_const].
  - exists (b2 - b2). split; [done|]. split; [|lia]. intros _ i c Hi. by rewrite lookup_nil in Hi.
  - apply Forall_cons in Hl as [Hc Hl]. simpl in Hk.
    erewrite bind_ok by (apply load8_kernel; kspace_tac).
    pose proof (mload8_range (mem s) p) as Hr.
    destruct (Z.eqb_spec (sext8 (mload8 (mem s) p)) (sext8 c)) as [E|E].
    + destruct (IH (p + 1) (sext8 (mload8 (mem s) p)) (sext8 c)) as (r & -> & H); [kspace_tac|done|done|].
      exists r. split; [done|]. rewrite H. apply sext8_inj in E; [|done|done]. split.
      * intros Hs [|i] c' Hi; simpl in Hi; [injection Hi as <-; by rewrite Z.add_0_r|].
        rewrite <- (Hs i c' Hi). f_equal. lia.
      * intros Hs i c' Hi. rewrite <- (Hs (S i) c' Hi). f_equal. lia.
    + eexists. split; [done|]. split; [lia|]. intros Hs. destruct E. f_equal.
      specialize (Hs 0%nat c eq_refl). by rewrite Z.add_0_r in Hs.
Qed.

Lemma P2V_base a : 0 <= a < 0x80000000 -> P2V a = KERNBASE + a.
Proof. intros Ha. unfold P2V, KERNBASE. rewrite wrap32_small; lia. Qed.

Lemma scan_rsdp_ok start end_ s :
  0 <= start -> start <= end_ < 0x7fff0000 -> kspace (KERNBASE + start) (end_ - start + 8) ->
  exists p, scan_rsdp start end_ s = (Ok p, s) /\
    let sig := bytes_of RSDP_SIGNATURE in
    (p = 0 /\ forall k, 0 <= k -> start + 16 * k < end_ -> ~ signed_at (mem s) (KERNBASE + start + 16 * k) sig) \/
    (exists k, 0 <= k /\ start + 16 * k < end_ /\ p = KERNBASE + start + 16 * k /\ signed_at (mem s) p sig /\
       forall j, 0 <= j < k -> ~ signed_at (mem s) (KERNBASE + start + 16 * j) sig).
Proof.
  intros Hs He Hmem. unfold scan_rsdp. rewrite !P2V_base by lia. set (sig := bytes_of RSDP_SIGNATURE).
  assert (Forall (fun c => 0 <= c < 256) sig /\ length sig = 8%nat) as [Hb Hl] by (split; [repeat constructor|]; done).
  set (body := fun p => if negb (p <? KERNBASE + end_) then mret (inr 0) else
    r ← memcmp_const p 0 0 sig; if r =? 0 then mret (inr p) else mret (inl (incptr p 16))).
  set (none := fun k => forall j, 0 <= j < k -> ~ signed_at (mem s) (KERNBASE + start + 16 * j) sig).
  set (I := fun (n : nat) (p : Z) (st : machine) => st = s /\ exists k, 0 <= k /\ p = KERNBASE + start + 16 * k /\
    start + 16 * k < end_ + 16 /\ n = Z.to_nat ((end_ + 16 - (start + 16 * k)) / 16) /\ none k).
  set (Q := fun (r : result Z) (st : machine) => st = s /\ exists p, r = Ok p /\
    ((p = 0 /\ forall k, 0 <= k -> start + 16 * k < end_ -> ~ signed_at (mem s) (KERNBASE + start + 16 * k) sig) \/
     (exists k, 0 <= k /\ start + 16 * k < end_ /\ p = KERNBASE + start + 16 * k /\ signed_at (mem s) p sig /\ none k))).
  destruct (loop_inv_Z body I Q 28 (Z.to_nat ((end_ + 16 - start) / 16)) (KERNBASE + start) s) as (E2 & p & E1 & H).
  - intros n p st (-> & k & Hk & -> & Hlt & -> & Hn). unfold body.
    destruct (Z.ltb_spec (KERNBASE + start + 16 * k) (KERNBASE + end_)) as [Hin|Hout]; cbn [negb].
    + destruct (memcmp_const_ok (KERNBASE + start + 16 * k) 0 0 sig s) as (r & E & Hr);
        [rewrite Hl; kspace_tac|done|done|]. rewrite (bind_ok _ _ _ _ _ E). destruct (Z.eqb_spec r 0) as [E0|E0].
      * split; [done|]. eexists. split; [done|]. right. exists k. split_and!; try done; [lia|]. by apply Hr.
      * exists (Z.to_nat ((end_ + 16 - (start + 16 * (k + 1))) / 16)).
        assert ((end_ + 16 - (start + 16 * (k + 1))) / 16 = (end_ + 16 - (start + 16 * k)) / 16 - 1) as Hd by lia.
        split; [lia|]. split; [done|]. exists (k + 1). unfold incptr. rewrite wrap32_small by (unfold KERNBASE; lia).
        split; [lia|]. split; [lia|]. split; [lia|]. split; [done|]. intros j Hj.
        destruct (decide (j = k)) as [->|]; [by rewrite <- Hr|]. apply Hn. lia.
    + split; [done|]. exists 0. split; [done|]. left. split; [done|]. intros j Hj Hlt'. apply Hn. lia.
  - split; [done|]. exists 0. split; [lia|]. split; [lia|]. split; [lia|]. split; [do 2 f_equal; lia|]. intros j Hj. lia.
  - change (2 ^ Z.of_nat 28) with 268435456. lia.
  - exists p. split; [|exact H]. rewrite (surjective_pairing (loop _ _ _ _)). by rewrite E1, E2.
Qed.

(** C39: scan_rsdp over a range of memory always returns, without changing
    anything: the first address at a multiple of 16 from the start of the range
    on that holds the signature "RSD PTR ", or 0 when there is none. *)
Theorem scan_rsdp_first start end_ s :
  0 <= start -> start <= end_ < 0x7fff0000 -> kspace (KERNBASE + start) (end_ - start + 8) ->
  exists p, scan_rsdp start end_ s = (Ok p, s) /\
    let sig := bytes_of RSDP_SIGNATURE in
    (p = 0 /\ forall k, 0 <= k -> start + 16 * k < end_ -> ~ signed_at (mem s) (KERNBASE + start + 16 * k) sig) \/
    (exists k, 0 <= k /\ start + 16 * k < end_ /\ p = KERNBASE + start + 16 * k /\ signed_at (mem s) p sig /\
       forall j, 0 <= j < k -> ~ signed_at (mem s) (KERNBASE + start + 16 * j) sig).
Proof. apply scan_rsdp_ok. Qed.
End Find.

(** ** The comparison with a constant *)

Section Constants.
Context `{env : Env}.

Lemma memcmp_loop_const p c b1 b2 l s :
  kspace p (Z.of_nat (length l)) -> kspace c (Z.of_nat (length l)) -> signed_at (mem s) c l ->
  memcmp_loop p c b1 b2 (length l) s = memcmp_const p b1 b2 l s.
Proof.
  revert p c b1 b2. induction l as [|x l IH]; intros p c b1 b2 Hp Hc Hs; [done|]. cbn [length memcmp_loop memcmp_const].
  cbn [length] in Hp, Hc. assert (mload8 (mem s) c = x) as Hx.
  { specialize (Hs 0%nat x eq_refl). by rewrite Z.add_0_r in Hs. }
  do 3 erewrite bind_ok by (apply load8_kernel; kspace_tac). rewrite Hx.
  destruct (_ =? _); [|done]. apply IH; [kspace_tac|kspace_tac|].
  intros i y Hi. rewrite <- (Hs (S i) y Hi). f_equal. lia.
Qed.

(** The comparison against the list of a constant's bytes is [memcmp] of
    lib/string.c on the place [c] where the compiler put the constant. *)
Lemma memcmp_const_equiv p c l s :
  kspace p (Z.of_nat (length l)) -> kspace c (Z.of_nat (length l)) -> signed_at (mem s) c l ->
  memcmp p c (Z.of_nat (length l)) s = memcmp_const p 0 0 l s.
Proof. intros Hp Hc Hs. unfold memcmp. rewrite Nat2Z.id. by apply memcmp_loop_const. Qed.
End Constants.

(** ** Decoding the MADT *)

(** The descriptors of the ACPI specification the switch knows, and the others
    it skips. *)
Inductive madt_desc : Type :=
| Lapic (id apic flags : Z)
| Ioapic (id addr base : Z)
| Override (bus source target flags : Z)
| Unknown (type : Z) (body : list Z).

Definition le16 (v : Z) : list Z := [wrap8 v; wrap8 (v >> 8)].
Definition le32 (v : Z) : list Z := [wrap8 v; wrap8 (v >> 8); wrap8 (v >> 16); wrap8 (v >> 24)].

(** The bytes the firmware writes for a descriptor. *)
Definition encode (d : madt_desc) : list Z :=
  match d with
  | Lapic id apic flags => [MADT_CPU; 8; id; apic] ++ le32 flags
  | Ioapic id addr base => [MADT_IOAPIC; 12; id; 0] ++ le32 addr ++ le32 base
  | Override bus source target flags => [MADT_INT; 10; bus; source] ++ le32 target ++ le16 flags
  | Unknown type body => [type; Z.of_nat (length body) + 2] ++ body
  end.

Definition desc_wf (d : madt_desc) : Prop :=
  match d with
  | Lapic _ _ _ => True
  | Ioapic _ addr base => 0 <= addr < 4294967296 /\ 0 <= base < 4294967296
  | Override _ _ target _ => 0 <= target < 4294967296
  | Unknown type body => type <> MADT_CPU /\ type <> MADT_IOAPIC /\ type <> MADT_INT /\ (length body <= 253)%nat
  end.

(** What a descriptor adds to [acpi_info]; [None] when an array is full. *)
Definition enlist (d : madt_desc) (a : acpi_info_t) : option acpi_info_t :=
  match d with
  | Lapic id apic _ =>
      if Z.even id then Some a else
      if (num_cpus a <? 0) || (MAX_CPUS <=? num_cpus a) then None else
      Some (set_num_cpus (num_cpus a + 1) (set_acpi_cpu (<[Z.to_nat (num_cpus a) := (id, apic)]> (acpi_cpu a)) a))
  | Ioapic id addr base =>
      if (num_ioapic a <? 0) || (MAX_IOAPIC <=? num_ioapic a) then None else
      Some (set_num_ioapic (num_ioapic a + 1)
        (set_acpi_ioapic (<[Z.to_nat (num_ioapic a) := (id, addr, base)]> (acpi_ioapic a)) a))
  | Override _ source target _ => Some (set_int_map (<[Z.to_nat source := target]> (int_map a)) a)
  | Unknown _ _ => Some a
  end.
Fixpoint enlist_all (l : list madt_desc) (a : acpi_info_t) : option acpi_info_t :=
  match l with
  | [] => Some a
  | d :: l => a ← enlist d a; enlist_all l a
  end.

(** *** What the tables list *)

(** The processors with an odd ACPI id, the I/O APICs and the interrupt
    overrides that the descriptors list. *)
Definition odd_cpus (ds : list madt_desc) : list (Z * Z) :=
  omap (fun d => match d with Lapic id apic _ => if Z.odd id then Some (id, apic) else None | _ => None end) ds.
Definition ioapics (ds : list madt_desc) : list (Z * Z * Z) :=
  omap (fun d => match d with Ioapic id addr base => Some (id, addr, base) | _ => None end) ds.
Definition remap (im : list Z) (d : madt_desc) : list Z :=
  match d with Override _ source target _ => <[Z.to_nat source := target]> im | _ => im end.

(** [a] lists exactly the processors [cs], the I/O APICs [ios] and the map [im]
    of interrupts. *)
Record lists (a : acpi_info_t) (cs : list (Z * Z)) (ios : list (Z * Z * Z)) (im : list Z) : Prop := {
  ls_cpus : exists rest, acpi_cpu a = cs ++ rest;
  ls_num_cpus : num_cpus a = Z.of_nat (length cs);
  ls_cpu_len : length (acpi_cpu a) = 16%nat;
  ls_ioapics : exists rest, acpi_ioapic a = ios ++ rest;
  ls_num_ioapic : num_ioapic a = Z.of_nat (length ios);
  ls_ioapic_len : length (acpi_ioapic a) = 4%nat;
  ls_map : int_map a = im;
}.

Lemma insert_next {A} (l rest : list A) x :
  (length l < length (l ++ rest))%nat -> exists rest', <[length l := x]> (l ++ rest) = (l ++ [x]) ++ rest'.
Proof.
  rewrite length_app. destruct rest as [|y rest]; simpl; [lia|]. intros _. exists rest. rewrite <- app_assoc.
  rewrite <- (Nat.add_0_r (length l)), insert_app_r. done.
Qed.

Lemma enlist_lists d a cs ios im :
  lists a cs ios im -> (length (cs ++ odd_cpus [d]) <= 16)%nat -> (length (ios ++ ioapics [d]) <= 4)%nat ->
  exists a', enlist d a = Some a' /\ lists a' (cs ++ odd_cpus [d]) (ios ++ ioapics [d]) (remap im d).
Proof.
  intros [[rc Hc] Hnc Hlc [ri Hi] Hni Hli Hm] H1 H2. destruct d as [id apic fl|id addr b|bus src tgt fl|ty body];
    cbn in H1, H2 |- *; rewrite ?app_nil_r in *.
  - rewrite <- Z.negb_odd. destruct (Z.odd id); cbn [negb] in *; [|by exists a; rewrite ?app_nil_r; split; [|split; eauto]].
    rewrite length_app in H1. simpl in H1. rewrite Hnc. unfold MAX_CPUS. destruct (_ || _) eqn:E; [lia|].
    eexists. split; [done|]. destruct (insert_next cs rc (id, apic)) as [r' Er]; [rewrite <- Hc; lia|].
    split; cbn; [|rewrite length_app; simpl; lia|by rewrite length_insert|eauto|done|done|done].
    exists r'. by rewrite Nat2Z.id, Hc.
  - rewrite length_app in H2. simpl in H2. rewrite Hni. unfold MAX_IOAPIC. destruct (_ || _) eqn:E; [lia|].
    eexists. split; [done|]. destruct (insert_next ios ri (id, addr, b)) as [r' Er]; [rewrite <- Hi; lia|].
    split; cbn; [eauto|done|done| |rewrite length_app; simpl; lia|by rewrite length_insert|done].
    exists r'. by rewrite Nat2Z.id, Hi.
  - eexists. split; [done|]. split; cbn; eauto. by rewrite Hm.
  - exists a. split; [done|]. split; eauto.
Qed.
Lemma enlist_all_lists ds a cs ios im :
  lists a cs ios im -> (length (cs ++ odd_cpus ds) <= 16)%nat -> (length (ios ++ ioapics ds) <= 4)%nat ->
  exists a', enlist_all ds a = Some a' /\ lists a' (cs ++ odd_cpus ds) (ios ++ ioapics ds) (foldl remap im ds).
Proof.
  revert a cs ios im. induction ds as [|d ds IH]; intros a cs ios im Hl H1 H2; cbn [enlist_all foldl].
  { exists a. by rewrite !app_nil_r. }
  assert (odd_cpus (d :: ds) = odd_cpus [d] ++ odd_cpus ds) as Ec by (apply (omap_app _ [d])).
  assert (ioapics (d :: ds) = ioapics [d] ++ ioapics ds) as Ei by (apply (omap_app _ [d])).
  rewrite Ec, Ei, !app_assoc in *.
  destruct (enlist_lists d a cs ios im Hl) as (a1 & -> & Hl1); [rewrite length_app in H1; lia|rewrite length_app in H2; lia|].
  cbn. by apply IH.
Qed.

Lemma signed_at_cons m p c l : signed_at m p (c :: l) <-> mload8 m p = c /\ signed_at m (p + 1) l.
Proof.
  unfold signed_at. split.
  - intros H. split; [by rewrite <- (H 0%nat c eq_refl), Z.add_0_r|].
    intros i x Hi. rewrite <- (H (S i) x Hi). f_equal. lia.
  - intros [H0 H] [|i] x Hi; simpl in Hi; [injection Hi as <-; by rewrite Z.add_0_r|].
    rewrite <- (H i x Hi). f_equal. lia.
Qed.
Lemma signed_at_app m p l1 l2 :
  signed_at m p (l1 ++ l2) <-> signed_at m p l1 /\ signed_at m (p + Z.of_nat (length l1)) l2.
Proof.
  revert p. induction l1 as [|c l1 IH]; intros p; simpl.
  - rewrite Z.add_0_r. split; [|by intros [_ ?]]. intros H. split; [|done]. intros i x Hi. by rewrite lookup_nil in Hi.
  - rewrite !signed_at_cons, IH. replace (p + 1 + Z.of_nat (length l1)) with (p + Z.of_nat (S (length l1))) by lia.
    tauto.
Qed.
Lemma signed_at_le32 m p v : 0 <= v < 4294967296 -> signed_at m p (le32 v) -> mload32 m p = v.
Proof.
  intros Hv. unfold le32. rewrite !signed_at_cons, <- !Z.add_assoc. intros (H0 & H1 & H2 & H3 & _).
  unfold mload32. change (1 + 1) with 2 in *. change (1 + 2) with 3 in *. rewrite H0, H1, H2, H3. unfold wrap8.
  rewrite !Z.shiftr_div_pow2 by lia. change (2 ^ 8) with 256. change (2 ^ 16) with 65536. change (2 ^ 24) with 16777216.
  clear -Hv. lia.
Qed.

Lemma quiet_acpi_info s s' : quiet s s' -> acpi_info (drv s') = acpi_info (drv s).
Proof. intros [E _]. exact (f_equal (fun x => acpi_info (drv x)) E). Qed.

Section Madt.
Context `{env : Env}.

Lemma upd_info_const f s : upd_info f s = upd_info (fun _ => f (acpi_info (drv s))) s.
Proof. done. Qed.

Lemma parse_madt_entry_ok d e s a :
  desc_wf d -> kspace e (Z.of_nat (length (encode d))) -> signed_at (mem s) e (encode d) ->
  enlist d (acpi_info (drv s)) = Some a ->
  parse_madt_entry e s = (Ok tt, upd_info (fun _ => a) s).
Proof.
  intros Hw Hk Hs Ha. unfold parse_madt_entry, me_type, lapic_id, lapic_apic, me_ioapic_id, me_ioapic_addr,
    me_ioapic_base, interrupt_source, interrupt_target in *. rewrite Z.add_0_r.
  assert (upd_info (fun _ => acpi_info (drv s)) s = s) as Eid by (destruct s as [? ? ? ? ? ? ? ? ? ? dr]; by destruct dr).
  destruct d as [id apic fl|id addr base|bus src tgt fl|ty body]; cbn [encode app length enlist desc_wf] in *;
    repeat rewrite signed_at_cons in Hs; rewrite <- ?Z.add_assoc in Hs;
    change (1 + 1) with 2 in Hs; change (1 + 2) with 3 in Hs; change (1 + 3) with 4 in Hs;
    unfold le32, le16 in Hk; cbn [length app] in Hk.
  - destruct Hs as (H0 & H1 & H2 & H3 & _). erewrite bind_ok by (apply load8_kernel; kspace_tac).
    rewrite H0, Z.eqb_refl. erewrite bind_ok by (apply load8_kernel; kspace_tac). rewrite H2.
    assert (((id & 1) =? 0) = Z.even id) as ->.
    { change 1 with (Z.ones 1) at 1. rewrite Z.land_ones by lia. change (2 ^ 1) with 2. rewrite Zeven_mod. done. }
    destruct (Z.even id); [injection Ha as <-; by rewrite Eid|]. mstep.
    destruct ((num_cpus (acpi_info (drv s)) <? 0) || _) eqn:Eb; [done|]. injection Ha as <-.
    erewrite bind_ok by (apply load8_kernel; kspace_tac). mstep. rewrite H3. done.
  - destruct Hs as (H0 & H1 & H2 & H3 & Hs). apply (signed_at_app _ _ (le32 addr)) in Hs as [Ha4 Hb4].
    apply signed_at_le32 in Ha4; [|tauto]. apply signed_at_le32 in Hb4; [|tauto].
    cbn [length le32] in Hb4. rewrite <- Z.add_assoc in Hb4. change (4 + Z.of_nat 4) with 8 in Hb4.
    erewrite bind_ok by (apply load8_kernel; kspace_tac). rewrite H0.
    change (MADT_IOAPIC =? MADT_CPU) with false. change (MADT_IOAPIC =? MADT_IOAPIC) with true. cbv iota. mstep.
    destruct ((num_ioapic (acpi_info (drv s)) <? 0) || _) eqn:Eb; [done|]. injection Ha as <-.
    erewrite bind_ok by (apply load8_kernel; kspace_tac). do 2 erewrite bind_ok by (apply load32_kernel; kspace_tac).
    mstep. rewrite H2, Ha4, Hb4. done.
  - destruct Hs as (H0 & H1 & H2 & H3 & Hs). apply (signed_at_app _ _ (le32 tgt)) in Hs as [Ha4 _].
    apply signed_at_le32 in Ha4; [|done]. injection Ha as <-.
    erewrite bind_ok by (apply load8_kernel; kspace_tac). rewrite H0.
    change (MADT_INT =? MADT_CPU) with false. change (MADT_INT =? MADT_IOAPIC) with false.
    change (MADT_INT =? MADT_INT) with true. cbv iota.
    erewrite bind_ok by (apply load8_kernel; kspace_tac). erewrite bind_ok by (apply load32_kernel; kspace_tac).
    mstep. rewrite H3, Ha4. done.
  - destruct Hs as (H0 & _), Hw as (N0 & N1 & N2 & _). injection Ha as <-.
    erewrite bind_ok by (apply load8_kernel; kspace_tac). rewrite H0.
    do 3 (rewrite (proj2 (Z.eqb_neq _ _)) by done). by rewrite Eid.
Qed.

Lemma encode_head d : exists t l, encode d = t :: Z.of_nat (length (encode d)) :: l.
Proof. destruct d; eexists _, _; cbn [encode app length]; [done..|]. do 2 f_equal. lia. Qed.

(** One round on a descriptor. *)
Lemma parse_madt_step_ok d e end_ s a :
  desc_wf d -> kspace e (Z.of_nat (length (encode d)) + 1) -> e < end_ -> signed_at (mem s) e (encode d) ->
  enlist d (acpi_info (drv s)) = Some a ->
  parse_madt_step end_ e s = (Ok (inl (e + Z.of_nat (length (encode d)))), upd_info (fun _ => a) s).
Proof.
  intros Hw Hk Hlt Hs Ha. unfold parse_madt_step. rewrite (proj2 (Z.ltb_lt _ _) Hlt). cbn [negb].
  destruct (encode_head d) as (ty & l & Ed). assert (mload8 (mem s) (e + me_len) = Z.of_nat (length (encode d))) as Hl.
  { rewrite Ed in Hs at 1. by apply signed_at_cons in Hs as [_ [Hs _]%signed_at_cons]. }
  assert (2 <= Z.of_nat (length (encode d))) as H2 by (rewrite Ed; simpl; lia).
  assert (forall st, mem st = mem s -> load8 (e + me_len) st = (Ok (Z.of_nat (length (encode d))), st)) as Eld.
  { intros st E. rewrite load8_kernel by (unfold me_len; kspace_tac). by rewrite E, Hl. }
  rewrite (bind_ok _ _ _ _ _ (Eld s eq_refl)). rewrite (proj2 (Z.eqb_neq _ 0)) by lia.
  rewrite (bind_ok _ _ _ _ _ (parse_madt_entry_ok d e s a Hw ltac:(kspace_tac) Hs Ha)).
  rewrite (bind_ok _ _ _ _ _ (Eld (upd_info (fun _ => a) s) eq_refl)).
  unfold incptr. rewrite wrap32_small by kspace_tac. done.
Qed.

Definition table_bytes (ds : list madt_desc) : list Z := concat (map encode ds).

(** The loop over the descriptors [ds], stopped by the end of the table or by
    an entry of length 0. *)
Lemma parse_madt_loop ds e end_ s a :
  Forall desc_wf ds -> kspace e (Z.of_nat (length (table_bytes ds)) + 2) ->
  signed_at (mem s) e (table_bytes ds) -> e + Z.of_nat (length (table_bytes ds)) <= end_ ->
  (e + Z.of_nat (length (table_bytes ds)) = end_ \/
   mload8 (mem s) (e + Z.of_nat (length (table_bytes ds)) + 1) = 0) ->
  enlist_all ds (acpi_info (drv s)) = Some a ->
  Z.of_nat (length ds) < 4294967296 ->
  loop 32 (parse_madt_step end_) e s = (Ok tt, upd_info (fun _ => a) s).
Proof.
  intros Hw Hk Hs He Hstop Ha Hn.
  set (I := fun (n : nat) (p : Z) (st : machine) => exists ds', n = length ds' /\ Forall desc_wf ds' /\
    kspace p (Z.of_nat (length (table_bytes ds')) + 2) /\ signed_at (mem s) p (table_bytes ds') /\
    p + Z.of_nat (length (table_bytes ds')) = e + Z.of_nat (length (table_bytes ds)) /\
    exists b, st = upd_info (fun _ => b) s /\ enlist_all ds' b = Some a).
  set (Q := fun (r : result unit) (st : machine) => r = Ok tt /\ st = upd_info (fun _ => a) s).
  destruct (loop_inv_Z (parse_madt_step end_) I Q 32 (length ds) e s) as [E1 E2].
  - intros n p st (ds' & -> & Hw' & Hk' & Hs' & Hp & b & -> & Hb). destruct ds' as [|d ds'].
    + cbn in Hb. injection Hb as ->. cbn in Hp. rewrite Z.add_0_r in Hp. unfold parse_madt_step.
      destruct (Z.ltb_spec p end_) as [Hlt|Hge]; cbn [negb]; [|done].
      erewrite bind_ok by (apply load8_kernel; unfold me_len; kspace_tac). rewrite <- Hp in Hstop.
      destruct Hstop as [|Hz]; [lia|]. cbn. unfold me_len. by rewrite Hz.
    + apply Forall_cons in Hw' as [Hd Hw']. cbn in Hb.
      destruct (enlist d b) as [b'|] eqn:Eb; [|done]. cbn in Hb. cbn [table_bytes map concat] in *.
      fold (table_bytes ds') in *. rewrite length_app in *. apply signed_at_app in Hs' as [Hs1 Hs2].
      assert (2 <= Z.of_nat (length (encode d))) as H2.
      { destruct (encode_head d) as (? & ? & ->). simpl. lia. }
      rewrite (parse_madt_step_ok d p end_ (upd_info (fun _ => b) s) b'); [|done|kspace_tac|lia|done|done].
      exists (length ds'). split; [simpl; lia|]. exists ds'. split_and!; try done; [kspace_tac|lia|]. by exists b'.
  - exists ds. split_and!; try done. exists (acpi_info (drv s)). split; [|done].
    destruct s as [? ? ? ? ? ? ? ? ? ? dr]; by destruct dr.
  - exact Hn.
  - rewrite (surjective_pairing (loop _ _ _ _)). by rewrite E1, E2.
Qed.

(** The memory at [madt], away from video memory, holds the descriptors [ds]
    within the [len] bytes [parse_madt] is told to read; they fill these bytes
    or are followed by an entry of length 0. *)
Definition madt_at (m : gmap Z Z) (madt len : Z) (ds : list madt_desc) : Prop :=
  let n := Z.of_nat (length (table_bytes ds)) in
  Forall desc_wf ds /\ kspace madt (8 + n + 2) /\ 8 + n <= len /\ madt + len < 4294967296 /\
  (madt + 8 + n + 2 <= vidmem \/ vidmem + 0x20000 <= madt) /\
  signed_at m (madt + 8) (table_bytes ds) /\
  (8 + n = len \/ mload8 m (madt + 8 + n + 1) = 0).

Lemma parse_madt_ok madt len ds s a :
  cons_ready s -> madt_at (mem s) madt len ds -> enlist_all ds (acpi_info (drv s)) = Some a ->
  exists s1, parse_madt madt len s = (Ok tt, upd_info (fun _ => a) s1) /\ quiet s s1.
Proof.
  intros Hc (Hw & Hk & Hlen & Hwrap & Hv & Hs & Hstop) Ha. unfold parse_madt.
  set (n := Z.of_nat (length (table_bytes ds))) in *.
  erewrite bind_ok by (apply load32_kernel; unfold madt_lic_address; kspace_tac).
  set (lic := mload32 _ _). clearbody lic.
  destruct (cprintf_fits ("Local Interrupt Controller: 0x%x" +:+ nl) [AW lic] s Hc eq_refl) as (s1 & E & Q).
  rewrite (bind_ok _ _ _ _ _ E). exists s1. split; [|done].
  assert (forall b, madt <= b < madt + 8 + n + 2 -> mload8 (mem s1) b = mload8 (mem s) b) as Hm.
  { intros b Hb. apply (quiet_load8 _ _ Q); [kspace_tac|]. unfold in_video. lia. }
  assert (madt +u len = madt + len) as -> by (apply wrap32_small; kspace_tac).
  pose proof (Nat2Z.is_nonneg (length (table_bytes ds))). unfold madt_data.
  assert (Z.of_nat (length ds) <= n) as Hds.
  { unfold n. clear -env. induction ds as [|d ds IH]; [done|]. cbn [table_bytes map concat]. fold (table_bytes ds).
    destruct (encode_head d) as (? & ? & Ed). rewrite length_app, Ed. simpl in *. lia. }
  apply (parse_madt_loop ds); [done|fold n; kspace_tac| |fold n; lia| |by rewrite (quiet_acpi_info _ _ Q)|].
  - intros i c Hi. rewrite Hm; [by apply Hs|]. apply lookup_lt_Some in Hi. fold n. lia.
  - fold n. destruct Hstop as [Hn|Hn]; [left; lia|]. rewrite Hm by lia. by right.
  - unfold kspace, KERNBASE in Hk. lia.
Qed.

(** C23: decoding undoes encoding.  On memory that holds the encodings of any
    list of descriptors - filling the given length, or followed by an entry of
    length 0 - parse_madt appends to acpi_info the I/O APICs and the processors
    with an odd ACPI id, in order, applies the interrupt overrides, skips every
    other descriptor by its length and changes nothing else but for the line it
    prints.  (The comment in the code asks for the enabled processors: the test
    looks at the id instead of the flags.) *)
Theorem parse_madt_decodes madt len ds cs ios im s :
  cons_ready s -> madt_at (mem s) madt len ds -> lists (acpi_info (drv s)) cs ios im ->
  (length (cs ++ odd_cpus ds) <= 16)%nat -> (length (ios ++ ioapics ds) <= 4)%nat ->
  exists a s1, parse_madt madt len s = (Ok tt, upd_info (fun _ => a) s1) /\ quiet s s1 /\
    lists a (cs ++ odd_cpus ds) (ios ++ ioapics ds) (foldl remap im ds).
Proof.
  intros Hc Hat Hl H1 H2. destruct (enlist_all_lists ds _ _ _ _ Hl H1 H2) as (a & Ha & Hl').
  destruct (parse_madt_ok madt len ds s a Hc Hat Ha) as (s1 & E & Q). by exists a, s1.
Qed.
End Madt.

(** ** The whole walk *)

Definition byte_sum (m : gmap Z Z) (p n : Z) : Z := foldr Z.add 0 (map (fun i => mload8 m (p + i)) (seqZ 0 n)).

(** The bytes at [a], away from video memory. *)
Definition off_video `{env : Env} (a n : Z) : Prop := kspace a n /\ (a + n <= vidmem \/ vidmem + 0x20000 <= a).

(** The table at [t] is not a MADT, or is one that consists of its header, the
    controller's address and flags and the descriptors [ds].  The length in the
    header counts the header too, so [parse_madt] may read up to 36 bytes past
    the table: there it has to find an entry of length 0. *)
Definition sdt_at `{env : Env} (m : gmap Z Z) (t : Z) (ds : list madt_desc) : Prop :=
  off_video t 8 /\
  (~ signed_at m t (bytes_of MADT_SIGNATURE) /\ ds = [] \/
   signed_at m t (bytes_of MADT_SIGNATURE) /\
   let len := 36 + 8 + Z.of_nat (length (table_bytes ds)) in mload32 m (t + sdt_len) = len /\
   Forall desc_wf ds /\ off_video t (len + 2) /\ t + 36 + len < 4294967296 /\
   signed_at m (t + 44) (table_bytes ds) /\ mload8 m (t + len + 1) = 0).

(** The root table at [sdt], with entries of [w] bytes: its length, and the
    physical addresses of the tables [ts] (the low words of the entries). *)
Definition root_at `{env : Env} (m : gmap Z Z) (sdt w : Z) (ts : list (Z * list madt_desc)) : Prop :=
  off_video sdt (36 + w * Z.of_nat (length ts)) /\ mload32 m (sdt + sdt_len) = 36 + w * Z.of_nat (length ts) /\
  forall i t ds, ts !! i = Some (t, ds) ->
    0 <= t < 0x80000000 /\ mload32 m (sdt + sdt_data + w * Z.of_nat i) = t /\ sdt_at m (KERNBASE + t) ds.
Definition entry_width (revision : Z) : Z := if revision =? 0 then 4 else 8.

(** [st] differs from [s] only in the information [a] and in what printing
    changes. *)
Definition registered (s : machine) (a : acpi_info_t) (st : machine) : Prop :=
  exists s1, st = upd_info (fun _ => a) s1 /\ quiet s s1.

Section Walk.
Context `{env : Env}.

Lemma byte_sum_snoc m p n : 0 <= n -> byte_sum m p (n + 1) = byte_sum m p n + mload8 m (p + n).
Proof.
  intros Hn. unfold byte_sum. rewrite seqZ_app by lia. rewrite map_app, foldr_app.
  assert (forall l x, foldr Z.add x l = foldr Z.add 0 l + x) as Hf by (induction l as [|y l IH]; intros x; simpl; [lia|rewrite IH; lia]).
  rewrite Hf. f_equal. rewrite seqZ_cons by lia. simpl. rewrite Z.add_0_r. f_equal.
Qed.

Lemma compute_checksum_ok p n s :
  kspace p (n + 1) -> 0 <= n -> compute_checksum p n s = (Ok (byte_sum (mem s) p n mod 256), s).
Proof.
  intros Hk Hn. unfold compute_checksum.
  assert (p +u n = p + n) as -> by (apply wrap32_small; kspace_tac).
  set (body := fun '(b, sum) => _).
  set (I := fun (k : nat) (x : Z * Z) (st : machine) => st = s /\ exists i, 0 <= i <= n /\ k = Z.to_nat (n - i) /\
    x = (p + i, byte_sum (mem s) p i mod 256)).
  set (Q := fun (r : result Z) (st : machine) => r = Ok (byte_sum (mem s) p n mod 256) /\ st = s).
  destruct (loop_inv_Z body I Q 32 (Z.to_nat n) (p, 0) s) as [E1 E2].
  - intros k x st (-> & i & Hi & -> & ->). unfold body. destruct (Z.ltb_spec (p + i) (p + n)) as [Hlt|Hge]; cbn [negb].
    + erewrite bind_ok by (apply load8_kernel; kspace_tac). exists (Z.to_nat (n - (i + 1))). split; [lia|]. split; [done|].
      exists (i + 1). split; [lia|]. split; [done|]. rewrite byte_sum_snoc by lia. f_equal.
      * rewrite wrap32_small by kspace_tac. lia.
      * unfold wrap8. apply Zplus_mod_idemp_l.
    + split; [|done]. replace i with n by lia. done.
  - split; [done|]. exists 0. split; [lia|]. split; [f_equal; lia|]. by rewrite Z.add_0_r.
  - unfold kspace, KERNBASE in Hk. lia.
  - rewrite (surjective_pairing (loop _ _ _ _)). by rewrite E1, E2.
Qed.

Definition agree (m m' : gmap Z Z) : Prop :=
  forall b, 0 <= b < 4294967296 -> ~ in_video b -> mload8 m' b = mload8 m b.
Lemma off_video_byte a n b : off_video a n -> a <= b < a + n -> 0 <= b < 4294967296 /\ ~ in_video b.
Proof. unfold off_video, in_video. intros [Hk Hv] Hb. split; [kspace_tac|lia]. Qed.

Section Agree.
Context (m m' : gmap Z Z) (Hm : agree m m').

Lemma agree_load8 a n b : off_video a n -> a <= b < a + n -> mload8 m' b = mload8 m b.
Proof. intros Ha Hb. destruct (off_video_byte a n b Ha Hb). by apply Hm. Qed.
Lemma agree_load32 a n b : off_video a n -> a <= b -> b + 4 <= a + n -> mload32 m' b = mload32 m b.
Proof. intros Ha H1 H2. unfold mload32. by rewrite !(agree_load8 a n) by (done || lia). Qed.
Lemma agree_signed a n p l :
  off_video a n -> a <= p -> p + Z.of_nat (length l) <= a + n -> signed_at m' p l <-> signed_at m p l.
Proof.
  intros Ha H1 H2. split; intros Hs i c Hi; rewrite <- (Hs i c Hi); apply lookup_lt_Some in Hi;
    [symmetry|]; apply (agree_load8 a n); (done || lia).
Qed.
Lemma agree_sdt t ds : sdt_at m t ds -> sdt_at m' t ds.
Proof.
  intros (Ho & H). split; [done|]. assert (signed_at m' t (bytes_of MADT_SIGNATURE) <-> signed_at m t (bytes_of MADT_SIGNATURE)) as E
    by (apply (agree_signed t 8); [done|lia|simpl; lia]).
  destruct H as [[H Hd]|(H & Hl & Hw & Hov & Hwrap & Hs & Hz)]; [left|right]; rewrite E; [done|].
  set (len := 36 + 8 + Z.of_nat (length (table_bytes ds))) in *. cbv zeta. split_and!; try done.
  - by rewrite (agree_load32 t 8) by (done || unfold sdt_len; lia).
  - apply (agree_signed t (len + 2)); [done|lia|lia|done].
  - by rewrite (agree_load8 t (len + 2)) by (done || lia).
Qed.
End Agree.

Lemma quiet_upd_info a s s' : quiet s s' -> quiet (upd_info (fun _ => a) s) (upd_info (fun _ => a) s').
Proof.
  intros [E H]. split; [|done]. pose proof (f_equal (upd_info (fun _ => a)) E) as E'. exact E'.
Qed.
Lemma registered_agree s a st : registered s a st -> agree (mem s) (mem st).
Proof. intros (s1 & -> & Q). exact (proj2 Q). Qed.
Lemma registered_cons_ready s a st : registered s a st -> cons_ready s -> cons_ready st.
Proof. intros (s1 & -> & Q) Hc. exact (quiet_cons_ready _ _ Q Hc). Qed.
Lemma registered_info s a st : registered s a st -> acpi_info (drv st) = a.
Proof. by intros (s1 & -> & Q). Qed.
Lemma registered_step s a b st st1 :
  registered s b st -> quiet st st1 -> registered s a (upd_info (fun _ => a) st1).
Proof.
  intros (s1 & -> & Q) Q1. exists (upd_info (fun _ => acpi_info (drv s)) st1). split; [done|].
  apply (quiet_upd_info (acpi_info (drv s))) in Q1. etrans; [exact Q|].
  assert (upd_info (fun _ => acpi_info (drv s)) (upd_info (fun _ => b) s1) = s1) as E.
  { rewrite <- (quiet_acpi_info _ _ Q). destruct s1 as [? ? ? ? ? ? ? ? ? ? dr]. by destruct dr. }
  by rewrite E in Q1.
Qed.

Lemma enlist_all_app l1 l2 a : enlist_all (l1 ++ l2) a = b ← enlist_all l1 a; enlist_all l2 b.
Proof. revert a. induction l1 as [|d l1 IH]; intros a; simpl; [done|]. destruct (enlist d a); simpl; [apply IH|done]. Qed.

(** The address in an entry of 4 or 8 bytes. *)
Lemma entry_ok rev p s :
  kspace p (entry_width rev) ->
  exists v, (if negb (rev =? 0) then load64 p else load32 p) s = (Ok v, s) /\ wrap32 v = mload32 (mem s) p.
Proof.
  unfold entry_width. intros Hk. destruct (rev =? 0); cbn [negb].
  - exists (mload32 (mem s) p). split; [apply load32_kernel; kspace_tac|]. apply wrap32_small, mload32_range.
  - eexists. unfold load64. do 2 erewrite bind_ok by (apply load32_kernel; kspace_tac). split; [done|].
    unfold wrap32. rewrite (Z.mul_comm 4294967296). rewrite Z_mod_plus_full. apply Z.mod_small, mload32_range.
Qed.

(** One table of the loop. *)
Lemma sdt_entry_ok t ds s st b a :
  cons_ready s -> registered s b st -> sdt_at (mem s) (KERNBASE + t) ds -> enlist_all ds b = Some a ->
  exists st', (r ← memcmp_const (KERNBASE + t) 0 0 (bytes_of MADT_SIGNATURE);
    if r =? 0 then len ← load32 (KERNBASE + t + sdt_len); parse_madt (KERNBASE + t + sdt_data) len
    else mret tt) st = (Ok tt, st') /\ registered s a st'.
Proof.
  intros Hc Hst Ht Ha. apply (agree_sdt _ (mem st) (registered_agree _ _ _ Hst)) in Ht as [Ho Ht].
  assert (kspace (KERNBASE + t) 8) as Hk by apply Ho.
  destruct (memcmp_const_ok (KERNBASE + t) 0 0 (bytes_of MADT_SIGNATURE) st) as (r & E & Hr);
    [change (Z.of_nat (length _)) with 4; kspace_tac|repeat constructor; done|done|].
  rewrite (bind_ok _ _ _ _ _ E). destruct Ht as [[Hn ->]|(Hs & Hlen & Hw & [Hk2 Hv2] & Hwrap & Hd & Hz)].
  - rewrite (proj2 (Z.eqb_neq r 0)) by (by rewrite Hr). exists st. split; [done|]. cbn in Ha. by injection Ha as <-.
  - rewrite (proj2 (Z.eqb_eq r 0)) by (by rewrite Hr).
    erewrite bind_ok by (apply load32_kernel; unfold sdt_len; kspace_tac).
    rewrite Hlen. set (n := Z.of_nat (length (table_bytes ds))) in *.
    destruct (parse_madt_ok (KERNBASE + t + sdt_data) (36 + 8 + n) ds st a) as (s1 & E1 & Q1);
      [by eapply registered_cons_ready| |by rewrite (registered_info _ _ _ Hst)|].
    { unfold madt_at, sdt_data. fold n. replace (KERNBASE + t + 36 + 8) with (KERNBASE + t + 44) by lia.
      split_and!; [done|kspace_tac|lia|lia|lia|done|right]. rewrite <- Hz. f_equal. lia. }
    exists (upd_info (fun _ => a) s1). split; [done|]. by eapply registered_step.
Qed.

Lemma parse_sdt_loop_ok sdt rev ts i s st b a :
  cons_ready s -> 0 <= i -> off_video sdt (36 + entry_width rev * (i + Z.of_nat (length ts))) ->
  (forall j t ds, ts !! j = Some (t, ds) -> 0 <= t < 0x80000000 /\
     mload32 (mem s) (sdt + sdt_data + entry_width rev * (i + Z.of_nat j)) = t /\ sdt_at (mem s) (KERNBASE + t) ds) ->
  registered s b st -> enlist_all (concat (map snd ts)) b = Some a ->
  exists st', parse_sdt_loop sdt rev i (length ts) st = (Ok tt, st') /\ registered s a st'.
Proof.
  intros Hc. revert i st b. induction ts as [|[t ds] ts IH]; intros i st b Hi Ho Hts Hst Ha; cbn [length parse_sdt_loop].
  { exists st. cbn in Ha. by injection Ha as <-. }
  destruct (Hts 0%nat t ds eq_refl) as (Ht & Ev & Hd). rewrite Z.add_0_r in Ev.
  cbn [map concat snd] in Ha. rewrite enlist_all_app in Ha. destruct (enlist_all ds b) as [b'|] eqn:Eb; [|done]. cbn in Ha.
  set (w := entry_width rev) in *. assert (w = 4 \/ w = 8) as Hw by (unfold w, entry_width; destruct (rev =? 0); lia).
  assert (kspace (sdt + sdt_data + w * i) w) as Hk by (destruct Ho as [Hk _]; cbn [length] in Hk; unfold sdt_data; clearbody w; kspace_tac).
  destruct (entry_ok rev (sdt + sdt_data + w * i) st Hk) as (v & E & Ew).
  assert (wrap32 v = t) as Evt.
  { rewrite Ew, <- Ev. apply (agree_load32 (mem s) (mem st) (registered_agree _ _ _ Hst) _ _ _ Ho);
      cbn [length]; unfold sdt_data; lia. }
  assert ((if negb (rev =? 0) then load64 (sdt + sdt_data + 8 * i) else load32 (sdt + sdt_data + 4 * i)) =
          (if negb (rev =? 0) then load64 (sdt + sdt_data + w * i) else load32 (sdt + sdt_data + w * i))) as ->
    by (unfold w, entry_width; by destruct (rev =? 0)).
  rewrite (bind_ok _ _ _ _ _ E), Evt, P2V_base by lia.
  destruct (sdt_entry_ok t ds s st b b' Hc Hst Hd Eb) as (st1 & E1 & Hst1). cbv zeta.
  rewrite (bind_ok_assoc _ _ _ _ _ _ E1).
  apply (IH (i + 1) st1 b'); [lia| | |done|done].
  - replace (i + 1 + Z.of_nat (length ts)) with (i + Z.of_nat (length ((t, ds) :: ts))) by (simpl; lia). done.
  - intros j t' ds' Hj. destruct (Hts (S j) t' ds' Hj) as (H1 & H2 & H3). split_and!; try done; try lia.
    rewrite <- H2. do 2 f_equal. lia.
Qed.

Lemma parse_sdt_ok sdt rev ts s a :
  cons_ready s -> root_at (mem s) sdt (entry_width rev) ts ->
  enlist_all (concat (map snd ts)) (acpi_info (drv s)) = Some a ->
  exists st, parse_sdt sdt rev s = (Ok tt, st) /\ registered s a st.
Proof.
  intros Hc (Ho & Hl & Hts) Ha. unfold parse_sdt. assert (kspace sdt 36) as Hk.
  { destruct Ho as [Hk _]. unfold entry_width in Hk. destruct (rev =? 0); kspace_tac. }
  erewrite bind_ok by (apply load32_kernel; unfold sdt_len; kspace_tac). rewrite Hl. cbv zeta.
  assert (Z.to_nat (wrap32 (36 + entry_width rev * Z.of_nat (length ts) - sizeof_sdt) /
    (if negb (rev =? 0) then 8 else 4)) = length ts) as ->.
  { destruct Ho as [Hk' _]. unfold entry_width, sizeof_sdt in *.
    destruct (rev =? 0); cbn [negb]; rewrite wrap32_small by kspace_tac; clear; lia. }
  apply (parse_sdt_loop_ok sdt rev ts 0 s s (acpi_info (drv s))); try done.
  exists s. split; [|done]. destruct s as [? ? ? ? ? ? ? ? ? ? dr]. by destruct dr.
Qed.
End Walk.

(** *** Where the root pointer is *)

(** [p] is the first signature in the physical range, or there is none. *)
Definition rsdp_in (m : gmap Z Z) (start end_ p : Z) : Prop := let sig := bytes_of RSDP_SIGNATURE in
  exists k, 0 <= k /\ start + 16 * k < end_ /\ p = KERNBASE + start + 16 * k /\ signed_at m p sig /\
    forall j, 0 <= j < k -> ~ signed_at m (KERNBASE + start + 16 * j) sig.
Definition no_rsdp (m : gmap Z Z) (start end_ : Z) : Prop :=
  forall k, 0 <= k -> start + 16 * k < end_ -> ~ signed_at m (KERNBASE + start + 16 * k) (bytes_of RSDP_SIGNATURE).
(** The root pointer is in the first KB of the extended BIOS data area or,
    failing that, in the BIOS ROM. *)
Definition ebda (m : gmap Z Z) : Z := 16 * (mload8 m 0x8000040e + 256 * mload8 m 0x8000040f).
Definition rsdp_at (m : gmap Z Z) (p : Z) : Prop :=
  rsdp_in m (ebda m) (ebda m + 1024) p \/ no_rsdp m (ebda m) (ebda m + 1024) /\ rsdp_in m 0xE0000 0xFFFFF p.
Definition rsdp_nowhere (m : gmap Z Z) : Prop :=
  no_rsdp m (ebda m) (ebda m + 1024) /\ no_rsdp m 0xE0000 0xFFFFF.

Lemma ebda_range m : 0 <= ebda m < 0x100000.
Proof. unfold ebda. pose proof (mload8_range m 0x8000040e). pose proof (mload8_range m 0x8000040f). lia. Qed.
Lemma rsdp_at_range m p : rsdp_at m p -> KERNBASE <= p < 0x80200000.
Proof.
  pose proof (ebda_range m). unfold KERNBASE. intros [(k & Hk & Hlt & -> & _)|[_ (k & Hk & Hlt & -> & _)]]; unfold KERNBASE; lia.
Qed.

Section Firmware.
Context `{env : Env}.

Lemma scan_rsdp_found start end_ p s :
  0 <= start -> start <= end_ < 0x200000 -> rsdp_in (mem s) start end_ p -> scan_rsdp start end_ s = (Ok p, s).
Proof.
  intros Hs He (k & Hk & Hlt & -> & Hsig & Hfirst).
  destruct (scan_rsdp_ok start end_ s Hs) as (q & -> & Hq); [lia|apply kspace_low; unfold KERNBASE; lia|].
  do 2 f_equal. destruct Hq as [[_ Hno]|(j & Hj & _ & -> & Hsj & Hfj)]; [by destruct (Hno k)|].
  destruct (Z.lt_trichotomy j k) as [H|[->|H]]; [by destruct (Hfirst j)|done|by destruct (Hfj k)].
Qed.
Lemma scan_rsdp_none start end_ s :
  0 <= start -> start <= end_ < 0x200000 -> no_rsdp (mem s) start end_ -> scan_rsdp start end_ s = (Ok 0, s).
Proof.
  intros Hs He Hno. destruct (scan_rsdp_ok start end_ s Hs) as (q & -> & Hq); [lia|apply kspace_low; unfold KERNBASE; lia|].
  destruct Hq as [[-> _]|(j & Hj & Hlt & -> & Hsj & _)]; [done|]. by destruct (Hno j).
Qed.

(** The two scans of [find_rsdp]. *)
Lemma find_rsdp_scans p1 p2 s :
  scan_rsdp (ebda (mem s)) (ebda (mem s) + 1024) s = (Ok p1, s) -> scan_rsdp 0xE0000 0xFFFFF s = (Ok p2, s) ->
  find_rsdp s = (Ok (if p1 =? 0 then p2 else p1), s).
Proof.
  intros E1 E2. unfold find_rsdp. change (P2V 0x40e) with 0x8000040e.
  assert (load16 0x8000040e s = (Ok (mload8 (mem s) 0x8000040e + 256 * mload8 (mem s) 0x8000040f), s)) as E.
  { unfold load16. do 2 erewrite bind_ok by (apply load8_kernel; klow_tac). done. }
  rewrite (bind_ok _ _ _ _ _ E), Z.shiftl_mul_pow2 by lia. change (2 ^ 4) with 16. rewrite Z.mul_comm.
  fold (ebda (mem s)). rewrite (bind_ok _ _ _ _ _ E1). destruct (p1 =? 0); cbn [negb]; [|done].
  rewrite (bind_ok _ _ _ _ _ E2). by destruct (Z.eqb_spec p2 0) as [->|].
Qed.

Lemma find_rsdp_at p s : rsdp_at (mem s) p -> find_rsdp s = (Ok p, s).
Proof.
  intros H. pose proof (ebda_range (mem s)) as Hb. pose proof (rsdp_at_range _ _ H) as Hp. unfold KERNBASE in Hp.
  destruct H as [H|[Hno H]].
  - assert (exists p2, scan_rsdp 0xE0000 0xFFFFF s = (Ok p2, s)) as [p2 E2].
    { destruct (scan_rsdp_ok 0xE0000 0xFFFFF s) as (q & E & _); [lia|lia|klow_tac|by exists q]. }
    rewrite (find_rsdp_scans p p2 s (scan_rsdp_found (ebda (mem s)) (ebda (mem s) + 1024) p s ltac:(lia) ltac:(lia) H) E2).
    by rewrite (proj2 (Z.eqb_neq p 0)) by lia.
  - rewrite (find_rsdp_scans 0 p s); [done|apply scan_rsdp_none; (done || lia)|apply scan_rsdp_found; (done || lia)].
Qed.
Lemma find_rsdp_nowhere s : rsdp_nowhere (mem s) -> find_rsdp s = (Ok 0, s).
Proof.
  intros [H1 H2]. pose proof (ebda_range (mem s)) as Hb.
  rewrite (find_rsdp_scans 0 0 s); [done|apply scan_rsdp_none; (done || lia)..].
Qed.

(** The head of [acpi_init], up to the test of the checksum. *)
Lemma acpi_init_head p s :
  rsdp_at (mem s) p ->
  let rev := mload8 (mem s) (p + rsdp_revision) in
  let r := mload32 (mem s) (p + (if rev =? 0 then rsdp_rsdt else rsdp_xsdt)) in
  acpi_init s = (if negb (byte_sum (mem s) p 20 mod 256 =? 0) then warn "Invalid RSDP checksum" []
                 else parse_sdt (P2V r) rev) s.
Proof.
  intros Hat rev r. pose proof (rsdp_at_range _ _ Hat) as Hp. unfold acpi_init.
  rewrite (bind_ok _ _ _ _ _ (find_rsdp_at p s Hat)).
  assert (load8 (p + rsdp_revision) s = (Ok rev, s)) as Erev
    by (apply load8_kernel, kspace_low; unfold rsdp_revision, KERNBASE in *; lia).
  rewrite (bind_ok _ _ _ _ _ Erev). set (off := if rev =? 0 then rsdp_rsdt else rsdp_xsdt) in *.
  destruct (entry_ok rev (p + off) s) as (v & Ev & Ew).
  { apply kspace_low; unfold off, entry_width, rsdp_rsdt, rsdp_xsdt, KERNBASE in *; destruct (rev =? 0); lia. }
  assert ((if negb (rev =? 0) then load64 (p + rsdp_xsdt) else load32 (p + rsdp_rsdt)) =
          (if negb (rev =? 0) then load64 (p + off) else load32 (p + off))) as -> by (unfold off; by destruct (rev =? 0)).
  rewrite (bind_ok _ _ _ _ _ Ev), Ew.
  assert (compute_checksum p ACPI_RSDP_CHECKSUM_LENGTH s = (Ok (byte_sum (mem s) p 20 mod 256), s)) as Esum
    by (apply compute_checksum_ok; [apply kspace_low; unfold KERNBASE in *; lia|lia]).
  rewrite (bind_ok _ _ _ _ _ Esum). destruct (byte_sum (mem s) p 20 mod 256 =? 0); cbn [negb]; [|done]. by rewrite (bind_ok _ _ _ _ _ Erev).
Qed.

(** The tables in memory list the descriptors [ds]: a root pointer with a
    good checksum, the root table it points to (of either revision) and the
    MADTs among the tables that one lists. *)
Definition tables_list (m : gmap Z Z) (ds : list madt_desc) : Prop :=
  exists p ts, rsdp_at m p /\ byte_sum m p 20 mod 256 = 0 /\
    let rev := mload8 m (p + rsdp_revision) in
    let r := mload32 m (p + (if rev =? 0 then rsdp_rsdt else rsdp_xsdt)) in
    0 <= r < 0x80000000 /\ root_at m (KERNBASE + r) (entry_width rev) ts /\ ds = concat (map snd ts).
Definition tables_give (m : gmap Z Z) (a0 a : acpi_info_t) : Prop :=
  exists ds, tables_list m ds /\ enlist_all ds a0 = Some a.

Lemma acpi_init_tables s a :
  cons_ready s -> tables_give (mem s) (acpi_info (drv s)) a ->
  exists s1, acpi_init s = (Ok tt, upd_info (fun _ => a) s1) /\ quiet s s1.
Proof.
  intros Hc (ds & (p & ts & Hat & Hsum & Hr & Hroot & ->) & Ha). rewrite (acpi_init_head p s Hat), Hsum. cbn [Z.eqb negb].
  rewrite P2V_base by done. destruct (parse_sdt_ok _ _ _ _ _ Hc Hroot Ha) as (st & E & s1 & -> & Q). by exists s1.
Qed.

(** C22: acpi_init by what the firmware left in memory.  Without a root
    pointer in the two areas of low memory it dereferences a null pointer, and
    ends in the page fault when nothing is mapped there.  With a bad checksum it
    prints the warning and does nothing else.  With a good one it registers in
    acpi_info, in order, the I/O APICs and the odd-numbered processors of all
    MADTs that the root table lists, applies their interrupt overrides, and
    changes nothing else but for what it prints.  (Tables are in memory that is
    mapped, and each MADT is followed by an entry of length 0, as the reading
    past its end requires.) *)
Theorem acpi_init_registers s cs ios im :
  cons_ready s -> lists (acpi_info (drv s)) cs ios im ->
  (rsdp_nowhere (mem s) -> mmu_walk (mem s) (cr3 (cpu_regs s)) rsdp_revision = None ->
     acpi_init s = page_fault rsdp_revision s) /\
  (forall p, rsdp_at (mem s) p -> byte_sum (mem s) p 20 mod 256 <> 0 ->
     exists s1, acpi_init s = (Ok tt, s1) /\ printed (bytes_of ("WARN: Invalid RSDP checksum" +:+ nl)) s s1) /\
  (forall ds, tables_list (mem s) ds ->
     (length (cs ++ odd_cpus ds) <= 16)%nat -> (length (ios ++ ioapics ds) <= 4)%nat ->
     exists a s1, acpi_init s = (Ok tt, upd_info (fun _ => a) s1) /\ quiet s s1 /\
       lists a (cs ++ odd_cpus ds) (ios ++ ioapics ds) (foldl remap im ds)).
Proof.
  intros Hc Hl. split_and!.
  - intros Hno Hw. unfold acpi_init. rewrite (bind_ok _ _ _ _ _ (find_rsdp_nowhere s Hno)). rewrite Z.add_0_l.
    assert (load8 rsdp_revision s = page_fault rsdp_revision s) as E.
    { unfold load8, xlate. rewrite wrap32_small by (unfold rsdp_revision; lia). cbn [Z.leb]. by rewrite Hw. }
    unfold mbind, M_bind. rewrite E. unfold page_fault. by destruct (isr_table (irq s) !! 14%nat) as [[[]|]|].
  - intros p Hat Hbad. rewrite (acpi_init_head p s Hat), (proj2 (Z.eqb_neq _ _) Hbad). cbn [negb].
    apply cprintf_printed; [done|]. vm_compute. done.
  - intros ds Hds H1 H2. destruct (enlist_all_lists ds _ _ _ _ Hl H1 H2) as (a & Ha & Hl').
    destruct (acpi_init_tables s a Hc) as (s1 & E & Q); [by exists ds|]. by exists a, s1.
Qed.
End Firmware.

(** The arrays are not overrun. *)
Definition info_wf (a : acpi_info_t) : Prop :=
  length (acpi_cpu a) = 16%nat /\ 0 <= num_cpus a <= 16 /\ length (acpi_ioapic a) = 4%nat /\ 0 <= num_ioapic a <= 4.

Lemma enlist_wf d a a' : info_wf a -> enlist d a = Some a' -> info_wf a'.
Proof.
  intros (H1 & H2 & H3 & H4). destruct d as [id apic fl|id addr b|bus src tgt fl|ty body]; simpl.
  - destruct (Z.even id); [by intros [= <-]|]. destruct (_ || _) eqn:E; [done|]. intros [= <-].
    unfold info_wf, MAX_CPUS in *. simpl. rewrite length_insert. lia.
  - destruct (_ || _) eqn:E; [done|]. intros [= <-]. unfold info_wf, MAX_IOAPIC in *. simpl. rewrite length_insert. lia.
  - by intros [= <-].
  - by intros [= <-].
Qed.
Lemma enlist_all_wf l a a' : info_wf a -> enlist_all l a = Some a' -> info_wf a'.
Proof.
  revert a. induction l as [|d l IH]; intros a Hw; simpl; [by intros [= <-]|].
  destruct (enlist d a) as [b|] eqn:E; simpl; [|done]. apply IH. by apply (enlist_wf d a).
Qed.

(** *** Witnesses *)

Fixpoint put_bytes (p : Z) (l : list Z) (m : gmap Z Z) : gmap Z Z :=
  match l with
  | [] => m
  | c :: l => put_bytes (p + 1) l (mstore8 m p c)
  end.
Definition signed_atb (m : gmap Z Z) (p : Z) (l : list Z) : bool :=
  forallb (fun '(i, c) => mload8 m (p + Z.of_nat i) =? c) (zip (seq 0 (length l)) l).
Lemma signed_atb_ok m p l : signed_atb m p l = true -> signed_at m p l.
Proof.
  unfold signed_atb. intros H i c Hi. rewrite forallb_forall in H. apply Z.eqb_eq, (H (i, c)).
  apply list_elem_of_In, (list_elem_of_lookup_2 _ i). rewrite lookup_zip_with, Hi, lookup_seq_lt; [done|].
  by apply lookup_lt_Some in Hi.
Qed.

(** A machine whose firmware left a root pointer, a root table of one entry and
    a MADT with a processor, a controller and an override. *)
Definition demo_descs : list madt_desc := [Lapic 1 0 1; Ioapic 0 0xfec00000 0; Override 0 0 2 0].
Definition demo_mem : gmap Z Z :=
  put_bytes 0x800e0010 (bytes_of RSDP_SIGNATURE ++ [0xd1; 0; 0; 0; 0; 0; 0; 0] ++ le32 0x100000)
 (put_bytes 0x80100000 (bytes_of "RSDT" ++ le32 40 ++ replicate 28 0 ++ le32 0x100100)
 (put_bytes 0x80100100 (bytes_of MADT_SIGNATURE ++ le32 74 ++ replicate 28 0 ++ le32 0xfee00000 ++ le32 0
    ++ table_bytes demo_descs) ∅)).
Definition demo_firmware : machine := set_mem demo_mem demo_machine.

Lemma demo_madt_at `{env : Env} : madt_at demo_mem 0x80100124 74 demo_descs.
Proof.
  split_and!.
  - repeat constructor; lia.
  - apply kspace_low; vm_compute; discriminate.
  - by vm_compute.
  - by vm_compute.
  - right. by vm_compute.
  - apply signed_atb_ok. vm_compute. reflexivity.
  - right. vm_compute. reflexivity.
Qed.
Lemma demo_lists : lists zero_acpi_info [] [] (replicate 256 0).
Proof. split; (done || by eexists). Qed.

Lemma demo_unsigned p : mload8 demo_mem p <> 82 -> ~ signed_at demo_mem p (bytes_of RSDP_SIGNATURE).
Proof. intros Hp H. apply Hp. specialize (H 0%nat 82 eq_refl). by rewrite Z.add_0_r in H. Qed.
Lemma demo_rsdp_at : rsdp_at demo_mem 0x800e0010.
Proof.
  right. assert (ebda demo_mem = 0) as E by (vm_compute; reflexivity). rewrite E. split.
  - intros k Hk Hlt. apply demo_unsigned.
    assert (forallb (fun k => negb (mload8 demo_mem (KERNBASE + 0 + 16 * k) =? 82)) (seqZ 0 64) = true) as Ha
      by (vm_compute; reflexivity).
    rewrite forallb_forall in Ha. specialize (Ha k). rewrite <- list_elem_of_In, elem_of_seqZ in Ha.
    specialize (Ha ltac:(lia)). lia.
  - exists 1. split_and!; [lia|lia|reflexivity|apply signed_atb_ok; vm_compute; reflexivity|].
    intros j Hj. assert (j = 0) as -> by lia. apply demo_unsigned. by vm_compute.
Qed.

Lemma scan_rsdp_first_witness :
  exists p, scan_rsdp (env:=demo_env) 0xe0000 0xfffff demo_firmware = (Ok p, demo_firmware) /\ p = 0x800e0010.
Proof.
  destruct (scan_rsdp_first (env:=demo_env) 0xe0000 0xfffff demo_firmware) as (p & E & H); [lia|lia|klow_tac|].
  exists p. split; [exact E|]. assert (signed_at demo_mem 0x800e0010 (bytes_of RSDP_SIGNATURE)) as Hs
    by (apply signed_atb_ok; vm_compute; reflexivity).
  assert (~ signed_at demo_mem 0x800e0000 (bytes_of RSDP_SIGNATURE)) as Hn by (apply demo_unsigned; by vm_compute).
  destruct H as [[_ H]|(k & Hk & _ & -> & Hsk & Hfirst)].
  - exfalso. exact (H 1 ltac:(lia) ltac:(lia) Hs).
  - destruct (decide (k = 0)) as [->|Hk0]; [exfalso; exact (Hn Hsk)|].
    destruct (decide (k = 1)) as [->|Hk1]; [reflexivity|]. exfalso. exact (Hfirst 1 ltac:(lia) Hs).
Defined.

Lemma parse_madt_decodes_witness :
  exists a s1, parse_madt (env:=demo_env) 0x80100124 74 demo_firmware = (Ok tt, upd_info (fun _ => a) s1) /\
    lists a [(1, 0)] [(0, 0xfec00000, 0)] (<[0%nat := 2]> (replicate 256 0)).
Proof.
  destruct (parse_madt_decodes (env:=demo_env) 0x80100124 74 demo_descs [] [] (replicate 256 0) demo_firmware)
    as (a & s1 & E & _ & H).
  - exact demo_cons_ready.
  - exact demo_madt_at.
  - exact demo_lists.
  - simpl. lia.
  - simpl. lia.
  - exists a, s1. split; [exact E|exact H].
Defined.

Lemma demo_tables_list `{env : Env} : tables_list demo_mem demo_descs.
Proof.
  exists 0x800e0010, [(0x100100, demo_descs)]. split; [exact demo_rsdp_at|]. split; [vm_compute; reflexivity|].
  assert (mload8 demo_mem (0x800e0010 + rsdp_revision) = 0) as Hrev by (vm_compute; reflexivity).
  assert (mload32 demo_mem (0x800e0010 + rsdp_rsdt) = 0x100000) as Hr by (vm_compute; reflexivity).
  cbv zeta. rewrite Hrev. change (if 0 =? 0 then rsdp_rsdt else rsdp_xsdt) with rsdp_rsdt. rewrite Hr.
  split; [lia|]. split; [|reflexivity].
  assert (forall a n, KERNBASE + 0x100000 <= a -> a + n <= 0x80400000 -> off_video a n) as Hov.
  { intros a n H1 H2. split; [apply kspace_low; unfold KERNBASE in *; lia|right; change vidmem with 0x800b8000; unfold KERNBASE in *; lia]. }
  split_and!.
  - apply Hov; vm_compute; discriminate.
  - vm_compute. reflexivity.
  - intros [|[|i]] t ds Hi; [|discriminate Hi..]. injection Hi as <- <-. split_and!; [lia|lia|vm_compute; reflexivity|].
    split; [apply Hov; vm_compute; discriminate|]. right.
    split; [apply signed_atb_ok; vm_compute; reflexivity|]. split_and!.
    + vm_compute. reflexivity.
    + repeat constructor; lia.
    + apply Hov; vm_compute; discriminate.
    + vm_compute. reflexivity.
    + apply signed_atb_ok. vm_compute. reflexivity.
    + vm_compute. reflexivity.
Qed.

Lemma acpi_init_registers_witness :
  exists a s1, acpi_init (env:=demo_env) demo_firmware = (Ok tt, upd_info (fun _ => a) s1) /\
    lists a [(1, 0)] [(0, 0xfec00000, 0)] (<[0%nat := 2]> (replicate 256 0)).
Proof.
  destruct (acpi_init_registers (env:=demo_env) demo_firmware [] [] (replicate 256 0) demo_cons_ready demo_lists)
    as (_ & _ & H).
  destruct (H demo_descs) as (a & s1 & E & _ & Hl); [exact demo_tables_list|simpl; lia|simpl; lia|].
  exists a, s1. split; [exact E|exact Hl].
Defined.
