(* ===== verification/Pmem.v ===== *)
(** * Pmem: the physical memory map ([pmem.c], [pmem.h])

    The map the boot loader got from the firmware is bytes of RAM: a count and
    packed entries of 24 bytes.  RAM is that of a machine whose A20 line is
    enabled, so the test of the line succeeds wherever its two addresses are
    mapped to different words. *)

From S2P Require Import Prelude Machine Layout Cstring Spinlock Uart Screen Kalloc Idt Pic Acpi.

Definition PMEM_EXTENDED_ADDR : Z := 0x100000.
Definition E820_TYPE_RAM : Z := 1.
Definition E820_TYPE_RESERVED : Z := 2.
Definition E820_TYPE_ACPI : Z := 3.

(** [struct e820_entry] *)
Definition e820_base : Z := 0.
Definition e820_len : Z := 8.
Definition e820_type : Z := 16.
Definition sizeof_e820_entry : Z := 24.
(** [struct pmem_info] *)
Definition pmem_cnt : Z := 0.
Definition pmem_entries : Z := 4.

Definition upd_vm (f : vm_t -> vm_t) (s : machine) : machine := set_vm (f (vm s)) s.

Section WithEnv.
Context `{env : Env}.

Definition a20_enabled : K bool :=
  let r := 0x012345 in
  let w := 0x112345 in
  _ ← store32 r 0x87654321;
  _ ← store32 w 0x12345678;
  x ← load32 r;
  y ← load32 w;
  mret (negb (x =? y)).

(** The body of the loop of [pmem_init] for the entry [i]: the new [extmem]; 0
    is the null pointer. *)
Definition pmem_entry (info i extmem : Z) : K Z :=
  let entry := wrap32 (info + pmem_entries + sizeof_e820_entry * i) in
  base ← load64 (entry + e820_base);
  len ← load64 (entry + e820_len);
  type ← load32 (entry + e820_type);
  _ ← cprintf (Some ("BIOS-e820: [base=%l length=%l] type=%d" +:+ nl))
        [AW (base & 0xffffffff); AW (base >> 32); AW (len & 0xffffffff); AW (len >> 32); AW type];
  extmem ← (if extmem =? 0 then
      type ← load32 (entry + e820_type);
      if negb (type =? E820_TYPE_RAM) then mret extmem else
      base ← load64 (entry + e820_base);
      mret (if PMEM_EXTENDED_ADDR <=? base then entry else extmem)
    else mret extmem);
  a ← gets (fun s => acpi (vm s));
  _ ← (if negb (a =? 0) then mret tt else
      type ← load32 (entry + e820_type);
      if (type =? E820_TYPE_ACPI) || (negb (extmem =? 0) && (type =? E820_TYPE_RESERVED)) then
        _ ← modify (upd_vm (set_acpi entry));
        len ← load64 (entry + e820_len);
        modify (upd_vm (set_acpi_len (wrap32 len)))
      else mret tt);
  mret extmem.

Definition pmem_init (info : Z) : K unit :=
  ok ← a20_enabled;
  if negb ok then raise_panic "A20 line not enabled" else
  if info =? 0 then raise_panic "physical memory map not initialized" else
  cnt ← load32 (info + pmem_cnt);
  if cnt =? 0 then raise_panic "physical memory map not initialized" else
  _ ← print (AS ("BIOS-provided physical RAM map:" +:+ nl));
  extmem ← loop 32 (fun '(i, extmem) =>
      cnt ← load32 (info + pmem_cnt);
      if negb (i <? cnt) then mret (inr extmem) else
      extmem ← pmem_entry info i extmem;
      mret (inl (i + 1, extmem))) (0, 0);
  if extmem =? 0 then raise_panic "extended memory not found" else
  a ← gets (fun s => acpi (vm s));
  if a =? 0 then raise_panic "acpi memory not found" else
  base ← load64 (a + e820_base);
  _ ← modify (upd_vm (set_acpi (wrap32 base)));
  a ← gets (fun s => acpi (vm s));
  l ← gets (fun s => acpi_len (vm s));
  _ ← cprintf (Some ("ACPI Info: 0x%p, len=0x%x" +:+ nl)) [AW a; AW l];
  base ← load64 (extmem + e820_base);
  len ← load64 (extmem + e820_len);
  modify (upd_vm (set_phys_end (wrap32 (base + len)))).

End WithEnv.

(** ** What the map means *)

Record e820_entry : Type := mkE820 { ent_base : Z; ent_len : Z; ent_type : Z }.

Definition usable (e : e820_entry) : bool :=
  (ent_type e =? E820_TYPE_RAM) && (PMEM_EXTENDED_ADDR <=? ent_base e).

Definition usable_at (l : list e820_entry) (i : nat) : Prop := exists e, l !! i = Some e /\ usable e = true.
(** An ACPI area, or a reserved area after usable memory. *)
Definition acpi_at (l : list e820_entry) (j : nat) : Prop :=
  exists e, l !! j = Some e /\
    (ent_type e = E820_TYPE_ACPI \/ ent_type e = E820_TYPE_RESERVED /\ exists k, (k < j)%nat /\ usable_at l k).
(** [o] is the least number of [P], if there is one. *)
Definition least (P : nat -> Prop) (o : option nat) : Prop :=
  match o with Some i => P i /\ (forall j, (j < i)%nat -> ~ P j) | None => forall j, ~ P j end.

Definition mload64 (m : gmap Z Z) (a : Z) : Z := mload32 m a + 4294967296 * mload32 m (a + 4).

Definition entry_addr (info : Z) (i : nat) : Z := info + 4 + 24 * Z.of_nat i.
Definition entry_at (m : gmap Z Z) (a : Z) (e : e820_entry) : Prop :=
  mload64 m a = ent_base e /\ mload64 m (a + 8) = ent_len e /\ mload32 m (a + 16) = ent_type e.
(** The map [l] is in memory at [info]. *)
Definition map_at (m : gmap Z Z) (info : Z) (l : list e820_entry) : Prop :=
  mload32 m info = Z.of_nat (length l) /\ forall i e, l !! i = Some e -> entry_at m (entry_addr info i) e.

(** The page directory of kernel_entry.asm, at physical address [d]: its first
    entry maps the first 4 MB to themselves. *)
Definition boot_dir (d : Z) (s : machine) : Prop :=
  (cr3 (cpu_regs s) & 0xfffff000) = d /\ 0 <= d < 0x7ffffffc /\ mload32 (mem s) (d + KERNBASE) = 0x83.

Section A20.
Context `{env : Env}.

Lemma boot_dir_xlate d s va w : boot_dir d s -> 0 <= va < 0x400000 -> xlate s va w = Some (va + KERNBASE).
Proof.
  intros (Hd & _ & Hp) Hva. unfold xlate, mmu_walk. rewrite Hd, wrap32_small by lia.
  rewrite (proj2 (Z.leb_gt KERNBASE va)) by (unfold KERNBASE; lia).
  assert ((va >> 22) = 0) as -> by (rewrite Z.shiftr_div_pow2 by lia; apply Z.div_small; done).
  change (4 * (0 & 0x3ff)) with 0. rewrite Z.add_0_r, Hp. change (Z.testbit 131 0) with true.
  change (Z.testbit 131 7) with true. change (Z.testbit 131 1) with true. change (131 & 0xffc00000) with 0.
  cbn [negb andb]. rewrite andb_false_r. change 0x3fffff with (Z.ones 22). rewrite Z.land_ones by lia.
  rewrite Z.mod_small by done. f_equal.
Qed.
Lemma boot_dir_store d s va v :
  boot_dir d s -> 0 <= va < 0x400000 -> va < d \/ d + 4 <= va ->
  boot_dir d (set_mem (mstore8 (mem s) (va + KERNBASE) v) s).
Proof.
  intros (H1 & H2 & H3) Hva Hsep. split; [done|]. split; [done|]. rewrite <- H3. cbn [mem set_mem]. unfold mload32.
  rewrite !mload8_store8, !decide_False; [done|..]; unfold KERNBASE; intros E;
    rewrite !wrap32_small in E by lia; lia.
Qed.
Lemma store8_low d s va v :
  boot_dir d s -> 0 <= va < 0x400000 -> store8 va v s = (Ok tt, set_mem (mstore8 (mem s) (va + KERNBASE) v) s).
Proof. intros Hb Hva. unfold store8. by rewrite (boot_dir_xlate d). Qed.
Lemma load32_low d s va :
  boot_dir d s -> 0 <= va < 0x3ffffc -> load32 va s = (Ok (mload32 (mem s) (va + KERNBASE)), s).
Proof.
  intros Hb Hva. unfold load32, load8. do 4 (erewrite bind_ok by (rewrite (boot_dir_xlate d) by (done || lia); done)).
  unfold mload32. replace (va + KERNBASE + 1) with (va + 1 + KERNBASE) by lia.
  replace (va + KERNBASE + 2) with (va + 2 + KERNBASE) by lia.
  by replace (va + KERNBASE + 3) with (va + 3 + KERNBASE) by lia.
Qed.
Lemma store32_low d s va v :
  boot_dir d s -> 0 <= va < 0x3ffffc -> va + 4 <= d \/ d + 4 <= va ->
  store32 va v s = (Ok tt, set_mem (mstore32 (mem s) (va + KERNBASE) v) s) /\
  boot_dir d (set_mem (mstore32 (mem s) (va + KERNBASE) v) s).
Proof.
  intros Hb Hva Hsep. unfold store32.
  rewrite (bind_ok _ _ _ _ _ (store8_low d s va v Hb ltac:(lia))).
  pose proof (boot_dir_store d s va v Hb ltac:(lia) ltac:(lia)) as B1.
  rewrite (bind_ok _ _ _ _ _ (store8_low d _ (va + 1) (v >> 8) B1 ltac:(lia))).
  pose proof (boot_dir_store d _ (va + 1) (v >> 8) B1 ltac:(lia) ltac:(lia)) as B2.
  rewrite (bind_ok _ _ _ _ _ (store8_low d _ (va + 2) (v >> 16) B2 ltac:(lia))).
  pose proof (boot_dir_store d _ (va + 2) (v >> 16) B2 ltac:(lia) ltac:(lia)) as B3.
  rewrite (store8_low d _ (va + 3) (v >> 24) B3 ltac:(lia)).
  pose proof (boot_dir_store d _ (va + 3) (v >> 24) B3 ltac:(lia) ltac:(lia)) as B4.
  cbn [mem set_mem] in B4. unfold mstore32. cbn [mem set_mem].
  replace (va + KERNBASE + 1) with (va + 1 + KERNBASE) by lia.
  replace (va + KERNBASE + 2) with (va + 2 + KERNBASE) by lia.
  replace (va + KERNBASE + 3) with (va + 3 + KERNBASE) by lia. split; [done|exact B4].
Qed.

(** RAM after the test. *)
Definition a20_mem (m : gmap Z Z) : gmap Z Z := mstore32 (mstore32 m 0x80012345 0x87654321) 0x80112345 0x12345678.

Lemma a20_enabled_ok d s :
  boot_dir d s -> (d + 4 <= 0x12345 \/ 0x12349 <= d) /\ (d + 4 <= 0x112345 \/ 0x112349 <= d) ->
  a20_enabled s = (Ok true, set_mem (a20_mem (mem s)) s).
Proof.
  intros Hb Hd. unfold a20_enabled. cbv zeta.
  destruct (store32_low d s 0x12345 0x87654321 Hb) as [E1 B1]; [lia|lia|]. rewrite (bind_ok _ _ _ _ _ E1).
  destruct (store32_low d _ 0x112345 0x12345678 B1) as [E2 B2]; [lia|lia|]. rewrite (bind_ok _ _ _ _ _ E2).
  rewrite (bind_ok _ _ _ _ _ (load32_low d _ 0x12345 B2 ltac:(lia))).
  rewrite (bind_ok _ _ _ _ _ (load32_low d _ 0x112345 B2 ltac:(lia))). cbn [mem set_mem].
  change (0x12345 + KERNBASE) with 0x80012345. change (0x112345 + KERNBASE) with 0x80112345.
  rewrite mload32_store32_same, mload32_store32_ne, mload32_store32_same; [|apply disjoint32_sep; lia]. done.
Qed.
End A20.

(** ** The scan *)

Section Scan.
Context `{env : Env}.

Lemma load64_kernel a s : kspace a 8 -> load64 a s = (Ok (mload64 (mem s) a), s).
Proof. intros Hk. unfold load64. do 2 erewrite bind_ok by (apply load32_kernel; kspace_tac). done. Qed.

(** The pointer to an entry. *)
Definition entry_ptr (info : Z) (o : option nat) : Z := match o with Some i => entry_addr info i | None => 0 end.

Definition next_ext (e : e820_entry) (i : nat) (ext : option nat) : option nat :=
  match ext with None => if usable e then Some i else None | Some _ => ext end.
Definition acpi_here (e : e820_entry) (ext : option nat) : bool :=
  (ent_type e =? E820_TYPE_ACPI) || (bool_decide (is_Some ext) && (ent_type e =? E820_TYPE_RESERVED)).
(** The statics after an entry. *)
Definition note_acpi (info : Z) (e : e820_entry) (i : nat) (ext ac : option nat) (v : vm_t) : vm_t :=
  match ac with
  | None => if acpi_here e ext then set_acpi_len (wrap32 (ent_len e)) (set_acpi (entry_addr info i) v) else v
  | Some _ => v
  end.
Definition next_acpi (e : e820_entry) (i : nat) (ext ac : option nat) : option nat :=
  match ac with None => if acpi_here e ext then Some i else None | Some _ => ac end.

Lemma entry_ptr_eqb info o : KERNBASE <= info -> (entry_ptr info o =? 0) = bool_decide (o = None).
Proof.
  intros Hi. destruct o as [i|]; [|done]. rewrite bool_decide_eq_false_2 by done. apply Z.eqb_neq. simpl.
  unfold entry_addr, KERNBASE in *. lia.
Qed.

Lemma pmem_entry_ok info i e ext ac s :
  cons_ready s -> KERNBASE <= info -> off_video (entry_addr info i) 24 -> entry_at (mem s) (entry_addr info i) e ->
  acpi (vm s) = entry_ptr info ac ->
  exists s1, quiet s s1 /\
    pmem_entry info (Z.of_nat i) (entry_ptr info ext) s =
    (Ok (entry_ptr info (next_ext e i ext)), upd_vm (note_acpi info e i (next_ext e i ext) ac) s1).
Proof.
  intros Hc Hi Ho (H1 & H2 & H3) Hac. unfold pmem_entry, pmem_entries, sizeof_e820_entry, e820_base, e820_len, e820_type.
  assert (kspace (entry_addr info i) 24) as Hk by apply Ho. fold (entry_addr info i).
  rewrite wrap32_small by kspace_tac. cbv zeta. set (a := entry_addr info i) in *. rewrite Z.add_0_r.
  do 2 erewrite bind_ok by (apply load64_kernel; kspace_tac). erewrite bind_ok by (apply load32_kernel; kspace_tac).
  rewrite H1, H2, H3.
  match goal with |- context [cprintf ?f ?args] =>
    destruct (cprintf_fits ("BIOS-e820: [base=%l length=%l] type=%d" +:+ nl) args s Hc eq_refl) as (s1 & E1 & Q1) end.
  rewrite (bind_ok _ _ _ _ _ E1). exists s1. split; [done|].
  assert (agree (mem s) (mem s1)) as Hm by exact (proj2 Q1).
  assert (entry_at (mem s1) a e) as (G1 & G2 & G3).
  { unfold entry_at, mload64. rewrite !(agree_load32 _ _ Hm a 24) by (done || lia). done. }
  assert (kspace a 8 /\ kspace (a + 8) 8 /\ kspace (a + 16) 4) as (K1 & K2 & K3) by (split_and!; kspace_tac).
  assert (forall k : Z -> K Z, (r ← (if entry_ptr info ext =? 0 then
      type ← load32 (a + 16); if negb (type =? E820_TYPE_RAM) then mret (entry_ptr info ext) else
      base ← load64 a; mret (if PMEM_EXTENDED_ADDR <=? base then a else entry_ptr info ext)
    else mret (entry_ptr info ext)); k r) s1 = k (entry_ptr info (next_ext e i ext)) s1) as ->.
  { intros k. rewrite entry_ptr_eqb by done. destruct ext as [j|]; [done|]. cbn [bool_decide].
    change (bool_decide (None = None)) with true. cbv iota. unfold mbind at 1, M_bind at 1.
    erewrite bind_ok by (by apply load32_kernel). rewrite G3. unfold next_ext, usable.
    destruct (ent_type e =? E820_TYPE_RAM); cbn [negb andb]; [|done].
    erewrite bind_ok by (by apply load64_kernel). rewrite G1. by destruct (PMEM_EXTENDED_ADDR <=? ent_base e). }
  mstep. rewrite (quiet_vm _ _ Q1), Hac, entry_ptr_eqb by done.
  set (ext' := next_ext e i ext). destruct ac as [j|].
  - cbn. unfold upd_vm. cbn. by destruct s1.
  - change (negb (bool_decide (None = None))) with false. cbv iota. unfold mbind at 1, M_bind at 1.
    erewrite bind_ok by (by apply load32_kernel). rewrite G3. unfold note_acpi, acpi_here. rewrite entry_ptr_eqb by done.
    assert (negb (bool_decide (ext' = None)) = bool_decide (is_Some ext')) as ->.
    { destruct ext'; reflexivity. }
    destruct (_ || _).
    + mstep. erewrite bind_ok by (by apply load64_kernel). cbn [mem upd_vm set_vm]. rewrite G2. done.
    + unfold upd_vm. by destruct s1.
Qed.

(** Searching one entry more. *)
Lemma least_snoc (P : list e820_entry -> nat -> Prop) l e o (b : bool) :
  (forall l j, P l j -> (j < length l)%nat) -> (forall j, (j < length l)%nat -> P (l ++ [e]) j <-> P l j) ->
  (b = true <-> P (l ++ [e]) (length l)) -> least (P l) o ->
  least (P (l ++ [e])) (match o with None => if b then Some (length l) else None | Some _ => o end).
Proof.
  intros Hlen Hloc Hb Ho. destruct o as [i|].
  - destruct Ho as [Hi Hmin]. pose proof (Hlen _ _ Hi) as Hli. split; [by apply Hloc|].
    intros j Hj Hp. apply (Hmin j Hj). by apply Hloc; [lia|].
  - simpl in Ho. destruct b; simpl.
    + split; [by apply Hb|]. intros j Hj Hp. apply (Ho j). by apply Hloc.
    + intros j Hp. pose proof (Hlen _ _ Hp) as Hj. rewrite length_app in Hj. simpl in Hj.
      destruct (decide (j = length l)) as [->|]; [by apply Hb in Hp|]. apply (Ho j). by apply Hloc; [lia|].
Qed.

Lemma usable_at_lt l j : usable_at l j -> (j < length l)%nat.
Proof. intros (e & H & _). by apply lookup_lt_Some in H. Qed.
Lemma usable_at_snoc l e j : (j < length l)%nat -> usable_at (l ++ [e]) j <-> usable_at l j.
Proof. intros Hj. unfold usable_at. by rewrite lookup_app_l. Qed.
Lemma acpi_at_lt l j : acpi_at l j -> (j < length l)%nat.
Proof. intros (e & H & _). by apply lookup_lt_Some in H. Qed.
Lemma acpi_at_snoc l e j : (j < length l)%nat -> acpi_at (l ++ [e]) j <-> acpi_at l j.
Proof.
  intros Hj. unfold acpi_at. rewrite lookup_app_l by done.
  assert (forall k, (k < j)%nat /\ usable_at (l ++ [e]) k <-> (k < j)%nat /\ usable_at l k) as Hk.
  { intros k. split; intros [Hlt Hu]; (split; [done|]); apply (usable_at_snoc l e k); (lia || done). }
  by setoid_rewrite Hk.
Qed.

Lemma usable_next l e ext :
  least (usable_at l) ext -> least (usable_at (l ++ [e])) (next_ext e (length l) ext).
Proof.
  apply least_snoc; [apply usable_at_lt|by apply usable_at_snoc|]. unfold usable_at.
  rewrite lookup_app_r, Nat.sub_diag by done. simpl. naive_solver.
Qed.
Lemma acpi_next l e ext ac :
  least (usable_at (l ++ [e])) ext -> least (acpi_at l) ac ->
  least (acpi_at (l ++ [e])) (next_acpi e (length l) ext ac).
Proof.
  intros Hext. apply least_snoc; [apply acpi_at_lt|by apply acpi_at_snoc|]. unfold acpi_here, acpi_at.
  rewrite lookup_app_r, Nat.sub_diag by done. simpl. rewrite orb_true_iff, andb_true_iff, !Z.eqb_eq, bool_decide_eq_true.
  split.
  - intros H. exists e. split; [done|]. destruct H as [H|[[k ->] H]]; [by left|right]. split; [done|].
    destruct Hext as [Hk _]. pose proof (usable_at_lt _ _ Hk) as Hlt. rewrite length_app in Hlt. simpl in Hlt.
    exists k. split; [|done]. destruct (decide (k = length l)) as [->|]; [|lia]. destruct Hk as (e' & He & Hu).
    rewrite lookup_app_r, Nat.sub_diag in He by done. injection He as <-. unfold usable in Hu. by rewrite H in Hu.
  - intros (e' & [= <-] & [H|(H & k & Hk & Hu)]); [by left|right]. split; [|done].
    destruct ext as [x|]; [by eexists|]. by destruct (Hext k).
Qed.

(** [st] is [s] with the statics [v], up to printing. *)
Definition with_vm (s : machine) (v : vm_t) (st : machine) : Prop := exists s1, st = set_vm v s1 /\ quiet s s1.

Lemma with_vm_vm s v st : with_vm s v st -> vm st = v.
Proof. by intros (s1 & -> & _). Qed.
Lemma with_vm_agree s v st : with_vm s v st -> agree (mem s) (mem st).
Proof. intros (s1 & -> & Q). exact (proj2 Q). Qed.
Lemma with_vm_cons_ready s v st : with_vm s v st -> cons_ready s -> cons_ready st.
Proof. intros (s1 & -> & Q) Hc. exact (quiet_cons_ready _ _ Q Hc). Qed.
Lemma with_vm_refl s : with_vm s (vm s) s.
Proof. exists s. split; [by destruct s|done]. Qed.
Lemma with_vm_step s v st st1 f : with_vm s v st -> quiet st st1 -> with_vm s (f v) (upd_vm f st1).
Proof.
  intros (s1 & -> & Q) [E H]. exists (set_vm (vm s) st1). split.
  - unfold upd_vm. by rewrite <- (equiv_vm _ _ E : vm st1 = v).
  - etrans; [exact Q|]. split; [|exact H]. pose proof (f_equal (set_vm (vm s)) E) as E'.
    rewrite <- (quiet_vm _ _ Q) in E' |- *. by destruct s1.
Qed.

(** The statics after the entries of which [ac] was noted. *)
Definition noted (info : Z) (l : list e820_entry) (ac : option nat) (v : vm_t) : vm_t :=
  match ac with
  | Some j => match l !! j with
              | Some e => set_acpi_len (wrap32 (ent_len e)) (set_acpi (entry_addr info j) v)
              | None => v
              end
  | None => v
  end.

Definition pmem_loop_body (info : Z) : Z * Z -> K ((Z * Z) + Z) := fun '(i, extmem) =>
  cnt ← load32 (info + pmem_cnt);
  if negb (i <? cnt) then mret (inr extmem) else
  extmem ← pmem_entry info i extmem;
  mret (inl (i + 1, extmem)).

Lemma map_at_agree m m' info l n :
  agree m m' -> off_video info n -> 4 + 24 * Z.of_nat (length l) <= n -> map_at m info l -> map_at m' info l.
Proof.
  intros Hm Ho Hn [H1 H2]. pose proof (Nat2Z.is_nonneg (length l)).
  split; [rewrite <- H1; apply (agree_load32 _ _ Hm info n); (done || lia)|].
  intros i e Hi. specialize (H2 i e Hi). apply lookup_lt_Some in Hi. unfold entry_at, mload64, entry_addr in *.
  rewrite !(agree_load32 _ _ Hm info n) by (done || lia). done.
Qed.

Lemma pmem_loop_ok info l s :
  cons_ready s -> off_video info (4 + 24 * Z.of_nat (length l)) -> map_at (mem s) info l -> acpi (vm s) = 0 ->
  exists ext ac st, loop 32 (pmem_loop_body info) (0, 0) s = (Ok (entry_ptr info ext), st) /\
    least (usable_at l) ext /\ least (acpi_at l) ac /\ with_vm s (noted info l ac (vm s)) st.
Proof.
  intros Hc Ho Hmap Hac. assert (kspace info (4 + 24 * Z.of_nat (length l))) as Hk by apply Ho.
  set (I := fun (n : nat) (x : Z * Z) (st : machine) => exists pre l' ext ac, l = pre ++ l' /\ n = length l' /\
    x = (Z.of_nat (length pre), entry_ptr info ext) /\ least (usable_at pre) ext /\ least (acpi_at pre) ac /\
    with_vm s (noted info l ac (vm s)) st).
  set (Q := fun (r : result Z) (st : machine) => exists ext ac, r = Ok (entry_ptr info ext) /\
    least (usable_at l) ext /\ least (acpi_at l) ac /\ with_vm s (noted info l ac (vm s)) st).
  destruct (loop_inv_Z (pmem_loop_body info) I Q 32 (length l) (0, 0) s) as (ext & ac & E1 & H1 & H2 & H3).
  - intros n x st (pre & l' & ext & ac & -> & -> & -> & Hext & Hacp & Hst). unfold pmem_loop_body, pmem_cnt.
    rewrite length_app in Hk, Ho. rewrite Z.add_0_r. erewrite bind_ok by (apply load32_kernel; kspace_tac).
    pose proof (map_at_agree _ _ _ _ _ (with_vm_agree _ _ _ Hst) Ho ltac:(rewrite length_app; reflexivity) Hmap) as [M1 M2].
    rewrite M1, length_app. destruct l' as [|e l'].
    + rewrite (proj2 (Z.ltb_ge _ _)) by (simpl; lia). cbn [negb]. unfold Q. rewrite app_nil_r in *. by exists ext, ac.
    + rewrite (proj2 (Z.ltb_lt _ _)) by (simpl; lia). cbn [negb].
      assert (pre ++ e :: l' = (pre ++ [e]) ++ l') as Eapp by (by rewrite <- app_assoc).
      destruct (pmem_entry_ok info (length pre) e ext ac st) as (s1 & Q1 & E1).
      * by eapply with_vm_cons_ready.
      * apply Hk.
      * unfold entry_addr. destruct Ho as [_ Ho]. simpl in *. split; [kspace_tac|lia].
      * apply M2. by rewrite lookup_app_r, Nat.sub_diag.
      * rewrite (with_vm_vm _ _ _ Hst). destruct ac as [j|]; simpl; [|done].
        destruct Hacp as [(x & Hx & _) _]. by rewrite (lookup_app_l_Some _ _ _ _ Hx).
      * rewrite (bind_ok _ _ _ _ _ E1). exists (length l'). split; [simpl; lia|].
        exists (pre ++ [e]), l', (next_ext e (length pre) ext), (next_acpi e (length pre) (next_ext e (length pre) ext) ac).
        pose proof (usable_next pre e ext Hext) as Hext'.
        split_and!; [done|done|f_equal; rewrite length_app; simpl; lia|done|by apply acpi_next|].
        pose proof (with_vm_step _ _ _ _ (note_acpi info e (length pre) (next_ext e (length pre) ext) ac) Hst Q1) as W.
        replace (noted info (pre ++ e :: l') (next_acpi e (length pre) (next_ext e (length pre) ext) ac) (vm s))
          with (note_acpi info e (length pre) (next_ext e (length pre) ext) ac (noted info (pre ++ e :: l') ac (vm s))); [done|].
        unfold note_acpi, next_acpi. destruct ac; [done|]. destruct (acpi_here e _); [|done].
        simpl. by rewrite lookup_app_r, Nat.sub_diag.
  - exists [], l, None, None. split_and!; try done; [by intros j (e & He & _)|by intros j (e & He & _)|apply with_vm_refl].
  - unfold kspace, KERNBASE in Hk. lia.
  - destruct (loop 32 (pmem_loop_body info) (0, 0) s) as [r st]. cbn [fst snd] in *. subst r. exists ext, ac, st.
    split; [reflexivity|]. split; [exact H1|]. split; [exact H2|exact H3].
Qed.
End Scan.

(** ** The outcomes of [pmem_init] *)

Lemma least_unique P o1 o2 : least P o1 -> least P o2 -> o1 = o2.
Proof.
  destruct o1 as [i|], o2 as [j|]; simpl; try done.
  - intros [H1 H2] [H3 H4]. f_equal. destruct (Nat.lt_trichotomy i j) as [H|[H|H]]; [|done|]; exfalso; firstorder.
  - intros [H1 _] H. by destruct (H i).
  - intros H [H1 _]. by destruct (H j).
Qed.

(** What [main] finds when it calls [pmem_init]: the page directory of the
    entry code, and the map [l], away from the words the A20 test writes. *)
Record pmem_ready `{env : Env} (d info : Z) (l : list e820_entry) (s : machine) : Prop := {
  pr_dir : boot_dir d s;
  pr_dir_away : (d + 4 <= 0x12345 \/ 0x12349 <= d) /\ (d + 4 <= 0x112345 \/ 0x112349 <= d);
  pr_cons : cons_ready s;
  pr_acpi : acpi (vm s) = 0;
  pr_off : off_video info (4 + 24 * Z.of_nat (length l));
  pr_away : forall a, a = 0x80012345 \/ a = 0x80112345 -> info + 4 + 24 * Z.of_nat (length l) <= a \/ a + 4 <= info;
  pr_map : map_at (mem s) info l;
}.

Section Init.
Context `{env : Env} (d info : Z) (l : list e820_entry) (s : machine) (Hr : pmem_ready d info l s).

Lemma a20_load32 a :
  info <= a -> a + 4 <= info + 4 + 24 * Z.of_nat (length l) -> mload32 (a20_mem (mem s)) a = mload32 (mem s) a.
Proof.
  intros H1 H2. destruct (pr_off _ _ _ _ Hr) as [Hk _].
  pose proof (pr_away _ _ _ _ Hr 0x80012345 (or_introl eq_refl)). pose proof (pr_away _ _ _ _ Hr 0x80112345 (or_intror eq_refl)).
  unfold a20_mem. rewrite !mload32_store32_ne; [done|apply disjoint32_sep; kspace_tac..].
Qed.

Lemma a20_map : map_at (a20_mem (mem s)) info l.
Proof.
  destruct (pr_map _ _ _ _ Hr) as [H1 H2]. pose proof (Nat2Z.is_nonneg (length l)).
  split; [by rewrite a20_load32 by lia|]. intros i e Hi. specialize (H2 i e Hi). apply lookup_lt_Some in Hi.
  unfold entry_at, mload64, entry_addr in *. rewrite !a20_load32 by lia. done.
Qed.

Local Abbreviation s0 := (set_mem (a20_mem (mem s)) s).

(** [pmem_init] up to the end of its loop. *)
Lemma pmem_init_scan :
  l <> [] -> exists ext ac st, least (usable_at l) ext /\ least (acpi_at l) ac /\
    with_vm s0 (noted info l ac (vm s)) st /\
    pmem_init info s = (if entry_ptr info ext =? 0 then raise_panic "extended memory not found" else
      a ← gets (fun s => acpi (vm s));
      if a =? 0 then raise_panic "acpi memory not found" else
      base ← load64 (a + e820_base);
      _ ← modify (upd_vm (set_acpi (wrap32 base)));
      a ← gets (fun s => acpi (vm s));
      l ← gets (fun s => acpi_len (vm s));
      _ ← cprintf (Some ("ACPI Info: 0x%p, len=0x%x" +:+ nl)) [AW a; AW l];
      base ← load64 (entry_ptr info ext + e820_base);
      len ← load64 (entry_ptr info ext + e820_len);
      modify (upd_vm (set_phys_end (wrap32 (base + len))))) st.
Proof.
  intros Hl. pose proof Hr as [H1 H2 H3 H4 H5 H6 _]. unfold pmem_init.
  rewrite (bind_ok _ _ _ _ _ (a20_enabled_ok d s H1 H2)). cbn [negb].
  assert (kspace info (4 + 24 * Z.of_nat (length l))) as Hk by apply H5.
  rewrite (proj2 (Z.eqb_neq info 0)) by kspace_tac.
  destruct a20_map as [M1 M2].
  assert (load32 (info + pmem_cnt) s0 = (Ok (Z.of_nat (length l)), s0)) as E0.
  { unfold pmem_cnt. rewrite Z.add_0_r, load32_kernel by kspace_tac. by rewrite <- M1. }
  rewrite (bind_ok _ _ _ _ _ E0).
  assert (Z.of_nat (length l) <> 0) as Hn by (destruct l; simpl; [done|lia]). rewrite (proj2 (Z.eqb_neq _ _) Hn).
  destruct (cprintf_fits "%s" [AS ("BIOS-provided physical RAM map:" +:+ nl)] s0 H3 eq_refl) as (s1 & E1 & Q1).
  unfold print. rewrite (bind_ok _ _ _ _ _ E1).
  destruct (pmem_loop_ok info l s1) as (ext & ac & st & E & Hext & Hac & Hst).
  - exact (quiet_cons_ready _ _ Q1 H3).
  - done.
  - apply (map_at_agree (a20_mem (mem s)) _ _ _ _ (proj2 Q1) H5); [lia|split; done].
  - by rewrite (quiet_vm _ _ Q1).
  - exists ext, ac, st. split; [done|]. split; [done|]. split.
    + destruct Hst as (s2 & -> & Q2). rewrite (quiet_vm _ _ Q1). exists s2. split; [done|]. by etrans.
    + unfold pmem_loop_body in E. rewrite (bind_ok _ _ _ _ _ E). done.
Qed.

Lemma pmem_init_empty :
  l = [] -> pmem_init info s = (Panic "physical memory map not initialized", s0).
Proof.
  intros Hl. pose proof Hr as [H1 H2 H3 H4 H5 H6 _]. unfold pmem_init.
  rewrite (bind_ok _ _ _ _ _ (a20_enabled_ok d s H1 H2)). cbn [negb].
  assert (kspace info (4 + 24 * Z.of_nat (length l))) as Hk by apply H5.
  rewrite (proj2 (Z.eqb_neq info 0)) by kspace_tac. destruct a20_map as [M1 M2].
  assert (load32 (info + pmem_cnt) s0 = (Ok (Z.of_nat (length l)), s0)) as E0.
  { unfold pmem_cnt. rewrite Z.add_0_r, load32_kernel by kspace_tac. by rewrite <- M1. }
  rewrite (bind_ok _ _ _ _ _ E0). by rewrite Hl.
Qed.

Lemma map_entry m i e :
  agree (a20_mem (mem s)) m -> l !! i = Some e ->
  mload64 m (entry_addr info i) = ent_base e /\ mload64 m (entry_addr info i + 8) = ent_len e /\
  kspace (entry_addr info i) 24.
Proof.
  intros Hm He. destruct (map_at_agree _ m info l _ Hm (pr_off _ _ _ _ Hr) ltac:(lia) a20_map) as [_ M].
  destruct (M i e He) as (E1 & E2 & _). split; [done|]. split; [done|]. destruct (pr_off _ _ _ _ Hr) as [Hk _].
  apply lookup_lt_Some in He. unfold entry_addr. kspace_tac.
Qed.

Lemma pmem_init_finds i e j a :
  least (usable_at l) (Some i) -> l !! i = Some e -> least (acpi_at l) (Some j) -> l !! j = Some a ->
  exists st, pmem_init info s = (Ok tt, st) /\
    with_vm s0 (mkVm (kpgdir (vm s)) (wrap32 (ent_base e + ent_len e)) (wrap32 (ent_base a)) (wrap32 (ent_len a))) st.
Proof.
  intros Hi' He Hj' Ha. pose proof Hr as [H1 H2 H3 H4 H5 H6 H7]. assert (KERNBASE <= info) as Hi by apply H5.
  destruct (pmem_init_scan) as (ext & ac & st & Hext & Hac & Hst & ->).
  { destruct Hi' as [(x & Hx & _) _]. by intros ->. }
  rewrite (least_unique _ _ _ Hext Hi'), entry_ptr_eqb by done. rewrite (least_unique _ _ _ Hac Hj') in Hst.
  rewrite bool_decide_eq_false_2 by done. mstep. rewrite (with_vm_vm _ _ _ Hst). cbn [noted]. rewrite Ha.
  cbn [acpi set_acpi set_acpi_len]. rewrite (entry_ptr_eqb info (Some j) Hi : (entry_addr info j =? 0) = _).
  rewrite bool_decide_eq_false_2 by done. unfold e820_base, e820_len. rewrite !Z.add_0_r.
  destruct (map_entry (mem st) i e) as (Ei1 & Ei2 & Ki); [exact (with_vm_agree _ _ _ Hst)|done|].
  destruct (map_entry (mem st) j a) as (Ej1 & _ & Kj); [exact (with_vm_agree _ _ _ Hst)|done|].
  erewrite bind_ok by (apply load64_kernel; kspace_tac). rewrite Ej1. mstep. cbn [vm acpi acpi_len upd_vm set_vm].
  match goal with |- context [mbind _ (cprintf ?f ?args) ?st] =>
    destruct (cprintf_fits ("ACPI Info: 0x%p, len=0x%x" +:+ nl) args st) as (s1 & E1 & Q1) end; [|done|].
  { exact (with_vm_cons_ready _ _ _ Hst H3). }
  rewrite (bind_ok _ _ _ _ _ E1).
  pose proof (with_vm_step _ _ _ _ (set_acpi (wrap32 (ent_base a))) Hst (reflexivity st)) as W.
  destruct (map_entry (mem s1) i e) as (Fi1 & Fi2 & _); [|done|].
  { intros b Hb Hv. rewrite (proj2 Q1 b Hb Hv). by apply (with_vm_agree _ _ _ W). }
  cbn [entry_ptr]. do 2 erewrite bind_ok by (apply load64_kernel; kspace_tac). rewrite Fi1, Fi2.
  eexists. split; [done|].
  pose proof (with_vm_step _ _ _ _ (set_phys_end (wrap32 (ent_base e + ent_len e))) W Q1) as W'.
  cbn [noted] in W'. by rewrite Ha in W'.
Qed.

(** C24: pmem_init ends in one of four ways, decided by the firmware's map: an
    empty map, a map with no usable RAM from 1 MB on, or one with no ACPI area
    (an entry of ACPI type, or a reserved one after usable RAM) each have
    their panic; otherwise phys_end becomes the end of the first usable area
    and acpi and acpi_len the base and the length of the first ACPI area,
    truncated to 32 bits, and nothing else changes but the two words the test
    of the A20 line writes. *)
Theorem pmem_init_outcomes :
  (l = [] -> exists st, pmem_init info s = (Panic "physical memory map not initialized", st)) /\
  (l <> [] -> least (usable_at l) None ->
     exists st, pmem_init info s = (Panic "extended memory not found", st)) /\
  (forall i, least (usable_at l) (Some i) -> least (acpi_at l) None ->
     exists st, pmem_init info s = (Panic "acpi memory not found", st)) /\
  (forall i e j a, least (usable_at l) (Some i) -> l !! i = Some e -> least (acpi_at l) (Some j) -> l !! j = Some a ->
     exists st, pmem_init info s = (Ok tt, st) /\
       with_vm s0 (mkVm (kpgdir (vm s)) (wrap32 (ent_base e + ent_len e)) (wrap32 (ent_base a)) (wrap32 (ent_len a))) st).
Proof.
  split; [intros Hl; exists s0; by apply pmem_init_empty|]. pose proof Hr as [H1 H2 H3 H4 H5 H6 H7].
  assert (KERNBASE <= info) as Hi by apply H5.
  assert (forall i, usable_at l i -> l <> []) as Hne by (by intros i (e & He & _) ->).
  split_and!.
  - intros Hl Hnone. destruct (pmem_init_scan Hl) as (ext & ac & st & Hext & _ & _ & ->).
    rewrite (least_unique _ _ _ Hext Hnone). by eexists.
  - intros i Hi' Hnone. destruct (pmem_init_scan (Hne i (proj1 Hi'))) as (ext & ac & st & Hext & Hac & Hst & ->).
    rewrite (least_unique _ _ _ Hext Hi'), entry_ptr_eqb by done. rewrite (least_unique _ _ _ Hac Hnone) in Hst.
    cbn [bool_decide]. rewrite bool_decide_eq_false_2 by done. mstep. rewrite (with_vm_vm _ _ _ Hst). cbn [noted].
    rewrite H4. by eexists.
  - apply pmem_init_finds.
Qed.
End Init.

(** *** Witness *)

Definition encode_entry (e : e820_entry) : list Z :=
  le32 (ent_base e) ++ le32 (ent_base e >> 32) ++ le32 (ent_len e) ++ le32 (ent_len e >> 32) ++ le32 (ent_type e) ++ le32 0.
Definition encode_map (l : list e820_entry) : list Z := le32 (Z.of_nat (length l)) ++ concat (map encode_entry l).

(** The map of a virtual machine with 128 MB. *)
Definition demo_map : list e820_entry :=
  [mkE820 0 0x9fc00 1; mkE820 0x9fc00 0x400 2; mkE820 0xf0000 0x10000 2; mkE820 0x100000 0x7ee0000 1;
   mkE820 0x7fe0000 0x20000 2; mkE820 0xfffc0000 0x40000 2].
Definition demo_boot : machine :=
  set_cpu_regs (set_cr3 0x109000 (cpu_regs demo_machine))
    (set_mem (put_bytes 0x8000a000 (encode_map demo_map) (put_bytes 0x80109000 (le32 0x83) ∅)) demo_machine).

Lemma demo_pmem_ready : pmem_ready (env:=demo_env) 0x109000 0x8000a000 demo_map demo_boot.
Proof.
  split.
  - split_and!; vm_compute; done.
  - split; [right|left]; discriminate.
  - exact demo_cons_ready.
  - reflexivity.
  - split; [apply kspace_low; vm_compute; discriminate|]. left. vm_compute. discriminate.
  - intros a [->| ->]; left; discriminate.
  - split; [vm_compute; reflexivity|]. intros i e Hi.
    do 6 (destruct i as [|i]; [injection Hi as <-; split_and!; vm_compute; reflexivity|]). discriminate Hi.
Qed.

Lemma demo_map_usable : least (usable_at demo_map) (Some 3%nat).
Proof.
  split; [by eexists|]. intros j Hj (e & He & Hu).
  do 3 (destruct j as [|j]; [injection He as <-; discriminate Hu|]). lia.
Qed.
Lemma demo_map_acpi : least (acpi_at demo_map) (Some 4%nat).
Proof.
  split.
  - eexists. split; [reflexivity|]. right. split; [reflexivity|]. exists 3%nat. split; [lia|]. by eexists.
  - intros j Hj (e & He & Hu).
    do 4 (destruct j as [|j]; [injection He as <-; destruct Hu as [Hu|(Hu & k & Hk & e' & He' & Hu')]; [discriminate Hu|];
      do 3 (destruct k as [|k]; [first [lia|injection He' as <-; discriminate Hu']|]); lia|]). lia.
Qed.

Lemma pmem_init_outcomes_witness :
  exists st, pmem_init (env:=demo_env) 0x8000a000 demo_boot = (Ok tt, st) /\
    phys_end (vm st) = 0x7fe0000 /\ acpi (vm st) = 0x7fe0000 /\ acpi_len (vm st) = 0x20000.
Proof.
  destruct (pmem_init_outcomes (env:=demo_env) 0x109000 0x8000a000 demo_map demo_boot demo_pmem_ready) as (_ & _ & _ & H).
  destruct (H 3%nat (mkE820 0x100000 0x7ee0000 1) 4%nat (mkE820 0x7fe0000 0x20000 2)) as (st & E & W).
  - exact demo_map_usable.
  - reflexivity.
  - exact demo_map_acpi.
  - reflexivity.
  - exists st. split; [exact E|]. rewrite (with_vm_vm _ _ _ W). split_and!; reflexivity.
Defined.
