(* ===== verification/Kbd.v ===== *)
(** * Kbd: the keyboard ([kbd.c], [kbd.h], [kbdmapus.c])

    The keycodes, the three tables entry by entry, and the interrupt handler.
    The specification half says what a scancode does. *)

From S2P Require Import Prelude Machine Layout Cstring Spinlock Uart Screen Kalloc Idt Pic.

Definition KBD_BREAKCODE_LIMIT : Z := 0x80.
Definition IO_PORT_KBD_DATA : Z := 0x60.
Definition KBD_EXTENDED_SCANCODE : Z := 0xE0.
Definition KBD_IS_MAKECODE (c : Z) : bool := c <? KBD_BREAKCODE_LIMIT.

(** [enum bkd_keycode] (kbd.h), in order. *)
Inductive bkd_keycode : Type :=
  | KEY_SPACE | KEY_0 | KEY_1 | KEY_2 | KEY_3 | KEY_4 | KEY_5 | KEY_6 | KEY_7 | KEY_8 | KEY_9
  | KEY_A | KEY_B | KEY_C | KEY_D | KEY_E | KEY_F | KEY_G | KEY_H | KEY_I | KEY_J | KEY_K
  | KEY_L | KEY_M | KEY_N | KEY_O | KEY_P | KEY_Q | KEY_R | KEY_S | KEY_T | KEY_U | KEY_V
  | KEY_W | KEY_X | KEY_Y | KEY_Z | KEY_RETURN | KEY_ESCAPE | KEY_BACKSPACE | KEY_UP | KEY_DOWN
  | KEY_LEFT | KEY_RIGHT | KEY_F1 | KEY_F2 | KEY_F3 | KEY_F4 | KEY_F5 | KEY_F6 | KEY_F7
  | KEY_F8 | KEY_F9 | KEY_F10 | KEY_F11 | KEY_F12 | KEY_F13 | KEY_F14 | KEY_F15 | KEY_DOT
  | KEY_COMMA | KEY_COLON | KEY_SEMICOLON | KEY_SLASH | KEY_BACKSLASH | KEY_PLUS | KEY_MINUS
  | KEY_ASTERISK | KEY_EXCLAMATION | KEY_QUESTION | KEY_QUOTEDOUBLE | KEY_QUOTE | KEY_EQUAL
  | KEY_HASH | KEY_PERCENT | KEY_AMPERSAND | KEY_UNDERSCORE | KEY_LEFTPARENTHESIS
  | KEY_RIGHTPARENTHESIS | KEY_LEFTBRACKET | KEY_RIGHTBRACKET | KEY_LEFTCURL | KEY_RIGHTCURL
  | KEY_DOLLAR | KEY_POUND | KEY_EURO | KEY_LESS | KEY_GREATER | KEY_BAR | KEY_GRAVE
  | KEY_TILDE | KEY_AT | KEY_CARRET | KEY_KP_0 | KEY_KP_1 | KEY_KP_2 | KEY_KP_3 | KEY_KP_4
  | KEY_KP_5 | KEY_KP_6 | KEY_KP_7 | KEY_KP_8 | KEY_KP_9 | KEY_KP_PLUS | KEY_KP_MINUS
  | KEY_KP_DECIMAL | KEY_KP_DIVIDE | KEY_KP_ASTERISK | KEY_KP_NUMLOCK | KEY_KP_ENTER | KEY_TAB
  | KEY_CAPSLOCK | KEY_LSHIFT | KEY_LCTRL | KEY_LALT | KEY_LWIN | KEY_RSHIFT | KEY_RCTRL
  | KEY_RALT | KEY_RWIN | KEY_INSERT | KEY_DELETE | KEY_HOME | KEY_END | KEY_PAGEUP
  | KEY_PAGEDOWN | KEY_SCROLLLOCK | KEY_PAUSE | KEY_NULL | KEY_NUMKEYCODES.

#[export] Instance bkd_keycode_eq_dec : EqDecision bkd_keycode.
Proof. solve_decision. Defined.

(** The value of each enumerator. *)
Definition keycode_num (k : bkd_keycode) : Z :=
  match k with
  | KEY_SPACE => 0 | KEY_0 => 1 | KEY_1 => 2 | KEY_2 => 3 | KEY_3 => 4 | KEY_4 => 5
  | KEY_5 => 6 | KEY_6 => 7 | KEY_7 => 8 | KEY_8 => 9 | KEY_9 => 10 | KEY_A => 11 | KEY_B => 12
  | KEY_C => 13 | KEY_D => 14 | KEY_E => 15 | KEY_F => 16 | KEY_G => 17 | KEY_H => 18
  | KEY_I => 19 | KEY_J => 20 | KEY_K => 21 | KEY_L => 22 | KEY_M => 23 | KEY_N => 24
  | KEY_O => 25 | KEY_P => 26 | KEY_Q => 27 | KEY_R => 28 | KEY_S => 29 | KEY_T => 30
  | KEY_U => 31 | KEY_V => 32 | KEY_W => 33 | KEY_X => 34 | KEY_Y => 35 | KEY_Z => 36
  | KEY_RETURN => 37 | KEY_ESCAPE => 38 | KEY_BACKSPACE => 39 | KEY_UP => 40 | KEY_DOWN => 41
  | KEY_LEFT => 42 | KEY_RIGHT => 43 | KEY_F1 => 44 | KEY_F2 => 45 | KEY_F3 => 46
  | KEY_F4 => 47 | KEY_F5 => 48 | KEY_F6 => 49 | KEY_F7 => 50 | KEY_F8 => 51 | KEY_F9 => 52
  | KEY_F10 => 53 | KEY_F11 => 54 | KEY_F12 => 55 | KEY_F13 => 56 | KEY_F14 => 57
  | KEY_F15 => 58 | KEY_DOT => 59 | KEY_COMMA => 60 | KEY_COLON => 61 | KEY_SEMICOLON => 62
  | KEY_SLASH => 63 | KEY_BACKSLASH => 64 | KEY_PLUS => 65 | KEY_MINUS => 66
  | KEY_ASTERISK => 67 | KEY_EXCLAMATION => 68 | KEY_QUESTION => 69 | KEY_QUOTEDOUBLE => 70
  | KEY_QUOTE => 71 | KEY_EQUAL => 72 | KEY_HASH => 73 | KEY_PERCENT => 74
  | KEY_AMPERSAND => 75 | KEY_UNDERSCORE => 76 | KEY_LEFTPARENTHESIS => 77
  | KEY_RIGHTPARENTHESIS => 78 | KEY_LEFTBRACKET => 79 | KEY_RIGHTBRACKET => 80
  | KEY_LEFTCURL => 81 | KEY_RIGHTCURL => 82 | KEY_DOLLAR => 83 | KEY_POUND => 84
  | KEY_EURO => 85 | KEY_LESS => 86 | KEY_GREATER => 87 | KEY_BAR => 88 | KEY_GRAVE => 89
  | KEY_TILDE => 90 | KEY_AT => 91 | KEY_CARRET => 92 | KEY_KP_0 => 93 | KEY_KP_1 => 94
  | KEY_KP_2 => 95 | KEY_KP_3 => 96 | KEY_KP_4 => 97 | KEY_KP_5 => 98 | KEY_KP_6 => 99
  | KEY_KP_7 => 100 | KEY_KP_8 => 101 | KEY_KP_9 => 102 | KEY_KP_PLUS => 103
  | KEY_KP_MINUS => 104 | KEY_KP_DECIMAL => 105 | KEY_KP_DIVIDE => 106 | KEY_KP_ASTERISK => 107
  | KEY_KP_NUMLOCK => 108 | KEY_KP_ENTER => 109 | KEY_TAB => 110 | KEY_CAPSLOCK => 111
  | KEY_LSHIFT => 112 | KEY_LCTRL => 113 | KEY_LALT => 114 | KEY_LWIN => 115
  | KEY_RSHIFT => 116 | KEY_RCTRL => 117 | KEY_RALT => 118 | KEY_RWIN => 119
  | KEY_INSERT => 120 | KEY_DELETE => 121 | KEY_HOME => 122 | KEY_END => 123
  | KEY_PAGEUP => 124 | KEY_PAGEDOWN => 125 | KEY_SCROLLLOCK => 126 | KEY_PAUSE => 127
  | KEY_NULL => 128 | KEY_NUMKEYCODES => 129
  end.

(** An array with designated initialisers: the other elements are zero, and of
    two initialisers of one element the last counts. *)
Definition designated {A} (zero : A) (init : list (Z * A)) : list A :=
  foldl (fun l e => <[Z.to_nat e.1 := e.2]> l) (replicate (Z.to_nat KBD_BREAKCODE_LIMIT) zero) init.

(** Zero as a keycode is [KEY_SPACE]. *)
Definition kbd_scanmap_set1 : list bkd_keycode := designated KEY_SPACE [
  (0x00, KEY_NULL); (0x01, KEY_ESCAPE); (0x02, KEY_1); (0x03, KEY_2); (0x04, KEY_3);
  (0x05, KEY_4); (0x06, KEY_5); (0x07, KEY_6); (0x08, KEY_7); (0x09, KEY_8); (0x0a, KEY_9);
  (0x0b, KEY_0); (0x0c, KEY_MINUS); (0x0d, KEY_EQUAL); (0x0e, KEY_BACKSPACE); (0x0f, KEY_TAB);
  (0x10, KEY_Q); (0x11, KEY_W); (0x12, KEY_E); (0x13, KEY_R); (0x14, KEY_T); (0x15, KEY_Y);
  (0x16, KEY_U); (0x17, KEY_I); (0x18, KEY_O); (0x19, KEY_P); (0x1a, KEY_LEFTBRACKET);
  (0x1b, KEY_RIGHTBRACKET); (0x1c, KEY_RETURN); (0x1d, KEY_LCTRL); (0x1e, KEY_A);
  (0x1f, KEY_S); (0x20, KEY_D); (0x21, KEY_F); (0x22, KEY_G); (0x23, KEY_H); (0x24, KEY_J);
  (0x25, KEY_K); (0x26, KEY_L); (0x27, KEY_SEMICOLON); (0x28, KEY_QUOTE); (0x29, KEY_GRAVE);
  (0x2a, KEY_LSHIFT); (0x2b, KEY_BACKSLASH); (0x2c, KEY_Z); (0x2d, KEY_X); (0x2e, KEY_C);
  (0x2f, KEY_V); (0x30, KEY_B); (0x31, KEY_N); (0x32, KEY_M); (0x33, KEY_COMMA);
  (0x34, KEY_DOT); (0x35, KEY_SLASH); (0x36, KEY_RSHIFT); (0x37, KEY_KP_ASTERISK);
  (0x38, KEY_LALT); (0x39, KEY_SPACE); (0x3a, KEY_CAPSLOCK); (0x3b, KEY_F1); (0x3c, KEY_F2);
  (0x3d, KEY_F3); (0x3e, KEY_F4); (0x3f, KEY_F5); (0x40, KEY_F6); (0x41, KEY_F7);
  (0x42, KEY_F8); (0x43, KEY_F9); (0x44, KEY_F10); (0x45, KEY_KP_NUMLOCK);
  (0x46, KEY_SCROLLLOCK); (0x47, KEY_HOME); (0x48, KEY_KP_8); (0x49, KEY_KP_9);
  (0x50, KEY_KP_2); (0x51, KEY_KP_3); (0x52, KEY_KP_0); (0x53, KEY_KP_DECIMAL);
  (0x54, KEY_NULL); (0x55, KEY_NULL); (0x56, KEY_NULL); (0x57, KEY_F11); (0x58, KEY_F12)].

(** A character that cannot be written in a string constant. *)
Definition chr (n : nat) : string := String.String (Ascii.ascii_of_nat n) EmptyString.
Definition esc : string := chr 27.

(** Zero as a string is a null pointer; the index is a keycode. *)
Definition keymap (init : list (bkd_keycode * option string)) : list (option string) :=
  designated None ((fun e => (keycode_num e.1, e.2)) <$> init).

Definition kbd_scanmap_ascii_regular : list (option string) := keymap [
  (KEY_ESCAPE, Some esc); (KEY_1, Some "1"); (KEY_2, Some "2"); (KEY_3, Some "3");
  (KEY_4, Some "4"); (KEY_5, Some "5"); (KEY_6, Some "6"); (KEY_7, Some "7");
  (KEY_8, Some "8"); (KEY_9, Some "9"); (KEY_0, Some "0"); (KEY_MINUS, Some "-");
  (KEY_EQUAL, Some "="); (KEY_BACKSPACE, Some (chr 8)); (KEY_TAB, Some (chr 9));
  (KEY_Q, Some "q"); (KEY_W, Some "w"); (KEY_E, Some "e"); (KEY_R, Some "r");
  (KEY_T, Some "t"); (KEY_Y, Some "y"); (KEY_U, Some "u"); (KEY_I, Some "i");
  (KEY_O, Some "o"); (KEY_P, Some "p"); (KEY_LEFTBRACKET, Some "[");
  (KEY_RIGHTBRACKET, Some "]"); (KEY_RETURN, Some nl); (KEY_LCTRL, None); (KEY_A, Some "a");
  (KEY_S, Some "s"); (KEY_D, Some "d"); (KEY_F, Some "f"); (KEY_G, Some "g");
  (KEY_H, Some "h"); (KEY_J, Some "j"); (KEY_K, Some "k"); (KEY_L, Some "l");
  (KEY_SEMICOLON, Some ";"); (KEY_QUOTE, Some "'"); (KEY_GRAVE, Some "`"); (KEY_LSHIFT, None);
  (KEY_BACKSLASH, Some "\"); (KEY_Z, Some "z"); (KEY_X, Some "x"); (KEY_C, Some "c");
  (KEY_V, Some "v"); (KEY_B, Some "b"); (KEY_N, Some "n"); (KEY_M, Some "m");
  (KEY_COMMA, Some ","); (KEY_DOT, Some "."); (KEY_SLASH, Some "/"); (KEY_RSHIFT, None);
  (KEY_KP_ASTERISK, Some "*"); (KEY_LALT, None); (KEY_SPACE, Some " "); (KEY_CAPSLOCK, None);
  (KEY_F1, Some (esc +:+ "OP")); (KEY_F2, Some (esc +:+ "OQ")); (KEY_F3, Some (esc +:+ "OR"));
  (KEY_F4, Some (esc +:+ "OS")); (KEY_F5, Some (esc +:+ "[15~"));
  (KEY_F6, Some (esc +:+ "[17~")); (KEY_F7, Some (esc +:+ "[18~"));
  (KEY_F8, Some (esc +:+ "[19~")); (KEY_F9, Some (esc +:+ "[20~"));
  (KEY_F10, Some (esc +:+ "[21~")); (KEY_KP_NUMLOCK, None); (KEY_SCROLLLOCK, None);
  (KEY_HOME, None); (KEY_KP_8, Some "8"); (KEY_KP_9, Some "9"); (KEY_KP_2, Some "2");
  (KEY_KP_3, Some "3"); (KEY_KP_0, Some "0"); (KEY_KP_DECIMAL, Some ".");
  (KEY_F11, Some (esc +:+ "[23~")); (KEY_F12, Some (esc +:+ "[24~"))].

Definition kbd_scanmap_ascii_shift : list (option string) := keymap [
  (KEY_ESCAPE, None); (KEY_1, Some "!"); (KEY_2, Some "@"); (KEY_3, Some "#");
  (KEY_4, Some "$"); (KEY_5, Some "%"); (KEY_6, Some "^"); (KEY_7, Some "&");
  (KEY_8, Some "*"); (KEY_9, Some "("); (KEY_0, Some ")"); (KEY_MINUS, Some "_");
  (KEY_EQUAL, Some "+"); (KEY_BACKSPACE, Some (chr 8)); (KEY_TAB, Some (esc +:+ "[Z"));
  (KEY_Q, Some "Q"); (KEY_W, Some "W"); (KEY_E, Some "E"); (KEY_R, Some "R");
  (KEY_T, Some "T"); (KEY_Y, Some "Y"); (KEY_U, Some "U"); (KEY_I, Some "I");
  (KEY_O, Some "O"); (KEY_P, Some "P"); (KEY_LEFTBRACKET, Some "{");
  (KEY_RIGHTBRACKET, Some "}"); (KEY_RETURN, Some nl); (KEY_LCTRL, None); (KEY_A, Some "A");
  (KEY_S, Some "S"); (KEY_D, Some "D"); (KEY_F, Some "F"); (KEY_G, Some "G");
  (KEY_H, Some "H"); (KEY_J, Some "J"); (KEY_K, Some "K"); (KEY_L, Some "L");
  (KEY_SEMICOLON, Some ":"); (KEY_QUOTE, Some (chr 34)); (KEY_GRAVE, Some "~");
  (KEY_LSHIFT, None); (KEY_BACKSLASH, Some "|"); (KEY_Z, Some "Z"); (KEY_X, Some "X");
  (KEY_C, Some "C"); (KEY_V, Some "V"); (KEY_B, Some "B"); (KEY_N, Some "N");
  (KEY_M, Some "M"); (KEY_COMMA, Some "<"); (KEY_DOT, Some ">"); (KEY_SLASH, Some "?");
  (KEY_RSHIFT, None); (KEY_KP_ASTERISK, None); (KEY_LALT, None); (KEY_SPACE, Some " ");
  (KEY_CAPSLOCK, None); (KEY_F1, Some (esc +:+ "OP")); (KEY_F2, Some (esc +:+ "OQ"));
  (KEY_F3, Some (esc +:+ "OR")); (KEY_F4, Some (esc +:+ "OS"));
  (KEY_F5, Some (esc +:+ "[15~;2~")); (KEY_F6, Some (esc +:+ "[17~;2~"));
  (KEY_F7, Some (esc +:+ "[18~;2~")); (KEY_F8, Some (esc +:+ "[19~;2~"));
  (KEY_F9, Some (esc +:+ "[20~;2~")); (KEY_F10, Some (esc +:+ "[21~;2~"));
  (KEY_KP_NUMLOCK, None); (KEY_SCROLLLOCK, None); (KEY_HOME, None); (KEY_KP_8, Some "8");
  (KEY_KP_9, Some "9"); (KEY_KP_2, Some "2"); (KEY_KP_3, Some "3"); (KEY_KP_0, Some "0");
  (KEY_KP_DECIMAL, Some "."); (KEY_F11, Some (esc +:+ "[23~;2~"));
  (KEY_F12, Some (esc +:+ "[24~;2~"))].

Section WithEnv.
Context `{env : Env}.

(** The default branch of the switch of the handler. *)
Definition kbd_type (scancode : Z) (key : bkd_keycode) : K unit :=
  if bool_decide (key <> KEY_NULL) && KBD_IS_MAKECODE scancode then
    sh ← gets (fun s => shift (drv s));
    match (if sh : bool then kbd_scanmap_ascii_shift else kbd_scanmap_ascii_regular)
            !! Z.to_nat (keycode_num key) with
    | None => undef "kbd_scanmap_ascii"
    | Some None => print (AW 0)
    | Some (Some str) => print (AS str)
    end
  else mret tt.

(** The handler from the translation of the scancode on. *)
Definition kbd_event (scancode : Z) : K unit :=
  let idx := if KBD_IS_MAKECODE scancode then scancode else scancode - KBD_BREAKCODE_LIMIT in
  match kbd_scanmap_set1 !! Z.to_nat idx with
  | None => undef "kbd_scanmap_set1"
  | Some key =>
      match key with
      | KEY_LCTRL | KEY_RCTRL => modify (upd_drv (fun d => set_ctrl (negb (ctrl d)) d))
      | KEY_LSHIFT | KEY_RSHIFT => modify (upd_drv (fun d => set_shift (negb (shift d)) d))
      | KEY_LALT | KEY_RALT => modify (upd_drv (fun d => set_alt (negb (alt d)) d))
      | _ => kbd_type scancode key
      end
  end.

Definition kbd_interrupt_handler (state : Z) : K unit :=
  scancode ← inb IO_PORT_KBD_DATA;
  scancode ← (if (scancode =? KBD_EXTENDED_SCANCODE) || (scancode =? 0xE1)
              then inb IO_PORT_KBD_DATA else mret scancode);
  kbd_event scancode.

Definition kbd_init : K unit :=
  _ ← modify (upd_drv (fun d => set_shift false (set_alt false (set_ctrl false d))));
  _ ← isr_register (IDT_IRQ_BASE + IDT_IRQ_KEYBOARD) kbd_interrupt_handler_fn;
  pic_enable_irq_line PIC_INT_KEYBOARD.

End WithEnv.

(** ** What a key does *)

(** The scancode the handler takes from the keyboard, and the I/O history
    afterwards: after an extended prefix it reads a second byte. *)
Definition read_scancode `{env : Env} (h : list ioev) : Z * list ioev :=
  let c1 := wrap8 (dev_in h 0x60) in
  let h1 := In8 0x60 c1 :: h in
  if (c1 =? 0xE0) || (c1 =? 0xE1) then
    let c2 := wrap8 (dev_in h1 0x60) in (c2, In8 0x60 c2 :: h1)
  else (c1, h1).

(** The key of a scancode; pressing gives the code, releasing the code plus 128. *)
Definition scan_key (c : Z) : bkd_keycode := default KEY_SPACE (kbd_scanmap_set1 !! Z.to_nat (c mod 128)).

(** Modifier keys flip their flag, on press and on release alike. *)
Definition modifier (k : bkd_keycode) : option (drv_t -> drv_t) :=
  match k with
  | KEY_LCTRL | KEY_RCTRL => Some (fun d => set_ctrl (negb (ctrl d)) d)
  | KEY_LSHIFT | KEY_RSHIFT => Some (fun d => set_shift (negb (shift d)) d)
  | KEY_LALT | KEY_RALT => Some (fun d => set_alt (negb (alt d)) d)
  | _ => None
  end.

(** The characters a key prints. *)
Definition key_text (sh : bool) (k : bkd_keycode) : list Z :=
  match (if sh then kbd_scanmap_ascii_shift else kbd_scanmap_ascii_regular) !! Z.to_nat (keycode_num k) with
  | Some (Some str) => map sext8 (bytes_of str)
  | _ => bytes_of "(null)"
  end.

Lemma kbd_scanmap_total c : 0 <= c < 128 -> kbd_scanmap_set1 !! Z.to_nat c = Some (scan_key c).
Proof.
  intros Hc. unfold scan_key. rewrite Z.mod_small by lia.
  destruct (lookup_lt_is_Some_2 kbd_scanmap_set1 (Z.to_nat c)) as [k ->]; [|done].
  change (length kbd_scanmap_set1) with 128%nat. lia.
Qed.

(** Every scancode has a key with an entry in the character tables, except
    those that mean no key. *)
Lemma scan_key_bound c : 0 <= c < 128 -> scan_key c <> KEY_NULL -> 0 <= keycode_num (scan_key c) < 128.
Proof.
  intros Hc. assert (forallb (fun n => let k := scan_key (Z.of_nat n) in
    bool_decide (k = KEY_NULL) || ((0 <=? keycode_num k) && (keycode_num k <? 128))) (seq 0 128) = true) as H
    by (vm_compute; reflexivity).
  rewrite forallb_forall in H. specialize (H (Z.to_nat c) ltac:(apply in_seq; lia)).
  rewrite Z2Nat.id in H by lia. intros Hn. cbv zeta in H. rewrite bool_decide_eq_false_2 in H by done.
  simpl in H. lia.
Qed.

(** The keys of a US keyboard that type a character: for each row, the
    scancode (set 1) of its first key, and the characters of its keys without
    and with shift (34 is the double quote). *)
Definition us_rows : list (Z * list Z * list Z) :=
  [(0x02, bytes_of "1234567890-=", bytes_of "!@#$%^&*()_+");
   (0x10, bytes_of "qwertyuiop[]", bytes_of "QWERTYUIOP{}");
   (0x1e, bytes_of "asdfghjkl;'`", bytes_of "ASDFGHJKL:" ++ [34] ++ bytes_of "~");
   (0x2b, bytes_of "\zxcvbnm,./", bytes_of "|ZXCVBNM<>?");
   (0x39, bytes_of " ", bytes_of " ")].
(** The keys: scancode, character, character with shift. *)
Definition us_layout : list (Z * Z * Z) :=
  us_rows ≫= fun '(c, plain, shifted) => zip (zip (seqZ c (Z.of_nat (length plain))) plain) shifted.

Lemma us_layout_ok c a b :
  (c, a, b) ∈ us_layout -> 0 <= c < 128 /\ modifier (scan_key c) = None /\ scan_key c <> KEY_NULL /\
    key_text false (scan_key c) = [a] /\ key_text true (scan_key c) = [b].
Proof.
  intros Hin. assert (forallb (fun '(c, a, b) => let k := scan_key c in
    (0 <=? c) && (c <? 128) && bool_decide (is_Some (modifier k) -> False) && bool_decide (k <> KEY_NULL)
    && bool_decide (key_text false k = [a]) && bool_decide (key_text true k = [b])) us_layout = true) as H
    by (vm_compute; reflexivity).
  rewrite forallb_forall in H. specialize (H (c, a, b) ltac:(by apply list_elem_of_In)). cbv zeta beta iota in H.
  rewrite !andb_true_iff, !bool_decide_eq_true in H.
  destruct H as (((((H1 & H2) & H3) & H4) & H5) & H6). split; [lia|]. split; [|done].
  destruct (modifier _) as [f|] eqn:E; [|done]. exfalso. apply H3. by exists f.
Qed.

Section Spec.
Context `{env : Env}.

Lemma print_printed a l s :
  cons_ready s -> render [37; 115] [a] = Some l -> exists s', print a s = (Ok tt, s') /\ printed l s s'.
Proof. intros Hc Hr. by apply cprintf_printed. Qed.

Lemma kbd_type_ok c k s :
  cons_ready s -> 0 <= c < 256 -> k <> KEY_NULL -> 0 <= keycode_num k < 128 ->
  if c <? 128 then exists s', kbd_type c k s = (Ok tt, s') /\ printed (key_text (shift (drv s)) k) s s'
  else kbd_type c k s = (Ok tt, s).
Proof.
  intros Hs Hc Hk Hn. unfold kbd_type, KBD_IS_MAKECODE, KBD_BREAKCODE_LIMIT.
  rewrite bool_decide_eq_true_2 by done. destruct (c <? 128) eqn:E; cbn [andb]; [|done]. mstep. unfold key_text.
  destruct (lookup_lt_is_Some_2 (if shift (drv s) then kbd_scanmap_ascii_shift else kbd_scanmap_ascii_regular)
    (Z.to_nat (keycode_num k))) as [o ->].
  { destruct (shift (drv s)); [change (length kbd_scanmap_ascii_shift) with 128%nat|
      change (length kbd_scanmap_ascii_regular) with 128%nat]; lia. }
  destruct o as [str|]; apply print_printed; try done. simpl. by rewrite app_nil_r.
Qed.

Lemma read_scancode_ok s :
  (scancode ← inb IO_PORT_KBD_DATA;
   if (scancode =? KBD_EXTENDED_SCANCODE) || (scancode =? 0xE1) then inb IO_PORT_KBD_DATA else mret scancode) s
  = (Ok (read_scancode (io s)).1, set_io (read_scancode (io s)).2 s) /\ 0 <= (read_scancode (io s)).1 < 256.
Proof.
  unfold read_scancode, IO_PORT_KBD_DATA, KBD_EXTENDED_SCANCODE. erewrite bind_ok by reflexivity.
  destruct (_ || _); simpl; split; try done; apply wrap8_range.
Qed.

(** The switch of the handler: no scancode is out of range. *)
Lemma kbd_dispatch c s :
  cons_ready s -> 0 <= c < 256 ->
  exists s', kbd_event c s = (Ok tt, s') /\
    match modifier (scan_key c) with
    | Some f => s' = upd_drv f s
    | None =>
        if (c <? 128) && negb (bool_decide (scan_key c = KEY_NULL))
        then printed (key_text (shift (drv s)) (scan_key c)) s s'
        else s' = s
    end.
Proof.
  intros Hs Hc. unfold kbd_event. cbv zeta.
  assert (kbd_scanmap_set1 !! Z.to_nat (if KBD_IS_MAKECODE c then c else c - KBD_BREAKCODE_LIMIT)
    = Some (scan_key c)) as ->.
  { unfold KBD_IS_MAKECODE, KBD_BREAKCODE_LIMIT. destruct (Z.ltb_spec c 128); [apply kbd_scanmap_total; lia|].
    rewrite kbd_scanmap_total by lia. unfold scan_key. do 4 f_equal. rewrite Z.mod_small by lia.
    rewrite <- (Z.mod_small (c - 128) 128) by lia. rewrite Zminus_mod, Z_mod_same_full, Z.sub_0_r, Zmod_mod. done. }
  assert (forall k, k = scan_key c -> modifier k = None -> exists s', kbd_type c k s = (Ok tt, s') /\
    if (c <? 128) && negb (bool_decide (k = KEY_NULL)) then printed (key_text (shift (drv s)) k) s s' else s' = s) as H.
  { intros k Hk _. destruct (bool_decide_reflect (k = KEY_NULL)) as [->|Hn].
    - exists s. rewrite andb_false_r. done.
    - rewrite andb_true_r. pose proof (kbd_type_ok c k s Hs Hc Hn) as H.
      destruct (c <? 128) eqn:E; [apply H|exists s; split; [apply H|done]];
        subst k; unfold scan_key in *; rewrite <- (Zmod_mod c 128); rewrite <- (Zmod_mod c 128) in Hn;
        (apply scan_key_bound; [lia|exact Hn]). }
  specialize (H _ eq_refl). destruct (modifier (scan_key c)) as [f|] eqn:E.
  - clear H. destruct (scan_key c); try discriminate E; injection E as <-; eexists; (split; [reflexivity|reflexivity]).
  - destruct (H eq_refl) as (s' & Es & Hs'). exists s'. split; [|exact Hs'].
    destruct (scan_key c); try discriminate E; exact Es.
Qed.

Lemma kbd_interrupt_ok state s :
  cons_ready s ->
  let '(c, h) := read_scancode (io s) in
  exists s', kbd_interrupt_handler state s = (Ok tt, s') /\
    match modifier (scan_key c) with
    | Some f => s' = upd_drv f (set_io h s)
    | None =>
        if (c <? 128) && negb (bool_decide (scan_key c = KEY_NULL))
        then printed (key_text (shift (drv s)) (scan_key c)) (set_io h s) s'
        else s' = set_io h s
    end.
Proof.
  intros Hs. destruct (read_scancode_ok s) as [E Hc]. destruct (read_scancode (io s)) as [c h]. cbn [fst snd] in *.
  destruct (kbd_dispatch c (set_io h s)) as (s' & E' & H); [done|done|]. exists s'. split; [|exact H].
  rewrite <- E'. unfold kbd_interrupt_handler. apply (bind_ok_assoc _ _ _ _ _ _ E).
Qed.

(** C32: the keyboard handler always returns: no scancode indexes past the end
    of a table.  A modifier key flips its flag and prints nothing; the press of
    another key prints exactly the characters of the key in the table the shift
    flag selects ("(null)" for a key without characters); its release, and a code
    without a key, do nothing. *)
Theorem kbd_interrupt_spec state s :
  cons_ready s ->
  let '(c, h) := read_scancode (io s) in
  exists s', kbd_interrupt_handler state s = (Ok tt, s') /\
    match modifier (scan_key c) with
    | Some f => s' = upd_drv f (set_io h s)
    | None =>
        if (c <? 128) && negb (bool_decide (scan_key c = KEY_NULL))
        then printed (key_text (shift (drv s)) (scan_key c)) (set_io h s) s'
        else s' = set_io h s
    end.
Proof. apply kbd_interrupt_ok. Qed.

(** C33: the keyboard is the US one: for each of the 48 keys that type a
    character, when the keyboard delivers its scancode the handler prints exactly
    the character of that key, the shifted one when the shift flag is set. *)
Theorem kbd_us_layout c a b state s :
  (c, a, b) ∈ us_layout -> cons_ready s -> wrap8 (dev_in (io s) 0x60) = c ->
  exists s', kbd_interrupt_handler state s = (Ok tt, s') /\
    printed [if shift (drv s) then b else a] (set_io (In8 0x60 c :: io s) s) s'.
Proof.
  intros Hn. destruct (us_layout_ok c a b Hn) as (Hc & Hm & Hk & H0 & H1).
  intros Hs Hin. pose proof (kbd_interrupt_ok state s Hs) as H. unfold read_scancode in H. rewrite Hin in H.
  destruct (Z.eqb_spec c 0xE0); [lia|]. destruct (Z.eqb_spec c 0xE1); [lia|]. cbn [orb] in H.
  destruct H as (s' & E & H). rewrite Hm, bool_decide_eq_false_2 in H by done.
  destruct (Z.ltb_spec c 128); [|lia]. simpl in H. exists s'. split; [done|].
  destruct (shift (drv s)); [by rewrite H1 in H|by rewrite H0 in H].
Qed.
End Spec.

(** *** Witnesses *)

(** A keyboard on which the key "a" is pressed. *)
Definition demo_kbd_env : Env := demo_env_with (fun _ p => if p =? 0x60 then 0x1e else 0).

Lemma kbd_interrupt_spec_witness :
  exists s', kbd_interrupt_handler (env:=demo_kbd_env) 0 demo_machine = (Ok tt, s') /\
    printed (env:=demo_kbd_env) [97] (set_io [In8 0x60 0x1e] demo_machine) s'.
Proof. exact (kbd_interrupt_spec (env:=demo_kbd_env) 0 demo_machine demo_cons_ready). Defined.

Lemma kbd_us_layout_witness :
  length us_layout = 48%nat /\ (0x1e, 97, 65) ∈ us_layout /\
  exists s', kbd_interrupt_handler (env:=demo_kbd_env) 0 demo_machine = (Ok tt, s') /\
    printed (env:=demo_kbd_env) [97] (set_io [In8 0x60 0x1e] demo_machine) s'.
Proof.
  assert ((0x1e, 97, 65) ∈ us_layout) as Hin by (apply (bool_decide_unpack _); vm_compute; exact I).
  split; [vm_compute; reflexivity|]. split; [exact Hin|].
  apply (kbd_us_layout (env:=demo_kbd_env) 0x1e 97 65 0 demo_machine); [exact Hin|exact demo_cons_ready|vm_compute; reflexivity].
Defined.
