(* ===== verification/Paging.v ===== *)
(** * Paging: page tables ([paging.c])

    Page directories and page tables are words of RAM, reached through the
    kernel's direct map.  The specification half reads a directory as a
    function from virtual pages to page table entries, and relates it to what
    the MMU makes of it. *)

From S2P Require Import Prelude Machine Layout Cstring Spinlock Uart Screen Kalloc Idt.

(** A C boolean argument printed with %d. *)
Definition b2z (b : bool) : Z := if b then 1 else 0.

Section WithEnv.
Context `{env : Env}.

(** Answers the address of the page table entry, or 0 (NULL). *)
Definition walkpgdir (pgdir va : Z) (alloc : bool) : K Z :=
  let pde := pgdir + 4 * PDX va in
  v ← load32 pde;
  if negb ((v & PTE_P) =? 0) then
    mret (P2V (PTE_ADDR v) + 4 * PTX va)
  else
    if negb alloc then mret 0 else
    pgtab ← kalloc;
    if pgtab =? 0 then mret 0 else
    _ ← memset pgtab 0 PGSIZE;
    _ ← store32 pde (V2P pgtab .| PTE_P .| PTE_W .| PTE_U);
    mret (pgtab + 4 * PTX va).

Definition paging_get_paddr (vaddr : Z) : K Z :=
  kpgdir ← gets (fun s => kpgdir (vm s));
  pte ← walkpgdir kpgdir vaddr false;
  _ ← kassert (negb (pte =? 0)) "paging_get_paddr" "kernel/paging.c" 48;
  v ← load32 pte;
  mret (v +u ADDR_PAGE_OFFSET vaddr).

(** One round of the loop of [mappages], at page [a] for physical address [pa]. *)
Definition mappages_step (pgdir last perm : Z) (c : Z * Z) : K (Z * Z + Z) :=
  let '(a, pa) := c in
  pte ← walkpgdir pgdir a true;
  if pte =? 0 then mret (inr (-1)) else
  v ← load32 pte;
  if negb ((v & PTE_P) =? 0) then raise_panic "remap" else
  _ ← store32 pte (pa .| perm .| PTE_P);
  if a =? last then mret (inr 0) else
  mret (inl (a +u PGSIZE, pa +u PGSIZE)).

(** [a] reaches [last] after at most the 2^20 pages of the address space. *)
Definition mappages (pgdir va size pa perm : Z) : K Z :=
  let a := PGROUNDDOWN (wrap32 va) in
  let last := PGROUNDDOWN (wrap32 (wrap32 va + size - 1)) in
  loop 20 (mappages_step pgdir last perm) (a, pa).

Definition page_fault_handler (state : Z) : K unit :=
  faulty_addr ← gets (fun s => cr2 (cpu_regs s));
  err_code ← load32 (state + st_err_code);
  let present := negb ((err_code & (1 << 0)) =? 0) in
  let write := negb ((err_code & (1 << 1)) =? 0) in
  let user := negb ((err_code & (1 << 2)) =? 0) in
  _ ← warn ("Caught page fault {" +:+ nl +:+
            "  faulty addr = 0x%p" +:+ nl +:+
            "  present: %d" +:+ nl +:+
            "  write:   %d" +:+ nl +:+
            "  user:    %d" +:+ nl +:+
            "}") [AW faulty_addr; AW (b2z present); AW (b2z write); AW (b2z user)];
  raise_panic "page fault not handled!".

Definition paging_switch_pgdir (pgdir : Z) : K unit :=
  _ ← kassert (negb (pgdir =? 0)) "paging_switch_pgdir" "kernel/paging.c" 113;
  modify (fun s => set_cpu_regs (set_cr3 pgdir (cpu_regs s)) s).

Definition inituvm (pgdir init sz : Z) : K unit :=
  if PGSIZE <=? sz then raise_panic "inituvm: more than a page" else
  mem ← kalloc;
  _ ← memset mem 0 PGSIZE;
  _ ← mappages pgdir 0 PGSIZE (V2P mem) (PTE_W .| PTE_U);
  _ ← memmove mem init sz;
  mret tt.

(** One round of the loop of [deallocuvm], its [a += PGSIZE] included. *)
Definition deallocuvm_step (pgdir oldsz : Z) (a : Z) : K (Z + unit) :=
  if negb (a <? oldsz) then mret (inr tt) else
  pte ← walkpgdir pgdir a false;
  if pte =? 0 then mret (inl (wrap32 (PGADDR (PDX a + 1) 0 0 - PGSIZE) +u PGSIZE)) else
  v ← load32 pte;
  if (v & PTE_P) =? 0 then mret (inl (a +u PGSIZE)) else
  let pa := PTE_ADDR v in
  if pa =? 0 then raise_panic "kfree" else
  _ ← kfree (P2V pa);
  _ ← store32 pte 0;
  mret (inl (a +u PGSIZE)).

Definition deallocuvm (pgdir oldsz newsz : Z) : K Z :=
  if oldsz <=? newsz then mret oldsz else
  _ ← loop 21 (deallocuvm_step pgdir oldsz) (PGROUNDUP newsz);
  mret newsz.

(** [for (i = i; i < NPDENTRIES; i++)] of [freevm], [n] rounds left. *)
Fixpoint free_tables (pgdir i : Z) (n : nat) : K unit :=
  match n with
  | O => mret tt
  | S n' =>
      v ← load32 (pgdir + 4 * i);
      _ ← when (negb ((v & PTE_P) =? 0)) (kfree (P2V (PTE_ADDR v)));
      free_tables pgdir (i + 1) n'
  end.

Definition freevm (pgdir : Z) : K unit :=
  if pgdir =? 0 then raise_panic "freevm: no pgdir" else
  _ ← deallocuvm pgdir KERNBASE 0;
  _ ← free_tables pgdir 0 (Z.to_nat NPDENTRIES);
  kfree pgdir.

Definition mapfail (pgdir : Z) : K Z :=
  _ ← freevm pgdir;
  raise_panic "mappages".

Definition setupkvm : K Z :=
  pgdir ← kalloc;
  if pgdir =? 0 then raise_panic "kalloc" else
  _ ← memset pgdir 0 PGSIZE;
  phys_end ← gets (fun s => phys_end (vm s));
  r ← mappages pgdir KERNBASE (phys_end - 0) 0 PTE_W;
  if r <? 0 then mapfail pgdir else
  acpi ← gets (fun s => acpi (vm s));
  acpi_len ← gets (fun s => acpi_len (vm s));
  r ← mappages pgdir (P2V acpi) acpi_len acpi PTE_W;
  if r <? 0 then mapfail pgdir else
  r ← mappages pgdir DEVSPACE 0xf00000 DEVSPACE PTE_W;
  if r <? 0 then mapfail pgdir else
  mret pgdir.

Definition paging_init : K unit :=
  pgdir ← setupkvm;
  _ ← modify (fun s => set_vm (set_kpgdir pgdir (vm s)) s);
  _ ← isr_register IDT_INT_PGFLT page_fault_handler_fn;
  k ← gets (fun s => kpgdir (vm s));
  paging_switch_pgdir (V2P k).

End WithEnv.

(** ** Words of pages *)

(** RAM outside of the pages that satisfy [P] is the same. *)
Definition frame_except (P : Z -> Prop) (m m' : gmap Z Z) : Prop :=
  forall b, 0 <= b < 4294967296 -> (forall p, P p -> ~ p <= b < p + PGSIZE) ->
  mload8 m' b = mload8 m b.

Lemma frame_except_refl P m : frame_except P m m.
Proof. done. Qed.
Lemma frame_except_trans P m1 m2 m3 :
  frame_except P m1 m2 -> frame_except P m2 m3 -> frame_except P m1 m3.
Proof. intros H1 H2 b Hb Hn. by rewrite H2, H1. Qed.
Lemma frame_except_mono (P P' : Z -> Prop) m m' :
  frame_except P m m' -> (forall p, P p -> P' p) -> frame_except P' m m'.
Proof. intros H HP b Hb Hn. apply H; [done|]. eauto. Qed.

Lemma pages_apart `{env : Env} p q : is_page p -> is_page q -> p <> q -> p + 4096 <= q \/ q + 4096 <= p.
Proof. unfold is_page, PGSIZE. lia. Qed.

Ltac page_tac := unfold is_page, kspace, PGSIZE, KERNBASE in *; lia.

Lemma mload32_frame `{env : Env} P m m' p i :
  frame_except P m m' -> (forall q, P q -> is_page q) -> is_page p -> ~ P p -> 0 <= i < 1024 ->
  mload32 m' (p + 4 * i) = mload32 m (p + 4 * i).
Proof.
  intros Hf HP Hp Hn Hi. unfold mload32. rewrite !Hf; [done|page_tac| |page_tac| |page_tac| |page_tac|];
    intros q Hq Hb; (destruct (pages_apart p q); [done|by apply HP|by intros ->|page_tac..]).
Qed.
Lemma mload8_frame_page `{env : Env} P m m' p b :
  frame_except P m m' -> (forall q, P q -> is_page q) -> is_page p -> ~ P p -> p <= b < p + PGSIZE ->
  mload8 m' b = mload8 m b.
Proof.
  intros Hf HP Hp Hn Hb. apply Hf; [page_tac|]. intros q Hq Hq'.
  destruct (pages_apart p q); [done|by apply HP|by intros ->|page_tac..].
Qed.

Lemma mload32_store_slot `{env : Env} m p q i j v :
  is_page p -> is_page q -> 0 <= i < 1024 -> 0 <= j < 1024 ->
  mload32 (mstore32 m (p + 4 * i) v) (q + 4 * j) =
    if decide (p = q /\ i = j) then wrap32 v else mload32 m (q + 4 * j).
Proof.
  intros Hp Hq Hi Hj. case_decide as E; [destruct E as [-> ->]; apply mload32_store32_same|].
  apply mload32_store32_ne. apply disjoint32_sep; [page_tac..|].
  destruct (decide (p = q)) as [->|Hne]; [page_tac|].
  destruct (pages_apart p q Hp Hq Hne); page_tac.
Qed.
Lemma frame_store `{env : Env} m p i v :
  is_page p -> 0 <= i < 1024 -> frame_except (eq p) m (mstore32 m (p + 4 * i) v).
Proof.
  intros Hp Hi b Hb Hn. specialize (Hn p eq_refl). apply mload8_store32_ne. intros j Hj.
  unfold is_page, PGSIZE, KERNBASE in *. ulia.
Qed.
Lemma frame_fill `{env : Env} m p c :
  is_page p -> frame_except (eq p) m (mfill m p c (Z.to_nat PGSIZE)).
Proof.
  intros Hp b Hb Hn. specialize (Hn p eq_refl). unfold is_page, PGSIZE, KERNBASE in *.
  rewrite mload8_fill by lia. case_decide; [lia|done].
Qed.
Lemma mload32_zeroed `{env : Env} m p i :
  is_page p -> 0 <= i < 1024 -> mload32 (mfill m p 0 (Z.to_nat PGSIZE)) (p + 4 * i) = 0.
Proof.
  intros Hp Hi. unfold mload32, is_page, PGSIZE, KERNBASE in *.
  rewrite !mload8_fill by lia. repeat (case_decide; [|lia]). done.
Qed.

(** ** A page directory as a map *)

Definition pde_at (m : gmap Z Z) (pgdir i : Z) : Z := mload32 m (pgdir + 4 * i).
Definition present (v : Z) : bool := Z.testbit v 0.
Definition table_of (pde : Z) : Z := P2V (PTE_ADDR pde).

(** The entry of the page of [va], 0 when there is no table for it. *)
Definition pte_at (m : gmap Z Z) (pgdir va : Z) : Z :=
  let pde := pde_at m pgdir (PDX va) in
  if present pde then mload32 m (table_of pde + 4 * PTX va) else 0.

(** The pages the directory is made of. *)
Definition pd_page (m : gmap Z Z) (pgdir p : Z) : Prop :=
  p = pgdir \/ exists i, 0 <= i < 1024 /\ present (pde_at m pgdir i) = true /\
                 p = table_of (pde_at m pgdir i).

(** A well-formed directory: its pages are pages outside of the free pages
    [l], each table is used once, and its entries give all rights. *)
Record pgdir_wf `{env : Env} (m : gmap Z Z) (pgdir : Z) (l : list Z) : Prop := {
  wf_page : is_page pgdir;
  wf_free : pgdir ∉ l;
  wf_table i : 0 <= i < 1024 -> present (pde_at m pgdir i) = true ->
    let t := table_of (pde_at m pgdir i) in
    is_page t /\ t <> pgdir /\ (t ∉ l) /\ pde_at m pgdir i = V2P t + 7;
  wf_inj i j : 0 <= i < 1024 -> 0 <= j < 1024 ->
    present (pde_at m pgdir i) = true -> present (pde_at m pgdir j) = true ->
    table_of (pde_at m pgdir i) = table_of (pde_at m pgdir j) -> i = j;
}.

Lemma land_PTE_P v : ((v & PTE_P) =? 0) = negb (present v).
Proof.
  unfold PTE_P, present. change 1 with (Z.ones 1). rewrite Z.land_ones by lia.
  change (2 ^ 1) with 2. rewrite <- Z.bit0_mod. by destruct (Z.testbit v 0).
Qed.

(** The entry [walkpgdir] makes for the new table [x]. *)
Lemma new_pde_ok `{env : Env} x :
  is_page x -> let v := V2P x .| PTE_P .| PTE_W .| PTE_U in
  v = V2P x + 7 /\ wrap32 v = v /\ present v = true /\ table_of v = x.
Proof.
  intros Hx v. unfold is_page, PGSIZE in Hx.
  assert (V2P x = x - KERNBASE) as Ev by (apply V2P_kernel; page_tac).
  assert (v = V2P x + 7) as E.
  { subst v. unfold PTE_P, PTE_W, PTE_U. rewrite <- !Z.lor_assoc. change (1 .| (2 .| 4)) with 7.
    apply lor_flags; [rewrite Ev|]; page_tac. }
  rewrite E, Ev. split_and!; [done|apply wrap32_small; page_tac| |].
  - unfold present. rewrite Z.bit0_odd. rewrite <- Z.negb_even.
    replace (x - KERNBASE + 7) with (2 * ((x - KERNBASE) / 2 + 3) + 1) by page_tac.
    by rewrite Z.even_add, Z.even_mul.
  - unfold table_of. rewrite PTE_ADDR_eq by page_tac. unfold P2V. ulia || (unfold KERNBASE in *; ulia).
Qed.

(** Directories that read the same. *)
Lemma pgdir_wf_ext `{env : Env} m m' pgdir l l' :
  pgdir_wf m pgdir l -> (forall i, 0 <= i < 1024 -> pde_at m' pgdir i = pde_at m pgdir i) ->
  (forall x, x ∈ l' -> x ∈ l) -> pgdir_wf m' pgdir l'.
Proof.
  intros [W1 W2 W3 W4] E Hl. split; [done|auto|..].
  - intros i Hi. rewrite E by done. intros Hp. destruct (W3 i Hi Hp) as (? & ? & ? & ?). split_and!; auto.
  - intros i j Hi Hj. rewrite !E by done. by apply W4.
Qed.

Section Walk.
Context `{env : Env} `{A : !Allocator}.
Implicit Types (s : machine) (l : list Z).

(** Writes inside of pages that are not free keep the pool. *)
Lemma pool_write P m' s l :
  pool s l -> frame_except P (mem s) m' -> (forall q, P q -> is_page q /\ q ∉ l) ->
  pool (set_mem m' s) l.
Proof.
  intros Hp Hf HP. destruct (pool_pages s l Hp) as [_ Hpg]. apply (pool_frame s); [done..|].
  intros x b Hx Hb. eapply (mload8_frame_page P); [done|by intros; apply HP|by apply Hpg| |done].
  intros Hq. by apply (HP x).
Qed.

Lemma pool_cons_inv s x l : pool s (x :: l) -> is_page x /\ x ∉ l.
Proof.
  intros Hp. destruct (pool_pages s (x :: l) Hp) as [[Hn _]%NoDup_cons Hpg]. split; [|done].
  apply Hpg. set_solver.
Qed.

Lemma walk_load s pgdir va :
  is_page pgdir -> load32 (pgdir + 4 * PDX va) s = (Ok (pde_at (mem s) pgdir (PDX va)), s).
Proof. intros Hp. pose proof (PDX_range va). apply load32_kernel. page_tac. Qed.

Lemma walkpgdir_present s pgdir va b :
  is_page pgdir -> present (pde_at (mem s) pgdir (PDX va)) = true ->
  walkpgdir pgdir va b s = (Ok (table_of (pde_at (mem s) pgdir (PDX va)) + 4 * PTX va), s).
Proof.
  intros Hp Hpr. unfold walkpgdir. rewrite (bind_ok _ _ _ _ _ (walk_load s pgdir va Hp)).
  by rewrite land_PTE_P, Hpr.
Qed.
Lemma walkpgdir_absent s pgdir va :
  is_page pgdir -> present (pde_at (mem s) pgdir (PDX va)) = false ->
  walkpgdir pgdir va false s = (Ok 0, s).
Proof.
  intros Hp Hpr. unfold walkpgdir. rewrite (bind_ok _ _ _ _ _ (walk_load s pgdir va Hp)).
  by rewrite land_PTE_P, Hpr.
Qed.
Lemma walkpgdir_nomem s pgdir va :
  is_page pgdir -> present (pde_at (mem s) pgdir (PDX va)) = false -> pool s [] ->
  exists s', walkpgdir pgdir va true s = (Ok 0, s') /\ s' ≡ s /\ pool s' [].
Proof.
  intros Hp Hpr Hpool. unfold walkpgdir. rewrite (bind_ok _ _ _ _ _ (walk_load s pgdir va Hp)).
  rewrite land_PTE_P, Hpr. cbn [negb]. destruct (alloc_nil s Hpool) as (s' & E & Hs & Hp').
  rewrite (bind_ok _ _ _ _ _ E). by exists s'.
Qed.

(** RAM after a table [x] is put at index [d]. *)
Definition with_table (m : gmap Z Z) (pgdir d x : Z) : gmap Z Z :=
  mstore32 (mfill m x 0 (Z.to_nat PGSIZE)) (pgdir + 4 * d) (V2P x .| PTE_P .| PTE_W .| PTE_U).

Lemma walkpgdir_alloc_eq s pgdir va x l :
  is_page pgdir -> present (pde_at (mem s) pgdir (PDX va)) = false -> pool s (x :: l) ->
  exists s1, walkpgdir pgdir va true s
      = (Ok (x + 4 * PTX va), set_mem (with_table (mem s) pgdir (PDX va) x) s1) /\
    alloc_frame s s1 /\ mem s1 = mem s /\ pool s1 l.
Proof.
  intros Hp Hpr Hpool. unfold walkpgdir. rewrite (bind_ok _ _ _ _ _ (walk_load s pgdir va Hp)).
  rewrite land_PTE_P, Hpr. cbn [negb]. destruct (pool_cons_inv s x l Hpool) as [Hx _].
  destruct (alloc_cons s x l Hpool) as (s1 & E & Hf & Em & Hp1). exists s1.
  rewrite (bind_ok _ _ _ _ _ E). destruct (Z.eqb_spec x 0) as [->|_]; [page_tac|].
  erewrite bind_ok by (apply memset_kernel; page_tac). pose proof (PDX_range va).
  erewrite bind_ok by (apply store32_kernel; page_tac). rewrite Em. done.
Qed.

Section WithTable.
Context (m : gmap Z Z) (pgdir d x : Z) (l : list Z).
Hypothesis Hwf : pgdir_wf m pgdir (x :: l).
Hypothesis Hx : is_page x.
Hypothesis Hd : 0 <= d < 1024.
Hypothesis Habs : present (pde_at m pgdir d) = false.
Let m' := with_table m pgdir d x.

Lemma with_table_frame : frame_except (fun p => p = x \/ p = pgdir) m m'.
Proof.
  destruct Hwf as [W1 W2 _ _]. eapply frame_except_trans.
  - eapply frame_except_mono; [by apply (frame_fill m x 0)|]. intros p <-. by left.
  - eapply frame_except_mono; [by apply (frame_store _ pgdir d)|]. intros p <-. by right.
Qed.

Lemma with_table_pde i :
  0 <= i < 1024 -> pde_at m' pgdir i = if decide (i = d) then V2P x + 7 else pde_at m pgdir i.
Proof.
  intros Hi. destruct Hwf as [W1 W2 _ _]. destruct (new_pde_ok x Hx) as (E & Ew & _).
  unfold pde_at, m', with_table. rewrite mload32_store_slot by done.
  case_decide as E1; case_decide as E2.
  - by rewrite Ew, E.
  - by destruct E1.
  - by destruct E1.
  - apply (mload32_frame (eq x)); [by apply frame_fill|by intros ? <-|done| |done].
    intros ->. apply W2. set_solver.
Qed.

Lemma with_table_old i :
  0 <= i < 1024 -> present (pde_at m pgdir i) = true -> i <> d ->
  table_of (pde_at m pgdir i) <> x /\ table_of (pde_at m pgdir i) <> pgdir.
Proof.
  intros Hi Hp Hne. destruct (wf_table _ _ _ Hwf i Hi Hp) as (_ & ? & Hn & _).
  split; [|done]. intros E. apply Hn. rewrite E. set_solver.
Qed.

Lemma with_table_new : present (V2P x + 7) = true /\ table_of (V2P x + 7) = x.
Proof. by destruct (new_pde_ok x Hx) as (<- & _ & ? & ?). Qed.

Lemma with_table_pte va : pte_at m' pgdir va = pte_at m pgdir va.
Proof.
  unfold pte_at. pose proof (PDX_range va) as Hr. pose proof (PTX_range va).
  rewrite with_table_pde by done. destruct with_table_new as [Hn1 Hn2].
  case_decide as E.
  - rewrite Hn1, Hn2, E, Habs. unfold m', with_table. rewrite mload32_store_slot by (done || apply Hwf).
    rewrite decide_False; [by apply mload32_zeroed|]. intros [E' _].
    apply (wf_free _ _ _ Hwf). rewrite E'. set_solver.
  - destruct (present (pde_at m pgdir (PDX va))) eqn:Ep; [|done].
    destruct (with_table_old _ Hr Ep E) as [Ho1 Ho2].
    destruct (wf_table _ _ _ Hwf _ Hr Ep) as (Hpg & _).
    apply (mload32_frame (fun p => p = x \/ p = pgdir));
      [apply with_table_frame|intros q [-> | ->]; [done|apply Hwf]|done|by intros [|]|done].
Qed.

Lemma with_table_wf : x ∉ l -> pgdir_wf m' pgdir l.
Proof.
  intros Hxl. destruct with_table_new as [Hn1 Hn2]. split.
  - apply Hwf.
  - intros Hin. apply (wf_free _ _ _ Hwf). set_solver.
  - intros i Hi. rewrite with_table_pde by done. case_decide as E.
    + intros _. rewrite Hn2. split_and!; [done| |done|done]. intros ->.
      apply (wf_free _ _ _ Hwf). set_solver.
    + intros Hp. destruct (wf_table _ _ _ Hwf i Hi Hp) as (? & ? & ? & ?).
      split_and!; [done|done|set_solver|done].
  - intros i j Hi Hj. rewrite !with_table_pde by done.
    case_decide as Ei; case_decide as Ej; rewrite ?Hn2; intros Hp1 Hp2 Et.
    + by subst.
    + by destruct (with_table_old j Hj Hp2 Ej).
    + by destruct (with_table_old i Hi Hp1 Ei).
    + by apply (wf_inj _ _ _ Hwf).
Qed.
End WithTable.

(** *** Writing an entry *)

Section WithPte.
Context (m : gmap Z Z) (pgdir va v : Z) (l : list Z).
Hypothesis Hwf : pgdir_wf m pgdir l.
Hypothesis Hp : present (pde_at m pgdir (PDX va)) = true.
Let t := table_of (pde_at m pgdir (PDX va)).
Let m' := mstore32 m (t + 4 * PTX va) v.

Lemma with_pte_frame : frame_except (eq t) m m'.
Proof.
  destruct (wf_table _ _ _ Hwf _ (PDX_range va) Hp) as (Ht & _).
  apply frame_store; [done|apply PTX_range].
Qed.
Lemma with_pte_pde i : 0 <= i < 1024 -> pde_at m' pgdir i = pde_at m pgdir i.
Proof.
  intros Hi. destruct (wf_table _ _ _ Hwf _ (PDX_range va) Hp) as (Ht & Hne & _).
  apply (mload32_frame (eq t)); [apply with_pte_frame|by intros ? <-|apply Hwf|done|done].
Qed.
Lemma with_pte_wf : pgdir_wf m' pgdir l.
Proof. eapply pgdir_wf_ext; [exact Hwf|exact with_pte_pde|done]. Qed.
Lemma with_pte_pte va' :
  pte_at m' pgdir va' =
    if decide (PDX va' = PDX va /\ PTX va' = PTX va) then wrap32 v else pte_at m pgdir va'.
Proof.
  unfold pte_at. rewrite with_pte_pde by apply PDX_range.
  destruct (wf_table _ _ _ Hwf _ (PDX_range va) Hp) as (Ht & _).
  destruct (present (pde_at m pgdir (PDX va'))) eqn:Ep.
  - destruct (wf_table _ _ _ Hwf _ (PDX_range va') Ep) as (Ht' & _).
    unfold m'. rewrite mload32_store_slot; [|done|done|apply PTX_range..].
    case_decide as E1; case_decide as E2; [done| | |done].
    + destruct E1 as [E1 E1']. destruct E2. split; [|done].
      symmetry. by apply (wf_inj _ _ _ Hwf _ _ (PDX_range _) (PDX_range _) Hp Ep).
    + destruct E2 as [E2 E2']. destruct E1. unfold t. by rewrite E2.
  - case_decide as E; [|done]. destruct E as [E _]. rewrite E in Ep. congruence.
Qed.
End WithPte.
End Walk.

(** ** mappages *)

Section Mappages.
Context `{env : Env} `{A : !Allocator}.
Implicit Types (s : machine) (l : list Z).

(** The pages a change to a directory may touch: its own and the free ones. *)
Definition pd_or_free (m : gmap Z Z) (pgdir : Z) (l : list Z) (p : Z) : Prop :=
  pd_page m pgdir p \/ p ∈ l.

Lemma pd_page_wf m pgdir l p : pgdir_wf m pgdir l -> pd_page m pgdir p -> is_page p /\ p ∉ l.
Proof.
  intros Hwf [->|(i & Hi & Hp & ->)]; [split; apply Hwf|].
  by destruct (wf_table _ _ _ Hwf i Hi Hp) as (? & ? & ? & ?).
Qed.

(** What a walk that may allocate does. *)
Lemma walkpgdir_create s pgdir va l :
  pool s l -> pgdir_wf (mem s) pgdir l ->
  (l = [] /\ present (pde_at (mem s) pgdir (PDX va)) = false /\
     exists s', walkpgdir pgdir va true s = (Ok 0, s') /\ s' ≡ s /\ pool s' []) \/
  (exists s' l', let t := table_of (pde_at (mem s') pgdir (PDX va)) in
     walkpgdir pgdir va true s = (Ok (t + 4 * PTX va), s') /\
     present (pde_at (mem s') pgdir (PDX va)) = true /\
     (if present (pde_at (mem s) pgdir (PDX va)) then l' = l else exists x, l = x :: l') /\
     pool s' l' /\ pgdir_wf (mem s') pgdir l' /\ alloc_frame s s' /\
     (forall va', pte_at (mem s') pgdir va' = pte_at (mem s) pgdir va') /\
     (forall p, pd_page (mem s') pgdir p -> pd_or_free (mem s) pgdir l p) /\
     (forall p, pd_page (mem s) pgdir p \/ (p ∈ l /\ p ∉ l') -> pd_page (mem s') pgdir p) /\
     frame_except (pd_or_free (mem s) pgdir l) (mem s) (mem s')).
Proof.
  intros Hpool Hwf. pose proof (wf_page _ _ _ Hwf) as Hpg.
  destruct (present (pde_at (mem s) pgdir (PDX va))) eqn:Hp.
  - right. exists s, l. split_and!; [by apply walkpgdir_present|done..|by left|naive_solver|done].
  - destruct l as [|x l]; [left; split_and!; [done..|by apply walkpgdir_nomem]|right].
    destruct (walkpgdir_alloc_eq s pgdir va x l Hpg Hp Hpool) as (s1 & E & Hf & Em & Hp1).
    destruct (pool_cons_inv s x l Hpool) as [Hx Hxl]. pose proof (PDX_range va) as Hd.
    pose proof (with_table_frame _ _ _ _ _ Hwf Hx Hd) as Hfr.
    pose proof (with_table_pde _ _ _ _ _ Hwf Hx Hd Hp) as Hpde.
    destruct (with_table_new x Hx) as [Hn1 Hn2].
    exists (set_mem (with_table (mem s) pgdir (PDX va) x) s1), l. simpl.
    rewrite (Hpde _ Hd), decide_True, Hn1, Hn2 by done.
    split_and!; [done|done|by exists x| | | | | | |].
    + apply (pool_write (fun p => p = x \/ p = pgdir)); [done|by rewrite Em|].
      intros q [->| ->]; [done|]. split; [done|]. intros Hin. apply (wf_free _ _ _ Hwf). set_solver.
    + by apply with_table_wf.
    + etrans; [exact Hf|apply alloc_frame_set_mem].
    + by apply (with_table_pte _ _ _ _ _ Hwf).
    + intros p [->|(i & Hi & Hpi & ->)]; [by left; left|]. rewrite Hpde in Hpi |- * by done.
      case_decide; [right; rewrite Hn2; set_solver|]. left; right. by exists i.
    + intros p [[->|(i & Hi & Hpi & ->)]|[[->|Hin]%elem_of_cons Hnin]]; [by left|right; exists i|right|done].
      * rewrite Hpde, decide_False by (done || congruence). done.
      * exists (PDX va). by rewrite Hpde, decide_True, Hn1, Hn2.
    + eapply frame_except_mono; [exact Hfr|]. intros p [-> | ->]; [right; set_solver|by left; left].
Qed.

Context (pgdir a0 pa0 perm : Z) (N : Z).
Hypothesis Ha0 : 0 <= a0 /\ a0 mod 4096 = 0.
Hypothesis HN : 0 < N /\ a0 + 4096 * N <= 4294967296.
Hypothesis Hpa0 : 0 <= pa0 < 4294967296.

(** The entry [mappages] writes for the page of [va]. *)
Definition map_entry (va : Z) : Z :=
  wrap32 ((pa0 +u (PGROUNDDOWN va - a0)) .| perm .| PTE_P).

(** The first [k] pages from [a0] are mapped in [st], starting from [s]. *)
Record mapped_upto s l (k : Z) (st : machine) l' : Prop := {
  mu_pool : pool st l';
  mu_wf : pgdir_wf (mem st) pgdir l';
  mu_alloc : alloc_frame s st;
  mu_pte va : 0 <= va < 4294967296 -> pte_at (mem st) pgdir va =
    if decide (a0 <= va < a0 + 4096 * k) then map_entry va else pte_at (mem s) pgdir va;
  mu_pages p : pd_page (mem st) pgdir p -> pd_or_free (mem s) pgdir l p;
  mu_used p : pd_page (mem s) pgdir p \/ (p ∈ l /\ p ∉ l') -> pd_page (mem st) pgdir p;
  mu_frame : frame_except (pd_or_free (mem s) pgdir l) (mem s) (mem st);
  mu_suffix : l' `suffix_of` l;
  mu_count : 0 < k -> present (pde_at (mem st) pgdir (PDX (a0 + 4096 * (k - 1)))) = true /\
    Z.of_nat (length l) <= Z.of_nat (length l') + PDX (a0 + 4096 * (k - 1)) - PDX a0 + 1;
  mu_zero : k = 0 -> l' = l;
}.

Lemma mapped_upto_equiv s l k st st' l' :
  mapped_upto s l k st l' -> st' ≡ st -> pool st' l' -> mapped_upto s l k st' l'.
Proof.
  intros [M1 M2 (m & h & M3) M4 M5 MU M6 M7 M8 M9] E Hp. pose proof (equiv_mem _ _ E) as Em.
  split; rewrite ?Em; try done. exists m, h. by etrans.
Qed.

(** Entering the [k]-th page. *)
Lemma mapped_upto_pte s l k st l' a :
  mapped_upto s l k st l' -> 0 <= k < N -> a = a0 + 4096 * k ->
  pte_at (mem st) pgdir a = pte_at (mem s) pgdir a.
Proof.
  intros [] Hk ->. rewrite mu_pte0 by lia. rewrite decide_False by lia. done.
Qed.

(** After the walk and the write of the entry. *)
Lemma mapped_upto_S s l k st l1 st1 l2 a :
  mapped_upto s l k st l1 -> 0 <= k < N -> a = a0 + 4096 * k ->
  present (pde_at (mem st1) pgdir (PDX a)) = true ->
  (if present (pde_at (mem st) pgdir (PDX a)) then l2 = l1 else exists x, l1 = x :: l2) ->
  pool st1 l2 -> pgdir_wf (mem st1) pgdir l2 -> alloc_frame st st1 ->
  (forall va', pte_at (mem st1) pgdir va' = pte_at (mem st) pgdir va') ->
  (forall p, pd_page (mem st1) pgdir p -> pd_or_free (mem st) pgdir l1 p) ->
  (forall p, pd_page (mem st) pgdir p \/ (p ∈ l1 /\ p ∉ l2) -> pd_page (mem st1) pgdir p) ->
  frame_except (pd_or_free (mem st) pgdir l1) (mem st) (mem st1) ->
  let t := table_of (pde_at (mem st1) pgdir (PDX a)) in
  let v := (pa0 +u 4096 * k) .| perm .| PTE_P in
  mapped_upto s l (k + 1) (set_mem (mstore32 (mem st1) (t + 4 * PTX a) v) st1) l2.
Proof.
  intros M Hk Ea Hp Hl Hpool Hwf Hf Hpte Hpd Hus Hfr t v. pose proof M as [M1 M2 M3 M4 M5 MU M6 M7 M8 M9].
  assert (forall p, pd_or_free (mem st) pgdir l1 p -> pd_or_free (mem s) pgdir l p) as Hsub.
  { intros p [H|H]; [by apply M5|]. right. destruct M7 as [l0 ->]. set_solver. }
  assert (pd_page (mem st1) pgdir t) as Ht by (right; exists (PDX a); split_and!; [apply PDX_range..|done|done]).
  pose proof (with_pte_frame _ _ a v _ Hwf Hp) as Hfr2.
  destruct (pd_page_wf _ _ _ _ Hwf Ht) as [Htp Htl].
  split; simpl.
  - apply (pool_write (eq t)); [done|done|]. by intros q <-.
  - by apply with_pte_wf.
  - etrans; [exact M3|]. etrans; [exact Hf|apply alloc_frame_set_mem].
  - intros va Hva. rewrite (with_pte_pte _ _ _ _ _ Hwf Hp), Hpte, M4 by done.
    pose proof (PGROUNDDOWN_eq va Hva) as Er.
    destruct (decide (PDX va = PDX a /\ PTX va = PTX a)) as [[E1 E2]|Hne].
    + assert (PGROUNDDOWN va = a) as Eva.
      { pose proof (page_number va Hva). pose proof (page_number a ltac:(lia)). rewrite E1, E2 in *. lia. }
      rewrite decide_True by lia. unfold map_entry. rewrite Eva. unfold v.
      by replace (a - a0) with (4096 * k) by lia.
    + assert (PGROUNDDOWN va <> a) as Eva.
      { intros Eva. apply Hne. rewrite <- Eva. rewrite !PDX_eq, !PTX_eq by lia. lia. }
      repeat case_decide; try done; lia.
  - intros p [->|(i & Hi & Hpi & ->)]; [by left; left|].
    rewrite (with_pte_pde _ _ _ _ _ Hwf Hp) in Hpi |- * by done.
    apply Hsub, Hpd. right. by exists i.
  - intros p Hq. assert (pd_page (mem st1) pgdir p) as [->|(i & Hi & Hpi & ->)].
    { apply Hus. destruct (decide (p ∈ l1)) as [Hin|Hin]; [|left; apply MU; naive_solver].
      destruct Hq as [Hq|[_ Hq]]; [left; apply MU; by left|by right]. }
    + by left.
    + right. exists i. by rewrite (with_pte_pde _ _ _ _ _ Hwf Hp).
  - eapply frame_except_trans; [exact M6|]. eapply frame_except_trans.
    + eapply frame_except_mono; [exact Hfr|done].
    + eapply frame_except_mono; [exact Hfr2|]. intros p <-. by apply Hsub, Hpd.
  - destruct M7 as [l0 ->]. destruct (present (pde_at (mem st) pgdir (PDX a))).
    + subst l2. by exists l0.
    + destruct Hl as [x ->]. exists (l0 ++ [x]). by rewrite <- app_assoc.
  - intros _. replace (k + 1 - 1) with k by lia. rewrite <- Ea.
    rewrite (with_pte_pde _ _ _ _ _ Hwf Hp) by apply PDX_range. split; [done|].
    pose proof (PDX_eq a ltac:(lia)) as Da. pose proof (PDX_eq a0 ltac:(lia)) as Da0.
    destruct (decide (k = 0)) as [->|Hk0].
    + rewrite (M9 eq_refl) in *. destruct (present (pde_at (mem st) pgdir (PDX a))); [subst l2; lia|].
      destruct Hl as [x ->]. simpl. lia.
    + destruct (M8 ltac:(lia)) as [Hpr Hc]. pose proof (PDX_eq (a0 + 4096 * (k - 1)) ltac:(lia)) as Dp.
      destruct (present (pde_at (mem st) pgdir (PDX a))) eqn:Epa; [subst l2; lia|].
      destruct Hl as [x ->]. simpl in Hc. assert (PDX a <> PDX (a0 + 4096 * (k - 1))) by congruence. lia.
  - lia.
Qed.

(** How one round ends. *)
Lemma mappages_step_cases s l k st l1 last :
  mapped_upto s l k st l1 -> 0 <= k < N ->
  let a := a0 + 4096 * k in
  exists r st', mappages_step pgdir last perm (a, pa0 +u 4096 * k) st = (r, st') /\
    ((r = Ok (inr (-1)) /\ mapped_upto s l k st' [] /\ Z.of_nat (length l) <= PDX a - PDX a0) \/
     (r = Panic "remap" /\ present (pte_at (mem s) pgdir a) = true) \/
     (r = Ok (if a =? last then inr 0 else inl (a +u PGSIZE, (pa0 +u 4096 * k) +u PGSIZE)) /\
      present (pte_at (mem s) pgdir a) = false /\ exists l2, mapped_upto s l (k + 1) st' l2)).
Proof.
  intros M Hk a. pose proof M as [M1 M2 M3 M4 M5 MU M6 M7 M8 M9].
  pose proof (mapped_upto_pte s l k st l1 a M Hk eq_refl) as Epte. unfold mappages_step.
  destruct (walkpgdir_create st pgdir a l1 M1 M2) as
    [(-> & Hab & s' & E & Hs & Hp)|(s' & l2 & E & Hp & Hl & Hpool & Hwf & Hf & Hpte & Hpd & Hus & Hfr)].
  - rewrite (bind_ok _ _ _ _ _ E). cbn [Z.eqb]. eexists _, s'. split; [reflexivity|]. left.
    split; [done|]. split; [by eapply mapped_upto_equiv|].
    pose proof (PDX_eq a ltac:(lia)). pose proof (PDX_eq a0 ltac:(lia)).
    destruct (decide (k = 0)) as [->|Hk0]; [rewrite <- (M9 eq_refl); simpl; lia|].
    destruct (M8 ltac:(lia)) as [Hpr Hc]. simpl in Hc.
    pose proof (PDX_eq (a0 + 4096 * (k - 1)) ltac:(lia)).
    assert (PDX a <> PDX (a0 + 4096 * (k - 1))) by congruence. lia.
  - rewrite (bind_ok _ _ _ _ _ E).
    destruct (wf_table _ _ _ Hwf _ (PDX_range a) Hp) as (Ht & _). pose proof (PTX_range a) as Hx.
    set (t := table_of _) in *. destruct (Z.eqb_spec (t + 4 * PTX a) 0) as [E0|_]; [page_tac|].
    erewrite bind_ok by (apply load32_kernel; page_tac).
    assert (mload32 (mem s') (t + 4 * PTX a) = pte_at (mem s) pgdir a) as ->.
    { rewrite <- Epte, <- Hpte. unfold pte_at. by rewrite Hp. }
    rewrite land_PTE_P, negb_involutive. destruct (present (pte_at (mem s) pgdir a)) eqn:Ep.
    { eexists _, _. split; [reflexivity|]. by right; left. }
    erewrite bind_ok by (apply store32_kernel; page_tac).
    eexists (Ok (if a =? last then inr 0 else inl (a +u PGSIZE, (pa0 +u 4096 * k) +u PGSIZE))), _.
    split; [by destruct (a =? last)|]. right; right. split; [done|]. split; [done|]. exists l2. by eapply mapped_upto_S.
Qed.

Lemma mappages_cases s l :
  pool s l -> pgdir_wf (mem s) pgdir l ->
  exists r st, loop 20 (mappages_step pgdir (a0 + 4096 * (N - 1)) perm) (a0, pa0) s = (r, st) /\
    ((r = Ok 0 /\ (forall k, 0 <= k < N -> present (pte_at (mem s) pgdir (a0 + 4096 * k)) = false) /\
      exists l', mapped_upto s l N st l') \/
     (r = Ok (-1) /\ exists k, 0 <= k < N /\ mapped_upto s l k st [] /\
        Z.of_nat (length l) <= PDX (a0 + 4096 * k) - PDX a0) \/
     (r = Panic "remap" /\ exists k, 0 <= k < N /\ present (pte_at (mem s) pgdir (a0 + 4096 * k)) = true)).
Proof.
  intros Hpool Hwf. set (body := mappages_step pgdir (a0 + 4096 * (N - 1)) perm).
  set (J := fun n '(a, pa) st => exists k l', 0 <= k < N /\ n = Z.to_nat (N - 1 - k) /\
    a = a0 + 4096 * k /\ pa = (pa0 +u 4096 * k) /\ mapped_upto s l k st l' /\
    forall j, 0 <= j < k -> present (pte_at (mem s) pgdir (a0 + 4096 * j)) = false).
  match goal with |- exists r st, _ /\ @?P r st => set (Q := P) end.
  assert (Q (loop 20 body (a0, pa0) s).1 (loop 20 body (a0, pa0) s).2) as HQ.
  { apply (loop_inv_Z body J Q 20 (Z.to_nat (N - 1))).
    - intros n [a pa] st (k & l' & Hk & -> & -> & -> & M & Hab). unfold body.
      destruct (mappages_step_cases s l k st l' (a0 + 4096 * (N - 1)) M Hk)
        as (r & st' & -> & [(-> & M' & Hc)|[(-> & Hp)|(-> & Hp & l2 & M')]]).
      + right; left. split; [done|]. by exists k.
      + right; right. split; [done|]. by exists k.
      + assert (forall j, 0 <= j < k + 1 -> present (pte_at (mem s) pgdir (a0 + 4096 * j)) = false)
          as Hab'. { intros j Hj. destruct (decide (j = k)) as [->|]; [done|]. apply Hab. lia. }
        destruct (Z.eqb_spec (a0 + 4096 * k) (a0 + 4096 * (N - 1))) as [E|E].
        * left. split; [done|]. assert (k + 1 = N) as <- by lia. split; [done|]. by exists l2.
        * exists (Z.to_nat (N - 1 - (k + 1))). split; [lia|]. exists (k + 1), l2.
          unfold PGSIZE. rewrite (wrap32_small (a0 + 4096 * k + 4096)) by lia.
          split_and!; [lia|lia|done|lia|ulia|done|done].
    - exists 0, l. rewrite Z.mul_0_r, !Z.add_0_r, wrap32_small by done.
      split_and!; [lia|lia|lia|done|done| |lia]. split; try done.
      + intros va Hva. by rewrite decide_False by lia.
      + by left.
      + intros p [?|[? ?]]; done.
    - simpl (2 ^ _). lia. }
  destruct (loop 20 body (a0, pa0) s) as [r st]. by exists r, st.
Qed.
End Mappages.

(** ** The MMU's view *)

(** The entries [mappages] writes: an aligned address and the flags. *)
Lemma entry_bits pa f :
  0 <= pa < 4294967296 -> pa mod 4096 = 0 -> f = 3 \/ f = 7 ->
  wrap32 (pa .| (f - 1) .| PTE_P) = pa + f /\ present (pa + f) = true /\
  (pa + f) & 0xfffff000 = pa /\ Z.testbit (pa + f) 1 = true /\ Z.testbit (pa + f) 2 = (f =? 7) /\
  PTE_ADDR (pa + f) = pa.
Proof.
  intros Hpa Hal Hf.
  assert (pa .| (f - 1) .| PTE_P = pa + f) as E.
  { unfold PTE_P. rewrite <- Z.lor_assoc. destruct Hf as [-> | ->]; by apply lor_flags. }
  rewrite E. rewrite wrap32_small by lia.
  assert (pa + f = pa .| f) as E' by (symmetry; apply lor_flags; lia).
  assert (forall i, 0 <= i < 12 -> Z.testbit pa i = false) as Hlow.
  { intros i Hi. rewrite <- (Z.mod_pow2_bits_low pa 12 i) by lia. change (2 ^ 12) with 4096.
    rewrite Hal. apply Z.bits_0. }
  change 0xfffff000 with (Z.ldiff 0xffffffff 0xfff). rewrite land_align12, PTE_ADDR_eq by lia.
  unfold present. rewrite E', !Z.lor_spec, !Hlow, <- E' by lia.
  split_and!; [done|by destruct Hf as [-> | ->]|lia|by destruct Hf as [-> | ->]..|lia].
Qed.

(** The walk of the hardware finds the entry [pte_at] reads. *)
Lemma mmu_walk_pte `{env : Env} m pgdir l va :
  pgdir_wf m pgdir l -> 0 <= va < 4294967296 ->
  let pte := pte_at m pgdir va in
  mmu_walk m (V2P pgdir) va =
    if present pte
    then Some ((pte & 0xfffff000) + va mod 4096, Z.testbit pte 1, Z.testbit pte 2) else None.
Proof.
  intros Hwf Hva pte. pose proof (wf_page _ _ _ Hwf) as Hpg.
  assert (forall x, is_page x -> (V2P x & 0xfffff000) + KERNBASE = x) as Hb.
  { intros x Hx. rewrite V2P_kernel by page_tac.
    change 0xfffff000 with (Z.ldiff 0xffffffff 0xfff). rewrite land_align12; page_tac. }
  unfold mmu_walk. rewrite (Hb pgdir Hpg). change ((va >> 22) & 0x3ff) with (PDX va).
  change ((va >> 12) & 0x3ff) with (PTX va). fold (pde_at m pgdir (PDX va)).
  subst pte. unfold pte_at. set (pde := pde_at m pgdir (PDX va)).
  change (Z.testbit pde 0) with (present pde). destruct (present pde) eqn:Ep; [|done].
  destruct (wf_table _ _ _ Hwf _ (PDX_range va) Ep) as (Ht & _ & _ & Epde). fold pde in Ht, Epde.
  set (t := table_of pde) in *. assert (V2P t = t - KERNBASE) as Ev by (apply V2P_kernel; page_tac).
  destruct (entry_bits (V2P t) 7) as (_ & _ & Ea & E1 & E2 & _); [rewrite Ev; page_tac..|by right|].
  assert (Z.testbit pde 7 = false) as E7.
  { rewrite Epde. rewrite <- (Z.mod_pow2_bits_low _ 12 7) by lia. change (2 ^ 12) with 4096.
    replace ((V2P t + 7) mod 4096) with 7 by (rewrite Ev; page_tac). done. }
  rewrite E7, Epde, Ea, E1, E2. change (7 =? 7) with true. rewrite !andb_true_l.
  replace (V2P t + KERNBASE) with t by (rewrite Ev; lia). by rewrite land_0xfff.
Qed.

(** ** mappages on a range *)

(** The pages that [va .. va + size - 1] touches. *)
Definition span (va size : Z) : Z := (PGROUNDDOWN (va + size - 1) - PGROUNDDOWN va) / 4096 + 1.

Section Range.
Context `{env : Env} `{A : !Allocator}.
Context (pgdir va size pa perm : Z).
Hypothesis Hva : 0 <= va /\ 0 < size /\ va + size <= 4294967296.
Hypothesis Hpa : 0 <= pa < 4294967296.
Let a0 := PGROUNDDOWN va.
Let N := span va size.

Lemma span_ok :
  (0 <= a0 /\ a0 mod 4096 = 0) /\ (0 < N /\ a0 + 4096 * N <= 4294967296) /\ a0 <= va < a0 + 4096 /\
  PGROUNDDOWN (va + size - 1) = a0 + 4096 * (N - 1) /\
  PDX (a0 + 4096 * (N - 1)) = PDX (va + size - 1) /\ PDX a0 = PDX va.
Proof using Hva.
  clear Hpa. unfold N, span, a0. rewrite !PGROUNDDOWN_eq by lia. rewrite !PDX_eq by lia. lia.
Qed.

Lemma mappages_eq s :
  mappages pgdir va size pa perm s
    = loop 20 (mappages_step pgdir (a0 + 4096 * (N - 1)) perm) (a0, pa) s.
Proof.
  unfold mappages. destruct span_ok as (_ & _ & _ & <- & _). unfold a0.
  rewrite !wrap32_small by (rewrite ?wrap32_small; lia). by replace (wrap32 va + size) with (va + size) by (rewrite wrap32_small; lia).
Qed.

(** Enough free pages: one per table that may be needed. *)
Lemma mappages_enough s l :
  pool s l -> pgdir_wf (mem s) pgdir l ->
  PDX (va + size - 1) - PDX va + 1 <= Z.of_nat (length l) ->
  exists r st, mappages pgdir va size pa perm s = (r, st) /\
    ((r = Ok 0 /\ (forall k, 0 <= k < N -> present (pte_at (mem s) pgdir (a0 + 4096 * k)) = false) /\
      exists l', mapped_upto pgdir a0 pa perm s l N st l') \/
     (r = Panic "remap" /\ exists k, 0 <= k < N /\ present (pte_at (mem s) pgdir (a0 + 4096 * k)) = true)).
Proof.
  intros Hp Hwf Hlen. destruct span_ok as (H1 & H2 & H3 & H4 & H5 & H6).
  destruct (mappages_cases pgdir a0 pa perm N H1 H2 Hpa s l Hp Hwf)
    as (r & st & E & [H|[(-> & k & Hk & _ & Hc)|H]]).
  - exists r, st. rewrite mappages_eq. by split; [|left].
  - exfalso. rewrite !PDX_eq in * by lia. lia.
  - exists r, st. rewrite mappages_eq. by split; [|right].
Qed.
End Range.

(** ** setupkvm *)

(** A cleared page is a directory that maps nothing. *)
Lemma empty_pgdir `{env : Env} m x l :
  is_page x -> x ∉ l -> (forall j, 0 <= j < PGSIZE -> mload8 m (x + j) = 0) ->
  pgdir_wf m x l /\ (forall va, pte_at m x va = 0) /\ (forall p, pd_page m x p -> p = x).
Proof.
  intros Hx Hl Hz8. assert (forall i, 0 <= i < 1024 -> pde_at m x i = 0) as Hz.
  { intros i Hi. unfold pde_at, mload32. rewrite <- !Z.add_assoc. by rewrite !Hz8 by (unfold PGSIZE; lia). }
  split_and!.
  - split; [done|done|..].
    + intros i Hi. by rewrite Hz.
    + intros i j Hi Hj. by rewrite !Hz.
  - intros va. unfold pte_at. by rewrite Hz by apply PDX_range.
  - intros p [->|(i & Hi & Hp & _)]; [done|]. by rewrite Hz in Hp.
Qed.

(** The kernel's address space: RAM and the ACPI area at their direct-map
    address, the device space at its own, all for the kernel only. *)
Definition kernel_va (v : vm_t) (va : Z) : option Z :=
  let pe := phys_end v in
  let a := acpi v in
  if decide (KERNBASE <= va < PGROUNDDOWN (KERNBASE + pe - 1) + 4096) then Some (va - KERNBASE)
  else if decide (KERNBASE + a <= va < PGROUNDDOWN (KERNBASE + a + acpi_len v - 1) + 4096)
  then Some (va - KERNBASE)
  else if decide (DEVSPACE <= va < DEVSPACE + 0xf00000) then Some va else None.

(** The layout [pmem_init] finds: RAM, then the ACPI area, below the devices. *)
Definition vm_layout (v : vm_t) : Prop :=
  0 < phys_end v <= DEVSPACE - KERNBASE /\ PGROUNDDOWN (KERNBASE + phys_end v - 1) + 4096 <= KERNBASE + acpi v /\
  acpi v mod 4096 = 0 /\ 0 < acpi_len v /\ KERNBASE + acpi v + acpi_len v <= DEVSPACE.

Lemma vm_layout_acpi v : vm_layout v -> 0 <= acpi v.
Proof.
  unfold vm_layout, DEVSPACE, KERNBASE. intros (H1 & H2 & _). rewrite PGROUNDDOWN_eq in H2; lia.
Qed.

(** The tables [setupkvm] needs at most, and the directory itself. *)
Definition kvm_pages (v : vm_t) : Z :=
  1 + (PDX (KERNBASE + phys_end v - 1) - PDX KERNBASE + 1)
    + (PDX (KERNBASE + acpi v + acpi_len v - 1) - PDX (KERNBASE + acpi v) + 1) + 4.

Section Setupkvm.
Context `{env : Env} `{A : !Allocator}.
Implicit Types (s : machine) (l : list Z).

Lemma alloc_frame_vm s s' : alloc_frame s s' -> vm s' = vm s.
Proof. intros (m & h & E). exact (equiv_vm _ _ E). Qed.

(** A mapping of fresh pages succeeds when memory suffices. *)
Lemma mappages_fresh s l pgdir va size pa perm :
  0 <= va /\ 0 < size /\ va + size <= 4294967296 -> 0 <= pa < 4294967296 ->
  pool s l -> pgdir_wf (mem s) pgdir l ->
  PDX (va + size - 1) - PDX va + 1 <= Z.of_nat (length l) ->
  (forall va', PGROUNDDOWN va <= va' < PGROUNDDOWN (va + size - 1) + 4096 ->
     present (pte_at (mem s) pgdir va') = false) ->
  exists st l', mappages pgdir va size pa perm s = (Ok 0, st) /\
    mapped_upto pgdir (PGROUNDDOWN va) pa perm s l (span va size) st l' /\
    Z.of_nat (length l) <= Z.of_nat (length l') + (PDX (va + size - 1) - PDX va + 1) /\
    (forall va', 0 <= va' < 4294967296 -> pte_at (mem st) pgdir va' =
       if decide (PGROUNDDOWN va <= va' < PGROUNDDOWN (va + size - 1) + 4096)
       then map_entry (PGROUNDDOWN va) pa perm va' else pte_at (mem s) pgdir va').
Proof.
  intros Hva Hpa Hp Hwf Hlen Habs. destruct (span_ok va size Hva) as (H1 & H2 & H3 & H4 & H5 & H6).
  destruct (mappages_enough pgdir va size pa perm Hva Hpa s l Hp Hwf Hlen)
    as (r & st & E & [(-> & _ & l' & M)|(-> & k & Hk & Hpr)]).
  - exists st, l'. pose proof (mu_count _ _ _ _ _ _ _ _ _ M ltac:(lia)) as [_ Hc].
    rewrite H5, H6 in Hc. split_and!; [done|done|lia|].
    intros va' Hva'. rewrite (mu_pte _ _ _ _ _ _ _ _ _ M) by done. rewrite H4.
    replace (PGROUNDDOWN va + 4096 * (span va size - 1) + 4096)
      with (PGROUNDDOWN va + 4096 * span va size) by lia. done.
  - exfalso. rewrite Habs in Hpr; [done|]. rewrite H4. lia.
Qed.

(** A directory under construction: made of pages of [l], of which [l'] are
    still free, with entries [f]. *)
Record building s l (pgdir : Z) (st : machine) l' (f : Z -> Z) : Prop := {
  bd_pool : pool st l';
  bd_wf : pgdir_wf (mem st) pgdir l';
  bd_alloc : alloc_frame s st;
  bd_frame : frame_except (.∈ l) (mem s) (mem st);
  bd_pages p : pd_page (mem st) pgdir p -> p ∈ l;
  bd_used p : p ∈ l -> p ∉ l' -> pd_page (mem st) pgdir p;
  bd_suffix : l' `suffix_of` l;
  bd_pte va : 0 <= va < 4294967296 -> pte_at (mem st) pgdir va = f va;
}.

(** [kalloc] of a page and clearing it. *)
Lemma alloc_clear s x l :
  pool s (x :: l) -> exists m1 s1, kalloc s = (Ok x, s1) /\ memset x 0 PGSIZE s1 = (Ok x, set_mem m1 s1) /\
    alloc_frame s s1 /\ mem s1 = mem s /\ pool s1 l /\ pool (set_mem m1 s1) l /\
    frame_except (eq x) (mem s) m1 /\ forall j, 0 <= j < PGSIZE -> mload8 m1 (x + j) = 0.
Proof.
  intros Hp. destruct (pool_cons_inv s x l Hp) as [Hx Hxl].
  destruct (alloc_cons s x l Hp) as (s1 & E & Hf & Em & Hp1).
  assert (exists m1, memset x 0 PGSIZE s1 = (Ok x, set_mem m1 s1) /\ frame_except (eq x) (mem s) m1 /\
    forall j, 0 <= j < PGSIZE -> mload8 m1 (x + j) = 0) as (m1 & Es & Hfr & Hz).
  { eexists. split; [apply memset_kernel; page_tac|]. rewrite Em. split; [by apply frame_fill|].
    intros j Hj. unfold is_page, PGSIZE, KERNBASE in *. rewrite mload8_fill by lia. by rewrite decide_True by lia. }
  exists m1, s1. split_and!; try done. apply (pool_write (eq x)); [done|by rewrite Em|by intros q <-].
Qed.

Lemma building_new s x l :
  pool s (x :: l) -> exists st,
    (pgdir ← kalloc; if pgdir =? 0 then mret 0 else _ ← memset pgdir 0 PGSIZE; mret pgdir) s = (Ok x, st) /\
    building s (x :: l) x st l (fun _ => 0) /\
    forall (k : Z -> K Z), (pgdir ← kalloc; if pgdir =? 0 then raise_panic "kalloc" else
      _ ← memset pgdir 0 PGSIZE; k pgdir) s = k x st.
Proof.
  intros Hp. destruct (pool_cons_inv s x l Hp) as [Hx Hxl].
  destruct (alloc_clear s x l Hp) as (m & s1 & E & Es & Hf & Em & _ & Hp1 & Hfr & Hz).
  destruct (empty_pgdir m x l Hx Hxl Hz) as (Hwf & Hpte & Hpd).
  assert ((x =? 0) = false) as E0 by (apply Z.eqb_neq; page_tac). exists (set_mem m s1). split_and!.
  - by rewrite (bind_ok _ _ _ _ _ E), E0, (bind_ok _ _ _ _ _ Es).
  - split; simpl; [done|done| | | | | |done].
    + etrans; [exact Hf|apply alloc_frame_set_mem].
    + eapply frame_except_mono; [exact Hfr|]. intros p <-. apply list_elem_of_here.
    + intros p ->%Hpd. apply list_elem_of_here.
    + intros p [->|Hin]%elem_of_cons Hn; [by left|done].
    + by apply suffix_cons_r.
  - intros k. by rewrite (bind_ok _ _ _ _ _ E), E0, (bind_ok _ _ _ _ _ Es).
Qed.

Lemma building_map s l pgdir st l1 f va size pa perm :
  building s l pgdir st l1 f ->
  0 <= va /\ 0 < size /\ va + size <= 4294967296 -> 0 <= pa < 4294967296 ->
  PDX (va + size - 1) - PDX va + 1 <= Z.of_nat (length l1) ->
  (forall va', PGROUNDDOWN va <= va' < PGROUNDDOWN (va + size - 1) + 4096 -> f va' = 0) ->
  exists st' l2, mappages pgdir va size pa perm st = (Ok 0, st') /\
    Z.of_nat (length l1) <= Z.of_nat (length l2) + (PDX (va + size - 1) - PDX va + 1) /\
    building s l pgdir st' l2 (fun va' =>
      if decide (PGROUNDDOWN va <= va' < PGROUNDDOWN (va + size - 1) + 4096)
      then map_entry (PGROUNDDOWN va) pa perm va' else f va').
Proof.
  intros [B1 B2 B3 B4 B5 BU B6 B7] Hva Hpa Hlen Hf.
  destruct (span_ok va size Hva) as (H1 & H2 & H3 & H4 & H5 & H6).
  destruct (mappages_fresh st l1 pgdir va size pa perm Hva Hpa B1 B2 Hlen) as (st' & l2 & E & M & Hc & Hpte).
  { intros va' Hva'. rewrite B7 by lia. by rewrite Hf. }
  exists st', l2. split; [done|]. split; [done|]. destruct M as [M1 M2 M3 M4 M5 MU M6 M7 M8 M9].
  assert (forall p, pd_or_free (mem st) pgdir l1 p -> p ∈ l) as Hsub.
  { intros p [H|H]; [by apply B5|]. destruct B6 as [l0 ->]. apply elem_of_app. by right. }
  split; [done|done|by etrans| |auto| |by etrans|].
  - eapply frame_except_trans; [exact B4|]. by eapply frame_except_mono.
  - intros p Hin Hn. apply MU. destruct (decide (p ∈ l1)); [by right|left; by apply BU].
  - intros va' Hva'. rewrite Hpte by done. case_decide; [done|by apply B7].
Qed.

Lemma map_entry_kernel a0 pa va :
  a0 mod 4096 = 0 -> pa mod 4096 = 0 -> 0 <= a0 <= va -> va < 4294967296 -> 0 <= pa ->
  pa + (va - a0) < 4294967296 ->
  map_entry a0 pa PTE_W va = (pa + (va - a0)) - (pa + (va - a0)) mod 4096 + 3.
Proof.
  intros Ha Hp Hva Hva' Hpa Hle. unfold map_entry. rewrite PGROUNDDOWN_eq by lia.
  rewrite (wrap32_small (pa + _)) by lia.
  destruct (entry_bits (pa + (va - va mod 4096 - a0)) 3) as (E & _); [lia|lia|by left|].
  change PTE_W with (3 - 1). rewrite E. lia.
Qed.

Lemma setupkvm_ok s l :
  pool s l -> vm_layout (vm s) -> kvm_pages (vm s) <= Z.of_nat (length l) ->
  exists pgdir st l', setupkvm s = (Ok pgdir, st) /\ head l = Some pgdir /\
    Z.of_nat (length l) <= Z.of_nat (length l') + kvm_pages (vm s) /\
    building s l pgdir st l' (fun va =>
      match kernel_va (vm s) va with Some pa => pa - pa mod 4096 + 3 | None => 0 end).
Proof.
  intros Hpool Hlay Hlen. pose proof (vm_layout_acpi _ Hlay) as L0. unfold vm_layout, kvm_pages, DEVSPACE in *. destruct Hlay as (L1 & L2 & L3 & L4 & L5).
  set (pe := phys_end (vm s)) in *. set (ac := acpi (vm s)) in *. set (al := acpi_len (vm s)) in *.
  assert (PGROUNDDOWN KERNBASE = KERNBASE) as R1 by reflexivity.
  assert (PGROUNDDOWN (KERNBASE + ac) = KERNBASE + ac) as R2
    by (unfold KERNBASE in *; rewrite PGROUNDDOWN_eq; lia).
  rewrite !PDX_eq in Hlen by (unfold KERNBASE in *; rewrite ?PGROUNDDOWN_eq in * ; lia).
  destruct l as [|x l]; [unfold KERNBASE in *; simpl in Hlen; lia|].
  destruct (building_new s x l Hpool) as (s0 & _ & B0 & E0).
  assert (vm s0 = vm s) as V0 by apply alloc_frame_vm, B0.
  destruct (building_map _ _ _ _ _ _ KERNBASE (pe - 0) 0 PTE_W B0) as (s1 & l1 & E1 & C1 & B1);
    [unfold KERNBASE in *; lia|lia|simpl in Hlen; rewrite !PDX_eq by (unfold KERNBASE in *; lia); lia|done|].
  assert (vm s1 = vm s) as V1 by apply alloc_frame_vm, B1.
  rewrite !PDX_eq in C1 by (unfold KERNBASE in *; lia).
  destruct (building_map _ _ _ _ _ _ (KERNBASE + ac) al ac PTE_W B1) as (s2 & l2 & E2 & C2 & B2);
    [unfold KERNBASE in *; lia|unfold KERNBASE in *; lia| | |].
  { simpl in Hlen. rewrite !PDX_eq by (unfold KERNBASE in *; lia). lia. }
  { intros va Hva. rewrite decide_False; [done|]. rewrite R1, R2, Z.sub_0_r in *. lia. }
  assert (vm s2 = vm s) as V2 by apply alloc_frame_vm, B2.
  rewrite !PDX_eq in C2 by (unfold KERNBASE in *; lia).
  assert (PGROUNDDOWN (KERNBASE + ac + al - 1) + 4096 <= DEVSPACE) as R3
    by (unfold KERNBASE, DEVSPACE in *; rewrite PGROUNDDOWN_eq; lia).
  destruct (building_map _ _ _ _ _ _ DEVSPACE 0xf00000 DEVSPACE PTE_W B2) as (s3 & l3 & E3 & C3 & B3);
    [unfold DEVSPACE; lia|unfold DEVSPACE; lia| | |].
  { simpl in Hlen. change (PDX (DEVSPACE + 0xf00000 - 1) - PDX DEVSPACE + 1) with 4. lia. }
  { intros va Hva. change (PGROUNDDOWN DEVSPACE) with DEVSPACE in Hva. unfold DEVSPACE in *.
    rewrite R2. rewrite decide_False by lia. rewrite R1, Z.sub_0_r. rewrite decide_False by lia. done. }
  exists x, s3, l3. split; [|split; [done|split]].
  - unfold setupkvm. rewrite E0, bind_gets, V0, (bind_ok _ _ _ _ _ E1). cbn [Z.ltb Z.compare].
    rewrite !bind_gets, V1, P2V_low, (Z.add_comm _ KERNBASE) by (unfold KERNBASE in *; lia).
    rewrite (bind_ok _ _ _ _ _ E2). cbn [Z.ltb Z.compare]. by rewrite (bind_ok _ _ _ _ _ E3).
  - change (PDX (DEVSPACE + 0xf00000 - 1) - PDX DEVSPACE + 1) with 4 in C3. simpl.
    rewrite !PDX_eq by (unfold KERNBASE in *; lia). lia.
  - destruct B3 as [? ? ? ? ? ? ? B3]. split; [done..|]. intros va Hva. rewrite B3 by done. unfold kernel_va.
    fold pe ac al. rewrite R1, R2, Z.sub_0_r. change (PGROUNDDOWN DEVSPACE) with DEVSPACE.
    change (PGROUNDDOWN (DEVSPACE + 0xf00000 - 1) + 4096) with (DEVSPACE + 0xf00000).
    unfold KERNBASE, DEVSPACE in *. repeat case_decide; try lia.
    + rewrite map_entry_kernel by lia. f_equal. lia.
    + rewrite map_entry_kernel by lia. repeat f_equal; lia.
    + rewrite map_entry_kernel by lia. repeat f_equal; lia.
Qed.
End Setupkvm.

(** ** deallocuvm and freevm *)

(** [p] is mapped by the directory at a page of [lo, hi). *)
Definition user_page (m : gmap Z Z) (pgdir lo hi p : Z) : Prop :=
  exists va, lo <= va < hi /\ va mod 4096 = 0 /\ present (pte_at m pgdir va) = true /\
    p = table_of (pte_at m pgdir va).

(** What is needed to give those pages back: each can be freed, is mapped only
    once and is not a page of the directory. *)
Record user_wf `{env : Env} `{A : !Allocator} (s : machine) (pgdir lo hi : Z) (l : list Z) : Prop := {
  uw_page p : user_page (mem s) pgdir lo hi p ->
    is_page p /\ freeable s p /\ (p ∉ l) /\ ~ pd_page (mem s) pgdir p;
  uw_inj va va' : lo <= va < hi -> va mod 4096 = 0 -> lo <= va' < hi -> va' mod 4096 = 0 ->
    present (pte_at (mem s) pgdir va) = true -> present (pte_at (mem s) pgdir va') = true ->
    table_of (pte_at (mem s) pgdir va) = table_of (pte_at (mem s) pgdir va') -> va = va';
}.

Lemma pde_at_frame `{env : Env} P m m' pgdir i :
  frame_except P m m' -> (forall q, P q -> is_page q) -> is_page pgdir -> ~ P pgdir -> 0 <= i < 1024 ->
  pde_at m' pgdir i = pde_at m pgdir i.
Proof. intros. by apply (mload32_frame P). Qed.

Lemma pte_at_frame `{env : Env} P m m' pgdir l va :
  frame_except P m m' -> (forall q, P q -> is_page q /\ ~ pd_page m pgdir q) -> pgdir_wf m pgdir l ->
  pte_at m' pgdir va = pte_at m pgdir va.
Proof.
  intros Hf HP Hwf. unfold pte_at. pose proof (PDX_range va) as Hd. pose proof (PTX_range va) as Hx.
  rewrite (pde_at_frame P m) ; [|done|apply HP|apply Hwf|intros H; apply HP in H as [_ []]; by left|done].
  destruct (present (pde_at m pgdir (PDX va))) eqn:Ep; [|done].
  destruct (wf_table _ _ _ Hwf _ Hd Ep) as (Ht & _).
  apply (mload32_frame P); [done|apply HP|done| |done]. intros H. apply HP in H as [_ []].
  right. by exists (PDX va).
Qed.

Section Dealloc.
Context `{env : Env} `{A : !Allocator}.
Context (s : machine) (pgdir lo hi : Z) (l : list Z).
Hypothesis Hr : 0 <= lo /\ hi <= KERNBASE /\ lo mod 4096 = 0.
Hypothesis Hwf : pgdir_wf (mem s) pgdir l.
Hypothesis Hu : user_wf s pgdir lo hi l.

(** The pages of [lo, a) have been given back and are in front of the pool. *)
Record dealloc_upto (a : Z) (st : machine) (fr : list Z) : Prop := {
  du_pool : pool st (fr ++ l);
  du_alloc : alloc_frame s st;
  du_fr p : p ∈ fr <-> user_page (mem s) pgdir lo a p;
  du_pde i : 0 <= i < 1024 -> pde_at (mem st) pgdir i = pde_at (mem s) pgdir i;
  du_pte va : 0 <= va < 4294967296 -> pte_at (mem st) pgdir va =
    if decide (lo <= va < a /\ present (pte_at (mem s) pgdir va) = true) then 0
    else pte_at (mem s) pgdir va;
  du_frame : frame_except (fun p => p ∈ fr \/ pd_page (mem s) pgdir p) (mem s) (mem st);
}.

Lemma user_page_mono m a b p : a <= b -> user_page m pgdir lo a p -> user_page m pgdir lo b p.
Proof. intros Hab (va & ? & ? & ? & ?). exists va. split; [lia|done]. Qed.

Lemma dealloc_out a st fr p :
  a <= hi -> dealloc_upto a st fr -> pd_page (mem s) pgdir p -> p ∉ fr ++ l.
Proof.
  intros Ha [D1 D2 D3 D4 D5 D6] Hp. rewrite elem_of_app. intros [Hf|Hf].
  - apply D3, (user_page_mono _ _ hi) in Hf; [|done].
    by apply (uw_page _ _ _ _ _ Hu) in Hf as (_ & _ & _ & []).
  - by destruct (pd_page_wf _ _ _ _ Hwf Hp).
Qed.

Lemma dealloc_pd_page a st fr p :
  dealloc_upto a st fr -> pd_page (mem st) pgdir p <-> pd_page (mem s) pgdir p.
Proof.
  intros D. pose proof (du_pde _ _ _ D) as E. unfold pd_page.
  split; (intros [->|(i & Hi & Hp & ->)]; [by left|right; exists i]);
    (rewrite E in * || rewrite <- E in *); try done; by rewrite ?E in * by done.
Qed.

Lemma dealloc_wf a st fr : a <= hi -> dealloc_upto a st fr -> pgdir_wf (mem st) pgdir (fr ++ l).
Proof.
  intros Ha D. pose proof (du_pde _ _ _ D) as E. split.
  - apply Hwf.
  - eapply dealloc_out; [done..|by left].
  - intros i Hi. rewrite E by done. intros Hp. destruct (wf_table _ _ _ Hwf i Hi Hp) as (? & ? & ? & ?).
    split_and!; [done|done| |done]. eapply dealloc_out; [done..|]. right. by exists i.
  - intros i j Hi Hj. rewrite !E by done. by apply (wf_inj _ _ _ Hwf).
Qed.

(** Moving on over pages that are not mapped. *)
Lemma dealloc_skip a b st fr :
  dealloc_upto a st fr -> a <= b ->
  (forall va, a <= va < b -> present (pte_at (mem s) pgdir va) = false) -> dealloc_upto b st fr.
Proof.
  intros [D1 D2 D3 D4 D5 D6] Hab Hn. split; [done|done| |done| |done].
  - intros p. rewrite D3. split; [by apply user_page_mono|].
    intros (va & Hva & Hal & Hp & ->). exists va. split_and!; [lia| |done..].
    destruct (decide (va < a)); [lia|]. rewrite Hn in Hp; [done|lia].
  - intros va Hva. rewrite D5 by done. case_decide as C1; case_decide as C2; [done| | |done]; exfalso.
    + apply C2. destruct C1. split; [lia|done].
    + destruct C2 as [C2 C2']. destruct (decide (va < a)); [apply C1; split; [lia|done]|].
      rewrite Hn in C2'; [done|lia].
Qed.

(** Giving back the page mapped at [a]. *)
Lemma dealloc_one a st fr st1 :
  dealloc_upto a st fr -> lo <= a < hi -> a mod 4096 = 0 -> present (pte_at (mem s) pgdir a) = true ->
  let u := table_of (pte_at (mem s) pgdir a) in
  let t := table_of (pde_at (mem s) pgdir (PDX a)) in
  pool st1 (u :: fr ++ l) -> alloc_frame st st1 -> same_outside u (mem st) (mem st1) ->
  dealloc_upto (a + 4096) (set_mem (mstore32 (mem st1) (t + 4 * PTX a) 0) st1) (u :: fr).
Proof.
  intros D Ha Hal Hpr u t Hp1 Hf1 Hs1. pose proof (dealloc_wf a st fr ltac:(lia) D) as W.
  assert (user_page (mem s) pgdir lo hi u) as Hup by (by exists a).
  destruct (uw_page _ _ _ _ _ Hu u Hup) as (Hpu & _ & _ & Hnpd).
  assert (frame_except (eq u) (mem st) (mem st1)) as Hfr1 by (intros b Hb Hn; apply Hs1; [done|by apply Hn]).
  assert (forall q, u = q -> is_page q /\ ~ pd_page (mem st) pgdir q) as Hq
    by (intros q <-; by rewrite (dealloc_pd_page a st fr)).
  assert (present (pde_at (mem s) pgdir (PDX a)) = true) as Hpd.
  { unfold pte_at in Hpr. by destruct (present (pde_at (mem s) pgdir (PDX a))). }
  assert (pd_page (mem s) pgdir t) as Hpt by (right; exists (PDX a); split_and!; [apply PDX_range..|done|done]).
  assert (forall i, 0 <= i < 1024 -> pde_at (mem st1) pgdir i = pde_at (mem s) pgdir i) as Epd.
  { intros i Hi. rewrite <- (du_pde _ _ _ D) by done. apply (pde_at_frame (eq u)); [done|apply Hq|apply W| |done].
    intros E. apply Hnpd. rewrite E. by left. }
  assert (forall va, pte_at (mem st1) pgdir va = pte_at (mem st) pgdir va) as Ept
    by (intros va; by apply (pte_at_frame (eq u) _ _ _ (fr ++ l))).
  assert (pgdir_wf (mem st1) pgdir []) as W1.
  { eapply pgdir_wf_ext; [exact Hwf|done|]. intros x Hx. by apply elem_of_nil in Hx. }
  assert (present (pde_at (mem st1) pgdir (PDX a)) = true) as Hpd1 by (by rewrite Epd by apply PDX_range).
  pose proof (with_pte_frame _ _ a 0 _ W1 Hpd1) as Hfr2.
  pose proof (with_pte_pde _ _ a 0 _ W1 Hpd1) as Epd2. pose proof (with_pte_pte _ _ a 0 _ W1 Hpd1) as Ept2.
  rewrite !Epd in Hfr2, Epd2, Ept2 by apply PDX_range. fold t in Hfr2, Epd2, Ept2.
  assert (is_page t) as Hpgt by (by destruct (pd_page_wf _ _ _ _ Hwf Hpt)).
  set (m2 := mstore32 _ _ _) in *. clearbody m2. destruct D as [D1 D2 D3 D4 D5 D6]. split; simpl.
  - apply (pool_write (eq t)); [done|done|]. intros q <-. split; [done|].
    intros [E|Hin]%elem_of_cons; [apply Hnpd; by rewrite <- E|].
    eapply (dealloc_out a st fr t); [lia|by split|done|done].
  - etrans; [exact D2|]. etrans; [exact Hf1|apply alloc_frame_set_mem].
  - intros p. rewrite elem_of_cons, D3. split.
    + intros [->|H]; [by exists a; split; [lia|]|]. eapply user_page_mono; [|done]. lia.
    + intros (va & Hva & Hval & Hvp & ->). destruct (decide (va = a)) as [->|]; [by left|].
      right. exists va. split; [lia|done].
  - intros i Hi. by rewrite Epd2, Epd.
  - intros va Hva. rewrite Ept2, Ept, D5 by done. change (wrap32 0) with 0.
    destruct (decide (PDX va = PDX a /\ PTX va = PTX a)) as [[E1 E2]|Hne].
    + assert (pte_at (mem s) pgdir va = pte_at (mem s) pgdir a) as Ev by (unfold pte_at; by rewrite E1, E2).
      rewrite decide_True; [done|]. rewrite Ev. split; [|done].
      pose proof (page_number va Hva). pose proof (page_number a ltac:(unfold KERNBASE in *; lia)).
      rewrite E1, E2 in *. lia.
    + assert (va < a \/ a + 4096 <= va) as Hout.
      { destruct (decide (va < a)); [by left|]. destruct (decide (a + 4096 <= va)); [by right|].
        destruct Hne. unfold KERNBASE in *. rewrite !PDX_eq, !PTX_eq by lia. lia. }
      case_decide as C1; case_decide as C2; [done| | |done]; exfalso;
        [apply C2; destruct C1|apply C1; destruct C2]; (split; [lia|done]).
  - eapply frame_except_trans; [eapply frame_except_mono; [exact D6|];
      intros p [H|H]; [left; by apply list_elem_of_further|by right]|].
    eapply frame_except_trans; eapply frame_except_mono; [exact Hfr1|intros p <-; left; apply list_elem_of_here|exact Hfr2|].
    intros p <-. by right.
Qed.

Lemma deallocuvm_step_ok a st fr :
  dealloc_upto a st fr -> lo <= a < hi -> a mod 4096 = 0 ->
  exists a' st' fr', deallocuvm_step pgdir hi a st = (Ok (inl a'), st') /\
    a < a' <= KERNBASE /\ a' mod 4096 = 0 /\ dealloc_upto a' st' fr'.
Proof.
  intros D Ha Hal. unfold deallocuvm_step. rewrite (proj2 (Z.ltb_lt a hi)) by lia. cbn [negb].
  pose proof (dealloc_wf a st fr ltac:(lia) D) as W. pose proof (wf_page _ _ _ Hwf) as Hpg.
  pose proof (du_pte _ _ _ D a ltac:(unfold KERNBASE in *; lia)) as Epa. rewrite decide_False in Epa by lia.
  pose proof (du_pde _ _ _ D _ (PDX_range a)) as Epd.
  destruct (present (pde_at (mem s) pgdir (PDX a))) eqn:Hpd.
  - rewrite (bind_ok _ _ _ _ _ (walkpgdir_present st pgdir a false Hpg ltac:(by rewrite Epd))). rewrite Epd.
    destruct (wf_table _ _ _ Hwf _ (PDX_range a) Hpd) as (Ht & _). pose proof (PTX_range a) as Hx.
    set (t := table_of (pde_at (mem s) pgdir (PDX a))) in *.
    destruct (Z.eqb_spec (t + 4 * PTX a) 0) as [E0|_]; [page_tac|].
    erewrite bind_ok by (apply load32_kernel; page_tac).
    assert (mload32 (mem st) (t + 4 * PTX a) = pte_at (mem s) pgdir a) as ->.
    { rewrite <- Epa. unfold pte_at. by rewrite Epd, Hpd. }
    assert (wrap32 (a + PGSIZE) = a + 4096) as Ew by (apply wrap32_small; page_tac).
    rewrite land_PTE_P. destruct (present (pte_at (mem s) pgdir a)) eqn:Hpr; cbn [negb].
    + assert (user_page (mem s) pgdir lo hi (table_of (pte_at (mem s) pgdir a))) as Hup by (by exists a).
      destruct (uw_page _ _ _ _ _ Hu _ Hup) as (Hpu & Hfu & Hlu & Hnpd).
      destruct (Z.eqb_spec (PTE_ADDR (pte_at (mem s) pgdir a)) 0) as [E0|_].
      { exfalso. unfold table_of in Hpu. rewrite E0 in Hpu. change (P2V 0) with KERNBASE in Hpu. page_tac. }
      fold (table_of (pte_at (mem s) pgdir a)). set (u := table_of (pte_at (mem s) pgdir a)) in *.
      destruct (free_ok st u (fr ++ l)) as (st1 & E1 & Hf1 & Hs1 & Hp1).
      * apply D.
      * eapply freeable_alloc; [apply D|done].
      * rewrite elem_of_app. intros [Hin|?]; [|done]. apply (du_fr _ _ _ D) in Hin as (va & Hva & Hval & Hvp & Ev).
        assert (a = va) by (apply (uw_inj _ _ _ _ _ Hu); done || lia). lia.
      * rewrite (bind_ok _ _ _ _ _ E1). erewrite bind_ok by (apply store32_kernel; page_tac). rewrite Ew.
        eexists _, _, (u :: fr). split; [reflexivity|]. split_and!; [lia|unfold KERNBASE in *; lia|lia|].
        by apply (dealloc_one a st fr st1).
    + rewrite Ew. exists (a + 4096), st, fr. split_and!; [done|lia|unfold KERNBASE in *; lia|lia|].
      apply (dealloc_skip a); [done|lia|]. intros va Hva.
      replace (pte_at (mem s) pgdir va) with (pte_at (mem s) pgdir a); [done|].
      unfold pte_at. unfold KERNBASE in *. rewrite !PDX_eq, !PTX_eq by lia.
      replace (va / 4194304) with (a / 4194304) by lia. by replace (va / 4096) with (a / 4096) by lia.
  - rewrite (bind_ok _ _ _ _ _ (walkpgdir_absent st pgdir a Hpg ltac:(by rewrite Epd))). cbn [Z.eqb].
    pose proof (PDX_range a). pose proof (PDX_eq a ltac:(unfold KERNBASE in *; lia)) as Ea.
    assert (wrap32 (wrap32 (PGADDR (PDX a + 1) 0 0 - PGSIZE) + PGSIZE) = (PDX a + 1) * 4194304) as ->.
    { rewrite PGADDR_eq by lia. unfold PGSIZE, KERNBASE in *. ulia. }
    eexists _, st, fr. split; [reflexivity|]. unfold KERNBASE in *. split_and!; [lia|lia|lia|].
    apply (dealloc_skip a); [done|lia|]. intros va Hva. unfold pte_at.
    replace (PDX va) with (PDX a) by (rewrite (PDX_eq va) by lia; lia). by rewrite Hpd.
Qed.

Lemma deallocuvm_loop_ok :
  lo <= KERNBASE -> hi = KERNBASE -> pool s l -> exists st fr,
    loop 21 (deallocuvm_step pgdir hi) lo s = (Ok tt, st) /\ dealloc_upto hi st fr.
Proof.
  intros Hlo Ehi Hp. set (J := fun n a st => n = Z.to_nat ((KERNBASE - a) / 4096) /\ lo <= a <= KERNBASE /\
    a mod 4096 = 0 /\ exists fr, dealloc_upto a st fr).
  set (Q := fun (r : result unit) st => r = Ok tt /\ exists fr, dealloc_upto hi st fr).
  assert (Q (loop 21 (deallocuvm_step pgdir hi) lo s).1 (loop 21 (deallocuvm_step pgdir hi) lo s).2)
    as [E [fr D]].
  { apply (loop_inv_Z _ J Q 21 (Z.to_nat ((KERNBASE - lo) / 4096))).
    - intros n a st (-> & Ha & Hal & fr & D). destruct (decide (a < hi)) as [Hlt|Hge].
      + destruct (deallocuvm_step_ok a st fr D ltac:(lia) Hal) as (a' & st' & fr' & -> & Ha' & Hal' & D').
        exists (Z.to_nat ((KERNBASE - a') / 4096)). split; [lia|]. split_and!; [done|lia|lia|lia|by exists fr'].
      + unfold deallocuvm_step. rewrite (proj2 (Z.ltb_ge a hi)) by lia. cbn [negb].
        split; [done|]. exists fr. by replace hi with a by lia.
    - split_and!; [done|lia|lia|lia|]. exists []. split; [done|done| |done| |by intros].
      + intros p. split; [by intros ?%elem_of_nil|]. intros (va & ? & _). lia.
      + intros va Hva. by rewrite decide_False by lia.
    - unfold KERNBASE in *. simpl (2 ^ _). lia. }
  destruct (loop 21 _ lo s) as [r st]. simpl in *. subst r. by exists st, fr.
Qed.
End Dealloc.

Section Freevm.
Context `{env : Env} `{A : !Allocator}.
Implicit Types (s : machine) (l : list Z).

(** [p] is a table of the directory at an index in [i, j). *)
Definition table_page (m : gmap Z Z) (pgdir i j p : Z) : Prop :=
  exists k, i <= k < j /\ present (pde_at m pgdir k) = true /\ p = table_of (pde_at m pgdir k).

(** The tables from index [i] on can still be given back. *)
Record tables_ok s l (pgdir i : Z) : Prop := {
  tk_page : is_page pgdir /\ pgdir ∉ l;
  tk_table p : table_page (mem s) pgdir i 1024 p -> is_page p /\ p <> pgdir /\ (p ∉ l) /\ freeable s p;
  tk_inj k k' : i <= k < 1024 -> i <= k' < 1024 ->
    present (pde_at (mem s) pgdir k) = true -> present (pde_at (mem s) pgdir k') = true ->
    table_of (pde_at (mem s) pgdir k) = table_of (pde_at (mem s) pgdir k') -> k = k';
}.

Lemma table_page_split m pgdir i p :
  i < 1024 -> table_page m pgdir i 1024 p <->
    (present (pde_at m pgdir i) = true /\ p = table_of (pde_at m pgdir i)) \/
    table_page m pgdir (i + 1) 1024 p.
Proof.
  intros Hi. split.
  - intros (k & Hk & ? & ?). destruct (decide (k = i)) as [->|]; [by left|right; exists k; split; [lia|done]].
  - intros [[? ?]|(k & Hk & ? & ?)]; [exists i|exists k]; (split; [lia|done]).
Qed.
Lemma table_page_ext m m' pgdir i p :
  0 <= i -> (forall k, 0 <= k < 1024 -> pde_at m' pgdir k = pde_at m pgdir k) ->
  table_page m' pgdir i 1024 p <-> table_page m pgdir i 1024 p.
Proof.
  intros Hi E. split; intros (k & Hk & Hp & ->); exists k.
  - by rewrite E in Hp |- * by lia.
  - by rewrite E by lia.
Qed.

(** The next index, after the table [t] at [i] was given back. *)
Lemma tables_ok_next s s1 l l1 pgdir i :
  tables_ok s l pgdir i -> 0 <= i < 1024 -> alloc_frame s s1 ->
  (forall k, 0 <= k < 1024 -> pde_at (mem s1) pgdir k = pde_at (mem s) pgdir k) ->
  (l1 = l \/ present (pde_at (mem s) pgdir i) = true /\ l1 = table_of (pde_at (mem s) pgdir i) :: l) ->
  tables_ok s1 l1 pgdir (i + 1).
Proof.
  intros [[T1 T2] T3 T4] Hi Hf E Hl. split.
  - split; [done|]. destruct Hl as [->|[Hp ->]]; [done|]. intros [Et|]%elem_of_cons; [|done].
    destruct (T3 (table_of (pde_at (mem s) pgdir i))) as (_ & Hne & _); [|by apply Hne].
    exists i. split; [lia|done].
  - intros p Hp. rewrite (table_page_ext (mem s)) in Hp by (done || lia).
    destruct (T3 p) as (H1 & H2 & H3 & H4); [apply table_page_split; [lia|by right]|].
    split_and!; [done|done| |by eapply freeable_alloc]. destruct Hl as [->|[Hpi ->]]; [done|].
    intros [Et|]%elem_of_cons; [|done]. destruct Hp as (k & Hk & Hpk & Ek).
    assert (k = i) by (apply T4; congruence || lia). lia.
  - intros k k' Hk Hk'. rewrite !E by lia. apply T4; lia.
Qed.

Lemma free_tables_ok s l pgdir n i :
  pool s l -> tables_ok s l pgdir i -> 0 <= i -> i + Z.of_nat n = 1024 ->
  exists st fr, free_tables pgdir i n s = (Ok tt, st) /\ pool st (fr ++ l) /\ alloc_frame s st /\
    (forall p, p ∈ fr <-> table_page (mem s) pgdir i 1024 p) /\ frame_except (.∈ fr) (mem s) (mem st).
Proof.
  revert s l i. induction n as [|n IH]; intros s l i Hp Hok Hi Hn.
  { exists s, []. split_and!; [done|done|done| |done]. intros p. split; [by intros ?%elem_of_nil|].
    intros (k & ? & _). lia. }
  destruct (tk_page _ _ _ _ Hok) as [Hpg Hpl]. simpl. erewrite bind_ok by (apply load32_kernel; page_tac).
  fold (pde_at (mem s) pgdir i). rewrite land_PTE_P, negb_involutive.
  pose proof (fun p => table_page_split (mem s) pgdir i p ltac:(lia)) as Htp.
  destruct (present (pde_at (mem s) pgdir i)) eqn:Ep; cbn [when].
  - fold (table_of (pde_at (mem s) pgdir i)). set (t := table_of (pde_at (mem s) pgdir i)) in *.
    destruct (tk_table _ _ _ _ Hok t) as (Ht & Hne & Hnl & Hft); [apply Htp; by left|].
    destruct (free_ok s t l Hp Hft Hnl) as (s1 & E1 & Hf1 & Hs1 & Hp1). rewrite (bind_ok _ _ _ _ _ E1).
    assert (frame_except (eq t) (mem s) (mem s1)) as Hfr1 by (intros b Hb Hx; apply Hs1; [done|by apply Hx]).
    assert (forall k, 0 <= k < 1024 -> pde_at (mem s1) pgdir k = pde_at (mem s) pgdir k) as Epd.
    { intros k Hk. apply (pde_at_frame (eq t)); [done|by intros q <-|done|done|done]. }
    destruct (IH s1 (t :: l) (i + 1) Hp1) as (st & fr & E & H1 & H2 & H3 & H4); [|lia|lia|].
    { eapply tables_ok_next; [done|lia|done|done|by right]. }
    exists st, (fr ++ [t]). rewrite <- app_assoc. split_and!; [done|done|by etrans| |].
    + intros p. rewrite elem_of_app, list_elem_of_singleton, H3, Htp, (table_page_ext (mem s)) by (done || lia).
      naive_solver.
    + eapply frame_except_trans; eapply frame_except_mono; [exact Hfr1|intros p <-; set_solver|exact H4|set_solver].
  - rewrite bind_ret. destruct (IH s l (i + 1) Hp) as (st & fr & E & H1 & H2 & H3 & H4); [|lia|lia|].
    { eapply tables_ok_next; [done|lia|done|done|by left]. }
    exists st, fr. split_and!; [done|done|done| |done]. intros p. rewrite Htp, H3. naive_solver.
Qed.

(** freevm gives back the user pages, the tables and the directory. *)
Lemma freevm_ok s l pgdir :
  pool s l -> pgdir_wf (mem s) pgdir l -> user_wf s pgdir 0 KERNBASE l ->
  (forall p, pd_page (mem s) pgdir p -> freeable s p) ->
  exists st fr, freevm pgdir s = (Ok tt, st) /\ pool st (fr ++ l) /\ alloc_frame s st /\
    (forall p, p ∈ fr <-> pd_page (mem s) pgdir p \/ user_page (mem s) pgdir 0 KERNBASE p) /\
    frame_except (.∈ fr) (mem s) (mem st).
Proof.
  intros Hp Hwf Hu Hfr. pose proof (wf_page _ _ _ Hwf) as Hpg. unfold freevm.
  destruct (Z.eqb_spec pgdir 0) as [->|_]; [page_tac|].
  destruct (deallocuvm_loop_ok s pgdir 0 KERNBASE l) as (s1 & f1 & E1 & D);
    [unfold KERNBASE; lia|done|done|done|done|done|].
  assert (deallocuvm pgdir KERNBASE 0 s = (Ok 0, s1)) as Ed
    by (unfold deallocuvm; simpl; change (PGROUNDUP 0) with 0; by rewrite (bind_ok _ _ _ _ _ E1)).
  rewrite (bind_ok _ _ _ _ _ Ed).
  assert (pgdir_wf (mem s1) pgdir (f1 ++ l)) as W1 by (by eapply (dealloc_wf s pgdir 0 KERNBASE)).
  pose proof (fun p => dealloc_pd_page s pgdir 0 l KERNBASE s1 f1 p D) as Hpd.
  assert (forall p, table_page (mem s1) pgdir 0 1024 p -> pd_page (mem s) pgdir p /\ p <> pgdir) as Htab.
  { intros p (k & Hk & Hpr & ->). split; [apply Hpd; right; by exists k|].
    by destruct (wf_table _ _ _ W1 k Hk Hpr) as (_ & ? & _). }
  assert (forall p, pd_page (mem s) pgdir p <-> p = pgdir \/ table_page (mem s1) pgdir 0 1024 p) as Hsp
    by (intros p; rewrite <- Hpd; unfold pd_page, table_page; naive_solver).
  destruct (free_tables_ok s1 (f1 ++ l) pgdir (Z.to_nat NPDENTRIES) 0) as (s2 & f2 & E2 & H1 & H2 & H3 & H4);
    [apply D| |lia|done|].
  { split; [split; apply W1| |intros k k' Hk Hk'; by apply (wf_inj _ _ _ W1)].
    intros p Hq. destruct (Htab p Hq) as [Hq' Hne]. destruct (pd_page_wf _ _ _ p W1) as [? ?]; [by apply Hpd|].
    split_and!; [done..|]. eapply freeable_alloc; [apply D|auto]. }
  rewrite (bind_ok _ _ _ _ _ E2).
  destruct (free_ok s2 pgdir (f2 ++ f1 ++ l)) as (s3 & E3 & H5 & H6 & H7); [done| | |].
  { eapply freeable_alloc; [done|]. eapply freeable_alloc; [apply D|]. apply Hfr. by left. }
  { rewrite elem_of_app. intros [Hq%H3|Hq]; [by destruct (Htab _ Hq)|exact (wf_free _ _ _ W1 Hq)]. }
  exists s3, (pgdir :: f2 ++ f1). split_and!.
  - done.
  - by rewrite <- app_comm_cons, <- app_assoc.
  - etrans; [apply D|]. by etrans.
  - intros p. rewrite elem_of_cons, elem_of_app, H3, (du_fr _ _ _ _ _ _ _ D), Hsp. tauto.
  - eapply frame_except_trans; [|eapply frame_except_trans].
    + eapply frame_except_mono; [apply D|]. intros p Hq. rewrite elem_of_cons, elem_of_app, H3.
      destruct Hq as [Hq|Hq]; [|apply Hsp in Hq]; tauto.
    + eapply frame_except_mono; [exact H4|]. intros p Hq. rewrite elem_of_cons, elem_of_app. tauto.
    + intros b Hb Hn. apply H6; [done|]. apply Hn, list_elem_of_here.
Qed.
End Freevm.

(** ** inituvm *)

Section Inituvm.
Context `{env : Env} `{A : !Allocator}.
Implicit Types (s : machine) (l : list Z).

Lemma map_entry_user u va :
  is_page u -> 0 <= va < 4096 -> map_entry 0 (V2P u) (PTE_W .| PTE_U) va = V2P u + 7.
Proof.
  intros Hu Hva. unfold map_entry. rewrite PGROUNDDOWN_eq by lia.
  assert (V2P u = u - KERNBASE) as Ev by (apply V2P_kernel; page_tac).
  replace (V2P u + (va - va mod 4096 - 0)) with (V2P u) by lia.
  rewrite (wrap32_small (V2P u)) by (rewrite Ev; page_tac).
  destruct (entry_bits (V2P u) 7) as (E & _); [rewrite Ev; page_tac..|by right|exact E].
Qed.

(** Mapping the cleared page [u] at address 0 and copying the program there. *)
Lemma map_and_copy s u l pgdir init sz :
  0 <= sz < PGSIZE -> pool s l -> pgdir_wf (mem s) pgdir l -> is_page u -> u ∉ l ->
  ~ pd_page (mem s) pgdir u -> (1 <= length l)%nat ->
  present (pte_at (mem s) pgdir 0) = false -> KERNBASE <= init -> init + sz <= u ->
  (forall p, pd_or_free (mem s) pgdir l p -> init + sz <= p) ->
  exists st l', (_ ← mappages pgdir 0 PGSIZE (V2P u) (PTE_W .| PTE_U); _ ← memmove u init sz; mret tt) s
      = (Ok tt, st) /\
    pool st l' /\ pgdir_wf (mem st) pgdir l' /\ alloc_frame s st /\ l' `suffix_of` l /\
    (forall va, 0 <= va < 4294967296 -> pte_at (mem st) pgdir va =
       if decide (va < 4096) then V2P u + 7 else pte_at (mem s) pgdir va) /\
    (forall j, 0 <= j < PGSIZE -> mload8 (mem st) (u + j) =
       if decide (j < sz) then mload8 (mem s) (init + j) else mload8 (mem s) (u + j)) /\
    (forall p, pd_page (mem st) pgdir p -> pd_or_free (mem s) pgdir l p) /\
    frame_except (fun p => p = u \/ pd_or_free (mem s) pgdir l p) (mem s) (mem st).
Proof.
  intros Hsz Hp Hwf Hu Hul Hnu Hlen Habs Hin Hiu Hout.
  destruct (mappages_fresh s l pgdir 0 PGSIZE (V2P u) (PTE_W .| PTE_U)) as (s1 & l' & E1 & M & _ & Hpte);
    [unfold PGSIZE; lia|unfold V2P; ulia|done|done|change (PDX (0 + PGSIZE - 1) - PDX 0 + 1) with 1; lia| |].
  { change (PGROUNDDOWN 0) with 0. change (PGROUNDDOWN (0 + PGSIZE - 1) + 4096) with 4096. intros va Hva.
    replace (pte_at (mem s) pgdir va) with (pte_at (mem s) pgdir 0); [done|]. unfold pte_at.
    rewrite !PDX_eq, !PTX_eq by lia. by rewrite !Z.div_small by lia. }
  destruct M as [M1 M2 M3 _ M5 _ M6 M7 _ _].
  assert (forall p, pd_or_free (mem s) pgdir l p -> is_page p /\ p <> u) as Hpf.
  { intros p [Hq|Hq]; [destruct (pd_page_wf _ _ _ _ Hwf Hq); split; [done|by intros ->]|].
    split; [by apply (pool_pages s l Hp)|by intros ->]. }
  assert (forall b, KERNBASE <= b -> b < init + sz \/ u <= b < u + PGSIZE -> mload8 (mem s1) b = mload8 (mem s) b) as Hb.
  { intros b Hb1 Hb2. apply M6; [page_tac|]. intros p Hq Hqb. pose proof (Hout p Hq).
    destruct (Hpf p Hq) as [Hpp Hpu]. destruct (pages_apart p u Hpp Hu Hpu); page_tac. }
  destruct (memmove_disjoint u init sz s1) as (m2 & E2 & Hc1 & Hc2); [lia|page_tac..|].
  assert (frame_except (eq u) (mem s1) m2) as Hfr2.
  { intros b Hb' Hn. apply Hc2; [done|]. specialize (Hn u eq_refl). lia. }
  assert (~ pd_page (mem s1) pgdir u) as Hnu1 by (intros Hq%M5; by destruct (Hpf u Hq)).
  exists (set_mem m2 s1), l'. rewrite (bind_ok _ _ _ _ _ E1), (bind_ok _ _ _ _ _ E2). simpl.
  assert (forall i, 0 <= i < 1024 -> pde_at m2 pgdir i = pde_at (mem s1) pgdir i) as Epd.
  { intros i Hi. apply (pde_at_frame (eq u)); [done|by intros q <-|apply Hwf| |done].
    intros ->. apply Hnu1. by left. }
  split_and!; [done| | |etrans; [exact M3|apply alloc_frame_set_mem]|done| | | |].
  - apply (pool_write (eq u)); [done|done|]. intros q <-. split; [done|]. intros Hq.
    destruct M7 as [l0 ->]. apply Hul, elem_of_app. by right.
  - by eapply pgdir_wf_ext.
  - intros va Hva. rewrite (pte_at_frame (eq u) (mem s1) m2 pgdir l'); [|done|by intros q <-|done].
    rewrite Hpte by done. change (PGROUNDDOWN 0) with 0. change (PGROUNDDOWN (0 + PGSIZE - 1) + 4096) with 4096.
    destruct (decide (va < 4096)); [|by rewrite decide_False by lia].
    rewrite decide_True by lia. apply map_entry_user; [done|lia].
  - intros j Hj. case_decide; [rewrite Hc1 by lia; apply Hb; page_tac|].
    rewrite Hc2 by page_tac. apply Hb; page_tac.
  - intros p [->|(i & Hi & Hpi & ->)]; [by left; left|]. rewrite Epd in Hpi |- * by done. apply M5.
    right. by exists i.
  - eapply frame_except_trans; eapply frame_except_mono; [exact M6|by right|exact Hfr2|by left].
Qed.

Lemma inituvm_ok s u l pgdir init sz :
  0 <= sz < PGSIZE -> pool s (u :: l) -> pgdir_wf (mem s) pgdir (u :: l) -> (1 <= length l)%nat ->
  present (pte_at (mem s) pgdir 0) = false -> KERNBASE <= init ->
  (forall p, pd_or_free (mem s) pgdir (u :: l) p -> init + sz <= p) ->
  exists st l', inituvm pgdir init sz s = (Ok tt, st) /\ pool st l' /\ pgdir_wf (mem st) pgdir l' /\
    alloc_frame s st /\ l' `suffix_of` l /\
    (forall va, 0 <= va < 4294967296 -> pte_at (mem st) pgdir va =
       if decide (va < 4096) then V2P u + 7 else pte_at (mem s) pgdir va) /\
    (forall j, 0 <= j < PGSIZE -> mload8 (mem st) (u + j) =
       if decide (j < sz) then mload8 (mem s) (init + j) else 0) /\
    (forall p, pd_page (mem st) pgdir p -> pd_or_free (mem s) pgdir l p) /\
    frame_except (pd_or_free (mem s) pgdir (u :: l)) (mem s) (mem st).
Proof.
  intros Hsz Hp Hwf Hlen Habs Hin Hout. unfold inituvm. rewrite (proj2 (Z.leb_gt PGSIZE sz)) by lia.
  destruct (pool_cons_inv s u l Hp) as [Hu Hul].
  destruct (alloc_clear s u l Hp) as (m1 & s1 & E1 & E2 & Hf1 & Em1 & _ & Hp1 & Hfr1 & Hz).
  rewrite (bind_ok _ _ _ _ _ E1), (bind_ok _ _ _ _ _ E2).
  assert (~ pd_page (mem s) pgdir u) as Hnpd.
  { intros Hq. destruct (pd_page_wf _ _ _ _ Hwf Hq) as [_ []]. apply list_elem_of_here. }
  assert (forall i, 0 <= i < 1024 -> pde_at m1 pgdir i = pde_at (mem s) pgdir i) as Epd.
  { intros i Hi. apply (pde_at_frame (eq u)); [done|by intros q <-|apply Hwf| |done].
    intros ->. apply Hnpd. by left. }
  assert (forall p, pd_page m1 pgdir p -> pd_page (mem s) pgdir p) as Hpd.
  { intros p [->|(i & Hi & Hpi & ->)]; [by left|]. rewrite Epd in Hpi |- * by done. right. by exists i. }
  assert (forall va, pte_at m1 pgdir va = pte_at (mem s) pgdir va) as Ept
    by (intros va; apply (pte_at_frame (eq u) _ _ _ (u :: l)); [done|by intros q <-|done]).
  destruct (map_and_copy (set_mem m1 s1) u l pgdir init sz) as
    (st & l' & E & H1 & H2 & H3 & H4 & H5 & H6 & H7 & H8); simpl; [done|done| |done|done| |done|by rewrite Ept|done| | |].
  - eapply pgdir_wf_ext; [exact Hwf|done|]. intros x. by apply list_elem_of_further.
  - by intros Hq%Hpd.
  - apply Hout. right. apply list_elem_of_here.
  - intros p [Hq|Hq]; apply Hout; [left; by apply Hpd|right; by apply list_elem_of_further].
  - simpl in *. exists st, l'. split_and!; [done|done|done| |done| | | |].
    + etrans; [exact Hf1|]. etrans; [apply alloc_frame_set_mem|exact H3].
    + intros va Hva. by rewrite H5, Ept by done.
    + intros j Hj. rewrite H6, Hz by done. case_decide; [|done].
      pose proof (Hout u ltac:(right; apply list_elem_of_here)).
      apply Hfr1; [page_tac|]. intros q <- Hq. page_tac.
    + intros p Hq. destruct (H7 p Hq) as [Hq'|Hq']; [left; by apply Hpd|by right].
    + eapply frame_except_trans; eapply frame_except_mono; [exact Hfr1| |exact H8|].
      * intros p <-. right. apply list_elem_of_here.
      * intros p [->|[Hq|Hq]]; [right; apply list_elem_of_here|left; by apply Hpd|right; by apply list_elem_of_further].
Qed.
End Inituvm.

(** ** The kernel's address space *)

Section KernelSpace.
Context `{env : Env} `{A : !Allocator}.

Lemma kernel_space_mmu m pgdir l v va :
  vm_layout v -> pgdir_wf m pgdir l -> 0 <= va < 4294967296 ->
  pte_at m pgdir va = match kernel_va v va with Some pa => pa - pa mod 4096 + 3 | None => 0 end ->
  mmu_walk m (V2P pgdir) va = (fun pa => (pa, true, false)) <$> kernel_va v va.
Proof.
  intros Hlay Hwf Hva E. rewrite (mmu_walk_pte _ _ l) by done. rewrite E.
  destruct (kernel_va v va) as [pa|] eqn:Ek; [|done].
  assert (0 <= pa < 4294967296 /\ pa mod 4096 = va mod 4096) as [Hpa Hmod].
  { pose proof (vm_layout_acpi _ Hlay). unfold kernel_va, DEVSPACE, KERNBASE in *.
    repeat case_decide; simplify_eq; lia. }
  destruct (entry_bits (pa - pa mod 4096) 3) as (_ & Hpr & Ha & Hw & Hus & _); [lia|lia|by left|].
  rewrite Hpr, Ha, Hw, Hus. simpl. do 3 f_equal. lia.
Qed.

Lemma setupkvm_mmu s l :
  pool s l -> vm_layout (vm s) -> kvm_pages (vm s) <= Z.of_nat (length l) ->
  exists pgdir st l', setupkvm s = (Ok pgdir, st) /\ pool st l' /\ pgdir_wf (mem st) pgdir l' /\
    alloc_frame s st /\ frame_except (.∈ l) (mem s) (mem st) /\
    forall va, 0 <= va < 4294967296 ->
      mmu_walk (mem st) (V2P pgdir) va = (fun pa => (pa, true, false)) <$> kernel_va (vm s) va.
Proof.
  intros Hp Hlay Hlen. destruct (setupkvm_ok s l Hp Hlay Hlen) as (pgdir & st & l' & E & _ & _ & B).
  exists pgdir, st, l'. destruct B as [B1 B2 B3 B4 B5 BU B6 B7]. split_and!; [done..|].
  intros va Hva. by apply (kernel_space_mmu _ _ l'); [..|apply B7].
Qed.

(** The machine after [paging_init] installed [pgdir]. *)
Definition paged (pgdir : Z) (s : machine) : machine :=
  set_cpu_regs (set_cr3 (V2P pgdir) (cpu_regs s))
    (upd_irq (set_isr_table (<[14%nat := Some page_fault_handler_fn]> (isr_table (irq s))))
      (set_vm (set_kpgdir pgdir (vm s)) s)).

Lemma paging_init_run s l :
  pool s l -> vm_layout (vm s) -> kvm_pages (vm s) <= Z.of_nat (length l) ->
  isr_table (irq s) !! 14%nat = Some None ->
  exists s1 pgdir l', paging_init s = (Ok tt, paged pgdir s1) /\ alloc_frame s s1 /\
    frame_except (.∈ l) (mem s) (mem s1) /\ pool (paged pgdir s1) l' /\ l' `suffix_of` l /\
    pgdir_wf (mem s1) pgdir l' /\ (forall p, pd_page (mem s1) pgdir p -> p ∈ l) /\ forall va, 0 <= va < 4294967296 ->
      mmu_walk (mem s1) (V2P pgdir) va = (fun pa => (pa, true, false)) <$> kernel_va (vm s) va.
Proof.
  intros Hp Hlay Hlen Hisr.
  destruct (setupkvm_ok s l Hp Hlay Hlen) as (pgdir & s1 & l' & E & _ & _ & [H1 H2 H3 H4 Hused _ Hsuf H5]).
  assert (irq s1 = irq s) as Ei by (destruct H3 as (m & h & H3); exact (equiv_irq _ _ H3)).
  pose proof (wf_page _ _ _ H2) as Hpg.
  assert (V2P pgdir = pgdir - KERNBASE) as Ev by (apply V2P_kernel; page_tac).
  unfold paging_init. rewrite (bind_ok _ _ _ _ _ E). mstep.
  erewrite bind_ok by (apply isr_register_new; simpl; by rewrite Ei). mstep. simpl.
  unfold paging_switch_pgdir, kassert. destruct (Z.eqb_spec (V2P pgdir) 0) as [E0|_]; [rewrite Ev in E0; page_tac|].
  cbn [negb]. mstep. exists s1, pgdir, l'. split; [reflexivity|]. split_and!; [done|done|by apply (pool_frame s1)|done|done|done|].
  intros va Hva. by apply (kernel_space_mmu _ _ l'); [..|apply H5].
Qed.
End KernelSpace.

(** ** Properties *)

Section Properties.
Context `{env : Env}.

(** C5: mappages(pgdir, va, size, pa, perm) on unmapped pages, with a free
    page for each table it may need, returns 0.  Afterwards each page the range
    touches is mapped to the corresponding page from [pa] on with the flags
    [perm | PTE_P], every other page is mapped as before, the directory is
    well-formed, the allocator's list is a suffix of what it was and no RAM
    outside of the directory's pages and the pages it took has changed. *)
Theorem mappages_maps s l pgdir va size pa perm :
  pool s l -> pgdir_wf (mem s) pgdir l ->
  0 <= va /\ 0 < size /\ va + size <= 4294967296 -> 0 <= pa < 4294967296 ->
  PDX (va + size - 1) - PDX va + 1 <= Z.of_nat (length l) ->
  (forall va', PGROUNDDOWN va <= va' < PGROUNDDOWN (va + size - 1) + 4096 ->
     present (pte_at (mem s) pgdir va') = false) ->
  exists st l', mappages pgdir va size pa perm s = (Ok 0, st) /\ pool st l' /\
    pgdir_wf (mem st) pgdir l' /\ l' `suffix_of` l /\ alloc_frame s st /\
    frame_except (pd_or_free (mem s) pgdir l) (mem s) (mem st) /\
    forall va', 0 <= va' < 4294967296 -> pte_at (mem st) pgdir va' =
      if decide (PGROUNDDOWN va <= va' < PGROUNDDOWN (va + size - 1) + 4096)
      then wrap32 ((pa +u (PGROUNDDOWN va' - PGROUNDDOWN va)) .| perm .| PTE_P)
      else pte_at (mem s) pgdir va'.
Proof.
  intros Hp Hwf Hva Hpa Hlen Habs.
  destruct (mappages_fresh s l pgdir va size pa perm Hva Hpa Hp Hwf Hlen Habs) as (st & l' & E & M & _ & Hpte).
  destruct M as [M1 M2 M3 _ _ _ M6 M7 _ _]. by exists st, l'.
Qed.

(** C16: whatever the free memory and the mappings, mappages ends in one of
    three ways: it returns 0, and then no page of the range was mapped; it
    returns -1, and then the allocator is empty, fewer pages were free than the
    range needs tables, and the directory is still well-formed; or it panics
    with "remap", and then a page of the range was already mapped. *)
Theorem mappages_outcomes s l pgdir va size pa perm :
  pool s l -> pgdir_wf (mem s) pgdir l ->
  0 <= va /\ 0 < size /\ va + size <= 4294967296 -> 0 <= pa < 4294967296 ->
  let mapped k := present (pte_at (mem s) pgdir (PGROUNDDOWN va + 4096 * k)) in
  let '(r, st) := mappages pgdir va size pa perm s in
  match r with
  | Ok 0 => (forall k, 0 <= k < span va size -> mapped k = false) /\
            exists l', pool st l' /\ pgdir_wf (mem st) pgdir l'
  | Ok (-1) => pool st [] /\ pgdir_wf (mem st) pgdir [] /\
               Z.of_nat (length l) <= PDX (va + size - 1) - PDX va
  | Panic msg => msg = "remap"%string /\ exists k, 0 <= k < span va size /\ mapped k = true
  | _ => False
  end.
Proof.
  intros Hp Hwf Hva Hpa mapped. destruct (span_ok va size Hva) as (H1 & H2 & H3 & H4 & H5 & H6).
  destruct (mappages_cases pgdir (PGROUNDDOWN va) pa perm (span va size) H1 H2 Hpa s l Hp Hwf)
    as (r & st & E & H).
  rewrite mappages_eq, E by done. destruct H as [(-> & Hn & l' & M)|[(-> & k & Hk & M & Hc)|(-> & H)]].
  - split; [done|]. exists l'. split; apply M.
  - split_and!; [apply M..|]. rewrite !PDX_eq in * by lia. lia.
  - by split.
Qed.

(** C4: setupkvm, in the memory layout pmem_init accepts and with enough free
    pages, returns a directory whose translation by the MMU is exactly: RAM and
    the ACPI area at KERNBASE plus the physical address, the device space at
    its own address, all writable and none accessible to user code; every
    other address, and the whole user half, faults. *)
Theorem setupkvm_address_space s l :
  pool s l -> vm_layout (vm s) -> kvm_pages (vm s) <= Z.of_nat (length l) ->
  exists pgdir st l', setupkvm s = (Ok pgdir, st) /\ pool st l' /\ pgdir_wf (mem st) pgdir l' /\
    alloc_frame s st /\ frame_except (.∈ l) (mem s) (mem st) /\
    forall va, 0 <= va < 4294967296 ->
      mmu_walk (mem st) (V2P pgdir) va = (fun pa => (pa, true, false)) <$> kernel_va (vm s) va.
Proof. apply setupkvm_mmu. Qed.

(** C7: freevm of a well-formed directory returns, and adds to the free list
    exactly the pages mapped in the user half, the page tables and the
    directory, each once; no other RAM changes. *)
Theorem freevm_frees_all s l pgdir :
  pool s l -> pgdir_wf (mem s) pgdir l -> user_wf s pgdir 0 KERNBASE l ->
  (forall p, pd_page (mem s) pgdir p -> freeable s p) ->
  exists st fr, freevm pgdir s = (Ok tt, st) /\ pool st (fr ++ l) /\ NoDup (fr ++ l) /\
    (forall p, p ∈ fr <-> pd_page (mem s) pgdir p \/ user_page (mem s) pgdir 0 KERNBASE p) /\
    frame_except (.∈ fr) (mem s) (mem st).
Proof.
  intros Hp Hwf Hu Hfr. destruct (freevm_ok s l pgdir Hp Hwf Hu Hfr) as (st & fr & E & H1 & _ & H3 & H4).
  exists st, fr. split_and!; [done|done|by apply (pool_pages st)|done|done].
Qed.

(** C15: setupkvm followed by freevm of its result leaks nothing: the free
    pages are the same as before, in another order. *)
Theorem setupkvm_freevm_roundtrip s l :
  pool s l -> vm_layout (vm s) -> kvm_pages (vm s) <= Z.of_nat (length l) ->
  exists st l', (pgdir ← setupkvm; freevm pgdir) s = (Ok tt, st) /\ pool st l' /\ l' ≡ₚ l.
Proof.
  intros Hp Hlay Hlen. destruct (setupkvm_ok s l Hp Hlay Hlen) as (pgdir & s1 & l1 & E & _ & _ & B).
  destruct B as [B1 B2 B3 B4 B5 BU B6 B7]. destruct (pool_pages s l Hp) as [Hnd Hpg].
  assert (forall va, 0 <= va < KERNBASE -> present (pte_at (mem s1) pgdir va) = false) as Hno.
  { intros va Hva. rewrite B7 by (unfold KERNBASE in *; lia). pose proof (vm_layout_acpi _ Hlay).
    unfold kernel_va, DEVSPACE, KERNBASE in *. by rewrite !decide_False by lia. }
  assert (forall p, ~ user_page (mem s1) pgdir 0 KERNBASE p) as Hnu
    by (intros p (va & Hva & _ & Hpr & _); by rewrite Hno in Hpr).
  destruct (freevm_ok s1 l1 pgdir B1 B2) as (st & fr & E2 & H1 & _ & H3 & _).
  - split; [by intros p ?%Hnu|]. intros va va' Hva _ _ _ Hpr. by rewrite Hno in Hpr.
  - intros p Hq%B5. eapply freeable_alloc; [exact B3|by apply Hpg].
  - exists st, (fr ++ l1). rewrite (bind_ok _ _ _ _ _ E). split_and!; [done|done|].
    destruct (pool_pages st _ H1) as [Hnd' _]. apply NoDup_Permutation; [done|done|].
    intros p. rewrite elem_of_app, H3. split.
    + intros [[Hq|Hq]|Hq]; [by apply B5|by apply Hnu in Hq|]. destruct B6 as [l0 ->]. apply elem_of_app. by right.
    + intros Hin. destruct (decide (p ∈ l1)); [by right|]. left. left. by apply BU.
Qed.

(** C17: inituvm maps one free page at user address 0, writable by user code,
    holding the [sz] bytes of the program followed by zeros; it panics when the
    program does not fit below a page. *)
Theorem inituvm_loads s u l pgdir init sz :
  pool s (u :: l) -> pgdir_wf (mem s) pgdir (u :: l) -> (1 <= length l)%nat -> 0 <= sz ->
  present (pte_at (mem s) pgdir 0) = false -> KERNBASE <= init ->
  (forall p, pd_or_free (mem s) pgdir (u :: l) p -> init + sz <= p) ->
  if decide (sz < PGSIZE) then
    exists st l', inituvm pgdir init sz s = (Ok tt, st) /\ pool st l' /\ pgdir_wf (mem st) pgdir l' /\
      (forall va, 0 <= va < 4096 -> mmu_walk (mem st) (V2P pgdir) va = Some (V2P u + va, true, true)) /\
      (forall va, 4096 <= va < 4294967296 ->
         mmu_walk (mem st) (V2P pgdir) va = mmu_walk (mem s) (V2P pgdir) va) /\
      forall j, 0 <= j < PGSIZE -> mload8 (mem st) (u + j) =
        if decide (j < sz) then mload8 (mem s) (init + j) else 0
  else inituvm pgdir init sz s = (Panic "inituvm: more than a page", s).
Proof.
  intros Hp Hwf Hlen Hsz Habs Hin Hout. case_decide as Hlt.
  2:{ unfold inituvm. by rewrite (proj2 (Z.leb_le PGSIZE sz)) by lia. }
  destruct (inituvm_ok s u l pgdir init sz) as (st & l' & E & H1 & H2 & _ & _ & H5 & H6 & _); try done.
  exists st, l'. destruct (pool_cons_inv s u l Hp) as [Hu _].
  assert (V2P u = u - KERNBASE) as Ev by (apply V2P_kernel; page_tac).
  split_and!; [done|done|done| | |done].
  - intros va Hva. rewrite (mmu_walk_pte _ _ l'), H5, decide_True by (done || lia).
    destruct (entry_bits (V2P u) 7) as (_ & Hpr & Ha & Hw & Hus & _); [rewrite Ev; page_tac..|by right|].
    rewrite Hpr, Ha, Hw, Hus. simpl. do 3 f_equal. rewrite Z.mod_small; lia.
  - intros va Hva. rewrite (mmu_walk_pte _ _ l'), (mmu_walk_pte _ _ (u :: l)) by (done || lia).
    by rewrite H5, decide_False by lia.
Qed.

(** Paging_init builds the kernel's directory, records it in kpgdir,
    registers the page fault handler and loads the physical address of the
    directory into CR3. *)
Theorem paging_init_ok s l :
  pool s l -> vm_layout (vm s) -> kvm_pages (vm s) <= Z.of_nat (length l) ->
  isr_table (irq s) !! 14%nat = Some None ->
  exists st l', paging_init s = (Ok tt, st) /\ pool st l' /\ pgdir_wf (mem st) (kpgdir (vm st)) l' /\
    cr3 (cpu_regs st) = V2P (kpgdir (vm st)) /\
    isr_table (irq st) !! 14%nat = Some (Some page_fault_handler_fn) /\
    forall va, 0 <= va < 4294967296 ->
      (fun x => x.1.1) <$> mmu_walk (mem st) (cr3 (cpu_regs st)) va = kernel_va (vm s) va.
Proof.
  intros Hp Hlay Hlen Hisr. destruct (paging_init_run s l Hp Hlay Hlen Hisr) as (s1 & pgdir & l' & E & F & _ & Hp' & _ & Hwf & _ & Hmmu).
  assert (irq s1 = irq s) as Ei by (destruct F as (m & h & H3); exact (equiv_irq _ _ H3)).
  exists (paged pgdir s1), l'. split_and!; try done.
  - simpl. rewrite Ei. apply list_lookup_insert_eq. by eapply lookup_lt_Some.
  - intros va Hva. simpl. rewrite Hmmu by done. by destruct (kernel_va (vm s) va).
Qed.

(** The page fault handler never returns: it prints the faulty address
    and the three bits of the error code, then panics. *)
Theorem page_fault_handler_panics s state :
  cons_ready s -> kspace state sizeof_interrupt_state ->
  exists s', page_fault_handler state s = (Panic "page fault not handled!", s') /\ quiet s s'.
Proof.
  intros Hc Hk. unfold page_fault_handler. mstep.
  erewrite bind_ok by (apply load32_kernel; unfold sizeof_interrupt_state, st_err_code in *; kspace_tac).
  unfold warn. set (e := mload32 _ _).
  match goal with |- context [cprintf (Some ?f) ?args] => destruct (cprintf_fits f args s Hc eq_refl) as (s' & E & Q) end.
  exists s'. by rewrite (bind_ok _ _ _ _ _ E).
Qed.
End Properties.

(** *** Witnesses *)

(** 48 free pages from 2 MB on, in a machine with 128 MB of RAM. *)
Definition demo_pool : list Z := page_range 0x80200000 48.
Definition link_pages (sentinel : Z) (m : gmap Z Z) : list Z -> gmap Z Z :=
  fix go l := match l with [] => m | x :: l' => mstore32 (go l') x (default sentinel (head l')) end.
Definition demo_vm : machine :=
  set_mem (link_pages 0x80109a38 ∅ demo_pool)
    (set_kmem (mkKmem zero_lock 0 0x80200000 0x8010b2c0 0x07fe0000)
      (set_vm (mkVm 0 0x07fe0000 0x07fe0000 0x20000) demo_machine)).

Definition chainb (sentinel : Z) (m : gmap Z Z) : Z -> list Z -> bool :=
  fix go p l := match l with [] => p =? sentinel | x :: l' => (p =? x) && go (mload32 m x) l' end.
Lemma chainb_chain `{env : Env} m p l : chainb KMEM_SENTINEL m p l = true -> chain m p l.
Proof.
  revert p. induction l as [|x l IH]; intros p; simpl; [by intros ?%Z.eqb_eq|].
  intros [->%Z.eqb_eq ?]%andb_true_iff. auto.
Qed.

#[local] Abbreviation dpool := (pool (env:=demo_env) (Allocator:=kalloc_allocator (env:=demo_env))).

Lemma demo_vm_pool : dpool demo_vm demo_pool.
Proof.
  split; [split; [split; vm_compute; done|by left]|]. split_and!.
  - apply (chainb_chain (env:=demo_env)). vm_compute. reflexivity.
  - apply (bool_decide_unpack _). vm_compute. exact I.
  - apply (bool_decide_unpack _). vm_compute. exact I.
  - vm_compute. done.
Qed.

(** The same with an empty page directory at 3 MB. *)
Definition demo_pgdir : Z := 0x80300000.
Definition demo_dir : machine :=
  set_mem (mfill (mem demo_vm) demo_pgdir 0 (Z.to_nat PGSIZE)) demo_vm.

Lemma demo_pgdir_page `{env : Env} : is_page demo_pgdir.
Proof. pose proof ram_end_range. unfold is_page, demo_pgdir, PGSIZE, KERNBASE. lia. Qed.
Lemma demo_pgdir_free : demo_pgdir ∉ demo_pool.
Proof. apply (bool_decide_unpack _). vm_compute. exact I. Qed.
Lemma demo_dir_ok :
  dpool demo_dir demo_pool /\ pgdir_wf (env:=demo_env) (mem demo_dir) demo_pgdir demo_pool /\
  (forall va, pte_at (mem demo_dir) demo_pgdir va = 0) /\
  (forall p, pd_page (mem demo_dir) demo_pgdir p -> p = demo_pgdir).
Proof.
  pose proof (frame_fill (env:=demo_env) (mem demo_vm) demo_pgdir 0 demo_pgdir_page) as Hf.
  assert (forall j, 0 <= j < PGSIZE -> mload8 (mem demo_dir) (demo_pgdir + j) = 0) as Hz.
  { intros j Hj. unfold demo_dir, PGSIZE, demo_pgdir in *. cbn [mem set_mem].
    rewrite mload8_fill by lia. by rewrite decide_True by lia. }
  destruct (empty_pgdir (env:=demo_env) (mem demo_dir) demo_pgdir demo_pool demo_pgdir_page demo_pgdir_free Hz) as (H1 & H2 & H3).
  split; [|done]. apply (pool_write (env:=demo_env) (eq demo_pgdir)); [exact demo_vm_pool|exact Hf|].
  intros q <-. split; [exact demo_pgdir_page|exact demo_pgdir_free].
Qed.

Lemma mappages_maps_witness :
  exists st, mappages (env:=demo_env) demo_pgdir 0x80000000 0x800000 0 PTE_W demo_dir = (Ok 0, st).
Proof.
  destruct demo_dir_ok as (H1 & H2 & H3 & _).
  destruct (mappages_maps (env:=demo_env) demo_dir demo_pool demo_pgdir 0x80000000 0x800000 0 PTE_W H1 H2)
    as (st & l' & E & _); [lia|lia|vm_compute; done| |exists st; exact E].
  intros va' _. rewrite H3. reflexivity.
Defined.

Lemma mappages_outcomes_witness :
  match (mappages (env:=demo_env) demo_pgdir 0 0x1000 0 PTE_W demo_dir).1 with
  | Ok _ => True | Panic msg => msg = "remap"%string | _ => False end.
Proof.
  destruct demo_dir_ok as (H1 & H2 & H3 & _).
  pose proof (mappages_outcomes (env:=demo_env) demo_dir demo_pool demo_pgdir 0 0x1000 0 PTE_W H1 H2
    ltac:(lia) ltac:(lia)) as H. cbv zeta in H.
  destruct (mappages demo_pgdir 0 0x1000 0 PTE_W demo_dir) as [[r|msg| |w] st]; [done|apply H|done|done].
Defined.

Lemma demo_vm_layout : vm_layout (vm demo_vm).
Proof. vm_compute. done. Qed.
Lemma demo_vm_enough : kvm_pages (vm demo_vm) <= Z.of_nat (length demo_pool).
Proof. vm_compute. done. Qed.

Lemma setupkvm_address_space_witness :
  exists pgdir st, setupkvm (env:=demo_env) demo_vm = (Ok pgdir, st) /\
    mmu_walk (mem st) (V2P pgdir) 0x80100234 = Some (0x100234, true, false) /\
    mmu_walk (mem st) (V2P pgdir) 0x1000 = None.
Proof.
  destruct (setupkvm_address_space (env:=demo_env) demo_vm demo_pool demo_vm_pool demo_vm_layout demo_vm_enough)
    as (pgdir & st & l' & E & _ & _ & _ & _ & H).
  exists pgdir, st. split; [exact E|]. split; (rewrite H by lia; vm_compute; reflexivity).
Defined.

Lemma freevm_frees_all_witness :
  exists st (fr : list Z), freevm (env:=demo_env) demo_pgdir demo_dir = (Ok tt, st) /\ demo_pgdir ∈ fr.
Proof.
  destruct demo_dir_ok as (H1 & H2 & H3 & H4).
  destruct (freevm_frees_all (env:=demo_env) demo_dir demo_pool demo_pgdir H1 H2) as (st & fr & E & _ & _ & H & _).
  - split.
    + intros p (va & _ & _ & Hp & _). exfalso. rewrite H3 in Hp. discriminate Hp.
    + intros va va' _ _ _ _ Hp. exfalso. rewrite H3 in Hp. discriminate Hp.
  - intros p ->%H4. apply (freeable_frame (env:=demo_env) demo_vm); [reflexivity|].
    split; vm_compute; done.
  - exists st, fr. split; [exact E|]. apply H. left. by left.
Defined.

Lemma setupkvm_freevm_roundtrip_witness :
  exists st l', (pgdir ← setupkvm (env:=demo_env); freevm (env:=demo_env) pgdir) demo_vm = (Ok tt, st) /\
    l' ≡ₚ demo_pool.
Proof.
  destruct (setupkvm_freevm_roundtrip (env:=demo_env) demo_vm demo_pool demo_vm_pool demo_vm_layout demo_vm_enough)
    as (st & l' & E & _ & H). exists st, l'. split; [exact E|exact H].
Defined.

Lemma inituvm_loads_witness :
  exists st, inituvm (env:=demo_env) demo_pgdir 0x80107100 64 demo_dir = (Ok tt, st) /\
    mmu_walk (mem st) (V2P demo_pgdir) 0x10 = Some (0x200010, true, true).
Proof.
  destruct demo_dir_ok as (H1 & H2 & H3 & H4).
  pose proof (inituvm_loads (env:=demo_env) demo_dir 0x80200000 (page_range 0x80201000 47) demo_pgdir
    0x80107100 64 H1 H2 ltac:(vm_compute; lia) ltac:(lia) ltac:(by rewrite H3) ltac:(by vm_compute)) as H.
  rewrite decide_True in H by done. destruct H as (st & l' & E & _ & _ & Hw & _).
  - intros p [->%H4|Hp]; [by vm_compute|].
    apply (elem_of_page_range 0x80200000 48) in Hp as (i & -> & Hi). unfold PGSIZE. lia.
  - exists st. split; [exact E|]. by rewrite Hw by lia.
Defined.

Lemma paging_init_ok_witness :
  exists st, paging_init (env:=demo_env) demo_vm = (Ok tt, st) /\
    isr_table (irq st) !! 14%nat = Some (Some page_fault_handler_fn).
Proof.
  destruct (paging_init_ok (env:=demo_env) demo_vm demo_pool demo_vm_pool demo_vm_layout demo_vm_enough eq_refl)
    as (st & l' & E & _ & _ & _ & H & _). exists st. split; [exact E|exact H].
Defined.

Lemma page_fault_handler_panics_witness :
  exists s', page_fault_handler (env:=demo_env) 0x80200000 demo_machine
    = (Panic "page fault not handled!", s') /\ quiet demo_machine s'.
Proof.
  apply (page_fault_handler_panics (env:=demo_env)); [exact demo_cons_ready|apply kspace_low; vm_compute; discriminate].
Defined.
