(* ===== verification/Proc.v ===== *)
(** * Proc: processes and the scheduler ([proc.c], [proc.h])

    The operations on the process table.  [scheduler] and the processes run
    alternately, handing over through [swtch] (swtch.asm): each function that
    calls it is cut there, into the part that runs up to the switch and the
    part that runs when control comes back.  The next component, [Sched],
    puts the parts together as a step relation. *)

From S2P Require Import Prelude Machine Layout Cstring Spinlock Uart Screen Kalloc Idt Gdt Paging.

(** ** proc.h *)

Definition NPROC : Z := 64.
Definition KSTACKSIZE : Z := PGSIZE.
(** [struct context]: edi, esi, ebx, ebp, eip. *)
Definition ctx_eip : Z := 16.
Definition sizeof_context : Z := 20.
(** [sizeof(struct taskstate)] *)
Definition sizeof_taskstate : Z := 104.

(** ** The process table *)

Definition upd_ptable (f : ptable_t -> ptable_t) (s : machine) : machine := set_ptable (f (ptable s)) s.
(** Assigns a field of [ptable.proc[i]]. *)
Definition upd_proc (i : nat) (f : process -> process) (s : machine) : machine :=
  upd_ptable (fun t => set_proc (alter f i (proc t)) t) s.
(** [ptable.proc[i]] *)
Definition get_proc (i : nat) (s : machine) : process := default zero_process (proc (ptable s) !! i).

(** The first slot in state UNUSED, from index [i] on. *)
Fixpoint find_unused (l : list process) (i : nat) : option nat :=
  match l with
  | [] => None
  | p :: l' => if decide (p_state p = UNUSED) then Some i else find_unused l' (S i)
  end.

(** [strncpy] (lib/string.c) into an array that is a C object: [size] bytes of
    [src], zeros up to [count], and a zero at [size]. *)
Definition strncpy_array (dst src : list Z) (count : nat) : list Z :=
  let size := Nat.min (length src) count in
  let d1 := if (size =? count)%nat then dst
            else take size dst ++ replicate (count - size) 0 ++ drop count dst in
  take size src ++ drop size (<[size := 0]> d1).

Section WithEnv.
Context `{env : Env}.

Definition process_init : K unit :=
  _ ← initlock PTABLE_LOCK "ptable";
  isr_register IDT_TRAP_SYSCALL syscall_handler_fn.

Definition enter_process : K unit := release PTABLE_LOCK.

(** The part of [process_alloc] after the slot [i] was found: allocates the
    kernel stack and lays out the trap state, the return address of
    [enter_process] and the initial context on it. *)
Definition process_alloc_found (i : nat) : K (option nat) :=
  k ← kalloc;
  _ ← modify (upd_proc i (set_kstack k));
  if k =? 0 then
    _ ← modify (upd_proc i (set_p_state UNUSED));
    _ ← warn "new_process: failed to allocate kernel stack page" [];
    mret None
  else
  let sp := k +u KSTACKSIZE in
  let sp := sp -u sizeof_interrupt_state in
  _ ← modify (upd_proc i (set_tf sp));
  let sp := sp -u 4 in
  _ ← store32 sp sym_trapret;
  let sp := sp -u sizeof_context in
  _ ← modify (upd_proc i (set_p_context sp));
  _ ← memset sp 0 sizeof_context;
  _ ← store32 (sp + ctx_eip) sym_enter_process;
  mret (Some i).

Definition process_alloc : K (option nat) :=
  _ ← acquire PTABLE_LOCK;
  l ← gets (fun s => proc (ptable s));
  match find_unused l 0 with
  | None =>
      _ ← release PTABLE_LOCK;
      _ ← warn "new_process: process table is full, no free slot" [];
      mret None
  | Some i =>
      _ ← modify (upd_proc i (set_p_state INITIAL));
      n ← gets (fun s => nextpid (ptable s));
      _ ← modify (upd_proc i (set_pid n));
      _ ← modify (upd_ptable (set_nextpid (wrap16 (n + 1))));
      _ ← release PTABLE_LOCK;
      process_alloc_found i
  end.

(** The trap state of the first process, at [tf]. *)
Definition init_trapframe (tf : Z) : K unit :=
  _ ← memset tf 0 sizeof_interrupt_state;
  _ ← store32 (tf + st_cs) ((SEG_UCODE << 3) .| DPL_USER);
  _ ← store32 (tf + st_ds) ((SEG_UDATA << 3) .| DPL_USER);
  ds ← load32 (tf + st_ds);
  _ ← store32 (tf + st_ss) ds;
  _ ← store32 (tf + st_eflags) FL_IF;
  _ ← store32 (tf + st_esp) PGSIZE;
  store32 (tf + st_eip) 0.

Definition initproc_init : K unit :=
  r ← process_alloc;
  match r with
  | None => kassert false "initproc_init" "kernel/proc.c" 126
  | Some p =>
      _ ← modify (upd_ptable (set_initproc (Some p)));
      pgdir ← setupkvm;
      _ ← modify (upd_proc p (set_pgdir pgdir));
      if pgdir =? 0 then raise_panic "initproc: out of memory?" else
      _ ← inituvm pgdir sym_init_start sym_init_size;
      _ ← modify (upd_proc p (set_sz PGSIZE));
      tf ← gets (fun s => tf (get_proc p s));
      _ ← init_trapframe tf;
      _ ← modify (upd_proc p (fun q => set_p_name (strncpy_array (p_name q) (bytes_of "init") 15) q));
      _ ← acquire PTABLE_LOCK;
      _ ← modify (upd_proc p (set_p_state RUNNABLE));
      release PTABLE_LOCK
  end.

(** ** The running process *)

Definition myproc : K (option nat) :=
  _ ← pushcli;
  _ ← mycpu;
  p ← gets (fun s => cpu_proc (cpu0 s));
  _ ← popcli;
  mret p.

(** [enter_scheduler] up to its [swtch], which saves the stack pointer in
    [p->context]; the answer is the local variable [intena]. *)
Definition enter_scheduler : K Z :=
  h ← holding PTABLE_LOCK;
  if negb h then raise_panic "sched ptable.lock" else
  _ ← mycpu;
  n ← gets (fun s => ncli (cpu0 s));
  if negb (n =? 1) then raise_panic "sched locks" else
  p ← myproc;
  match p with
  | None => undef "myproc()->state"
  | Some i =>
      q ← gets (get_proc i);
      if decide (p_state q = RUNNING) then raise_panic "sched running" else
      e ← readeflags;
      if negb ((e & FL_IF) =? 0) then raise_panic "sched interruptible" else
      _ ← mycpu;
      intena ← gets (fun s => intena (cpu0 s));
      _ ← mycpu;
      sp ← gets swtch_esp;
      _ ← modify (upd_proc i (set_p_context sp));
      mret intena
  end.
(** The rest, when the scheduler switches back. *)
Definition enter_scheduler_resumed (intena : Z) : K unit :=
  _ ← mycpu;
  modify (upd_cpu0 (set_intena intena)).

(** [exit] up to the switch; the answer is again [intena]. *)
Definition exit (status : Z) : K Z :=
  p ← myproc;
  ip ← gets (fun s => initproc (ptable s));
  _ ← when (bool_decide (p = ip)) (warn "init exiting" []);
  _ ← acquire PTABLE_LOCK;
  match p with
  | None => undef "p->xstate"
  | Some i =>
      _ ← modify (upd_proc i (set_xstate status));
      _ ← modify (upd_proc i (set_p_state ZOMBIE));
      enter_scheduler
  end.
Definition exit_resumed (intena : Z) : K unit :=
  _ ← enter_scheduler_resumed intena;
  raise_panic "zombie exit".

(** ** Address spaces *)

Definition proc_load_task_reg (sel : Z) : K unit :=
  modify (fun s => set_cpu_regs (set_tr (wrap16 sel) (cpu_regs s)) s).

Definition upd_ts (f : taskstate -> taskstate) : K unit :=
  modify (upd_cpu0 (fun c => set_cpu_ts (f (cpu_ts c)) c)).

Definition switchuvm (p : option nat) : K unit :=
  match p with
  | None => raise_panic "switchuvm: no process"
  | Some i =>
      q ← gets (get_proc i);
      if kstack q =? 0 then raise_panic "switchuvm: no kstack" else
      if pgdir q =? 0 then raise_panic "switchuvm: no pgdir" else
      _ ← pushcli;
      _ ← mycpu;
      _ ← mycpu;
      _ ← gdt_set_entry SEG_TSS sym_cpu0_ts (sizeof_taskstate - 1)
            (SEG_PRESENT .| SEG_RING0 .| SEG_TSS32_AVAIL) 0;
      _ ← mycpu;
      _ ← upd_ts (set_ss0 (SEG_KDATA << 3));
      _ ← mycpu;
      _ ← upd_ts (set_esp0 (kstack q +u KSTACKSIZE));
      _ ← mycpu;
      _ ← upd_ts (set_iomb 0xFFFF);
      _ ← proc_load_task_reg (SEG_TSS << 3);
      _ ← paging_switch_pgdir (V2P (pgdir q));
      popcli
  end.

Definition switchkvm : K unit :=
  k ← gets (fun s => kpgdir (vm s));
  paging_switch_pgdir (V2P k).

(** ** The scheduler, cut at its [swtch] *)

Definition upd_cpu_proc (p : option nat) : K unit := modify (upd_cpu0 (set_cpu_proc p)).

(** Before the loop. *)
Definition scheduler_start : K unit :=
  _ ← mycpu;
  upd_cpu_proc None.
(** The round of the inner loop for slot [i], up to the switch to the process;
    the answer tells whether it switches. *)
Definition scheduler_pick (i : nat) : K bool :=
  q ← gets (get_proc i);
  if decide (p_state q = RUNNABLE) then
    _ ← upd_cpu_proc (Some i);
    _ ← switchuvm (Some i);
    _ ← modify (upd_proc i (set_p_state RUNNING));
    sp ← gets swtch_esp;
    _ ← modify (upd_cpu0 (set_cpu_scheduler sp));
    mret true
  else mret false.
(** The rest of that round, when the process switches back. *)
Definition scheduler_back : K unit :=
  _ ← switchkvm;
  upd_cpu_proc None.
(** The end of the inner loop. *)
Definition scheduler_bottom : K unit := release PTABLE_LOCK.

End WithEnv.

(** ** What the process code leaves alone *)

(** [s'] differs from [s] only in RAM, the I/O history, the head of the free
    list, and the process table but for its lock. *)
Definition kframe (s s' : machine) : Prop := exists m o h P I N,
  s' ≡ set_io o (set_mem m (upd_kmem (set_freelist h)
         (upd_ptable (fun t => mkPtable (pt_lock t) P I N) s))).

(** The locks the process code takes are free and the console works. *)
Definition kernel_ready (s : machine) : Prop :=
  irq_ok s /\ lock_free PTABLE_LOCK s /\ cons_ready s.

#[export] Instance kframe_preorder : PreOrder kframe.
Proof.
  split.
  - intros s. exists (mem s), (io s), (freelist (kmem s)), (proc (ptable s)), (initproc (ptable s)),
      (nextpid (ptable s)). destruct s as [? ? ? ? ? k ? ? t]. by destruct k, t.
  - intros s1 s2 s3 (m & o & h & P & I & N & E1) (m' & o' & h' & P' & I' & N' & E2).
    exists m', o', h', P', I', N'. etrans; [exact E2|].
    pose proof (f_equal (fun s => set_io o' (set_mem m' (upd_kmem (set_freelist h')
      (upd_ptable (fun t => mkPtable (pt_lock t) P' I' N') s)))) E1) as E.
    destruct s1 as [? ? ? ? ? k1 ? ? t1], s2 as [? ? ? ? ? k2 ? ? t2]; destruct k1, k2, t1, t2. exact E.
Qed.

Section Frame.
Context (s s' : machine) (F : kframe s s').

Lemma kframe_vm : vm s' = vm s.
Proof. destruct F as (m & o & h & P & I & N & E). exact (equiv_vm _ _ E). Qed.
Lemma kframe_irq : irq s' = irq s.
Proof. destruct F as (m & o & h & P & I & N & E). exact (equiv_irq _ _ E). Qed.
Lemma kframe_regs : cpu_regs s' = cpu_regs s.
Proof. destruct F as (m & o & h & P & I & N & E). exact (equiv_regs _ _ E). Qed.
Lemma kframe_lock_free l : lock_free l s -> lock_free l s'.
Proof.
  destruct F as (m & o & h & P & I & N & E). unfold lock_free.
  rewrite (equiv_locked _ _ E), (equiv_lk_cpu _ _ E). by destruct l.
Qed.
Lemma kframe_ncli : ncli (cpu0 s') = ncli (cpu0 s).
Proof. destruct F as (m & o & h & P & I & N & E). exact (equiv_ncli _ _ E). Qed.
Lemma kframe_irq_ok : irq_ok s -> irq_ok s'.
Proof.
  destruct F as (m & o & h & P & I & N & E). unfold irq_ok.
  rewrite (equiv_ncli _ _ E), (equiv_IF _ _ E). done.
Qed.
Lemma kframe_cons_ready : cons_ready s -> cons_ready s'.
Proof.
  intros [H1 H2]. split; [by apply kframe_irq_ok|].
  destruct H2 as [H2|H2]; [left|right; by apply kframe_lock_free].
  destruct F as (m & o & h & P & I & N & E). rewrite <- H2. exact (f_equal (fun s => locking (cons s)) E).
Qed.
Lemma kframe_ready : kernel_ready s -> kernel_ready s'.
Proof.
  intros (H1 & H2 & H3). split_and!; [by apply kframe_irq_ok|by apply kframe_lock_free|by apply kframe_cons_ready].
Qed.
End Frame.

Lemma equiv_kframe s s' : s' ≡ s -> kframe s s'.
Proof.
  intros E. etrans; [reflexivity|]. exists (mem s), (io s), (freelist (kmem s)), (proc (ptable s)),
    (initproc (ptable s)), (nextpid (ptable s)). etrans; [exact E|].
  destruct s as [? ? ? ? ? k ? ? t]. by destruct k, t.
Qed.
Lemma alloc_kframe s s' : alloc_frame s s' -> kframe s s'.
Proof.
  intros (m & h & E). exists m, (io s), h, (proc (ptable s)), (initproc (ptable s)), (nextpid (ptable s)).
  etrans; [exact E|]. destruct s as [? ? ? ? ? k ? ? t]. by destruct k, t.
Qed.
Lemma quiet_kframe s s' : quiet s s' -> kframe s s'.
Proof.
  intros [E _]. exists (mem s'), (io s'), (freelist (kmem s)), (proc (ptable s)), (initproc (ptable s)),
    (nextpid (ptable s)).
  pose proof (f_equal (fun x => set_io (io s') (set_mem (mem s') x)) E) as E'.
  destruct s as [? ? ? ? ? k ? ? t], s' as [? ? ? ? ? k' ? ? t']; destruct k, k', t, t'. exact E'.
Qed.
Lemma set_mem_kframe m s : kframe s (set_mem m s).
Proof. apply alloc_kframe, alloc_frame_set_mem. Qed.
Lemma upd_ptable_kframe f s : (forall t, pt_lock (f t) = pt_lock t) -> kframe s (upd_ptable f s).
Proof.
  intros Hf. exists (mem s), (io s), (freelist (kmem s)), (proc (f (ptable s))), (initproc (f (ptable s))),
    (nextpid (f (ptable s))). specialize (Hf (ptable s)).
  destruct s as [? ? ? ? ? k ? ? t]. simpl in *. unfold upd_ptable, set_ptable; simpl.
  rewrite <- Hf. destruct k, (f t). done.
Qed.
Lemma upd_proc_kframe i f s : kframe s (upd_proc i f s).
Proof. by apply upd_ptable_kframe. Qed.

(** ** Critical sections of the table's lock *)

(** An update of the table that does not look at the lock. *)
Definition lock_blind (f : ptable_t -> ptable_t) : Prop :=
  forall lk t, f (set_pt_lock lk t) = set_pt_lock lk (f t).

Lemma lock_blind_lock f t : lock_blind f -> pt_lock (f t) = pt_lock t.
Proof.
  intros Hf. specialize (Hf (pt_lock t) t). assert (set_pt_lock (pt_lock t) t = t) as E by by destruct t.
  rewrite E in Hf. exact (f_equal pt_lock Hf).
Qed.

(** Undoing what [acquire] did to the processor and to the lock. *)
Lemma undo_acquire f s lk lk0 c r0 :
  lock_blind f ->
  set_cpu0 (cpu0 s) (set_cpu_regs (cpu_regs s) (put_lock PTABLE_LOCK (get_lock PTABLE_LOCK s)
    (upd_ptable f (put_lock PTABLE_LOCK lk (put_lock PTABLE_LOCK lk0 (set_cpu0 c (set_cpu_regs r0 s)))))))
  = upd_ptable f s.
Proof.
  intros Hf. pose proof (lock_blind_lock f (ptable s) Hf) as El. destruct s as [m r i c0 ca k co v t q d].
  cbv beta iota delta [set_cpu0 set_cpu_regs set_ptable upd_ptable put_lock get_lock
    mem cpu_regs io cpu0 cpus_ap kmem cons vm ptable irq drv] in *.
  rewrite !Hf. destruct (f t). cbn in *. by subst.
Qed.

Lemma pushcli_frame s : exists c r, pushcli_state s = set_cpu0 c (set_cpu_regs r s).
Proof. eexists _, _. by destruct s. Qed.

Section Critical.
Context `{env : Env}.

Lemma ptable_enter s : kernel_ready s -> acquire PTABLE_LOCK s = (Ok tt, acquired PTABLE_LOCK s).
Proof. intros ([Hn _] & [Hl _] & _). by apply acquire_ok. Qed.

Lemma ptable_leave f s :
  kernel_ready s -> lock_blind f ->
  exists s', release PTABLE_LOCK (upd_ptable f (acquired PTABLE_LOCK s)) = (Ok tt, s') /\
    s' ≡ upd_ptable f s.
Proof.
  intros (Hirq & Hl & _) Hf. set (t := upd_ptable f (acquired PTABLE_LOCK s)).
  assert (get_lock PTABLE_LOCK t = get_lock PTABLE_LOCK (acquired PTABLE_LOCK s)) as Hk
    by (by apply lock_blind_lock).
  exists (released PTABLE_LOCK t). split; [by apply (release_inside PTABLE_LOCK s)|].
  etrans; [by apply (released_inside PTABLE_LOCK s)|].
  subst t. unfold acquired. destruct (pushcli_frame s) as (c & r & ->). cbv zeta.
  set (lk := set_lk_cpu _ _). set (lk' := set_pcs _ _). clearbody lk'.
  rewrite (undo_acquire f s lk' lk c r Hf). reflexivity.
Qed.
End Critical.

(** ** process_alloc *)

Lemma find_unused_spec l k :
  match find_unused l k with
  | Some i => (k <= i)%nat /\ (exists p, l !! (i - k)%nat = Some p /\ p_state p = UNUSED) /\
      (forall j q, (j < i - k)%nat -> l !! j = Some q -> p_state q <> UNUSED)
  | None => forall j q, l !! j = Some q -> p_state q <> UNUSED
  end.
Proof.
  revert k. induction l as [|p l IH]; intros k; simpl; [done|]. case_decide as Hp.
  - split; [lia|]. rewrite Nat.sub_diag. split; [by exists p|]. lia.
  - specialize (IH (S k)). destruct (find_unused l (S k)) as [i|].
    + destruct IH as (H1 & (q & H2 & H3) & H4). replace (i - k)%nat with (S (i - S k)) by lia.
      split; [lia|]. split; [by exists q|]. intros [|j] q' Hj; simpl; [by intros [= <-]|]. apply H4. lia.
    + intros [|j] q; simpl; [by intros [= <-]|apply IH].
Qed.

(** The first slot in state UNUSED, if there is one. *)
Definition first_unused (l : list process) (o : option nat) : Prop :=
  match o with
  | Some i => (exists q, l !! i = Some q /\ p_state q = UNUSED) /\
      forall j q, (j < i)%nat -> l !! j = Some q -> p_state q <> UNUSED
  | None => forall j q, l !! j = Some q -> p_state q <> UNUSED
  end.
Lemma find_unused_first l : first_unused l (find_unused l 0).
Proof.
  pose proof (find_unused_spec l 0) as H. destruct (find_unused l 0) as [i|]; [|exact H].
  rewrite Nat.sub_0_r in H. destruct H as (_ & H1 & H2). by split.
Qed.

Lemma first_unused_find l i : first_unused l (Some i) -> find_unused l 0 = Some i.
Proof.
  intros [(q & Hq & Hu) Hmin]. pose proof (find_unused_first l) as H. destruct (find_unused l 0) as [j|]; [|by destruct (H i q)].
  destruct H as [(q' & Hq' & Hu') Hmin']. destruct (lt_eq_lt_dec i j) as [[Hlt| ->]|Hlt]; [by destruct (Hmin' i q)|done|].
  by destruct (Hmin j q').
Qed.

(** The slot after the critical section of [process_alloc]. *)
Definition reserve (i : nat) (t : ptable_t) : ptable_t :=
  set_nextpid (wrap16 (nextpid t + 1))
    (set_proc (alter (fun q => set_pid (nextpid t) (set_p_state INITIAL q)) i (proc t)) t).

(** The process [process_alloc] makes of the slot [q], with kernel stack [k]. *)
Definition new_process (n k : Z) (q : process) : process :=
  set_p_context (k + 4008) (set_tf (k + 4032) (set_kstack k (set_pid n (set_p_state INITIAL q)))).

(** The kernel stack it lays out: the context, the return address below the
    trap state. *)
Definition new_stack `{env : Env} (m : gmap Z Z) (k : Z) : Prop :=
  mload32 m (k + 4008) = 0 /\ mload32 m (k + 4012) = 0 /\ mload32 m (k + 4016) = 0 /\
  mload32 m (k + 4020) = 0 /\ mload32 m (k + 4024) = wrap32 sym_enter_process /\
  mload32 m (k + 4028) = wrap32 sym_trapret.

Section Alloc.
Context `{env : Env} `{A : !Allocator}.

Lemma process_alloc_full s :
  kernel_ready s -> find_unused (proc (ptable s)) 0 = None ->
  exists s', process_alloc s = (Ok None, s') /\ quiet s s'.
Proof.
  intros Hr Hf. unfold process_alloc. rewrite (bind_ok _ _ _ _ _ (ptable_enter s Hr)). mstep.
  change (proc (ptable (acquired PTABLE_LOCK s))) with (proc (ptable s)). rewrite Hf.
  destruct (ptable_leave (fun t => t) s Hr ltac:(done)) as (s1 & E1 & H1).
  assert (upd_ptable (fun t => t) (acquired PTABLE_LOCK s) = acquired PTABLE_LOCK s) as Ea by done.
  rewrite Ea in E1. rewrite (bind_ok _ _ _ _ _ E1).
  assert (s1 ≡ s) as Hs1 by (etrans; [exact H1|]; by destruct s).
  assert (cons_ready s1) as Hc by (eapply kframe_cons_ready; [by apply equiv_kframe|apply Hr]).
  destruct (cprintf_fits ("WARN: " +:+ "new_process: process table is full, no free slot" +:+ nl) [] s1 Hc eq_refl)
    as (s2 & E2 & Q2).
  unfold warn. rewrite (bind_ok _ _ _ _ _ E2). exists s2. split; [done|].
  destruct Q2 as [Q2 Q2']. split; [etrans; [exact Q2|]|].
  - pose proof (f_equal (fun x => set_io [] (set_mem ∅ x)) Hs1) as E'. exact E'.
  - intros b Hb Hv. rewrite Q2' by done. by rewrite (equiv_mem _ _ Hs1).
Qed.

(** The critical section reserves the slot. *)
Lemma process_alloc_reserve s i :
  kernel_ready s -> find_unused (proc (ptable s)) 0 = Some i ->
  exists s1, process_alloc s = process_alloc_found i s1 /\ s1 ≡ upd_ptable (reserve i) s.
Proof.
  intros Hr Hf. unfold process_alloc. rewrite (bind_ok _ _ _ _ _ (ptable_enter s Hr)). mstep.
  change (proc (ptable (acquired PTABLE_LOCK s))) with (proc (ptable s)). rewrite Hf. mstep.
  destruct (ptable_leave (reserve i) s Hr) as (s1 & E1 & H1); [by intros lk [] |].
  exists s1. split; [|done]. erewrite bind_ok; [done|]. rewrite <- E1. f_equal.
  unfold upd_proc, upd_ptable, reserve. destruct (acquired PTABLE_LOCK s) as [? ? ? ? ? ? ? ? t]. destruct t.
  cbn. unfold set_ptable, set_nextpid, set_proc; cbn. by rewrite list_alter_alter_eq.
Qed.

Lemma quiet_equiv s s' : quiet s s' -> s' ≡ set_io (io s') (set_mem (mem s') s).
Proof.
  intros [E _]. pose proof (f_equal (fun x => set_io (io s') (set_mem (mem s') x)) E) as E'.
  destruct s as [? ? ? ? ? k ? ? t], s' as [? ? ? ? ? k' ? ? t']; destruct k, k', t, t'. exact E'.
Qed.
Lemma pool_quiet s s' l : quiet s s' -> pool s l -> pool s' l.
Proof.
  intros Q Hp. eapply pool_equiv; [symmetry; by apply quiet_equiv|]. apply (pool_frame s); [done..|].
  intros x b Hx Hb. destruct (pool_pages s l Hp) as [_ Hpg]. destruct (Hpg x Hx) as [Hx' _].
  apply Q; [page_tac|]. unfold in_video, vidmem. page_tac.
Qed.
(** Updates of the process table do not concern the allocator. *)
Lemma pool_ptable f s l : pool s l -> pool (upd_ptable f s) l.
Proof. intros Hp. by apply (pool_frame s). Qed.

Lemma alloc_frame_ptable s s' :
  alloc_frame s s' -> proc (ptable s') = proc (ptable s) /\ initproc (ptable s') = initproc (ptable s) /\
    nextpid (ptable s') = nextpid (ptable s).
Proof.
  intros (m & h & E). split_and!.
  - exact (equiv_proc _ _ E).
  - exact (f_equal (fun s => initproc (ptable s)) E).
  - exact (f_equal (fun s => nextpid (ptable s)) E).
Qed.
Lemma quiet_ptable s s' :
  quiet s s' -> proc (ptable s') = proc (ptable s) /\ initproc (ptable s') = initproc (ptable s) /\
    nextpid (ptable s') = nextpid (ptable s).
Proof.
  intros [E _]. split_and!.
  - exact (equiv_proc _ _ E).
  - exact (f_equal (fun s => initproc (ptable s)) E).
  - exact (f_equal (fun s => nextpid (ptable s)) E).
Qed.

Lemma process_alloc_nomem s i :
  pool s [] -> cons_ready s ->
  exists s', process_alloc_found i s = (Ok None, s') /\ kframe s s' /\ pool s' [] /\
    proc (ptable s') = alter (fun q => set_p_state UNUSED (set_kstack 0 q)) i (proc (ptable s)) /\
    nextpid (ptable s') = nextpid (ptable s).
Proof.
  intros Hp Hc. unfold process_alloc_found. destruct (alloc_nil s Hp) as (s1 & E1 & H1 & Hp1).
  rewrite (bind_ok _ _ _ _ _ E1). mstep. cbn [Z.eqb]. mstep.
  set (s2 := upd_proc i (set_p_state UNUSED) (upd_proc i (set_kstack 0) s1)).
  assert (kframe s s2) as F2.
  { etrans; [by apply equiv_kframe|]. etrans; [apply upd_proc_kframe|apply upd_proc_kframe]. }
  destruct (cprintf_fits ("WARN: " +:+ "new_process: failed to allocate kernel stack page" +:+ nl) [] s2
    (kframe_cons_ready _ _ F2 Hc) eq_refl) as (s3 & E3 & Q3).
  unfold warn. rewrite (bind_ok _ _ _ _ _ E3). exists s3. destruct (quiet_ptable _ _ Q3) as (P1 & P2 & P3).
  split_and!; [done|by etrans; [|apply quiet_kframe]|by eapply pool_quiet; [|do 2 apply pool_ptable]| |].
  - rewrite P1. subst s2. cbn. rewrite list_alter_alter_eq. by rewrite (equiv_proc _ _ H1).
  - rewrite P3. exact (f_equal (fun s => nextpid (ptable s)) H1).
Qed.

Lemma new_stack_layout m k :
  is_page k ->
  let m' := mstore32 (mfill (mstore32 m (k + 4028) sym_trapret) (k + 4008) 0 20) (k + 4024) sym_enter_process in
  new_stack m' k /\ frame_except (eq k) m m'.
Proof.
  intros Hk m'. assert (forall c, 0 <= c < 4096 -> 0 <= k + c < 4294967296) as Hr by (intros; page_tac).
  assert (forall a b v m, 0 <= a <= 4092 -> 0 <= b <= 4092 -> a + 4 <= b \/ b + 4 <= a ->
    mload32 (mstore32 m (k + a) v) (k + b) = mload32 m (k + b)) as Hne.
  { intros a b v m1 Ha Hb Hab. apply mload32_store32_ne, disjoint32_sep; page_tac. }
  split.
  - unfold new_stack, m'. split_and!; try (rewrite Hne by lia; unfold mload32; rewrite !mload8_fill by page_tac;
      by rewrite !decide_True by lia).
    + apply mload32_store32_same.
    + rewrite Hne by lia. unfold mload32 at 1. rewrite !mload8_fill by page_tac.
      rewrite !decide_False by lia. apply mload32_store32_same.
  - intros b Hb Hn. specialize (Hn k eq_refl). unfold PGSIZE in Hn. unfold m'.
    rewrite mload8_store32_ne by (intros i Hi; unfold is_page, PGSIZE, KERNBASE in *; ulia).
    rewrite mload8_fill by page_tac. rewrite decide_False by lia.
    apply mload8_store32_ne. intros i Hi. unfold is_page, PGSIZE, KERNBASE in *; ulia.
Qed.

Lemma process_alloc_stack s i k l :
  pool s (k :: l) ->
  exists s', process_alloc_found i s = (Ok (Some i), s') /\ kframe s s' /\ pool s' l /\
    proc (ptable s') =
      alter (fun q => set_p_context (k + 4008) (set_tf (k + 4032) (set_kstack k q))) i (proc (ptable s)) /\
    initproc (ptable s') = initproc (ptable s) /\ nextpid (ptable s') = nextpid (ptable s) /\
    new_stack (mem s') k /\ frame_except (eq k) (mem s) (mem s').
Proof.
  intros Hp. destruct (pool_cons_inv s k l Hp) as [Hk Hkl]. unfold process_alloc_found.
  destruct (alloc_cons s k l Hp) as (s1 & E1 & F1 & Em1 & Hp1). rewrite (bind_ok _ _ _ _ _ E1). mstep.
  destruct (Z.eqb_spec k 0) as [->|_]; [page_tac|].
  unfold KSTACKSIZE, sizeof_interrupt_state, sizeof_context, ctx_eip. change PGSIZE with 4096.
  replace (wrap32 (wrap32 (k + 4096) - 64)) with (k + 4032) by (unfold is_page, PGSIZE, KERNBASE in *; ulia).
  replace (k + 4032 - 4) with (k + 4028) by lia.
  rewrite (wrap32_small (k + 4028)) by page_tac. replace (k + 4028 - 20) with (k + 4008) by lia.
  rewrite (wrap32_small (k + 4008)) by page_tac. replace (k + 4008 + 16) with (k + 4024) by lia. mstep.
  erewrite bind_ok by (apply store32_kernel; page_tac). mstep.
  erewrite bind_ok by (apply memset_kernel; page_tac).
  erewrite bind_ok by (apply store32_kernel; page_tac).
  destruct (new_stack_layout (mem s) k Hk) as [Hst Hfr]. change (Z.to_nat 20) with 20%nat. change (wrap8 0) with 0.
  cbn [mem set_mem upd_proc upd_ptable set_ptable]. rewrite Em1. set (m' := mstore32 _ _ _) in *. clearbody m'.
  eexists. split; [reflexivity|]. destruct (alloc_frame_ptable _ _ F1) as (P1 & P2 & P3).
  split_and!; [| | |done|done|done|done].
  - etrans; [by apply alloc_kframe|].
    set (s2 := upd_proc i (set_p_context (k + 4008)) (upd_proc i (set_tf (k + 4032)) (upd_proc i (set_kstack k) s1))).
    trans s2; [|exact (set_mem_kframe m' s2)]. subst s2.
    do 2 (etrans; [|apply upd_proc_kframe]). apply upd_proc_kframe.
  - apply (pool_frame s1); [done|done|done|done|]. intros x b Hx Hb. simpl. rewrite Em1.
    destruct (pool_pages s1 l Hp1) as [_ Hpg]. eapply (mload8_frame_page (eq k)); [exact Hfr|by intros ? <-|by apply Hpg| |done].
    by intros ->.
  - cbn. rewrite !list_alter_alter_eq. by rewrite P1.
Qed.

Lemma reserve_equiv i s s1 :
  s1 ≡ upd_ptable (reserve i) s ->
  kframe s s1 /\ mem s1 = mem s /\ ptable s1 = set_pt_lock (pt_lock (ptable s1)) (reserve i (ptable s)).
Proof.
  intros E. split; [|split].
  - etrans; [apply (upd_ptable_kframe (reserve i)); by intros []|]. by apply equiv_kframe.
  - exact (equiv_mem _ _ E).
  - assert (proc (ptable s1) = proc (reserve i (ptable s))) as E1 by exact (equiv_proc _ _ E).
    assert (initproc (ptable s1) = initproc (reserve i (ptable s))) as E2
      by exact (f_equal (fun s => initproc (ptable s)) E).
    assert (nextpid (ptable s1) = nextpid (reserve i (ptable s))) as E3
      by exact (f_equal (fun s => nextpid (ptable s)) E).
    destruct (ptable s1). cbn in *. by subst.
Qed.

Lemma process_alloc_ok s k l i :
  kernel_ready s -> pool s (k :: l) -> find_unused (proc (ptable s)) 0 = Some i ->
  exists s', process_alloc s = (Ok (Some i), s') /\ kframe s s' /\ pool s' l /\
    proc (ptable s') = alter (new_process (nextpid (ptable s)) k) i (proc (ptable s)) /\
    nextpid (ptable s') = wrap16 (nextpid (ptable s) + 1) /\
    new_stack (mem s') k /\ frame_except (eq k) (mem s) (mem s').
Proof.
  intros Hr Hp Hf. destruct (process_alloc_reserve s i Hr Hf) as (s1 & -> & E).
  destruct (reserve_equiv i s s1 E) as (F1 & Em & Ept).
  destruct (process_alloc_stack s1 i k l) as (s' & E' & F' & Hp' & H1 & _ & H2 & H3 & H4).
  { eapply pool_equiv; [by symmetry|]. by apply pool_ptable. }
  exists s'. rewrite Ept in H1, H2. rewrite Em in H4. split_and!; [done|by etrans|done| |done|done|done].
  rewrite H1. cbn. by rewrite list_alter_alter_eq.
Qed.
End Alloc.

Section AllocProperty.
Context `{env : Env}.

(** C9: process_alloc takes the first UNUSED slot, gives it the next process
    id (modulo 2^16) and a kernel stack page on which the first context returns
    to enter_process and from there to trapret, with room for the trap state
    above.  When no slot is UNUSED it changes nothing and answers NULL; when
    there is no free page it puts the slot back to UNUSED and answers NULL,
    having used up a process id.  The table's lock is free again at the end. *)
Theorem process_alloc_spec s l :
  kernel_ready s -> pool s l ->
  let n := nextpid (ptable s) in
  exists o r s', first_unused (proc (ptable s)) o /\ process_alloc s = (Ok r, s') /\ kernel_ready s' /\
    match o with
    | None => r = None /\ proc (ptable s') = proc (ptable s) /\ nextpid (ptable s') = n /\ pool s' l
    | Some i => nextpid (ptable s') = wrap16 (n + 1) /\
        match l with
        | [] => r = None /\ pool s' [] /\ proc (ptable s') =
            alter (fun q => set_p_state UNUSED (set_kstack 0 (set_pid n (set_p_state INITIAL q)))) i
              (proc (ptable s))
        | k :: l' => r = Some i /\ pool s' l' /\
            proc (ptable s') = alter (new_process n k) i (proc (ptable s)) /\
            new_stack (mem s') k /\ frame_except (eq k) (mem s) (mem s')
        end
    end.
Proof.
  intros Hr Hp n. pose proof (find_unused_first (proc (ptable s))) as Hfirst.
  exists (find_unused (proc (ptable s)) 0). destruct (find_unused (proc (ptable s)) 0) as [i|] eqn:Hf.
  - destruct l as [|k l].
    + destruct (process_alloc_reserve s i Hr Hf) as (s1 & E1 & E).
      destruct (reserve_equiv i s s1 E) as (F1 & Em & Ept).
      destruct (process_alloc_nomem s1 i) as (s' & E' & F' & Hp' & H1 & H2).
      { eapply pool_equiv; [by symmetry|]. by apply pool_ptable. }
      { eapply kframe_cons_ready; [done|apply Hr]. }
      exists None, s'. split; [done|]. rewrite E1. rewrite Ept in H1, H2.
      split; [done|]. split; [apply (kframe_ready s); [etrans; [exact F1|exact F']|done]|].
      split; [done|]. split; [done|]. split; [done|]. rewrite H1. cbn. by rewrite list_alter_alter_eq.
    + destruct (process_alloc_ok s k l i Hr Hp Hf) as (s' & E & F & Hp' & H1 & H2 & H3 & H4).
      exists (Some i), s'. split; [done|]. split; [done|]. split; [by apply (kframe_ready s)|]. by split.
  - destruct (process_alloc_full s Hr Hf) as (s' & E & Q). destruct (quiet_ptable _ _ Q) as (P1 & P2 & P3).
    exists None, s'. split; [done|]. split; [done|]. split; [apply (kframe_ready s); [by apply quiet_kframe|done]|].
    split; [done|]. split; [done|]. split; [done|]. by eapply pool_quiet.
Qed.
End AllocProperty.

Lemma demo_kernel_ready : kernel_ready demo_vm.
Proof.
  assert (irq_ok demo_vm) as H by (split; vm_compute; done).
  split; [exact H|]. split; [split; reflexivity|]. split; [exact H|]. left. reflexivity.
Qed.

Lemma process_alloc_spec_witness :
  exists s', process_alloc (env:=demo_env) demo_vm = (Ok (Some 0%nat), s') /\
    nextpid (ptable s') = 2 /\ new_stack (env:=demo_env) (mem s') 0x80200000.
Proof.
  destruct (process_alloc_spec (env:=demo_env) demo_vm demo_pool) as (o & r & s' & Ho & E & _ & H);
    [exact demo_kernel_ready|exact demo_vm_pool|].
  assert (o = Some 0%nat) as ->.
  { destruct o as [[|i]|]; [reflexivity| |].
    - destruct (proj2 Ho 0%nat zero_process); [lia|reflexivity|reflexivity].
    - destruct (Ho 0%nat zero_process); reflexivity. }
  destruct H as (H1 & H2 & _ & _ & H3 & _). exists s'. subst r. split; [exact E|]. split; [exact H1|exact H3].
Defined.

(** ** The first process *)

(** Words of a page at a fixed offset. *)
Lemma mload32_page_ne `{env : Env} m k a b v :
  is_page k -> 0 <= a <= 4092 -> 0 <= b <= 4092 -> a + 4 <= b \/ b + 4 <= a ->
  mload32 (mstore32 m (k + a) v) (k + b) = mload32 m (k + b).
Proof. intros Hk Ha Hb Hab. apply mload32_store32_ne, disjoint32_sep; page_tac. Qed.

(** The trap state of a process that starts at user address 0 with its stack
    at the end of its page: user segments, interrupts enabled. *)
Definition user_trapframe (m : gmap Z Z) (tf : Z) : Prop :=
  mload32 m (tf + st_cs) = 0x1B /\ mload32 m (tf + st_ds) = 0x23 /\ mload32 m (tf + st_ss) = 0x23 /\
  mload32 m (tf + st_eflags) = FL_IF /\ mload32 m (tf + st_esp) = PGSIZE /\ mload32 m (tf + st_eip) = 0 /\
  mload32 m (tf + st_eax) = 0.

(** RAM outside of the trap state at the top of the stack page [k]. *)
Definition outside_tf (k : Z) (m m' : gmap Z Z) : Prop :=
  forall b, 0 <= b < 4294967296 -> ~ k + 4032 <= b < k + 4096 -> mload8 m' b = mload8 m b.

Lemma outside_tf_frame `{env : Env} k m m' : is_page k -> outside_tf k m m' -> frame_except (eq k) m m'.
Proof. intros Hk H b Hb Hn. apply H; [done|]. specialize (Hn k eq_refl). unfold PGSIZE in Hn. lia. Qed.

Lemma outside_tf_stack `{env : Env} k m m' :
  is_page k -> outside_tf k m m' -> new_stack m k -> new_stack m' k.
Proof.
  intros Hk H. unfold new_stack. assert (forall c, 0 <= c <= 4028 -> mload32 m' (k + c) = mload32 m (k + c)) as E.
  { intros c Hc. unfold mload32. rewrite !H by page_tac. done. }
  by rewrite !E by lia.
Qed.

Lemma init_trapframe_ok `{env : Env} k s :
  is_page k -> exists m', init_trapframe (k + 4032) s = (Ok tt, set_mem m' s) /\
    user_trapframe m' (k + 4032) /\ outside_tf k (mem s) m'.
Proof.
  intros Hk. unfold init_trapframe.
  unfold st_cs, st_ds, st_ss, st_eflags, st_esp, st_eip, sizeof_interrupt_state.
  erewrite bind_ok by (apply memset_kernel; page_tac).
  do 2 (erewrite bind_ok by (apply store32_kernel; page_tac)).
  erewrite bind_ok by (apply load32_kernel; page_tac).
  do 3 (erewrite bind_ok by (apply store32_kernel; page_tac)).
  rewrite store32_kernel by page_tac. rewrite !set_mem_set. cbn [mem set_mem].
  eexists. split; [reflexivity|].
  rewrite <- !Z.add_assoc. cbn [Z.add Pos.add Pos.succ Pos.add_carry].
  rewrite !mload32_store32_same. unfold user_trapframe, st_cs, st_ds, st_ss, st_eflags, st_esp, st_eip, st_eax.
  rewrite <- !Z.add_assoc. cbn [Z.add Pos.add Pos.succ Pos.add_carry]. split.
  - split_and!; repeat first [rewrite mload32_store32_same; reflexivity | rewrite mload32_page_ne by (done || lia)].
    unfold mload32. rewrite !mload8_fill by page_tac. by rewrite !decide_True by lia.
  - intros b Hb Hn. rewrite !mload8_store32_ne by (intros i Hi; unfold is_page, PGSIZE, KERNBASE in *; ulia).
    rewrite mload8_fill by page_tac. by rewrite decide_False by lia.
Qed.

(** The address space of the first process: its page [u] at 0, the kernel's
    mappings above. *)
Definition init_space (v : vm_t) (u va : Z) : option (Z * bool * bool) :=
  if decide (va < 4096) then Some (V2P u + va, true, true)
  else (fun pa => (pa, true, false)) <$> kernel_va v va.

Definition init_process (n k pd : Z) (q : process) : process :=
  set_p_state RUNNABLE (set_p_name (strncpy_array (p_name q) (bytes_of "init") 15)
    (set_sz PGSIZE (set_pgdir pd (new_process n k q)))).

Section Initproc.
Context `{env : Env} `{A : !Allocator}.

(** Building the address space: [setupkvm], then [inituvm]. *)
Lemma init_address_space s l (f : Z -> ptable_t -> ptable_t) :
  pool s l -> vm_layout (vm s) -> kvm_pages (vm s) + 2 <= Z.of_nat (length l) ->
  0 <= sym_init_size < PGSIZE -> KERNBASE <= sym_init_start ->
  (forall p, p ∈ l -> sym_init_start + sym_init_size <= p) ->
  exists pd u s1 st l', setupkvm s = (Ok pd, s1) /\
    inituvm pd sym_init_start sym_init_size (upd_ptable (f pd) s1) = (Ok tt, st) /\
    pd ∈ l /\ u ∈ l /\ is_page u /\ proc (ptable s1) = proc (ptable s) /\ alloc_frame s s1 /\
    alloc_frame (upd_ptable (f pd) s1) st /\
    pool st l' /\ pgdir_wf (mem st) pd l' /\ l' `suffix_of` l /\ frame_except (.∈ l) (mem s) (mem st) /\
    (forall p, pd_page (mem st) pd p -> p ∈ l /\ p <> u) /\
    (forall va, 0 <= va < 4294967296 -> mmu_walk (mem st) (V2P pd) va = init_space (vm s) u va) /\
    (forall j, 0 <= j < PGSIZE -> mload8 (mem st) (u + j) =
       if decide (j < sym_init_size) then mload8 (mem s) (sym_init_start + j) else 0).
Proof.
  intros Hp Hlay Hlen Hsz Hst Hlow.
  destruct (setupkvm_ok s l Hp Hlay ltac:(lia)) as (pd & s1 & l1 & E1 & Hhd & Hc & B).
  destruct B as [B1 B2 B3 B4 B5 BU B6 B7]. destruct l1 as [|u l2]; [simpl in Hc; lia|].
  destruct (pool_pages s l Hp) as [_ Hpg].
  assert (u ∈ l) as Hul by (destruct B6 as [l0 ->]; apply elem_of_app; right; apply list_elem_of_here).
  assert (forall p, pd_or_free (mem s1) pd (u :: l2) p -> p ∈ l) as Hsub.
  { intros p [Hq|Hq]; [by apply B5|]. destruct B6 as [l0 ->]. apply elem_of_app. by right. }
  pose proof (vm_layout_acpi _ Hlay) as L0.
  assert (forall va, 0 <= va < KERNBASE -> kernel_va (vm s) va = None) as Hno
    by (intros va Hva; unfold kernel_va, DEVSPACE, KERNBASE in *; by rewrite !decide_False by lia).
  destruct (inituvm_ok (upd_ptable (f pd) s1) u l2 pd sym_init_start sym_init_size) as
    (st & l' & E2 & H1 & H2 & H3 & H4 & H5 & H6 & H7 & H8); [done|by apply pool_ptable|done|simpl in Hc; lia| |done| |].
  { cbn. rewrite B7 by lia. by rewrite Hno by (unfold KERNBASE; lia). }
  { intros p Hq. by apply Hlow, Hsub. }
  cbn in H5, H6, H7, H8.
  exists pd, u, s1, st, l'. split; [done|]. split; [done|]. split; [destruct l; [done|]; injection Hhd as ->; apply list_elem_of_here|].
  split; [done|]. split; [by apply Hpg|]. split; [by apply alloc_frame_ptable|]. split; [done|]. split; [done|].
  split; [done|]. split; [done|]. split_and!.
  - etrans; [exact H4|]. by apply suffix_cons_l in B6.
  - eapply frame_except_trans; [exact B4|]. by eapply frame_except_mono.
  - intros p Hq. split; [apply Hsub; destruct (H7 p Hq) as [?|?]; [by left|right; by apply list_elem_of_further]|].
    intros ->. destruct (H7 u Hq) as [Hu|Hu].
    + destruct (pd_page_wf _ _ _ _ B2 Hu) as [_ Hno']. apply Hno', list_elem_of_here.
    + by destruct (pool_cons_inv s1 u l2 B1) as [_ []].
  - intros va Hva. rewrite (mmu_walk_pte _ _ l') by done. rewrite H5 by done. unfold init_space. case_decide as Hv.
    + destruct (entry_bits (V2P u) 7) as (_ & Hpr & Ha & Hw & Hus & _); try (by right);
        try (rewrite V2P_kernel by (destruct (Hpg u Hul); page_tac); destruct (Hpg u Hul); page_tac).
      rewrite Hpr, Ha, Hw, Hus. simpl. do 3 f_equal. rewrite Z.mod_small; lia.
    + rewrite <- (mmu_walk_pte _ _ (u :: l2)) by done. by apply (kernel_space_mmu _ _ (u :: l2)); [..|apply B7].
  - intros j Hj. rewrite H6 by done. case_decide as Hjs; [|done].
    apply B4; [destruct (Hpg u Hul); pose proof (Hlow u Hul); page_tac|]. intros p Hq Hpb. specialize (Hlow p Hq). lia.
Qed.

(** Writes outside of a directory keep its translation. *)
Lemma mmu_walk_frame P m m' pgdir l :
  frame_except P m m' -> (forall q, P q -> is_page q /\ ~ pd_page m pgdir q) -> pgdir_wf m pgdir l ->
  pgdir_wf m' pgdir l /\
  forall va, 0 <= va < 4294967296 -> mmu_walk m' (V2P pgdir) va = mmu_walk m (V2P pgdir) va.
Proof.
  intros Hf HP Hwf. assert (pgdir_wf m' pgdir l) as Hwf'.
  { eapply pgdir_wf_ext; [exact Hwf| |done]. intros i Hi. apply (pde_at_frame P); [done|apply HP|apply Hwf| |done].
    intros H. apply HP in H as [_ []]. by left. }
  split; [done|]. intros va Hva. rewrite !(mmu_walk_pte _ _ l) by done. by rewrite (pte_at_frame P m m' pgdir l).
Qed.

(** The end of [initproc_init], once the address space is built. *)
Lemma initproc_finish s i q k pd l :
  kernel_ready s -> pool s l -> pgdir_wf (mem s) pd l -> proc (ptable s) !! i = Some q -> tf q = k + 4032 ->
  is_page k -> k ∉ l -> ~ pd_page (mem s) pd k ->
  exists st, (tf ← gets (fun s => tf (get_proc i s));
      _ ← init_trapframe tf;
      _ ← modify (upd_proc i (fun q => set_p_name (strncpy_array (p_name q) (bytes_of "init") 15) q));
      _ ← acquire PTABLE_LOCK;
      _ ← modify (upd_proc i (set_p_state RUNNABLE));
      release PTABLE_LOCK) s = (Ok tt, st) /\
    kframe s st /\ pool st l /\ pgdir_wf (mem st) pd l /\ user_trapframe (mem st) (k + 4032) /\
    outside_tf k (mem s) (mem st) /\ initproc (ptable st) = initproc (ptable s) /\
    (forall p, pd_page (mem st) pd p -> pd_page (mem s) pd p) /\
    (forall va, 0 <= va < 4294967296 -> mmu_walk (mem st) (V2P pd) va = mmu_walk (mem s) (V2P pd) va) /\
    proc (ptable st) = alter (fun q => set_p_state RUNNABLE
      (set_p_name (strncpy_array (p_name q) (bytes_of "init") 15) q)) i (proc (ptable s)).
Proof.
  intros Hr Hp Hwf Hq Htf Hk Hkl Hnpd. mstep. unfold get_proc at 1. rewrite Hq. simpl. rewrite Htf.
  destruct (init_trapframe_ok k s Hk) as (m' & E1 & Htfr & Hout). rewrite (bind_ok _ _ _ _ _ E1). mstep.
  pose proof (outside_tf_frame k _ _ Hk Hout) as Hfr.
  destruct (mmu_walk_frame (eq k) _ _ _ _ Hfr ltac:(by intros ? <-) Hwf) as [Hwf' Hmmu].
  set (s1 := upd_proc i _ (set_mem m' s)).
  assert (kframe s s1) as F1 by (etrans; [apply (set_mem_kframe m')|apply upd_proc_kframe]).
  pose proof (kframe_ready _ _ F1 Hr) as Hr1. rewrite (bind_ok _ _ _ _ _ (ptable_enter s1 Hr1)). mstep.
  destruct (ptable_leave (fun t => set_proc (alter (set_p_state RUNNABLE) i (proc t)) t) s1 Hr1)
    as (st & E2 & H2); [by intros lk []|].
  exists st. split; [exact E2|]. pose proof (equiv_mem _ _ H2) as Em. cbn in Em. rewrite Em.
  split_and!; [| |done|done|done| | |done|].
  - etrans; [exact F1|]. etrans; [apply (upd_proc_kframe i (set_p_state RUNNABLE))|by apply equiv_kframe].
  - eapply pool_equiv; [by symmetry|]. do 2 apply pool_ptable. apply (pool_write (eq k)); [done|done|by intros ? <-].
  - exact (f_equal (fun s => initproc (ptable s)) H2).
  - intros p. unfold pd_page. intros [->|(j & Hj & Hpj & ->)]; [by left|right]. exists j. split; [done|].
    rewrite (pde_at_frame (eq k) (mem s) m') in Hpj |- * by (done || (by intros ? <-) || (intros ->; apply Hnpd; by left) || apply Hwf).
    done.
  - rewrite (equiv_proc _ _ H2). cbn. by rewrite list_alter_alter_eq.
Qed.

Lemma initproc_init_run s k l i :
  kernel_ready s -> pool s (k :: l) -> find_unused (proc (ptable s)) 0 = Some i ->
  vm_layout (vm s) -> kvm_pages (vm s) + 2 <= Z.of_nat (length l) ->
  0 <= sym_init_size < PGSIZE -> KERNBASE <= sym_init_start ->
  (forall p, p ∈ k :: l -> sym_init_start + sym_init_size <= p) ->
  exists pd u st l', initproc_init s = (Ok tt, st) /\ kframe s st /\ pool st l' /\
    initproc (ptable st) = Some i /\ pd ∈ l /\ u ∈ l /\
    proc (ptable st) = alter (init_process (nextpid (ptable s)) k pd) i (proc (ptable s)) /\
    pgdir_wf (mem st) pd l' /\ (forall p, pd_page (mem st) pd p -> p ∈ l /\ p <> u) /\
    new_stack (mem st) k /\ user_trapframe (mem st) (k + 4032) /\
    (forall va, 0 <= va < 4294967296 -> mmu_walk (mem st) (V2P pd) va = init_space (vm s) u va) /\
    (forall j, 0 <= j < PGSIZE -> mload8 (mem st) (u + j) =
       if decide (j < sym_init_size) then mload8 (mem s) (sym_init_start + j) else 0) /\
    frame_except (.∈ k :: l) (mem s) (mem st).
Proof.
  intros Hr Hp Hf Hlay Hlen Hsz Hst Hlow. destruct (pool_cons_inv s k l Hp) as [Hk Hkl].
  destruct (process_alloc_ok s k l i Hr Hp Hf) as (s1 & E1 & F1 & Hp1 & Hpr1 & _ & Hns & Hfr1).
  set (s2 := upd_ptable (set_initproc (Some i)) s1).
  assert (kframe s s2) as F2 by (etrans; [exact F1|by apply upd_ptable_kframe]).
  assert (vm s2 = vm s) as Ev by exact (kframe_vm _ _ F2).
  destruct (init_address_space s2 l (fun pd t => set_proc (alter (set_pgdir pd) i (proc t)) t))
    as (pd & u & s3 & s4 & l' & E3 & E4 & Hpd & Hu & Hup & Hpr3 & F3 & F4 & Hp4 & Hwf4 & Hsuf & Hfr4 & Hpp & Hmmu & Hb);
    [by apply pool_ptable|by rewrite Ev|by rewrite Ev|done|done|intros; by apply Hlow, list_elem_of_further|].
  destruct (pool_pages s1 l Hp1) as [_ Hpg].
  assert (pd <> 0) as Hpd0 by (destruct (Hpg pd Hpd); intros ->; page_tac).
  set (s5 := upd_proc i (set_sz PGSIZE) s4). pose proof (find_unused_spec (proc (ptable s)) 0) as Hfu.
  rewrite Hf in Hfu. destruct Hfu as (_ & (q & Hq & _) & _). rewrite Nat.sub_0_r in Hq.
  destruct (alloc_frame_ptable _ _ F3) as (_ & Ei3 & _). destruct (alloc_frame_ptable _ _ F4) as (Epr4 & Ei4 & _).
  assert (proc (ptable s5) = alter (fun q => set_sz PGSIZE (set_pgdir pd (new_process (nextpid (ptable s)) k q))) i
    (proc (ptable s))) as Epr5.
  { subst s5. cbn. rewrite Epr4. cbn. rewrite Hpr3. cbn. rewrite Hpr1. by rewrite !list_alter_alter_eq. }
  assert (kframe s s5) as F5.
  { etrans; [exact F2|]. etrans; [apply alloc_kframe; exact F3|]. etrans; [apply (upd_proc_kframe i (set_pgdir pd))|].
    etrans; [apply alloc_kframe; exact F4|]. apply upd_proc_kframe. }
  assert (k ∉ l') as Hkl' by (destruct Hsuf as [l0 ->]; intros ?; apply Hkl, elem_of_app; by right).
  destruct (initproc_finish s5 i (set_sz PGSIZE (set_pgdir pd (new_process (nextpid (ptable s)) k q))) k pd l')
    as (st & E6 & F6 & Hp6 & Hwf6 & Htf6 & Ho6 & Ei6 & Hpd6 & Hmmu6 & Hpr6).
  - by apply (kframe_ready s).
  - by apply pool_ptable.
  - done.
  - by rewrite Epr5, list_lookup_alter_eq, Hq.
  - done.
  - done.
  - done.
  - intros Hq'. by apply Hkl, (Hpp k Hq').
  - exists pd, u, st, l'. split.
    { unfold initproc_init. rewrite (bind_ok _ _ _ _ _ E1). mstep. rewrite (bind_ok _ _ _ _ _ E3). mstep.
      destruct (Z.eqb_spec pd 0); [done|]. rewrite (bind_ok _ _ _ _ _ E4), bind_modify. exact E6. }
    assert (forall b, 0 <= b < 4294967296 -> (forall p, p ∈ l -> ~ p <= b < p + PGSIZE) ->
      mload8 (mem s5) b = mload8 (mem s1) b) as Hfr5 by exact Hfr4.
    split; [by etrans|]. split; [done|]. split.
    { rewrite Ei6. cbn. rewrite Ei4. cbn. by rewrite Ei3. }
    split; [done|]. split; [done|]. split.
    { rewrite Hpr6, Epr5. by rewrite list_alter_alter_eq. }
    split; [done|]. split; [intros p Hp'; by apply Hpp, Hpd6|]. split.
    { eapply outside_tf_stack; [done|exact Ho6|]. unfold new_stack.
      assert (forall c, 0 <= c <= 4028 -> mload32 (mem s5) (k + c) = mload32 (mem s1) (k + c)) as E.
      { intros c Hc. unfold mload32. by rewrite !(mload8_frame_page (.∈ l) (mem s1) (mem s5) k)
          by (done || (intros; by apply Hpg) || page_tac). }
      by rewrite !E by lia. }
    split; [done|]. split.
    { intros va Hva. rewrite Hmmu6 by done. cbn. rewrite Hmmu by done. by rewrite Ev. }
    split.
    { intros j Hj. rewrite Ho6; [|page_tac|].
      2:{ destruct (pages_apart u k); [done|done|by intros ->|page_tac..]. }
      cbn. rewrite Hb by done. case_decide as Hjs; [|done]. cbn.
      pose proof (Hlow k ltac:(apply list_elem_of_here)). apply Hfr1; [page_tac|]. intros p <- Hpb. page_tac. }
    intros b Hb' Hn. pose proof (Hn k ltac:(apply list_elem_of_here)) as Hnk. rewrite Ho6 by (done || page_tac).
    rewrite Hfr5; [|done|intros p Hp'; by apply Hn, list_elem_of_further]. apply Hfr1; [done|by intros p <-].
Qed.
End Initproc.

Section InitProperty.
Context `{env : Env}.

(** C8: with enough free pages, initproc_init makes the first process of the
    first free slot: RUNNABLE, with a kernel stack that starts in enter_process
    and returns through trapret into user mode at address 0, a stack at the end
    of its page and interrupts enabled; its page directory translates user
    addresses below 4096 to the page holding the embedded init program followed
    by zeros, kernel addresses as the kernel's own directory does, and nothing
    else.  Everything but RAM, the free list and the process table is as
    before, and no lock stays held. *)
Theorem initproc_init_runnable s k l i :
  kernel_ready s -> pool s (k :: l) -> first_unused (proc (ptable s)) (Some i) ->
  vm_layout (vm s) -> kvm_pages (vm s) + 2 <= Z.of_nat (length l) ->
  0 <= sym_init_size < PGSIZE -> KERNBASE <= sym_init_start ->
  (forall p, p ∈ k :: l -> sym_init_start + sym_init_size <= p) ->
  exists pd u st l', initproc_init s = (Ok tt, st) /\ kframe s st /\ kernel_ready st /\ pool st l' /\
    initproc (ptable st) = Some i /\ pd ∈ l /\ u ∈ l /\
    proc (ptable st) = alter (init_process (nextpid (ptable s)) k pd) i (proc (ptable s)) /\
    pgdir_wf (mem st) pd l' /\ new_stack (mem st) k /\ user_trapframe (mem st) (k + 4032) /\
    (forall va, 0 <= va < 4294967296 -> mmu_walk (mem st) (V2P pd) va = init_space (vm s) u va) /\
    (forall j, 0 <= j < PGSIZE -> mload8 (mem st) (u + j) =
       if decide (j < sym_init_size) then mload8 (mem s) (sym_init_start + j) else 0).
Proof.
  intros Hr Hp Hf%first_unused_find H1 H2 H3 H4 H5.
  destruct (initproc_init_run s k l i Hr Hp Hf H1 H2 H3 H4 H5) as (pd & u & st & l' & E & F & H).
  exists pd, u, st, l'. split; [exact E|]. split; [exact F|]. split; [by apply (kframe_ready s)|]. tauto.
Qed.
End InitProperty.

Lemma demo_pool_low p : p ∈ demo_pool -> 0x80107140 <= p.
Proof.
  unfold demo_pool, page_range. intros (i & -> & _)%list_elem_of_fmap. unfold PGSIZE. lia.
Qed.

Lemma initproc_init_runnable_witness :
  exists pd u st, initproc_init (env:=demo_env) demo_vm = (Ok tt, st) /\
    initproc (ptable st) = Some 0%nat /\ user_trapframe (mem st) (0x80200000 + 4032) /\
    mmu_walk (mem st) (V2P pd) 64 = Some (V2P u + 64, true, true).
Proof.
  destruct (initproc_init_runnable (env:=demo_env) demo_vm 0x80200000 (page_range 0x80201000 47) 0)
    as (pd & u & st & l' & E & _ & _ & _ & Hi & _ & _ & _ & _ & _ & Ht & Hm & _).
  - exact demo_kernel_ready.
  - exact demo_vm_pool.
  - split; [exists zero_process; split; reflexivity|]. intros j q Hj. lia.
  - exact demo_vm_layout.
  - vm_compute. discriminate.
  - split; reflexivity || discriminate.
  - discriminate.
  - exact demo_pool_low.
  - exists pd, u, st. split; [exact E|]. split; [exact Hi|]. split; [exact Ht|].
    apply (Hm 64). split; reflexivity || discriminate.
Defined.

(** ** Switching address spaces *)

(** The processor after [switchuvm]: the TSS points at the kernel stack of the
    process, CR3 at its directory. *)
Definition uvm_cpu `{env : Env} (q : process) (c : cpu) : cpu :=
  set_cpu_ts (set_iomb 0xFFFF (set_esp0 (kstack q +u KSTACKSIZE) (set_ss0 16 (cpu_ts c))))
    (set_cpu_gdt (<[5%nat := make_segdesc sym_cpu0_ts 103 0x89 0]> (cpu_gdt c)) c).
Definition uvm_regs (q : process) (r : regs) : regs := set_cr3 (V2P (pgdir q)) (set_tr 40 r).

Section Switch.
Context `{env : Env}.

Lemma V2P_pgdir_nonzero p : KERNBASE < p < 4294967296 -> (V2P p =? 0) = false.
Proof. intros Hp. apply Z.eqb_neq. rewrite V2P_kernel; lia. Qed.

Lemma switchuvm_ok i s :
  let q := get_proc i s in
  IF s = false -> 0 < ncli (cpu0 s) -> kstack q <> 0 -> KERNBASE < pgdir q < 4294967296 ->
  switchuvm (Some i) s
    = (Ok tt, set_cpu_regs (uvm_regs q (cpu_regs s)) (set_cpu0 (uvm_cpu q (cpu0 s)) s)).
Proof.
  intros q HI Hn Hk Hp. unfold switchuvm. mstep. fold q.
  destruct (Z.eqb_spec (kstack q) 0); [done|]. destruct (Z.eqb_spec (pgdir q) 0); [unfold KERNBASE in *; lia|].
  rewrite (bind_ok _ _ _ _ _ (pushcli_ok s)).
  assert (forall t, cpu_regs t = cpu_regs (pushcli_state s) -> mycpu t = (Ok 0%nat, t)) as Hmy.
  { intros t Ht. apply mycpu_ok. unfold IF. rewrite Ht. apply IF_pushcli. }
  rewrite !(bind_ok _ _ _ _ _ (Hmy (pushcli_state s) eq_refl)). unfold gdt_set_entry, upd_ts.
  do 3 (mstep; erewrite bind_ok by by apply Hmy). mstep. unfold proc_load_task_reg. mstep.
  unfold paging_switch_pgdir, kassert. rewrite V2P_pgdir_nonzero by done. cbn [negb]. unfold mbind, M_bind.
  cbn [mret M_ret modify]. rewrite popcli_ok; [|apply IF_pushcli|simpl; lia].
  unfold popcli_state, pushcli_state, upd_eflags, uvm_cpu, uvm_regs. unfold IF in HI.
  destruct s as [? r ? c]; destruct c as [? ? ? ? nc ? ?], r as [e]; simpl in *.
  destruct (Z.eqb_spec nc 0); [lia|]. simpl. destruct (Z.eqb_spec (nc + 1 - 1) 0); [lia|]. simpl.
  rewrite cli_idem by done. unfold set_ncli; simpl. by rewrite Z.add_simpl_r.
Qed.

Lemma switchkvm_ok s :
  KERNBASE < kpgdir (vm s) < 4294967296 ->
  switchkvm s = (Ok tt, set_cpu_regs (set_cr3 (V2P (kpgdir (vm s))) (cpu_regs s)) s).
Proof.
  intros Hk. unfold switchkvm. mstep. unfold paging_switch_pgdir, kassert.
  by rewrite V2P_pgdir_nonzero.
Qed.

Lemma myproc_ok s :
  0 <= ncli (cpu0 s) -> myproc s = (Ok (cpu_proc (cpu0 s)), popcli_state (pushcli_state s)).
Proof.
  intros Hn. unfold myproc. rewrite (bind_ok _ _ _ _ _ (pushcli_ok s)).
  erewrite bind_ok by apply mycpu_ok, IF_pushcli. mstep.
  erewrite bind_ok by (apply popcli_ok; [apply IF_pushcli|rewrite ncli_pushcli; lia]).
  unfold pushcli_state. by destruct (ncli (cpu0 s) =? 0).
Qed.

(** Outside of any critical section too, nothing else changes. *)
Lemma pop_push_equiv s : irq_ok s -> popcli_state (pushcli_state s) ≡ s.
Proof.
  intros [Hn HI]. destruct (decide (0 < ncli (cpu0 s))) as [Hp|Hp]; [by rewrite pop_push_nested by auto|].
  assert (ncli (cpu0 s) = 0) as E0 by lia. unfold popcli_state, pushcli_state, upd_eflags.
  rewrite land_FL_IF, E0. destruct (Z.testbit (eflags (cpu_regs s)) 9) eqn:Ee; simpl;
    destruct s as [? r ? c]; destruct c as [? ? ? ? nc ? ?], r as [e]; cbn [eflags cpu_regs cpu0 ncli] in *; subst;
    unfold equiv, machine_equiv, norm; cbn; [by rewrite cli_sti|by rewrite cli_idem].
Qed.
End Switch.
