(* ===== verification/Syscall.v ===== *)
(** * Syscall: system calls ([syscall.c], [syshello.c], [sysproc.c])

    A system call runs in the kernel with the page directory of the calling
    process loaded, and reads its arguments from the user stack through that
    directory.  The specification half shows that the bounds checks of the
    argument fetchers keep every such access inside of the memory of the
    process. *)

From S2P Require Import Prelude Machine Layout Cstring Spinlock Uart Screen Kalloc Idt Gdt Paging Proc.

(** syscall_defs, [SYSFAIL] (syscall.h) and the size of the table. *)
Definition SYS_hello : Z := 1.
Definition SYS_exit : Z := 2.
Definition SYSFAIL : Z := -1.
Definition NELEM_syscalls : Z := 3.

(** How kernel code on behalf of a process ends: it returns, or it has switched
    to the scheduler, with the interrupt flag [enter_scheduler] keeps. *)
Inductive ctl (A : Type) : Type :=
| Ret (a : A)
| Switched (intena : Z).
Arguments Ret {A} a.
Arguments Switched {A} intena.

(** [CDECL_ARG(p, n)]: the n-th word above the return address. *)
Definition CDECL_ARG (p n : Z) : Z := wrap32 (p + 4 * (1 + n)).

Section WithEnv.
Context `{env : Env}.

(** [fetchint] of the process in slot [i]; [None] is the answer -1, [Some v]
    the answer 0 with [*ip] set to [v]. *)
Definition fetchint (i : nat) (n : Z) : K (option Z) :=
  q ← gets (get_proc i);
  esp ← load32 (tf q + st_esp);
  let addr := CDECL_ARG esp n in
  if (sz q <=? addr) || (sz q <? addr +u 4) then mret None else
  v ← load32 addr;
  mret (Some (sext32 v)).

Definition sysarg_get_int (i : nat) (n : Z) : K (option Z) := fetchint i n.

Definition sysarg_get_ptr (i : nat) (n size : Z) : K (option Z) :=
  r ← fetchint i n;
  match r with
  | None => mret None
  | Some v =>
      q ← gets (get_proc i);
      if (size <? 0) || (sz q <=? wrap32 v) || (sz q <? wrap32 v +u size) then mret None else
      mret (Some (wrap32 v))
  end.

(** The loop of [fetchstr] from [s] up to [ep]. *)
Definition fetchstr_step (pp ep : Z) (s : Z) : K (Z + option Z) :=
  if negb (s <? ep) then mret (inr None) else
  c ← load8 s;
  if c =? 0 then mret (inr (Some (sext32 (s - pp)))) else
  mret (inl (s +u 1)).

(** [None] is the answer -1, [Some (len, p)] the answer [len] with [*pp] set to
    [p].  (On one of the paths to -1 [*pp] is set as well, which no caller
    looks at.) *)
Definition fetchstr (i : nat) (addr : Z) : K (option (Z * Z)) :=
  q ← gets (get_proc i);
  if sz q <=? addr then mret None else
  r ← loop 32 (fetchstr_step addr (sz q)) addr;
  mret ((fun len => (len, addr)) <$> r).

Definition sysarg_get_str (i : nat) (n : Z) : K (option (Z * Z)) :=
  r ← sysarg_get_int i n;
  match r with
  | None => mret None
  | Some addr => fetchstr i (wrap32 addr)
  end.

Definition sys_hello : K (ctl Z) :=
  p ← myproc;
  match p with
  | None => undef "proc->tf"
  | Some proc =>
      i ← sysarg_get_int proc 0;
      match i with
      | None => mret (Ret SYSFAIL)
      | Some i =>
          p ← sysarg_get_ptr proc 1 8;
          match p with
          | None => mret (Ret SYSFAIL)
          | Some p =>
              r ← sysarg_get_str proc 2;
              match r with
              | None => mret (Ret SYSFAIL)
              | Some (len, str) =>
                  if len <? 0 then mret (Ret SYSFAIL) else
                  _ ← cprintf (Some ("Hello world! i=%d p=0x%x len=%d str=%s" +:+ nl))
                        [AW i; AW p; AW len; AW str];
                  mret (Ret 0)
              end
          end
      end
  end.

(** [exit] switches to the scheduler; were it resumed, it would panic
    ([exit_resumed]). *)
Definition sys_exit : K (ctl Z) :=
  p ← myproc;
  match p with
  | None => undef "proc->tf"
  | Some proc =>
      n ← sysarg_get_int proc 0;
      match n with
      | None => mret (Ret SYSFAIL)
      | Some n =>
          intena ← exit n;
          mret (Switched intena)
      end
  end.

(** The table [syscalls]; [None] is a null entry. *)
Definition syscalls (num : Z) : option (K (ctl Z)) :=
  if num =? SYS_hello then Some sys_hello
  else if num =? SYS_exit then Some sys_exit
  else None.

Definition syscall_handler (state : Z) : K (ctl unit) :=
  p ← myproc;
  match p with
  | None => undef "myproc()->tf"
  | Some i =>
      _ ← modify (upd_proc i (set_tf state));
      num ← load32 (state + st_eax);
      match (if (0 <? num) && (num <? NELEM_syscalls) then syscalls num else None) with
      | Some f =>
          r ← f;
          match r with
          | Ret v => _ ← store32 (state + st_eax) v; mret (Ret tt)
          | Switched intena => mret (Switched intena)
          end
      | None =>
          _ ← warn ("Unknown sys call %d" +:+ nl) [AW num];
          _ ← store32 (state + st_eax) SYSFAIL;
          mret (Ret tt)
      end
  end.

End WithEnv.

(** ** User memory *)

(** The byte at user address [va], as the process sees it. *)
Definition ubyte (s : machine) (va : Z) : option Z :=
  (fun x => mload8 (mem s) (x.1.1 + KERNBASE)) <$> mmu_walk (mem s) (cr3 (cpu_regs s)) va.
Definition uword (s : machine) (va : Z) : option Z :=
  b0 ← ubyte s va; b1 ← ubyte s (va + 1); b2 ← ubyte s (va + 2); b3 ← ubyte s (va + 3);
  Some (b0 + 256 * b1 + 65536 * b2 + 16777216 * b3).

(** The address space of the process [q] is loaded: its directory is well
    formed, and its first [sz] bytes are mapped for user code, to memory outside
    of the video window. *)
Record user_space `{env : Env} (s : machine) (q : process) : Prop := {
  us_cr3 : cr3 (cpu_regs s) = V2P (pgdir q);
  us_wf : pgdir_wf (mem s) (pgdir q) [];
  us_sz : 0 <= sz q <= KERNBASE;
  us_mapped va : 0 <= va < sz q -> exists pa w,
    mmu_walk (mem s) (cr3 (cpu_regs s)) va = Some (pa, w, true) /\
    0 <= pa + KERNBASE < 4294967296 /\ ~ in_video (pa + KERNBASE);
}.

(** Pages lie above the video window, so that printing keeps directories. *)
Section Video.
Context `{env : Env} (m m' : gmap Z Z).
Hypothesis Hv : forall b, 0 <= b < 4294967296 -> ~ in_video b -> mload8 m' b = mload8 m b.

Lemma mload32_video p i : is_page p -> 0 <= i < 1024 -> mload32 m' (p + 4 * i) = mload32 m (p + 4 * i).
Proof.
  intros Hp Hi. unfold mload32. assert (vidmem = 0x800b8000) as Ev by reflexivity.
  by rewrite !Hv by (unfold in_video, is_page, PGSIZE, KERNBASE in *; lia).
Qed.

Lemma pgdir_wf_video pgdir l : pgdir_wf m pgdir l -> pgdir_wf m' pgdir l.
Proof.
  intros Hwf. eapply pgdir_wf_ext; [exact Hwf| |done]. intros i Hi. apply mload32_video; [apply Hwf|done].
Qed.

Lemma mmu_walk_video pgdir l va :
  pgdir_wf m pgdir l -> 0 <= va < 4294967296 -> mmu_walk m' (V2P pgdir) va = mmu_walk m (V2P pgdir) va.
Proof.
  intros Hwf Hva. rewrite (mmu_walk_pte m' _ l), (mmu_walk_pte m _ l) by (done || by apply pgdir_wf_video).
  replace (pte_at m' pgdir va) with (pte_at m pgdir va); [done|]. unfold pte_at.
  pose proof (PDX_range va) as Hd. pose proof (PTX_range va) as Hx.
  assert (pde_at m' pgdir (PDX va) = pde_at m pgdir (PDX va)) as -> by (apply mload32_video; [apply Hwf|done]).
  destruct (present _) eqn:Ep; [|done]. symmetry. apply mload32_video; [|done]. by apply (wf_table _ _ _ Hwf).
Qed.
End Video.

Section UserMemory.
Context `{env : Env} (s s' : machine) (q : process) (Hq : user_space s q).

Lemma user_space_walk va :
  same_memory s s' -> 0 <= va < 4294967296 ->
  mmu_walk (mem s') (cr3 (cpu_regs s')) va = mmu_walk (mem s) (cr3 (cpu_regs s)) va.
Proof. intros [E H] Hva. rewrite E, (us_cr3 _ _ Hq). apply (mmu_walk_video _ _ H _ []); [apply Hq|done]. Qed.

Lemma user_space_same : same_memory s s' -> user_space s' q.
Proof.
  intros Hs. pose proof Hs as [E H]. split; [by rewrite E, (us_cr3 _ _ Hq)| |apply Hq|].
  - apply (pgdir_wf_video (mem s)); [done|apply Hq].
  - intros va Hva. rewrite user_space_walk by (done || (pose proof (us_sz _ _ Hq); unfold KERNBASE in *; lia)).
    by apply (us_mapped _ _ Hq).
Qed.

Lemma ubyte_same va : same_memory s s' -> 0 <= va < sz q -> ubyte s' va = ubyte s va.
Proof.
  intros Hs Hva. unfold ubyte. rewrite user_space_walk by (done || (pose proof (us_sz _ _ Hq); unfold KERNBASE in *; lia)).
  destruct (us_mapped _ _ Hq va Hva) as (pa & w & -> & Hr & Hv). simpl. f_equal. by apply Hs.
Qed.

Lemma ubyte_mapped va : 0 <= va < sz q -> exists b, ubyte s va = Some b /\ 0 <= b < 256.
Proof.
  intros Hva. unfold ubyte. destruct (us_mapped _ _ Hq va Hva) as (pa & w & -> & _). simpl.
  eexists. split; [done|]. apply mload8_range.
Qed.

Lemma load8_user va b : 0 <= va < sz q -> ubyte s va = Some b -> load8 va s = (Ok b, s).
Proof.
  intros Hva. unfold ubyte, load8, xlate. pose proof (us_sz _ _ Hq).
  rewrite wrap32_small by (unfold KERNBASE in *; lia).
  destruct (Z.leb_spec KERNBASE va); [unfold KERNBASE in *; lia|].
  destruct (us_mapped _ _ Hq va Hva) as (pa & w & -> & _). simpl. by intros [= <-].
Qed.

Lemma load32_user va :
  0 <= va -> va + 4 <= sz q -> exists v, uword s va = Some v /\ load32 va s = (Ok v, s) /\ 0 <= v < 4294967296.
Proof.
  intros Ha Hb. unfold uword, load32.
  destruct (ubyte_mapped va) as (b0 & E0 & R0); [lia|]. destruct (ubyte_mapped (va + 1)) as (b1 & E1 & R1); [lia|].
  destruct (ubyte_mapped (va + 2)) as (b2 & E2 & R2); [lia|].
  destruct (ubyte_mapped (va + 3)) as (b3 & E3 & R3); [lia|].
  rewrite E0, E1, E2, E3. simpl. eexists. split; [done|]. split; [|lia].
  do 4 (erewrite bind_ok; [|apply load8_user; [lia|eassumption]]). done.
Qed.
End UserMemory.

(** ** Fetching arguments *)

(** What the fetchers look for: the n-th word above the return address on the
    user stack, if it lies in the memory of the process. *)
Definition arg_word (s : machine) (q : process) (n : Z) : option Z :=
  let addr := CDECL_ARG (mload32 (mem s) (tf q + st_esp)) n in
  if (sz q <=? addr) || (sz q <? addr + 4) then None else uword s addr.
(** ... as the address of a block of [size] bytes of the process. *)
Definition arg_ptr (s : machine) (q : process) (n size : Z) : option Z :=
  v ← arg_word s q n;
  if (sz q <=? v) || (sz q <? v + size) then None else Some v.
(** The length of the string at [a], if it ends within [n] bytes. *)
Fixpoint ustrlen (s : machine) (a : Z) (n : nat) : option nat :=
  match n with
  | O => None
  | S n' => b ← ubyte s a; if b =? 0 then Some 0%nat else S <$> ustrlen s (a + 1) n'
  end.
(** ... as the address of a string that ends inside of the process. *)
Definition arg_str (s : machine) (q : process) (n : Z) : option (Z * Z) :=
  v ← arg_word s q n;
  if sz q <=? v then None else
  (fun len => (Z.of_nat len, v)) <$> ustrlen s v (Z.to_nat (sz q - v)).

Lemma wrap32_sext32 v : 0 <= v < 4294967296 -> wrap32 (sext32 v) = v.
Proof. intros Hv. unfold sext32. rewrite (wrap32_small v) by lia. destruct (_ <? _) eqn:E; ulia. Qed.

Lemma ustrlen_bound s a n k : ustrlen s a n = Some k -> (k < n)%nat.
Proof.
  revert a k. induction n as [|n IH]; intros a k; simpl; [done|].
  destruct (ubyte s a) as [b|]; simpl; [|done]. destruct (b =? 0); [intros [= <-]; lia|].
  destruct (ustrlen s (a + 1) n) as [k'|] eqn:E; simpl; [|done]. intros [= <-]. specialize (IH _ _ E). lia.
Qed.

Section Fetch.
Context `{env : Env} (s : machine) (i : nat) (q : process).
Hypothesis Hi : get_proc i s = q.
Hypothesis Htf : kspace (tf q) 64.
Hypothesis Hq : user_space s q.

Lemma arg_word_range n v : arg_word s q n = Some v -> 0 <= v < 4294967296.
Proof.
  unfold arg_word. set (addr := CDECL_ARG _ n). assert (0 <= addr < 4294967296) as Ha by apply wrap32_range.
  destruct (Z.leb_spec (sz q) addr) as [|H1]; [done|]. destruct (Z.ltb_spec (sz q) (addr + 4)) as [|H2]; [done|].
  destruct (load32_user s q Hq addr) as (v' & E & _ & R); [lia|lia|]. simpl. rewrite E. by intros [= <-].
Qed.

Lemma fetchint_ok n : fetchint i n s = (Ok (sext32 <$> arg_word s q n), s).
Proof.
  unfold fetchint. mstep. rewrite Hi. erewrite bind_ok by (apply load32_kernel; unfold st_esp; kspace_tac).
  cbv zeta. unfold arg_word. set (addr := CDECL_ARG _ n).
  assert (0 <= addr < 4294967296) as Ha by apply wrap32_range. pose proof (us_sz _ _ Hq) as Hsz. unfold KERNBASE in Hsz.
  destruct (Z.leb_spec (sz q) addr) as [|H1]; [done|]. rewrite wrap32_small by lia.
  destruct (Z.ltb_spec (sz q) (addr + 4)) as [|H2]; [done|]. simpl.
  destruct (load32_user s q Hq addr) as (v & E & L & _); [lia|lia|]. rewrite (bind_ok _ _ _ _ _ L), E. done.
Qed.

(** The block check is right unless the sum of address and size overflows. *)
Lemma sysarg_get_ptr_all n size :
  0 <= size < 4294967296 ->
  sysarg_get_ptr i n size s = (Ok (v ← arg_word s q n;
    if v + size <? 4294967296 then arg_ptr s q n size else if v <? sz q then Some v else None), s).
Proof.
  intros Hs. unfold sysarg_get_ptr, arg_ptr. rewrite (bind_ok _ _ _ _ _ (fetchint_ok n)).
  destruct (arg_word s q n) as [v|] eqn:E; simpl; [|done]. apply arg_word_range in E. mstep. rewrite Hi.
  rewrite (wrap32_sext32 v) by done. pose proof (us_sz _ _ Hq) as Hsz. unfold KERNBASE in *.
  destruct (Z.ltb_spec size 0); [lia|]. destruct (Z.ltb_spec (v + size) 4294967296) as [Hlt|Hge].
  - rewrite wrap32_small by lia. by destruct (_ || _).
  - destruct (Z.leb_spec (sz q) v), (Z.ltb_spec v (sz q)); try lia; [done|].
    destruct (Z.ltb_spec (sz q) (v +u size)) as [Hb|Hb]; [|done]. exfalso. revert Hb. ulia.
Qed.
Lemma sysarg_get_ptr_ok n size :
  0 <= size <= KERNBASE -> sysarg_get_ptr i n size s = (Ok (arg_ptr s q n size), s).
Proof.
  intros Hs. rewrite sysarg_get_ptr_all by (unfold KERNBASE in *; lia). do 2 f_equal. unfold arg_ptr.
  destruct (arg_word s q n) as [v|] eqn:E; simpl; [|done]. apply arg_word_range in E.
  pose proof (us_sz _ _ Hq) as Hsz. unfold KERNBASE in *. destruct (Z.ltb_spec (v + size) 4294967296); [done|].
  destruct (Z.leb_spec (sz q) v), (Z.ltb_spec v (sz q)); try lia; done.
Qed.

Lemma fetchstr_ok a :
  0 <= a -> fetchstr i a s = (Ok (if sz q <=? a then None else
    (fun len => (Z.of_nat len, a)) <$> ustrlen s a (Z.to_nat (sz q - a))), s).
Proof.
  intros Ha. unfold fetchstr. mstep. rewrite Hi. destruct (Z.leb_spec (sz q) a) as [|Hlt]; [done|].
  pose proof (us_sz _ _ Hq) as Hsz. unfold KERNBASE in Hsz. set (res := ustrlen s a _).
  set (I := fun (n : nat) (x : Z) (st : machine) => st = s /\ a <= x <= sz q /\ n = Z.to_nat (sz q - x) /\
    Z.of_nat <$> res = (fun k => x - a + Z.of_nat k) <$> ustrlen s x n).
  set (Q := fun (r : result (option Z)) (st : machine) => r = Ok (Z.of_nat <$> res) /\ st = s).
  destruct (loop_inv_Z (fetchstr_step a (sz q)) I Q 32 (Z.to_nat (sz q - a)) a s) as [H1 H2].
  - intros n x st (-> & Hx & -> & Hres). unfold fetchstr_step. destruct (Z.ltb_spec x (sz q)) as [Hlt'|Hge]; simpl.
    + destruct (ubyte_mapped s q Hq x) as (b & Eb & _); [lia|].
      rewrite (bind_ok _ _ _ _ _ (load8_user s q Hq x b ltac:(lia) Eb)).
      replace (Z.to_nat (sz q - x)) with (S (Z.to_nat (sz q - (x + 1)))) in * by lia. simpl in Hres. rewrite Eb in Hres.
      simpl in Hres. destruct (b =? 0).
      * split; [|done]. rewrite Hres. simpl. unfold sext32. rewrite wrap32_small by lia.
        destruct (Z.ltb_spec (x - a) 2147483648); [|lia]. do 2 f_equal. lia.
      * exists (Z.to_nat (sz q - (x + 1))). split; [lia|]. rewrite wrap32_small by lia. split; [done|]. split; [lia|]. split; [done|].
        rewrite Hres. destruct (ustrlen s (x + 1) _); simpl; [|done]. f_equal. lia.
    + split; [|done]. rewrite Hres. by replace (Z.to_nat (sz q - x)) with 0%nat by lia.
  - split; [done|]. split; [lia|]. split; [done|]. fold res. destruct res; simpl; [|done]. f_equal. lia.
  - change (2 ^ Z.of_nat 32) with 4294967296. lia.
  - rewrite (bind_ok _ _ _ (Z.of_nat <$> res) s); [by destruct res|].
    rewrite (surjective_pairing (loop _ _ _ _)). by rewrite H1, H2.
Qed.

Lemma sysarg_get_str_ok n : sysarg_get_str i n s = (Ok (arg_str s q n), s).
Proof.
  unfold sysarg_get_str, sysarg_get_int, arg_str. rewrite (bind_ok _ _ _ _ _ (fetchint_ok n)).
  destruct (arg_word s q n) as [v|] eqn:E; simpl; [|done]. apply arg_word_range in E.
  rewrite wrap32_sext32 by done. by rewrite fetchstr_ok by lia.
Qed.
End Fetch.

(** ** Strings of the process *)

(** The bytes of the string at [a] are [l]. *)
Fixpoint ustring (s : machine) (a : Z) (l : list Z) : Prop :=
  match l with
  | [] => ubyte s a = Some 0
  | b :: l' => ubyte s a = Some b /\ 0 < b < 256 /\ ustring s (a + 1) l'
  end.

Lemma ubyte_range s a b : ubyte s a = Some b -> 0 <= b < 256.
Proof. unfold ubyte. destruct (mmu_walk _ _ _); simpl; [intros [= <-]; apply mload8_range|done]. Qed.
Lemma ustrlen_string s a n k : ustrlen s a n = Some k -> exists l, length l = k /\ ustring s a l.
Proof.
  revert a k. induction n as [|n IH]; intros a k; simpl; [done|].
  destruct (ubyte s a) as [b|] eqn:Eb; simpl; [|done]. destruct (Z.eqb_spec b 0) as [->|Hb].
  - intros [= <-]. by exists [].
  - destruct (ustrlen s (a + 1) n) as [k'|] eqn:E; simpl; [|done]. intros [= <-].
    destruct (IH _ _ E) as (l & <- & Hl). exists (b :: l). apply ubyte_range in Eb as Hr. simpl. split_and!; auto; lia.
Qed.
Lemma ustring_bytes s a l : ustring s a l -> Forall (fun c => 0 <= c < 256) l.
Proof. revert a. induction l as [|b l IH]; intros a; simpl; [done|]. intros (_ & Hb & H). constructor; [lia|eauto]. Qed.
Lemma ustring_same `{env : Env} s s' q a l :
  user_space s q -> same_memory s s' -> 0 <= a -> a + Z.of_nat (length l) < sz q -> ustring s a l -> ustring s' a l.
Proof.
  intros Hq Hs. revert a. induction l as [|b l IH]; intros a Ha Hb; simpl in Hb |- *.
  - by rewrite (ubyte_same s s' q Hq) by (done || lia).
  - rewrite (ubyte_same s s' q Hq) by (done || lia). intros (? & ? & ?). split_and!; [done|lia|lia|]. apply IH; [lia..|done].
Qed.

Lemma ustring_split s a l1 l2 :
  ustring s a (l1 ++ l2) -> ustring s (a + Z.of_nat (length l1)) l2.
Proof.
  revert a. induction l1 as [|b l1 IH]; intros a; simpl; [by rewrite Z.add_0_r|].
  intros (_ & _ & H). apply IH in H. by replace (a + Z.of_nat (S (length l1))) with (a + 1 + Z.of_nat (length l1)) by lia.
Qed.

Section Print.
Context `{env : Env}.

(** The loop of the [%s] conversion over a string of the process. *)
Lemma put_mem_string_user s q a l :
  user_space s q -> ustring s a l -> 0 <= a -> a + Z.of_nat (length l) < sz q ->
  put_mem_string a s = put_all (map sext8 l) s.
Proof.
  intros Hq Hl Ha Hlen. pose proof (us_sz _ _ Hq) as Hsz. unfold KERNBASE in Hsz. unfold put_mem_string.
  set (I := fun (n : nat) (p : Z) (st : machine) => exists l1 l2, l = l1 ++ l2 /\ n = length l2 /\
    p = a + Z.of_nat (length l1) /\ put_all (map sext8 l1) s = (Ok tt, st)).
  set (Q := fun (r : result unit) (st : machine) => put_all (map sext8 l) s = (r, st)).
  rewrite (surjective_pairing (loop _ _ _ _)). symmetry. change (Q (loop 32 (fun p =>
    c ← load8 p; if c =? 0 then mret (inr tt) else _ ← consputc (sext8 c); mret (inl (p +u 1))) a s).1
    (loop 32 (fun p => c ← load8 p; if c =? 0 then mret (inr tt) else
     _ ← consputc (sext8 c); mret (inl (p +u 1))) a s).2).
  apply (loop_inv_Z _ I Q 32 (length l)).
  - intros n p st (l1 & l2 & -> & -> & -> & E).
    destruct (put_all_runs (map sext8 l1) s) as ([] & st' & E' & F). rewrite E in E'. injection E' as <-.
    pose proof (con_frame_memory _ _ F) as Hs. pose proof (user_space_same s st q Hq Hs) as Hq'.
    pose proof (ustring_same _ _ _ _ _ Hq Hs Ha Hlen Hl) as Hl'. apply ustring_split in Hl'.
    rewrite length_app in Hlen. destruct l2 as [|b l2]; simpl in Hl'.
    + erewrite bind_ok by (apply (load8_user st q Hq'); [simpl in Hlen; lia|exact Hl']). simpl.
      unfold Q. by rewrite app_nil_r.
    + destruct Hl' as (Hb & Hr & _). erewrite bind_ok by (apply (load8_user st q Hq'); [simpl in Hlen; lia|exact Hb]).
      destruct (Z.eqb_spec b 0); [lia|]. destruct (consputc_runs (sext8 b) st) as ([] & s2 & E2 & _).
      rewrite (bind_ok _ _ _ _ _ E2). exists (length l2). split; [simpl; lia|]. exists (l1 ++ [b]), l2.
      split; [by rewrite <- app_assoc|]. split; [done|]. rewrite length_app. simpl. simpl in Hlen.
      split; [rewrite wrap32_small; lia|]. rewrite map_app, put_all_app, (bind_ok _ _ _ _ _ E). simpl.
      by rewrite (bind_ok _ _ _ _ _ E2).
  - exists [], l. split_and!; [done|done|simpl; lia|done].
  - change (2 ^ Z.of_nat 32) with 4294967296. lia.
Qed.

(** A string argument in the memory of the process prints like the constant
    with the same bytes; at address 0, like any null pointer, as "(null)". *)
Lemma arg_str_denotes s q n len a :
  user_space s q -> arg_str s q n = Some (len, a) ->
  0 <= len < 2147483648 /\ exists a', arg_denotes s (AW a) a' /\
    match a' with AW p => p = 0 | AS _ => True end.
Proof.
  intros Hq. unfold arg_str. destruct (arg_word s q n) as [v|] eqn:Ev; simpl; [|done].
  destruct (Z.leb_spec (sz q) v) as [|Hlt]; [done|]. destruct (ustrlen _ _ _) as [k|] eqn:E; simpl; [|done].
  intros [= <- <-]. pose proof (ustrlen_bound _ _ _ _ E) as Hk. pose proof (us_sz _ _ Hq) as Hsz. unfold KERNBASE in Hsz.
  apply (arg_word_range s q Hq) in Ev. split; [lia|]. destruct (Z.eqb_spec v 0) as [->|Hv].
  - exists (AW 0). split; [by left|done].
  - apply ustrlen_string in E as (l & Hl & Hu). exists (AS (string_of l)). split; [|done]. right.
    exists v, (string_of l). split_and!; [done..|]. intros s' Hs. rewrite bytes_of_string_of by by eapply ustring_bytes.
    apply (put_mem_string_user s' q); [by eapply user_space_same|eapply ustring_same; try done|lia..]; lia.
Qed.
End Print.

(** ** The two system calls *)

Lemma equiv_quiet s s' : s' ≡ s -> quiet s s'.
Proof.
  intros E. split; [exact (f_equal (fun x => set_io [] (set_mem ∅ x)) E)|].
  intros b _ _. by rewrite (equiv_mem _ _ E).
Qed.
Lemma quiet_memory s s' : quiet s s' -> same_memory s s'.
Proof. intros Q. split; [by rewrite (quiet_regs _ _ Q)|apply Q]. Qed.
Lemma quiet_get_proc s s' i : quiet s s' -> get_proc i s' = get_proc i s.
Proof. intros Q. unfold get_proc. by rewrite (quiet_proc _ _ Q). Qed.
Lemma equiv_cpu_proc s s' : s' ≡ s -> cpu_proc (cpu0 s') = cpu_proc (cpu0 s).
Proof.
  intros E. pose proof (f_equal (fun s => cpu_proc (cpu0 s)) E) as H. simpl in H. unfold norm_cpu in H.
  by destruct (ncli (cpu0 s) =? 0), (ncli (cpu0 s') =? 0).
Qed.
Lemma quiet_cpu_proc s s' : quiet s s' -> cpu_proc (cpu0 s') = cpu_proc (cpu0 s).
Proof. intros [E _]. exact (equiv_cpu_proc _ _ E). Qed.
Lemma quiet_ncli s s' : quiet s s' -> ncli (cpu0 s') = ncli (cpu0 s).
Proof. intros [E _]. exact (equiv_ncli _ _ E). Qed.
Lemma quiet_ready s s' : quiet s s' -> kernel_ready s -> kernel_ready s'.
Proof. intros Q. apply kframe_ready. by apply quiet_kframe. Qed.

(** What [sys_hello] answers: 0 if the three arguments are in the process. *)
Definition hello_result (s : machine) (q : process) : Z :=
  match arg_word s q 0, arg_ptr s q 1 8, arg_str s q 2 with
  | Some _, Some _, Some _ => 0
  | _, _, _ => SYSFAIL
  end.

(** The arguments depend only on RAM and on the loaded address space. *)
Section Ext.
Context (s s' : machine) (Em : mem s' = mem s) (Ec : cr3 (cpu_regs s') = cr3 (cpu_regs s)).

Lemma ubyte_ext a : ubyte s' a = ubyte s a.
Proof. unfold ubyte. by rewrite Em, Ec. Qed.
Lemma ustrlen_ext n a : ustrlen s' a n = ustrlen s a n.
Proof.
  revert a. induction n as [|n IH]; intros a; simpl; [done|]. rewrite ubyte_ext.
  destruct (ubyte s a); simpl; [|done]. by rewrite IH.
Qed.
Lemma arg_word_ext q n : arg_word s' q n = arg_word s q n.
Proof. unfold arg_word, uword. by rewrite Em, !ubyte_ext. Qed.
Lemma hello_result_ext q : hello_result s' q = hello_result s q.
Proof.
  unfold hello_result, arg_ptr, arg_str. rewrite !arg_word_ext.
  destruct (arg_word s q 2); simpl; [|done]. by rewrite ustrlen_ext.
Qed.
End Ext.

Lemma hello_renders i p len a :
  match a with AW p => p = 0 | AS _ => True end ->
  exists l, render (bytes_of ("Hello world! i=%d p=0x%x len=%d str=%s" +:+ nl)) [AW i; AW p; AW len; a] = Some l.
Proof.
  intros Ha. apply fits_render. destruct a as [p'|str]; [subst|]; reflexivity.
Qed.

Section Calls.
Context `{env : Env} (s : machine) (i : nat) (q : process).
Hypothesis Hr : kernel_ready s.
Hypothesis Hc : cpu_proc (cpu0 s) = Some i.
Hypothesis Hi : get_proc i s = q.
Hypothesis Htf : kspace (tf q) 64.
Hypothesis Hq : user_space s q.

Lemma myproc_quiet : exists s1, myproc s = (Ok (Some i), s1) /\ s1 ≡ s.
Proof.
  destruct Hr as ([Hn HI] & _). eexists. split; [rewrite myproc_ok, Hc by done; reflexivity|].
  by apply pop_push_equiv.
Qed.

Lemma sys_hello_ok : exists s', sys_hello s = (Ok (Ret (hello_result s q)), s') /\ quiet s s'.
Proof.
  destruct myproc_quiet as (s1 & E1 & H1). unfold sys_hello. rewrite (bind_ok _ _ _ _ _ E1).
  pose proof (equiv_quiet _ _ H1) as Q1. pose proof (user_space_same s s1 q Hq (quiet_memory _ _ Q1)) as Hq1.
  assert (get_proc i s1 = q) as Hi1 by by rewrite (quiet_get_proc s).
  rewrite <- (hello_result_ext s s1 (equiv_mem _ _ H1) (f_equal cr3 (equiv_regs _ _ H1)) q).
  unfold sysarg_get_int, hello_result. rewrite (bind_ok _ _ _ _ _ (fetchint_ok s1 i q Hi1 Htf Hq1 0)).
  destruct (arg_word s1 q 0) as [w|]; simpl; [|by exists s1].
  rewrite (bind_ok _ _ _ _ _ (sysarg_get_ptr_ok s1 i q Hi1 Htf Hq1 1 8 ltac:(unfold KERNBASE; lia))).
  destruct (arg_ptr s1 q 1 8) as [p|]; [|by exists s1].
  rewrite (bind_ok _ _ _ _ _ (sysarg_get_str_ok s1 i q Hi1 Htf Hq1 2)).
  destruct (arg_str s1 q 2) as [[len str]|] eqn:Ea; [|by exists s1].
  destruct (arg_str_denotes s1 q 2 len str Hq1 Ea) as (Hlen & a' & Hd & Ha').
  destruct (Z.ltb_spec len 0); [lia|].
  destruct (hello_renders (sext32 w) p len a' Ha') as [l Hl].
  assert (Forall2 (arg_denotes s1) [AW (sext32 w); AW p; AW len; AW str] [AW (sext32 w); AW p; AW len; a']) as Hall
    by (do 3 (constructor; [by left|]); by constructor).
  destruct (cprintf_denotes _ _ _ l s1 (quiet_cons_ready _ _ Q1 (proj2 (proj2 Hr))) Hall Hl) as (s2 & E2 & Q2).
  rewrite (bind_ok _ _ _ _ _ E2). exists s2. split; [done|]. by etrans.
Qed.
End Calls.

(** The table after a process in slot [i] has called [exit]. *)
Definition exited (status sp : Z) (q : process) : process :=
  set_p_context sp (set_p_state ZOMBIE (set_xstate status q)).

Section Exit.
Context `{env : Env}.

(** [enter_scheduler] with only the table's lock held, as it must be called. *)
Lemma enter_scheduler_ok st i :
  kernel_ready st -> ncli (cpu0 st) = 0 -> forall f,
  let s := upd_proc i f (acquired PTABLE_LOCK st) in
  cpu_proc (cpu0 st) = Some i -> p_state (get_proc i s) <> RUNNING ->
  enter_scheduler s = (Ok (eflags (cpu_regs st) & FL_IF), upd_proc i (set_p_context (swtch_esp s)) s).
Proof.
  intros Hr Hn f s Hc Hs. unfold enter_scheduler.
  assert (IF s = false) as HI by apply IF_pushcli.
  assert (ncli (cpu0 s) = 1) as Hn1 by (subst s; simpl; rewrite Hn; done).
  assert (cpu_proc (cpu0 s) = Some i) as Hc1 by (subst s; simpl; destruct (ncli (cpu0 st) =? 0); done).
  assert (intena (cpu0 s) = eflags (cpu_regs st) & FL_IF) as Hin by (subst s; simpl; rewrite Hn; done).
  assert (forall x, mycpu s = (Ok x, s) -> x = 0%nat) as _ by (intros x; rewrite mycpu_ok by done; congruence).
  erewrite bind_ok by (apply holding_nested; [done|lia]). cbn [negb].
  assert (holdsb PTABLE_LOCK s = true) as -> by reflexivity. cbn [negb].
  erewrite bind_ok by by apply mycpu_ok. rewrite bind_gets, Hn1. cbn [Z.eqb Pos.eqb negb].
  erewrite bind_ok by (apply myproc_ok; lia). rewrite pop_push_nested, Hc1 by (done || lia).
  rewrite bind_gets, decide_False by done. unfold readeflags. rewrite bind_gets, land_FL_IF_eqb.
  unfold IF in HI. rewrite HI. cbn [negb].
  erewrite bind_ok by by apply mycpu_ok. rewrite bind_gets.
  erewrite bind_ok by by apply mycpu_ok. mstep. by rewrite Hin.
Qed.

(** [exit] marks the process as a zombie and switches away, holding exactly the
    table's lock with interrupts off. *)
Lemma exit_ok s i status :
  kernel_ready s -> ncli (cpu0 s) = 0 -> cpu_proc (cpu0 s) = Some i ->
  exists st sp, quiet s st /\
    exit status s = (Ok (eflags (cpu_regs s) & FL_IF),
      upd_proc i (exited status sp) (acquired PTABLE_LOCK st)).
Proof.
  intros Hr Hn Hc. destruct (myproc_quiet s i Hr Hc) as (s1 & E1 & H1).
  unfold exit. rewrite (bind_ok _ _ _ _ _ E1). mstep. pose proof (equiv_quiet _ _ H1) as Q1.
  assert (exists st, (when (bool_decide (Some i = initproc (ptable s1))) (warn "init exiting" [])) s1
    = (Ok tt, st) /\ quiet s1 st) as (st & E2 & Q2).
  { case_bool_decide; simpl; [|by exists s1].
    apply cprintf_fits; [by apply (quiet_cons_ready s); [|apply Hr]|reflexivity]. }
  rewrite (bind_ok _ _ _ _ _ E2). assert (quiet s st) as Q by by etrans.
  pose proof (quiet_ready _ _ Q Hr) as Hr'. rewrite (bind_ok _ _ _ _ _ (ptable_enter st Hr')). mstep.
  set (f := fun q => set_p_state ZOMBIE (set_xstate status q)).
  assert (upd_proc i (set_p_state ZOMBIE) (upd_proc i (set_xstate status) (acquired PTABLE_LOCK st))
    = upd_proc i f (acquired PTABLE_LOCK st)) as -> by (unfold upd_proc, upd_ptable; cbn; by rewrite list_alter_alter_eq).
  assert (p_state (get_proc i (upd_proc i f (acquired PTABLE_LOCK st))) <> RUNNING) as Hs.
  { unfold get_proc, upd_proc. cbn. rewrite list_lookup_alter_eq. by destruct (proc (ptable st) !! i). }
  rewrite (enter_scheduler_ok st i Hr') by (done || by rewrite ?(quiet_ncli s), ?(quiet_cpu_proc s)).
  exists st, (swtch_esp (upd_proc i f (acquired PTABLE_LOCK st))). split; [done|].
  rewrite (quiet_regs _ _ Q). f_equal. unfold upd_proc, upd_ptable. cbn. by rewrite list_alter_alter_eq.
Qed.

Lemma sys_exit_ok s i q :
  kernel_ready s -> ncli (cpu0 s) = 0 -> cpu_proc (cpu0 s) = Some i ->
  get_proc i s = q -> kspace (tf q) 64 -> user_space s q ->
  match arg_word s q 0 with
  | None => exists s', sys_exit s = (Ok (Ret SYSFAIL), s') /\ quiet s s'
  | Some v => exists st sp, quiet s st /\
      sys_exit s = (Ok (Switched (eflags (cpu_regs s) & FL_IF)),
        upd_proc i (exited (sext32 v) sp) (acquired PTABLE_LOCK st))
  end.
Proof.
  intros Hr Hn Hc Hi Htf Hq. destruct (myproc_quiet s i Hr Hc) as (s1 & E1 & H1).
  unfold sys_exit. rewrite (bind_ok _ _ _ _ _ E1). pose proof (equiv_quiet _ _ H1) as Q1.
  pose proof (user_space_same s s1 q Hq (quiet_memory _ _ Q1)) as Hq1.
  assert (get_proc i s1 = q) as Hi1 by by rewrite (quiet_get_proc s).
  unfold sysarg_get_int. rewrite (bind_ok _ _ _ _ _ (fetchint_ok s1 i q Hi1 Htf Hq1 0)).
  rewrite (arg_word_ext s s1 (equiv_mem _ _ H1) (f_equal cr3 (equiv_regs _ _ H1))).
  destruct (arg_word s q 0) as [v|]; simpl; [|by exists s1].
  destruct (exit_ok s1 i (sext32 v)) as (st & sp & Q & E);
    [by apply (quiet_ready s)|by rewrite (quiet_ncli s)|by rewrite (quiet_cpu_proc s)|].
  exists st, sp. split; [by etrans|]. rewrite (bind_ok _ _ _ _ _ E), (quiet_regs _ _ Q1). done.
Qed.
End Exit.

(** ** The handler *)

Lemma upd_proc_equiv i f s s' : s' ≡ s -> upd_proc i f s' ≡ upd_proc i f s.
Proof. intros E. exact (f_equal (upd_proc i f) E). Qed.

Lemma user_space_tf `{env : Env} s q state : user_space s q -> user_space s (set_tf state q).
Proof. intros [H1 H2 H3 H4]. split; [exact H1|exact H2|exact H3|exact H4]. Qed.

Section Handler.
Context `{env : Env}.

(** The end of the handler for a call that returned [v]. *)
Lemma store_result state v st :
  kspace state 64 -> (_ ← store32 (state + st_eax) v; mret (Ret tt)) st
    = (Ok (Ret tt), set_mem (mstore32 (mem st) (state + st_eax) v) st).
Proof. intros Hk. by erewrite bind_ok by (apply store32_kernel; unfold st_eax; kspace_tac). Qed.

Lemma syscall_handler_ok s i q state :
  kernel_ready s -> ncli (cpu0 s) = 0 -> cpu_proc (cpu0 s) = Some i -> proc (ptable s) !! i = Some q ->
  kspace state 64 -> user_space s q ->
  let q' := set_tf state q in
  let num := mload32 (mem s) (state + st_eax) in
  match (if num =? SYS_exit then arg_word s q' 0 else None) with
  | Some v => exists st sp, quiet (upd_proc i (set_tf state) s) st /\
      syscall_handler state s = (Ok (Switched (eflags (cpu_regs s) & FL_IF)),
        upd_proc i (exited (sext32 v) sp) (acquired PTABLE_LOCK st))
  | None => exists st, quiet (upd_proc i (set_tf state) s) st /\
      syscall_handler state s = (Ok (Ret tt), set_mem (mstore32 (mem st) (state + st_eax)
        (if num =? SYS_hello then hello_result s q' else SYSFAIL)) st)
  end.
Proof.
  intros Hr Hn Hc Hi Hk Hq q' num. destruct (myproc_quiet s i Hr Hc) as (s1 & E1 & H1).
  unfold syscall_handler. rewrite (bind_ok _ _ _ _ _ E1). mstep.
  set (s0 := upd_proc i (set_tf state) s). set (s2 := upd_proc i (set_tf state) s1).
  assert (s2 ≡ s0) as H2 by by apply upd_proc_equiv.
  erewrite bind_ok by (apply load32_kernel; unfold st_eax; kspace_tac).
  assert (mem s2 = mem s) as Em by exact (equiv_mem _ _ H1).
  assert (cpu_regs s2 = cpu_regs s) as Er by exact (equiv_regs _ _ H1).
  rewrite Em. fold num. pose proof (mload32_range (mem s) (state + st_eax)) as Hnum. fold num in Hnum.
  assert (get_proc i s2 = q') as Hi2.
  { unfold get_proc, s2, upd_proc. cbn. by rewrite list_lookup_alter_eq, (equiv_proc _ _ H1), Hi. }
  assert (quiet s0 s2) as Q2 by by apply equiv_quiet.
  assert (kernel_ready s2) as Hr2 by (apply (kframe_ready s); [|done];
    etrans; [apply (upd_proc_kframe i (set_tf state))|by apply equiv_kframe]).
  assert (cpu_proc (cpu0 s2) = Some i) as Hc2 by (rewrite <- Hc; exact (equiv_cpu_proc _ _ H1)).
  assert (ncli (cpu0 s2) = 0) as Hn2 by (rewrite <- Hn; exact (equiv_ncli _ _ H1)).
  assert (user_space s2 q') as Hq2.
  { apply user_space_tf, (user_space_same s); [done|]. split; [by rewrite Er|]. intros b _ _. by rewrite Em. }
  unfold syscalls, NELEM_syscalls, SYS_hello, SYS_exit.
  destruct (Z.eqb_spec num 2) as [E2|Hne2]; [|destruct (Z.eqb_spec num 1) as [E'|Hne1]].
  - rewrite E2. cbn [Z.ltb Z.compare Pos.compare Pos.compare_cont andb Z.eqb Pos.eqb].
    pose proof (sys_exit_ok s2 i q' Hr2 Hn2 Hc2 Hi2 Hk Hq2) as H.
    rewrite (arg_word_ext s s2 Em (f_equal cr3 Er)) in H. destruct (arg_word s q' 0) as [v|].
    + destruct H as (st & sp & Q & E). exists st, sp. split; [by etrans|]. rewrite (bind_ok _ _ _ _ _ E), Er. done.
    + destruct H as (st & E & Q). exists st. split; [by etrans|]. rewrite (bind_ok _ _ _ _ _ E). by apply store_result.
  - rewrite E'. cbn [Z.ltb Z.compare Pos.compare Pos.compare_cont andb Z.eqb Pos.eqb].
    destruct (sys_hello_ok s2 i q' Hr2 Hc2 Hi2 Hk Hq2) as (st & E & Q). exists st. split; [by etrans|].
    rewrite (bind_ok _ _ _ _ _ E), (hello_result_ext s s2 Em (f_equal cr3 Er)). by apply store_result.
  - assert ((if (0 <? num) && (num <? 3) then @None (K (ctl Z)) else None) = None) as -> by by destruct (_ && _).
    destruct (cprintf_fits ("WARN: " +:+ ("Unknown sys call %d" +:+ nl) +:+ nl) [AW num] s2 (proj2 (proj2 Hr2)) eq_refl)
      as (st & E & Q). exists st. split; [by etrans|]. unfold warn. rewrite (bind_ok _ _ _ _ _ E). by apply store_result.
Qed.

End Handler.

Section Args.
Context `{env : Env}.

(** C14: the argument fetchers never fault and leave the machine as it is, for
    every slot and every block size.  They answer exactly the word at the n-th
    argument slot when its four bytes lie in the process and -1 otherwise; a
    string only when it starts in the process and its first NUL lies there too,
    with its length.  A pointer is answered exactly when its whole block lies in
    the process, provided that address plus size does not overflow 32 bits; when
    it does, every address in the process is answered, although the block does
    not lie there. *)
Theorem sysargs_checked s i q n size :
  get_proc i s = q -> kspace (tf q) 64 -> user_space s q -> 0 <= size < 4294967296 ->
  sysarg_get_int i n s = (Ok (sext32 <$> arg_word s q n), s) /\
  sysarg_get_str i n s = (Ok (arg_str s q n), s) /\
  (forall len a, arg_str s q n = Some (len, a) -> 0 <= len /\ a + len < sz q /\
     exists l, len = Z.of_nat (length l) /\ ustring s a l) /\
  sysarg_get_ptr i n size s = (Ok (v ← arg_word s q n;
    if v + size <? 4294967296 then arg_ptr s q n size else if v <? sz q then Some v else None), s) /\
  (forall p, arg_ptr s q n size = Some p <-> arg_word s q n = Some p /\ p < sz q /\ p + size <= sz q) /\
  (forall v, 4294967296 <= v + size -> v < sz q -> ~ v + size <= sz q).
Proof.
  intros Hi Htf Hq Hs. split; [by apply fetchint_ok|]. split; [by apply sysarg_get_str_ok|].
  split; [|split; [by apply sysarg_get_ptr_all|split]].
  - intros len a. unfold arg_str. destruct (arg_word s q n) as [v|] eqn:Ev; simpl; [|done].
    apply (arg_word_range s q Hq) in Ev. destruct (Z.leb_spec (sz q) v); [done|].
    destruct (ustrlen _ _ _) as [k|] eqn:E; simpl; [|done]. intros [= <- <-].
    pose proof (ustrlen_bound _ _ _ _ E). apply ustrlen_string in E as (l & Hl & Hu).
    split; [lia|]. split; [lia|]. exists l. split; [lia|done].
  - intros p. unfold arg_ptr. destruct (arg_word s q n) as [v|]; simpl; [|by split; [|intros [[=] _]]].
    destruct (Z.leb_spec (sz q) v), (Z.ltb_spec (sz q) (v + size)); simpl;
      (split; [intros [= ->] || done|intros ([= ->] & ? & ?)]); (done || lia).
  - intros v H1 H2. pose proof (us_sz _ _ Hq) as Hsz. unfold KERNBASE in Hsz. lia.
Qed.
End Args.

(** *** Witnesses *)

(** A process with one page of memory at 2 MB + 8 KB, its directory and page
    table just below, its kernel stack just above, in the middle of a call of
    [hello(42, 0x10, 0x20)]. *)
Definition demo_user_ram : gmap Z Z :=
  let st := 0x80203000 + 4032 in
  let words := [(0x80200000, 0x201007); (0x80201000, 0x202007); (st + st_eax, 1); (st + st_esp, 0x100);
    (0x80202104, 42); (0x80202108, 0x10); (0x8020210c, 0x20); (0x80202020, 0x00216968)] in
  foldr (fun w m => mstore32 m w.1 w.2) ∅ words.
Definition demo_user_process : process :=
  mkProcess (replicate 16 0) 1 0 RUNNING 0 0x80200000 0x80203000 4096 (0x80203000 + 4032).
Definition demo_user : machine :=
  set_mem demo_user_ram (set_ptable (mkPtable zero_lock (demo_user_process :: replicate 63 zero_process) (Some 0%nat) 2)
    (set_cpu0 (set_cpu_proc (Some 0%nat) zero_cpu)
      (set_cpu_regs (mkRegs (2 .| FL_IF) 0 0x200000 40 (0, 0) (0, 0)) demo_machine))).

Lemma demo_user_pdes i : 0 <= i < 1024 -> pde_at demo_user_ram 0x80200000 i = if i =? 0 then 0x201007 else 0.
Proof.
  intros Hi. assert (forallb (fun k => pde_at demo_user_ram 0x80200000 (Z.of_nat k)
    =? if Z.of_nat k =? 0 then 0x201007 else 0) (seq 0 1024) = true) as H by (vm_compute; reflexivity).
  rewrite forallb_forall in H. specialize (H (Z.to_nat i) ltac:(apply in_seq; lia)).
  rewrite Z2Nat.id in H by lia. by apply Z.eqb_eq.
Qed.
Lemma demo_low_page `{env : Env} x : x mod 4096 = 0 -> 0x80100000 < x <= 0x803ff000 -> is_page x.
Proof. pose proof ram_end_range. unfold is_page, PGSIZE, KERNBASE. lia. Qed.
Lemma demo_user_wf `{env : Env} : pgdir_wf demo_user_ram 0x80200000 [].
Proof.
  split; [by apply demo_low_page|by apply not_elem_of_nil|..].
  - intros i Hi. rewrite demo_user_pdes by done. destruct (Z.eqb_spec i 0); [|done]. intros _.
    split; [by apply demo_low_page|]. split; [done|]. split; [apply not_elem_of_nil|done].
  - intros i j Hi Hj. rewrite !demo_user_pdes by done.
    destruct (Z.eqb_spec i 0), (Z.eqb_spec j 0); try done. by subst.
Qed.
Lemma demo_user_space `{env : Env} : user_space demo_user demo_user_process.
Proof.
  split; [reflexivity|exact demo_user_wf|vm_compute; split; discriminate|].
  intros va Hva. change (sz demo_user_process) with 4096 in Hva.
  change (cr3 (cpu_regs demo_user)) with (V2P 0x80200000).
  rewrite (mmu_walk_pte _ _ []) by (exact demo_user_wf || lia).
  assert (pte_at (mem demo_user) 0x80200000 va = 0x202007) as ->.
  { unfold pte_at. replace (PDX va) with 0 by (rewrite PDX_eq; lia). replace (PTX va) with 0 by (rewrite PTX_eq; lia).
    vm_compute. reflexivity. }
  exists (0x202000 + va mod 4096), true. split; [reflexivity|]. rewrite Z.mod_small by lia.
  unfold in_video, vidmem, KERNBASE. lia.
Qed.
Lemma demo_user_ready : kernel_ready demo_user.
Proof.
  assert (irq_ok demo_user) as H by (split; vm_compute; done).
  split; [exact H|]. split; [split; reflexivity|]. split; [exact H|]. left. reflexivity.
Qed.


Lemma sysargs_checked_witness :
  sysarg_get_int (env:=demo_env) 0 0 demo_user = (Ok (Some 42), demo_user) /\
  sysarg_get_ptr (env:=demo_env) 0 1 8 demo_user = (Ok (Some 0x10), demo_user) /\
  sysarg_get_ptr (env:=demo_env) 0 1 0xfffffff0 demo_user = (Ok (Some 0x10), demo_user) /\
  sysarg_get_str (env:=demo_env) 0 2 demo_user = (Ok (Some (3, 0x20)), demo_user).
Proof.
  assert (forall n size, 0 <= size < 4294967296 ->
    sysarg_get_int (env:=demo_env) 0 n demo_user = (Ok (sext32 <$> arg_word demo_user demo_user_process n), demo_user) /\
    sysarg_get_str (env:=demo_env) 0 n demo_user = (Ok (arg_str demo_user demo_user_process n), demo_user) /\
    sysarg_get_ptr (env:=demo_env) 0 n size demo_user = (Ok (v ← arg_word demo_user demo_user_process n;
      if v + size <? 4294967296 then arg_ptr demo_user demo_user_process n size
      else if v <? sz demo_user_process then Some v else None), demo_user)) as H.
  { intros n size Hs. destruct (sysargs_checked (env:=demo_env) demo_user 0 demo_user_process n size eq_refl
      ltac:(apply kspace_low; vm_compute; discriminate) demo_user_space Hs) as (H1 & H2 & _ & H3 & _). split_and!; [exact H1|exact H2|exact H3]. }
  destruct (H 0 8) as (H0 & _); [lia|]. destruct (H 1 8) as (_ & _ & H1); [lia|].
  destruct (H 1 0xfffffff0) as (_ & _ & H1'); [lia|]. destruct (H 2 8) as (_ & H2 & _); [lia|].
  split_and!; [rewrite H0|rewrite H1|rewrite H1'|rewrite H2]; vm_compute; reflexivity.
Defined.
