(* ===== verification/Ide.v ===== *)
(** * Ide: the disk driver ([drivers/ide.c], [drivers/ide.h], [fs/block.h])

    The driver as the sequence of port accesses it makes.  The specification
    half reads such a sequence back the way the disk does. *)

From S2P Require Import Prelude Machine Layout Cstring Spinlock Uart Screen Kalloc Idt Pic Proc.

(** fs/block.h *)
Definition BLOCK_SIZE : Z := 1024.
Definition FSSIZE : Z := 1000.
Definition BLOCK_DIRTY : Z := 1 << 2.

(** [struct block_req]; [req_next] is a pointer the driver never follows. *)
Record block_req : Type := mkBlockReq {
  req_flags : Z;
  req_dev : Z;
  req_next : Z;
  block_no : Z;
  req_data : list Z;
}.

(** ide.h *)
Definition IDE_SECTOR_SIZE : Z := 512.
Definition SECTORS_PER_BLOCK : Z := BLOCK_SIZE / IDE_SECTOR_SIZE.
Definition IDE_WAIT_CYCLES : nat := 15.
Definition IDE_IO_BASE : Z := 0x1F0.
Definition IDE_DATA : Z := IDE_IO_BASE + 0.
Definition IDE_SECTORS : Z := IDE_IO_BASE + 2.
Definition IDE_LBA_LO : Z := IDE_IO_BASE + 3.
Definition IDE_LBA_MI : Z := IDE_IO_BASE + 4.
Definition IDE_LBA_HI : Z := IDE_IO_BASE + 5.
Definition IDE_SELECT : Z := IDE_IO_BASE + 6.
Definition IDE_COMMAND : Z := IDE_IO_BASE + 7.
Definition IDE_CTRL_BASE : Z := 0x3F6.
Definition IDE_ALT_STATUS : Z := IDE_CTRL_BASE + 0.
Definition IDE_CONTROL : Z := IDE_CTRL_BASE + 0.
Definition IDE_STATUS_ERR : Z := 1 << 0.
Definition IDE_STATUS_DRQ : Z := 1 << 3.
Definition IDE_STATUS_DF : Z := 1 << 5.
Definition IDE_STATUS_RDY : Z := 1 << 6.
Definition IDE_STATUS_BSY : Z := 1 << 7.
Definition IDE_CMD_READ : Z := 0x20.
Definition IDE_CMD_WRITE : Z := 0x30.
Definition IDE_CMD_RDMUL : Z := 0xC4.
Definition IDE_CMD_WRMUL : Z := 0xC5.
Definition IDE_CMD_IDFY : Z := 0xEC.
Definition IDE_SEL : Z := 0xA0.
Definition IDE_SEL_LBA : Z := 0x40.
Definition ATA_IDENT_MODEL : nat := 27.

Definition LBA_SELECT (drive sector : Z) : Z :=
  IDE_SEL .| IDE_SEL_LBA .| ((drive & 1) << 4) .| ((sector >> 24) & 0x0f).

(** The little-endian dwords of an array of bytes. *)
Fixpoint dwords (l : list Z) : list Z :=
  match l with
  | b0 :: b1 :: b2 :: b3 :: l' => (b0 + 256 * b1 + 65536 * b2 + 16777216 * b3) :: dwords l'
  | _ => []
  end.

Section WithEnv.
Context `{env : Env}.

(** lib/debug.h: [error(fmt, args...)] in function [fn] of [file], line [line]. *)
Definition error {A} (fmt : string) (args : list arg) (fn file : string) (line : Z) : K A :=
  _ ← cprintf (Some ("ERROR: " +:+ fmt +:+ nl)) args;
  _ ← cprintf (Some ("function '%s', file '%s': line %d" +:+ nl)) [AS fn; AS file; AW line];
  raise_panic "error occurred".

Definition ide_interrupt_handler (state : Z) : K unit := print (AS ("__ide_int" +:+ nl)).

(** The loop of [ide_wait_ready] with [i] rounds left: the status it broke off
    with, or [None] when [i] reached 0. *)
Fixpoint ide_wait_loop (i : nat) : K (option Z) :=
  match i with
  | O => mret None
  | S i' =>
      status ← inb IDE_ALT_STATUS;
      if (status & (IDE_STATUS_BSY .| IDE_STATUS_RDY)) =? IDE_STATUS_RDY
      then mret (Some status)
      else ide_wait_loop i'
  end.

Definition ide_wait_ready : K bool :=
  r ← ide_wait_loop IDE_WAIT_CYCLES;
  match r with
  | None => mret false
  | Some status => mret ((status & (IDE_STATUS_DF .| IDE_STATUS_ERR)) =? 0)
  end.

Definition ide_soft_reset : K bool :=
  _ ← outb IDE_CONTROL (1 << 2);
  _ ← inb IDE_ALT_STATUS;
  _ ← inb IDE_ALT_STATUS;
  _ ← inb IDE_ALT_STATUS;
  _ ← inb IDE_ALT_STATUS;
  ide_wait_ready.

(** [insl(port, array, cnt)] into an array that is a C object: the dwords. *)
Fixpoint insl_words (port : Z) (cnt : nat) : K (list Z) :=
  match cnt with
  | O => mret []
  | S n =>
      v ← (fun s => let v := wrap32 (dev_in (io s) port) in (Ok v, push_io (In32 port v) s));
      l ← insl_words port n;
      mret (v :: l)
  end.
(** [outsl(port, array, cnt)] from such an array. *)
Fixpoint outsl_words (port : Z) (l : list Z) : K unit :=
  match l with
  | [] => mret tt
  | v :: l' => _ ← modify (push_io (Out32 port v)); outsl_words port l'
  end.

(** [b] is [None] for a null pointer. *)
Definition ide_start (b : option block_req) : K unit :=
  match b with
  | None => raise_panic "ide_start"
  | Some b =>
      if FSSIZE <=? block_no b then raise_panic "incorrect blockno" else
      let sector := block_no b * SECTORS_PER_BLOCK in
      let read_cmd := if SECTORS_PER_BLOCK =? 1 then IDE_CMD_READ else IDE_CMD_RDMUL in
      let write_cmd := if SECTORS_PER_BLOCK =? 1 then IDE_CMD_WRITE else IDE_CMD_WRMUL in
      if 7 <? SECTORS_PER_BLOCK then raise_panic "ide_start" else
      _ ← ide_wait_ready;
      _ ← outb IDE_CONTROL 0;
      _ ← outb IDE_SECTORS SECTORS_PER_BLOCK;
      _ ← outb IDE_LBA_LO (sector & 0xff);
      _ ← outb IDE_LBA_MI ((sector >> 8) & 0xff);
      _ ← outb IDE_LBA_HI ((sector >> 16) & 0xff);
      _ ← outb IDE_SELECT (LBA_SELECT (req_dev b) sector);
      if negb ((req_flags b & BLOCK_DIRTY) =? 0) then
        _ ← outb IDE_COMMAND write_cmd;
        outsl_words IDE_DATA (dwords (req_data b))
      else
        outb IDE_COMMAND read_cmd
  end.

(** The [do ... while] of [ide_init], at most [fuel] times: how long it runs is
    up to the disk. *)
Fixpoint ide_identify_wait (fuel : nat) : K Z :=
  match fuel with
  | O => hang
  | S n =>
      status ← inb IDE_ALT_STATUS;
      mi ← inb IDE_LBA_MI;
      hi ← (if negb (mi =? 0) then mret 1 else inb IDE_LBA_HI);
      if negb (mi =? 0) || negb (hi =? 0)
      then error "ide_init: drive on primary bus is not PATA" [] "ide_init" "kernel/drivers/ide.c" 96
      else if negb ((status & IDE_STATUS_BSY) =? 0) &&
              negb ((status & (IDE_STATUS_DRQ .| IDE_STATUS_ERR)) =? 0)
      then ide_identify_wait n
      else mret status
  end.

(** The 16-bit halves of dwords, low half first. *)
Definition halves (l : list Z) : list Z := l ≫= (fun v => [v & 0xffff; v >> 16]).

(** The model string: the two bytes of each word swapped, then terminated. *)
Definition ide_model (data : list Z) : list Z :=
  <[39%nat := 0]> (take 20 (drop ATA_IDENT_MODEL data) ≫= (fun w => [w >> 8; w & 0xff])).

(** The bytes before the first NUL. *)
Fixpoint until_nul (l : list Z) : list Z :=
  match l with [] => [] | c :: l' => if c =? 0 then [] else c :: until_nul l' end.

Definition ide_init (fuel : nat) : K unit :=
  _ ← initlock IDE_LOCK "ide_lock";
  _ ← isr_register (IDT_IRQ_BASE + IDT_IRQ_IDE1) ide_interrupt_handler_fn;
  _ ← outb IDE_SELECT (LBA_SELECT 1 0);
  _ ← ide_wait_ready;
  _ ← outb IDE_CONTROL 0;
  _ ← outb IDE_SECTORS 0;
  _ ← outb IDE_LBA_LO 0;
  _ ← outb IDE_LBA_MI 0;
  _ ← outb IDE_LBA_HI 0;
  _ ← outb IDE_COMMAND IDE_CMD_IDFY;
  status ← inb IDE_ALT_STATUS;
  if status =? 0
  then error "ide_init: drive does not exist on primary bus" [] "ide_init" "kernel/drivers/ide.c" 92
  else
  status ← ide_identify_wait fuel;
  if negb ((status & IDE_STATUS_ERR) =? 0)
  then error "ide_init: error returned from the IDENTIFY command" [] "ide_init" "kernel/drivers/ide.c" 101
  else
  _ ← modify (upd_drv (set_ide_identify_data (replicate 256 0)));
  l ← insl_words IDE_DATA 128;
  _ ← modify (upd_drv (set_ide_identify_data (halves l)));
  data ← gets (fun s => ide_identify_data (drv s));
  _ ← cprintf (Some ("ide_init: found ATA drive model: %s" +:+ nl)) [AS (string_of (until_nul (ide_model data)))];
  ide_start (Some {| req_flags := BLOCK_DIRTY; req_dev := 1; req_next := 0; block_no := 0;
    req_data := strncpy_array (replicate (Z.to_nat BLOCK_SIZE) 0) (bytes_of "FOUDIL WAS HERE") 20 |}).

End WithEnv.

(** ** The disk's side *)

(** A drive as the ATA standard describes it, for the accesses of this driver:
    whether its multiple mode was set, its task file, the command it executes
    (0 for none) and the bytes it has taken for it.  It takes every access at
    once: how long a drive is busy is not part of it. *)
Record disk : Type := mkDisk {
  d_multiple : bool;
  d_count : Z; d_lo : Z; d_mi : Z; d_hi : Z; d_select : Z; d_cmd : Z; d_data : list Z;
}.

Definition le_bytes (v : Z) : list Z := [v & 0xff; (v >> 8) & 0xff; (v >> 16) & 0xff; (v >> 24) & 0xff].

(** The command register: SET MULTIPLE MODE (C6h) sets the mode, without which
    READ MULTIPLE (C4h) and WRITE MULTIPLE (C5h) are aborted. *)
Definition disk_command (d : disk) (v : Z) : disk :=
  let start m c := mkDisk m (d_count d) (d_lo d) (d_mi d) (d_hi d) (d_select d) c [] in
  if v =? 0xC6 then start true 0
  else if ((v =? 0xC4) || (v =? 0xC5)) && negb (d_multiple d) then start false 0
  else start (d_multiple d) v.
(** The data register: data is taken for a write command (30h, C5h) only. *)
Definition disk_take (d : disk) (l : list Z) : disk :=
  if (d_cmd d =? 0x30) || (d_cmd d =? 0xC5)
  then mkDisk (d_multiple d) (d_count d) (d_lo d) (d_mi d) (d_hi d) (d_select d) (d_cmd d) (d_data d ++ l) else d.

(** What the drive makes of one access. *)
Definition disk_step (d : disk) (e : ioev) : disk :=
  match e with
  | Out8 p v =>
      if p =? 0x1f2 then mkDisk (d_multiple d) v (d_lo d) (d_mi d) (d_hi d) (d_select d) (d_cmd d) (d_data d)
      else if p =? 0x1f3 then mkDisk (d_multiple d) (d_count d) v (d_mi d) (d_hi d) (d_select d) (d_cmd d) (d_data d)
      else if p =? 0x1f4 then mkDisk (d_multiple d) (d_count d) (d_lo d) v (d_hi d) (d_select d) (d_cmd d) (d_data d)
      else if p =? 0x1f5 then mkDisk (d_multiple d) (d_count d) (d_lo d) (d_mi d) v (d_select d) (d_cmd d) (d_data d)
      else if p =? 0x1f6 then mkDisk (d_multiple d) (d_count d) (d_lo d) (d_mi d) (d_hi d) v (d_cmd d) (d_data d)
      else if p =? 0x1f7 then disk_command d v
      else d
  | Out32 p v => if p =? 0x1f0 then disk_take d (le_bytes v) else d
  | _ => d
  end.

(** The logical block address, the drive and the addressing mode it selects. *)
Definition disk_lba (d : disk) : Z := d_lo d + 256 * d_mi d + 65536 * d_hi d + 16777216 * (d_select d & 15).
Definition disk_drive (d : disk) : bool := Z.testbit (d_select d) 4.
Definition disk_lba_mode (d : disk) : bool := Z.testbit (d_select d) 6.

Lemma le_bytes_dword b0 b1 b2 b3 :
  0 <= b0 < 256 -> 0 <= b1 < 256 -> 0 <= b2 < 256 -> 0 <= b3 < 256 ->
  le_bytes (b0 + 256 * b1 + 65536 * b2 + 16777216 * b3) = [b0; b1; b2; b3].
Proof.
  intros. unfold le_bytes. change 0xff with (Z.ones 8). rewrite !Z.land_ones, !Z.shiftr_div_pow2 by lia.
  cbn [Z.pow Z.pow_pos Pos.iter Z.mul Pos.mul]. repeat f_equal; lia.
Qed.

(** Sending the dwords of a block gives the disk its bytes. *)
Lemma dwords_bytes n l :
  length l = (4 * n)%nat -> Forall (fun c => 0 <= c < 256) l -> dwords l ≫= le_bytes = l.
Proof.
  revert l. induction n as [|n IH]; intros l Hl Hb; [by destruct l|].
  destruct l as [|b0 [|b1 [|b2 [|b3 l]]]]; try (simpl in Hl; lia). simpl in Hl.
  rewrite !Forall_cons in Hb. destruct Hb as (H0 & H1 & H2 & H3 & Hb). cbn [dwords mbind list_bind].
  rewrite le_bytes_dword by done. cbn [app]. do 4 f_equal. apply IH; [lia|done].
Qed.

Lemma disk_data l d : foldl disk_step d (map (Out32 0x1f0) l) = disk_take d (l ≫= le_bytes).
Proof.
  revert d. induction l as [|v l IH]; intros d; cbn [foldl map disk_step Z.eqb Pos.eqb].
  - unfold disk_take. destruct (_ || _); [|done]. rewrite app_nil_r. by destruct d.
  - rewrite IH. unfold disk_take. destruct ((d_cmd d =? 0x30) || (d_cmd d =? 0xC5)) eqn:E; cbn [d_cmd]; rewrite E; [|done].
    cbn [d_multiple d_count d_lo d_mi d_hi d_select d_data]. by rewrite <- app_assoc.
Qed.

Section Spec.
Context `{env : Env}.

(** Status reads. *)
Definition polls (h : list ioev) : Prop := Forall (fun e => exists v, e = In8 0x3f6 v) h.

Lemma ide_wait_loop_ok n s :
  exists r h, ide_wait_loop n s = (Ok r, set_io (h ++ io s) s) /\ polls h /\ (length h <= n)%nat.
Proof.
  revert s. induction n as [|n IH]; intros s; [exists None, []; split; [by destruct s|]; split; [constructor|done]|]. cbn [ide_wait_loop].
  erewrite bind_ok by reflexivity. destruct (_ =? _).
  - eexists _, [_]. split; [reflexivity|]. split; [|simpl; lia]. repeat constructor. eauto.
  - destruct (IH (push_io (In8 IDE_ALT_STATUS (wrap8 (dev_in (io s) IDE_ALT_STATUS))) s)) as (r & h & -> & Hp & Hl).
    exists r, (h ++ [In8 IDE_ALT_STATUS (wrap8 (dev_in (io s) IDE_ALT_STATUS))]). split.
    + by rewrite <- app_assoc.
    + split; [|rewrite length_app; simpl; lia]. apply Forall_app. split; [done|]. repeat constructor. by eexists.
Qed.
Lemma ide_wait_ready_ok s :
  exists b h, ide_wait_ready s = (Ok b, set_io (h ++ io s) s) /\ polls h /\ (length h <= 15)%nat.
Proof.
  destruct (ide_wait_loop_ok IDE_WAIT_CYCLES s) as (r & h & E & H). unfold ide_wait_ready.
  rewrite (bind_ok _ _ _ _ _ E). destruct r; eexists; exists h; by split.
Qed.
Lemma outsl_words_ok p l s : outsl_words p l s = (Ok tt, set_io (rev (map (Out32 p) l) ++ io s) s).
Proof.
  revert s. induction l as [|v l IH]; intros s; simpl; [by destruct s|]. mstep. rewrite IH. simpl.
  by rewrite <- app_assoc.
Qed.

(** The commands of a request, in the order they are sent. *)
Definition ide_commands (b : block_req) : list ioev :=
  let sector := block_no b * 2 in
  [Out8 0x3f6 0; Out8 0x1f2 2; Out8 0x1f3 (wrap8 (sector & 0xff)); Out8 0x1f4 (wrap8 ((sector >> 8) & 0xff));
   Out8 0x1f5 (wrap8 ((sector >> 16) & 0xff)); Out8 0x1f6 (wrap8 (LBA_SELECT (req_dev b) sector))] ++
  if (req_flags b & BLOCK_DIRTY) =? 0 then [Out8 0x1f7 0xC4]
  else Out8 0x1f7 0xC5 :: map (Out32 0x1f0) (dwords (req_data b)).

Lemma ide_start_ok b s :
  0 <= block_no b < FSSIZE -> exists h, polls h /\ (length h <= 15)%nat /\
    ide_start (Some b) s = (Ok tt, set_io (rev (ide_commands b) ++ h ++ io s) s).
Proof.
  intros Hb. unfold ide_start. destruct (Z.leb_spec FSSIZE (block_no b)); [lia|].
  change (7 <? SECTORS_PER_BLOCK) with false. change (SECTORS_PER_BLOCK =? 1) with false. cbv zeta iota.
  destruct (ide_wait_ready_ok s) as (r & h & E & Hp & Hl). rewrite (bind_ok _ _ _ _ _ E). exists h.
  split; [done|]. split; [done|]. unfold outb. mstep. unfold ide_commands. change SECTORS_PER_BLOCK with 2.
  destruct (_ =? 0); cbn [negb]; [reflexivity|]. mstep. rewrite outsl_words_ok.
  rewrite rev_app_distr. cbn [rev]. rewrite <- !app_assoc. reflexivity.
Qed.

End Spec.

(** ** Finding the drive *)

(** How many times the status was read since the last IDENTIFY command, in a
    history with the latest access first. *)
Fixpoint after_identify (h : list ioev) : option nat :=
  match h with
  | [] => None
  | Out8 p v :: h' => if (p =? 0x1f7) && (v =? 0xEC) then Some 0%nat else after_identify h'
  | In8 p _ :: h' => if p =? 0x3f6 then S <$> after_identify h' else after_identify h'
  | _ :: h' => after_identify h'
  end.

Definition disk_status `{env : Env} (h : list ioev) : Z := wrap8 (dev_in h 0x3f6).

(** A parallel ATA drive answers IDENTIFY: it has a status, gives no signature
    of another kind of drive, and is not busy any more at the [n]th status
    read.  [err] says whether it reports an error. *)
Record drive_answers `{env : Env} (n : nat) (err : bool) : Prop := {
  da_status h k : after_identify h = Some k -> disk_status h <> 0;
  da_pata h k : after_identify h = Some k -> wrap8 (dev_in h 0x1f4) = 0 /\ wrap8 (dev_in h 0x1f5) = 0;
  da_err h k : after_identify h = Some k -> Z.testbit (disk_status h) 0 = err;
  da_done h k : after_identify h = Some k -> (n <= k)%nat -> Z.testbit (disk_status h) 7 = false;
}.

(** The next [n] dwords the drive gives on its data port, with [h] the accesses
    before them. *)
Fixpoint drive_words `{env : Env} (p : Z) (h : list ioev) (n : nat) : list Z :=
  match n with
  | O => []
  | S n => let v := wrap32 (dev_in h p) in v :: drive_words p (In32 p v :: h) n
  end.

(** What [ide_init] leaves: the lock initialised, the handler registered and
    the words of IDENTIFY. *)
Definition ide_opened (s : machine) : machine :=
  upd_irq (set_isr_table (<[46%nat := Some ide_interrupt_handler_fn]> (isr_table (irq s))))
    (put_lock IDE_LOCK (set_lk_cpu None (set_locked 0 (set_lk_name "ide_lock" (ide_lock (drv s))))) s).
Definition ide_ready (data : list Z) (s : machine) : machine :=
  upd_drv (set_ide_identify_data data) (ide_opened s).

(** The block [ide_init] writes, and the request. *)
Definition greeting : list Z := bytes_of "FOUDIL WAS HERE" ++ replicate 1009 0.
Definition greeting_req : block_req :=
  {| req_flags := BLOCK_DIRTY; req_dev := 1; req_next := 0; block_no := 0; req_data := greeting |}.

Section Identify.
Context `{env : Env}.

Lemma inb_value p v s : wrap8 (dev_in (io s) p) = v -> inb p s = (Ok v, push_io (In8 p v) s).
Proof. by intros <-. Qed.

(** The loop is left when the drive is not busy, or asks for no data. *)
Lemma not_busy_or_no_data st :
  negb ((st & IDE_STATUS_BSY) =? 0) && negb ((st & (IDE_STATUS_DRQ .| IDE_STATUS_ERR)) =? 0) = false ->
  Z.testbit st 7 = false \/ Z.testbit st 3 = false.
Proof.
  change IDE_STATUS_BSY with (2 ^ 7). rewrite land_pow2_eqb, negb_involutive by lia. destruct (Z.testbit st 7) eqn:E7; [|by left].
  cbn [andb]. rewrite negb_false_iff. intros E%Z.eqb_eq. right.
  assert (Z.testbit (st & (IDE_STATUS_DRQ .| IDE_STATUS_ERR)) 3 = Z.testbit 0 3) as H by by rewrite E.
  rewrite Z.land_spec, Z.bits_0 in H. change (Z.testbit (IDE_STATUS_DRQ .| IDE_STATUS_ERR) 3) with true in H.
  by rewrite andb_true_r in H.
Qed.

Lemma ide_identify_wait_ok n err fuel k s :
  drive_answers n err -> after_identify (io s) = Some k -> (0 < fuel)%nat -> (n < fuel + k)%nat ->
  exists st h, ide_identify_wait fuel s = (Ok st, set_io ([In8 0x1f5 0; In8 0x1f4 0; In8 0x3f6 st] ++ h ++ io s) s) /\
    Z.testbit st 0 = err /\ after_identify (h ++ io s) <> None /\ (Z.testbit st 7 = false \/ Z.testbit st 3 = false).
Proof.
  intros Hd. revert k s. induction fuel as [|fuel IH]; intros k s Hk H0 Hf; [lia|]. cbn [ide_identify_wait].
  rewrite (bind_ok _ _ _ _ _ (inb_value IDE_ALT_STATUS (disk_status (io s)) s eq_refl)).
  set (s1 := push_io (In8 IDE_ALT_STATUS (disk_status (io s))) s).
  assert (after_identify (io s1) = Some (S k)) as Hk1 by (cbn; by rewrite Hk).
  rewrite (bind_ok _ _ _ _ _ (inb_value IDE_LBA_MI 0 s1 (proj1 (da_pata n err Hd _ _ Hk1)))).
  set (s2 := push_io (In8 IDE_LBA_MI 0) s1). cbn [Z.eqb negb orb].
  assert (after_identify (io s2) = Some (S k)) as Hk2 by exact Hk1.
  rewrite (bind_ok _ _ _ _ _ (inb_value IDE_LBA_HI 0 s2 (proj2 (da_pata n err Hd _ _ Hk2)))).
  set (s3 := push_io (In8 IDE_LBA_HI 0) s2). cbn [Z.eqb negb orb].
  assert (after_identify (io s3) = Some (S k)) as Hk3 by exact Hk1.
  destruct (negb ((disk_status (io s) & IDE_STATUS_BSY) =? 0) && _) eqn:Eb.
  - apply andb_true_iff in Eb as [Eb _]. change IDE_STATUS_BSY with (2 ^ 7) in Eb.
    rewrite land_pow2_eqb, negb_involutive in Eb by lia.
    assert (k < n)%nat as Hkn.
    { destruct (decide (n <= k)%nat) as [Hle|]; [|lia]. rewrite (da_done n err Hd _ _ Hk Hle) in Eb. done. }
    destruct (IH (S k) s3 Hk3) as (st & h & -> & He & Ha & Hb); [lia|lia|].
    exists st, (h ++ [In8 0x1f5 0; In8 0x1f4 0; In8 IDE_ALT_STATUS (disk_status (io s))]).
    rewrite <- !app_assoc. by split_and!.
  - exists (disk_status (io s)), []. split; [reflexivity|]. split; [exact (da_err n err Hd _ _ Hk)|].
    split; [cbn; by rewrite Hk|]. apply not_busy_or_no_data. exact Eb.
Qed.

Lemma insl_words_ok p n s h :
  io s = h ->
  exists l, l = drive_words p h n /\ insl_words p n s = (Ok l, set_io (rev (map (In32 p) l) ++ h) s).
Proof.
  revert s h. induction n as [|n IH]; intros s h <-; cbn [insl_words drive_words].
  - exists []. split; [done|]. by destruct s.
  - erewrite bind_ok by reflexivity. destruct (IH (push_io (In32 p (wrap32 (dev_in (io s) p))) s) _ eq_refl) as (l & -> & E).
    rewrite (bind_ok _ _ _ _ _ E). eexists. split; [done|]. cbn [map rev]. rewrite <- app_assoc. done.
Qed.

(** [ide_init] up to its first status read. *)
Lemma ide_init_identify s :
  isr_table (irq s) !! 46%nat = Some None ->
  exists h, after_identify (h ++ io s) = Some 0%nat /\
    forall fuel, ide_init fuel s =
      (status ← inb IDE_ALT_STATUS;
       if status =? 0
       then error "ide_init: drive does not exist on primary bus" [] "ide_init" "kernel/drivers/ide.c" 92
       else
       status ← ide_identify_wait fuel;
       if negb ((status & IDE_STATUS_ERR) =? 0)
       then error "ide_init: error returned from the IDENTIFY command" [] "ide_init" "kernel/drivers/ide.c" 101
       else
       _ ← modify (upd_drv (set_ide_identify_data (replicate 256 0)));
       l ← insl_words IDE_DATA 128;
       _ ← modify (upd_drv (set_ide_identify_data (halves l)));
       data ← gets (fun s => ide_identify_data (drv s));
       _ ← cprintf (Some ("ide_init: found ATA drive model: %s" +:+ nl)) [AS (string_of (until_nul (ide_model data)))];
       ide_start (Some greeting_req))
      (set_io (h ++ io s) (ide_opened s)).
Proof.
  intros Hisr. set (s1 := put_lock IDE_LOCK (set_lk_cpu None (set_locked 0 (set_lk_name "ide_lock" (ide_lock (drv s))))) s).
  assert (isr_register (IDT_IRQ_BASE + IDT_IRQ_IDE1) ide_interrupt_handler_fn s1 = (Ok tt, ide_opened s)) as E1
    by (by apply isr_register_new).
  set (s2 := push_io (Out8 IDE_SELECT (wrap8 (LBA_SELECT 1 0))) (ide_opened s)).
  destruct (ide_wait_ready_ok s2) as (b & h & E2 & _ & _).
  exists ([Out8 0x1f7 0xEC; Out8 0x1f5 0; Out8 0x1f4 0; Out8 0x1f3 0; Out8 0x1f2 0; Out8 0x3f6 0] ++ h ++
    [Out8 IDE_SELECT (wrap8 (LBA_SELECT 1 0))]).
  split; [done|]. intros fuel. unfold ide_init, initlock. mstep.
  change (mbind ?f (isr_register ?n ?g) (put_lock _ _ s)) with (mbind f (isr_register n g) s1).
  rewrite (bind_ok _ _ _ _ _ E1). unfold outb. mstep. fold s2. rewrite (bind_ok _ _ _ _ _ E2). mstep.
  rewrite <- !app_assoc. reflexivity.
Qed.

Lemma error_panics f s fn file line :
  cons_ready s -> fits (bytes_of ("ERROR: " +:+ f +:+ nl)) [] = true ->
  exists s', error (A:=unit) f [] fn file line s = (Panic "error occurred", s') /\ quiet s s'.
Proof.
  intros Hc Hf. unfold error.
  destruct (cprintf_fits _ [] s Hc Hf) as (s1 & E1 & Q1). rewrite (bind_ok _ _ _ _ _ E1).
  destruct (cprintf_fits ("function '%s', file '%s': line %d" +:+ nl) [AS fn; AS file; AW line] s1
    (quiet_cons_ready _ _ Q1 Hc) eq_refl) as (s2 & E2 & Q2). rewrite (bind_ok _ _ _ _ _ E2).
  exists s2. split; [done|by etrans].
Qed.

Lemma quiet_set_io o s : quiet s (set_io o s).
Proof. by split. Qed.

Lemma ide_init_present n fuel s :
  cons_ready s -> isr_table (irq s) !! 46%nat = Some None -> drive_answers n false -> (n < fuel)%nat ->
  exists h st h' s', ide_init fuel s = (Ok tt, s') /\ after_identify (h ++ io s) <> None /\
    (Z.testbit st 7 = false \/ Z.testbit st 3 = false) /\
    quiet (ide_ready (halves (drive_words 0x1f0 ([In8 0x1f5 0; In8 0x1f4 0; In8 0x3f6 st] ++ h ++ io s) 128)) s) s' /\
    io s' = rev (ide_commands greeting_req) ++ h'.
Proof.
  intros Hc Hisr Hd Hf. destruct (ide_init_identify s Hisr) as (h & Hk & E). rewrite E.
  set (s1 := set_io (h ++ io s) (ide_opened s)).
  rewrite (bind_ok _ _ _ _ _ (inb_value IDE_ALT_STATUS (disk_status (io s1)) s1 eq_refl)).
  rewrite (proj2 (Z.eqb_neq _ _) (da_status n false Hd (io s1) _ Hk)). set (s2 := push_io _ s1).
  assert (after_identify (io s2) = Some 1%nat) as Hk2 by (cbn; by rewrite Hk).
  destruct (ide_identify_wait_ok n false fuel 1 s2 Hd Hk2) as (st & h2 & E2 & He & Ha & Hbusy); [lia|lia|].
  rewrite (bind_ok _ _ _ _ _ E2). change IDE_STATUS_ERR with (2 ^ 0). rewrite land_pow2_eqb, He by lia. cbn [negb].
  mstep. match goal with |- context [mbind _ (insl_words _ _) ?s] => set (s3 := s) end.
  assert (io s2 = ([In8 IDE_ALT_STATUS (disk_status (io s1))] ++ h) ++ io s) as Eio by done.
  set (hw := h2 ++ [In8 IDE_ALT_STATUS (disk_status (io s1))] ++ h).
  assert (hw ++ io s = h2 ++ io s2) as Ehw by (unfold hw; by rewrite <- app_assoc, <- Eio).
  assert (io s3 = [In8 0x1f5 0; In8 0x1f4 0; In8 0x3f6 st] ++ hw ++ io s) as E3 by by rewrite Ehw.
  destruct (insl_words_ok 0x1f0 128 s3 _ E3) as (l & El & E4). change (insl_words 0x1f0) with (insl_words IDE_DATA) in E4.
  rewrite (bind_ok _ _ _ _ _ E4). mstep. cbn [drv upd_drv set_drv ide_identify_data set_ide_identify_data].
  match goal with |- context [mbind _ (cprintf _ ?a) ?s] =>
    set (s4 := s); destruct (cprintf_fits ("ide_init: found ATA drive model: %s" +:+ nl) a s4) as (s5 & E5 & Q5) end;
    [exact Hc|reflexivity|].
  rewrite (bind_ok _ _ _ _ _ E5).
  destruct (ide_start_ok greeting_req s5) as (h6 & _ & _ & E6); [split; [discriminate|reflexivity]|]. rewrite E6.
  exists hw, st, (h6 ++ io s5). eexists. split; [reflexivity|]. rewrite <- El, Ehw.
  split_and!; [done|done|etrans; [|apply quiet_set_io]|done].
  etrans; [|exact Q5]. split; [|done]. subst s4 s3 s2 s1. done.
Qed.
End Identify.

Section Properties.
Context `{env : Env}.

Lemma disk_commands b d0 :
  0 <= block_no b < FSSIZE -> req_dev b = 0 \/ req_dev b = 1 ->
  length (req_data b) = 1024%nat -> Forall (fun c => 0 <= c < 256) (req_data b) ->
  let d := foldl disk_step d0 (ide_commands b) in
  disk_lba d = 2 * block_no b /\ d_count d = 2 /\ disk_lba_mode d = true /\
  disk_drive d = bool_decide (req_dev b = 1) /\
  (d_cmd d, d_data d) = if negb (d_multiple d0) then (0, [])
                        else if Z.testbit (req_flags b) 2 then (0xC5, req_data b) else (0xC4, []).
Proof.
  intros Hb Hd Hl Hbytes. unfold FSSIZE in Hb.
  assert (LBA_SELECT (req_dev b) (block_no b * 2) = if bool_decide (req_dev b = 1) then 0xF0 else 0xE0) as Es.
  { unfold LBA_SELECT. replace (block_no b * 2 >> 24) with 0 by (rewrite Z.shiftr_div_pow2 by lia; simpl (2 ^ 24); lia).
    by destruct Hd as [-> | ->]. }
  assert (((req_flags b & BLOCK_DIRTY) =? 0) = negb (Z.testbit (req_flags b) 2)) as Ef.
  { change BLOCK_DIRTY with (2 ^ 2). by rewrite land_pow2_eqb by lia. }
  unfold ide_commands. rewrite Es, Ef, foldl_app. cbv zeta.
  set (lo := wrap8 (block_no b * 2 & 0xff)). set (mi := wrap8 ((block_no b * 2 >> 8) & 0xff)).
  set (hi := wrap8 ((block_no b * 2 >> 16) & 0xff)).
  assert (lo + 256 * mi + 65536 * hi = 2 * block_no b) as El.
  { subst lo mi hi. change 0xff with (Z.ones 8). rewrite !Z.land_ones, !Z.shiftr_div_pow2 by lia.
    change (2 ^ 8) with 256. change (2 ^ 16) with 65536. unfold wrap8. lia. }
  clearbody lo mi hi. cbn [foldl disk_step Z.eqb Pos.eqb].
  set (sel := wrap8 (if bool_decide (req_dev b = 1) then _ else _)).
  assert (sel & 15 = 0 /\ Z.testbit sel 6 = true /\ Z.testbit sel 4 = bool_decide (req_dev b = 1)) as (H0 & H6 & H4)
    by (subst sel; destruct Hd as [-> | ->]; done).
  clearbody sel.
  destruct (Z.testbit (req_flags b) 2); cbn [negb foldl disk_step Z.eqb Pos.eqb];
    unfold disk_command; cbn [d_multiple d_count d_cmd d_select d_lo d_mi d_hi d_data app Z.eqb Pos.eqb orb andb];
    destruct (d_multiple d0); cbn [negb]; rewrite ?disk_data, ?(dwords_bytes 256) by done;
    unfold disk_take, disk_lba, disk_lba_mode, disk_drive; cbn; rewrite H0; split_and!; try done; lia.
Qed.

(** C26: ide_start refuses a null request and a block past the end of the file
    system.  Otherwise it polls the status at most 15 times and then fills the
    task file of the drive with exactly the request: two sectors from twice the
    block number on, by logical address, on the drive of the request.  The command
    is WRITE MULTIPLE for a dirty block, followed by its 1024 bytes, and READ
    MULTIPLE for another; the driver never sets the multiple mode, so a drive in
    which nobody else has set it aborts the command and takes none of the data.
    Nothing else of the machine changes. *)
Theorem ide_start_request b s :
  req_dev b = 0 \/ req_dev b = 1 -> 0 <= block_no b ->
  length (req_data b) = 1024%nat -> Forall (fun c => 0 <= c < 256) (req_data b) ->
  ide_start None s = (Panic "ide_start", s) /\
  if FSSIZE <=? block_no b then ide_start (Some b) s = (Panic "incorrect blockno", s)
  else exists h hp, ide_start (Some b) s = (Ok tt, set_io (h ++ hp ++ io s) s) /\ polls hp /\ (length hp <= 15)%nat /\
    forall d0, let d := foldl disk_step d0 (rev h) in
    disk_lba d = 2 * block_no b /\ d_count d = 2 /\ disk_lba_mode d = true /\
    disk_drive d = bool_decide (req_dev b = 1) /\
    (d_cmd d, d_data d) = if negb (d_multiple d0) then (0, [])
                          else if Z.testbit (req_flags b) 2 then (0xC5, req_data b) else (0xC4, []).
Proof.
  intros Hd Hn Hl Hb. split; [done|]. destruct (Z.leb_spec FSSIZE (block_no b)) as [H|H].
  - unfold ide_start. by rewrite (proj2 (Z.leb_le _ _) H).
  - destruct (ide_start_ok b s) as (h & Hp & Hl' & E); [lia|]. exists (rev (ide_commands b)), h.
    split; [done|]. split; [done|]. split; [done|]. intros d0. rewrite rev_involutive. apply disk_commands; [lia|done..].
Qed.

End Properties.

(** *** Witnesses *)

Definition demo_block : block_req :=
  {| req_flags := BLOCK_DIRTY; req_dev := 1; req_next := 0; block_no := 7; req_data := replicate 1024 65 |}.

Lemma ide_start_request_witness :
  exists h hp, ide_start (env:=demo_env) (Some demo_block) demo_machine = (Ok tt, set_io (h ++ hp ++ []) demo_machine) /\
    (let d := foldl disk_step (mkDisk true 0 0 0 0 0 0 []) (rev h) in disk_lba d = 14 /\ d_cmd d = 0xC5) /\
    d_cmd (foldl disk_step (mkDisk false 0 0 0 0 0 0 []) (rev h)) = 0.
Proof.
  destruct (ide_start_request (env:=demo_env) demo_block demo_machine) as [_ H].
  - right. reflexivity.
  - vm_compute. discriminate.
  - vm_compute. reflexivity.
  - apply Forall_replicate. split; reflexivity || discriminate.
  - destruct H as (h & hp & E & _ & _ & H). exists h, hp. split; [exact E|].
    destruct (H (mkDisk true 0 0 0 0 0 0 [])) as (H1 & _ & _ & _ & H2).
    destruct (H (mkDisk false 0 0 0 0 0 0 [])) as (_ & _ & _ & _ & H3).
    split; [split; [exact H1|exact (f_equal fst H2)]|exact (f_equal fst H3)].
Defined.

(** A drive that is never busy. *)
Definition disk_env : Env := demo_env_with (fun _ p => if p =? 0x3f6 then 0x40 else 0).

Lemma disk_env_answers : drive_answers (env:=disk_env) 0 false.
Proof. split; intros h k _; [discriminate|by split|reflexivity|reflexivity]. Qed.

