(* ===== verification/Trap.v ===== *)
(** * Trap: the interrupt dispatcher ([isr_handler] of [idt.c])

    The stubs of isr.asm push the interrupt state on the kernel stack and call
    [isr_handler] with its address.  A handler either returns or, for the exit
    system call, has switched to the scheduler. *)

From S2P Require Import Prelude Machine Layout Cstring Spinlock Uart Screen Kalloc Idt Gdt Pic Acpi Kbd Paging Proc Syscall Ide.

Section WithEnv.
Context `{env : Env}.

(** The [pid] and the [name] [cprintf] gets for [proc]: through a null pointer
    the pid is what is mapped at address 16 and the name is the null string.  A
    name that is not terminated has no meaning. *)
Definition proc_pid_name (p : option nat) : K (Z * arg) :=
  match p with
  | None => pid ← load16 16; mret (pid, AW 0)
  | Some i =>
      q ← gets (get_proc i);
      if bool_decide (0 ∈ p_name q) then mret (pid q, AS (string_of (until_nul (p_name q))))
      else undef "proc->name"
  end.

Definition print_interrupt_state (state : Z) : K unit :=
  _ ← info "interrupt state:" [];
  p ← myproc;
  pn ← proc_pid_name p;
  _ ← cprintf (Some ("  Current process: %d - %s" +:+ nl)) [AW pn.1; pn.2];
  int_no ← load32 (state + st_int_no);
  err_code ← load32 (state + st_err_code);
  _ ← cprintf (Some ("  INT#: %d  ERR_CODE: %x" +:+ nl)) [AW int_no; AW err_code];
  eax ← load32 (state + st_eax);
  eip ← load32 (state + st_eip);
  esp ← load32 (state + st_esp);
  _ ← cprintf (Some ("  EAX: %x  EIP: %x  ESP: %x" +:+ nl)) [AW eax; AW eip; AW esp];
  ds ← load32 (state + st_ds);
  cs ← load32 (state + st_cs);
  ss ← load32 (state + st_ss);
  _ ← cprintf (Some ("   DS: %x   CS: %x   SS: %x" +:+ nl)) [AW ds; AW cs; AW ss];
  eflags ← load32 (state + st_eflags);
  cprintf (Some ("  EFLAGS: %x" +:+ nl)) [AW eflags].

Definition returning (m : K unit) : K (ctl unit) := _ ← m; mret (Ret tt).

(** [isr_table[int_no](state)]: the call through the function pointer. *)
Definition call_isr (f : isr_fn) (state : Z) : K (ctl unit) :=
  match f with
  | page_fault_handler_fn => returning (page_fault_handler state)
  | protection_fault_handler_fn => returning (protection_fault_handler state)
  | syscall_handler_fn => syscall_handler state
  | timer_interrupt_handler_fn => returning (timer_interrupt_handler state)
  | kbd_interrupt_handler_fn => returning (kbd_interrupt_handler state)
  | com1_interrupt_handler_fn => returning com1_interrupt_handler
  | ide_interrupt_handler_fn => returning (ide_interrupt_handler state)
  end.

Definition isr_handler (state : Z) : K (ctl unit) :=
  w ← load32 (state + st_int_no);
  let int_no := wrap8 w in
  t ← gets (fun s => isr_table (irq s));
  r ← match t !! Z.to_nat int_no with
      | Some (Some f) => call_isr f state
      | _ =>
          _ ← print_interrupt_state state;
          _ ← cprintf (Some ("missing handler for ISR interrupt # %d" +:+ nl)) [AW int_no];
          raise_panic "isr_handler"
      end;
  match r with
  | Switched intena => mret (Switched intena)
  | Ret _ =>
      if int_no <? IDT_IRQ_SIZE_MAX then
        w ← load32 (state + st_int_no);
        let irq_no := wrap8 (w - IDT_IRQ_BASE) in
        _ ← pic_send_eoi irq_no;
        mret (Ret tt)
      else mret (Ret tt)
  end.

End WithEnv.

(** ** Serving devices *)

(** The accesses that acknowledge vector [n], the latest first: the second
    controller's lines pass through the first one. *)
Definition eoi (n : Z) : list ioev :=
  if n <? 40 then [Out8 0x20 0x20] else [Out8 0x20 0x20; Out8 0xA0 0x20].

Definition device_fn (f : isr_fn) : bool :=
  match f with
  | timer_interrupt_handler_fn | kbd_interrupt_handler_fn | com1_interrupt_handler_fn | ide_interrupt_handler_fn => true
  | _ => false
  end.

(** [s'] is [s] with the drivers' statics [d], up to printing and device
    accesses. *)
Definition with_drv (s : machine) (d : drv_t) (s' : machine) : Prop :=
  quiet (set_drv d s) s' /\ ide_lock d = ide_lock (drv s).

Lemma set_io_quiet h s : quiet s (set_io h s).
Proof. split; [done|]. intros b _ _. done. Qed.
Lemma set_drv_id s : set_drv (drv s) s = s.
Proof. by destruct s. Qed.

Section Devices.
Context `{env : Env}.

Lemma with_drv_quiet s s' : quiet s s' -> with_drv s (drv s) s'.
Proof. intros Q. split; [by rewrite set_drv_id|done]. Qed.

Lemma com1_ok s : exists s', com1_interrupt_handler s = (Ok tt, s') /\ quiet s s'.
Proof.
  assert (runs io_only uartgetc) as Hg.
  { apply runs_bind; [apply _|apply runs_gets, _|]. intros u. destruct (_ =? 0); [apply runs_ret, _|].
    apply runs_bind; [apply _|apply inb_runs|]. intros st. destruct (_ =? 0); [apply runs_ret, _|apply inb_runs]. }
  assert (runs io_only com1_interrupt_handler) as Hr by (apply runs_bind; [apply _|exact Hg|apply uartputc_runs]).
  destruct (Hr s) as ([] & s' & E & H).
  exists s'. split; [exact E|]. rewrite H. apply set_io_quiet.
Qed.

Lemma modifier_frame k f d : modifier k = Some f -> ide_lock (f d) = ide_lock d /\ ticks (f d) = ticks d.
Proof. destruct k; intros E; try discriminate E; by injection E as <-. Qed.

Lemma kbd_ok state s :
  cons_ready s -> exists d s', kbd_interrupt_handler state s = (Ok tt, s') /\ with_drv s d s' /\ ticks d = ticks (drv s).
Proof.
  intros Hc. pose proof (kbd_interrupt_ok state s Hc) as H. destruct (read_scancode (io s)) as [c h].
  destruct H as (s' & E & H). destruct (modifier (scan_key c)) as [f|] eqn:Em.
  - exists (f (drv s)), s'. split; [done|]. destruct (modifier_frame _ _ (drv s) Em).
    split; [|done]. split; [|done]. rewrite H. apply (set_io_quiet h (set_drv (f (drv s)) s)).
  - exists (drv s), s'. split; [done|]. split; [|done]. apply with_drv_quiet. etrans; [apply (set_io_quiet h)|].
    destruct (_ && _); [|by rewrite H]. destruct H as (t & _ & _ & _ & Q & _). exact Q.
Qed.

Lemma call_device_ok f state s :
  cons_ready s -> device_fn f = true ->
  exists d s', call_isr f state s = (Ok (Ret tt), s') /\ with_drv s d s' /\
    ticks d = (if decide (f = timer_interrupt_handler_fn) then wrap64 (ticks (drv s) + 1) else ticks (drv s)).
Proof.
  intros Hc Hf. destruct f; try discriminate Hf; cbn [call_isr]; unfold returning.
  - exists (set_ticks (wrap64 (ticks (drv s) + 1)) (drv s)). eexists. split; [reflexivity|].
    split; [|done]. by split.
  - destruct (kbd_ok state s Hc) as (d & s' & E & H). exists d, s'. by rewrite (bind_ok _ _ _ _ _ E).
  - destruct (com1_ok s) as (s' & E & H). exists (drv s), s'. rewrite (bind_ok _ _ _ _ _ E).
    split; [done|]. split; [by apply with_drv_quiet|done].
  - destruct (cprintf_fits "%s" [AS ("__ide_int" +:+ nl)] s Hc eq_refl) as (s' & E & H).
    exists (drv s), s'. unfold ide_interrupt_handler, print. rewrite (bind_ok _ _ _ _ _ E).
    split; [done|]. split; [by apply with_drv_quiet|done].
Qed.
End Devices.

(** ** The dispatcher *)

Section Dispatch.
Context `{env : Env}.

(** The state on the stack has vector [n], for which [o] is registered. *)
Definition trapped (state n : Z) (o : option isr_fn) (s : machine) : Prop :=
  off_video state 64 /\ mload32 (mem s) (state + st_int_no) = n /\ 0 <= n < 256 /\
  isr_table (irq s) !! Z.to_nat n = Some o.

Lemma isr_handler_call state n f s :
  trapped state n (Some f) s ->
  isr_handler state s = (r ← call_isr f state;
    match r with
    | Switched intena => mret (Switched intena)
    | Ret _ =>
        if n <? 48 then w ← load32 (state + 36); _ ← pic_send_eoi (wrap8 (w - 32)); mret (Ret tt)
        else mret (Ret tt)
    end) s.
Proof.
  intros ([Hk _] & Hn & Hr & Hf). unfold isr_handler.
  erewrite bind_ok by (apply load32_kernel; unfold st_int_no; kspace_tac). rewrite Hn. mstep.
  rewrite wrap8_small, Hf by done. done.
Qed.

Lemma pic_send_eoi_ok n s :
  32 <= n < 48 -> pic_send_eoi (wrap8 (n - 32)) s = (Ok tt, set_io (eoi n ++ io s) s).
Proof.
  intros Hn. rewrite wrap8_small by lia. unfold pic_send_eoi, eoi.
  destruct (Z.leb_spec 8 (n - 32)), (Z.ltb_spec n 40); try lia; by destruct s.
Qed.

Lemma device_interrupt_ok state n f s :
  cons_ready s -> trapped state n (Some f) s -> 32 <= n < 48 -> device_fn f = true ->
  exists d s1 s', isr_handler state s = (Ok (Ret tt), s') /\ with_drv s d s' /\
    s' = set_io (eoi n ++ io s1) s1 /\
    ticks d = (if decide (f = timer_interrupt_handler_fn) then wrap64 (ticks (drv s) + 1) else ticks (drv s)).
Proof.
  intros Hc Ht Hn Hf. rewrite (isr_handler_call state n f) by done.
  destruct (call_device_ok f state s Hc Hf) as (d & s1 & E & [Q Hl] & Hticks). rewrite (bind_ok _ _ _ _ _ E).
  rewrite (proj2 (Z.ltb_lt _ _)) by lia. destruct Ht as (Ho & Hw & _). pose proof (proj1 Ho) as Hk.
  erewrite bind_ok by (apply load32_kernel; kspace_tac).
  assert (mload32 (mem s1) (state + 36) = n) as ->.
  { rewrite <- Hw. apply (agree_load32 (mem s) (mem s1) (proj2 Q) state 64); unfold st_int_no; (done || lia). }
  rewrite (bind_ok _ _ _ _ _ (pic_send_eoi_ok n s1 Hn)). exists d, s1. eexists. split; [done|].
  split; [|done]. split; [|done]. etrans; [exact Q|apply set_io_quiet].
Qed.


(** ** Reports *)

(** [s'] is [s] after the formats of [r] were printed with their arguments, one
    after the other, and nothing else, up to debugging data. *)
Inductive reports : list (string * list arg) -> machine -> machine -> Prop :=
| reports_nil s s' : s' ≡ s -> reports [] s s'
| reports_cons f args l r s s0 s1 s' :
    s0 ≡ s -> render (bytes_of f) args = Some l -> printed l s0 s1 -> reports r s1 s' ->
    reports ((f, args) :: r) s s'.

Lemma reports_equiv r s0 s s' : s ≡ s0 -> reports r s s' -> reports r s0 s'.
Proof. intros E H. inversion H; subst; [constructor; by etrans|]. econstructor; [by etrans|done..]. Qed.
Lemma reports_app r1 r2 s s1 s2 : reports r1 s s1 -> reports r2 s1 s2 -> reports (r1 ++ r2) s s2.
Proof. intros H1 H2. induction H1; [by eapply reports_equiv|]. econstructor; eauto. Qed.
Lemma reports_quiet r s s' : reports r s s' -> quiet s s'.
Proof.
  induction 1 as [s s' E|f args l r s s0 s1 s' E Hr (t & _ & _ & _ & Q & _) _ IH]; [by apply equiv_quiet|].
  etrans; [by apply equiv_quiet|]. by etrans.
Qed.

(** Code that returns [a] and prints [r], in every state with the RAM [m]. *)
Definition says {A} (m : gmap Z Z) (r : list (string * list arg)) (p : K A) (a : A) : Prop :=
  forall s, cons_ready s -> agree m (mem s) -> exists s', p s = (Ok a, s') /\ reports r s s'.

Lemma says_bind {A B} m r1 r2 (p : K A) (k : A -> K B) a b :
  says m r1 p a -> says m r2 (k a) b -> says m (r1 ++ r2) (mbind k p) b.
Proof.
  intros Hp Hk s Hc Hm. destruct (Hp s Hc Hm) as (s1 & E1 & R1). pose proof (reports_quiet _ _ _ R1) as Q1.
  destruct (Hk s1) as (s2 & E2 & R2); [by apply (quiet_cons_ready s)| |].
  { intros x Hx Hv. rewrite (proj2 Q1) by done. by apply Hm. }
  exists s2. split; [by rewrite (bind_ok _ _ _ _ _ E1)|by eapply reports_app].
Qed.
Lemma says_load32 m a : off_video a 4 -> says m [] (load32 a) (mload32 m a).
Proof.
  intros Ha s _ Hm. exists s. split; [|by constructor]. rewrite load32_kernel by apply Ha.
  by rewrite (agree_load32 m (mem s) Hm a 4) by (done || lia).
Qed.
Lemma says_cprintf m f args : fits (bytes_of f) args = true -> says m [(f, args)] (cprintf (Some f) args) tt.
Proof.
  intros [l Hl]%fits_render s Hc _. destruct (cprintf_printed f args l s Hc Hl) as (s' & E & Hp).
  exists s'. split; [done|]. econstructor; [reflexivity|done|done|by constructor].
Qed.

Ltac says_tac :=
  match goal with
  | |- says _ _ (mbind _ (load32 _)) _ => eapply (says_bind _ []); [apply says_load32; off_tac|says_tac]
  | |- says _ (?x :: _) (mbind _ (cprintf _ _)) _ => apply (says_bind _ [x] _ _ _ tt); [by apply says_cprintf|says_tac]
  | |- says _ _ (cprintf _ _) _ => by apply says_cprintf
  end
with off_tac :=
  unfold off_video, st_ds, st_eax, st_int_no, st_err_code, st_eip, st_cs, st_eflags, st_esp, st_ss in *;
  split; [kspace_tac|lia].

(** The lines [print_interrupt_state] prints for a process with this pid and
    name, and the line [isr_handler] adds. *)
Definition interrupt_report (m : gmap Z Z) (state pid : Z) (name : string) : list (string * list arg) :=
  let w o := AW (mload32 m (state + o)) in
  [("INFO: interrupt state:" +:+ nl, []);
   ("  Current process: %d - %s" +:+ nl, [AW pid; AS name]);
   ("  INT#: %d  ERR_CODE: %x" +:+ nl, [w st_int_no; w st_err_code]);
   ("  EAX: %x  EIP: %x  ESP: %x" +:+ nl, [w st_eax; w st_eip; w st_esp]);
   ("   DS: %x   CS: %x   SS: %x" +:+ nl, [w st_ds; w st_cs; w st_ss]);
   ("  EFLAGS: %x" +:+ nl, [w st_eflags])].
Definition missing_handler (n : Z) : string * list arg :=
  ("missing handler for ISR interrupt # %d" +:+ nl, [AW n]).

Lemma print_interrupt_state_ok state s i q :
  kernel_ready s -> off_video state 64 -> cpu_proc (cpu0 s) = Some i -> proc (ptable s) !! i = Some q -> 0 ∈ p_name q ->
  exists s', print_interrupt_state state s = (Ok tt, s') /\
    reports (interrupt_report (mem s) state (pid q) (string_of (until_nul (p_name q)))) s s'.
Proof.
  intros Hr Ho Hp Hi Hnul. pose proof (proj2 (proj2 Hr)) as Hc. unfold print_interrupt_state, info.
  destruct (says_cprintf (mem s) ("INFO: " +:+ "interrupt state:" +:+ nl) [] eq_refl s Hc) as (s1 & E1 & R1); [done|].
  pose proof (reports_quiet _ _ _ R1) as Q1. rewrite (bind_ok _ _ _ _ _ E1).
  destruct (myproc_quiet s1 i) as (s2 & E2 & H2); [by apply (quiet_ready s)|by rewrite (quiet_cpu_proc _ _ Q1)|].
  rewrite (bind_ok _ _ _ _ _ E2). assert (quiet s s2) as Q2 by (etrans; [exact Q1|by apply equiv_quiet]).
  assert (proc_pid_name (Some i) s2 = (Ok (pid q, AS (string_of (until_nul (p_name q)))), s2)) as E3.
  { unfold proc_pid_name. mstep. assert (get_proc i s2 = q) as -> by
      (rewrite (quiet_get_proc _ _ _ Q2); unfold get_proc; by rewrite Hi). by rewrite bool_decide_eq_true_2. }
  rewrite (bind_ok _ _ _ _ _ E3). cbn [fst snd]. set (name := string_of _). clearbody name.
  match goal with |- context [?p s2 = _] =>
    assert (says (mem s) (drop 1 (interrupt_report (mem s) state (pid q) name)) p tt) as Ht end.
  { unfold interrupt_report. cbv zeta. cbn [drop]. says_tac. }
  destruct (Ht s2 (quiet_cons_ready _ _ Q2 Hc) (proj2 Q2)) as (s3 & E & R3). exists s3. split; [done|].
  apply (reports_app [_] _ s s1 s3 R1). by apply (reports_equiv _ s1 s2).
Qed.

(** Reading the process through a null pointer. *)
Lemma null_process_faults s : xlate s 16 false = None -> proc_pid_name None s = page_fault 16 s.
Proof.
  intros Hx. unfold proc_pid_name, load16, load8, mbind, M_bind. rewrite Hx. unfold page_fault.
  by destruct (isr_table (irq s) !! 14%nat) as [[[]|]|].
Qed.

Lemma unhandled_ok state n s :
  kernel_ready s -> trapped state n None s ->
  (forall i q, cpu_proc (cpu0 s) = Some i -> proc (ptable s) !! i = Some q -> 0 ∈ p_name q ->
     exists s', isr_handler state s = (Panic "isr_handler", s') /\
       reports (interrupt_report (mem s) state (pid q) (string_of (until_nul (p_name q))) ++ [missing_handler n]) s s') /\
  (cpu_proc (cpu0 s) = None -> (forall s', quiet s s' -> xlate s' 16 false = None) ->
     exists s', isr_handler state s = page_fault 16 s' /\ reports [("INFO: interrupt state:" +:+ nl, [])] s s').
Proof.
  intros Hr (Ho & Hw & Hn & Ht). pose proof (proj1 Ho) as Hk. pose proof (proj2 (proj2 Hr)) as Hc. unfold isr_handler.
  erewrite bind_ok by (apply load32_kernel; unfold st_int_no; kspace_tac). rewrite Hw. mstep.
  rewrite wrap8_small, Ht by done. split.
  - intros i q Hp Hi Hnul. destruct (print_interrupt_state_ok state s i q Hr Ho Hp Hi Hnul) as (s1 & E1 & R1).
    pose proof (reports_quiet _ _ _ R1) as Q1.
    destruct (says_cprintf (mem s) ("missing handler for ISR interrupt # %d" +:+ nl) [AW n] eq_refl s1
      (quiet_cons_ready _ _ Q1 Hc) (proj2 Q1)) as (s2 & E2 & R2).
    exists s2. split; [|by eapply reports_app]. unfold mbind at 1, M_bind at 1.
    rewrite (bind_ok _ _ _ _ _ E1), (bind_ok _ _ _ _ _ E2). done.
  - intros Hp Hx. unfold print_interrupt_state, info.
    destruct (says_cprintf (mem s) ("INFO: " +:+ "interrupt state:" +:+ nl) [] eq_refl s Hc) as (s1 & E1 & R1); [done|].
    pose proof (reports_quiet _ _ _ R1) as Q1.
    destruct Hr as (Hirq & _). destruct (quiet_irq_ok _ _ Q1 Hirq) as [Hn1 HI1].
    pose proof (myproc_ok s1 Hn1) as E2. rewrite (quiet_cpu_proc _ _ Q1), Hp in E2.
    set (s2 := popcli_state (pushcli_state s1)) in *. assert (s2 ≡ s1) as H2 by (by apply pop_push_equiv).
    assert (quiet s s2) as Q2 by (etrans; [exact Q1|by apply equiv_quiet]).
    exists s2. split; [|apply (reports_app [_] [] s s1 s2 R1); by constructor].
    unfold mbind, M_bind. rewrite E1, E2, (null_process_faults s2 (Hx s2 Q2)). unfold page_fault.
    by destruct (isr_table (irq s2) !! 14%nat) as [[[]|]|].
Qed.

End Dispatch.

(** *** Witnesses *)

(** The demonstration process interrupted by vector [n], with a handler for the
    timer only. *)
Definition demo_trap (n : Z) : machine :=
  set_irq (mkIrq (replicate 256 zero_idt_entry) (<[32%nat := Some timer_interrupt_handler_fn]> (replicate 256 None)))
    (set_mem (mstore32 demo_user_ram 0x80203fe4 n) demo_user).


