(* ===== verification/Sched.v ===== *)
(** * Sched: the kernel running processes ([scheduler], [swtch], traps)

    The pieces of [proc.c] between two switches, the interrupt dispatcher and
    the processes are composed into a transition system: a configuration is a
    place of the control flow and a machine.  The environment chooses which
    interrupts come and when, what processes write and which calls they make. *)

From S2P Require Import Prelude Machine Layout Cstring Spinlock Uart Screen Kalloc Idt Gdt Pic Acpi Kbd Paging Proc Syscall Ide Trap.

(** Where the processor is: in [scheduler] before [sti], between [sti] and
    [acquire], in its inner loop at slot [i], or after its [swtch] came back
    from the process in slot [i]; at the start of [enter_process], on the way to
    the first instruction of that process; at the entry of a system call of the
    process, with the interrupt state on its kernel stack; at [trapret], on the
    way back to the process; or in the process itself. *)
Inductive control : Type :=
| Top | Open | Scan (i : nat) | Back (i : nat) | Start (i : nat) | Gate (i : nat) | Trapret (i : nat) | User (i : nat).

(** The process on whose behalf the processor runs. *)
Definition slot (c : control) : option nat :=
  match c with
  | Top | Open | Scan _ => None
  | Back i | Start i | Gate i | Trapret i | User i => Some i
  end.

(** What happens: the kernel runs on, the process writes into its memory or
    makes a system call, an interrupt comes in on a line of the interrupt
    controllers, or the process causes an exception. *)
Inductive event : Type :=
| Run | Write | Syscall | Irq (n : Z) | Exception (n : Z).

Section WithEnv.
Context `{env : Env}.

(** [iret], at the end of isr.asm: the flags come from the interrupt state. *)
Definition iret (state : Z) : K unit :=
  e ← load32 (state + st_eflags);
  modify (upd_eflags (fun _ => e)).

(** The code the kernel runs next on its own. *)
Definition exec (c : control) : K control :=
  match c with
  | Top => _ ← sti; mret Open
  | Open => _ ← acquire PTABLE_LOCK; mret (Scan 0)
  | Scan i =>
      if (i <? 64)%nat then
        switched ← scheduler_pick i;
        mret (if (switched : bool) then Start i else Scan (S i))
      else _ ← scheduler_bottom; mret Top
  | Back i => _ ← scheduler_back; mret (Scan (S i))
  | Start i => _ ← enter_process; mret (Trapret i)
  | Gate i =>
      q ← gets (get_proc i);
      r ← isr_handler (tf q);
      mret (match r with Ret _ => Trapret i | Switched _ => Back i end)
  | Trapret i => q ← gets (get_proc i); _ ← iret (tf q); mret (User i)
  | User i => mret (User i)
  end.

(** An interrupt or an exception, with its state at [state]: the dispatcher
    runs with interrupts disabled, and returns to the place [c]. *)
Definition trap (c : control) (state : Z) : K control :=
  r ← isr_handler state;
  match r, slot c with
  | Switched _, Some i => mret (Back i)
  | _, _ => _ ← iret state; mret c
  end.

End WithEnv.

(** What the hardware and the stub of vector [n] do: they write the interrupt
    state, the saved flags among it, into the [size] bytes at [state]; 64 bytes
    out of user mode, and 56 out of the kernel, whose stack pointer is not
    saved. *)
Definition pushed (state size n : Z) (s : machine) (m' : gmap Z Z) : Prop :=
  mload32 m' (state + st_int_no) = n /\ mload32 m' (state + st_eflags) = wrap32 (eflags (cpu_regs s)) /\
  forall b, 0 <= b < 4294967296 -> ~ state <= b < state + size -> mload8 m' b = mload8 (mem s) b.
(** The gates of interrupts and exceptions disable interrupts; the gate of
    system calls does not. *)
Definition disabled (m' : gmap Z Z) (s : machine) : machine := upd_eflags (fun e => Z.ldiff e FL_IF) (set_mem m' s).

(** Where the state of an interrupt lies.  A process enters the kernel at the
    top of its kernel stack; the kernel itself is interrupted on the stack it is
    on, below the interrupt state of the process in use: on [trapret] below the
    part of it that [iret] pops.  [stack] is the stack of the scheduler, from its
    lowest byte to the byte after its last. *)
Definition frame_at (stack : Z * Z) (c : control) (s : machine) (state size : Z) : Prop :=
  match c with
  | Top | Open => size = 56 /\ stack.1 <= state /\ state + 64 <= stack.2
  | Gate i => exists q, proc (ptable s) !! i = Some q /\ size = 56 /\ kstack q <= state /\ state + 56 <= tf q
  | Trapret i =>
      exists q, proc (ptable s) !! i = Some q /\ size = 56 /\ kstack q <= state /\ state + 56 <= tf q + st_eip
  | User i => exists q, proc (ptable s) !! i = Some q /\ size = 64 /\ state = kstack q + 4032
  | Scan _ | Back _ | Start _ => False
  end.

(** The bytes user code can write with the directory [pgdir]. *)
Definition user_writable (m : gmap Z Z) (pgdir b : Z) : Prop :=
  exists va pa, 0 <= va < 4294967296 /\ mmu_walk m (V2P pgdir) va = Some (pa, true, true) /\ b = pa + KERNBASE.

(** One transition.  Interrupts come in wherever they are enabled, on every
    line, whether a handler is registered for it or not. *)
Inductive step `{env : Env} (stack : Z * Z) : event -> control * machine -> result control * machine -> Prop :=
| step_run c s :
    step stack Run (c, s) (exec c s)
| step_write i s q m' e :
    proc (ptable s) !! i = Some q -> Z.testbit e 9 = IF s ->
    (forall b, 0 <= b < 4294967296 -> ~ user_writable (mem s) (pgdir q) b -> mload8 m' b = mload8 (mem s) b) ->
    step stack Write (User i, s) (Ok (User i), upd_eflags (fun _ => e) (set_mem m' s))
| step_syscall i s q m' :
    proc (ptable s) !! i = Some q -> pushed (kstack q + 4032) 64 64 s m' ->
    step stack Syscall (User i, s) (Ok (Gate i), set_mem m' s)
| step_irq n c s state size m' :
    32 <= n < 48 -> IF s = true -> frame_at stack c s state size -> pushed state size n s m' ->
    step stack (Irq n) (c, s) (trap c state (disabled m' s))
| step_exception n i s state size m' :
    0 <= n < 32 -> frame_at stack (User i) s state size -> pushed state size n s m' ->
    step stack (Exception n) (User i, s) (trap (User i) state (disabled m' s)).

(** The configurations of a run. *)
Inductive reachable `{env : Env} (stack : Z * Z) (c0 : control * machine) : control * machine -> Prop :=
| reachable_refl : reachable stack c0 c0
| reachable_step e c s c' s' :
    reachable stack c0 (c, s) -> step stack e (c, s) (Ok c', s') -> reachable stack c0 (c', s').

(** The events that stop the kernel, with the message of its panic: an
    interrupt on a line no driver registered for - in the scheduler already its
    report fails, for want of a process - and every exception of a process. *)
Definition fatal (c : control) (e : event) : option string :=
  match e with
  | Run | Write | Syscall => None
  | Irq n =>
      if decide (n ∈ [32; 33; 36; 46]) then None
      else Some (match slot c with None => "page fault not handled!" | Some _ => "isr_handler" end)%string
  | Exception n =>
      Some (if decide (n = 13) then "protection fault not handled!"
            else if decide (n = 14) then "page fault not handled!" else "isr_handler")%string
  end.

(** ** Handlers *)

(** The handlers [hs] are registered, in order, in the table [t]. *)
Definition handlers (hs : list (nat * isr_fn)) (t : list (option isr_fn)) : list (option isr_fn) :=
  foldl (fun t h => <[h.1 := Some h.2]> t) t hs.

(** The handlers of the running system, in the order [main] registers them. *)
Definition boot_handlers : list (nat * isr_fn) :=
  [(13%nat, protection_fault_handler_fn); (32%nat, timer_interrupt_handler_fn); (33%nat, kbd_interrupt_handler_fn);
   (14%nat, page_fault_handler_fn); (36%nat, com1_interrupt_handler_fn); (64%nat, syscall_handler_fn);
   (46%nat, ide_interrupt_handler_fn)].
Definition system_table : list (option isr_fn) := handlers boot_handlers (replicate 256 None).

(** ** Memory of the processes *)

(** A process that was started; nothing frees the memory of one that exited. *)
Definition live (q : process) : Prop := p_state q = RUNNABLE \/ p_state q = RUNNING \/ p_state q = ZOMBIE.

Definition table_byte (m : gmap Z Z) (pgdir b : Z) : Prop := exists p, pd_page m pgdir p /\ p <= b < p + PGSIZE.

(** A directory that translates the upper half of the addresses the way
    [setupkvm] sets it up. *)
Definition kernel_half `{env : Env} (v : vm_t) (m : gmap Z Z) (pd : Z) : Prop :=
  pgdir_wf m pd [] /\ forall va, KERNBASE <= va < 4294967296 ->
    mmu_walk m (V2P pd) va = (fun pa => (pa, true, false)) <$> kernel_va v va.

(** The rest of the address space of a process, and its kernel stack. *)
Record space `{env : Env} (m : gmap Z Z) (q : process) : Prop := {
  sp_sz : 0 <= sz q <= KERNBASE;
  sp_mapped va : 0 <= va < sz q -> exists pa w,
    mmu_walk m (V2P (pgdir q)) va = Some (pa, w, true) /\ 0 <= pa + KERNBASE < 4294967296 /\ ~ in_video (pa + KERNBASE);
  sp_kstack : is_page (kstack q);
  sp_tf : tf q = kstack q + 4032;
  sp_name : 0 ∈ p_name q;
}.

(** The directories in use: the kernel's and those of the processes. *)
Definition root (v : vm_t) (P : list process) (pd : Z) : Prop :=
  pd = kpgdir v \/ exists i q, P !! i = Some q /\ live q /\ pgdir q = pd.

(** Out of reach: of the stack of the scheduler, of the kernel stacks and of
    what processes can write. *)
Definition apart (stack : Z * Z) (m : gmap Z Z) (P : list process) (b : Z) : Prop :=
  ~ stack.1 <= b < stack.2 /\
  forall j q, P !! j = Some q -> live q -> ~ kstack q <= b < kstack q + PGSIZE /\ ~ user_writable m (pgdir q) b.

Record mem_ok `{env : Env} (stack : Z * Z) (v : vm_t) (m : gmap Z Z) (P : list process) : Prop := {
  mo_half pd : root v P pd -> kernel_half v m pd;
  mo_apart pd b : root v P pd -> table_byte m pd b -> apart stack m P b;
  mo_space i q : P !! i = Some q -> live q -> space m q;
  mo_null : mmu_walk m (V2P (kpgdir v)) 16 = None;
}.

(** Memory with the same directories. *)
Definition same_tables (m m' : gmap Z Z) (pgdir : Z) : Prop :=
  forall b, table_byte m pgdir b -> mload8 m' b = mload8 m b.

Section Tables.
Context `{env : Env} (m m' : gmap Z Z) (pgdir : Z) (Hwf : pgdir_wf m pgdir []) (Hs : same_tables m m' pgdir).

Lemma same_tables_word p i : pd_page m pgdir p -> 0 <= i < 1024 -> mload32 m' (p + 4 * i) = mload32 m (p + 4 * i).
Proof.
  intros Hp Hi. unfold mload32. by rewrite !Hs by (exists p; split; [done|unfold PGSIZE; lia]).
Qed.
Lemma same_tables_pde i : 0 <= i < 1024 -> pde_at m' pgdir i = pde_at m pgdir i.
Proof. intros Hi. apply same_tables_word; [by left|done]. Qed.
Lemma same_tables_wf : pgdir_wf m' pgdir [].
Proof. eapply pgdir_wf_ext; [exact Hwf|apply same_tables_pde|done]. Qed.
Lemma same_tables_walk va : 0 <= va < 4294967296 -> mmu_walk m' (V2P pgdir) va = mmu_walk m (V2P pgdir) va.
Proof.
  intros Hva. rewrite (mmu_walk_pte m' _ []), (mmu_walk_pte m _ []) by (done || apply same_tables_wf).
  replace (pte_at m' pgdir va) with (pte_at m pgdir va); [done|]. unfold pte_at.
  rewrite same_tables_pde by apply PDX_range. destruct (present _) eqn:Ep; [|done]. symmetry.
  apply same_tables_word; [|apply PTX_range]. right. exists (PDX va). split; [apply PDX_range|]. done.
Qed.
Lemma same_tables_byte b : table_byte m' pgdir b -> table_byte m pgdir b.
Proof.
  intros (p & [->|(i & Hi & Hp & ->)] & Hb); [by exists pgdir; split; [left|]|].
  rewrite same_tables_pde in Hp, Hb by done. eexists. split; [|exact Hb]. right. by exists i.
Qed.
Lemma same_tables_writable b : user_writable m' pgdir b -> user_writable m pgdir b.
Proof. intros (va & pa & Hva & E & ->). exists va, pa. by rewrite same_tables_walk in E. Qed.
End Tables.

Lemma live_root v P i q : P !! i = Some q -> live q -> root v P (pgdir q).
Proof. intros Hi Hl. right. by exists i, q. Qed.
#[local] Hint Resolve live_root : core.

Lemma kernel_half_same `{env : Env} v m m' pd : kernel_half v m pd -> same_tables m m' pd -> kernel_half v m' pd.
Proof.
  intros [Hwf Hw] Hs. split; [by apply (same_tables_wf m)|]. intros va Hva.
  rewrite (same_tables_walk m) by (done || unfold KERNBASE in *; lia). by apply Hw.
Qed.
Lemma space_same `{env : Env} m m' q :
  pgdir_wf m (pgdir q) [] -> space m q -> same_tables m m' (pgdir q) -> space m' q.
Proof.
  intros Hwf [H2 H3 H4 H5 H6] Hs. split; [done| |done..].
  intros va Hva. destruct (H3 va Hva) as (pa & w & E & H). exists pa, w. split; [|done].
  rewrite (same_tables_walk m) by (done || unfold KERNBASE in *; lia). done.
Qed.

Lemma mem_ok_same `{env : Env} stack v m m' P :
  mem_ok stack v m P -> (forall pd, root v P pd -> same_tables m m' pd) -> mem_ok stack v m' P.
Proof.
  intros [M1 M2 M3 M4] Hs. split.
  - intros pd Hp. apply (kernel_half_same v m); auto.
  - intros pd b Hp Hb. apply (same_tables_byte m) in Hb; [|auto]. destruct (M2 pd b Hp Hb) as [Hst Hj].
    split; [done|]. intros j q Hq Hl. destruct (Hj j q Hq Hl) as [Hk Hu]. split; [done|]. intros Hw. apply Hu.
    apply (same_tables_writable m m'); [apply (M1 (pgdir q)); eauto|apply Hs; eauto|done].
  - intros i q Hi Hl. apply (space_same m); [apply (M1 (pgdir q)); eauto|by eapply M3|apply Hs; eauto].
  - rewrite (same_tables_walk m); [done|apply (M1 (kpgdir v)); by left|apply Hs; by left|lia].
Qed.

(** A process keeps its memory while it lives. *)
Definition keeps_space (f : process -> process) : Prop :=
  forall q, pgdir (f q) = pgdir q /\ kstack (f q) = kstack q /\ sz (f q) = sz q /\ p_name (f q) = p_name q.

Lemma mem_ok_alter `{env : Env} stack v m P i f :
  mem_ok stack v m P -> keeps_space f ->
  (forall q, P !! i = Some q -> live (f q) -> live q /\ tf (f q) = tf q) ->
  mem_ok stack v m (alter f i P).
Proof.
  intros [M1 M2 M3 M4] Hf Hl.
  assert (forall j q, alter f i P !! j = Some q -> live q -> exists q0, P !! j = Some q0 /\ live q0 /\
    pgdir q = pgdir q0 /\ kstack q = kstack q0 /\ sz q = sz q0 /\ tf q = tf q0 /\ p_name q = p_name q0) as Hold.
  { intros j q Hj Hq. destruct (decide (i = j)) as [<-|Hne].
    - rewrite list_lookup_alter_eq in Hj. destruct (P !! i) as [q0|] eqn:E; [|done]. injection Hj as <-.
      destruct (Hl q0 eq_refl Hq) as [Hq0 Ht]. destruct (Hf q0) as (E1 & E2 & E3 & E4). by exists q0.
    - rewrite list_lookup_alter_ne in Hj by done. by exists q. }
  assert (forall pd, root v (alter f i P) pd -> root v P pd) as Hr.
  { intros pd [->|(j & q & Hj & Hq & <-)]; [by left|]. destruct (Hold j q Hj Hq) as (q0 & Hj0 & Hq0 & -> & _). eauto. }
  split; [auto| | |done].
  - intros pd b Hp Hb. destruct (M2 pd b (Hr _ Hp) Hb) as [Hst Hk]. split; [done|]. intros k q' Hk' Hq'.
    destruct (Hold k q' Hk' Hq') as (q0' & Hk0 & Hq0' & -> & -> & _). by apply (Hk k).
  - intros j q Hj Hq. destruct (Hold j q Hj Hq) as (q0 & Hj0 & Hq0 & E1 & E2 & E3 & E4 & E5).
    destruct (M3 j q0 Hj0 Hq0) as [S1 S2 S3 S4 S5]. split; rewrite ?E1, ?E2, ?E3, ?E4, ?E5; done.
Qed.

Lemma table_byte_range `{env : Env} m pd b : pgdir_wf m pd [] -> table_byte m pd b -> 0 <= b < 4294967296 /\ ~ in_video b.
Proof.
  intros Hwf (p & Hp & Hb). destruct (pd_page_wf _ _ _ _ Hwf Hp) as [Hpg _].
  assert (vidmem = 0x800b8000) as Ev by reflexivity. unfold in_video, is_page, PGSIZE, KERNBASE in *. lia.
Qed.

(** Writes that stay in [R] and out of the directories. *)
Lemma mem_ok_away `{env : Env} stack v m m' P (R : Z -> Prop) :
  mem_ok stack v m P -> (forall b, 0 <= b < 4294967296 -> ~ R b -> mload8 m' b = mload8 m b) ->
  (forall pd b, root v P pd -> table_byte m pd b -> ~ R b) -> mem_ok stack v m' P.
Proof.
  intros Hm Hw HR. apply (mem_ok_same _ _ m); [done|]. intros pd Hp b Hb.
  apply Hw; [|by apply (HR pd)]. by apply (table_byte_range m pd); [apply (mo_half _ _ _ _ Hm pd Hp)|].
Qed.
Lemma mem_ok_video `{env : Env} stack v m m' P : mem_ok stack v m P -> agree m m' -> mem_ok stack v m' P.
Proof.
  intros Hm Ha. apply (mem_ok_away _ _ m _ _ in_video); [done|done|]. intros pd b Hp Hb.
  by apply (table_byte_range m pd); [apply (mo_half _ _ _ _ Hm pd Hp)|].
Qed.
Lemma mem_ok_kstack `{env : Env} stack v m m' P i q :
  mem_ok stack v m P -> P !! i = Some q -> live q ->
  (forall b, 0 <= b < 4294967296 -> ~ kstack q <= b < kstack q + PGSIZE -> mload8 m' b = mload8 m b) ->
  mem_ok stack v m' P.
Proof.
  intros Hm Hi Hq Hw. apply (mem_ok_away _ _ m _ _ (fun b => kstack q <= b < kstack q + PGSIZE)); [done|done|].
  intros pd b Hp Hb. by apply (proj2 (mo_apart _ _ _ _ Hm pd b Hp Hb) i).
Qed.
Lemma mem_ok_user `{env : Env} stack v m m' P i q :
  mem_ok stack v m P -> P !! i = Some q -> live q ->
  (forall b, 0 <= b < 4294967296 -> ~ user_writable m (pgdir q) b -> mload8 m' b = mload8 m b) -> mem_ok stack v m' P.
Proof.
  intros Hm Hi Hq Hw. apply (mem_ok_away _ _ m _ _ (user_writable m (pgdir q))); [done|done|].
  intros pd b Hp Hb. by apply (proj2 (mo_apart _ _ _ _ Hm pd b Hp Hb) i).
Qed.
Lemma mem_ok_stack `{env : Env} stack v m m' P :
  mem_ok stack v m P -> (forall b, 0 <= b < 4294967296 -> ~ stack.1 <= b < stack.2 -> mload8 m' b = mload8 m b) ->
  mem_ok stack v m' P.
Proof.
  intros Hm Hw. apply (mem_ok_away _ _ m _ _ (fun b => stack.1 <= b < stack.2)); [done|done|].
  intros pd b Hp Hb. apply (mo_apart _ _ _ _ Hm pd b Hp Hb).
Qed.

(** ** The invariant *)

(** The directories map the memory there is at its kernel addresses, and below
    the devices nothing else. *)
Definition memory_mapped `{env : Env} (v : vm_t) : Prop :=
  forall va, KERNBASE <= va < 4294967296 ->
    if kmapped va then kernel_va v va = Some (va - KERNBASE) else va < DEVSPACE -> kernel_va v va = None.

(** What holds wherever the processor is. *)
Record base `{env : Env} (stack : Z * Z) (s : machine) : Prop := {
  b_len : length (proc (ptable s)) = 64%nat;
  b_mem : mem_ok stack (vm s) (mem s) (proc (ptable s));
  b_map : memory_mapped (vm s);
  b_cons : locking (cons s) = 0 \/ lock_free CONS_LOCK s;
}.

(** No lock held, or exactly the lock of the table. *)
Definition unlocked (s : machine) : Prop := ncli (cpu0 s) = 0 /\ lock_free PTABLE_LOCK s.
Definition held (s : machine) : Prop := ncli (cpu0 s) = 1 /\ IF s = false /\ lock_held PTABLE_LOCK s.

Definition none_running (s : machine) : Prop :=
  forall j q, proc (ptable s) !! j = Some q -> p_state q <> RUNNING.
(** No process on the processor, and the kernel's own address space. *)
Definition idle (s : machine) : Prop :=
  cpu_proc (cpu0 s) = None /\ none_running s /\ cr3 (cpu_regs s) = V2P (kpgdir (vm s)).
(** The process in slot [i] runs, alone, in its address space. *)
Definition running_in (s : machine) (i : nat) : Prop :=
  cpu_proc (cpu0 s) = Some i /\ exists q, proc (ptable s) !! i = Some q /\ p_state q = RUNNING /\
    cr3 (cpu_regs s) = V2P (pgdir q) /\
    forall j q', proc (ptable s) !! j = Some q' -> p_state q' = RUNNING -> j = i.
(** It has switched away, and its address space is still there. *)
Definition departed (s : machine) (i : nat) : Prop :=
  none_running s /\ exists q, proc (ptable s) !! i = Some q /\ live q /\ cr3 (cpu_regs s) = V2P (pgdir q).
(** It has made a system call. *)
Definition calling (s : machine) (i : nat) : Prop :=
  forall q, proc (ptable s) !! i = Some q -> mload32 (mem s) (tf q + st_int_no) = 64.

Definition inv `{env : Env} (stack : Z * Z) (c : control) (s : machine) : Prop :=
  base stack s /\ isr_table (irq s) = system_table /\
  match c with
  | Top | Open => unlocked s /\ idle s
  | Scan _ => held s /\ idle s
  | Back i => held s /\ departed s i
  | Start i => held s /\ running_in s i
  | Gate i => unlocked s /\ running_in s i /\ calling s i
  | Trapret i | User i => unlocked s /\ running_in s i
  end.

(** The translation of the MMU with the directory in CR3. *)
Definition mmu_xlate (s : machine) (va : Z) (write : bool) : option Z :=
  match mmu_walk (mem s) (cr3 (cpu_regs s)) va with
  | Some (pa, w, _) => if write && negb w then None else Some (pa + KERNBASE)
  | None => None
  end.
(** Kernel code accesses memory at the addresses [xlate] gives: they are those
    the MMU gives, for memory and below the devices. *)
Definition direct_map `{env : Env} (s : machine) : Prop :=
  forall va w, 0 <= va < 4294967296 -> kmapped va = true \/ va < DEVSPACE -> xlate s va w = mmu_xlate s va w.

Section Parts.
Context `{env : Env}.

Lemma acquired_same s :
  let s' := acquired PTABLE_LOCK s in
  proc (ptable s') = proc (ptable s) /\ vm s' = vm s /\ irq s' = irq s /\ cons s' = cons s /\ mem s' = mem s /\
  cr3 (cpu_regs s') = cr3 (cpu_regs s) /\ cpu_proc (cpu0 s') = cpu_proc (cpu0 s).
Proof. cbn. by destruct (ncli (cpu0 s) =? 0). Qed.
Lemma released_same s :
  let s' := released PTABLE_LOCK s in
  proc (ptable s') = proc (ptable s) /\ vm s' = vm s /\ irq s' = irq s /\ cons s' = cons s /\ mem s' = mem s /\
  cr3 (cpu_regs s') = cr3 (cpu_regs s) /\ cpu_proc (cpu0 s') = cpu_proc (cpu0 s).
Proof. unfold released, popcli_state. by destruct (_ && _). Qed.

Lemma acquired_held s : unlocked s -> held (acquired PTABLE_LOCK s).
Proof.
  intros [Hn [Hl Hc]]. destruct (acquired_parts PTABLE_LOCK s) as (E1 & _ & _ & E4 & E5).
  split; [lia|]. split; [done|]. unfold lock_held. by rewrite E1.
Qed.
Lemma released_unlocked s : held s -> unlocked (released PTABLE_LOCK s).
Proof.
  intros (Hn & HI & _). unfold released. match goal with |- unlocked (popcli_state (put_lock _ ?k _)) => set (lk := k) end.
  destruct (popcli_state_parts (put_lock PTABLE_LOCK lk s)) as (E1 & _ & E3 & _). split.
  - rewrite E3. change (ncli (cpu0 (put_lock PTABLE_LOCK lk s))) with (ncli (cpu0 s)). lia.
  - unfold lock_free. rewrite E1. split; done.
Qed.
Lemma held_release s : held s -> release PTABLE_LOCK s = (Ok tt, released PTABLE_LOCK s).
Proof.
  intros (Hn & HI & Hl & Hc). apply release_ok; [done|lia|]. unfold holdsb. rewrite Hl, Hc. done.
Qed.
Lemma unlocked_irq_ok s : unlocked s -> irq_ok s.
Proof. intros [Hn _]. split; [lia|]. lia. Qed.
Lemma unlocked_ready stack s : base stack s -> unlocked s -> kernel_ready s.
Proof.
  intros HB Hu. pose proof (unlocked_irq_ok s Hu). split; [done|]. split; [apply Hu|]. split; [done|apply HB].
Qed.
End Parts.

(** ** What a step does to the table *)

(** How the state of a process changes: it is dispatched, and it exits. *)
Inductive advance : process_state -> process_state -> Prop :=
| adv_stay x : advance x x
| adv_dispatch : advance RUNNABLE RUNNING
| adv_exit : advance RUNNING ZOMBIE.
Definition table_step (P P' : list process) : Prop :=
  length P' = length P /\ forall j q q', P !! j = Some q -> P' !! j = Some q' ->
    advance (p_state q) (p_state q') /\ pid q' = pid q /\ sz q' = sz q.

Lemma table_step_refl P : table_step P P.
Proof. split; [done|]. intros j q q' -> [= ->]. split; [constructor|done]. Qed.
Lemma table_step_alter i f P :
  (forall q, P !! i = Some q -> advance (p_state q) (p_state (f q)) /\ pid (f q) = pid q /\ sz (f q) = sz q) ->
  table_step P (alter f i P).
Proof.
  intros Hf. split; [by rewrite length_alter|]. intros j q q' Hj. destruct (decide (i = j)) as [<-|Hne].
  - rewrite list_lookup_alter_eq, Hj. intros [= <-]. by apply Hf.
  - rewrite list_lookup_alter_ne, Hj by done. intros [= <-]. split; [constructor|done].
Qed.

(** ** What keeps the invariant *)

(** [s'] has the processes, the locks and the address space of [s]. *)
Record keeps (s s' : machine) : Prop := {
  kp_proc : proc (ptable s') = proc (ptable s);
  kp_vm : vm s' = vm s;
  kp_irq : irq s' = irq s;
  kp_cr3 : cr3 (cpu_regs s') = cr3 (cpu_regs s);
  kp_cpu_proc : cpu_proc (cpu0 s') = cpu_proc (cpu0 s);
  kp_unlocked : unlocked s -> unlocked s';
  kp_cons : locking (cons s) = 0 \/ lock_free CONS_LOCK s -> locking (cons s') = 0 \/ lock_free CONS_LOCK s';
}.

Lemma quiet_keeps s s' : quiet s s' -> keeps s s'.
Proof.
  intros Q. split.
  - apply (quiet_proc _ _ Q).
  - apply (quiet_vm _ _ Q).
  - apply (quiet_irq _ _ Q).
  - by rewrite (quiet_regs _ _ Q).
  - apply (quiet_cpu_proc _ _ Q).
  - intros [Hn Hl]. split; [by rewrite (quiet_ncli _ _ Q)|by apply (quiet_lock_free s)].
  - intros [H|H]; [left|right; by apply (quiet_lock_free s)].
    rewrite <- H. exact (f_equal (fun x => locking (cons x)) (proj1 Q)).
Qed.
Lemma eflags_keeps f s : keeps s (upd_eflags f s).
Proof. by split. Qed.
Lemma mem_keeps m s : keeps s (set_mem m s).
Proof. by split. Qed.
Lemma drv_keeps d s : keeps s (set_drv d s).
Proof. by split. Qed.

(** The places where interrupts may be enabled. *)
Definition open (c : control) : bool :=
  match c with Top | Open | Gate _ | Trapret _ | User _ => true | Scan _ | Back _ | Start _ => false end.

Section Keeps.
Context `{env : Env} (stack : Z * Z).

Lemma base_same s s' :
  base stack s -> proc (ptable s') = proc (ptable s) -> vm s' = vm s -> mem s' = mem s -> cons s' = cons s -> base stack s'.
Proof.
  intros [B1 B2 B3 B4] E1 E2 E4 E5. split; rewrite ?E1, ?E2, ?E4; try done.
  unfold lock_free, get_lock in *. by rewrite E5.
Qed.
Lemma running_in_same s s' i :
  running_in s i -> proc (ptable s') = proc (ptable s) -> cr3 (cpu_regs s') = cr3 (cpu_regs s) ->
  cpu_proc (cpu0 s') = cpu_proc (cpu0 s) -> running_in s' i.
Proof. unfold running_in. by intros H -> -> ->. Qed.
Lemma idle_same s s' :
  idle s -> proc (ptable s') = proc (ptable s) -> cr3 (cpu_regs s') = cr3 (cpu_regs s) ->
  cpu_proc (cpu0 s') = cpu_proc (cpu0 s) -> vm s' = vm s -> idle s'.
Proof. unfold idle, none_running. by intros H -> -> -> ->. Qed.

Lemma inv_keeps c s s' :
  open c = true -> inv stack c s -> keeps s s' -> mem_ok stack (vm s) (mem s') (proc (ptable s)) ->
  (forall i, c = Gate i -> calling s i -> calling s' i) -> inv stack c s'.
Proof.
  intros Ho ([B1 B2 B3 B4] & Ht & H) [K1 K2 K3 K4 K5 K6 K7] Hm Hg.
  split; [split; rewrite ?K1, ?K2; auto|]. split; [by rewrite K3|].
  destruct c as [| |i|i|i|i|i|i]; try discriminate Ho; destruct H as [Hu H]; (split; [by apply K6|]).
  1-2: by apply (idle_same s).
  1: destruct H as [H Hc]; split; [|by apply (Hg i)].
  all: by apply (running_in_same s).
Qed.

(** In particular, changes that do not touch memory. *)
Lemma inv_eflags f c s : open c = true -> inv stack c s -> inv stack c (upd_eflags f s).
Proof. intros Ho Hi. apply (inv_keeps c s); [done..|apply eflags_keeps|apply Hi|done]. Qed.
Lemma inv_drv d c s : open c = true -> inv stack c s -> inv stack c (set_drv d s).
Proof. intros Ho Hi. apply (inv_keeps c s); [done..|apply drv_keeps|apply Hi|done]. Qed.

(** The process of a place, and its kernel stack. *)
Lemma place_process c s i :
  inv stack c s -> slot c = Some i -> exists q, proc (ptable s) !! i = Some q /\ live q /\ space (mem s) q /\
    cr3 (cpu_regs s) = V2P (pgdir q) /\ (open c = true -> cpu_proc (cpu0 s) = Some i /\ p_state q = RUNNING).
Proof.
  intros ([B1 B2 B3 B4] & _ & H) Hs.
  assert (exists q, proc (ptable s) !! i = Some q /\ live q /\ cr3 (cpu_regs s) = V2P (pgdir q) /\
    (open c = true -> cpu_proc (cpu0 s) = Some i /\ p_state q = RUNNING)) as (q & Hq & Hl & Hc & Ho).
  { unfold live. destruct c as [| |j|j|j|j|j|j]; try discriminate Hs; injection Hs as ->.
    - destruct H as (_ & _ & q & Hq & Hl & Hc). by exists q.
    - destruct H as (_ & Hp & q & Hq & Hr & Hc & _). exists q. auto 6.
    - destruct H as (_ & (Hp & q & Hq & Hr & Hc & _) & _). exists q. auto 6.
    - destruct H as (_ & Hp & q & Hq & Hr & Hc & _). exists q. auto 6.
    - destruct H as (_ & Hp & q & Hq & Hr & Hc & _). exists q. auto 6. }
  exists q. split_and!; try done. by apply (mo_space _ _ _ _ B2 i).
Qed.

Lemma space_off_video s q a n :
  space (mem s) q -> kstack q <= a -> a + n <= kstack q + PGSIZE -> off_video a n.
Proof.
  intros Hs H1 H2. pose proof (sp_kstack _ _ Hs) as Hk. assert (vidmem = 0x800b8000) as Ev by reflexivity.
  unfold is_page, PGSIZE in *. split; [kspace_tac|]. unfold KERNBASE in *. lia.
Qed.

Lemma inv_quiet c s s' : open c = true -> inv stack c s -> quiet s s' -> inv stack c s'.
Proof.
  intros Ho Hi Q. apply (inv_keeps c s); [done..|by apply quiet_keeps| |].
  - apply (mem_ok_video _ _ (mem s)); [apply Hi|exact (proj2 Q)].
  - intros i -> Hc q Hq. rewrite (quiet_proc _ _ Q) in Hq. rewrite <- (Hc q Hq).
    destruct (place_process (Gate i) s i Hi eq_refl) as (q' & Hq' & _ & Hsp & _). rewrite Hq in Hq'. injection Hq' as <-.
    apply (agree_load32 _ _ (proj2 Q) (kstack q) PGSIZE); [by apply (space_off_video s q)|..];
      rewrite (sp_tf _ _ Hsp); unfold st_int_no, PGSIZE; lia.
Qed.

(** The addresses of the kernel. *)
Lemma inv_root c s : inv stack c s -> exists pd, root (vm s) (proc (ptable s)) pd /\ cr3 (cpu_regs s) = V2P pd.
Proof.
  intros Hi. destruct (slot c) as [i|] eqn:Es.
  - destruct (place_process c s i Hi Es) as (q & Hq & Hl & _ & Hc & _). exists (pgdir q). eauto.
  - exists (kpgdir (vm s)). split; [by left|]. destruct c; try discriminate Es; apply Hi.
Qed.
Lemma inv_direct_map c s : inv stack c s -> direct_map s.
Proof.
  intros Hi va w Hva Hk. unfold xlate. rewrite wrap32_small by done. destruct (Z.leb_spec KERNBASE va) as [Hge|Hlt]; [|done].
  destruct (inv_root c s Hi) as (pd & Hr & Hc). destruct Hi as ([_ B2 B3 _] & _).
  destruct (mo_half _ _ _ _ B2 pd Hr) as [_ Hw]. specialize (B3 va ltac:(lia)). unfold mmu_xlate.
  rewrite Hc, (Hw va) by lia. destruct (kmapped va).
  - rewrite B3. cbn. rewrite andb_false_r. f_equal. lia.
  - destruct Hk as [Hk|Hk]; [done|]. by rewrite (B3 Hk).
Qed.
End Keeps.

Section Exec.
Context `{env : Env} (stack : Z * Z).

(** The outcome of a step: another place that keeps the invariant. *)
Definition steps_to (P : list process) (o : result control * machine) : Prop :=
  exists c' s', o = (Ok c', s') /\ inv stack c' s' /\ table_step P (proc (ptable s')).

Lemma pick_skip i s :
  p_state (get_proc i s) <> RUNNABLE -> scheduler_pick i s = (Ok false, s).
Proof. intros Hs. unfold scheduler_pick. mstep. by rewrite decide_False. Qed.

Lemma pick_switch i s q :
  inv stack (Scan i) s -> proc (ptable s) !! i = Some q -> p_state q = RUNNABLE ->
  exists s', scheduler_pick i s = (Ok true, s') /\ inv stack (Start i) s' /\
    proc (ptable s') = alter (set_p_state RUNNING) i (proc (ptable s)).
Proof.
  intros ([B1 B2 B3 B4] & Ht & (Hn & HI & Hl) & Hcp & Hnone & _) Hi Hq.
  assert (live q) as Hlive by by left. pose proof (mo_space _ _ _ _ B2 i q Hi Hlive) as Hsp.
  destruct (mo_half _ _ _ _ B2 (pgdir q)) as [Hwf _]; [by eapply live_root|].
  pose proof (wf_page _ _ _ Hwf) as Hpd. pose proof (sp_kstack _ _ Hsp) as Hks.
  assert (get_proc i s = q) as Hg by (unfold get_proc; by rewrite Hi).
  unfold scheduler_pick. mstep. rewrite Hg, decide_True by done. unfold upd_cpu_proc. mstep.
  set (s1 := upd_cpu0 (set_cpu_proc (Some i)) s).
  pose proof (switchuvm_ok i s1 HI ltac:(change (0 < ncli (cpu0 s)); lia)) as E.
  change (get_proc i s1) with (get_proc i s) in E. rewrite Hg in E.
  rewrite (bind_ok _ _ _ _ _ (E ltac:(unfold is_page, KERNBASE in *; lia) ltac:(unfold is_page, PGSIZE, KERNBASE in *; lia))).
  mstep. eexists. split; [done|]. split; [|done]. split; [|split; [done|]].
  - split; cbn [ptable mem vm irq cons upd_cpu0 set_cpu0 upd_proc upd_ptable set_ptable set_cpu_regs proc set_proc]; try done.
    + by rewrite length_alter.
    + apply mem_ok_alter; [done|by intros []|]. intros q' Hq'. assert (Some q = Some q') as [= <-] by (rewrite <- Hi; exact Hq'). done.
  - split; [done|]. split; [done|]. exists (set_p_state RUNNING q). split; [by cbn; rewrite list_lookup_alter_eq, Hi|].
    split; [done|]. split; [done|]. intros j q' Hj Hr. cbn in Hj. destruct (decide (i = j)) as [|Hne]; [done|].
    rewrite list_lookup_alter_ne in Hj by done. by destruct (Hnone j q').
Qed.

Lemma released_inv s :
  base stack s -> held s -> isr_table (irq s) = system_table ->
  base stack (released PTABLE_LOCK s) /\ isr_table (irq (released PTABLE_LOCK s)) = system_table /\
  unlocked (released PTABLE_LOCK s).
Proof.
  intros HB Hh Ht. destruct (released_same s) as (E1 & E2 & E3 & E4 & E5 & _).
  split; [by apply (base_same _ s)|]. split; [by rewrite E3|by apply released_unlocked].
Qed.

(** Returning from a trap only sets the flags. *)
Lemma iret_ok state s : kspace state 56 -> iret state s = (Ok tt, upd_eflags (fun _ => mload32 (mem s) (state + st_eflags)) s).
Proof.
  intros Hk. unfold iret. by erewrite bind_ok by (apply load32_kernel; unfold st_eflags; kspace_tac).
Qed.

Lemma upd_proc_tf i s q : proc (ptable s) !! i = Some q -> upd_proc i (set_tf (tf q)) s = s.
Proof.
  intros Hi. unfold upd_proc, upd_ptable. assert (alter (set_tf (tf q)) i (proc (ptable s)) = proc (ptable s)) as E.
  { apply list_eq. intros j. destruct (decide (i = j)) as [<-|Hne]; [|by rewrite list_lookup_alter_ne].
    rewrite list_lookup_alter_eq, Hi. by destruct q. }
  destruct s as [? ? ? ? ? ? ? ? t]; destruct t. cbn in *. by rewrite E.
Qed.

(** A process that has exited is off the processor. *)
Lemma exited_inv i s v sp :
  inv stack (Gate i) s -> inv stack (Back i) (upd_proc i (exited v sp) (acquired PTABLE_LOCK s)).
Proof.
  intros ([B1 B2 B3 B4] & Ht & Hu & (Hc & q & Hi & Hq & Hcr & Hone) & _).
  destruct (acquired_same s) as (E1 & E2 & E3 & E4 & E5 & E6 & E7). pose proof (acquired_held s Hu) as (Hn & HI & Hl).
  set (s1 := acquired PTABLE_LOCK s) in *. clearbody s1.
  assert (proc (ptable (upd_proc i (exited v sp) s1)) = alter (exited v sp) i (proc (ptable s))) as Ep
    by (cbn; by rewrite E1).
  split; [split|split; [|split; [done|split]]].
  - by rewrite Ep, length_alter.
  - rewrite Ep. change (mem (upd_proc i (exited v sp) s1)) with (mem s1). change (vm (upd_proc i (exited v sp) s1)) with (vm s1).
    rewrite E2, E5. apply mem_ok_alter; [done|by intros []|]. intros q' Hq' _. split; [|done]. rewrite Hi in Hq'.
    injection Hq' as <-. right. by left.
  - change (vm (upd_proc i (exited v sp) s1)) with (vm s1). by rewrite E2.
  - unfold lock_free, get_lock in *. change (cons (upd_proc i (exited v sp) s1)) with (cons s1). by rewrite E4.
  - change (irq (upd_proc i (exited v sp) s1)) with (irq s1). by rewrite E3.
  - intros j q'. rewrite Ep. destruct (decide (i = j)) as [<-|Hne].
    + rewrite list_lookup_alter_eq, Hi. by intros [= <-].
    + rewrite list_lookup_alter_ne by done. intros Hj Hr. by apply Hne; symmetry; apply (Hone j q').
  - exists (exited v sp q). split; [by rewrite Ep, list_lookup_alter_eq, Hi|]. split; [by right; right|].
    change (cpu_regs (upd_proc i (exited v sp) s1)) with (cpu_regs s1). by rewrite E6.
Qed.

(** Storing into the interrupt state of a process that is in the kernel. *)
Lemma result_inv i s q v :
  inv stack (Gate i) s -> proc (ptable s) !! i = Some q ->
  inv stack (Trapret i) (set_mem (mstore32 (mem s) (tf q + st_eax) v) s).
Proof.
  intros Hi Hq. destruct (place_process stack (Gate i) s i Hi eq_refl) as (q' & Hq' & Hl & Hsp & _).
  rewrite Hq in Hq'. injection Hq' as <-.
  assert (inv stack (Trapret i) s) as Hi' by (destruct Hi as (HB & Ht & Hu & Hr & _); by split).
  apply (inv_keeps stack _ s); [done|done|apply mem_keeps| |done].
  apply (mem_ok_kstack _ _ (mem s) _ _ i q); [apply Hi|done|done|].
  intros b Hb Hn. pose proof (sp_kstack _ _ Hsp) as Hks. rewrite (sp_tf _ _ Hsp). unfold is_page, PGSIZE, KERNBASE in *.
  apply mload8_store32_ne. intros k Hk. unfold st_eax. rewrite !wrap32_small by lia. lia.
Qed.

(** The state of a process in the kernel, as its handler needs it. *)
Lemma gate_ready i s q :
  inv stack (Gate i) s -> proc (ptable s) !! i = Some q ->
  kernel_ready s /\ ncli (cpu0 s) = 0 /\ cpu_proc (cpu0 s) = Some i /\ p_state q = RUNNING /\ user_space s q /\
  kspace (tf q) 64 /\ trapped (tf q) 64 (Some syscall_handler_fn) s.
Proof.
  intros Hi Hq. destruct (place_process stack (Gate i) s i Hi eq_refl) as (q' & Hq' & Hl & Hsp & Hcr & Ho).
  rewrite Hq in Hq'. injection Hq' as <-. destruct (Ho eq_refl) as [Hcp Hrun].
  destruct Hi as (HB & Ht & Hu & _ & Hcall).
  assert (off_video (tf q) 64) as Hov by (apply (space_off_video s q); [done|..]; rewrite (sp_tf _ _ Hsp); unfold PGSIZE; lia).
  split; [by apply (unlocked_ready stack)|]. split; [apply Hu|]. split; [done|]. split; [done|]. split; [|split; [apply Hov|]].
  - destruct (mo_half _ _ _ _ (b_mem _ _ HB) (pgdir q)) as [Hwf _]; [by eapply live_root|].
    split; [done|done|apply Hsp|]. intros va Hva. rewrite Hcr. by apply Hsp.
  - split; [done|]. split; [by apply Hcall|]. split; [lia|]. by rewrite Ht.
Qed.

(** A system call returns, or ends the process. *)
Lemma gate_exec i s q :
  inv stack (Gate i) s -> proc (ptable s) !! i = Some q ->
  match (if mload32 (mem s) (tf q + st_eax) =? SYS_exit then arg_word s q 0 else None) with
  | Some v => exists st sp, quiet s st /\
      exec (Gate i) s = (Ok (Back i), upd_proc i (exited (sext32 v) sp) (acquired PTABLE_LOCK st))
  | None => exists st v, quiet s st /\
      exec (Gate i) s = (Ok (Trapret i), set_mem (mstore32 (mem st) (tf q + st_eax) v) st)
  end.
Proof.
  intros Hi Hq. destruct (gate_ready i s q Hi Hq) as (Hr & Hn & Hcp & _ & Hus & Hk & Ht).
  pose proof (syscall_handler_ok s i q (tf q) Hr Hn Hcp Hq Hk Hus) as H. cbv zeta in H.
  rewrite (upd_proc_tf i s q Hq) in H. assert (set_tf (tf q) q = q) as Eq by by destruct q. rewrite Eq in H.
  assert (get_proc i s = q) as Hg by (unfold get_proc; by rewrite Hq).
  assert (forall r s1, syscall_handler (tf q) s = (Ok r, s1) ->
    exec (Gate i) s = (Ok (match r with Ret _ => Trapret i | Switched _ => Back i end), s1)) as Hcall.
  { intros r s1 E. cbn [exec]. mstep. rewrite Hg. unfold mbind, M_bind.
    rewrite (isr_handler_call (tf q) 64 syscall_handler_fn) by done. cbn [call_isr].
    rewrite (bind_ok _ _ _ _ _ E). by destruct r as [[]|]. }
  destruct (if _ =? SYS_exit then _ else _) as [v|].
  - destruct H as (st & sp & Q & E). exists st, sp. split; [done|]. by rewrite (Hcall _ _ E).
  - destruct H as (st & Q & E). eexists st, _. split; [done|]. by rewrite (Hcall _ _ E).
Qed.

Lemma gate_ok i s : inv stack (Gate i) s -> steps_to (proc (ptable s)) (exec (Gate i) s).
Proof.
  intros Hi. destruct (place_process stack (Gate i) s i Hi eq_refl) as (q & Hq & _).
  pose proof (gate_exec i s q Hi Hq) as H. destruct (gate_ready i s q Hi Hq) as (_ & _ & _ & Hrun & _).
  destruct (if _ =? SYS_exit then _ else _) as [v|].
  - destruct H as (st & sp & Q & E). eexists _, _. split; [exact E|]. split; [by apply exited_inv, (inv_quiet stack _ s)|].
    destruct (acquired_same st) as (E1 & _). cbn [upd_proc upd_ptable ptable set_ptable proc set_proc].
    rewrite E1, (quiet_proc _ _ Q). apply table_step_alter. intros q' Hq'. rewrite Hq in Hq'. injection Hq' as <-.
    rewrite Hrun. split; [constructor|done].
  - destruct H as (st & v & Q & E). eexists _, _. split; [exact E|]. split.
    + apply result_inv; [by apply (inv_quiet stack _ s)|by rewrite (quiet_proc _ _ Q)].
    + cbn. rewrite (quiet_proc _ _ Q). apply table_step_refl.
Qed.

Lemma scan_ok i s : inv stack (Scan i) s -> steps_to (proc (ptable s)) (exec (Scan i) s).
Proof.
  intros Hinv. pose proof Hinv as (HB & Ht & Hh & Hc). cbn [exec]. destruct (Nat.ltb_spec i 64) as [Hi|Hi].
  - destruct (lookup_lt_is_Some_2 (proc (ptable s)) i) as [q Hq]; [by rewrite (b_len _ _ HB)|].
    destruct (decide (p_state q = RUNNABLE)) as [Hs|Hs].
    + destruct (pick_switch i s q Hinv Hq Hs) as (s' & E & Hi' & Ep). rewrite (bind_ok _ _ _ _ _ E).
      eexists _, _. split; [reflexivity|]. split; [done|]. rewrite Ep. apply table_step_alter.
      intros q' Hq'. rewrite Hq in Hq'. injection Hq' as <-. rewrite Hs. split; [constructor|done].
    + rewrite (bind_ok _ _ _ _ _ (pick_skip i s ltac:(unfold get_proc; by rewrite Hq))).
      eexists _, _. split; [reflexivity|]. split; [by split|apply table_step_refl].
  - unfold scheduler_bottom. rewrite (bind_ok _ _ _ _ _ (held_release s Hh)).
    destruct (released_inv s HB Hh Ht) as (HB' & Ht' & Hu).
    destruct (released_same s) as (E1 & E2 & _ & _ & _ & E6 & E7).
    eexists _, _. split; [reflexivity|]. split; [|rewrite E1; apply table_step_refl]. split; [done|].
    split; [done|]. split; [done|]. by apply (idle_same s).
Qed.

Lemma exec_ok c s : inv stack c s -> steps_to (proc (ptable s)) (exec c s).
Proof.
  intros Hinv. pose proof Hinv as (HB & Ht & H). destruct c as [| |i|i|i|i|i|i].
  - eexists Open, _. split; [reflexivity|]. split; [|apply table_step_refl].
    apply (inv_eflags stack _ Open s); [done|]. by split.
  - cbn [exec]. destruct H as (Hu & Hc). erewrite bind_ok by (apply acquire_ok; [apply (unlocked_irq_ok s Hu)|apply Hu]).
    destruct (acquired_same s) as (E1 & E2 & E3 & E4 & E5 & E6 & E7).
    eexists _, _. split; [reflexivity|]. split; [|rewrite E1; apply table_step_refl]. split; [by apply (base_same _ s)|].
    split; [by rewrite E3|]. split; [by apply acquired_held|by apply (idle_same s)].
  - by apply scan_ok.
  - cbn [exec]. destruct H as (Hh & Hr & _). unfold scheduler_back.
    destruct (mo_half _ _ _ _ (b_mem _ _ HB) (kpgdir (vm s))) as [Hwf _]; [by left|].
    pose proof (wf_page _ _ _ Hwf) as Hpg.
    pose proof (switchkvm_ok s ltac:(unfold is_page, PGSIZE, KERNBASE in *; lia)) as E.
    eexists _, _. split; [rewrite (bind_ok _ _ _ tt _ (eq_trans (bind_ok _ _ _ _ _ E) eq_refl)); reflexivity|].
    split; [|apply table_step_refl]. split; [by apply (base_same _ s)|]. split; [done|].
    destruct Hh as (Hn & HI & Hl). by split.
  - cbn [exec]. destruct H as (Hh & Hr). unfold enter_process. rewrite (bind_ok _ _ _ _ _ (held_release s Hh)).
    destruct (released_inv s HB Hh Ht) as (HB' & Ht' & Hu). destruct (released_same s) as (E1 & _ & _ & _ & _ & E6 & E7).
    eexists _, _. split; [reflexivity|]. split; [|rewrite E1; apply table_step_refl]. split; [done|]. split; [done|].
    split; [done|]. by apply (running_in_same s).
  - by apply gate_ok.
  - destruct (place_process stack (Trapret i) s i Hinv eq_refl) as (q & Hq & _ & Hsp & _). cbn [exec]. mstep.
    assert (get_proc i s = q) as -> by (unfold get_proc; by rewrite Hq).
    rewrite (bind_ok _ _ _ _ _ (iret_ok (tf q) s ltac:(apply (space_off_video s q);
      [done|..]; rewrite (sp_tf _ _ Hsp); unfold PGSIZE; lia))).
    eexists _, _. split; [reflexivity|]. split; [|apply table_step_refl].
    apply (inv_eflags stack _ (User i) s); [done|]. by split.
  - eexists _, _. split; [reflexivity|]. split; [done|apply table_step_refl].
Qed.
End Exec.

(** ** Traps *)

Section Table.

(** The lines with a driver, and the exceptions with a handler. *)
Lemma system_irq n :
  32 <= n < 48 ->
  if decide (n ∈ [32; 33; 36; 46])
  then exists f, system_table !! Z.to_nat n = Some (Some f) /\ device_fn f = true
  else system_table !! Z.to_nat n = Some None.
Proof.
  intros Hn. assert (n ∈ seqZ 32 16) as Hin by (apply elem_of_seqZ; lia). clear Hn. revert n Hin.
  apply Forall_forall. repeat (apply Forall_cons; split; [vm_compute; eauto|]). by apply Forall_nil.
Qed.
Lemma system_exception n :
  0 <= n < 32 -> system_table !! Z.to_nat n =
    Some (if decide (n = 13) then Some protection_fault_handler_fn
          else if decide (n = 14) then Some page_fault_handler_fn else None).
Proof.
  intros Hn. assert (n ∈ seqZ 0 32) as Hin by (apply elem_of_seqZ; lia). clear Hn. revert n Hin.
  apply Forall_forall. repeat (apply Forall_cons; split; [vm_compute; reflexivity|]). by apply Forall_nil.
Qed.
End Table.

Section Traps.
Context `{env : Env} (stack : Z * Z).
Hypothesis Hstack : off_video stack.1 (stack.2 - stack.1).

(** The interrupt state lies in memory that [mem_ok] does not protect. *)
Lemma pushed_mem c s state size n m' :
  inv stack c s -> frame_at stack c s state size -> pushed state size n s m' ->
  mem_ok stack (vm s) m' (proc (ptable s)) /\ off_video state 64.
Proof.
  intros Hi Hf (_ & _ & Hp). pose proof (b_mem _ _ (proj1 Hi)) as Hm.
  assert (forall i q, slot c = Some i -> proc (ptable s) !! i = Some q ->
    kstack q <= state -> state + 64 <= kstack q + PGSIZE -> size <= 64 ->
    mem_ok stack (vm s) m' (proc (ptable s)) /\ off_video state 64) as Hproc.
  { intros i q Hs Hq H1 H2 H3. destruct (place_process stack c s i Hi Hs) as (q' & Hq' & Hl & Hsp & _).
    rewrite Hq in Hq'. injection Hq' as <-. split; [|by apply (space_off_video s q)].
    apply (mem_ok_kstack _ _ (mem s) _ _ i q); [done..|]. intros b Hb Hn. apply Hp; [done|lia]. }
  assert (size = 56 /\ stack.1 <= state /\ state + 64 <= stack.2 ->
    mem_ok stack (vm s) m' (proc (ptable s)) /\ off_video state 64) as Hsched.
  { intros (-> & H1 & H2). split; [apply (mem_ok_stack _ _ (mem s)); [done|]; intros b Hb Hn; apply Hp; [done|lia]|].
    destruct Hstack as [Hk Hv]. split; [kspace_tac|lia]. }
  destruct c as [| |i|i|i|i|i|i]; try done; try (by apply Hsched); destruct Hf as (q & Hq & -> & H);
    destruct (place_process stack _ s i Hi eq_refl) as (q' & Hq' & _ & Hsp & _); rewrite Hq in Hq';
    injection Hq' as <-; apply (Hproc i q); try done; rewrite ?(sp_tf _ _ Hsp) in H; unfold st_eip, PGSIZE in *; lia.
Qed.

(** The invariant survives the entry into the kernel. *)
Lemma disabled_inv c s state size n m' :
  inv stack c s -> frame_at stack c s state size -> pushed state size n s m' -> open c = true /\ inv stack c (disabled m' s).
Proof.
  intros Hi Hf Hp. destruct (pushed_mem c s state size n m' Hi Hf Hp) as [Hm _].
  assert (open c = true) as Ho by by destruct c. split; [done|]. apply inv_eflags; [done|].
  apply (inv_keeps stack c s); [done..|apply mem_keeps|done|]. intros i -> Hc q Hq.
  destruct Hf as (q' & Hq' & -> & H1 & H2). change (proc (ptable s) !! i = Some q) in Hq. rewrite Hq in Hq'. injection Hq' as <-.
  rewrite <- (Hc q Hq). destruct Hp as (_ & _ & Hp). destruct (place_process stack (Gate i) s i Hi eq_refl) as (q' & Hq' & _ & Hsp & _).
  rewrite Hq in Hq'. injection Hq' as <-. pose proof (sp_kstack _ _ Hsp) as Hks. pose proof (sp_tf _ _ Hsp).
  unfold is_page, PGSIZE, KERNBASE in *. cbn [mem set_mem]. unfold mload32, st_int_no. rewrite !Hp by lia. done.
Qed.

(** A device is served. *)
Lemma device_ok c s state size n f m' :
  inv stack c s -> frame_at stack c s state size -> pushed state size n s m' ->
  32 <= n < 48 -> system_table !! Z.to_nat n = Some (Some f) -> device_fn f = true ->
  steps_to stack (proc (ptable s)) (trap c state (disabled m' s)).
Proof.
  intros Hinv Hf Hp Hn Ht Hd. destruct (disabled_inv c s state size n m' Hinv Hf Hp) as [Ho Hi].
  destruct (pushed_mem c s state size n m' Hinv Hf Hp) as [_ Hv]. set (s0 := disabled m' s) in *.
  assert (unlocked s0) as Hu by (destruct c; try discriminate Ho; apply Hi).
  destruct (device_interrupt_ok state n f s0) as (d & _ & s' & E & [Q _] & _);
    [apply (unlocked_ready stack); [apply Hi|done]| |done|done|].
  { split; [done|]. split; [apply Hp|]. split; [lia|]. destruct Hi as (_ & -> & _). done. }
  unfold trap. rewrite (bind_ok _ _ _ _ _ E).
  rewrite (bind_ok _ _ _ _ _ (iret_ok state s' ltac:(destruct Hv; kspace_tac))). eexists _, _. split; [reflexivity|].
  split; [|cbn; rewrite (quiet_proc _ _ Q); apply table_step_refl].
  apply inv_eflags; [done|]. apply (inv_quiet stack c (set_drv d s0)); [done|by apply inv_drv|done].
Qed.

(** The exceptions that have a handler. *)
Lemma fault_handler_panics f state s :
  cons_ready s -> off_video state 64 -> f = protection_fault_handler_fn \/ f = page_fault_handler_fn ->
  exists s', call_isr f state s =
    (Panic (if decide (f = protection_fault_handler_fn) then "protection fault not handled!"
            else "page fault not handled!")%string, s').
Proof.
  intros Hc [Hk _] [-> | ->]; cbn [call_isr]; unfold returning.
  - unfold protection_fault_handler, warn. rewrite decide_True by done. unfold mbind at 1, M_bind at 1.
    do 2 erewrite bind_ok by (apply load32_kernel; unfold st_err_code, st_eip; kspace_tac).
    match goal with |- context [cprintf (Some ?f) ?a] => destruct (cprintf_fits f a s Hc eq_refl) as (s1 & E & _) end.
    rewrite (bind_ok _ _ _ _ _ E). by exists s1.
  - unfold page_fault_handler, warn. rewrite decide_False by done. unfold mbind at 1, M_bind at 1. mstep.
    erewrite bind_ok by (apply load32_kernel; unfold st_err_code; kspace_tac).
    match goal with |- context [cprintf (Some ?f) ?a] => destruct (cprintf_fits f a s Hc eq_refl) as (s1 & E & _) end.
    rewrite (bind_ok _ _ _ _ _ E). by exists s1.
Qed.

Lemma exception_ok i s state size n m' :
  inv stack (User i) s -> frame_at stack (User i) s state size -> pushed state size n s m' -> 0 <= n < 32 ->
  exists msg s', fatal (User i) (Exception n) = Some msg /\ trap (User i) state (disabled m' s) = (Panic msg, s').
Proof.
  intros Hinv Hf Hp Hn. destruct (disabled_inv _ s state size n m' Hinv Hf Hp) as [_ Hi].
  destruct (pushed_mem _ s state size n m' Hinv Hf Hp) as [_ Hv]. set (s0 := disabled m' s) in *.
  pose proof (unlocked_ready stack s0 (proj1 Hi) (proj1 (proj2 (proj2 Hi)))) as Hr.
  destruct (place_process stack (User i) s0 i Hi eq_refl) as (q & Hq & _ & Hsp & _ & Ho). destruct (Ho eq_refl) as [Hcp _].
  pose proof (system_exception n Hn) as Ht.
  assert (trapped state n (if decide (n = 13) then Some protection_fault_handler_fn
    else if decide (n = 14) then Some page_fault_handler_fn else None) s0) as Htr.
  { split; [done|]. split; [apply Hp|]. split; [lia|]. by rewrite (proj1 (proj2 Hi)). }
  cbn [fatal]. unfold trap. destruct (decide (n = 13)), (decide (n = 14)).
  1-3: match goal with H : trapped _ _ (Some ?f) _ |- _ =>
    destruct (fault_handler_panics f state s0 (proj2 (proj2 Hr)) Hv ltac:(auto)) as (s1 & E) end;
    eexists _, s1; (split; [reflexivity|]); apply bind_panic;
    erewrite isr_handler_call by done; by apply bind_panic.
  destruct (unhandled_ok state n s0 Hr Htr) as [H _].
  destruct (H i q Hcp Hq (sp_name _ _ Hsp)) as (s1 & E & _). eexists _, s1. split; [reflexivity|]. by apply bind_panic.
Qed.

(** An interrupt on a line without a driver. *)
Lemma spurious_ok c s state size n m' :
  inv stack c s -> frame_at stack c s state size -> pushed state size n s m' -> 32 <= n < 48 ->
  system_table !! Z.to_nat n = Some None ->
  exists s', trap c state (disabled m' s) =
    (Panic (match slot c with None => "page fault not handled!" | Some _ => "isr_handler" end)%string, s').
Proof.
  intros Hinv Hf Hp Hn Ht. destruct (disabled_inv c s state size n m' Hinv Hf Hp) as [Ho Hi].
  destruct (pushed_mem c s state size n m' Hinv Hf Hp) as [_ Hv]. set (s0 := disabled m' s) in *.
  assert (unlocked s0) as Hu by (destruct c; try discriminate Ho; apply Hi).
  pose proof (unlocked_ready stack s0 (proj1 Hi) Hu) as Hr.
  assert (trapped state n None s0) as Htr.
  { split; [done|]. split; [apply Hp|]. split; [lia|]. by rewrite (proj1 (proj2 Hi)). }
  destruct (unhandled_ok state n s0 Hr Htr) as [H1 H2]. unfold trap. destruct (slot c) as [i|] eqn:Es.
  - destruct (place_process stack c s0 i Hi Es) as (q & Hq & _ & Hsp & _ & Hrun). destruct (Hrun Ho) as [Hcp _].
    destruct (H1 i q Hcp Hq (sp_name _ _ Hsp)) as (s1 & E & _). exists s1. by apply bind_panic.
  - assert (idle s0) as (Hcp & _ & Hcr) by (destruct c; try discriminate Es; try discriminate Ho; apply Hi).
    destruct H2 as (s1 & E & R); [done| |].
    { intros s1 Q. unfold xlate. change (wrap32 16) with 16. change (KERNBASE <=? 16) with false. cbv iota.
      rewrite (quiet_regs _ _ Q), Hcr. pose proof (mem_ok_video _ _ _ _ _ (b_mem _ _ (proj1 Hi)) (proj2 Q)) as Hm.
      by rewrite (mo_null _ _ _ _ Hm). }
    exists (set_cr2_of 16 s1). apply bind_panic. rewrite E. unfold page_fault.
    rewrite (quiet_irq _ _ (reports_quiet _ _ _ R)), (proj1 (proj2 Hi)). reflexivity.
Qed.

(** A system call enters the kernel. *)
Lemma syscall_ok i s q m' :
  inv stack (User i) s -> proc (ptable s) !! i = Some q -> pushed (kstack q + 4032) 64 64 s m' ->
  inv stack (Gate i) (set_mem m' s).
Proof.
  intros Hi Hq Hp. destruct (pushed_mem (User i) s _ 64 64 m' Hi ltac:(by exists q) Hp) as [Hm _].
  destruct (place_process stack (User i) s i Hi eq_refl) as (q' & Hq' & _ & Hsp & _). rewrite Hq in Hq'. injection Hq' as <-.
  destruct (inv_keeps stack (User i) s (set_mem m' s)) as (HB & Ht & Hu & Hr); [done..|apply mem_keeps|done|done|].
  split; [done|]. split; [done|]. split; [done|]. split; [done|]. intros q' Hq'. change (proc (ptable s) !! i = Some q') in Hq'.
  rewrite Hq in Hq'. injection Hq' as <-. rewrite (sp_tf _ _ Hsp). apply Hp.
Qed.
End Traps.

(** ** Runs *)

Section Runs.
Context `{env : Env} (stack : Z * Z).
Hypothesis Hstack : off_video stack.1 (stack.2 - stack.1).

Lemma step_ok e c s o : inv stack c s -> step stack e (c, s) o ->
  match fatal c e with
  | None => steps_to stack (proc (ptable s)) o
  | Some msg => exists s', o = (Panic msg, s')
  end.
Proof.
  intros Hinv Hs. inversion Hs as [c1 s1|i s1 q m' fl Hq Hfl Hw|i s1 q m' Hq Hp|n c1 s1 state size m' Hn HI Hf Hp|
    n i s1 state size m' Hn Hf Hp]; subst; clear Hs.
  - by apply exec_ok.
  - cbn [fatal]. destruct (place_process stack _ s i Hinv eq_refl) as (q' & Hq' & Hl & _). rewrite Hq in Hq'. injection Hq' as <-.
    eexists _, _. split; [reflexivity|]. split; [|apply table_step_refl]. apply inv_eflags; [done|].
    apply (inv_keeps stack _ s); [done..|apply mem_keeps| |done]. apply (mem_ok_user _ _ (mem s) _ _ i q); [apply Hinv|done..].
  - cbn [fatal]. eexists _, _. split; [reflexivity|]. split; [by apply (syscall_ok stack Hstack i s q)|apply table_step_refl].
  - cbn [fatal]. pose proof (system_irq n Hn) as Ht. destruct (decide _).
    + destruct Ht as (f & Ht & Hd). by apply (device_ok stack Hstack c s state size n f).
    + by apply (spurious_ok stack Hstack c s state size n).
  - destruct (exception_ok stack Hstack i s state size n m' Hinv Hf Hp Hn) as (msg & s' & -> & E). by exists s'.
Qed.

Lemma reachable_inv c0 s0 c s : inv stack c0 s0 -> reachable stack (c0, s0) (c, s) -> inv stack c s.
Proof.
  intros H0 Hr. remember (c, s) as x eqn:Ex. revert c s Ex.
  induction Hr as [|e c1 s1 c' s' Hr IH Hs]; intros c s [= <- <-]; [done|].
  pose proof (step_ok e c1 s1 _ (IH c1 s1 eq_refl) Hs) as H. destruct (fatal c1 e).
  - destruct H as (s2 & H). discriminate H.
  - destruct H as (c2 & s2 & [= <- <-] & Hi & _). done.
Qed.

(** The states a process goes through. *)
Lemma reachable_table c0 s0 c s :
  inv stack c0 s0 -> reachable stack (c0, s0) (c, s) ->
  length (proc (ptable s)) = length (proc (ptable s0)) /\
  forall j q0 q, proc (ptable s0) !! j = Some q0 -> proc (ptable s) !! j = Some q ->
    rtc advance (p_state q0) (p_state q) /\ pid q = pid q0 /\ sz q = sz q0.
Proof.
  intros H0 Hr. remember (c, s) as x eqn:Ex. revert c s Ex.
  induction Hr as [|e c1 s1 c' s' Hr IH Hs]; intros c s [= <- <-].
  { split; [done|]. intros j q0 q -> [= ->]. split; [apply rtc_refl|done]. }
  pose proof (step_ok e c1 s1 _ (reachable_inv c0 s0 c1 s1 H0 Hr) Hs) as Hst. destruct (fatal c1 e).
  { destruct Hst as (s2 & Hst). discriminate Hst. }
  destruct Hst as (c2 & s2 & [= <- <-] & _ & Hl & Ht).
  destruct (IH c1 s1 eq_refl) as [Hl1 Ht1]. split; [congruence|]. intros j q0 q Hj0 Hj.
  destruct (lookup_lt_is_Some_2 (proc (ptable s1)) j) as [q1 Hj1].
  { rewrite <- Hl. by apply lookup_lt_Some in Hj. }
  destruct (Ht1 j q0 q1 Hj0 Hj1) as (H1 & E1 & F1), (Ht j q1 q Hj1 Hj) as (H2 & E2 & F2).
  split; [by eapply rtc_r|]. split; congruence.
Qed.

(** The runs from a state of the system. *)
Lemma run_safe c0 s0 c s :
  inv stack c0 s0 -> reachable stack (c0, s0) (c, s) ->
  (forall e r s', step stack e (c, s) (r, s') ->
     match fatal c e with None => exists c', r = Ok c' | Some msg => r = Panic msg end) /\
  match c with
  | Scan _ | Back _ | Start _ => lock_held PTABLE_LOCK s
  | _ => lock_free PTABLE_LOCK s
  end /\
  (forall j q, proc (ptable s) !! j = Some q -> p_state q = RUNNING ->
     slot c = Some j /\ cpu_proc (cpu0 s) = Some j) /\
  direct_map s.
Proof.
  intros H0 Hr. pose proof (reachable_inv c0 s0 c s H0 Hr) as Hi. split; [|split; [|split]].
  - intros e r s' Hs. pose proof (step_ok e c s _ Hi Hs) as H. destruct (fatal c e).
    + by destruct H as (s2 & [= -> ->]).
    + destruct H as (c' & s2 & [= -> ->] & _). by exists c'.
  - destruct Hi as (_ & _ & Hi). destruct c; apply Hi.
  - intros j q Hj Hq. destruct Hi as (_ & _ & Hi). destruct c as [| |i|i|i|i|i|i].
    1-3: exfalso; destruct Hi as (_ & _ & Hn & _); by apply (Hn j q).
    1: exfalso; destruct Hi as (_ & Hn & _); by apply (Hn j q).
    2: destruct Hi as (Hu & Hi & _).
    2: assert (unlocked s /\ running_in s i) as Hi' by done; clear Hi; rename Hi' into Hi.
    all: destruct Hi as (_ & Hc & q' & _ & _ & _ & Hone); by rewrite (Hone j q Hj Hq).
  - by apply (inv_direct_map stack c).
Qed.


(** C10: the life of a process: along a run its state only ever moves from
    RUNNABLE to RUNNING when it is dispatched, and from RUNNING to ZOMBIE when
    it exits, and its pid and the size of its memory never change; so a process
    that has exited never runs again. *)
Theorem process_lifecycle c0 s0 c s j q0 q :
  inv stack c0 s0 -> reachable stack (c0, s0) (c, s) ->
  proc (ptable s0) !! j = Some q0 -> proc (ptable s) !! j = Some q ->
  rtc advance (p_state q0) (p_state q) /\ pid q = pid q0 /\ sz q = sz q0 /\
  (p_state q0 = ZOMBIE -> p_state q = ZOMBIE /\ (slot c = Some j -> c = Back j)).
Proof.
  intros H0 Hr Hj0 Hj. destruct (reachable_table c0 s0 c s H0 Hr) as [_ Ht].
  destruct (Ht j q0 q Hj0 Hj) as (Ha & Hp & Hsz). split; [done|]. split; [done|]. split; [done|]. intros Hz.
  assert (p_state q = ZOMBIE) as Hq.
  { rewrite Hz in Ha. clear -Ha. remember ZOMBIE as z eqn:Ez. induction Ha as [|x y z' Hxy _ IH]; [done|].
    subst x. inversion Hxy. subst. by apply IH. }
  split; [done|]. intros Hs. pose proof (reachable_inv c0 s0 c s H0 Hr) as Hi.
  assert (~ running_in s j) as Hn.
  { intros (_ & q' & Hj' & Hr' & _). rewrite Hj in Hj'. injection Hj' as <-. congruence. }
  destruct c; try discriminate Hs; injection Hs as ->; try done; exfalso; apply Hn, Hi.
Qed.

Lemma bind_ok_inv {A B} (m : K A) (f : A -> K B) st b st' :
  mbind f m st = (Ok b, st') -> exists a s1, m st = (Ok a, s1) /\ f a s1 = (Ok b, st').
Proof. intros [H|[(msg & _ & H)|[[_ H]|(w & _ & H)]]]%bind_inv; [exact H|discriminate H..]. Qed.

(** The kernel's own steps. *)
Definition kstep (x y : control * machine) : Prop := exec x.1 x.2 = (Ok y.1, y.2).

Lemma kstep_inv c s : inv stack c s -> exists c' s', kstep (c, s) (c', s') /\ inv stack c' s'.
Proof. intros Hi. destruct (exec_ok stack c s Hi) as (c' & s' & E & Hi' & _). by exists c', s'. Qed.
Lemma kstep_reachable x y z : reachable stack x y -> rtc kstep y z -> reachable stack x z.
Proof.
  intros Hr Hk. induction Hk as [|[c s] [c' s'] z E _ IH]; [done|]. apply IH.
  eapply reachable_step; [exact Hr|]. unfold kstep in E. cbn [fst snd] in E. rewrite <- E. constructor.
Qed.

Lemma scan_reaches n k s i q :
  inv stack (Scan k) s -> (k + n = i)%nat -> proc (ptable s) !! i = Some q -> p_state q = RUNNABLE ->
  (forall j q', (k <= j < i)%nat -> proc (ptable s) !! j = Some q' -> p_state q' <> RUNNABLE) ->
  exists s', rtc kstep (Scan k, s) (Start i, s') /\ inv stack (Start i) s'.
Proof.
  revert k. induction n as [|n IH]; intros k Hi Hk Hq Hs Hmin.
  - assert (k = i) as -> by lia. destruct (pick_switch stack i s q Hi Hq Hs) as (s' & E & Hi' & _). exists s'. split; [|done].
    apply rtc_once. unfold kstep. cbn [fst snd exec]. rewrite (proj2 (Nat.ltb_lt i 64)).
    + by rewrite (bind_ok _ _ _ _ _ E).
    + rewrite <- (b_len _ _ (proj1 Hi)). by apply lookup_lt_Some in Hq.
  - assert (i < 64)%nat as Hlt by (rewrite <- (b_len _ _ (proj1 Hi)); by apply lookup_lt_Some in Hq).
    destruct (lookup_lt_is_Some_2 (proc (ptable s)) k) as [q' Hq']; [rewrite (b_len _ _ (proj1 Hi)); lia|].
    destruct (IH (S k)) as (s' & Hr & Hi'); [exact Hi|lia|done|done|intros j q1 Hj; apply Hmin; lia|].
    exists s'. split; [|done]. eapply rtc_l; [|exact Hr]. unfold kstep. cbn [fst snd exec].
    rewrite (proj2 (Nat.ltb_lt k 64)) by lia.
    rewrite (bind_ok _ _ _ _ _ (pick_skip k s ltac:(unfold get_proc; rewrite Hq'; apply (Hmin k q'); [lia|done]))). done.
Qed.

(** From the switch into user mode. *)
Lemma start_reaches i s : inv stack (Start i) s -> exists s', rtc kstep (Start i, s) (User i, s') /\ inv stack (User i) s'.
Proof.
  intros Hi. destruct (kstep_inv (Start i) s Hi) as (c1 & s1 & K1 & Hi1).
  assert (c1 = Trapret i) as ->.
  { unfold kstep in K1. cbn [fst snd exec] in K1. apply bind_ok_inv in K1 as (? & ? & _ & K1). by injection K1. }
  destruct (kstep_inv (Trapret i) s1 Hi1) as (c2 & s2 & K2 & Hi2). assert (c2 = User i) as ->.
  { unfold kstep in K2. cbn [fst snd exec] in K2. apply bind_ok_inv in K2 as (? & ? & _ & K2).
    apply bind_ok_inv in K2 as (? & ? & _ & K2). by injection K2. }
  exists s2. split; [|done]. eapply rtc_l; [exact K1|]. by apply rtc_once.
Qed.

Lemma dispatches s i q :
  inv stack Top s -> proc (ptable s) !! i = Some q -> p_state q = RUNNABLE ->
  (forall j q', (j < i)%nat -> proc (ptable s) !! j = Some q' -> p_state q' <> RUNNABLE) ->
  exists s', rtc kstep (Top, s) (User i, s') /\ running_in s' i /\ lock_free PTABLE_LOCK s' /\ ncli (cpu0 s') = 0.
Proof.
  intros Hi Hq Hs Hmin. set (s1 := upd_eflags (fun e => e .| FL_IF) s). assert (kstep (Top, s) (Open, s1)) as K1 by done.
  assert (inv stack Open s1) as Hi1 by by apply (inv_eflags stack _ Open s).
  assert (kstep (Open, s1) (Scan 0, acquired PTABLE_LOCK s1)) as K2.
  { unfold kstep. cbn [fst snd exec]. by erewrite bind_ok by (apply acquire_ok; [apply (unlocked_irq_ok s1), Hi1|apply Hi1]). }
  destruct (kstep_inv Open s1 Hi1) as (c2 & s2 & K2' & Hi2). unfold kstep in K2, K2'. rewrite K2 in K2'.
  injection K2' as <- <-. destruct (acquired_same s1) as (E1 & _).
  destruct (scan_reaches i 0 (acquired PTABLE_LOCK s1) i q) as (s3 & R3 & Hi3);
    [done|done|by rewrite E1|done|intros j q' Hj; rewrite E1; apply Hmin; lia|].
  destruct (start_reaches i s3 Hi3) as (s4 & R4 & Hi4).
  exists s4. split; [|destruct Hi4 as (_ & _ & [Hn Hl] & Hr); done].
  eapply rtc_l; [exact K1|]. eapply rtc_l; [exact K2|]. by etrans.
Qed.

(** C11: the scheduler makes progress: from the top of its loop, with a RUNNABLE
    process in the table, its own steps lead to the first such process running
    in user mode, in its own address space and without any lock held. *)
Theorem scheduler_dispatches s i q :
  inv stack Top s -> proc (ptable s) !! i = Some q -> p_state q = RUNNABLE ->
  (forall j q', (j < i)%nat -> proc (ptable s) !! j = Some q' -> p_state q' <> RUNNABLE) ->
  exists s', rtc kstep (Top, s) (User i, s') /\ running_in s' i /\ lock_free PTABLE_LOCK s' /\ ncli (cpu0 s') = 0.
Proof. apply dispatches. Qed.

(** *** Steps that can be made *)

(** The two words of an interrupt state that matter to every trap. *)
Definition state_words (m : gmap Z Z) (state n e : Z) : gmap Z Z :=
  mstore32 (mstore32 m (state + st_int_no) n) (state + st_eflags) e.

Lemma state_words_pushed s state size n :
  0 <= state -> state + size <= 4294967296 -> 56 <= size -> 0 <= n < 4294967296 ->
  pushed state size n s (state_words (mem s) state n (eflags (cpu_regs s))).
Proof.
  intros H1 H2 H3 Hn. unfold pushed, state_words, st_int_no, st_eflags. split; [|split].
  - rewrite mload32_store32_ne by (apply disjoint32_sep; lia). by rewrite mload32_store32_same, wrap32_small.
  - by rewrite mload32_store32_same.
  - intros b Hb Hn'. rewrite !mload8_store32_ne; [done|..]; intros k Hk; rewrite !wrap32_small by lia; lia.
Qed.

(** A process in user mode can exit. *)
Lemma exit_runs i s q :
  inv stack (User i) s -> proc (ptable s) !! i = Some q -> 8 <= sz q ->
  exists s1 s2 q', step stack Syscall (User i, s) (Ok (Gate i), s1) /\ step stack Run (Gate i, s1) (Ok (Back i), s2) /\
    proc (ptable s2) !! i = Some q' /\ p_state q' = ZOMBIE.
Proof.
  intros Hi Hq Hsz. destruct (place_process stack (User i) s i Hi eq_refl) as (q0 & Hq0 & _ & Hsp & _).
  rewrite Hq in Hq0. injection Hq0 as <-. pose proof (sp_kstack _ _ Hsp) as Hks. unfold is_page, PGSIZE, KERNBASE in Hks.
  set (state := kstack q + 4032). set (m0 := state_words (mem s) state 64 (eflags (cpu_regs s))).
  set (m' := mstore32 (mstore32 m0 (state + st_eax) SYS_exit) (state + st_esp) 0).
  assert (pushed state 64 64 s m') as Hp.
  { destruct (state_words_pushed s state 64 64) as (P1 & P2 & P3); [lia..|]. fold m0 in P1, P2, P3.
    unfold pushed, m', st_int_no, st_eflags, st_eax, st_esp in *. split; [|split].
    - rewrite !mload32_store32_ne by (apply disjoint32_sep; lia). exact P1.
    - rewrite !mload32_store32_ne by (apply disjoint32_sep; lia). exact P2.
    - intros b Hb Hn. rewrite !mload8_store32_ne; [by apply P3|..]; intros k Hk; rewrite !wrap32_small by lia; lia. }
  pose proof (syscall_ok stack Hstack i s q m' Hi Hq Hp) as Hg. set (s1 := set_mem m' s) in *.
  assert (mload32 (mem s1) (tf q + st_eax) = SYS_exit) as Eax.
  { rewrite (sp_tf _ _ Hsp). fold state. cbn [mem set_mem s1]. unfold m', st_eax, st_esp.
    rewrite mload32_store32_ne by (apply disjoint32_sep; lia). by rewrite mload32_store32_same. }
  assert (mload32 (mem s1) (tf q + st_esp) = 0) as Esp.
  { rewrite (sp_tf _ _ Hsp). fold state. cbn [mem set_mem s1]. unfold m'. by rewrite mload32_store32_same. }
  destruct (gate_ready stack i s1 q Hg Hq) as (_ & _ & _ & _ & Hus & _). pose proof (gate_exec stack i s1 q Hg Hq) as H.
  assert (exists v, arg_word s1 q 0 = Some v) as (v & Ev).
  { unfold arg_word. rewrite Esp. change (CDECL_ARG 0 0) with 4. destruct (Z.leb_spec (sz q) 4); [lia|].
    destruct (Z.ltb_spec (sz q) (4 + 4)); [lia|]. cbn [orb]. unfold uword.
    destruct (ubyte_mapped s1 q Hus 4) as (b0 & -> & _); [lia|]. destruct (ubyte_mapped s1 q Hus (4 + 1)) as (b1 & -> & _); [lia|].
    destruct (ubyte_mapped s1 q Hus (4 + 2)) as (b2 & -> & _); [lia|].
    destruct (ubyte_mapped s1 q Hus (4 + 3)) as (b3 & -> & _); [lia|]. by eexists. }
  rewrite Eax, Z.eqb_refl, Ev in H. destruct H as (st & sp & Q & E). exists s1. eexists _, (exited (sext32 v) sp q).
  split; [by apply (step_syscall stack i s q)|]. split; [rewrite <- E; constructor|]. split; [|done].
  destruct (acquired_same st) as (E1 & _). cbn [upd_proc upd_ptable ptable set_ptable proc set_proc].
  rewrite E1, (quiet_proc _ _ Q). change (proc (ptable s1)) with (proc (ptable s)). by rewrite list_lookup_alter_eq, Hq.
Qed.
End Runs.
