(* ===== verification/Kernel.v ===== *)
(** * Kernel: the start of the system ([kernel.c])

    The initialisation sequence of [main], and how its last steps establish the
    invariant of the running system ([Sched]). *)

From S2P Require Import Prelude Machine Layout Cstring Spinlock Uart Screen Kalloc Idt Gdt Pic Ioapic Acpi Pmem Kbd Paging Proc Syscall Ide Trap Sched.

Section WithEnv.
Context `{env : Env}.

Definition println (s : string) : K unit := print (AS (s +:+ nl)).

(** [main], up to the endless loop of [scheduler]; [fuel] bounds the polling of
    the disk in [ide_init]. *)
Definition main (fuel : nat) (mem_info : Z) : K unit :=
  _ ← consoleinit;
  _ ← println "-------->>KERNEL START<<--------";
  _ ← print (AS ("FOUDIL WAS HERE" +:+ nl +:+ "(c) 20222-2023" +:+ nl));
  _ ← gdt_init;
  _ ← pmem_init mem_info;
  pe ← gets (fun s => phys_end (vm s));
  _ ← cprintf (Some ("Max usable kernel memory address: 0x%p" +:+ nl)) [AW (wrap32 (pe - 1))];
  _ ← idt_init;
  _ ← println "IDT initialized";
  _ ← pic_init;
  _ ← println "PIC initialized";
  _ ← timer_init;
  _ ← println "PIT Timer initialized";
  _ ← kbd_init;
  _ ← println "PS/2 keyboard initialized";
  let kend := PGROUNDUP sym_k_end in
  _ ← kinit1 kend (P2V (4 * 1024 * 1024));
  _ ← paging_init;
  _ ← println "Pagination enabled";
  _ ← acpi_init;
  _ ← ioapicinit;
  _ ← uartinit;
  _ ← println "UART COM1 serial port enabled";
  pe ← gets (fun s => phys_end (vm s));
  _ ← kinit2 (P2V (4 * 1024 * 1024)) (P2V pe);
  _ ← println "Kernel heap allocator initialized";
  _ ← cpu_init;
  _ ← println "CPU state initialized";
  _ ← process_init;
  _ ← println "Process table ready";
  _ ← initproc_init;
  _ ← println "Init process created";
  _ ← ide_init fuel;
  _ ← println "IDE disk initialized";
  scheduler_start.

End WithEnv.

(** ** The first process *)

Section First.
Context `{env : Env} `{A : !Allocator}.

(** The kernel's directory, and pages that are out of its way. *)
Record kernel_dir (stack : Z * Z) (v : vm_t) (m : gmap Z Z) (l : list Z) : Prop := {
  kd_wf : pgdir_wf m (kpgdir v) l;
  kd_walk va : 0 <= va < 4294967296 ->
    mmu_walk m (V2P (kpgdir v)) va = (fun pa => (pa, true, false)) <$> kernel_va v va;
  kd_stack b : table_byte m (kpgdir v) b -> ~ stack.1 <= b < stack.2;
}.

Lemma kernel_dir_same stack v m m' l :
  kernel_dir stack v m l -> same_tables m m' (kpgdir v) -> kernel_dir stack v m' l.
Proof.
  intros [K1 K2 K3] Hs. assert (pgdir_wf m (kpgdir v) []) as Hwf
    by (eapply pgdir_wf_ext; [exact K1|done|by intros x ?%not_elem_of_nil]). split.
  - eapply pgdir_wf_ext; [exact K1|by apply same_tables_pde|done].
  - intros va Hva. rewrite (same_tables_walk m) by done. by apply K2.
  - intros b Hb. apply K3. by apply (same_tables_byte m m').
Qed.
(** It survives changes inside of the pages. *)
Lemma kernel_dir_frame stack v m m' l :
  kernel_dir stack v m l -> (forall p, p ∈ l -> is_page p) -> frame_except (.∈ l) m m' -> kernel_dir stack v m' l.
Proof.
  intros K Hl Hf. apply (kernel_dir_same _ _ m); [done|]. intros b (p & Hp & Hb).
  destruct (pd_page_wf _ _ _ _ (kd_wf _ _ _ _ K) Hp) as [Hpg Hpl]. by apply (mload8_frame_page (.∈ l) m m' p).
Qed.

(** The memory of a table whose only live process is the one [initproc_init]
    made. *)
Lemma first_mem_ok stack v m P i q k pd u (l l' : list Z) :
  P !! i = Some q -> (forall j q', P !! j = Some q' -> live q' -> j = i) ->
  pgdir q = pd -> kstack q = k -> sz q = PGSIZE -> tf q = k + 4032 -> 0 ∈ p_name q ->
  kernel_va v 16 = None -> kernel_dir stack v m (k :: l) -> is_page k -> is_page u -> u ∈ l -> k ∉ l ->
  (forall p, p ∈ l -> forall b, p <= b < p + PGSIZE -> ~ stack.1 <= b < stack.2) ->
  pgdir_wf m pd l' -> (forall p, pd_page m pd p -> p ∈ l /\ p <> u) ->
  (forall va, 0 <= va < 4294967296 -> mmu_walk m (V2P pd) va = init_space v u va) ->
  mem_ok stack v m P.
Proof.
  intros Hi Hone Epd Ek Esz Etf Hname H16 [K1 K2 K3] Hk Hu Hul Hkl Hst Hwf Hpd Hmmu.
  assert (V2P u = u - KERNBASE) as Ev by (apply V2P_kernel; page_tac).
  assert (forall j q', P !! j = Some q' -> live q' -> j = i /\ q' = q) as Hone'.
  { intros j q' Hj Hl. pose proof (Hone j q' Hj Hl) as ->. rewrite Hi in Hj. by injection Hj as <-. }
  assert (forall pd' l0, pgdir_wf m pd' l0 -> pgdir_wf m pd' []) as Hnil.
  { intros pd' l0 H. eapply pgdir_wf_ext; [exact H|done|by intros x ?%not_elem_of_nil]. }
  (* a page of a directory is none of the stack page and the user page *)
  assert (forall p b, is_page p -> p <> k -> p <> u -> p <= b < p + PGSIZE -> ~ stack.1 <= b < stack.2 ->
    apart stack m P b) as Hapart.
  { intros p b Hp Hpk Hpu Hb Hs. split; [done|]. intros j q' Hj Hl. destruct (Hone' j q' Hj Hl) as [_ ->].
    rewrite Ek, Epd. split; [destruct (pages_apart p k); [done..|page_tac|page_tac]|].
    intros (va & pa & Hva & E & ->). rewrite Hmmu in E by done. unfold init_space in E. case_decide as Hlt.
    - injection E as <-. destruct (pages_apart p u); [done..|page_tac|page_tac].
    - destruct (kernel_va v va); discriminate E. }
  split.
  - intros pd' [->|(j & q' & Hj & Hl & <-)].
    + split; [by eapply Hnil|]. intros va Hva. apply K2. unfold KERNBASE in *. lia.
    + destruct (Hone' j q' Hj Hl) as [_ ->]. rewrite Epd. split; [by eapply Hnil|]. intros va Hva.
      rewrite Hmmu by (unfold KERNBASE in *; lia). unfold init_space. by rewrite decide_False by (unfold KERNBASE in *; lia).
  - intros pd' b [->|(j & q' & Hj & Hl & <-)] (p & Hp & Hb).
    + destruct (pd_page_wf _ _ _ _ K1 Hp) as [Hpp Hpl]. apply (Hapart p); [done| | |done|by apply K3; exists p].
      * intros ->. apply Hpl, list_elem_of_here.
      * intros ->. by apply Hpl, list_elem_of_further.
    + destruct (Hone' j q' Hj Hl) as [_ ->]. rewrite Epd in Hp. destruct (pd_page_wf _ _ _ _ Hwf Hp) as [Hpp _].
      destruct (Hpd p Hp) as [Hpl Hpu]. apply (Hapart p); [done|by intros ->|done|done|by apply (Hst p)].
  - intros j q' Hj Hl. destruct (Hone' j q' Hj Hl) as [_ ->].
    split; rewrite ?Epd, ?Ek, ?Esz, ?Etf; [unfold PGSIZE, KERNBASE; lia| |done..].
    intros va Hva. exists (V2P u + va), true. assert (vidmem = 0x800b8000) as Evid by reflexivity.
    unfold is_page, in_video, KERNBASE in *. unfold PGSIZE in *.
    rewrite Hmmu by lia. unfold init_space. rewrite decide_True by lia. split; [done|]. rewrite Ev. lia.
  - rewrite K2 by lia. by rewrite H16.
Qed.

(** The machine when [scheduler] has set its processor's process to none. *)
Definition started (s : machine) : machine := upd_cpu0 (set_cpu_proc None) s.

(** What [initproc_init] makes: the only live process, in the first slot,
    RUNNABLE, about to execute its address 0, where it finds the bytes [prog]. *)
Record first_made (stack : Z * Z) (prog : Z -> Z) (s : machine) (q : process) : Prop := {
  fm_base : base stack s;
  fm_unlocked : unlocked s;
  fm_cr3 : cr3 (cpu_regs s) = V2P (kpgdir (vm s));
  fm_proc : proc (ptable s) !! 0%nat = Some q;
  fm_state : p_state q = RUNNABLE;
  fm_only j q' : proc (ptable s) !! j = Some q' -> live q' -> j = 0%nat;
  fm_size : sz q = PGSIZE;
  fm_fits : sym_init_size <= PGSIZE;
  fm_eip : mload32 (mem s) (tf q + st_eip) = 0;
  fm_prog j : 0 <= j < sym_init_size ->
    ubyte (set_cpu_regs (set_cr3 (V2P (pgdir q)) (cpu_regs s)) s) j = Some (prog j);
}.

(** When [main] makes the first process. *)
Record first_ready (stack : Z * Z) (k : Z) (l : list Z) (s : machine) : Prop := {
  fr_ready : kernel_ready s;
  fr_ncli : ncli (cpu0 s) = 0;
  fr_IF : IF s = false;
  fr_cr3 : cr3 (cpu_regs s) = V2P (kpgdir (vm s));
  fr_pool : pool s (k :: l);
  fr_empty : proc (ptable s) = replicate 64 zero_process;
  fr_layout : vm_layout (vm s);
  fr_map : memory_mapped (vm s);
  fr_pages : kvm_pages (vm s) + 2 <= Z.of_nat (length l);
  fr_size : 0 <= sym_init_size < PGSIZE;
  fr_start : KERNBASE <= sym_init_start;
  fr_below p : p ∈ k :: l -> sym_init_start + sym_init_size <= p;
  fr_dir : kernel_dir stack (vm s) (mem s) (k :: l);
  fr_stack p b : p ∈ l -> p <= b < p + PGSIZE -> ~ stack.1 <= b < stack.2;
}.

Lemma kernel_va_low v va : vm_layout v -> 0 <= va < KERNBASE -> kernel_va v va = None.
Proof.
  intros Hlay Hva. pose proof (vm_layout_acpi _ Hlay). unfold kernel_va, DEVSPACE, KERNBASE in *. by rewrite !decide_False by lia.
Qed.

Lemma first_process_made stack s k l :
  first_ready stack k l s ->
  exists st q, initproc_init s = (Ok tt, st) /\ kframe s st /\
    first_made stack (fun j => mload8 (mem s) (sym_init_start + j)) st q.
Proof.
  intros [Hr Hn HI Hc Hp Hf Hlay Hmap Hlen Hsz Hsrc Hlow Hdir Hst].
  destruct (pool_cons_inv s k l Hp) as [Hk Hkl]. destruct (pool_pages _ _ Hp) as [_ Hpg].
  destruct (initproc_init_run s k l 0 Hr Hp ltac:(by rewrite Hf) Hlay Hlen Hsz Hsrc Hlow)
    as (pd & u & st & l' & E & F & Hp' & _ & Hpd & Hu & Eproc & Hwf & Hpdp & _ & Htf & Hmmu & Hb & Hfr).
  set (q := init_process (nextpid (ptable s)) k pd zero_process).
  assert (proc (ptable st) !! 0%nat = Some q) as Hi by by rewrite Eproc, Hf.
  assert (forall j q', proc (ptable st) !! j = Some q' -> live q' -> j = 0%nat) as Hone.
  { intros j q' Hj Hl. destruct (decide (0%nat = j)) as [|Hne]; [done|]. rewrite Eproc, list_lookup_alter_ne, Hf in Hj by done.
    apply lookup_replicate in Hj as [-> _]. by destruct Hl as [Hl|[Hl|Hl]]. }
  pose proof (kframe_ready _ _ F Hr) as (Hirq & Hlk & Hcons).
  exists st, q. split; [done|]. split; [done|]. split; try done.
  - split.
    + by rewrite Eproc, length_alter, Hf.
    + rewrite (kframe_vm _ _ F). apply (first_mem_ok stack _ _ _ 0 q k pd u l l'); try done.
      * apply (bool_decide_unpack _). vm_compute. done.
      * apply kernel_va_low; [done|unfold KERNBASE; lia].
      * apply (kernel_dir_frame _ _ (mem s)); [done|by intros p ?; apply Hpg|done].
      * by apply Hpg, list_elem_of_further.
      * intros p Hpl b Hb'. by apply (Hst p).
    + by rewrite (kframe_vm _ _ F).
    + apply Hcons.
  - split; [by rewrite (kframe_ncli _ _ F)|done].
  - by rewrite (kframe_regs _ _ F), (kframe_vm _ _ F).
  - lia.
  - apply Htf.
  - intros j Hj. unfold ubyte. cbn [mem cpu_regs set_cpu_regs cr3 set_cr3]. change (pgdir q) with pd.
    rewrite Hmmu by (unfold PGSIZE in *; lia). unfold init_space.
    rewrite decide_True by (unfold PGSIZE in *; lia). cbn. f_equal.
    destruct (Hpg u ltac:(by apply list_elem_of_further)) as [Hup _].
    rewrite V2P_kernel by page_tac.
    replace (u - KERNBASE + j + KERNBASE) with (u + j) by lia. rewrite Hb by (unfold PGSIZE in *; lia). by rewrite decide_True by lia.
Qed.

(** Then the system runs. *)
Lemma first_made_inv stack prog s q :
  first_made stack prog s q -> isr_table (irq s) = system_table -> inv stack Top (started s).
Proof.
  intros [HB Hu Hc Hi Hs Hone _ _ _ _] Ht. split; [by apply (base_same _ s)|]. split; [done|]. split; [exact Hu|].
  split; [done|]. split; [|exact Hc]. intros j q' Hj Hrun. change (proc (ptable s) !! j = Some q') in Hj.
  assert (j = 0%nat) as -> by (apply (Hone j q' Hj); right; by left). rewrite Hi in Hj. injection Hj as <-. congruence.
Qed.

(** And [scheduler] starts the process. *)
Lemma first_process_starts stack prog s q :
  first_made stack prog s q -> isr_table (irq s) = system_table -> IF s = false ->
  scheduler_start s = (Ok tt, started s) /\
  exists s2, rtc kstep (Top, started s) (User 0, s2) /\ running_in s2 0.
Proof.
  intros Hm Ht HI. pose proof (first_made_inv _ _ _ _ Hm Ht) as Hinv. split.
  - unfold scheduler_start. by rewrite (bind_ok _ _ _ _ _ (mycpu_ok s HI)).
  - destruct Hm as [_ _ _ Hi Hs _ _ _ _ _].
    destruct (dispatches stack (started s) 0 q Hinv Hi Hs) as (s2 & R & Hrun & _); [intros j q' Hj; lia|by exists s2].
Qed.
End First.
