(* ===== verification/Boot.v ===== *)
(** * Boot: the start of the system, from the entry code to the first process

    [main] run from the state the boot loader leaves.  Most of its calls only
    set up a device: they are steps with the same frame, [devframe], and the
    handlers they register.  The others - the memory map, the two halves of the
    heap, paging, the ACPI tables, the first process - are taken from their
    components. *)

From S2P Require Import Prelude Machine Layout Cstring Spinlock Uart Screen Kalloc Idt Gdt Pic Ioapic Acpi Pmem Kbd Paging Proc Syscall Ide Trap Sched Kernel.

(** ** Steps that set up a device *)

(** No lock is held and interrupts are off, as everywhere in [main]. *)
Record ready (s : machine) : Prop := {
  rd_ncli : ncli (cpu0 s) = 0;
  rd_IF : IF s = false;
  rd_locks l : lock_free l s;
}.

(** What such a step leaves alone. *)
Record devframe (s s' : machine) : Prop := {
  df_ready : ready s -> ready s';
  df_cr3 : cr3 (cpu_regs s') = cr3 (cpu_regs s);
  df_vm : vm s' = vm s;
  df_proc : proc (ptable s') = proc (ptable s);
  df_info : acpi_info (drv s') = acpi_info (drv s);
  df_freelist : freelist (kmem s') = freelist (kmem s);
  df_use_lock : use_lock (kmem s') = use_lock (kmem s);
  df_kheap_start : kheap_start (kmem s') = kheap_start (kmem s);
  df_kheap_end : kheap_end (kmem s') = kheap_end (kmem s);
  df_mem : agree (mem s) (mem s');
}.

#[export] Instance devframe_preorder : PreOrder devframe.
Proof.
  split; [by split|]. intros s1 s2 s3 F1 F2. split; try (etrans; [apply F2|apply F1]).
  - intros Hr. by apply F2, F1.
  - intros b Hb Hv. by rewrite (df_mem _ _ F2), (df_mem _ _ F1).
Qed.

Lemma ready_irq_ok s : ready s -> irq_ok s.
Proof. intros [H1 H2 _]. split; [lia|done]. Qed.
Lemma ready_cons s : ready s -> cons_ready s.
Proof. intros Hr. split; [by apply ready_irq_ok|right; apply Hr]. Qed.
Lemma ready_kernel s : ready s -> kernel_ready s.
Proof. intros Hr. split; [by apply ready_irq_ok|]. split; [apply Hr|by apply ready_cons]. Qed.

(** [m] sets up a device and registers [hs]. *)
Definition sets_up (hs : list (nat * isr_fn)) (m : K unit) (s : machine) : Prop :=
  exists s', m s = (Ok tt, s') /\ devframe s s' /\ isr_table (irq s') = handlers hs (isr_table (irq s)).

(** [s] is [s0] after devices were set up, with the handlers [t]. *)
Record set_up (s0 : machine) (t : list (option isr_fn)) (s : machine) : Prop := {
  su_frame : devframe s0 s;
  su_ready : ready s;
  su_isr : isr_table (irq s) = t;
}.

Lemma set_up_start s : ready s -> set_up s (isr_table (irq s)) s.
Proof. intros Hr. by split. Qed.
Lemma set_up_step hs m s0 t s :
  set_up s0 t s -> (ready s -> isr_table (irq s) = t -> sets_up hs m s) ->
  exists s', m s = (Ok tt, s') /\ set_up s0 (handlers hs t) s'.
Proof.
  intros [F Hr E] H. destruct (H Hr E) as (s' & Em & F' & E'). exists s'. split; [done|].
  split; [by etrans|by apply F'|by rewrite E', E].
Qed.

Lemma quiet_devframe s s' : quiet s s' -> devframe s s'.
Proof.
  intros Q. split.
  - intros [H1 H2 H3]. split.
    + rewrite <- H1. exact (equiv_ncli _ _ (proj1 Q)).
    + unfold IF. rewrite (quiet_regs _ _ Q). exact H2.
    + intros l. apply (quiet_lock_free s); [done|apply H3].
  - by rewrite (quiet_regs _ _ Q).
  - exact (quiet_vm _ _ Q).
  - exact (quiet_proc _ _ Q).
  - exact (quiet_acpi_info _ _ Q).
  - exact (quiet_freelist _ _ Q).
  - exact (quiet_use_lock _ _ Q).
  - exact (quiet_kheap_start _ _ Q).
  - exact (quiet_kheap_end _ _ Q).
  - exact (proj2 Q).
Qed.
Lemma set_io_devframe o s : devframe s (set_io o s).
Proof. apply quiet_devframe, quiet_set_io. Qed.
Lemma io_only_devframe s s' : io_only s s' -> devframe s s'.
Proof. intros ->. apply set_io_devframe. Qed.

(** Changing parts of the machine the frame does not mention. *)
Lemma upd_irq_devframe f s : devframe s (upd_irq f s).
Proof. by split; [intros []|..]. Qed.
Lemma upd_drv_devframe f s :
  (forall d, acpi_info (f d) = acpi_info d /\ ide_lock (f d) = ide_lock d) -> devframe s (upd_drv f s).
Proof.
  intros Hf. destruct (Hf (drv s)) as [H1 H2]. split; try done. intros [R1 R2 R3]. split; [done..|].
  intros l. specialize (R3 l). destruct l; try exact R3. unfold lock_free in *. simpl in *. by rewrite H2.
Qed.
Lemma upd_cpu0_devframe f s : (forall c, ncli (f c) = ncli c) -> devframe s (upd_cpu0 f s).
Proof. intros Hf. split; try done. intros [R1 R2 R3]. split; [simpl; by rewrite Hf|done..]. Qed.
Lemma initlock_devframe l name s :
  exists s', initlock l name s = (Ok tt, s') /\ devframe s s' /\ irq s' = irq s.
Proof.
  eexists. split; [reflexivity|]. split; [|by destruct l]. destruct l; (split; try done);
    (intros [R1 R2 R3]; split; [done..|]; intros l'; specialize (R3 l'); by destruct l').
Qed.

Section Devices.
Context `{env : Env}.

(** *** Rules *)

Lemma sets_up_bind hs1 hs2 m (k : K unit) s :
  sets_up hs1 m s ->
  (forall s', devframe s s' -> isr_table (irq s') = handlers hs1 (isr_table (irq s)) -> sets_up hs2 k s') ->
  sets_up (hs1 ++ hs2) (_ ← m; k) s.
Proof.
  intros (s1 & E1 & F1 & I1) Hk. destruct (Hk s1 F1 I1) as (s2 & E2 & F2 & I2). exists s2.
  split; [by rewrite (bind_ok _ _ _ _ _ E1)|]. split; [by etrans|]. unfold handlers in *. by rewrite I2, I1, foldl_app.
Qed.
Lemma sets_up_modify g s : devframe s (g s) -> irq (g s) = irq s -> sets_up [] (modify g) s.
Proof. intros F E. exists (g s). split; [done|]. by rewrite E. Qed.
Lemma sets_up_io_only m s : runs io_only m -> sets_up [] m s.
Proof.
  intros H. destruct (H s) as ([] & s' & E & F). exists s'. split; [done|]. split; [by apply io_only_devframe|].
  by rewrite F.
Qed.
Lemma sets_up_cprintf f args s : ready s -> fits (bytes_of f) args = true -> sets_up [] (cprintf (Some f) args) s.
Proof.
  intros Hr Hf. destruct (cprintf_fits f args s (ready_cons _ Hr) Hf) as (s' & E & Q). exists s'.
  split; [done|]. split; [by apply quiet_devframe|]. by rewrite (quiet_irq _ _ Q).
Qed.
Lemma sets_up_isr n f s :
  isr_table (irq s) !! Z.to_nat (wrap8 n) = Some None -> sets_up [(Z.to_nat (wrap8 n), f)] (isr_register n f) s.
Proof.
  intros H. eexists. split; [by apply isr_register_new|]. split; [apply upd_irq_devframe|done].
Qed.
Lemma sets_up_initlock l name s : sets_up [] (initlock l name) s.
Proof.
  destruct (initlock_devframe l name s) as (s' & E & F & Ei). exists s'. split; [done|]. split; [done|]. by rewrite Ei.
Qed.

(** *** The devices *)

Lemma println_sets_up x s : ready s -> sets_up [] (println x) s.
Proof. intros Hr. by apply sets_up_cprintf. Qed.

Lemma consoleinit_sets_up s : sets_up [] consoleinit s.
Proof.
  apply (sets_up_bind [] []); [apply sets_up_initlock|]. intros s' _ _. apply sets_up_modify; [|done].
  split; try done. intros [R1 R2 R3]. split; [done..|]. intros l. specialize (R3 l). by destruct l.
Qed.

Lemma gdt_entries_set_up b1 l1 a1 f1 i1 s : sets_up [] (gdt_set_entry i1 b1 l1 a1 f1) s.
Proof. apply sets_up_modify; [by apply upd_cpu0_devframe|done]. Qed.

Lemma gdt_init_sets_up s :
  isr_table (irq s) !! 13%nat = Some None -> sets_up [(13%nat, protection_fault_handler_fn)] gdt_init s.
Proof.
  intros H. apply (sets_up_bind [_] []); [by apply sets_up_isr|]. intros s1 _ _.
  do 4 (apply (sets_up_bind [] []); [apply gdt_entries_set_up|intros ? _ _]).
  apply sets_up_modify; [|done]. by split; [intros []|..].
Qed.

Lemma idt_set_range_sets_up v n flags s : 0 <= v -> sets_up [] (idt_set_range v n flags) s.
Proof.
  intros Hv. eexists. split; [by apply idt_set_range_ok|]. split; [apply upd_irq_devframe|done].
Qed.
Lemma idt_init_sets_up s : sets_up [] idt_init s.
Proof.
  do 2 (apply (sets_up_bind [] []); [by apply idt_set_range_sets_up|intros ? _ _]).
  apply (sets_up_bind [] []).
  { eexists. split; [reflexivity|]. split; [apply upd_irq_devframe|done]. }
  intros ? _ _. apply sets_up_modify; [|done]. by split; [intros []|..].
Qed.

Lemma pic_line_runs n : runs io_only (pic_enable_irq_line n) /\ runs io_only (pic_disable_irq_line n).
Proof.
  split; (apply runs_bind; [apply _|apply inb_runs|]; intros ?; apply outb_runs).
Qed.
Lemma pic_init_sets_up s : sets_up [] pic_init s.
Proof.
  apply sets_up_io_only. unfold pic_init. do 2 (apply runs_bind; [apply _|apply inb_runs|]; intros ?).
  do 10 (apply runs_bind; [apply _|apply outb_runs|]; intros ?). apply pic_line_runs.
Qed.
Lemma timer_init_sets_up s :
  isr_table (irq s) !! 32%nat = Some None -> sets_up [(32%nat, timer_interrupt_handler_fn)] timer_init s.
Proof.
  intros H. apply (sets_up_bind [_] []); [by apply sets_up_isr|]. intros s1 _ _. apply sets_up_io_only.
  do 3 (apply runs_bind; [apply _|apply outb_runs|]; intros ?). apply pic_line_runs.
Qed.
Lemma kbd_init_sets_up s :
  isr_table (irq s) !! 33%nat = Some None -> sets_up [(33%nat, kbd_interrupt_handler_fn)] kbd_init s.
Proof.
  intros H. apply (sets_up_bind [] [_]); [apply sets_up_modify; [by apply upd_drv_devframe|done]|].
  intros s1 _ E. apply (sets_up_bind [_] []).
  - apply sets_up_isr. rewrite E. exact H.
  - intros s2 _ _. apply sets_up_io_only, pic_line_runs.
Qed.

(** The one I/O APIC. *)
Lemma ioapicinit_sets_up s :
  ready s -> num_ioapic (acpi_info (drv s)) = 1 -> acpi_ioapic (acpi_info (drv s)) <> [] -> sets_up [] ioapicinit s.
Proof.
  intros Hr Hn Hne. unfold ioapicinit, sets_up, REG_VER, REG_ID. mstep. rewrite Hn.
  destruct (acpi_ioapic _) as [|[[id addr] base] rest]; [done|].
  unfold kassert. cbn [Z.eqb Pos.eqb]. mstep. set (s1 := upd_drv (set_ioapic addr) s).
  assert (devframe s s1) as F1 by by apply upd_drv_devframe.
  rewrite (bind_ok _ _ _ _ _ (ioapicread_ok 1 s1 ltac:(done))). cbv zeta. set (v1 := wrap32 _). set (s2 := set_io _ s1).
  rewrite (bind_ok _ _ _ _ _ (ioapicread_ok 0 s2 ltac:(done))). cbv zeta. set (v2 := wrap32 _). set (s3 := set_io _ s2).
  assert (devframe s s3) as F3 by (etrans; [exact F1|]; etrans; apply set_io_devframe).
  destruct (ioapic_messages s3 (v2 >> 24) id addr ((v1 >> 16) & 0xff)) as (s4 & s5 & E4 & E5 & Q5 & _);
    [by apply ready_cons, F3|].
  rewrite (bind_ok _ _ _ _ _ E4), (bind_ok _ _ _ _ _ E5).
  destruct (ioapicinit_loop_ok 0 (S (Z.to_nat ((v1 >> 16) & 0xff))) s5) as (h & E6 & _); [lia| |].
  { change 0xff with (Z.ones 8). rewrite Z.land_ones by lia. pose proof (Z.mod_pos_bound (v1 >> 16) (2 ^ 8) ltac:(lia)).
    change (2 ^ 8) with 256 in *. lia. }
  exists (set_io (h ++ io s5) s5). split; [exact E6|]. split.
  - etrans; [exact F3|]. etrans; [by apply quiet_devframe|apply set_io_devframe].
  - cbn [irq set_io]. by rewrite (quiet_irq _ _ Q5).
Qed.

Lemma uart_puts_runs l : runs io_only (uart_puts l).
Proof.
  induction l as [|c l IH]; cbn [uart_puts]; [apply runs_ret, _|].
  apply runs_bind; [apply _|apply uartputc_runs|]. by intros [].
Qed.
Lemma ioapicenable_runs irq cpunum : runs io_only (ioapicenable irq cpunum).
Proof.
  assert (forall r d, runs io_only (ioapicwrite r d)) as H by (intros r d s; by eexists _, _).
  apply runs_bind; [apply _|apply H|]. intros _. apply H.
Qed.
Lemma uartinit_sets_up s :
  isr_table (irq s) !! 36%nat = Some None -> sets_up [(36%nat, com1_interrupt_handler_fn)] uartinit s.
Proof.
  intros H. apply (sets_up_bind [_] []); [by apply sets_up_isr|]. intros s1 _ _.
  do 7 (apply (sets_up_bind [] []); [apply sets_up_io_only, outb_runs|intros ? _ _]).
  match goal with |- sets_up _ _ ?s => set (s2 := s) end.
  unfold sets_up. unfold inb at 1. erewrite bind_ok by reflexivity. cbv zeta. set (s3 := push_io _ s2).
  assert (forall m, sets_up [] m s3 -> exists s', m s3 = (Ok tt, s') /\ devframe s2 s' /\
    isr_table (irq s') = handlers [] (isr_table (irq s2))) as Hs3.
  { intros m (st & E & F & I). exists st. split; [done|]. split; [etrans; [apply set_io_devframe|exact F]|exact I]. }
  apply Hs3. destruct (_ =? 0xFF); [exists s3; done|].
  apply (sets_up_bind [] []); [apply sets_up_modify; [by apply upd_drv_devframe|done]|]. intros s4 _ _.
  apply sets_up_io_only. do 2 (apply runs_bind; [apply _|apply inb_runs|]; intros ?).
  apply runs_bind; [apply _|apply ioapicenable_runs|]. intros _. apply uart_puts_runs.
Qed.

Lemma cpu_init_loop_sets_up n i s :
  0 <= i -> i + Z.of_nat n <= 16 -> length (acpi_cpu (acpi_info (drv s))) = 16%nat -> sets_up [] (cpu_init_loop i n) s.
Proof.
  revert i s. induction n as [|n IH]; intros i s Hi Hn Hl; cbn [cpu_init_loop]; [by exists s|].
  unfold sets_up. mstep. destruct (lookup_lt_is_Some_2 (acpi_cpu (acpi_info (drv s))) (Z.to_nat i)) as [[id a] E]; [lia|].
  rewrite E. apply (sets_up_bind [] []).
  - unfold set_cpu_apicid. rewrite (proj2 (Z.leb_le _ _) Hi), (proj2 (Z.ltb_lt i 16)) by lia. cbn [andb].
    apply sets_up_modify; destruct (i =? 0); try done; [by apply upd_cpu0_devframe|]. by split; [intros []|..].
  - intros s' F _. apply IH; [lia|lia|]. by rewrite (df_info _ _ F).
Qed.
Lemma cpu_init_sets_up s : ready s -> info_wf (acpi_info (drv s)) -> sets_up [] cpu_init s.
Proof.
  intros Hr (Hl & Hn & _). unfold cpu_init, sets_up. mstep. apply (sets_up_bind [] []).
  - by apply sets_up_cprintf.
  - intros s' F _. apply cpu_init_loop_sets_up; [lia|lia|]. by rewrite (df_info _ _ F).
Qed.

Lemma process_init_sets_up s :
  isr_table (irq s) !! 64%nat = Some None -> sets_up [(64%nat, syscall_handler_fn)] process_init s.
Proof.
  intros H. apply (sets_up_bind [] [_]); [apply sets_up_initlock|]. intros s' _ E. apply sets_up_isr. by rewrite E.
Qed.

Lemma ide_init_sets_up n fuel s :
  ready s -> isr_table (irq s) !! 46%nat = Some None -> drive_answers n false -> (n < fuel)%nat ->
  sets_up [(46%nat, ide_interrupt_handler_fn)] (ide_init fuel) s.
Proof.
  intros Hr Hisr Hd Hf. destruct (ide_init_present n fuel s (ready_cons _ Hr) Hisr Hd Hf) as (h & st & h' & s' & E & _ & _ & Q & _).
  exists s'. split; [done|]. split; [|by rewrite (quiet_irq _ _ Q)].
  etrans; [|by apply quiet_devframe]. unfold ide_ready. etrans; [|by apply upd_drv_devframe].
  unfold ide_opened. etrans; [|apply upd_irq_devframe].
  destruct (initlock_devframe IDE_LOCK "ide_lock" s) as (s1 & E1 & F1 & _). by injection E1 as <-.
Qed.

End Devices.

(** ** What is carried along [main] *)

(** Where [main] writes outside of its variables: the screen, the words of the
    A20 test, and the heap up to [hi]. *)
Definition scratch `{env : Env} (hi b : Z) : Prop :=
  in_video b \/ 0x80012345 <= b < 0x80012349 \/ 0x80112345 <= b < 0x80112349 \/ PGROUNDUP sym_k_end <= b < hi.
Definition kept `{env : Env} (hi : Z) (m m' : gmap Z Z) : Prop :=
  forall b, 0 <= b < 4294967296 -> ~ scratch hi b -> mload8 m' b = mload8 m b.

(** [s] comes from the memory [ram]; no process was made yet. *)
Record boot_state `{env : Env} (ram : gmap Z Z) (hi : Z) (v : vm_t) (a : acpi_info_t) (t : list (option isr_fn))
    (s : machine) : Prop := {
  bs_ready : ready s;
  bs_vm : vm s = v;
  bs_proc : proc (ptable s) = replicate 64 zero_process;
  bs_info : acpi_info (drv s) = a;
  bs_isr : isr_table (irq s) = t;
  bs_mem : kept hi ram (mem s);
}.

Section Carried.
Context `{env : Env} (ram : gmap Z Z).

Lemma boot_state_set_up hi v a t t' s s' :
  boot_state ram hi v a t s -> set_up s t' s' -> boot_state ram hi v a t' s'.
Proof.
  intros [H1 H2 H3 H4 H5 H6] [F R I]. split; [done| | | |done|].
  - by rewrite (df_vm _ _ F).
  - by rewrite (df_proc _ _ F).
  - by rewrite (df_info _ _ F).
  - intros b Hb Hs. rewrite (df_mem _ _ F) by (done || (intros Hv; apply Hs; by left)). by apply H6.
Qed.
Lemma boot_state_start hi v a t s : boot_state ram hi v a t s -> set_up s t s.
Proof. intros [H1 _ _ _ H5 _]. by split. Qed.

(** The heap: pages above the kernel, with the free list [l]. *)
Lemma heap_devframe s s' l : devframe s s' -> kmem_inv s l -> kmem_inv s' l.
Proof.
  intros F Hi. apply (kmem_inv_transfer s); [done|apply F..|]. intros x Hx.
  pose proof Hi as (_ & _ & Hp & Ha). eapply Forall_forall in Hp; [|exact Hx].
  destruct (heap_page_space s x Ha Hp) as [Hk Hlow]. unfold PGSIZE in Hk.
  apply (agree_load32 _ _ (df_mem _ _ F) x 4); [|lia|lia]. split; [kspace_tac|]. right.
  change vidmem with 0x800b8000. unfold KERNBASE in Hlow. lia.
Qed.
Lemma ready_kmem s : ready s -> kmem_ready s.
Proof. intros Hr. split; [by apply ready_irq_ok|right; apply Hr]. Qed.

(** After [kinit1] or [kinit2]. *)
Lemma boot_state_heap lo hi v a t s s' :
  boot_state ram hi v a t s -> heap_frame lo hi s s' -> PGROUNDUP sym_k_end <= lo -> lock_free KMEM_LOCK s' ->
  boot_state ram hi v a t s'.
Proof.
  intros [[R1 R2 R3] H2 H3 H4 H5 H6] [(m & o & k & E) Hm] Hlo Hl. split.
  - split; [by rewrite (equiv_ncli _ _ E)|by rewrite (equiv_IF _ _ E)|]. intros l. destruct l; [done|..];
      (unfold lock_free; rewrite (equiv_locked _ _ E), (equiv_lk_cpu _ _ E)).
    + apply (R3 CONS_LOCK).
    + apply (R3 PTABLE_LOCK).
    + apply (R3 IDE_LOCK).
  - by rewrite (equiv_vm _ _ E).
  - by rewrite (equiv_proc _ _ E).
  - rewrite <- H4. exact (f_equal (fun s => acpi_info (drv s)) E).
  - by rewrite (equiv_irq _ _ E).
  - intros b Hb Hs. rewrite Hm; [by apply H6|done| |].
    + intros Hv. apply Hs. by left.
    + intros Hv. apply Hs. do 3 right. lia.
Qed.

Lemma boot_state_mono hi hi' v a t s : boot_state ram hi v a t s -> hi <= hi' -> boot_state ram hi' v a t s.
Proof.
  intros [H1 H2 H3 H4 H5 H6] Hh. split; try done. intros b Hb Hs. apply H6; [done|]. intros Hs'. apply Hs.
  unfold scratch in *. destruct Hs' as [|[|[|]]]; [tauto..|]. do 3 right. lia.
Qed.

(** After [paging_init]. *)
Lemma boot_state_paged hi v a t pgdir s s1 (l : list Z) :
  boot_state ram hi v a t s -> alloc_frame s s1 -> frame_except (.∈ l) (mem s) (mem s1) ->
  (forall p, p ∈ l -> PGROUNDUP sym_k_end <= p /\ p + PGSIZE <= hi) ->
  boot_state ram hi (set_kpgdir pgdir v) a (handlers [(14%nat, page_fault_handler_fn)] t) (paged pgdir s1).
Proof.
  intros [[R1 R2 R3] H2 H3 H4 H5 H6] (m & h & E) Hm Hl. split.
  - split; [exact (eq_trans (equiv_ncli _ _ E) R1)|exact (eq_trans (equiv_IF _ _ E) R2)|].
    intros l'. pose proof (equiv_locked _ _ E l') as E1. pose proof (equiv_lk_cpu _ _ E l') as E2.
    specialize (R3 l'). by destruct l'; (split; [rewrite <- (proj1 R3)|rewrite <- (proj2 R3)]).
  - simpl. by rewrite (equiv_vm _ _ E : vm s1 = vm s), H2.
  - simpl. exact (eq_trans (equiv_proc _ _ E) H3).
  - rewrite <- H4. exact (f_equal (fun s => acpi_info (drv s)) E).
  - simpl. by rewrite (equiv_irq _ _ E : irq s1 = irq s), H5.
  - intros b Hb Hs. simpl. rewrite Hm; [by apply H6|done|]. intros p Hp Hin. apply Hs. do 3 right.
    destruct (Hl p Hp). lia.
Qed.

(** After [pmem_init]. *)
Lemma boot_state_pmem hi v v' a t s st :
  boot_state ram hi v a t s -> with_vm (set_mem (a20_mem (mem s)) s) v' st -> boot_state ram hi v' a t st.
Proof.
  intros [[R1 R2 R3] H2 H3 H4 H5 H6] (s1 & -> & Q). apply quiet_devframe in Q as F. split.
  - destruct (df_ready _ _ F) as [S1 S2 S3]; [by split|]. by split.
  - done.
  - simpl. by rewrite (df_proc _ _ F).
  - simpl. by rewrite (df_info _ _ F).
  - simpl. by rewrite (quiet_irq _ _ Q).
  - intros b Hb Hs. simpl. rewrite (df_mem _ _ F); [|done|intros Hv; apply Hs; by left]. simpl.
    unfold scratch in Hs. unfold a20_mem.
    rewrite !mload8_store32_ne; [by apply H6|..]; intros i Hi; rewrite !wrap32_small by lia; lia.
Qed.

(** After [acpi_init]. *)
Lemma boot_state_acpi hi v a a' t s s1 :
  boot_state ram hi v a t s -> quiet s s1 -> boot_state ram hi v a' t (upd_info (fun _ => a') s1).
Proof.
  intros [R H2 H3 H4 H5 H6] Q. apply quiet_devframe in Q as F. split.
  - destruct (df_ready _ _ F R) as [S1 S2 S3]. split; [done..|]. intros l. specialize (S3 l). by destruct l.
  - simpl. by rewrite (df_vm _ _ F).
  - simpl. by rewrite (df_proc _ _ F).
  - done.
  - simpl. by rewrite (quiet_irq _ _ Q).
  - intros b Hb Hs. simpl. rewrite (df_mem _ _ F); [by apply H6|done|intros Hv; apply Hs; by left].
Qed.
Lemma heap_acpi a s s1 l : quiet s s1 -> kmem_inv s l -> kmem_inv (upd_info a s1) l.
Proof. intros Q Hi. exact (heap_devframe _ _ _ (quiet_devframe _ _ Q) Hi). Qed.
End Carried.

(** *** The kernel's directory *)

Section Paged.
Context `{env : Env} (stack : Z * Z).

(** The kernel's directory is in CR3, and lies below 4 MB. *)
Record in_kernel_space (ps : list Z) (s : machine) : Prop := {
  ks_cr3 : cr3 (cpu_regs s) = V2P (kpgdir (vm s));
  ks_dir : kernel_dir stack (vm s) (mem s) ps;
  ks_low b : table_byte (mem s) (kpgdir (vm s)) b -> b < 0x80400000;
}.

Lemma kernel_dir_wf v m ps : kernel_dir stack v m ps -> pgdir_wf m (kpgdir v) [].
Proof. intros K. eapply pgdir_wf_ext; [apply K|done|by intros x ?%not_elem_of_nil]. Qed.

Lemma in_kernel_space_same ps s s' :
  in_kernel_space ps s -> cr3 (cpu_regs s') = cr3 (cpu_regs s) -> vm s' = vm s ->
  same_tables (mem s) (mem s') (kpgdir (vm s)) -> in_kernel_space ps s'.
Proof.
  intros [K1 K2 K3] E1 E2 Hs. split; rewrite ?E1, ?E2; [done|by apply (kernel_dir_same _ _ (mem s))|].
  intros b Hb. apply K3. by apply (same_tables_byte (mem s) (mem s')).
Qed.
Lemma in_kernel_space_devframe ps s s' : devframe s s' -> in_kernel_space ps s -> in_kernel_space ps s'.
Proof.
  intros F K. apply (in_kernel_space_same ps s); [done|apply F|apply F|]. intros b Hb.
  destruct (table_byte_range _ _ _ (kernel_dir_wf _ _ _ (ks_dir _ _ K)) Hb). by apply (df_mem _ _ F).
Qed.

(** The directory and more free pages. *)
Lemma kernel_dir_more v m ps ps' :
  kernel_dir stack v m ps -> (forall p, pd_page m (kpgdir v) p -> p ∈ ps' -> p ∈ ps) -> kernel_dir stack v m ps'.
Proof.
  intros [[W1 W2 W3 W4] K2 K3] Hin. split; [split|done|done]; try done.
  - intros H. by apply W2, Hin; [left|].
  - intros i Hi Hp. destruct (W3 i Hi Hp) as (H1 & H2 & H3 & H4). split_and!; try done. intros H. apply H3, Hin; [|done].
    right. by exists i.
Qed.
Lemma in_kernel_space_heap hi ps ps' s s' :
  in_kernel_space ps s -> heap_frame 0x80400000 hi s s' -> (forall p, p ∈ ps' -> p ∈ ps \/ 0x80400000 <= p) ->
  in_kernel_space ps' s'.
Proof.
  intros K [(m & o & k & E) Hm] Hps.
  assert (in_kernel_space ps' s) as K'.
  { destruct K as [K1 K2 K3]. split; [done| |done]. apply (kernel_dir_more _ _ ps); [done|]. intros p Hp Hp'.
    destruct (Hps p Hp') as [|Hge]; [done|]. specialize (K3 p ltac:(exists p; split; [done|unfold PGSIZE; lia])). lia. }
  apply (in_kernel_space_same _ s); [done|by rewrite (equiv_regs _ _ E)|by rewrite (equiv_vm _ _ E)|]. intros b Hb.
  destruct (table_byte_range _ _ _ (kernel_dir_wf _ _ _ (ks_dir _ _ K)) Hb). pose proof (ks_low _ _ K b Hb).
  apply Hm; [done|done|lia].
Qed.
End Paged.

(** The first process survives what comes after it in [main]. *)
Lemma first_made_devframe `{env : Env} stack prog s s' q :
  first_made stack prog s q -> devframe s s' -> ready s' -> first_made stack prog s' q.
Proof.
  intros [[B1 B2 B3 B4] Hu Hc Hi Hs Hone Hsz Hfit He Hp] F R. pose proof (df_proc _ _ F) as Ep.
  assert (live q) as Hl by by left. pose proof (mo_space _ _ _ _ B2 0 q Hi Hl) as Hsp.
  destruct (mo_half _ _ _ _ B2 (pgdir q)) as [Hwf _]; [by apply (live_root _ _ 0)|].
  assert (same_tables (mem s) (mem s') (pgdir q)) as Hst.
  { intros b Hb. destruct (table_byte_range _ _ _ Hwf Hb). by apply (df_mem _ _ F). }
  split.
  - split; rewrite ?Ep, ?(df_vm _ _ F); [done| |done|right; exact (rd_locks _ R CONS_LOCK)].
    apply (mem_ok_video _ _ (mem s)); [done|apply F].
  - split; [exact (rd_ncli _ R)|exact (rd_locks _ R PTABLE_LOCK)].
  - by rewrite (df_cr3 _ _ F), (df_vm _ _ F).
  - by rewrite Ep.
  - done.
  - rewrite Ep. exact Hone.
  - done.
  - done.
  - rewrite <- He. apply (agree_load32 _ _ (df_mem _ _ F) (kstack q) PGSIZE); [by apply (space_off_video s q)|..];
      rewrite (sp_tf _ _ Hsp); unfold st_eip, PGSIZE; lia.
  - intros j Hj. rewrite <- (Hp j Hj). unfold ubyte. cbn [mem cpu_regs set_cpu_regs cr3 set_cr3].
    rewrite (same_tables_walk (mem s) (mem s') (pgdir q)); [|done|done|unfold PGSIZE in *; lia].
    destruct (sp_mapped _ _ Hsp j) as (pa & w & -> & Hpa & Hv); [lia|]. cbn. f_equal. by apply (df_mem _ _ F).
Qed.

(** ** The machine that boots *)

(** What [main] relies on.  [stack] is the boot stack, [d] the page directory of
    the entry code, [info] the memory map [l] of the loader, of which [e] is the
    first usable area and [a] the first ACPI area: the memory there is, in whole
    pages; the image of the kernel ends below the second word of the A20 test.
    The ACPI tables lie in that memory and give [tbl]; the drive answers within
    [n] status reads. *)
Record bootable `{env : Env} (stack : Z * Z) (d info : Z) (l : list e820_entry) (e a : e820_entry)
    (tbl : acpi_info_t) (n : nat) (ram : gmap Z Z) (regs0 : regs) : Prop := {
  bo_IF : Z.testbit (eflags regs0) 9 = false;
  bo_pmem : pmem_ready d info l (boot_machine ram regs0);
  bo_dir : off_video (d + KERNBASE) 4;
  bo_usable : exists i, least (usable_at l) (Some i) /\ l !! i = Some e;
  bo_acpi : exists j, least (acpi_at l) (Some j) /\ l !! j = Some a;
  bo_layout : vm_layout (mkVm 0 (wrap32 (ent_base e + ent_len e)) (wrap32 (ent_base a)) (wrap32 (ent_len a)));
  bo_ram : 0x800000 <= wrap32 (ent_base e + ent_len e);
  bo_ram_end : ram_end = PGROUNDDOWN (KERNBASE + wrap32 (ent_base e + ent_len e) - 1) + 4096;
  bo_fw_start : fw_start = KERNBASE + wrap32 (ent_base a);
  bo_fw_end : fw_end = PGROUNDDOWN (KERNBASE + wrap32 (ent_base a) + wrap32 (ent_len a) - 1) + 4096;
  bo_image : KERNBASE + 0x100000 <= sym_kmem_freelist < sym_k_end;
  bo_image_end : sym_k_end <= KERNBASE + 0x112345;
  bo_size : 0 <= sym_init_size < PGSIZE;
  bo_start : KERNBASE <= sym_init_start;
  bo_end : sym_init_start + sym_init_size <= sym_k_end;
  bo_program b : sym_init_start <= b < sym_init_start + sym_init_size -> ~ scratch 0x80400000 b;
  bo_stack : stack.2 <= sym_k_end;
  bo_stack_off : off_video stack.1 (stack.2 - stack.1);
  bo_tables m : kept 0x80400000 ram m -> tables_give m zero_acpi_info tbl;
  bo_ioapic : num_ioapic tbl = 1;
  bo_disk : drive_answers n false;
}.

(** The handlers after the first [k] were registered. *)
Definition boot_table (k : nat) : list (option isr_fn) := handlers (take k boot_handlers) (replicate 256 None).

(** A sequence of statements before [k]. *)
Definition then_ (ms : list (K unit)) (k : K unit) : K unit := foldr (fun m k => _ ← m; k) k ms.

(** Running [ms] from [s] sets up devices, up to a state with the handlers [t]. *)
Definition sets_up_all (s0 : machine) (ms : list (K unit)) (s : machine) (t : list (option isr_fn)) : Prop :=
  exists s', set_up s0 t s' /\ forall k, then_ ms k s = k s'.

Lemma sets_up_nil s0 s t : set_up s0 t s -> sets_up_all s0 [] s t.
Proof. intros B. by exists s. Qed.
Lemma sets_up_cons hs m ms s0 s t t' :
  set_up s0 t s -> (ready s -> isr_table (irq s) = t -> sets_up hs m s) ->
  (forall s1, set_up s0 (handlers hs t) s1 -> sets_up_all s0 ms s1 t') -> sets_up_all s0 (m :: ms) s t'.
Proof.
  intros B Hm Hms. destruct (set_up_step hs m s0 t s B Hm) as (s1 & E & B1).
  destruct (Hms s1 B1) as (s' & B' & E'). exists s'. split; [done|]. intros k. simpl. by rewrite (bind_ok _ _ _ _ _ E).
Qed.

Ltac dev B L :=
  let s := fresh "s" in
  eapply sets_up_cons; [exact B|let R := fresh "R" in let I := fresh "I" in intros R I;
    (eapply L); try assumption; try (rewrite I; reflexivity)|clear B; intros s B].

Section Boots.
Context `{env : Env} (stack : Z * Z) (d info : Z) (l : list e820_entry) (e a : e820_entry)
  (tbl : acpi_info_t) (n : nat) (ram : gmap Z Z) (regs0 : regs)
  (Hb : bootable stack d info l e a tbl n ram regs0).

Local Abbreviation v0 := (mkVm 0 (wrap32 (ent_base e + ent_len e)) (wrap32 (ent_base a)) (wrap32 (ent_len a))).
Local Abbreviation hi1 := 0x80400000.

Lemma boot_machine_state :
  boot_state ram hi1 (mkVm 0 0 0 0) zero_acpi_info (boot_table 0) (boot_machine ram regs0).
Proof.
  split; try done. split; [done|exact (bo_IF _ _ _ _ _ _ _ _ _ _ Hb)|]. intros []; by split.
Qed.

Lemma pmem_ready_devframe s :
  devframe (boot_machine ram regs0) s -> ready s -> pmem_ready d info l s.
Proof.
  intros F R. destruct (bo_pmem _ _ _ _ _ _ _ _ _ _ Hb) as [(D1 & D2 & D3) P2 P3 P4 P5 P6 P7].
  pose proof (df_mem _ _ F) as Hm. split; try done.
  - split; [by rewrite (df_cr3 _ _ F)|]. split; [done|]. rewrite <- D3.
    apply (agree_load32 _ _ Hm (d + KERNBASE) 4); [exact (bo_dir _ _ _ _ _ _ _ _ _ _ Hb)|lia|lia].
  - by apply ready_cons.
  - by rewrite (df_vm _ _ F).
  - by apply (map_at_agree _ _ _ _ _ Hm P5).
Qed.

(** Up to the memory map. *)
Lemma boot_console :
  exists s, boot_state ram hi1 v0 zero_acpi_info (boot_table 1) s /\ kheap_end (kmem s) = 0x07fe0000 /\
    forall k, then_ [consoleinit; println "-------->>KERNEL START<<--------";
      print (AS ("FOUDIL WAS HERE" +:+ nl +:+ "(c) 20222-2023" +:+ nl)); gdt_init; pmem_init info] k
      (boot_machine ram regs0) = k s.
Proof.
  pose proof boot_machine_state as S0. pose proof (boot_state_start _ _ _ _ _ _ S0) as B.
  assert (sets_up_all (boot_machine ram regs0) [consoleinit; println "-------->>KERNEL START<<--------";
    print (AS ("FOUDIL WAS HERE" +:+ nl +:+ "(c) 20222-2023" +:+ nl)); gdt_init] (boot_machine ram regs0)
    (boot_table 1)) as (s1 & B1 & E1).
  { dev B consoleinit_sets_up. dev B println_sets_up. dev B sets_up_cprintf; [reflexivity|]. dev B gdt_init_sets_up.
    by apply sets_up_nil. }
  pose proof (boot_state_set_up _ _ _ _ _ _ _ _ S0 B1) as S1. destruct B1 as [F1 R1 _].
  destruct (bo_usable _ _ _ _ _ _ _ _ _ _ Hb) as (i & Hi & He). destruct (bo_acpi _ _ _ _ _ _ _ _ _ _ Hb) as (j & Hj & Ha).
  destruct (pmem_init_finds d info l s1 (pmem_ready_devframe s1 F1 R1) i e j a Hi He Hj Ha) as (s2 & E2 & W).
  rewrite (bs_vm _ _ _ _ _ _ S1) in W. exists s2. split; [by apply (boot_state_pmem _ _ _ _ _ _ _ _ S1)|]. split.
  - destruct W as (s3 & -> & Q). simpl. rewrite (quiet_kheap_end _ _ Q). simpl. by rewrite (df_kheap_end _ _ F1).
  - intros k. transitivity ((_ ← pmem_init info; k) s1); [apply E1|]. by rewrite (bind_ok _ _ _ _ _ E2).
Qed.

(** Up to the heap. *)
Lemma boot_devices :
  exists s, boot_state ram hi1 v0 zero_acpi_info (boot_table 3) s /\ kheap_end (kmem s) = 0x07fe0000 /\
    forall k : K unit, (_ ← consoleinit;
     _ ← println "-------->>KERNEL START<<--------";
     _ ← print (AS ("FOUDIL WAS HERE" +:+ nl +:+ "(c) 20222-2023" +:+ nl));
     _ ← gdt_init;
     _ ← pmem_init info;
     pe ← gets (fun s => phys_end (vm s));
     _ ← cprintf (Some ("Max usable kernel memory address: 0x%p" +:+ nl)) [AW (wrap32 (pe - 1))];
     _ ← idt_init;
     _ ← println "IDT initialized";
     _ ← pic_init;
     _ ← println "PIC initialized";
     _ ← timer_init;
     _ ← println "PIT Timer initialized";
     _ ← kbd_init;
     _ ← println "PS/2 keyboard initialized"; k) (boot_machine ram regs0) = k s.
Proof.
  destruct boot_console as (s1 & S1 & Hend & E1). pose proof (boot_state_start _ _ _ _ _ _ S1) as B.
  assert (sets_up_all s1 (cprintf (Some ("Max usable kernel memory address: 0x%p" +:+ nl))
      [AW (wrap32 (phys_end (vm s1) - 1))] ::
    [idt_init; println "IDT initialized"; pic_init; println "PIC initialized"; timer_init;
     println "PIT Timer initialized"; kbd_init; println "PS/2 keyboard initialized"]) s1 (boot_table 3)) as (s2 & B2 & E2).
  { dev B sets_up_cprintf; [reflexivity|]. dev B idt_init_sets_up. dev B println_sets_up. dev B pic_init_sets_up.
    dev B println_sets_up. dev B timer_init_sets_up. dev B println_sets_up. dev B kbd_init_sets_up.
    dev B println_sets_up. by apply sets_up_nil. }
  exists s2. split; [by apply (boot_state_set_up _ _ _ _ _ _ _ _ S1)|].
  split; [by rewrite (df_kheap_end _ _ (su_frame _ _ _ B2))|]. intros k. unfold then_ in E1, E2. cbn [foldr] in E1, E2.
  rewrite E1, bind_gets. apply E2.
Qed.

Lemma kvm_pages_small v : vm_layout v -> kvm_pages v <= 512.
Proof.
  intros Hv. pose proof (vm_layout_acpi _ Hv). unfold vm_layout, DEVSPACE in Hv. destruct Hv as (L1 & L2 & L3 & L4 & L5).
  unfold kvm_pages, KERNBASE in *. rewrite PGROUNDDOWN_eq in L2 by lia. rewrite !PDX_eq by lia. lia.
Qed.

Local Abbreviation kend := (PGROUNDUP sym_k_end).

Lemma kend_range : sym_k_end <= kend /\ kend <= KERNBASE + 0x113000 /\ kend mod 4096 = 0 /\ PGROUNDUP kend = kend.
Proof.
  pose proof (bo_image _ _ _ _ _ _ _ _ _ _ Hb). pose proof (bo_image_end _ _ _ _ _ _ _ _ _ _ Hb). unfold KERNBASE in *.
  assert (kend = sym_k_end + 4095 - (sym_k_end + 4095) mod 4096) as E by (apply PGROUNDUP_eq; lia).
  split_and!; [lia..|]. rewrite PGROUNDUP_eq; lia.
Qed.

(** The first half of the heap, paging and the ACPI tables. *)
Lemma boot_memory s0 :
  boot_state ram hi1 v0 zero_acpi_info (boot_table 3) s0 -> kheap_end (kmem s0) = 0x07fe0000 ->
  exists s pgdir ps, boot_state ram hi1 (set_kpgdir pgdir v0) tbl (boot_table 4) s /\ in_kernel_space stack ps s /\
    kmem_inv s ps /\ kheap_start (kmem s) = kend /\ Forall (fun x => x < hi1) ps /\
    forall k : K unit, (_ ← kinit1 kend (P2V (4 * 1024 * 1024));
      _ ← paging_init;
      _ ← println "Pagination enabled";
      _ ← acpi_init; k) s0 = k s.
Proof.
  intros S0 Hend. destruct kend_range as (K1 & K2 & K3 & K4). pose proof (bo_image _ _ _ _ _ _ _ _ _ _ Hb) as Him.
  change (P2V (4 * 1024 * 1024)) with hi1. set (ps := rev (page_range kend (npages kend hi1))).
  destruct (kinit1_ok s0 kend hi1) as (s1 & E1 & _ & _ & He1 & Hs1 & Hl1 & Hi1 & F1);
    [apply ready_irq_ok, S0|unfold KMEM_SENTINEL; lia|unfold KERNBASE in *; lia|lia|apply ram_end_range|rewrite Hend; discriminate|].
  rewrite K4 in Hi1, F1. fold ps in Hi1.
  pose proof (boot_state_heap ram kend hi1 _ _ _ _ _ S0 F1 ltac:(lia) Hl1) as S1.
  assert (forall p, p ∈ ps -> kend <= p /\ p + PGSIZE <= hi1) as Hps.
  { intros p Hp. subst ps. rewrite list_elem_of_In, <- in_rev, <- list_elem_of_In in Hp.
    apply elem_of_page_range in Hp as (i & -> & Hi). apply npages_lt in Hi; rewrite K4 in *; unfold PGSIZE, KERNBASE in *; lia. }
  assert (kvm_pages (vm s1) <= Z.of_nat (length ps)) as Hlen.
  { rewrite (bs_vm _ _ _ _ _ _ S1). etrans; [apply kvm_pages_small, Hb|]. subst ps. rewrite length_rev. unfold page_range, npages.
    rewrite length_fmap, length_seq, K4. unfold PGSIZE, KERNBASE in *. lia. }
  destruct (paging_init_run s1 ps) as (s2 & pgdir & ps' & E2 & A2 & M2 & [_ P2] & Hsuf & W2 & Hused & Hwalk);
    [by split; [apply ready_kmem, S1|]|rewrite (bs_vm _ _ _ _ _ _ S1); apply Hb|done|rewrite (bs_isr _ _ _ _ _ _ S1); reflexivity|].
  pose proof (boot_state_paged ram hi1 _ _ _ pgdir s1 s2 ps S1 A2 M2 Hps) as S2.
  destruct (println_sets_up "Pagination enabled" (paged pgdir s2)) as (s3 & E3 & F3 & I3); [apply S2|].
  assert (boot_state ram hi1 (set_kpgdir pgdir v0) zero_acpi_info (boot_table 4) s3) as S3.
  { eapply boot_state_set_up; [exact S2|]. split; [done|by apply F3, S2|by rewrite I3, (bs_isr _ _ _ _ _ _ S2)]. }
  destruct (acpi_init_tables s3 tbl) as (s4 & E4 & Q4); [apply ready_cons, S3| |].
  { rewrite (bs_info _ _ _ _ _ _ S3). apply (bo_tables _ _ _ _ _ _ _ _ _ _ Hb), S3. }
  assert (in_kernel_space stack ps' (paged pgdir s2)) as KS2.
  { assert (forall b, table_byte (mem s2) pgdir b -> kend <= b < hi1) as Hbytes
      by (intros b (p & Hp%Hused & Hbp); destruct (Hps p Hp); lia).
    pose proof (bo_stack _ _ _ _ _ _ _ _ _ _ Hb). split; [done|split|].
    - exact W2.
    - intros va Hva. rewrite (bs_vm _ _ _ _ _ _ S2). cbn. rewrite Hwalk by done. by rewrite (bs_vm _ _ _ _ _ _ S1).
    - intros b Hbt. destruct (Hbytes b Hbt). lia.
    - intros b Hbt. by destruct (Hbytes b Hbt). }
  exists (upd_info (fun _ => tbl) s4), pgdir, ps'.
  split; [by apply (boot_state_acpi _ _ _ _ _ _ _ _ S3)|]. split.
  { destruct (in_kernel_space_devframe stack ps' (paged pgdir s2) s4) as [D1 D2 D3]; [|done|by split].
    etrans; [exact F3|by apply quiet_devframe]. }
  split; [apply (heap_acpi _ s3); [done|]; by apply (heap_devframe (paged pgdir s2))|]. split_and!.
  - cbn. rewrite (quiet_kheap_start _ _ Q4), (df_kheap_start _ _ F3). destruct A2 as (m & h & A2).
    cbn. by rewrite (equiv_kheap_start _ _ A2).
  - apply Forall_forall. intros x Hx. destruct Hsuf as [l0 ->]. destruct (Hps x); [apply elem_of_app; by right|].
    unfold PGSIZE in *. lia.
  - intros k. rewrite (bind_ok _ _ _ _ _ E1), (bind_ok _ _ _ _ _ E2), (bind_ok _ _ _ _ _ E3), (bind_ok _ _ _ _ _ E4). done.
Qed.

(** Up to the first process. *)
Lemma boot_tables s0 pgdir ps :
  boot_state ram hi1 (set_kpgdir pgdir v0) tbl (boot_table 4) s0 -> in_kernel_space stack ps s0 -> kmem_inv s0 ps ->
  kheap_start (kmem s0) = kend -> Forall (fun x => x < hi1) ps ->
  exists s k0 ps', boot_state ram (KERNBASE + phys_end v0) (set_kpgdir pgdir v0) tbl (boot_table 6) s /\
    in_kernel_space stack (k0 :: ps') s /\ kmem_inv s (k0 :: ps') /\ 1000 <= Z.of_nat (length ps') /\ kheap_start (kmem s) = kend /\
    forall k : K unit, (_ ← ioapicinit;
      _ ← uartinit;
      _ ← println "UART COM1 serial port enabled";
      pe ← gets (fun s => phys_end (vm s));
      _ ← kinit2 (P2V (4 * 1024 * 1024)) (P2V pe);
      _ ← println "Kernel heap allocator initialized";
      _ ← cpu_init;
      _ ← println "CPU state initialized";
      _ ← process_init;
      _ ← println "Process table ready"; k) s0 = k s.
Proof.
  intros S0 KS0 Hi0 Hks Hlt. destruct kend_range as (K1 & K2 & K3 & K4).
  pose proof (bo_layout _ _ _ _ _ _ _ _ _ _ Hb) as Hlay. pose proof (bo_ram _ _ _ _ _ _ _ _ _ _ Hb) as Hram.
  assert (0x800000 <= phys_end v0 <= 0x7e000000) as Hpe by (destruct Hlay as (L1 & _); unfold DEVSPACE, KERNBASE in L1; simpl in *; lia).
  set (pe := phys_end v0) in *. assert (info_wf tbl /\ acpi_ioapic tbl <> []) as [Hwf Hne].
  { destruct (bo_tables _ _ _ _ _ _ _ _ _ _ Hb ram) as (ds & _ & Ha); [done|].
    assert (info_wf tbl) as Hw by (eapply enlist_all_wf; [|exact Ha]; repeat split; done). split; [done|].
    destruct Hw as (_ & _ & Hl & _). by destruct (acpi_ioapic tbl). }
  pose proof (boot_state_start _ _ _ _ _ _ S0) as B. pose proof (bs_info _ _ _ _ _ _ S0) as Hinfo.
  assert (sets_up_all s0 [ioapicinit; uartinit; println "UART COM1 serial port enabled"] s0 (boot_table 5)) as (s1 & B1 & E1).
  { dev B ioapicinit_sets_up; [by rewrite Hinfo; apply Hb|by rewrite Hinfo|]. dev B uartinit_sets_up.
    dev B println_sets_up. by apply sets_up_nil. }
  pose proof (boot_state_set_up _ _ _ _ _ _ _ _ S0 B1) as S1. destruct B1 as [F1 R1 I1].
  assert (P2V pe = KERNBASE + pe) as Epe by (apply P2V_base; lia).
  destruct (kinit2_ok s1 hi1 (KERNBASE + pe) ps) as (s2 & E2 & _ & _ & Hi2 & _ & _ & Hs2 & Hl2 & F2);
    [by apply ready_kmem|apply R1|by apply ready_cons|by apply (heap_devframe s0)|rewrite (df_kheap_start _ _ F1), Hks; unfold KERNBASE in *; lia|
     change (PGROUNDUP hi1) with hi1; unfold KERNBASE; lia|unfold KERNBASE; lia| |done|].
  { rewrite (bo_ram_end _ _ _ _ _ _ _ _ _ _ Hb). change (wrap32 (ent_base e + ent_len e)) with pe.
    unfold KERNBASE. rewrite PGROUNDDOWN_eq by lia. lia. }
  change (PGROUNDUP hi1) with hi1 in *.
  assert (boot_state ram (KERNBASE + pe) (set_kpgdir pgdir v0) tbl (boot_table 5) s2) as S2.
  { apply (boot_state_heap ram hi1 _ _ _ _ s1); [|done|unfold KERNBASE in *; lia|done].
    eapply boot_state_mono; [exact S1|unfold KERNBASE; lia]. }
  pose proof (boot_state_start _ _ _ _ _ _ S2) as B2. pose proof (bs_info _ _ _ _ _ _ S2) as Hinfo2.
  assert (sets_up_all s2 [println "Kernel heap allocator initialized"; cpu_init; println "CPU state initialized";
    process_init; println "Process table ready"] s2 (boot_table 6)) as (s3 & B3 & E3).
  { dev B2 println_sets_up. dev B2 cpu_init_sets_up; [by rewrite (df_info _ _ (su_frame _ _ _ B2)), Hinfo2|].
    dev B2 println_sets_up. dev B2 process_init_sets_up. dev B2 println_sets_up. by apply sets_up_nil. }
  set (ps2 := rev (page_range hi1 (npages hi1 (KERNBASE + pe))) ++ ps) in *.
  assert (1024 <= Z.of_nat (length ps2)) as Hlen.
  { subst ps2. rewrite length_app, length_rev. unfold page_range, npages. rewrite length_fmap, length_seq.
    change (PGROUNDUP hi1) with hi1. unfold PGSIZE, KERNBASE. lia. }
  assert (in_kernel_space stack ps2 s3) as KS3.
  { apply (in_kernel_space_devframe stack ps2 s2); [apply B3|].
    apply (in_kernel_space_heap stack (KERNBASE + pe) ps _ s1); [by apply (in_kernel_space_devframe stack ps s0)|done|].
    intros p [Hp|Hp]%elem_of_app; [right|by left]. rewrite list_elem_of_In, <- in_rev, <- list_elem_of_In in Hp.
    apply elem_of_page_range in Hp as (i & -> & _). unfold PGSIZE. lia. }
  destruct ps2 as [|k0 ps'] eqn:Eps; [simpl in Hlen; lia|].
  exists s3, k0, ps'. split; [by apply (boot_state_set_up _ _ _ _ _ _ _ _ S2)|]. split; [done|].
  split; [by apply (heap_devframe s2); [apply B3|]|]. split; [simpl in Hlen; lia|].
  split; [by rewrite (df_kheap_start _ _ (su_frame _ _ _ B3)), Hs2, (df_kheap_start _ _ F1)|].
  intros k. unfold then_ in E1, E3. cbn [foldr] in E1, E3. rewrite E1, bind_gets, (bs_vm _ _ _ _ _ _ S1).
  change (P2V (4 * 1024 * 1024)) with hi1. change (phys_end (set_kpgdir pgdir v0)) with pe. rewrite Epe.
  rewrite (bind_ok _ _ _ _ _ E2). apply E3.
Qed.

(** The directories map the memory there is. *)
Lemma boot_memory_mapped pgdir : memory_mapped (set_kpgdir pgdir v0).
Proof.
  intros va Hva. pose proof (bo_layout _ _ _ _ _ _ _ _ _ _ Hb) as Hlay. destruct Hlay as (L1 & L2 & L3 & L4 & L5).
  unfold kernel_va, kmapped. rewrite (bo_ram_end _ _ _ _ _ _ _ _ _ _ Hb), (bo_fw_start _ _ _ _ _ _ _ _ _ _ Hb),
    (bo_fw_end _ _ _ _ _ _ _ _ _ _ Hb). cbn [phys_end acpi acpi_len set_kpgdir] in *.
  set (re := PGROUNDDOWN (KERNBASE + wrap32 (ent_base e + ent_len e) - 1) + 4096) in *.
  set (fs := KERNBASE + wrap32 (ent_base a)) in *. set (fe := PGROUNDDOWN (fs + wrap32 (ent_len a) - 1) + 4096) in *.
  destruct (Z.ltb_spec va re), (Z.leb_spec fs va), (Z.ltb_spec va fe); cbn [orb andb];
    try intros Hd; repeat case_decide; done || lia.
Qed.

Lemma boot_first_ready s pgdir k0 ps :
  boot_state ram (KERNBASE + phys_end v0) (set_kpgdir pgdir v0) tbl (boot_table 6) s -> in_kernel_space stack (k0 :: ps) s ->
  kmem_inv s (k0 :: ps) -> 1000 <= Z.of_nat (length ps) -> kheap_start (kmem s) = kend ->
  first_ready stack k0 ps s.
Proof.
  intros S KS Hi Hlen Hks. destruct kend_range as (K1 & _).
  assert (forall p, p ∈ k0 :: ps -> kend <= p) as Hlow.
  { intros p Hp. destruct Hi as (_ & _ & Hall & _). eapply Forall_forall in Hall; [|exact Hp].
    destruct Hall as (_ & [Hx _] & _). by rewrite Hks in Hx. }
  pose proof (bo_layout _ _ _ _ _ _ _ _ _ _ Hb) as Hlay. pose proof (bo_end _ _ _ _ _ _ _ _ _ _ Hb).
  pose proof (bo_stack _ _ _ _ _ _ _ _ _ _ Hb). pose proof (bs_ready _ _ _ _ _ _ S) as R.
  pose proof (bs_vm _ _ _ _ _ _ S) as Ev. split.
  - by apply ready_kernel.
  - apply R.
  - apply R.
  - apply KS.
  - split; [by apply ready_kmem|done].
  - apply S.
  - by rewrite Ev.
  - rewrite Ev. apply boot_memory_mapped.
  - rewrite Ev. pose proof (kvm_pages_small (set_kpgdir pgdir v0) Hlay). lia.
  - apply Hb.
  - apply Hb.
  - intros p Hp. specialize (Hlow p Hp). lia.
  - apply KS.
  - intros p b Hp Hb'. specialize (Hlow p ltac:(by apply list_elem_of_further)). lia.
Qed.

Lemma boot_program s hi v t i j :
  boot_state ram hi v i t s -> 0 <= j < sym_init_size ->
  mload8 (mem s) (sym_init_start + j) = mload8 ram (sym_init_start + j).
Proof.
  intros S Hj. pose proof (bo_start _ _ _ _ _ _ _ _ _ _ Hb). pose proof (bo_end _ _ _ _ _ _ _ _ _ _ Hb).
  destruct kend_range as (K1 & K2 & _). pose proof (bo_program _ _ _ _ _ _ _ _ _ _ Hb (sym_init_start + j) ltac:(lia)) as Hn.
  apply (bs_mem _ _ _ _ _ _ S); [unfold KERNBASE in *; lia|]. intros Hs. apply Hn.
  unfold scratch in *. destruct Hs as [|[|[|]]]; [tauto..|]. lia.
Qed.

(** The first process, the disk, the scheduler. *)
Lemma boot_process fuel s pgdir k0 ps :
  boot_state ram (KERNBASE + phys_end v0) (set_kpgdir pgdir v0) tbl (boot_table 6) s -> in_kernel_space stack (k0 :: ps) s ->
  kmem_inv s (k0 :: ps) -> 1000 <= Z.of_nat (length ps) -> kheap_start (kmem s) = kend -> (n < fuel)%nat ->
  exists s1 q, (_ ← initproc_init;
      _ ← println "Init process created";
      _ ← ide_init fuel;
      _ ← println "IDE disk initialized";
      scheduler_start) s = (Ok tt, started s1) /\
    first_made stack (fun j => mload8 (mem s) (sym_init_start + j)) s1 q /\ IF s1 = false /\
    isr_table (irq s1) = system_table.
Proof.
  intros S KS Hi Hlen Hks Hf. pose proof (boot_first_ready s pgdir k0 ps S KS Hi Hlen Hks) as Hr.
  destruct (first_process_made stack s k0 ps Hr) as (s1 & q & E1 & F1 & M1).
  assert (set_up s1 (boot_table 6) s1) as B.
  { destruct (bs_ready _ _ _ _ _ _ S) as [R1 R2 R3]. split; [done| |by rewrite (kframe_irq _ _ F1); apply S].
    split; [by rewrite (kframe_ncli _ _ F1)|by unfold IF; rewrite (kframe_regs _ _ F1)|].
    intros l'. by apply (kframe_lock_free s). }
  assert (sets_up_all s1 [println "Init process created"; ide_init fuel; println "IDE disk initialized"] s1
    (boot_table 7)) as (s2 & B2 & E2).
  { dev B println_sets_up. dev B ide_init_sets_up; [exact (bo_disk _ _ _ _ _ _ _ _ _ _ Hb)|done|].
    dev B println_sets_up. by apply sets_up_nil. }
  destruct B2 as [F2 R2 I2]. exists s2, q.
  assert (first_made stack (fun j => mload8 (mem s) (sym_init_start + j)) s2 q) as M2
    by by apply (first_made_devframe _ _ s1).
  split; [|split_and!; [done|apply R2|done]].
  rewrite (bind_ok _ _ _ _ _ E1). unfold then_ in E2. cbn [foldr] in E2. rewrite E2.
  apply (first_process_starts _ _ _ _ M2); [done|apply R2].
Qed.

(** [main], and the state it ends in. *)
Lemma boots fuel :
  (n < fuel)%nat ->
  exists s1 q, main fuel info (boot_machine ram regs0) = (Ok tt, s1) /\ inv stack Top s1 /\
    proc (ptable s1) !! 0%nat = Some q /\ p_state q = RUNNABLE /\ sz q = PGSIZE /\ mload32 (mem s1) (tf q + st_eip) = 0 /\
    (forall j, 0 <= j < sym_init_size ->
       ubyte (set_cpu_regs (set_cr3 (V2P (pgdir q)) (cpu_regs s1)) s1) j = Some (mload8 ram (sym_init_start + j))) /\
    (exists s2, rtc kstep (Top, s1) (User 0, s2) /\ running_in s2 0).
Proof.
  intros Hf. destruct boot_devices as (sa & Sa & Hend & Ea).
  destruct (boot_memory sa Sa Hend) as (sb & pgdir & ps & Sb & KSb & Hib & Hks & Hlt & Eb).
  destruct (boot_tables sb pgdir ps Sb KSb Hib Hks Hlt) as (sc & k0 & ps' & Sc & KSc & Hic & Hlen & Hksc & Ec).
  destruct (boot_process fuel sc pgdir k0 ps' Sc KSc Hic Hlen Hksc Hf) as (sd & q & Ed & M & HI & Isr).
  pose proof (first_made_inv _ _ _ _ M Isr) as Hinv.
  destruct (first_process_starts _ _ _ _ M Isr HI) as (_ & R2). destruct M as [_ _ _ Mp Ms _ Msz _ Me Mprog].
  exists (started sd), q. split_and!; try done.
  - unfold main. rewrite Ea, Eb, Ec. exact Ed.
  - intros j Hj. rewrite <- (boot_program _ _ _ _ _ j Sc Hj). by apply Mprog.
Qed.


End Boots.

(** *** Witness *)

(** A machine with 128 MB: the loader's page directory and memory map, a root
    pointer in the BIOS ROM, the tables at the start of the ACPI area, and the
    first bytes of a program; the drive is the one of [Ide.disk_env]. *)
Definition boot_rsdp : list Z := bytes_of RSDP_SIGNATURE ++ [0xdc; 0; 0; 0; 0; 0; 0; 0] ++ le32 0x7fe0000.
Definition boot_rsdt : list Z := bytes_of "RSDT" ++ le32 40 ++ replicate 28 0 ++ le32 0x7fe0100.
Definition boot_madt : list Z :=
  bytes_of MADT_SIGNATURE ++ le32 74 ++ replicate 28 0 ++ le32 0xfee00000 ++ le32 0 ++ table_bytes demo_descs ++ replicate 2 0.
Definition boot_ram : gmap Z Z :=
  put_bytes 0x800e0010 boot_rsdp (put_bytes 0x87fe0000 boot_rsdt (put_bytes 0x87fe0100 boot_madt
    (put_bytes 0x80107100 [0xb8; 0x01; 0; 0; 0; 0xcd; 0x40]
      (put_bytes 0x8000a000 (encode_map demo_map) (put_bytes 0x80109000 (le32 0x83) ∅))))).
Definition boot_regs : regs := mkRegs 2 0 0x109000 0 (0, 0) (0, 0).
Definition boot_stack : Z * Z := (0x80105000, 0x80106000).
Definition boot_info : acpi_info_t := default zero_acpi_info (enlist_all demo_descs zero_acpi_info).

Section Demo.
Context (m : gmap Z Z) (Hm : kept (env:=disk_env) 0x80400000 boot_ram m).

(** Bytes below the kernel's image, the screen aside, and above 4 MB. *)
Lemma demo_kept b :
  KERNBASE <= b < 0x80012345 \/ 0x800d8000 <= b < 0x8010c000 \/ 0x80400000 <= b < 4294967296 ->
  mload8 m b = mload8 boot_ram b.
Proof.
  intros Hb. apply Hm; [unfold KERNBASE in *; lia|]. unfold scratch, in_video, KERNBASE in *.
  change vidmem with 0x800b8000. change (PGROUNDUP (sym_k_end (Env:=disk_env))) with 0x8010c000. lia.
Qed.
Lemma demo_kept_signed p l :
  0x800d8000 <= p /\ p + Z.of_nat (length l) <= 0x8010c000 \/
    0x80400000 <= p /\ p + Z.of_nat (length l) <= 4294967296 ->
  signed_atb boot_ram p l = true -> signed_at m p l.
Proof.
  intros Hp Hs%signed_atb_ok i c Hi. rewrite demo_kept; [by apply Hs|]. apply lookup_lt_Some in Hi. lia.
Qed.

Lemma demo_rsdp : signed_at m 0x800e0010 boot_rsdp.
Proof. apply demo_kept_signed; [left; split; discriminate|vm_compute; reflexivity]. Qed.
Lemma demo_rsdt : signed_at m 0x87fe0000 boot_rsdt.
Proof. apply demo_kept_signed; [right; split; discriminate|vm_compute; reflexivity]. Qed.
Lemma demo_madt : signed_at m 0x87fe0100 boot_madt.
Proof. apply demo_kept_signed; [right; split; discriminate|vm_compute; reflexivity]. Qed.

Lemma boot_rsdp_at : rsdp_at m 0x800e0010.
Proof.
  right. assert (ebda m = 0) as ->.
  { unfold ebda. rewrite !demo_kept by (unfold KERNBASE; lia). vm_compute. reflexivity. }
  assert (forall p, mload8 boot_ram p <> 82 -> KERNBASE <= p < 0x80012345 \/ 0x800d8000 <= p < 0x8010c000 ->
    ~ signed_at m p (bytes_of RSDP_SIGNATURE)) as Hno.
  { intros p Hp Hr Hs. specialize (Hs 0%nat 82 eq_refl). rewrite Z.add_0_r, demo_kept in Hs by tauto. done. }
  split.
  - intros k Hk Hlt. apply Hno; [|unfold KERNBASE; lia].
    assert (forallb (fun k => negb (mload8 boot_ram (KERNBASE + 0 + 16 * k) =? 82)) (seqZ 0 64) = true) as Hf
      by (vm_compute; reflexivity).
    rewrite forallb_forall in Hf. specialize (Hf k). apply Z.eqb_neq, negb_true_iff, Hf.
    apply list_elem_of_In, elem_of_seqZ. lia.
  - exists 1. split; [lia|]. split; [lia|]. split; [reflexivity|]. split.
    + pose proof demo_rsdp as Hs. apply signed_at_app in Hs as [Hs _]. exact Hs.
    + intros j Hj. replace j with 0 by lia. apply Hno; [vm_compute; discriminate|unfold KERNBASE; lia].
Qed.

(** Memory of the ACPI area. *)
Lemma acpi_area a k : 0x87fe0000 <= a -> a + k <= 0x88000000 -> off_video (env:=disk_env) a k.
Proof.
  intros H1 H2. split; [|right; change vidmem with 0x800b8000; lia]. unfold kspace, KERNBASE.
  change (fw_start (Env:=disk_env)) with 0x87fe0000. change (fw_end (Env:=disk_env)) with 0x88000000. lia.
Qed.

Lemma boot_tables_give : tables_give (env:=disk_env) m zero_acpi_info boot_info.
Proof.
  exists demo_descs. split; [|vm_compute; reflexivity].
  pose proof demo_rsdp as Hr. pose proof demo_rsdt as Ht. pose proof demo_madt as Hd.
  exists 0x800e0010, [(0x7fe0100, demo_descs)]. split; [exact boot_rsdp_at|]. split.
  { assert (byte_sum m 0x800e0010 20 = byte_sum boot_ram 0x800e0010 20) as ->; [|vm_compute; reflexivity].
    unfold byte_sum. f_equal. apply map_ext_in. intros i Hi%list_elem_of_In%elem_of_seqZ. apply demo_kept. lia. }
  cbv zeta. assert (mload8 m (0x800e0010 + rsdp_revision) = 0) as -> by (exact (Hr 15%nat 0 eq_refl)).
  change (if 0 =? 0 then rsdp_rsdt else rsdp_xsdt) with 16.
  assert (mload32 m (0x800e0010 + 16) = 0x7fe0000) as ->.
  { apply signed_at_le32; [lia|]. by apply (signed_at_app m 0x800e0010 (take 16 boot_rsdp)) in Hr as [_ Hr]. }
  split; [lia|]. split; [|reflexivity]. split_and!.
  - apply acpi_area; discriminate.
  - change (36 + _) with 40. apply signed_at_le32; [lia|]. apply (signed_at_app m _ (take 4 boot_rsdt)) in Ht as [_ Ht].
    by apply (signed_at_app m _ (le32 40)) in Ht as [Ht _].
  - intros [|[|i]] t ds Hi; [|discriminate Hi..]. injection Hi as <- <-. split; [lia|]. split.
    + apply signed_at_le32; [lia|]. by apply (signed_at_app m _ (take 36 boot_rsdt)) in Ht as [_ Ht].
    + split; [apply acpi_area; discriminate|]. right.
      apply (signed_at_app m _ (take 4 boot_madt)) in Hd as [H1 H2]. split; [exact H1|].
      apply (signed_at_app m _ (le32 74)) in H2 as [H2 H3].
      apply (signed_at_app m _ (take 36 (drop 8 boot_madt))) in H3 as [_ H3].
      apply (signed_at_app m _ (table_bytes demo_descs)) in H3 as [H3 H4]. cbv zeta. split_and!.
      * apply signed_at_le32; [vm_compute; split; done|exact H2].
      * repeat constructor; lia.
      * apply acpi_area; discriminate.
      * vm_compute. reflexivity.
      * exact H3.
      * exact (H4 1%nat 0 eq_refl).
Qed.
End Demo.

Lemma boot_ram_bootable :
  bootable (env:=disk_env) boot_stack 0x109000 0x8000a000 demo_map (mkE820 0x100000 0x7ee0000 1)
    (mkE820 0x7fe0000 0x20000 2) boot_info 0 boot_ram boot_regs.
Proof.
  split.
  - reflexivity.
  - split.
    + split_and!; vm_compute; done.
    + split; [right|left]; discriminate.
    + split; [split; vm_compute; done|left; reflexivity].
    + reflexivity.
    + split; [apply kspace_low; vm_compute; discriminate|]. left. vm_compute. discriminate.
    + intros a [->| ->]; left; discriminate.
    + split; [vm_compute; reflexivity|]. intros i e Hi.
      do 6 (destruct i as [|i]; [injection Hi as <-; split_and!; vm_compute; reflexivity|]). discriminate Hi.
  - split; [apply kspace_low; discriminate|]. right. discriminate.
  - exists 3%nat. split; [exact demo_map_usable|reflexivity].
  - exists 4%nat. split; [exact demo_map_acpi|reflexivity].
  - split_and!; try (vm_compute; (reflexivity || discriminate)).
  - vm_compute. discriminate.
  - vm_compute. reflexivity.
  - vm_compute. reflexivity.
  - vm_compute. reflexivity.
  - split; [discriminate|reflexivity].
  - discriminate.
  - split; [discriminate|reflexivity].
  - discriminate.
  - discriminate.
  - intros b Hb. simpl in Hb. unfold scratch, in_video. change vidmem with 0x800b8000.
    change (PGROUNDUP (sym_k_end (Env:=disk_env))) with 0x8010c000. lia.
  - discriminate.
  - split; [apply kspace_low; discriminate|]. right. discriminate.
  - exact boot_tables_give.
  - vm_compute. reflexivity.
  - exact disk_env_answers.
Qed.


(** *** Runs of that machine *)

(** The state [main] ends in: the first process is RUNNABLE, and the kernel's
    own steps bring it into user mode. *)
Lemma boot_runs :
  exists s q s2, inv (env:=disk_env) boot_stack Top s /\ proc (ptable s) !! 0%nat = Some q /\ p_state q = RUNNABLE /\
    sz q = PGSIZE /\ rtc (kstep (env:=disk_env)) (Top, s) (User 0, s2).
Proof.
  destruct (boots (env:=disk_env) boot_stack 0x109000 0x8000a000 demo_map (mkE820 0x100000 0x7ee0000 1)
    (mkE820 0x7fe0000 0x20000 2) boot_info 0 boot_ram boot_regs boot_ram_bootable 1 ltac:(lia))
    as (s & q & _ & Hi & Hq & Hs & Hsz & _ & _ & s2 & R & _). by exists s, q, s2.
Qed.
Lemma boot_stack_off : off_video (env:=disk_env) boot_stack.1 (boot_stack.2 - boot_stack.1).
Proof. exact (bo_stack_off _ _ _ _ _ _ _ _ _ _ boot_ram_bootable). Qed.

(** The first process comes to run, and exits. *)
Lemma boot_exits :
  exists s q s2 q2, inv (env:=disk_env) boot_stack Top s /\ reachable (env:=disk_env) boot_stack (Top, s) (Back 0, s2) /\
    proc (ptable s) !! 0%nat = Some q /\ p_state q = RUNNABLE /\ proc (ptable s2) !! 0%nat = Some q2 /\ p_state q2 = ZOMBIE.
Proof.
  destruct boot_runs as (s & q & s1 & Hi & Hq & Hs & Hsz & R).
  pose proof (kstep_reachable (env:=disk_env) boot_stack _ _ _ (reachable_refl (env:=disk_env) boot_stack (Top, s)) R) as Hr.
  pose proof (reachable_inv (env:=disk_env) boot_stack boot_stack_off Top s (User 0) s1 Hi Hr) as Hi1.
  destruct (place_process (env:=disk_env) boot_stack (User 0) s1 0 Hi1 eq_refl) as (q1 & Hq1 & _).
  destruct (reachable_table (env:=disk_env) boot_stack boot_stack_off Top s (User 0) s1 Hi Hr) as [_ Ht].
  destruct (Ht 0%nat q q1 Hq Hq1) as (_ & _ & Hsz1).
  destruct (exit_runs (env:=disk_env) boot_stack boot_stack_off 0 s1 q1 Hi1 Hq1) as (s2 & s3 & q3 & S2 & S3 & Hq3 & Hz);
    [rewrite Hsz1, Hsz; unfold PGSIZE; lia|].
  exists s, q, s3, q3. split_and!; try done. do 2 (eapply reachable_step; [|eassumption]). exact Hr.
Qed.


Lemma process_lifecycle_witness :
  exists s q s2 q2, reachable (env:=disk_env) boot_stack (Top, s) (Back 0, s2) /\
    proc (ptable s) !! 0%nat = Some q /\ p_state q = RUNNABLE /\ proc (ptable s2) !! 0%nat = Some q2 /\
    p_state q2 = ZOMBIE /\ rtc advance (p_state q) (p_state q2) /\ pid q2 = pid q.
Proof.
  destruct boot_exits as (s & q & s2 & q2 & Hi & R & Hq & Hs & Hq2 & Hz). exists s, q, s2, q2.
  destruct (process_lifecycle (env:=disk_env) boot_stack boot_stack_off Top s (Back 0) s2 0 q q2 Hi R Hq Hq2) as (Ha & Hp & _).
  split; [exact R|]. split; [exact Hq|]. split; [exact Hs|]. split; [exact Hq2|]. split; [exact Hz|]. split; [exact Ha|exact Hp].
Defined.

Lemma scheduler_dispatches_witness :
  exists s s', rtc (kstep (env:=disk_env)) (Top, s) (User 0, s') /\ running_in s' 0.
Proof.
  destruct boot_runs as (s & q & _ & Hi & Hq & Hs & _).
  destruct (scheduler_dispatches (env:=disk_env) boot_stack s 0 q Hi Hq Hs) as (s' & R & Hr & _).
  - intros j q' Hj. lia.
  - exists s, s'. split; [exact R|exact Hr].
Defined.
